(* ===== verification/_CoqProject ===== *)
-Q . S2P
Prelude.v
GoTime.v
GoStrings.v
GoEncoding.v
GoUtf8.v
GoJson.v
GoFormat.v
GoPath.v
GoDuration.v
GoOs.v
LeaseStore.v
ReplayCache.v
External.v
Fingerprint.v
SessionBinding.v
AuthPipeline.v
Keystore.v
Pending.v
Signing.v
Config.v
Approval.v
ApprovalSys.v
Telegram.v
Devices.v
Csr.v
Http.v
Api.v
Control.v
GoNet.v
Wire.v
Sdk.v
Agent.v
SdkProxy.v
EndToEnd.v
ConfigLoad.v
ControlClient.v
CliClient.v
CliRemote.v
CliCmd.v
GoPrompt.v
Systemd.v
AgentSetup.v
AgentEnroll.v
AgentWizard.v
GoYaml.v
AgentMain.v
ProxyPki.v
ProxySetup.v
Serve.v
Process.v
