(* ===== verification/Prelude.v ===== *)
(** * Luna Z-Trust: a verification of the proxy, the SDK, the agent and the command line

    Luna Z-Trust hands out SSH credentials only after a person approves.  A client (the agent, or a
    program using the SDK) posts a signing request over mutual TLS; the proxy authenticates it, opens
    a transaction, notifies an approver over Telegram or a mobile device, and, once approved, lets the
    same client collect a short-lived certificate or a signature made with a key the proxy hosts.  An
    approval may leave a lease, which answers later requests for the same client, target and keys
    without asking again.  Operators load keys and enrol devices over a Unix control socket or over
    administrator and command line certificates.  Set-up commands make the certificate authority and
    the configuration of a proxy, enrol an agent's host with it and install both as services.  This
    library models the proxy (src/proxy), the SDK (src/sdk), the agent (src/agent), the operator's
    commands (src/proxy/cmd) and set-up, and proves the properties that make them safe to rely on,
    alone and composed, up to the running process.

    ** Files and what they model

    Go and its standard library, as far as the source uses them:
    - [Prelude]: errors and results, the development's tactics, hints and generic lemmas;
    - [GoTime]: 64-bit integers with their wrap-around, instants and durations in nanoseconds;
      [GoDuration]: parsing durations;
    - [GoStrings], [GoEncoding], [GoUtf8], [GoFormat]: strings as bytes, trimming, splitting, decimal
      integers, hex, base64, runes, RFC 3339 and [Duration.String];
    - [GoJson]: JSON values, a printer and a parser with the round trip between them;
    - [GoPath]: clean, join and absolute paths and what they resolve to;
    - [GoOs]: a world of files with modes, standard input and what is behind the network, the monad
      [IO] of fallible steps on it, and [writeFileAtomic];
    - [GoNet]: host and port, URLs, TLS settings, HTTP requests and answers, a network as an argument;
    - [GoPrompt]: reading lines and the question loops both wizards share;
    - [GoYaml]: the files of settings that set-up writes, and what reading them gives.

    Interfaces of code outside the repository ([External], and the classes of [Signing], [Csr], [Http],
    [Control], [GoNet], [ConfigLoad], [CliClient], [CliCmd], [AgentSetup], [GoYaml], [ProxyPki] and
    [ProxySetup]): hashes, TLS exporters, SSH keys and signatures, X.509 and its issuing, PEM,
    ed25519, RSA, URLs, YAML, viper and printable runes are type classes, and the operating system's
    accounts and commands a record ([Systemd.Sys]); a separate class of laws states what the
    documentation promises, and a [Demo] module instantiates every class with small functions, so that
    every law can hold and every statement runs.

    Components of the proxy, each with its state as a record and one definition per operation:
    - [LeaseStore], module [Lease] (internal/lease): leases, indexed by lookup key;
    - [ReplayCache], module [Replay] (auth/replay.go): the linked list and map of body hashes;
    - [Fingerprint] (keystore/fingerprint.go, cli/fingerprint.go, agent/fingerprint.go);
    - [SessionBinding], module [Bind] (auth/session_binding.go): hosted-key sign data;
    - [AuthPipeline], module [Auth] (auth/hmac.go, meta.go, pop.go, pipeline.go, sdk/pop.go);
    - [Keystore], module [Ks] (keystore/keystore.go, pool.go, resolve.go, mlock_linux.go): sealed and
      unsealed keys, the lockout after failed passphrases;
    - [Pending], module [Pend] (keystore/pending.go): uploads that wait for an operator, with the byte
      buffers in an explicit heap because the code shares them;
    - [Signing], module [Sign] (internal/signing): the certificate issuer as a class with its law, the
      local CA as its instance, hosted keys;
    - [Config], module [Cfg] (config/config.go); [ConfigLoad], modules [Load] and [AgentLoad]
      (config/load.go, certs.go, mtls.go, paths.go; agent/config_load.go, config_defaults.go,
      config_paths.go, socket.go, debug.go): from files and environment to checked settings;
    - [Approval], module [Appr] (approval/store.go): transactions, result channels, waiters, outcomes;
      a method that holds the mutex is one function, and the methods that release it in between
      ([approveWithIssuer], [Wait]) are cut into their atomic phases;
    - [ApprovalSys], module [Sys]: the concurrent system, a step relation that interleaves the phases
      of any number of approvers and waiters with denials, timeouts, the lease sweeper, new requests
      and keystore changes;
    - [Telegram], module [Tg] (approval/callback.go, telegram.go, poller.go);
    - [Devices], modules [Mob], [Cli], [Rate] (internal/mobile, cli/store.go, validate.go,
      ratelimit.go): registries and the sliding-window limiter with its in-place compaction;
    - [Csr], modules [Role], [Csr] (cli/csr.go, api/auth_cli.go, api/admin_handler.go): client
      certificates and the roles they carry;
    - [Http] and [Api] (internal/api): requests, responses, middleware, every handler as a function of
      the server's services, and [Api.serve], which routes like [NewServer];
    - [Control], module [Ctl] (internal/control): peer credentials, dispatch, every operation.

    The other ends, and the composition:
    - [Wire]: the JSON bytes of the proxy's routes; [Sdk] (src/sdk): clients over any network;
      [SdkProxy] and [EndToEnd]: the SDK over a network whose other end is [Api.serve];
    - [Agent] (src/agent): identities, locking, session binding and both signing modes;
    - [ControlClient], module [CtlWire] (control/client, control/server.go): lines and JSON both ways;
    - [CliClient], module [HttpClient] (cli/httpclient); [CliRemote]: it over the modelled proxy;
    - [CliCmd] (cmd/luna-proxy): every operator command, profiles and output;
    - [Serve] (cmd/luna-proxy/serve.go, api/server.go, control/server.go): [runServe], from the
      configuration to the services, the TLS settings, both listeners and the poller;
    - [Process], module [Proc]: the running proxy, a step relation over the services that [runServe]
      made, whose steps are requests, both halves of a wait, polls, notifications, timers, sweeps and
      control connections, with an executable [perform];
    - [AgentMain] (cmd/luna-agent/root.go): [runAgent], up to the loop whose connections [Agent.step]
      describes.

    Set-up and installation:
    - [Systemd], modules [AgentInstall], [ProxyInstall] (both internal/install): units, service
      accounts, directories and the permissions of certificate files;
    - [ProxyPki], module [Pki] (proxy/internal/setup: mtls.go, admin_client.go): the certificate
      authority and the certificates it signs at set-up;
    - [ProxySetup] (proxy/internal/setup: options.go, proxy_config.go, run.go, interactive.go;
      cmd/luna-proxy: setup.go, install.go): options, [proxy.yml], the run, the wizard, the commands;
    - [AgentSetup] (agent/internal/setup: setup.go, bootstrap.go, client.go, config.go, paths.go,
      enroll_prompt.go): collecting, generating, fetching and enrolling TLS files; [AgentEnroll]: an
      enrollment answered by the modelled proxy;
    - [AgentWizard] (agent/internal/setup/interactive.go; cmd/luna-agent: setup.go, install.go).

    ** Conventions

    A Go [int] or [int64] is a [Z] whose wrap-around is written where it can matter.  Each reading of
    the clock, each fresh identifier, each answer of the network or the file system is an argument of
    the definition that uses it.  A Go map is a [gmap]; where the code ranges over one, either every
    iteration order is quantified over ([iteration_of]) or the result is proved independent of it.
    Fallible calls return [result]; [errors.Is] is [errors_is].  All definitions are executable.
    Loops are structural on the list they consume; the JSON parser's fuel is twice the length of its input,
    which [parse_fuel] shows to be enough, and the SDK's retry loop runs over its two attempts.  The
    prompt loops take one more than the length of the input as fuel, since each round consumes a line
    or ends, and [AgentWizard] shows that this is enough.

    ** What the theorems show

    - Provenance ([Sys]): under every interleaving a collected credential was granted by an approval
      of that transaction or through a lease that a named approver created; an undecided transaction
      moves one way through its states and yields at most one credential; leases exist only for
      approvals that allow them.
    - Authentication ([Auth], [Bind], [Replay], [Api]): exactly which requests pass, what an accepted
      session binding proves, when a body can be accepted again, that the HTTP handlers apply these
      checks before they open a transaction, and that a destination the client only reports neither
      uses nor creates a lease.
    - Authorization ([Tg], [Api], [Csr], [Ctl]): who can approve, collect, load keys, change the
      registries or use the control socket; what roles issued certificates can have, and
      that a press is handled once.
    - Data structures ([Lease], [Replay], [Rate], [Cli], [Pend], [Ks]): invariants over all reachable
      states, refinement of the lease store to a map and of the replay cache to the history of the
      latest acceptances, the bound on loads in any hour and on failed passphrases in any lockout
      period (five, and four more per successful load), quotas.
    - Composition ([SdkProxy], [EndToEnd], [Agent], [CtlWire], [Remote], [CliCmd]): what the SDK sends
      is what the proxy reads and conversely, a whole run ends with the signature that was asked for,
      the agent's binding check agrees with the proxy's up to empty fields, a control call is the operation it names, a
      remote load loads the file that was named.
    - Configuration ([Load], [AgentLoad]): settings that load are complete and name usable files.
    - The process ([Serve], [Proc]): a proxy starts sealed and empty, with client certificates checked
      against its CA; every run of it is a run of [Sys] on the same store, so that every credential
      goes back to an event of that run, kept in its [trace]: a request of an enrolled device, a press
      in the configured chat that the poller received, or a development request; keys and
      registries change only at the hands of operators, administrators and enrolled devices; every
      component's invariant holds in every state reached.  A handler other than a wait is one step of
      [Proc], and [Sys] has the finer interleaving of the approval store.
    - Set-up ([Pki], [ProxySetup], [AgentSetup], [AgentWizard], [Systemd]): what a new authority
      consists of, that private keys stay private, that without force nothing is overwritten that
      [os.Stat] can examine, that a fetched CA is the pinned one, what an enrolled certificate can be
      used for, that questions end, and that both daemons load from the written files the settings
      that were asked for, where these are plain text; the proxy's webhook secret and certificate
      directory are not among them.
    - Behaviour that surprises: a wrong passphrase destroys a waiting upload, expired uploads block
      quotas, a body is accepted twice a minute apart, a second waiter starves, an ignored press is
      acknowledged, an oversized lifetime becomes the default, a lost reply orphans a transaction,
      the agent's lock ignores its passphrase, [ENV=dev] switches approval off, a downloaded CA is
      trusted unseen, the proxy's wizard replaces an existing CA, a first installation stops before it
      makes the account it needs, the agent's wizard never renews a certificate.

    ** What is not modelled

    Registering flags is cobra's: flag values appear as records.  Logging is modelled where it is the
    access log of a handler or says what start-up enabled, and left out elsewhere, as are progress
    messages of set-up, the version text, signals, timeouts of connections, the owner of a file (its
    group is kept), modes of directories, and the stubs for systems other than Linux.  The TLS
    handshake and the decoding of agent messages ([x/crypto/ssh/agent]) are libraries: the first
    appears as the peer certificates and the exporter of a request, the second as calls of the agent's
    methods.  Memory locking has no effect on the modelled state. *)

From Stdlib Require Export ZArith Lia Bool.
From Stdlib Require Import Ascii.
From stdpp Require Export base tactics list gmap strings sorting.

Declare Scope luna_scope.
Delimit Scope luna_scope with luna.
#[global] Open Scope luna_scope.
#[global] Open Scope Z_scope.

(** ** Go [error] values

    [errors.New] allocates a fresh pointer, so two sentinels with the same text are different
    errors: a sentinel is named by its package and text.  [fmt.Errorf] with the [%w] verb wraps an
    error, and [errors.Is] walks the chain. *)
Inductive error : Type :=
| ENew (pkg text : string)
| EWrap (text : string) (inner : error).

#[export] Instance error_eq_dec : EqDecision error.
Proof. solve_decision. Defined.

Fixpoint errors_is (err target : error) : bool :=
  bool_decide (err = target) ||
  match err with
  | ENew _ _ => false
  | EWrap _ inner => errors_is inner target
  end.

(** [fmt.Errorf] without a [%w] verb, and an error whose value the code never compares. *)
Definition errorf (text : string) : error := ENew "fmt" text.

(** [err.Error()] *)
Definition error_text (e : error) : string := match e with ENew _ t => t | EWrap t _ => t end.

(** [fmt.Errorf] with a text, a colon and the wrapped error. *)
Definition annotate (text : string) (e : error) : error := EWrap (text +:+ ": " +:+ error_text e) e.

(** ** Results of fallible calls *)
Inductive result (A : Type) : Type :=
| Ok (a : A)
| Err (e : error).
Arguments Ok {A} _.
Arguments Err {A} _.

#[export] Instance result_eq_dec `{EqDecision A} : EqDecision (result A).
Proof. solve_decision. Defined.
#[export] Instance result_ret : MRet result := @Ok.
#[export] Instance result_bind : MBind result := fun _ _ f r =>
  match r with Ok a => f a | Err e => Err e end.
#[export] Instance result_fmap : FMap result := fun _ _ f r =>
  match r with Ok a => Ok (f a) | Err e => Err e end.

Definition is_ok {A} (r : result A) : bool := match r with Ok _ => true | Err _ => false end.

(** [x, err := f(); if err != nil { return e }]: the caller replaces the error. *)
Definition or_err {A} (o : option A) (e : error) : result A :=
  match o with Some a => Ok a | None => Err e end.

(** [if c { return err }] *)
Notation "'guard_err' c 'else' e ;; k" := (if c then k else Err e)
  (at level 100, c at level 99, e at level 99, k at level 200, right associativity) : luna_scope.

Lemma bind_ok {A B} (r : result A) (f : A -> result B) (b : B) :
  (r ≫= f) = Ok b <-> exists a, r = Ok a /\ f a = Ok b.
Proof. destruct r; naive_solver. Qed.

Lemma bind_err {A B} (r : result A) (f : A -> result B) (e : error) :
  (r ≫= f) = Err e <-> r = Err e \/ exists a, r = Ok a /\ f a = Err e.
Proof. destruct r; naive_solver. Qed.

Lemma or_err_ok {A} (o : option A) e a : or_err o e = Ok a <-> o = Some a.
Proof. destruct o; naive_solver. Qed.

(** ** Tactics of the development *)

(** Case analysis on every condition the goal or a hypothesis is stuck on. *)
Ltac split_match :=
  repeat (case_match; simplify_eq/=).

(** Turn boolean facts about the hypotheses into propositions. *)
Ltac bool_prop :=
  repeat match goal with
  | H : negb _ = true |- _ => apply negb_true_iff in H
  | H : negb _ = false |- _ => apply negb_false_iff in H
  | H : andb _ _ = true |- _ => apply andb_true_iff in H; destruct H
  | H : orb _ _ = false |- _ => apply orb_false_iff in H; destruct H
  | H : bool_decide _ = true |- _ => apply bool_decide_eq_true in H
  | H : bool_decide _ = false |- _ => apply bool_decide_eq_false in H
  | H : Z.ltb _ _ = true |- _ => apply Z.ltb_lt in H
  | H : Z.ltb _ _ = false |- _ => apply Z.ltb_ge in H
  | H : Z.leb _ _ = true |- _ => apply Z.leb_le in H
  | H : Z.leb _ _ = false |- _ => apply Z.leb_gt in H
  | H : Z.eqb _ _ = true |- _ => apply Z.eqb_eq in H
  | H : Z.eqb _ _ = false |- _ => apply Z.eqb_neq in H
  | H : Nat.eqb _ _ = true |- _ => apply Nat.eqb_eq in H
  | H : Nat.eqb _ _ = false |- _ => apply Nat.eqb_neq in H
  | H : Nat.ltb _ _ = true |- _ => apply Nat.ltb_lt in H
  | H : Nat.ltb _ _ = false |- _ => apply Nat.ltb_ge in H
  | H : Nat.leb _ _ = true |- _ => apply Nat.leb_le in H
  | H : Nat.leb _ _ = false |- _ => apply Nat.leb_gt in H
  end.

(** Open successful binds of the hypotheses. *)
Ltac inv_ok :=
  repeat match goal with
  | H : (_ ≫= _) = Ok _ |- _ =>
      apply bind_ok in H; let a := fresh "a" in destruct H as (a & ? & H)
  | H : or_err _ _ = Ok _ |- _ => apply or_err_ok in H
  end; simplify_eq/=.

(** String equality as the code's [==]. *)
Definition str_eqb (a b : string) : bool := bool_decide (a = b).
Notation "a =s b" := (str_eqb a b) (at level 70) : luna_scope.

Lemma str_eqb_eq a b : (a =s b) = true <-> a = b.
Proof. apply bool_decide_eq_true. Qed.
Lemma str_eqb_neq a b : (a =s b) = false <-> a <> b.
Proof. apply bool_decide_eq_false. Qed.
Lemma str_eqb_refl a : (a =s a) = true.
Proof. by apply str_eqb_eq. Qed.

Create HintDb luna.
Create Rewrite HintDb luna.
#[export] Hint Rewrite str_eqb_eq str_eqb_neq str_eqb_refl : luna.

(** Reflect every string comparison in sight. *)
Ltac str_prop :=
  bool_prop;
  repeat match goal with
  | H : (_ =s _) = true |- _ => apply str_eqb_eq in H
  | H : (_ =s _) = false |- _ => apply str_eqb_neq in H
  end; bool_prop.

(** ** Lists and maps *)

(** A fold over the keys of a map in the order the runtime happens to choose: every
    permutation of the key list is a possible iteration order. *)
Definition iteration_of {K A} `{Countable K} (m : gmap K A) (order : list (K * A)) : Prop :=
  order ≡ₚ map_to_list m.

Lemma iteration_elem {K A} `{Countable K} (m : gmap K A) order k a :
  iteration_of m order -> (k, a) ∈ order <-> m !! k = Some a.
Proof. intros Hp. rewrite Hp. apply elem_of_map_to_list. Qed.

Lemma iteration_self {K A} `{Countable K} (m : gmap K A) : iteration_of m (map_to_list m).
Proof. by unfold iteration_of. Qed.
#[export] Hint Resolve iteration_self : luna.

(** Counting the entries of a map that satisfy a predicate. *)
Definition count_if {K A} `{Countable K} (P : A -> Prop) `{!forall a, Decision (P a)}
    (m : gmap K A) : nat :=
  size (filter (fun kv => P kv.2) m).

Section count_if.
Context {K A : Type} `{Countable K} (P : A -> Prop) `{!forall a, Decision (P a)}.
Implicit Types m : gmap K A.

Lemma count_if_empty : count_if P (∅ : gmap K A) = 0%nat.
Proof. unfold count_if. by rewrite map_filter_empty, map_size_empty. Qed.

Lemma count_if_insert_true m k a :
  m !! k = None -> P a -> count_if P (<[k := a]> m) = S (count_if P m).
Proof.
  intros Hk Ha. unfold count_if.
  rewrite map_filter_insert_True by done.
  apply map_size_insert_None, map_lookup_filter_None. by left.
Qed.

Lemma count_if_insert_false m k a :
  m !! k = None -> ~ P a -> count_if P (<[k := a]> m) = count_if P m.
Proof.
  intros Hk Ha. unfold count_if.
  rewrite map_filter_insert_False by done. by rewrite delete_id.
Qed.

Lemma count_if_delete_true m k a :
  m !! k = Some a -> P a -> count_if P m = S (count_if P (delete k m)).
Proof.
  intros Hk Ha. rewrite <- (insert_delete_id m k a Hk) at 1.
  apply count_if_insert_true; [apply lookup_delete_eq | done].
Qed.

Lemma count_if_delete_false m k a :
  m !! k = Some a -> ~ P a -> count_if P (delete k m) = count_if P m.
Proof.
  intros Hk Ha. rewrite <- (insert_delete_id m k a Hk) at 2.
  symmetry. apply count_if_insert_false; [apply lookup_delete_eq | done].
Qed.

Lemma count_if_le m : (count_if P m <= size m)%nat.
Proof. unfold count_if. apply map_subseteq_size, map_filter_subseteq. Qed.
End count_if.

(** The first separator, and the last one, split a list in one way. *)
Lemma split_first {A} (sep : A) l l' r r' :
  sep ∉ l -> sep ∉ l' -> l ++ sep :: r = l' ++ sep :: r' -> l = l' /\ r = r'.
Proof.
  revert l'. induction l as [|a l IH]; intros [|a' l'] Hl Hl' E; simplify_eq/=; try set_solver.
  destruct (IH l') as [-> ->]; set_solver.
Qed.

Lemma split_last {A} (sep : A) l l' r r' :
  sep ∉ r -> sep ∉ r' -> l ++ sep :: r = l' ++ sep :: r' -> l = l' /\ r = r'.
Proof.
  intros Hr Hr' E. apply (f_equal reverse) in E.
  rewrite !reverse_app, !reverse_cons, <- !app_assoc in E. simpl in E.
  apply split_first in E as [E1 E2]; [|by rewrite elem_of_reverse..].
  split; by apply (inj reverse).
Qed.

(** Induction on the length of a list. *)
Lemma length_ind {A} (P : list A -> Prop) :
  (forall l, (forall k, (length k < length l)%nat -> P k) -> P l) -> forall l, P l.
Proof. intros H l. by induction l as [l IH] using (induction_ltof1 _ (@length A)); apply H. Qed.

(** A predicate every step preserves holds in every reachable state. *)
Lemma rtc_invariant {A} (R : A -> A -> Prop) (P : A -> Prop) x y :
  (forall a b, R a b -> P a -> P b) -> rtc R x y -> P x -> P y.
Proof. intros Hs Hr. induction Hr; eauto. Qed.

(** A Go loop [for k, v := range m { if p(v) { delete(m, k) } }], in one iteration order. *)
Definition sweep {K A} `{Countable K} (p : A -> bool) (m : gmap K A) (order : list (K * A)) : gmap K A :=
  foldl (fun m kv => if p kv.2 then delete kv.1 m else m) m order.

Lemma sweep_lookup {K A} `{Countable K} (p : A -> bool) (m : gmap K A) order k :
  (forall k' a, (k', a) ∈ order -> m !! k' = Some a) -> NoDup order.*1 ->
  sweep p m order !! k =
  match m !! k with
  | Some a => if p a && bool_decide (k ∈ order.*1) then None else Some a
  | None => None
  end.
Proof.
  unfold sweep. revert m. induction order as [|[k1 a1] order IH]; intros m Hin Hnd; csimpl.
  { destruct (m !! k); [|done]. by rewrite andb_false_r. }
  csimpl in Hnd. apply NoDup_cons in Hnd as [Hk Hnd].
  assert (H1 : m !! k1 = Some a1) by (apply Hin; set_solver).
  rewrite IH; [| |done].
  - destruct (decide (k = k1)) as [->|Hne].
    + rewrite (bool_decide_true (k1 ∈ k1 :: _)) by set_solver.
      destruct (p a1) eqn:Ep; [by rewrite lookup_delete_eq, H1, Ep|]. by rewrite H1, Ep.
    + rewrite (bool_decide_ext (k ∈ k1 :: order.*1) (k ∈ order.*1)) by set_solver.
      destruct (p a1); [by rewrite lookup_delete_ne|done].
  - intros k' a' Hx. assert (k' <> k1).
    { intros ->. apply Hk, list_elem_of_fmap. by exists (k1, a'). }
    destruct (p a1); [rewrite lookup_delete_ne by done|]; apply Hin; set_solver.
Qed.

(** Whatever the order, the sweep keeps exactly the entries that do not satisfy [p]. *)
Lemma sweep_filter {K A} `{Countable K} (p : A -> bool) (m : gmap K A) order :
  iteration_of m order -> sweep p m order = filter (fun kv => p kv.2 = false) m.
Proof.
  intros Hp. apply map_eq. intros k. rewrite sweep_lookup, map_lookup_filter.
  - destruct (m !! k) as [a|] eqn:E; [|done]. simpl.
    rewrite (bool_decide_true (k ∈ order.*1)), andb_true_r.
    + destruct (p a); [by rewrite option_guard_False|by rewrite option_guard_True].
    + apply list_elem_of_fmap. exists (k, a). split; [done|]. by apply (iteration_elem _ _ _ _ Hp).
  - intros k' a. by apply (iteration_elem _ _ _ _ Hp).
  - rewrite Hp. apply NoDup_fst_map_to_list.
Qed.
