(* ===== verification/GoTime.v ===== *)
(** * Machine integers and time

    Go's [int] and [int64] are 64-bit two's complement integers (the releases of the program are
    built for 64-bit platforms only), kept here as [Z] with the wrap-around of every operation
    written out.  [time.Time] is an instant in nanoseconds since the Unix epoch and
    [time.Duration] an [int64] number of nanoseconds.  Every reading of [time.Now()] is an argument
    of the definition that makes it. *)

From S2P Require Import Prelude.

Definition min_int64 : Z := - 2 ^ 63.
Definition max_int64 : Z := 2 ^ 63 - 1.
Definition in_int64 (z : Z) : Prop := min_int64 <= z <= max_int64.

(** Two's complement wrap-around of a 64-bit result. *)
Definition wrap64 (z : Z) : Z := (z + 2 ^ 63) mod 2 ^ 64 - 2 ^ 63.

(** Conversion to [uint64]. *)
Definition uint64 (z : Z) : Z := z mod 2 ^ 64.

#[export] Instance in_int64_dec z : Decision (in_int64 z).
Proof. unfold in_int64. apply _. Defined.

Lemma wrap64_range z : in_int64 (wrap64 z).
Proof.
  unfold in_int64, wrap64, min_int64, max_int64.
  pose proof (Z.mod_pos_bound (z + 2 ^ 63) (2 ^ 64) ltac:(lia)). lia.
Qed.

Lemma wrap64_id z : in_int64 z -> wrap64 z = z.
Proof.
  unfold in_int64, wrap64, min_int64, max_int64. intros ?.
  rewrite Z.mod_small; lia.
Qed.

Lemma wrap64_small z : wrap64 z = z <-> in_int64 z.
Proof. split; [intros <-; apply wrap64_range | apply wrap64_id]. Qed.

Lemma uint64_range z : 0 <= uint64 z < 2 ^ 64.
Proof. apply Z.mod_pos_bound. lia. Qed.

Lemma uint64_id z : 0 <= z < 2 ^ 64 -> uint64 z = z.
Proof. apply Z.mod_small. Qed.

(** ** Durations *)

Definition Second : Z := 1000000000.
Definition Minute : Z := 60 * Second.
Definition Hour : Z := 60 * Minute.

(** [time.Duration(sec) * time.Second] *)
Definition seconds (sec : Z) : Z := wrap64 (sec * Second).

Lemma seconds_small sec : in_int64 (sec * Second) -> seconds sec = sec * Second.
Proof. apply wrap64_id. Qed.

(** ** Instants *)

(** The zero [time.Time], January 1, year 1, 00:00:00 UTC. *)
Definition zeroTime : Z := -62135596800 * Second.
Definition IsZero (t : Z) : bool := t =? zeroTime.

Definition Add (t d : Z) : Z := t + d.
Definition Before (t u : Z) : bool := t <? u.
Definition After (t u : Z) : bool := u <? t.

(** [t.Unix()] truncates to whole seconds, rounding down. *)
Definition Unix (t : Z) : Z := t / Second.

(** [t.UnixNano()], an [int64]. *)
Definition UnixNano (t : Z) : Z := wrap64 t.

(** [t.Sub(u)] saturates at the ends of the [Duration] range. *)
Definition Sub (t u : Z) : Z := Z.max min_int64 (Z.min max_int64 (t - u)).

Lemma Before_true t u : Before t u = true <-> t < u.
Proof. apply Z.ltb_lt. Qed.
Lemma Before_false t u : Before t u = false <-> u <= t.
Proof. apply Z.ltb_ge. Qed.
Lemma After_true t u : After t u = true <-> u < t.
Proof. apply Z.ltb_lt. Qed.
Lemma After_false t u : After t u = false <-> t <= u.
Proof. apply Z.ltb_ge. Qed.

Lemma Sub_exact t u : in_int64 (t - u) -> Sub t u = t - u.
Proof. unfold Sub, in_int64. lia. Qed.

Lemma Unix_bounds t : Unix t * Second <= t < Unix t * Second + Second.
Proof.
  unfold Unix, Second. pose proof (Z.mod_pos_bound t 1000000000 ltac:(lia)).
  pose proof (Z.div_mod t 1000000000 ltac:(lia)). lia.
Qed.

Lemma Unix_mono t u : t <= u -> Unix t <= Unix u.
Proof. apply Z.div_le_mono. unfold Second. lia. Qed.

(** Reflect every clock comparison in the hypotheses. *)
Ltac time_prop :=
  repeat match goal with
  | H : Before _ _ = true |- _ => apply Before_true in H
  | H : Before _ _ = false |- _ => apply Before_false in H
  | H : After _ _ = true |- _ => apply After_true in H
  | H : After _ _ = false |- _ => apply After_false in H
  end; bool_prop.
