(* ===== verification/GoStrings.v ===== *)
(** * Strings: the functions of [strings] and [strconv] the program calls

    A Go string is a sequence of bytes, here Rocq's [string] of 8-bit characters; [[]byte] is
    [list byte].  The two are in bijection ([bytes_of], [string_of]). *)

From Stdlib Require Import Ascii.
From Stdlib Require Export Strings.Byte.
From Stdlib Require Import Decimal DecimalString DecimalZ DecimalPos.
From S2P Require Import Prelude GoTime.

(** ** Bytes *)

#[export] Instance byte_eq_dec : EqDecision byte := Byte.byte_eq_dec.

Definition byte_val (b : byte) : Z := Z.of_N (Byte.to_N b).

(** The byte with the value of [z] modulo 256. *)
Definition byte_of (z : Z) : byte :=
  match Byte.of_N (Z.to_N (z mod 256)) with Some b => b | None => Byte.x00 end.

Lemma byte_val_range b : 0 <= byte_val b < 256.
Proof. unfold byte_val. pose proof (Byte.to_N_bounded b). lia. Qed.

Lemma byte_of_val b : byte_of (byte_val b) = b.
Proof.
  unfold byte_of. rewrite Z.mod_small by apply byte_val_range.
  unfold byte_val. by rewrite N2Z.id, Byte.of_to_N.
Qed.

Lemma byte_val_of z : byte_val (byte_of z) = z mod 256.
Proof.
  unfold byte_of. pose proof (Z.mod_pos_bound z 256 ltac:(lia)) as Hz.
  destruct (Byte.of_N (Z.to_N (z mod 256))) as [b|] eqn:E.
  - unfold byte_val. apply Byte.to_of_N in E. rewrite E. lia.
  - apply Byte.of_N_None_iff in E. lia.
Qed.

#[export] Instance byte_countable : Countable byte.
Proof.
  refine (inj_countable Byte.to_N Byte.of_N _). intros b. apply Byte.of_to_N.
Defined.

Definition bytes_of (s : string) : list byte := String.list_byte_of_string s.
Definition string_of (l : list byte) : string := String.string_of_list_byte l.

Lemma string_of_bytes_of s : string_of (bytes_of s) = s.
Proof. apply String.string_of_list_byte_of_string. Qed.
Lemma bytes_of_string_of l : bytes_of (string_of l) = l.
Proof. apply String.list_byte_of_string_of_list_byte. Qed.
Lemma bytes_of_inj s t : bytes_of s = bytes_of t -> s = t.
Proof. intros E. by rewrite <- (string_of_bytes_of s), E, string_of_bytes_of. Qed.
Lemma string_of_inj l k : string_of l = string_of k -> l = k.
Proof. intros E. by rewrite <- (bytes_of_string_of l), E, bytes_of_string_of. Qed.

Lemma bytes_of_cons c s : bytes_of (String c s) = Ascii.byte_of_ascii c :: bytes_of s.
Proof. done. Qed.
Lemma bytes_of_app s t : bytes_of (s +:+ t) = bytes_of s ++ bytes_of t.
Proof.
  induction s as [|c s IH]; [done|].
  change (String c s +:+ t) with (String c (s +:+ t)).
  by rewrite !bytes_of_cons, IH.
Qed.
Lemma string_of_app l k : string_of (l ++ k) = string_of l +:+ string_of k.
Proof. apply bytes_of_inj. by rewrite bytes_of_app, !bytes_of_string_of. Qed.
Lemma bytes_of_empty s : bytes_of s = [] <-> s = "".
Proof.
  split; [|by intros ->]. intros E. apply bytes_of_inj. by rewrite E.
Qed.

(** [len(s)] *)
Definition len (s : string) : Z := Z.of_nat (String.length s).

Lemma length_bytes_of s : length (bytes_of s) = String.length s.
Proof. induction s as [|c s IH]; [done|]. rewrite bytes_of_cons. simpl. by rewrite IH. Qed.

#[export] Hint Rewrite bytes_of_string_of string_of_bytes_of bytes_of_app : luna.

(** ** [strings] *)

(** [strings.HasPrefix(s, p)] *)
Definition HasPrefix (s p : string) : bool := String.prefix p s.

(** [strings.TrimPrefix(s, p)] *)
Definition TrimPrefix (s p : string) : string :=
  if HasPrefix s p then string_of (drop (String.length p) (bytes_of s)) else s.

Lemma HasPrefix_app p s : HasPrefix (p +:+ s) p = true.
Proof.
  unfold HasPrefix. induction p as [|c p IH]; [by destruct s|].
  change (String c p +:+ s) with (String c (p +:+ s)). simpl.
  destruct (ascii_dec c c); [done|congruence].
Qed.

Lemma HasPrefix_true s p : HasPrefix s p = true <-> exists t, s = p +:+ t.
Proof.
  split; [|intros [t ->]; apply HasPrefix_app].
  unfold HasPrefix. revert s. induction p as [|c p IH]; intros s Hp; [by exists s|].
  destruct s as [|d s]; [done|]. simpl in Hp.
  destruct (ascii_dec c d) as [->|]; [|done].
  apply IH in Hp as [t ->]. by exists t.
Qed.

Lemma TrimPrefix_app p s : TrimPrefix (p +:+ s) p = s.
Proof.
  unfold TrimPrefix. rewrite HasPrefix_app, bytes_of_app.
  rewrite drop_app_length' by (by rewrite length_bytes_of). apply string_of_bytes_of.
Qed.

Lemma TrimPrefix_none s p : HasPrefix s p = false -> TrimPrefix s p = s.
Proof. unfold TrimPrefix. by intros ->. Qed.

(** [strings.TrimRight(s, cutset)] for a one-byte cutset. *)
Fixpoint drop_leading (c : byte) (l : list byte) : list byte :=
  match l with
  | b :: l' => if decide (b = c) then drop_leading c l' else l
  | [] => []
  end.
Definition trim_right_bytes (c : byte) (l : list byte) : list byte := rev (drop_leading c (rev l)).
Definition TrimRight (s : string) (c : ascii) : string :=
  string_of (trim_right_bytes (Ascii.byte_of_ascii c) (bytes_of s)).

Lemma drop_leading_repeat c n l : drop_leading c (replicate n c ++ l) = drop_leading c l.
Proof. induction n as [|n IH]; [done|]. simpl. by rewrite decide_True. Qed.

Lemma drop_leading_idem c l : drop_leading c (drop_leading c l) = drop_leading c l.
Proof.
  induction l as [|b l IH]; [done|]. simpl. case_decide; [done|]. simpl. by rewrite decide_False.
Qed.

Lemma trim_right_notin c l : c ∉ l -> trim_right_bytes c l = l.
Proof.
  intros Hc. unfold trim_right_bytes.
  destruct (rev l) as [|b k] eqn:E; simpl.
  { by rewrite <- (rev_involutive l), E. }
  rewrite decide_False; [by rewrite <- E, rev_involutive|].
  intros ->. apply Hc. apply list_elem_of_In, in_rev. rewrite E. by left.
Qed.

Lemma trim_right_replicate c l n :
  trim_right_bytes c (l ++ replicate n c) = trim_right_bytes c l.
Proof.
  unfold trim_right_bytes. rewrite rev_app_distr.
  replace (rev (replicate n c)) with (replicate n c).
  { by rewrite drop_leading_repeat. }
  induction n as [|n IH]; [done|]. simpl. rewrite <- IH.
  by rewrite <- replicate_cons_app.
Qed.

Lemma trim_right_idem c l :
  trim_right_bytes c (trim_right_bytes c l) = trim_right_bytes c l.
Proof. unfold trim_right_bytes. by rewrite rev_involutive, drop_leading_idem. Qed.

(** [strings.TrimSpace]: Unicode white space, as UTF-8 byte sequences.  The one-byte spaces are
    TAB, LF, VT, FF, CR and SP; the two-byte ones U+0085 and U+00A0; the three-byte ones U+1680,
    U+2000 to U+200A, U+2028, U+2029, U+202F, U+205F and U+3000. *)
Definition space1 (b : byte) : bool :=
  let v := byte_val b in ((9 <=? v) && (v <=? 13)) || (v =? 32).
Definition space2 (b c : byte) : bool :=
  (byte_val b =? 194) && ((byte_val c =? 133) || (byte_val c =? 160)).
Definition space3 (b c d : byte) : bool :=
  let x := byte_val b in let y := byte_val c in let z := byte_val d in
  ((x =? 225) && (y =? 154) && (z =? 128)) ||
  ((x =? 226) && (y =? 128) &&
     (((128 <=? z) && (z <=? 138)) || (z =? 168) || (z =? 169) || (z =? 175))) ||
  ((x =? 226) && (y =? 129) && (z =? 159)) ||
  ((x =? 227) && (y =? 128) && (z =? 128)).

(** [flip] is set when the list is reversed, for trimming at the end of the string. *)
Fixpoint trim_spaces (flip : bool) (l : list byte) {struct l} : list byte :=
  match l with
  | [] => []
  | b :: l1 =>
      if space1 b then trim_spaces flip l1 else
      match l1 with
      | [] => l
      | c :: l2 =>
          if (if flip then space2 c b else space2 b c) then trim_spaces flip l2 else
          match l2 with
          | [] => l
          | d :: l3 =>
              if (if flip then space3 d c b else space3 b c d) then trim_spaces flip l3 else l
          end
      end
  end.
Definition TrimSpace (s : string) : string :=
  string_of (rev (trim_spaces true (rev (trim_spaces false (bytes_of s))))).

(** Printable ASCII other than the space character. *)
Definition graphic (b : byte) : bool := (33 <=? byte_val b) && (byte_val b <=? 126).

Lemma graphic_not_space1 b : graphic b = true -> space1 b = false.
Proof.
  unfold graphic, space1. intros H. bool_prop.
  destruct (Z.eqb_spec (byte_val b) 32); [lia|].
  destruct (Z.leb_spec 9 (byte_val b)), (Z.leb_spec (byte_val b) 13); simpl; done || lia.
Qed.

Lemma trim_spaces_graphic flip b l :
  graphic b = true -> trim_spaces flip (b :: l) = b :: l.
Proof.
  intros Hb. unfold graphic in Hb. pose proof (graphic_not_space1 b Hb) as H1.
  bool_prop. simpl. rewrite H1. destruct l as [|c l2]; [done|].
  assert (space2 b c = false /\ space2 c b = false) as [H2 H2'].
  { unfold space2. rewrite (proj2 (Z.eqb_neq (byte_val b) 194)) by lia.
    rewrite (proj2 (Z.eqb_neq (byte_val b) 133)), (proj2 (Z.eqb_neq (byte_val b) 160)) by lia.
    split; [done|]. by rewrite andb_false_r. }
  destruct flip; rewrite ?H2, ?H2'; destruct l2 as [|d l3]; try done.
  - assert (space3 d c b = false) as ->; [|done].
    unfold space3. cbv zeta.
    rewrite (proj2 (Z.eqb_neq (byte_val b) 128)), (proj2 (Z.eqb_neq (byte_val b) 168)),
      (proj2 (Z.eqb_neq (byte_val b) 169)), (proj2 (Z.eqb_neq (byte_val b) 175)),
      (proj2 (Z.eqb_neq (byte_val b) 159)), (proj2 (Z.leb_gt 128 (byte_val b))) by lia.
    simpl. by rewrite !andb_false_r.
  - assert (space3 b c d = false) as ->; [|done].
    unfold space3. cbv zeta.
    by rewrite (proj2 (Z.eqb_neq (byte_val b) 225)), (proj2 (Z.eqb_neq (byte_val b) 226)),
      (proj2 (Z.eqb_neq (byte_val b) 227)) by lia.
Qed.

(** A string whose first and last characters are graphic is left alone. *)
Lemma TrimSpace_graphic s :
  forallb graphic (bytes_of s) = true -> TrimSpace s = s.
Proof.
  intros Hg. unfold TrimSpace.
  assert (Hk : forall flip l, forallb graphic l = true -> trim_spaces flip l = l).
  { intros flip [|b l]; simpl; [done|]. intros H. bool_prop. by apply trim_spaces_graphic. }
  rewrite (Hk false) by done. rewrite (Hk true).
  - by rewrite rev_involutive, string_of_bytes_of.
  - rewrite forallb_forall in Hg |- *. intros b Hb%in_rev. auto.
Qed.

(** What a trimmed list starts with is no space, and so is what a prefix of it starts with. *)
Lemma trim_spaces_prefix flip l p q : trim_spaces flip l = p ++ q -> trim_spaces flip p = p.
Proof.
  assert (Hl : forall n l, (length l <= n)%nat -> trim_spaces flip l = p ++ q -> trim_spaces flip p = p); [|eauto].
  clear l. intros n. induction n as [|n IH]; intros l Hn Ht.
  - destruct l; [|simpl in Hn; lia]. by destruct p.
  - destruct l as [|b l1]; [by destruct p|]. simpl in Hn, Ht. destruct (space1 b) eqn:E1; [apply (IH l1); [lia|done]|].
    destruct p as [|b' p]; [done|].
    destruct l1 as [|c l2].
    { injection Ht as <- Ht. destruct p; [|done]. simpl. by rewrite E1. }
    simpl in Hn. destruct (if flip then space2 c b else space2 b c) eqn:E2; [apply (IH l2); [lia|done]|].
    destruct l2 as [|d l3].
    { injection Ht as <- Ht. destruct p as [|c' p]; simpl; rewrite E1; [done|]. injection Ht as <- Ht. rewrite E2. by destruct p. }
    simpl in Hn. destruct (if flip then space3 d c b else space3 b c d) eqn:E3; [apply (IH l3); [lia|done]|].
    injection Ht as <- Ht. destruct p as [|c' p]; simpl; rewrite E1; [done|]. injection Ht as <- Ht. rewrite E2.
    destruct p as [|d' p]; [done|]. injection Ht as <- Ht. by rewrite E3.
Qed.

Lemma trim_spaces_suffix flip l : exists p, l = p ++ trim_spaces flip l.
Proof.
  assert (Hl : forall n l, (length l <= n)%nat -> exists p, l = p ++ trim_spaces flip l); [|eauto].
  clear l. intros n. induction n as [|n IH]; intros l Hn; [destruct l; [by exists []|simpl in Hn; lia]|].
  destruct l as [|b [|c [|d l3]]]; simpl in *; [by exists []|..]; destruct (space1 b); try by exists [].
  - by exists [b].
  - destruct (IH [c]) as [p Hp]; [simpl; lia|]. exists (b :: p). simpl in *. by rewrite <- Hp.
  - destruct (if flip then _ else _); [by exists [b; c]|by exists []].
  - destruct (IH (c :: d :: l3)) as [p Hp]; [simpl; lia|]. exists (b :: p). simpl in *. by rewrite <- Hp.
  - destruct (if flip then space2 _ _ else _).
    + destruct (IH (d :: l3)) as [p Hp]; [simpl; lia|]. exists (b :: c :: p). simpl in *. by rewrite <- Hp.
    + destruct (if flip then _ else _); [|by exists []].
      destruct (IH l3) as [p Hp]; [lia|]. exists (b :: c :: d :: p). simpl. by rewrite <- Hp.
Qed.

Lemma TrimSpace_idem s : TrimSpace (TrimSpace s) = TrimSpace s.
Proof.
  unfold TrimSpace. rewrite bytes_of_string_of. f_equal.
  set (x := trim_spaces false (bytes_of s)). destruct (trim_spaces_suffix true (rev x)) as [p Hp].
  set (y := trim_spaces true (rev x)) in *.
  assert (E : trim_spaces false (rev y) = rev y).
  { apply (trim_spaces_prefix false (bytes_of s) _ (rev p)). fold x. rewrite <- rev_app_distr, <- Hp. by rewrite rev_involutive. }
  rewrite E, rev_involutive. f_equal. apply (trim_spaces_prefix true (rev x) _ []). by rewrite app_nil_r.
Qed.

(** The bytes of a trimmed string are some of the string's. *)
Lemma TrimSpace_bytes s b : b ∈ bytes_of (TrimSpace s) -> b ∈ bytes_of s.
Proof.
  unfold TrimSpace. rewrite bytes_of_string_of. intros Hb.
  assert (Hs : forall flip l x, x ∈ trim_spaces flip l -> x ∈ l).
  { intros flip l x Hx. destruct (trim_spaces_suffix flip l) as [p ->]. apply elem_of_app. by right. }
  rewrite list_elem_of_In, <- in_rev, <- list_elem_of_In in Hb. apply Hs in Hb.
  rewrite list_elem_of_In, <- in_rev, <- list_elem_of_In in Hb. by apply Hs in Hb.
Qed.

(** [strings.Split(s, sep)] for a one-byte separator: [n] separators give [n+1] pieces. *)
Fixpoint split_bytes (sep : byte) (l : list byte) : list (list byte) :=
  match l with
  | [] => [[]]
  | b :: l' =>
      if decide (b = sep) then [] :: split_bytes sep l'
      else match split_bytes sep l' with
           | p :: ps => (b :: p) :: ps
           | [] => [[b]]
           end
  end.
Definition Split (s : string) (sep : ascii) : list string :=
  map string_of (split_bytes (Ascii.byte_of_ascii sep) (bytes_of s)).

Lemma split_bytes_nonempty sep l : split_bytes sep l <> [].
Proof. destruct l as [|b l]; simpl; [done|]. case_decide; [done|]. by case_match. Qed.

Lemma split_bytes_notin sep l : sep ∉ l -> split_bytes sep l = [l].
Proof.
  induction l as [|b l IH]; intros Hs; [done|]. simpl.
  apply not_elem_of_cons in Hs as [Hb Hs]. rewrite decide_False by done. by rewrite IH.
Qed.

Lemma split_bytes_app sep l k :
  sep ∉ l -> split_bytes sep (l ++ sep :: k) = l :: split_bytes sep k.
Proof.
  induction l as [|b l IH]; intros Hs; simpl.
  { by rewrite decide_True. }
  apply not_elem_of_cons in Hs as [Hb Hs]. rewrite decide_False by done. by rewrite IH.
Qed.

(** Whether a byte occurs in a string. *)
Definition has_byte (c : ascii) (s : string) : bool :=
  bool_decide (Ascii.byte_of_ascii c ∈ bytes_of s).

Lemma Split_notin s c : has_byte c s = false -> Split s c = [s].
Proof.
  intros H. apply bool_decide_eq_false in H. unfold Split.
  rewrite split_bytes_notin by done. simpl. by rewrite string_of_bytes_of.
Qed.

Lemma Split_app s c t :
  has_byte c s = false -> Split (s +:+ String c t) c = s :: Split t c.
Proof.
  intros H. apply bool_decide_eq_false in H. unfold Split.
  rewrite bytes_of_app, bytes_of_cons, split_bytes_app by done. simpl.
  by rewrite string_of_bytes_of.
Qed.

(** ** [strconv] *)

(** [strconv.Itoa], [strconv.FormatInt(z, 10)] and [strconv.AppendInt(nil, z, 10)] *)
Definition FormatInt (z : Z) : string := NilZero.string_of_int (Z.to_int z).

(** [strconv.ParseInt(s, 10, 64)] and [strconv.Atoi(s)]: an optional sign, at least one decimal
    digit, nothing else, and a value in the [int64] range. *)
Definition parse_digits (s : string) : option Z := Z.of_uint <$> NilZero.uint_of_string s.
Definition check_int64 (z : Z) : option Z := if decide (in_int64 z) then Some z else None.
Definition ParseInt (s : string) : option Z :=
  match s with
  | String "+"%char r => z ← parse_digits r; check_int64 z
  | String "-"%char r => z ← parse_digits r; check_int64 (- z)
  | _ => z ← parse_digits s; check_int64 z
  end.

Lemma string_of_uint_digit d : d <> Nil ->
  exists c r, NilZero.string_of_uint d = String c r /\ c <> "+"%char /\ c <> "-"%char.
Proof. destruct d; try done; intros _; eexists _, _; split; try reflexivity; by split. Qed.

Lemma parse_digits_of_uint d : d <> Nil -> parse_digits (NilZero.string_of_uint d) = Some (Z.of_uint d).
Proof. intros H. unfold parse_digits. by rewrite NilZero.usu. Qed.

Lemma to_uint_nonnil p : Pos.to_uint p <> Nil.
Proof. apply DecimalPos.Unsigned.to_uint_nonnil. Qed.

Lemma ParseInt_FormatInt z : in_int64 z -> ParseInt (FormatInt z) = Some z.
Proof.
  intros Hz. unfold FormatInt.
  assert (Hc : check_int64 z = Some z) by (unfold check_int64; by rewrite decide_True).
  destruct z as [|p|p]; [done| |].
  - simpl. destruct (string_of_uint_digit (Pos.to_uint p)) as (c & r & E & H1 & H2);
      [apply to_uint_nonnil|].
    assert (Hp : parse_digits (String c r) = Some (Z.pos p)).
    { rewrite <- E, parse_digits_of_uint by apply to_uint_nonnil.
      pose proof (DecimalZ.of_to (Z.pos p)) as Ho. simpl in Ho. by rewrite Ho. }
    rewrite E. unfold ParseInt.
    destruct c as [[] [] [] [] [] [] [] []]; try done; by rewrite Hp.
  - simpl. rewrite parse_digits_of_uint by apply to_uint_nonnil. simpl.
    pose proof (DecimalZ.of_to (Z.neg p)) as Ho. simpl in Ho. by rewrite Ho.
Qed.

Lemma ParseInt_range s z : ParseInt s = Some z -> in_int64 z.
Proof.
  assert (Hc : forall o : option Z, o ≫= check_int64 = Some z -> in_int64 z).
  { intros [x|]; simpl; [|done]. unfold check_int64. case_decide; naive_solver. }
  assert (Hn : forall o : option Z, (o ≫= fun x => check_int64 (- x)) = Some z -> in_int64 z).
  { intros [x|]; simpl; [|done]. unfold check_int64. case_decide; naive_solver. }
  unfold ParseInt. destruct s as [|[[] [] [] [] [] [] [] []] r]; eauto.
Qed.

(** A decimal rendering holds digits and a minus sign only. *)
Definition dec_char (b : byte) : bool :=
  (byte_val b =? 45) || ((48 <=? byte_val b) && (byte_val b <=? 57)).

Lemma string_of_uint_chars d : forallb dec_char (bytes_of (NilEmpty.string_of_uint d)) = true.
Proof. induction d; simpl; done. Qed.

Lemma FormatInt_chars z : forallb dec_char (bytes_of (FormatInt z)) = true.
Proof.
  assert (Hu : forall d, forallb dec_char (bytes_of (NilZero.string_of_uint d)) = true).
  { intros d. destruct d; try done; apply (string_of_uint_chars (_ d)). }
  unfold FormatInt. destruct (Z.to_int z) as [d|d]; simpl; apply Hu.
Qed.

Lemma FormatInt_no_byte z c :
  dec_char (Ascii.byte_of_ascii c) = false -> has_byte c (FormatInt z) = false.
Proof.
  intros Hc. apply bool_decide_eq_false. intros Hin%list_elem_of_In.
  pose proof (FormatInt_chars z) as H. rewrite forallb_forall in H.
  apply H in Hin. congruence.
Qed.

Lemma FormatInt_inj y z : FormatInt y = FormatInt z -> y = z.
Proof.
  unfold FormatInt. intros E. apply DecimalZ.to_int_inj.
  assert (Hi : forall x, NilZero.int_of_string (NilZero.string_of_int (Z.to_int x))
                 = Some (Z.to_int x)).
  { intros x. apply NilZero.isi; destruct x; simpl; intros [= H];
      by eapply to_uint_nonnil. }
  specialize (Hi y) as Hy. rewrite E, Hi in Hy. congruence.
Qed.

(** [sort.Slice] by a text. *)
Fixpoint insert_by {A} (k : A -> string) (x : A) (l : list A) : list A :=
  match l with
  | [] => [x]
  | y :: l' => if String.ltb (k y) (k x) then y :: insert_by k x l' else x :: l
  end.
Definition sort_by {A} (k : A -> string) (l : list A) : list A := foldr (insert_by k) [] l.

(** ** Cutting and replacing *)

Definition TrimSuffix (s suf : string) : string :=
  let l := bytes_of s in let k := bytes_of suf in
  if decide (drop (length l - length k) l = k) then string_of (take (length l - length k) l) else s.

(** [strings.ReplaceAll(s, c, "")] for a one-byte [c]. *)
Definition remove_byte (c : ascii) (s : string) : string :=
  string_of (filter (fun b => b <> Ascii.byte_of_ascii c) (bytes_of s)).

(** [if i := strings.Index(s, c); i >= 0 { s = s[:i] }] *)
Fixpoint bytes_before (c : byte) (l : list byte) : list byte :=
  match l with
  | b :: l' => if decide (b = c) then [] else b :: bytes_before c l'
  | [] => []
  end.
Definition cut_at (c : ascii) (s : string) : string := string_of (bytes_before (Ascii.byte_of_ascii c) (bytes_of s)).

Lemma bytes_before_free c l : c ∉ bytes_before c l.
Proof. induction l as [|b l IH]; simpl; [by intros ?%elem_of_nil|]. case_decide; [by intros ?%elem_of_nil|]. rewrite elem_of_cons. naive_solver. Qed.
Lemma bytes_before_absent c l : c ∉ l -> bytes_before c l = l.
Proof.
  induction l as [|b l IH]; [done|]. rewrite not_elem_of_cons. intros [Hb Hl]. simpl.
  rewrite decide_False by congruence. by rewrite IH.
Qed.
