(* ===== verification/GoEncoding.v ===== *)
(** * Text encodings: [encoding/hex] and [encoding/base64]

    Encoders and decoders as the program calls them, with the round trips the protocol relies on.
    The base64 decoder follows the Go one: carriage returns and line feeds are skipped anywhere,
    and the unused bits of the last character are not checked. *)

From S2P Require Import Prelude GoTime GoStrings.

(** ** Hexadecimal *)

(** [hextable]: 0-9 then a-f. *)
Definition hex_digit (v : Z) : byte := byte_of (if v <? 10 then 48 + v else 87 + v).

(** Both letter cases are accepted by the decoder. *)
Definition hex_value (b : byte) : option Z :=
  let v := byte_val b in
  if (48 <=? v) && (v <=? 57) then Some (v - 48)
  else if (97 <=? v) && (v <=? 102) then Some (v - 87)
  else if (65 <=? v) && (v <=? 70) then Some (v - 55)
  else None.

Fixpoint hex_encode (l : list byte) : list byte :=
  match l with
  | [] => []
  | b :: l' => hex_digit (byte_val b / 16) :: hex_digit (byte_val b mod 16) :: hex_encode l'
  end.

Fixpoint hex_decode (l : list byte) : option (list byte) :=
  match l with
  | [] => Some []
  | [_] => None
  | a :: b :: l' =>
      x ← hex_value a; y ← hex_value b; r ← hex_decode l'; Some (byte_of (16 * x + y) :: r)
  end.

(** [hex.EncodeToString] and [hex.DecodeString] *)
Definition HexEncodeToString (l : list byte) : string := string_of (hex_encode l).
Definition HexDecodeString (s : string) : option (list byte) := hex_decode (bytes_of s).

(** Decide a statement about every number below a bound by running it. *)
Fixpoint all_below (n : nat) (f : Z -> bool) : bool :=
  match n with O => true | S k => f (Z.of_nat k) && all_below k f end.

Lemma all_below_spec n f : all_below n f = true -> forall v, 0 <= v < Z.of_nat n -> f v = true.
Proof.
  induction n as [|n IH]; intros Hf v Hv; [lia|]. simpl in Hf. bool_prop.
  destruct (decide (v = Z.of_nat n)) as [->|]; [done|]. apply IH; [done|lia].
Qed.

Lemma hex_value_digit v : 0 <= v < 16 -> hex_value (hex_digit v) = Some v.
Proof.
  intros Hv.
  pose proof (all_below_spec 16 (fun v => bool_decide (hex_value (hex_digit v) = Some v))
    ltac:(by vm_compute) v Hv) as H.
  cbv beta in H. by bool_prop.
Qed.

Lemma hex_decode_encode l : hex_decode (hex_encode l) = Some l.
Proof.
  induction l as [|b l IH]; [done|]. simpl.
  pose proof (byte_val_range b).
  assert (0 <= byte_val b / 16 < 16) by (split; [apply Z.div_pos | apply Z.div_lt_upper_bound]; lia).
  assert (0 <= byte_val b mod 16 < 16) by (apply Z.mod_pos_bound; lia).
  rewrite !hex_value_digit by done.
  simpl. rewrite IH. simpl. do 2 f_equal.
  rewrite <- Z.div_mod by lia. apply byte_of_val.
Qed.

Lemma HexDecode_Encode l : HexDecodeString (HexEncodeToString l) = Some l.
Proof. unfold HexDecodeString, HexEncodeToString. rewrite bytes_of_string_of. apply hex_decode_encode. Qed.

Lemma length_hex_encode l : length (hex_encode l) = (2 * length l)%nat.
Proof. induction l; simpl; lia. Qed.

Lemma hex_decode_length l k : hex_decode l = Some k -> length l = (2 * length k)%nat.
Proof.
  revert l. induction k as [|c k IH]; intros [|a [|b l]]; simpl; try done.
  - by destruct (hex_value a), (hex_value b), (hex_decode l).
  - destruct (hex_value a), (hex_value b), (hex_decode l) eqn:E; simpl; try done.
    intros [= <- <-]. rewrite (IH l) by done. lia.
Qed.

(** ** Base64 *)

(** The standard alphabet. *)
Definition b64_char (v : Z) : byte :=
  byte_of (if v <? 26 then 65 + v else if v <? 52 then 71 + v else if v <? 62 then v - 4
           else if v =? 62 then 43 else 47).
Definition b64_value (b : byte) : option Z :=
  let v := byte_val b in
  if (65 <=? v) && (v <=? 90) then Some (v - 65)
  else if (97 <=? v) && (v <=? 122) then Some (v - 71)
  else if (48 <=? v) && (v <=? 57) then Some (v + 4)
  else if v =? 43 then Some 62
  else if v =? 47 then Some 63
  else None.

Definition pad : byte := byte_of 61.
Definition newline (b : byte) : bool := (byte_val b =? 10) || (byte_val b =? 13).

(** One final quantum of one or two bytes; [padded] selects [StdEncoding] over
    [RawStdEncoding]. *)
Fixpoint b64_encode (padded : bool) (l : list byte) : list byte :=
  match l with
  | [] => []
  | [a] =>
      let n := byte_val a * 65536 in
      b64_char (n / 262144) :: b64_char (n / 4096 mod 64) ::
        (if padded then [pad; pad] else [])
  | [a; b] =>
      let n := byte_val a * 65536 + byte_val b * 256 in
      b64_char (n / 262144) :: b64_char (n / 4096 mod 64) :: b64_char (n / 64 mod 64) ::
        (if padded then [pad] else [])
  | a :: b :: c :: l' =>
      let n := byte_val a * 65536 + byte_val b * 256 + byte_val c in
      b64_char (n / 262144) :: b64_char (n / 4096 mod 64) :: b64_char (n / 64 mod 64) ::
        b64_char (n mod 64) :: b64_encode padded l'
  end.

Definition b64_bytes (n : Z) : list byte := [byte_of (n / 65536); byte_of (n / 256); byte_of n].

(** The quanta of an input without line breaks. *)
Fixpoint b64_quanta (padded : bool) (l : list byte) : option (list byte) :=
  match l with
  | [] => Some []
  | [a; b] =>
      if padded then None else
      x ← b64_value a; y ← b64_value b;
      Some (take 1 (b64_bytes (x * 262144 + y * 4096)))
  | [a; b; c] =>
      if padded then None else
      x ← b64_value a; y ← b64_value b; z ← b64_value c;
      Some (take 2 (b64_bytes (x * 262144 + y * 4096 + z * 64)))
  | a :: b :: c :: d :: l' =>
      x ← b64_value a; y ← b64_value b;
      if padded && bool_decide (c = pad) && bool_decide (d = pad) && bool_decide (l' = []) then
        Some (take 1 (b64_bytes (x * 262144 + y * 4096)))
      else
        z ← b64_value c;
        if padded && bool_decide (d = pad) && bool_decide (l' = []) then
          Some (take 2 (b64_bytes (x * 262144 + y * 4096 + z * 64)))
        else
          w ← b64_value d; r ← b64_quanta padded l';
          Some (b64_bytes (x * 262144 + y * 4096 + z * 64 + w) ++ r)
  | _ => None
  end.

Definition b64_decode (padded : bool) (l : list byte) : option (list byte) :=
  b64_quanta padded (List.filter (fun b => negb (newline b)) l).

(** [base64.StdEncoding] and [base64.RawStdEncoding] *)
Definition StdEncodeToString (l : list byte) : string := string_of (b64_encode true l).
Definition StdDecodeString (s : string) : option (list byte) := b64_decode true (bytes_of s).
Definition RawStdEncodeToString (l : list byte) : string := string_of (b64_encode false l).
Definition RawStdDecodeString (s : string) : option (list byte) := b64_decode false (bytes_of s).

Lemma b64_char_facts v : 0 <= v < 64 ->
  b64_value (b64_char v) = Some v /\ newline (b64_char v) = false /\
  graphic (b64_char v) = true /\ b64_char v <> pad /\ byte_val (b64_char v) <> 58.
Proof.
  intros Hv.
  pose proof (all_below_spec 64 (fun v =>
    bool_decide (b64_value (b64_char v) = Some v) && negb (newline (b64_char v)) &&
    graphic (b64_char v) && negb (bool_decide (b64_char v = pad)) &&
    negb (byte_val (b64_char v) =? 58)) ltac:(by vm_compute) v Hv) as H.
  cbv beta in H. bool_prop. done.
Qed.

Lemma b64_value_char v : 0 <= v < 64 -> b64_value (b64_char v) = Some v.
Proof. intros. by apply b64_char_facts. Qed.
Lemma b64_char_ne_pad v : 0 <= v < 64 -> b64_char v <> pad.
Proof. intros. by apply b64_char_facts. Qed.

(** Arithmetic of one quantum. *)
Lemma sextet_range n : 0 <= n < 16777216 ->
  0 <= n / 262144 < 64 /\ 0 <= n / 4096 mod 64 < 64 /\ 0 <= n / 64 mod 64 < 64 /\
  0 <= n mod 64 < 64.
Proof.
  intros Hn. split_and!; try (apply Z.mod_pos_bound; lia).
  - apply Z.div_pos; lia.
  - apply Z.div_lt_upper_bound; lia.
Qed.

Lemma sextet_join n :
  n / 262144 * 262144 + n / 4096 mod 64 * 4096 + n / 64 mod 64 * 64 + n mod 64 = n.
Proof.
  pose proof (Z.div_mod n 64 ltac:(lia)).
  pose proof (Z.div_mod (n / 64) 64 ltac:(lia)) as H1.
  pose proof (Z.div_mod (n / 4096) 64 ltac:(lia)) as H2.
  rewrite Z.div_div in H1, H2 by lia.
  change (64 * 64) with 4096 in H1. change (4096 * 64) with 262144 in H2. lia.
Qed.

Lemma b64_bytes_join a b c :
  b64_bytes (byte_val a * 65536 + byte_val b * 256 + byte_val c) = [a; b; c].
Proof.
  pose proof (byte_val_range a). pose proof (byte_val_range b). pose proof (byte_val_range c).
  unfold b64_bytes.
  assert (E : forall z d k, z = k * 256 + byte_val d -> byte_of z = d).
  { intros z d k ->. rewrite <- (byte_of_val d) at 2. unfold byte_of.
    by rewrite Z.add_comm, Z.mod_add. }
  repeat f_equal.
  - apply (E _ _ 0). symmetry. apply Z.div_unique with (byte_val b * 256 + byte_val c); lia.
  - apply (E _ _ (byte_val a)). symmetry. apply Z.div_unique with (byte_val c); lia.
  - apply (E _ _ (byte_val a * 256 + byte_val b)). lia.
Qed.

(** Induction by quanta of three bytes. *)
Lemma quanta_ind (P : list byte -> Prop) :
  P [] -> (forall a, P [a]) -> (forall a b, P [a; b]) ->
  (forall a b c l, P l -> P (a :: b :: c :: l)) -> forall l, P l.
Proof.
  intros H0 H1 H2 H3. fix go 1. intros [|a [|b [|c l]]]; [done|apply H1|apply H2|].
  apply H3, go.
Qed.

Lemma b64_chars_ok padded l :
  Forall (fun b => newline b = false /\ graphic b = true /\ byte_val b <> 58 /\
                   (padded = false -> b <> pad)) (b64_encode padded l).
Proof.
  assert (Hp : newline pad = false /\ graphic pad = true /\ byte_val pad <> 58) by by vm_compute.
  assert (Hc : forall v, 0 <= v < 64 -> newline (b64_char v) = false /\ graphic (b64_char v) = true
            /\ byte_val (b64_char v) <> 58 /\ (padded = false -> b64_char v <> pad)).
  { intros v Hv. destruct (b64_char_facts v Hv) as (?&?&?&?&?). done. }
  induction l as [| a | a b | a b c l IH] using quanta_ind; cbn [b64_encode].
  - constructor.
  - pose proof (byte_val_range a).
    destruct (sextet_range (byte_val a * 65536) ltac:(lia)) as (?&?&?&?).
    repeat constructor; try by apply Hc. destruct padded; repeat constructor; try apply Hp; congruence.
  - pose proof (byte_val_range a). pose proof (byte_val_range b).
    destruct (sextet_range (byte_val a * 65536 + byte_val b * 256) ltac:(lia)) as (?&?&?&?).
    repeat constructor; try by apply Hc. destruct padded; repeat constructor; try apply Hp; congruence.
  - pose proof (byte_val_range a). pose proof (byte_val_range b). pose proof (byte_val_range c).
    destruct (sextet_range (byte_val a * 65536 + byte_val b * 256 + byte_val c) ltac:(lia))
      as (?&?&?&?).
    repeat constructor; try by apply Hc. done.
Qed.

Lemma b64_no_newline padded l :
  List.filter (fun b => negb (newline b)) (b64_encode padded l) = b64_encode padded l.
Proof.
  pose proof (b64_chars_ok padded l) as H.
  induction H as [|b k (Hb & _) _ IH]; [done|]. simpl. rewrite Hb. simpl. by rewrite IH.
Qed.

(** The last quantum: one or two bytes, as many characters plus one. *)
Lemma b64_last1 a :
  let n := byte_val a * 65536 in
  take 1 (b64_bytes (n / 262144 * 262144 + n / 4096 mod 64 * 4096)) = [a].
Proof.
  intros n. pose proof (byte_val_range a).
  replace (n / 262144 * 262144 + n / 4096 mod 64 * 4096)
    with (byte_val a * 65536 + byte_val Byte.x00 * 256 + byte_val Byte.x00).
  - by rewrite b64_bytes_join.
  - replace (byte_val Byte.x00) with 0 by done. pose proof (sextet_join n).
    assert (n / 64 mod 64 = 0).
    { subst n. replace (byte_val a * 65536) with ((byte_val a * 16 * 64) * 64) by lia.
      rewrite Z.div_mul by lia. by rewrite Z.mod_mul. }
    assert (n mod 64 = 0); [|lia].
    subst n. replace (byte_val a * 65536) with (byte_val a * 1024 * 64) by lia.
    by rewrite Z.mod_mul.
Qed.

Lemma b64_last2 a b :
  let n := byte_val a * 65536 + byte_val b * 256 in
  take 2 (b64_bytes (n / 262144 * 262144 + n / 4096 mod 64 * 4096 + n / 64 mod 64 * 64)) = [a; b].
Proof.
  intros n. pose proof (byte_val_range a). pose proof (byte_val_range b).
  replace (n / 262144 * 262144 + n / 4096 mod 64 * 4096 + n / 64 mod 64 * 64)
    with (byte_val a * 65536 + byte_val b * 256 + byte_val Byte.x00).
  - by rewrite b64_bytes_join.
  - replace (byte_val Byte.x00) with 0 by done. rewrite Z.add_0_r.
    pose proof (sextet_join n). assert (n mod 64 = 0); [|lia].
    subst n. replace (byte_val a * 65536 + byte_val b * 256)
      with ((byte_val a * 1024 + byte_val b * 4) * 64) by lia.
    by rewrite Z.mod_mul.
Qed.

Lemma b64_quanta_encode padded l : b64_quanta padded (b64_encode padded l) = Some l.
Proof.
  induction l as [| a | a b | a b c l IH] using quanta_ind; cbn [b64_encode].
  - done.
  - pose proof (byte_val_range a).
    destruct (sextet_range (byte_val a * 65536) ltac:(lia)) as (S1&S2&_&_).
    destruct padded; cbn [b64_quanta]; rewrite !b64_value_char by done; cbn [mbind option_bind];
      [rewrite !bool_decide_true by done; cbn [andb]|]; by rewrite b64_last1.
  - pose proof (byte_val_range a). pose proof (byte_val_range b).
    destruct (sextet_range (byte_val a * 65536 + byte_val b * 256) ltac:(lia)) as (S1&S2&S3&_).
    pose proof (b64_char_ne_pad _ S3).
    destruct padded; cbn [b64_quanta]; rewrite !b64_value_char by done; cbn [mbind option_bind];
      [rewrite (bool_decide_false (b64_char _ = pad)), !bool_decide_true by done;
       cbn [andb]|]; by rewrite b64_last2.
  - pose proof (byte_val_range a). pose proof (byte_val_range b). pose proof (byte_val_range c).
    set (n := byte_val a * 65536 + byte_val b * 256 + byte_val c).
    destruct (sextet_range n ltac:(lia)) as (S1&S2&S3&S4).
    pose proof (b64_char_ne_pad _ S3). pose proof (b64_char_ne_pad _ S4).
    cbn [b64_quanta]. rewrite !b64_value_char by done. cbn [mbind option_bind].
    rewrite !(bool_decide_false (b64_char _ = pad)) by done.
    rewrite !andb_false_r. cbn [andb]. rewrite IH. cbn [mbind option_bind].
    rewrite sextet_join. subst n. by rewrite b64_bytes_join.
Qed.

Lemma b64_decode_encode padded l : b64_decode padded (b64_encode padded l) = Some l.
Proof. unfold b64_decode. rewrite b64_no_newline. apply b64_quanta_encode. Qed.

Lemma StdDecode_Encode l : StdDecodeString (StdEncodeToString l) = Some l.
Proof. unfold StdDecodeString, StdEncodeToString. rewrite bytes_of_string_of. apply b64_decode_encode. Qed.
Lemma RawStdDecode_Encode l : RawStdDecodeString (RawStdEncodeToString l) = Some l.
Proof.
  unfold RawStdDecodeString, RawStdEncodeToString. rewrite bytes_of_string_of.
  apply b64_decode_encode.
Qed.

Lemma RawStdEncode_inj l k : RawStdEncodeToString l = RawStdEncodeToString k -> l = k.
Proof. intros E. apply (f_equal RawStdDecodeString) in E. rewrite !RawStdDecode_Encode in E. congruence. Qed.

(** The padded and the raw encodings differ in trailing padding only. *)
Lemma b64_encode_padded l :
  exists n, (n <= 2)%nat /\ b64_encode true l = b64_encode false l ++ replicate n pad.
Proof.
  induction l as [| a | a b | a b c l (n & Hn & IH)] using quanta_ind; cbn [b64_encode].
  - exists 0%nat. by split; [lia|].
  - exists 2%nat. by split; [lia|].
  - exists 1%nat. by split; [lia|].
  - exists n. split; [done|]. by rewrite IH.
Qed.

Lemma b64_raw_length l : Z.of_nat (length (b64_encode false l)) = (Z.of_nat (length l) * 4 + 2) / 3.
Proof.
  induction l as [| a | a b | a b c l IH] using quanta_ind; cbn [b64_encode]; try done.
  cbn [length]. rewrite !Nat2Z.inj_succ, IH.
  replace (Z.succ (Z.succ (Z.succ (Z.of_nat (length l)))) * 4 + 2)
    with (Z.of_nat (length l) * 4 + 2 + 4 * 3) by lia.
  rewrite Z.div_add by lia. lia.
Qed.

#[export] Hint Rewrite HexDecode_Encode StdDecode_Encode RawStdDecode_Encode : luna.
