(* ===== verification/GoUtf8.v ===== *)
(** * UTF-8: the runes a [range] loop over a string visits

    Go's [for _, r := range s] decodes one rune at a time; an invalid or truncated encoding yields
    U+FFFD and advances by one byte. *)

From S2P Require Import Prelude GoTime GoStrings GoEncoding.

Definition RuneError : Z := 65533.

(** The first-byte table of [unicode/utf8]: the length of the encoding and the accepted range of
    its second byte. *)
Definition first_byte (v : Z) : option (nat * Z * Z) :=
  if (194 <=? v) && (v <=? 223) then Some (2%nat, 128, 191)
  else if v =? 224 then Some (3%nat, 160, 191)
  else if v =? 237 then Some (3%nat, 128, 159)
  else if (225 <=? v) && (v <=? 239) then Some (3%nat, 128, 191)
  else if v =? 240 then Some (4%nat, 144, 191)
  else if (241 <=? v) && (v <=? 243) then Some (4%nat, 128, 191)
  else if v =? 244 then Some (4%nat, 128, 143)
  else None.

Definition continuation (b : byte) : bool := (128 <=? byte_val b) && (byte_val b <=? 191).

(** The payload bits of a continuation byte. *)
Definition cont_bits (b : byte) : Z := Z.land (byte_val b) 63.

(** [utf8.DecodeRuneInString] on a non-empty string: the rune and its width. *)
Definition decode_rune (b0 : byte) (l : list byte) : Z * nat :=
  let v := byte_val b0 in
  if v <? 128 then (v, 1%nat) else
  match first_byte v with
  | None => (RuneError, 1%nat)
  | Some (size, lo, hi) =>
      match l with
      | [] => (RuneError, 1%nat)
      | b1 :: l1 =>
          if (byte_val b1 <? lo) || (hi <? byte_val b1) then (RuneError, 1%nat) else
          if (size =? 2)%nat then
            (Z.lor (Z.shiftl (Z.land v 31) 6) (cont_bits b1), 2%nat)
          else
          match l1 with
          | [] => (RuneError, 1%nat)
          | b2 :: l2 =>
              if negb (continuation b2) then (RuneError, 1%nat) else
              if (size =? 3)%nat then
                (Z.lor (Z.lor (Z.shiftl (Z.land v 15) 12) (Z.shiftl (cont_bits b1) 6)) (cont_bits b2),
                 3%nat)
              else
              match l2 with
              | [] => (RuneError, 1%nat)
              | b3 :: _ =>
                  if negb (continuation b3) then (RuneError, 1%nat) else
                  (Z.lor (Z.lor (Z.lor (Z.shiftl (Z.land v 7) 18) (Z.shiftl (cont_bits b1) 12))
                            (Z.shiftl (cont_bits b2) 6)) (cont_bits b3), 4%nat)
              end
          end
      end
  end.

(** The runes visited by the loop; [skip] bytes belong to the rune just decoded. *)
Fixpoint range_runes (skip : nat) (l : list byte) : list Z :=
  match l with
  | [] => []
  | b :: l' =>
      match skip with
      | S n => range_runes n l'
      | O => let '(r, size) := decode_rune b l' in r :: range_runes (size - 1) l'
      end
  end.

Definition Runes (s : string) : list Z := range_runes 0 (bytes_of s).

(** ** A [range] loop sees a rune below 128 exactly where the string has that byte *)

Lemma lor_high_l a b : 128 <= a -> 0 <= b -> 128 <= Z.lor a b.
Proof.
  intros Ha Hb. assert (0 <= Z.lor a b) by (apply Z.lor_nonneg; lia).
  assert (7 <= Z.log2 (Z.lor a b)).
  { rewrite Z.log2_lor by lia. transitivity (Z.log2 a); [|lia]. apply Z.log2_le_pow2; lia. }
  apply (Z.log2_le_pow2 (Z.lor a b) 7); [|done].
  destruct (decide (Z.lor a b = 0)) as [E|]; [|lia]. by rewrite E in *.
Qed.

Lemma lor_high_r a b : 0 <= a -> 128 <= b -> 128 <= Z.lor a b.
Proof. intros. rewrite Z.lor_comm. by apply lor_high_l. Qed.

Lemma cont_bits_nonneg b : 0 <= cont_bits b.
Proof. apply Z.land_nonneg. right. lia. Qed.

Lemma shiftl_bits_nonneg v m n : 0 <= m -> 0 <= Z.shiftl (Z.land v m) n.
Proof. intros. apply Z.shiftl_nonneg, Z.land_nonneg. by right. Qed.

(** What the leading two bytes of a valid encoding contribute. *)
Definition lead_ok (v w : Z) : bool :=
  match first_byte v with
  | Some (size, lo, hi) =>
      if (w <? lo) || (hi <? w) then true else
      (128 <=? w) &&
      if (size =? 2)%nat then 128 <=? Z.shiftl (Z.land v 31) 6
      else if (size =? 3)%nat then
        (128 <=? Z.shiftl (Z.land v 15) 12) || (128 <=? Z.shiftl (Z.land w 63) 6)
      else (128 <=? Z.shiftl (Z.land v 7) 18) || (128 <=? Z.shiftl (Z.land w 63) 12)
  | None => true
  end.

Lemma lead_ok_all b0 b1 : lead_ok (byte_val b0) (byte_val b1) = true.
Proof.
  pose proof (all_below_spec 256 (fun v => all_below 256 (lead_ok v)) ltac:(by vm_compute)
    (byte_val b0) ltac:(pose proof (byte_val_range b0); lia)) as H.
  exact (all_below_spec 256 _ H (byte_val b1) ltac:(pose proof (byte_val_range b1); lia)).
Qed.

Lemma first_byte_high v x : first_byte v = Some x -> 128 <= v.
Proof. unfold first_byte. intros. repeat case_match; bool_prop; (done || lia). Qed.

Lemma continuation_high b : negb (continuation b) = false -> 128 <= byte_val b.
Proof. unfold continuation. intros. bool_prop. lia. Qed.

(** Decoding: an ASCII byte is its own rune; any other rune, and every byte it consumes, is at
    least 128. *)
Lemma decode_rune_spec b l r size :
  decode_rune b l = (r, size) ->
  (byte_val b < 128 /\ r = byte_val b /\ size = 1%nat) \/
  (128 <= byte_val b /\ 128 <= r /\ Forall (fun c => 128 <= byte_val c) (take (size - 1) l)).
Proof.
  unfold decode_rune. intros Hd.
  assert (Hbad : (r, size) = (RuneError, 1%nat) ->
            128 <= r /\ Forall (fun c => 128 <= byte_val c) (take (size - 1) l)).
  { intros [= -> ->]. split; [unfold RuneError; lia|constructor]. }
  destruct (byte_val b <? 128) eqn:E; bool_prop; simplify_eq; [by left|]. right. split; [done|].
  destruct (first_byte (byte_val b)) as [[[n lo] hi]|] eqn:Ef; [|by apply Hbad].
  destruct l as [|b1 l1]; [by apply Hbad|].
  pose proof (lead_ok_all b b1) as Hl. unfold lead_ok in Hl. rewrite Ef in Hl.
  destruct (_ || _); [by apply Hbad|].
  apply andb_true_iff in Hl as [Hb1 Hl]. bool_prop. fold (cont_bits b1) in Hl.
  assert (Hn : forall c k, 0 <= Z.shiftl (cont_bits c) k).
  { intros. apply Z.shiftl_nonneg, cont_bits_nonneg. }
  pose proof (shiftl_bits_nonneg (byte_val b) 15 12 ltac:(lia)).
  pose proof (shiftl_bits_nonneg (byte_val b) 7 18 ltac:(lia)).
  destruct (n =? 2)%nat; bool_prop; simplify_eq.
  { split; [by apply lor_high_l, cont_bits_nonneg|]. simpl. by repeat constructor. }
  destruct l1 as [|b2 l2]; [by apply Hbad|].
  destruct (negb (continuation b2)) eqn:E2; [by apply Hbad|]. apply continuation_high in E2.
  destruct (n =? 3)%nat.
  { simplify_eq. split; [|simpl; by repeat constructor].
    apply lor_high_l; [|apply cont_bits_nonneg].
    apply orb_true_iff in Hl as [Hl|Hl]; apply Z.leb_le in Hl;
      [by apply lor_high_l|by apply lor_high_r]. }
  destruct l2 as [|b3 l3]; [by apply Hbad|].
  destruct (negb (continuation b3)) eqn:E3; [by apply Hbad|]. apply continuation_high in E3.
  simplify_eq. split; [|simpl; by repeat constructor].
  apply lor_high_l; [|apply cont_bits_nonneg]. apply lor_high_l; [|done].
  apply orb_true_iff in Hl as [Hl|Hl]; apply Z.leb_le in Hl;
    [by apply lor_high_l|by apply lor_high_r].
Qed.

(** Membership of runes below 128. *)
Lemma range_runes_ascii r l skip :
  r < 128 -> Forall (fun c => 128 <= byte_val c) (take skip l) ->
  r ∈ range_runes skip l <-> exists b, b ∈ l /\ byte_val b = r.
Proof.
  intros Hr. revert skip. induction l as [|b l IH]; intros skip Hs; simpl; [set_solver|].
  destruct skip as [|n]; simpl in Hs.
  - destruct (decode_rune b l) as [r' size] eqn:Ed.
    apply decode_rune_spec in Ed as [(Hb & -> & ->)|(Hb & Hr' & Hf)].
    + simpl. rewrite elem_of_cons, IH by (rewrite take_0; constructor). set_solver.
    + rewrite elem_of_cons, IH by done. setoid_rewrite elem_of_cons. split.
      * intros [->|(c & ? & ?)]; [lia|eauto].
      * intros (c & [->|?] & ?); [lia|eauto].
  - apply Forall_cons in Hs as [Hb Hs]. rewrite (IH n Hs). setoid_rewrite elem_of_cons. split.
    + intros (c & ? & ?). eauto.
    + intros (c & [->|?] & ?); [lia|eauto].
Qed.

Lemma Runes_ascii r s :
  r < 128 -> r ∈ Runes s <-> exists b, b ∈ bytes_of s /\ byte_val b = r.
Proof. intros. apply range_runes_ascii; [done|]. rewrite take_0. constructor. Qed.
