(* ===== verification/GoJson.v ===== *)
(** * JSON as [encoding/json] reads and writes it

    The scanner with its nesting limit, string literals with escapes, surrogates and invalid UTF-8,
    numbers, and the decoding of objects into structures: case-insensitive member names, unknown
    members ignored, [null] as no value, the last of several members winning.  Encoding escapes what
    [json.Marshal] escapes.  The lemmas show that what is encoded is read back. *)

From Stdlib Require Import Ascii Decimal DecimalFacts DecimalPos DecimalString.
From S2P Require Import Prelude GoTime GoStrings GoEncoding GoUtf8.

Module Json.

(** ** Runes as bytes *)

Definition surrogate (r : Z) : bool := (55296 <=? r) && (r <=? 57343).

(** [utf8.EncodeRune] *)
Definition EncodeRune (r : Z) : list byte :=
  let three r := [byte_of (224 + r / 4096); byte_of (128 + r / 64 mod 64); byte_of (128 + r mod 64)] in
  if (r <? 0) || (1114111 <? r) || surrogate r then three RuneError
  else if r <? 128 then [byte_of r]
  else if r <? 2048 then [byte_of (192 + r / 64); byte_of (128 + r mod 64)]
  else if r <? 65536 then three r
  else [byte_of (240 + r / 262144); byte_of (128 + r / 4096 mod 64); byte_of (128 + r / 64 mod 64);
        byte_of (128 + r mod 64)].

(** [utf16.DecodeRune] *)
Definition utf16_DecodeRune (r1 r2 : Z) : Z :=
  if (55296 <=? r1) && (r1 <? 56320) && (56320 <=? r2) && (r2 <? 57344)
  then (r1 - 55296) * 1024 + (r2 - 56320) + 65536 else RuneError.

(** ** Values

    A member keeps the text of its value, which a [json.RawMessage] receives. *)
Inductive value :=
| VNull
| VBool (b : bool)
| VNum (lit : list byte)
| VStr (s : string)
| VArr (l : list value)
| VObj (l : list (string * list byte * value)).

(** ** Scanning *)

Definition ws (b : byte) : bool :=
  let v := byte_val b in (v =? 32) || (v =? 9) || (v =? 10) || (v =? 13).

Fixpoint skip_ws (l : list byte) : list byte :=
  match l with
  | b :: l' => if ws b then skip_ws l' else l
  | [] => []
  end.

Definition digit (b : byte) : bool := (48 <=? byte_val b) && (byte_val b <=? 57).

Definition hex4 (l : list byte) : option Z :=
  match l with
  | a :: b :: c :: d :: _ =>
      a ← hex_value a; b ← hex_value b; c ← hex_value c; d ← hex_value d;
      Some (a * 4096 + b * 256 + c * 16 + d)
  | _ => None
  end.

(** The byte that a two-character escape stands for. *)
Definition escape_value (e : byte) : option byte :=
  let v := byte_val e in
  if (v =? 34) || (v =? 92) || (v =? 47) then Some e
  else if v =? 98 then Some (byte_of 8)
  else if v =? 102 then Some (byte_of 12)
  else if v =? 110 then Some (byte_of 10)
  else if v =? 114 then Some (byte_of 13)
  else if v =? 116 then Some (byte_of 9)
  else None.

(** After the opening quote: the literal's text and what follows the closing quote. *)
Fixpoint scan_string (l : list byte) : option (list byte * list byte) :=
  match l with
  | [] => None
  | b :: l1 =>
      if byte_val b =? 34 then Some ([], l1)
      else if byte_val b =? 92 then
        match l1 with
        | [] => None
        | e :: l2 =>
            if byte_val e =? 117 then
              match l2 with
              | a :: b' :: c :: d :: l3 =>
                  if bool_decide (hex4 l2 = None) then None else
                  '(t, r) ← scan_string l3; Some (b :: e :: a :: b' :: c :: d :: t, r)
              | _ => None
              end
            else
              match escape_value e with
              | None => None
              | Some _ => '(t, r) ← scan_string l2; Some (b :: e :: t, r)
              end
        end
      else if byte_val b <? 32 then None
      else '(t, r) ← scan_string l1; Some (b :: t, r)
  end.

(** The rune of [\uXXXX], given what follows the [u], and how much of that it takes: a surrogate
    joins with a following escape, or becomes U+FFFD. *)
Definition unquote_u (l : list byte) : Z * nat :=
  match hex4 l with
  | None => (RuneError, 4%nat)
  | Some rr =>
      if negb (surrogate rr) then (rr, 4%nat) else
      match drop 4 l with
      | b :: u :: l' =>
          if (byte_val b =? 92) && (byte_val u =? 117) then
            match hex4 l' with
            | Some rr1 =>
                let dec := utf16_DecodeRune rr rr1 in
                if dec =? RuneError then (RuneError, 4%nat) else (dec, 10%nat)
            | None => (RuneError, 4%nat)
            end
          else (RuneError, 4%nat)
      | _ => (RuneError, 4%nat)
      end
  end.

(** The bytes a literal's text stands for; [skip] bytes belong to the character just read. *)
Fixpoint unquote (skip : nat) (l : list byte) : list byte :=
  match l with
  | [] => []
  | b :: l1 =>
      match skip with
      | S n => unquote n l1
      | O =>
          if byte_val b =? 92 then
            match l1 with
            | [] => []
            | e :: l2 =>
                if byte_val e =? 117 then
                  let '(r, k) := unquote_u l2 in EncodeRune r ++ unquote (S k) l1
                else default e (escape_value e) :: unquote 1 l1
            end
          else if byte_val b <? 128 then b :: unquote 0 l1
          else let '(r, size) := decode_rune b l1 in EncodeRune r ++ unquote (size - 1) l1
      end
  end.

Fixpoint span_digits (l : list byte) : list byte * list byte :=
  match l with
  | b :: l' => if digit b then let '(d, r) := span_digits l' in (b :: d, r) else ([], l)
  | [] => ([], [])
  end.

(** An optional part of a number: its text and the rest, [None] on a syntax error. *)
Definition scan_fraction (l : list byte) : option (list byte * list byte) :=
  match l with
  | b :: l' =>
      if byte_val b =? 46 then
        match span_digits l' with ([], _) => None | (d, r) => Some (b :: d, r) end
      else Some ([], l)
  | [] => Some ([], [])
  end.

Definition scan_exponent (l : list byte) : option (list byte * list byte) :=
  match l with
  | b :: l' =>
      if (byte_val b =? 101) || (byte_val b =? 69) then
        let '(sign, l'') :=
          match l' with
          | s :: k => if (byte_val s =? 43) || (byte_val s =? 45) then ([s], k) else ([], l')
          | [] => ([], [])
          end in
        match span_digits l'' with ([], _) => None | (d, r) => Some (b :: sign ++ d, r) end
      else Some ([], l)
  | [] => Some ([], [])
  end.

Definition scan_integer (l : list byte) : option (list byte * list byte) :=
  match l with
  | b :: l' =>
      if byte_val b =? 48 then Some ([b], l')
      else if digit b then Some (span_digits l) else None
  | [] => None
  end.

Definition scan_number (l : list byte) : option (list byte * list byte) :=
  let '(sign, l) := match l with
                    | b :: l' => if byte_val b =? 45 then ([b], l') else ([], l)
                    | [] => ([], [])
                    end in
  '(i, l) ← scan_integer l;
  '(f, l) ← scan_fraction l;
  '(e, l) ← scan_exponent l;
  Some (sign ++ i ++ f ++ e, l).

(** ** Parsing

    [n] is fuel: a nested value is a shorter text, so more than twice the length is enough
    ([parse_fuel]).  [depth] is the nesting that is still allowed. *)
Definition maxNestingDepth : Z := 10000.

Definition starts (v : Z) (l : list byte) : option (list byte) :=
  match l with b :: l' => if byte_val b =? v then Some l' else None | [] => None end.

Fixpoint parse_value (n : nat) (depth : Z) (l : list byte) {struct n} : option (value * list byte) :=
  match n with
  | O => None
  | S n =>
      match skip_ws l with
      | [] => None
      | b :: l1 =>
          let v := byte_val b in
          if v =? 123 then
            if depth <=? 0 then None else
            match starts 125 (skip_ws l1) with
            | Some r => Some (VObj [], r)
            | None => '(ms, r) ← parse_members n (depth - 1) l1; Some (VObj ms, r)
            end
          else if v =? 91 then
            if depth <=? 0 then None else
            match starts 93 (skip_ws l1) with
            | Some r => Some (VArr [], r)
            | None => '(vs, r) ← parse_elems n (depth - 1) l1; Some (VArr vs, r)
            end
          else if v =? 34 then '(t, r) ← scan_string l1; Some (VStr (string_of (unquote 0 t)), r)
          else if bool_decide (take 4 (b :: l1) = bytes_of "true") then Some (VBool true, drop 4 (b :: l1))
          else if bool_decide (take 5 (b :: l1) = bytes_of "false") then Some (VBool false, drop 5 (b :: l1))
          else if bool_decide (take 4 (b :: l1) = bytes_of "null") then Some (VNull, drop 4 (b :: l1))
          else '(d, r) ← scan_number (b :: l1); Some (VNum d, r)
      end
  end
with parse_elems (n : nat) (depth : Z) (l : list byte) {struct n} : option (list value * list byte) :=
  match n with
  | O => None
  | S n =>
      '(v, r) ← parse_value n depth l;
      match skip_ws r with
      | b :: r' =>
          if byte_val b =? 44 then '(vs, r) ← parse_elems n depth r'; Some (v :: vs, r)
          else if byte_val b =? 93 then Some ([v], r') else None
      | [] => None
      end
  end
with parse_members (n : nat) (depth : Z) (l : list byte) {struct n}
  : option (list (string * list byte * value) * list byte) :=
  match n with
  | O => None
  | S n =>
      l1 ← starts 34 (skip_ws l);
      '(t, r) ← scan_string l1;
      r ← starts 58 (skip_ws r);
      let text := skip_ws r in
      '(v, r') ← parse_value n depth text;
      let m := (string_of (unquote 0 t), take (length text - length r') text, v) in
      match skip_ws r' with
      | b :: r'' =>
          if byte_val b =? 44 then '(ms, r) ← parse_members n depth r''; Some (m :: ms, r)
          else if byte_val b =? 125 then Some ([m], r'') else None
      | [] => None
      end
  end.

(** The first value of a text and what follows it. *)
Definition parse (l : list byte) : option (value * list byte) :=
  parse_value (S (2 * length l)) maxNestingDepth l.

(** ** Decoding

    A decoder gets a value, its text and the previous contents of the variable it fills. *)
Definition decoder (A : Type) := value -> list byte -> A -> option A.

Definition d_string : decoder string := fun v _ old =>
  match v with VStr s => Some s | VNull => Some old | _ => None end.
Definition d_bool : decoder bool := fun v _ old =>
  match v with VBool b => Some b | VNull => Some old | _ => None end.
(** An [int] or [int64]: the literal must be a decimal integer of 64 bits. *)
Definition d_int : decoder Z := fun v _ old =>
  match v with VNum lit => ParseInt (string_of lit) | VNull => Some old | _ => None end.
Definition d_raw : decoder (list byte) := fun _ raw _ => Some raw.
(** A slice: the variable is empty before, and its elements are zero. *)
Definition d_list {A} (zero : A) (d : decoder A) : decoder (list A) := fun v _ old =>
  match v with
  | VArr l => mapM (fun v => d v [] zero) l
  | VNull => Some []
  | _ => None
  end.

(** [foldName] for comparison with an ASCII field name: letters in upper case, and the two other
    runes that fold to an ASCII letter (U+017F to S, U+212A to K). *)
Fixpoint fold_name (l : list byte) : list byte :=
  match l with
  | [] => []
  | b :: l1 =>
      let v := byte_val b in
      if (97 <=? v) && (v <=? 122) then byte_of (v - 32) :: fold_name l1
      else match l1 with
           | c :: l2 =>
               if (v =? 197) && (byte_val c =? 191) then byte_of 83 :: fold_name l2
               else match l2 with
                    | d :: l3 =>
                        if (v =? 226) && (byte_val c =? 132) && (byte_val d =? 170)
                        then byte_of 75 :: fold_name l3 else b :: fold_name l1
                    | [] => b :: fold_name l1
                    end
           | [] => b :: fold_name l1
           end
  end.

Definition name_matches (key field : string) : bool :=
  bool_decide (fold_name (bytes_of key) = fold_name (bytes_of field)).

(** The field of a structure, from the members whose name matches: each is decoded in turn over the
    previous contents.  No two fields of one structure have names that fold to the same text. *)
Fixpoint get_field {A} (d : decoder A) (name : string) (ms : list (string * list byte * value)) (old : A)
  : option A :=
  match ms with
  | [] => Some old
  | (key, raw, v) :: ms =>
      if name_matches key name then a ← d v raw old; get_field d name ms a else get_field d name ms old
  end.

Definition d_struct {A} (f : list (string * list byte * value) -> A -> option A) : decoder A := fun v _ old =>
  match v with
  | VObj ms => f ms old
  | VNull => Some old
  | _ => None
  end.

(** [json.Unmarshal(l, &x)], where [x] is [zero]: nothing but space may follow the value. *)
Definition Unmarshal {A} (d : decoder A) (zero : A) (l : list byte) : option A :=
  '(v, r) ← parse l;
  match skip_ws r with
  | [] => d v (take (length (skip_ws l) - length r) (skip_ws l)) zero
  | _ => None
  end.

(** [json.NewDecoder(io.LimitReader(r, limit)).Decode(&x)]: one value of the first [limit] bytes. *)
Definition LimitReader (limit : Z) (l : list byte) : list byte :=
  if limit <? Z.of_nat (length l) then take (Z.to_nat limit) l else l.

Definition Decode {A} (d : decoder A) (zero : A) (l : list byte) : option A :=
  '(v, r) ← parse l; d v (take (length (skip_ws l) - length r) (skip_ws l)) zero.

(** ** Encoding *)

Definition hex_lower (v : Z) : byte := hex_digit v.

(** An ASCII byte in a string literal, as [json.Marshal] escapes it. *)
Definition quote_ascii (b : byte) : list byte :=
  let v := byte_val b in
  if v =? 34 then bytes_of "\" ++ [b]
  else if v =? 92 then bytes_of "\\"
  else if v =? 8 then bytes_of "\b"
  else if v =? 12 then bytes_of "\f"
  else if v =? 10 then bytes_of "\n"
  else if v =? 13 then bytes_of "\r"
  else if v =? 9 then bytes_of "\t"
  else if (v <? 32) || (v =? 60) || (v =? 62) || (v =? 38) then
    bytes_of "\u00" ++ [hex_lower (v / 16); hex_lower (v mod 16)]
  else [b].

(** [skip] bytes belong to the rune just written: they are copied when [copy]. *)
Fixpoint quote_bytes (copy : bool) (skip : nat) (l : list byte) : list byte :=
  match l with
  | [] => []
  | b :: l1 =>
      match skip with
      | S n => (if copy then [b] else []) ++ quote_bytes copy n l1
      | O =>
          if byte_val b <? 128 then quote_ascii b ++ quote_bytes true 0 l1
          else
            let '(r, size) := decode_rune b l1 in
            if (r =? RuneError) && (size =? 1)%nat then bytes_of "\ufffd" ++ quote_bytes true 0 l1
            else if (r =? 8232) || (r =? 8233) then
              bytes_of "\u202" ++ [hex_lower (Z.land r 15)] ++ quote_bytes false (size - 1) l1
            else b :: quote_bytes true (size - 1) l1
      end
  end.

Definition e_string (s : string) : list byte := byte_of 34 :: quote_bytes true 0 (bytes_of s) ++ [byte_of 34].
Definition e_int (z : Z) : list byte := bytes_of (FormatInt z).
Definition e_bool (b : bool) : list byte := bytes_of (if b then "true" else "false").

(** A [[]byte]: [null] for nil, and base64 otherwise. *)
Definition e_bytes (b : option (list byte)) : list byte :=
  match b with None => bytes_of "null" | Some b => e_string (StdEncodeToString b) end.

Fixpoint e_join (l : list (list byte)) : list byte :=
  match l with
  | [] => []
  | [x] => x
  | x :: l' => x ++ byte_of 44 :: e_join l'
  end.

(** A slice: [null] for nil; the caller says which slices are nil. *)
Definition e_list (l : list (list byte)) : list byte := byte_of 91 :: e_join l ++ [byte_of 93].

Definition e_member (m : string * list byte) : list byte := e_string m.1 ++ byte_of 58 :: m.2.

(** A structure: its fields in order, without those ([None]) that [omitempty] leaves out. *)
Definition e_struct (fs : list (string * option (list byte))) : list byte :=
  byte_of 123 :: e_join (map e_member (omap (fun f => pair f.1 <$> f.2) fs)) ++ [byte_of 125].

(** [omitempty] *)
Definition omit_string (s : string) : option (list byte) := if s =s "" then None else Some (e_string s).

(** ** The fuel is enough *)

Lemma skip_ws_length l : (length (skip_ws l) <= length l)%nat.
Proof. induction l as [|b l IH]; simpl; [done|]. destruct (ws b); simpl; lia. Qed.

Lemma starts_length v l r : starts v l = Some r -> (length r < length l)%nat.
Proof. destruct l; simpl; [done|]. intros. case_match; simplify_eq. lia. Qed.

Lemma scan_string_length l t r : scan_string l = Some (t, r) -> (length r < length l)%nat.
Proof.
  revert t r. induction l as [[|b l1] IH'] using length_ind; intros t r; simpl; [done|].
  destruct (byte_val b =? 34); [intros; simplify_eq; simpl; lia|].
  destruct (byte_val b =? 92).
  - destruct l1 as [|e l2]; [done|]. destruct (byte_val e =? 117).
    + destruct l2 as [|a1 [|a2 [|a3 [|a4 l3]]]]; try done. case_match; [done|].
      destruct (scan_string l3) as [[t' r']|] eqn:E; simpl; [|done]. intros; simplify_eq.
      apply IH' in E; simpl in *; lia.
    + destruct (escape_value e); [|done].
      destruct (scan_string l2) as [[t' r']|] eqn:E; simpl; [|done]. intros; simplify_eq.
      apply IH' in E; simpl in *; lia.
  - destruct (byte_val b <? 32); [done|].
    destruct (scan_string l1) as [[t' r']|] eqn:E; simpl; [|done]. intros; simplify_eq.
    apply IH' in E; simpl in *; lia.
Qed.

Lemma span_digits_length l : (length (span_digits l).2 <= length l)%nat.
Proof.
  induction l as [|b l IH]; simpl; [done|]. destruct (digit b); [|done].
  destruct (span_digits l). simpl in *. lia.
Qed.

Lemma scan_fraction_length l t r : scan_fraction l = Some (t, r) -> (length r <= length l)%nat.
Proof.
  unfold scan_fraction. destruct l as [|b l]; [by intros [= <- <-]|]. pose proof (span_digits_length l).
  case_match; [|by intros [= <- <-]]. destruct (span_digits l) as [[|] ?]; intros; simplify_eq/=; lia.
Qed.

Lemma scan_exponent_length l t r : scan_exponent l = Some (t, r) -> (length r <= length l)%nat.
Proof.
  unfold scan_exponent. destruct l as [|b l]; [by intros [= <- <-]|].
  case_match; [|by intros [= <- <-]].
  destruct l as [|s k]; cbn [span_digits]; [done|].
  destruct ((byte_val s =? 43) || (byte_val s =? 45)).
  - pose proof (span_digits_length k). destruct (span_digits k) as [[|] ?]; intros; simplify_eq/=; lia.
  - pose proof (span_digits_length (s :: k)). destruct (span_digits (s :: k)) as [[|] ?];
      intros; simplify_eq/=; lia.
Qed.

Lemma scan_integer_length l t r : scan_integer l = Some (t, r) -> (length r < length l)%nat.
Proof.
  unfold scan_integer. destruct l as [|b l]; [done|]. case_match; [intros; simplify_eq/=; lia|].
  destruct (digit b) eqn:Eb; [|done]. simpl. rewrite Eb. pose proof (span_digits_length l).
  destruct (span_digits l). intros. simplify_eq/=. lia.
Qed.

Lemma scan_number_length l t r : scan_number l = Some (t, r) -> (length r < length l)%nat.
Proof.
  unfold scan_number. intros E.
  assert (Hs : exists sign k, (length k <= length l)%nat /\
    match l with b :: l' => if byte_val b =? 45 then ([b], l') else ([], l) | [] => ([], []) end = (sign, k)).
  { destruct l as [|b l']; [by exists [], []|].
    destruct (byte_val b =? 45); [exists [b], l'|exists [], (b :: l')]; (split; [|done]); simpl; lia. }
  destruct Hs as (sign & k & Hk & Hs). rewrite Hs in E. clear Hs.
  destruct (scan_integer k) as [[i k1]|] eqn:E1; [|done]. simpl in E.
  destruct (scan_fraction k1) as [[f k2]|] eqn:E2; [|done]. simpl in E.
  destruct (scan_exponent k2) as [[e k3]|] eqn:E3; [|done]. simplify_eq/=.
  apply scan_integer_length in E1. apply scan_fraction_length in E2. apply scan_exponent_length in E3. lia.
Qed.

(** What is left after a value is shorter, and so is what is left after elements and members. *)
Lemma parse_length n :
  (forall d l v r, parse_value n d l = Some (v, r) -> (length r < length l)%nat) /\
  (forall d l v r, parse_elems n d l = Some (v, r) -> (length r < length l)%nat) /\
  (forall d l v r, parse_members n d l = Some (v, r) -> (length r < length l)%nat).
Proof.
  induction n as [|n (IHv & IHe & IHm)]; [done|]. split_and!; intros d l v r; simpl.
  - pose proof (skip_ws_length l) as Hws. destruct (skip_ws l) as [|b l1]; [done|]. simpl in Hws.
    pose proof (skip_ws_length l1). intros E.
    repeat (case_match; simplify_eq/=; try done).
    all: repeat match goal with
      | H : starts _ _ = Some _ |- _ => apply starts_length in H
      | H : (_ ≫= _) = Some _ |- _ => apply bind_Some in H as ([? ?] & ? & ?); simplify_eq/=
      | H : parse_members _ _ _ = Some _ |- _ => apply IHm in H
      | H : parse_elems _ _ _ = Some _ |- _ => apply IHe in H
      | H : scan_string _ = Some _ |- _ => apply scan_string_length in H
      | H : scan_number _ = Some _ |- _ => apply scan_number_length in H
      end; simpl in *; rewrite ?length_drop; try lia.
  - intros ([v' r'] & Hv & E)%bind_Some. apply IHv in Hv. pose proof (skip_ws_length r').
    destruct (skip_ws r') as [|b r2]; [done|]. simpl in *.
    repeat (case_match; simplify_eq/=; try lia).
    apply bind_Some in E as ([? ?] & He & ?). simplify_eq. apply IHe in He. lia.
  - intros (l1 & H1%starts_length & ([t r1] & H2%scan_string_length & (r2 & H3%starts_length & ([v' r'] & H4%IHv & E)%bind_Some)%bind_Some)%bind_Some)%bind_Some.
    pose proof (skip_ws_length l). pose proof (skip_ws_length r1). pose proof (skip_ws_length r2).
    pose proof (skip_ws_length r').
    destruct (skip_ws r') as [|b r3]; [done|]. simpl in *.
    repeat (case_match; simplify_eq/=; try lia).
    apply bind_Some in E as ([? ?] & He & ?). simplify_eq. apply IHm in He. lia.
Qed.

Lemma bind_ext {A B} (o : option A) (f g : A -> option B) :
  (forall a, o = Some a -> f a = g a) -> (o ≫= f) = (o ≫= g).
Proof. destruct o; simpl; eauto. Qed.

(** Two amounts of fuel above the bound give the same result. *)
Lemma parse_fuel n :
  (forall m d l, (2 * length l < n)%nat -> (2 * length l < m)%nat -> parse_value n d l = parse_value m d l) /\
  (forall m d l, (2 * length l + 1 < n)%nat -> (2 * length l + 1 < m)%nat -> parse_elems n d l = parse_elems m d l) /\
  (forall m d l, (2 * length l < n)%nat -> (2 * length l < m)%nat -> parse_members n d l = parse_members m d l).
Proof.
  induction n as [|n (IHv & IHe & IHm)]; [split_and!; intros; lia|].
  split_and!; intros [|m] d l Hn Hm; try lia; simpl.
  - pose proof (skip_ws_length l) as Hws. destruct (skip_ws l) as [|b l1]; [done|]. simpl in Hws.
    repeat (case_match; try done).
    + by rewrite (IHm m) by lia.
    + by rewrite (IHe m) by lia.
  - rewrite (IHv m) by lia. apply bind_ext. intros [v r] Hv. apply parse_length in Hv.
    pose proof (skip_ws_length r). destruct (skip_ws r) as [|b r']; [done|]. simpl in *.
    case_match; [|done]. by rewrite (IHe m) by lia.
  - pose proof (skip_ws_length l). apply bind_ext. intros l1 H1%starts_length.
    apply bind_ext. intros [t r] H2%scan_string_length. pose proof (skip_ws_length r).
    apply bind_ext. intros r2 H3%starts_length. pose proof (skip_ws_length r2).
    rewrite (IHv m) by lia. apply bind_ext. intros [v r'] Hv. apply parse_length in Hv.
    pose proof (skip_ws_length r'). destruct (skip_ws r') as [|b r'']; [done|]. simpl in *.
    case_match; [|done]. by rewrite (IHm m) by lia.
Qed.

(** ** Round trips: strings *)

(** [utf8.ValidString]: no position decodes to an error of width one. *)
Fixpoint valid_utf8 (skip : nat) (l : list byte) : bool :=
  match l with
  | [] => true
  | b :: l1 =>
      match skip with
      | S n => valid_utf8 n l1
      | O => let '(r, size) := decode_rune b l1 in
             negb ((r =? RuneError) && (size =? 1)%nat) && valid_utf8 (size - 1) l1
      end
  end.

Definition ValidString (s : string) : bool := valid_utf8 0 (bytes_of s).

Lemma lor_shift a b n : 0 <= n -> 0 <= b < 2 ^ n -> Z.lor (Z.shiftl a n) b = a * 2 ^ n + b.
Proof.
  intros Hn Hb. rewrite <- Z.shiftl_mul_pow2 by done.
  assert (Hl : Z.land (Z.shiftl a n) b = 0).
  { apply Z.bits_inj'. intros i Hi. rewrite Z.land_spec, Z.bits_0.
    destruct (Z.ltb_spec i n); [by rewrite Z.shiftl_spec_low|].
    rewrite <- (Z.mod_small b (2 ^ n)), Z.mod_pow2_bits_high by lia. apply andb_false_r. }
  by rewrite (Z.add_nocarry_lxor _ _ Hl), (Z.lxor_lor _ _ Hl).
Qed.

Lemma land_low a n : 0 <= n -> Z.land a (Z.ones n) = a mod 2 ^ n.
Proof. apply Z.land_ones. Qed.

Lemma cont_bits_val b : continuation b = true -> cont_bits b = byte_val b - 128 /\ 0 <= cont_bits b < 64.
Proof.
  unfold continuation, cont_bits. intros. bool_prop. change 63 with (Z.ones 6). rewrite land_low by done.
  change (2 ^ 6) with 64. assert (byte_val b mod 64 = byte_val b - 128); [|lia].
  symmetry. apply (Z.mod_unique_pos _ _ 2); lia.
Qed.

Lemma byte_of_eq b z : z = byte_val b -> byte_of z = b.
Proof. intros ->. apply byte_of_val. Qed.

(** The three shapes of a multi-byte rune, as sums. *)
Lemma rune2_val v b1 : 192 <= v < 224 -> continuation b1 = true ->
  Z.lor (Z.shiftl (Z.land v 31) 6) (cont_bits b1) = (v - 192) * 64 + (byte_val b1 - 128).
Proof.
  intros Hv H1. apply cont_bits_val in H1 as [<- Hc].
  change 31 with (Z.ones 5). rewrite land_low, lor_shift by lia.
  replace (v mod 2 ^ 5) with (v - 192); [done|]. apply (Z.mod_unique_pos _ _ 6); lia.
Qed.

Lemma rune3_val v b1 b2 : 224 <= v < 240 -> continuation b1 = true -> continuation b2 = true ->
  Z.lor (Z.lor (Z.shiftl (Z.land v 15) 12) (Z.shiftl (cont_bits b1) 6)) (cont_bits b2) =
  (v - 224) * 4096 + (byte_val b1 - 128) * 64 + (byte_val b2 - 128).
Proof.
  intros Hv H1 H2. apply cont_bits_val in H1 as [<- Hc1], H2 as [<- Hc2].
  change 15 with (Z.ones 4). rewrite land_low by done.
  replace (v mod 2 ^ 4) with (v - 224) by (apply (Z.mod_unique_pos _ _ 14); lia).
  replace 12 with (6 + 6) by done. rewrite <- Z.shiftl_shiftl, <- Z.shiftl_lor by done.
  rewrite !lor_shift by lia. lia.
Qed.

Lemma rune4_val v b1 b2 b3 : 240 <= v < 248 -> continuation b1 = true -> continuation b2 = true ->
  continuation b3 = true ->
  Z.lor (Z.lor (Z.lor (Z.shiftl (Z.land v 7) 18) (Z.shiftl (cont_bits b1) 12)) (Z.shiftl (cont_bits b2) 6))
    (cont_bits b3) =
  (v - 240) * 262144 + (byte_val b1 - 128) * 4096 + (byte_val b2 - 128) * 64 + (byte_val b3 - 128).
Proof.
  intros Hv H1 H2 H3. apply cont_bits_val in H1 as [<- Hc1], H2 as [<- Hc2], H3 as [<- Hc3].
  change 7 with (Z.ones 3). rewrite land_low by done.
  replace (v mod 2 ^ 3) with (v - 240) by (apply (Z.mod_unique_pos _ _ 30); lia).
  replace 18 with (6 + 6 + 6) by done. replace 12 with (6 + 6) by done.
  rewrite <- !Z.shiftl_shiftl, <- !Z.shiftl_lor by done. rewrite !lor_shift by lia. lia.
Qed.

Lemma first_byte_range v size lo hi : first_byte v = Some (size, lo, hi) ->
  128 <= lo /\ hi <= 191 /\
  ((size = 2%nat /\ 194 <= v <= 223) \/
   (size = 3%nat /\ 224 <= v <= 239 /\ (v = 224 -> 160 <= lo) /\ (v = 237 -> hi <= 159)) \/
   (size = 4%nat /\ 240 <= v <= 244 /\ (v = 240 -> 144 <= lo) /\ (v = 244 -> hi <= 143))).
Proof. unfold first_byte. intros. repeat (case_match; simplify_eq); bool_prop; lia. Qed.

Lemma continuation_in lo hi b :
  128 <= lo -> hi <= 191 -> (byte_val b <? lo) || (hi <? byte_val b) = false ->
  continuation b = true /\ lo <= byte_val b <= hi.
Proof.
  intros ? ? H. bool_prop. split; [|lia]. unfold continuation. apply andb_true_iff. rewrite !Z.leb_le. lia.
Qed.

Ltac rune_cases :=
  unfold EncodeRune, surrogate;
  repeat (match goal with
          | |- context [?a <? ?b] => destruct (Z.ltb_spec a b); try lia
          | |- context [?a <=? ?b] => destruct (Z.leb_spec a b); try lia
          end; simpl); try reflexivity.

Lemma EncodeRune2 r : 128 <= r < 2048 -> EncodeRune r = [byte_of (192 + r / 64); byte_of (128 + r mod 64)].
Proof. intros. rune_cases. Qed.

Lemma EncodeRune3 r : 2048 <= r < 65536 -> r < 55296 \/ 57343 < r ->
  EncodeRune r = [byte_of (224 + r / 4096); byte_of (128 + r / 64 mod 64); byte_of (128 + r mod 64)].
Proof. intros. rune_cases. Qed.

Lemma EncodeRune4 r : 65536 <= r <= 1114111 ->
  EncodeRune r = [byte_of (240 + r / 262144); byte_of (128 + r / 4096 mod 64); byte_of (128 + r / 64 mod 64);
                  byte_of (128 + r mod 64)].
Proof. intros. rune_cases. Qed.

(** A valid multi-byte rune is written back as the bytes it was read from, and reading it does not
    depend on what follows. *)
Lemma decode_rune_encode b l r size :
  128 <= byte_val b -> decode_rune b l = (r, size) -> (r =? RuneError) && (size =? 1)%nat = false ->
  EncodeRune r = b :: take (size - 1) l /\ (size - 1 <= length l)%nat /\
  forall k, decode_rune b (take (size - 1) l ++ k) = (r, size).
Proof.
  unfold decode_rune. intros Hb Hd Hok.
  assert (Hbad : (r, size) = (RuneError, 1%nat) -> False) by (intros [= -> ->]; done).
  destruct (Z.ltb_spec (byte_val b) 128); [lia|].
  destruct (first_byte (byte_val b)) as [[[n lo] hi]|] eqn:Ef; [|naive_solver].
  pose proof (first_byte_range _ _ _ _ Ef) as (Hlo & Hhi & Hn).
  destruct l as [|b1 l1]; [naive_solver|].
  destruct ((byte_val b1 <? lo) || (hi <? byte_val b1)) eqn:E1; [naive_solver|].
  pose proof (continuation_in _ _ _ Hlo Hhi E1) as [C1 R1].
  destruct (n =? 2)%nat eqn:E2; [apply Nat.eqb_eq in E2|apply Nat.eqb_neq in E2].
  { simplify_eq. rewrite rune2_val by (done || lia). cbn [Nat.sub take app]. rewrite E1. split_and!.
    - rewrite EncodeRune2 by lia. f_equal; [|f_equal]; apply byte_of_eq; Z.to_euclidean_division_equations; lia.
    - simpl; lia.
    - intros k. cbn. by rewrite rune2_val by (done || lia). }
  destruct l1 as [|b2 l2]; [naive_solver|].
  destruct (continuation b2) eqn:C2; simpl in Hd; [|naive_solver].
  pose proof (cont_bits_val _ C2).
  destruct (n =? 3)%nat eqn:E3; [apply Nat.eqb_eq in E3|apply Nat.eqb_neq in E3].
  { simplify_eq. rewrite rune3_val by (done || lia). cbn [Nat.sub take app]. rewrite E1.
    split_and!.
    - rewrite EncodeRune3 by (done || lia).
      repeat f_equal; apply byte_of_eq; Z.to_euclidean_division_equations; lia.
    - simpl; lia.
    - intros k. cbn. rewrite C2. simpl. by rewrite rune3_val by (done || lia). }
  destruct l2 as [|b3 l3]; [naive_solver|].
  destruct (continuation b3) eqn:C3; simpl in Hd; [|naive_solver].
  pose proof (cont_bits_val _ C3).
  simplify_eq. rewrite rune4_val by (done || lia). cbn [Nat.sub take app]. rewrite E1. split_and!.
  - rewrite EncodeRune4 by lia. repeat f_equal; apply byte_of_eq; Z.to_euclidean_division_equations; lia.
  - simpl; lia.
  - intros k. cbn. rewrite C2, C3. simpl.
    by rewrite rune4_val by (done || lia).
Qed.

Lemma quote_copy n l : quote_bytes true n l = take n l ++ quote_bytes true 0 (drop n l).
Proof. revert n. induction l as [|b l IH]; intros [|n]; try done. simpl. by rewrite IH. Qed.

Lemma quote_skip n l : quote_bytes false n l = quote_bytes true 0 (drop n l).
Proof. revert n. induction l as [|b l IH]; intros [|n]; try done. simpl. by rewrite IH. Qed.

Lemma unquote_skip n l k : length l = n -> unquote n (l ++ k) = unquote 0 k.
Proof. intros <-. induction l; [done|simpl; done]. Qed.

Lemma scan_quote_ascii b k : byte_val b < 128 ->
  scan_string (quote_ascii b ++ k) = '(t, r) ← scan_string k; Some (quote_ascii b ++ t, r).
Proof. destruct b; intros Hb; vm_compute in Hb; (discriminate Hb || reflexivity). Qed.

Lemma unquote_quote_ascii b k : byte_val b < 128 -> unquote 0 (quote_ascii b ++ k) = b :: unquote 0 k.
Proof. destruct b; intros Hb; vm_compute in Hb; (discriminate Hb || reflexivity). Qed.

Lemma unquote_separator r k : (r =? 8232) || (r =? 8233) = true ->
  unquote 0 (bytes_of "\u202" ++ [hex_lower (Z.land r 15)] ++ k) = EncodeRune r ++ unquote 0 k.
Proof. by intros [->%Z.eqb_eq| ->%Z.eqb_eq]%orb_true_iff. Qed.

Lemma scan_high b k : 128 <= byte_val b ->
  scan_string (b :: k) = '(t, r) ← scan_string k; Some (b :: t, r).
Proof.
  intros. cbn [scan_string]. rewrite (proj2 (Z.eqb_neq _ 34)), (proj2 (Z.eqb_neq _ 92)) by lia.
  by rewrite (proj2 (Z.ltb_ge _ _)) by lia.
Qed.

Lemma scan_highs l k : Forall (fun b => 128 <= byte_val b) l ->
  scan_string (l ++ k) = '(t, r) ← scan_string k; Some (l ++ t, r).
Proof.
  induction 1 as [|b l Hb _ IH]; cbn [app]; [by destruct (scan_string k) as [[]|]|].
  rewrite scan_high, IH by done. by destruct (scan_string k) as [[]|].
Qed.

(** What is quoted scans to itself, whatever the bytes. *)
Lemma scan_quote l rest :
  scan_string (quote_bytes true 0 l ++ byte_of 34 :: rest) = Some (quote_bytes true 0 l, rest).
Proof.
  induction l as [[|b l] IH] using length_ind; [reflexivity|]. cbn [quote_bytes].
  destruct (Z.ltb_spec (byte_val b) 128) as [Hb|Hb].
  { by rewrite <- app_assoc, scan_quote_ascii, IH by (done || simpl; lia). }
  destruct (decode_rune b l) as [r size] eqn:Ed.
  apply decode_rune_spec in Ed as [?|(_ & _ & Hf)]; [lia|].
  destruct ((r =? RuneError) && (size =? 1)%nat).
  { rewrite <- app_assoc. cbn -[quote_bytes]. by rewrite IH by (simpl; lia). }
  destruct ((r =? 8232) || (r =? 8233)) eqn:Er.
  - rewrite quote_skip. pose proof (length_drop l (size - 1)).
    apply orb_true_iff in Er as [->%Z.eqb_eq| ->%Z.eqb_eq]; cbn -[quote_bytes];
      by rewrite IH by (simpl; lia).
  - rewrite quote_copy, app_comm_cons, <- app_assoc, scan_highs by (constructor; done).
    pose proof (length_drop l (size - 1)). by rewrite IH by (simpl; lia).
Qed.

(** Valid UTF-8 is read back as it was written. *)
Lemma unquote_quote l : valid_utf8 0 l = true -> unquote 0 (quote_bytes true 0 l) = l.
Proof.
  assert (Hv : forall n k, valid_utf8 n k = true -> valid_utf8 0 (drop n k) = true).
  { intros n k. revert n. induction k as [|c k IHk]; intros [|n]; try done. simpl. apply IHk. }
  induction l as [[|b l] IH] using length_ind; [done|]. cbn [quote_bytes valid_utf8].
  destruct (decode_rune b l) as [r size] eqn:Ed.
  destruct (Z.ltb_spec (byte_val b) 128) as [Hb|Hb].
  { apply decode_rune_spec in Ed as [(_ & _ & ->)|?]; [|lia]. intros [_ H]%andb_true_iff.
    by rewrite unquote_quote_ascii, IH by (done || simpl; lia). }
  destruct ((r =? RuneError) && (size =? 1)%nat) eqn:Ee; [done|]. cbn [negb andb]. intros Hval.
  destruct (decode_rune_encode b l r size Hb Ed Ee) as (He & Hs & Hk).
  pose proof (length_drop l (size - 1)) as Hlen.
  assert (Ht : length (take (size - 1) l) = (size - 1)%nat) by (rewrite length_take; lia).
  destruct ((r =? 8232) || (r =? 8233)) eqn:Er.
  - rewrite quote_skip.
    rewrite unquote_separator, He, IH by (done || (simpl; lia) || by apply Hv).
    simpl. by rewrite take_drop.
  - rewrite quote_copy. cbn [unquote].
    rewrite (proj2 (Z.eqb_neq _ 92)), (proj2 (Z.ltb_ge _ _)), Hk by lia.
    rewrite He, unquote_skip, IH by (done || (simpl; lia) || by apply Hv).
    simpl. by rewrite take_drop.
Qed.

(** ** Round trips: values

    [txt] is a text of [v]: the parser reads [v] from it and stops where it ends, when what follows
    cannot be more of a number. *)
Definition stop (l : list byte) : Prop :=
  match l with
  | [] => True
  | b :: _ => digit b = false /\ byte_val b <> 46 /\ byte_val b <> 101 /\ byte_val b <> 69
  end.

Definition encodes (d : Z) (txt : list byte) (v : value) : Prop :=
  (exists b t, txt = b :: t /\ ws b = false) /\
  forall n rest, (2 * length (txt ++ rest) < n)%nat -> stop rest ->
    parse_value n d (txt ++ rest) = Some (v, rest).

Lemma encodes_skip_ws d txt v rest : encodes d txt v -> skip_ws (txt ++ rest) = txt ++ rest.
Proof. intros [(b & t & -> & Hb) _]. simpl. by rewrite Hb. Qed.

Lemma skip_byte z l : ws (byte_of z) = false -> skip_ws (byte_of z :: l) = byte_of z :: l.
Proof. intros H. cbn [skip_ws]. by rewrite H. Qed.

Lemma scan_e_string s rest :
  starts 34 (e_string s ++ rest) ≫= scan_string = Some (quote_bytes true 0 (bytes_of s), rest).
Proof.
  unfold e_string. cbn [app starts]. change (byte_val (byte_of 34) =? 34) with true. simpl.
  rewrite <- app_assoc. apply scan_quote.
Qed.

Lemma unquote_e_string s : ValidString s = true -> string_of (unquote 0 (quote_bytes true 0 (bytes_of s))) = s.
Proof. intros Hs. rewrite unquote_quote by done. apply string_of_bytes_of. Qed.

Lemma encodes_string d s : ValidString s = true -> encodes d (e_string s) (VStr s).
Proof.
  intros Hs. split; [by eexists _, _|]. intros [|n] rest Hn _; [simpl in Hn; lia|].
  pose proof (scan_e_string s rest) as Hsc. unfold e_string in *. cbn [app starts] in Hsc.
  change (byte_val (byte_of 34) =? 34) with true in Hsc. simpl in Hsc. cbn [app parse_value].
  rewrite skip_byte by done. change (byte_val (byte_of 34)) with 34. cbn [Z.eqb Pos.eqb].
  rewrite Hsc. simpl. by rewrite unquote_e_string.
Qed.

Lemma encodes_bool d b : encodes d (e_bool b) (VBool b).
Proof. split; [destruct b; by eexists _, _|]. intros [|n] rest Hn _; [simpl in Hn; lia|]. by destruct b. Qed.

Lemma encodes_null d : encodes d (bytes_of "null") VNull.
Proof. split; [by eexists _, _|]. by intros [|n] rest Hn _; [simpl in Hn; lia|]. Qed.

(** ASCII text is valid. *)
Lemma valid_ascii l : Forall (fun b => byte_val b < 128) l -> valid_utf8 0 l = true.
Proof.
  induction 1 as [|b l Hb _ IH]; [done|]. cbn [valid_utf8].
  unfold decode_rune. rewrite (proj2 (Z.ltb_lt _ _) Hb). cbn [Nat.sub].
  rewrite IH, andb_true_r. unfold RuneError. destruct (Z.eqb_spec (byte_val b) 65533); [lia|done].
Qed.

Lemma valid_graphic s : Forall (fun b => graphic b = true) (bytes_of s) -> ValidString s = true.
Proof.
  intros H. apply valid_ascii. eapply Forall_impl; [exact H|]. unfold graphic. intros b Hb. bool_prop. lia.
Qed.

(** *** Integers *)

Lemma to_uint_head p d : Pos.to_uint p <> D0 d.
Proof.
  intros E. pose proof (Unsigned.to_of (Pos.to_uint p)) as Hu. rewrite Unsigned.of_to in Hu.
  simpl in Hu. rewrite E, unorm_D0 in Hu.
  assert (Hd : d = Nil \/ d <> Nil) by (destruct d; auto). destruct Hd as [->|Hd].
  - by apply (DecimalPos.Unsigned.to_uint_nonzero p).
  - pose proof (nb_digits_unorm d Hd) as Hn. rewrite <- Hu in Hn. simpl in Hn. lia.
Qed.

Lemma span_digits_app l rest : forallb digit l = true -> stop rest -> span_digits (l ++ rest) = (l, rest).
Proof.
  intros Hl Hs. induction l as [|b l IH]; simpl in *.
  - destruct rest as [|c rest]; [done|]. simpl. by destruct Hs as (-> & _).
  - apply andb_true_iff in Hl as [-> Hl]. by rewrite IH.
Qed.

Lemma uint_digits d : forallb digit (bytes_of (NilEmpty.string_of_uint d)) = true.
Proof. induction d; simpl; done. Qed.

Lemma scan_rest rest : stop rest ->
  scan_fraction rest = Some ([], rest) /\ scan_exponent rest = Some ([], rest).
Proof.
  destruct rest as [|b rest]; [done|]. intros (_ & H1 & H2 & H3). simpl.
  by rewrite (proj2 (Z.eqb_neq _ 46)), (proj2 (Z.eqb_neq _ 101)), (proj2 (Z.eqb_neq _ 69)).
Qed.

(** A decimal without a leading zero, or zero, scans as one integer. *)
Lemma scan_uint d rest : d <> Nil -> (forall d', d <> D0 d') \/ d = D0 Nil -> stop rest ->
  scan_integer (bytes_of (NilZero.string_of_uint d) ++ rest) = Some (bytes_of (NilZero.string_of_uint d), rest).
Proof.
  intros Hn Hh Hs. destruct Hh as [Hh| ->]; [|done].
  assert (Hz : NilZero.string_of_uint d = NilEmpty.string_of_uint d) by (by destruct d).
  rewrite Hz. pose proof (span_digits_app _ rest (uint_digits d) Hs) as Hsp.
  destruct d; try done; simpl in Hsp |- *; (by destruct (Hh d)) || by rewrite Hsp.
Qed.

Lemma scan_number_sign sign l i rest :
  (sign = [] /\ match l with b :: _ => byte_val b <> 45 | [] => True end) \/ sign = [byte_of 45] ->
  scan_integer l = Some (i, rest) -> stop rest -> scan_number (sign ++ l) = Some (sign ++ i, rest).
Proof.
  intros Hsg Hi Hs. destruct (scan_rest rest Hs) as [Hf He]. unfold scan_number.
  destruct Hsg as [[-> Hl]| ->].
  - destruct l as [|b l]; [done|]. cbn [app]. rewrite (proj2 (Z.eqb_neq _ _)) by done.
    rewrite Hi. simpl. rewrite Hf. simpl. rewrite He. simpl. by rewrite !app_nil_r.
  - cbn [app]. change (byte_val (byte_of 45) =? 45) with true. cbn iota.
    rewrite Hi. simpl. rewrite Hf. simpl. rewrite He. simpl. by rewrite !app_nil_r.
Qed.

Lemma scan_FormatInt z rest : stop rest ->
  scan_number (bytes_of (FormatInt z) ++ rest) = Some (bytes_of (FormatInt z), rest).
Proof.
  intros Hs. unfold FormatInt. destruct z as [|p|p].
  - apply (scan_number_sign []); [left; by split|done|done].
  - change (NilZero.string_of_int _) with (NilZero.string_of_uint (Pos.to_uint p)).
    apply (scan_number_sign []); [left; split; [done|]| |done].
    + pose proof (to_uint_nonnil p). by destruct (Pos.to_uint p).
    + apply scan_uint; [apply to_uint_nonnil|left; apply to_uint_head|done].
  - change (NilZero.string_of_int _) with (String "-"%char (NilZero.string_of_uint (Pos.to_uint p))).
    rewrite bytes_of_cons. apply (scan_number_sign [byte_of 45]); [by right| |done].
    apply scan_uint; [apply to_uint_nonnil|left; apply to_uint_head|done].
Qed.

Lemma FormatInt_head z : exists b t, bytes_of (FormatInt z) = b :: t /\ dec_char b = true.
Proof.
  pose proof (FormatInt_chars z) as Hc. destruct (bytes_of (FormatInt z)) as [|b t] eqn:E.
  - apply bytes_of_empty in E. pose proof (scan_FormatInt z [] I) as Hs. by rewrite E in Hs.
  - apply andb_true_iff in Hc as [Hc _]. eauto.
Qed.

Lemma encodes_int d z : encodes d (e_int z) (VNum (bytes_of (FormatInt z))).
Proof.
  destruct (FormatInt_head z) as (b & t & E & Hb). unfold e_int. split.
  - exists b, t. split; [done|]. by destruct b.
  - intros [|n] rest Hn Hs; [simpl in Hn; lia|]. pose proof (scan_FormatInt z rest Hs) as Hz.
    rewrite E in Hz |- *. cbn [app] in *. cbn [parse_value].
    assert (Hw : skip_ws (b :: t ++ rest) = b :: t ++ rest) by (by destruct b).
    rewrite Hw. destruct b; try done; cbn -[scan_number]; by rewrite Hz.
Qed.

(** *** Slices and structures *)

Lemma stop_byte z l : digit (byte_of z) = false -> z = 44 \/ z = 93 \/ z = 125 \/ z = 10 -> stop (byte_of z :: l).
Proof. intros Hd [->|[->|[->| ->]]]; by split_and!. Qed.
#[local] Hint Resolve stop_byte : luna.

Lemma e_string_split s rest :
  exists q, e_string s ++ rest = byte_of 34 :: q /\ scan_string q = Some (quote_bytes true 0 (bytes_of s), rest).
Proof.
  exists (quote_bytes true 0 (bytes_of s) ++ byte_of 34 :: rest). split; [|apply scan_quote].
  unfold e_string. cbn [app]. by rewrite <- app_assoc.
Qed.

(** One member, followed by a comma or the closing brace. *)
Lemma parse_member n d name txt v k rest :
  ValidString name = true -> encodes d txt v -> stop k -> (2 * length (txt ++ k) < n)%nat ->
  (exists z r, k = byte_of z :: r /\ (z = 125 /\ rest = Some ([], r) \/ z = 44 /\ rest = parse_members n d r)) ->
  parse_members (S n) d (e_member (name, txt) ++ k) = '(ms, r) ← rest; Some ((name, txt, v) :: ms, r).
Proof.
  intros Hname [Htxt Hv] Hstop Hn Hk. unfold e_member. cbn [fst snd]. rewrite <- app_assoc. cbn [app].
  destruct (e_string_split name (byte_of 58 :: txt ++ k)) as (q & -> & Hq).
  cbn [parse_members]. rewrite skip_byte by done. cbn [starts]. change (byte_val (byte_of 34) =? 34) with true.
  cbn [mbind option_bind]. rewrite Hq. cbn [mbind option_bind]. rewrite skip_byte by done.
  cbn [starts]. change (byte_val (byte_of 58) =? 58) with true. cbn [mbind option_bind].
  rewrite (encodes_skip_ws d txt v) by done. rewrite (Hv n) by done. cbn [mbind option_bind].
  rewrite unquote_e_string by done.
  replace (take (length (txt ++ k) - length k) (txt ++ k)) with txt.
  2:{ rewrite length_app. replace (length txt + length k - length k)%nat with (length txt) by lia.
      by rewrite take_app_length. }
  destruct Hk as (z & r & -> & [[-> ->]|[-> ->]]); by rewrite skip_byte by done.
Qed.

Lemma e_member_length name txt : (length txt < length (e_member (name, txt)))%nat.
Proof. unfold e_member. rewrite length_app. simpl. lia. Qed.

Definition members (ms : list (string * list byte)) (vs : list value) : list (string * list byte * value) :=
  zip_with (fun m v => (m.1, m.2, v)) ms vs.

Lemma parse_e_members d ms vs rest n :
  ms <> [] -> Forall2 (fun m v => ValidString m.1 = true /\ encodes d m.2 v) ms vs ->
  (2 * length (e_join (map e_member ms) ++ byte_of 125 :: rest) < n)%nat ->
  parse_members n d (e_join (map e_member ms) ++ byte_of 125 :: rest) = Some (members ms vs, rest).
Proof.
  intros Hne H. revert n rest Hne. induction H as [|[name txt] v ms vs [Hv He] Hms IH]; [done|].
  intros [|n] rest _ Hn; [rewrite length_app in Hn; simpl in Hn; lia|].
  destruct ms as [|m ms].
  - apply Forall2_nil_inv_l in Hms as ->. cbn [map e_join] in *.
    rewrite (parse_member n d name txt v _ (Some ([], rest))); [done|done|done| | |].
    + auto with luna.
    + pose proof (e_member_length name txt). rewrite !length_app in *. cbn [length] in *. lia.
    + exists 125, rest. auto.
  - change (e_join (map e_member ((name, txt) :: m :: ms)))
      with (e_member (name, txt) ++ byte_of 44 :: e_join (map e_member (m :: ms))) in *.
    rewrite <- app_assoc in Hn |- *. cbn [app] in *.
    assert (Hl : (2 * length (e_join (map e_member (m :: ms)) ++ byte_of 125 :: rest) < n)%nat).
    { rewrite length_app in Hn. simpl in Hn. rewrite ?length_app in *. simpl in *. lia. }
    rewrite (parse_member n d name txt v _
      (parse_members n d (e_join (map e_member (m :: ms)) ++ byte_of 125 :: rest))); [|done|done| | |eauto 10].
    + by rewrite IH.
    + auto with luna.
    + pose proof (e_member_length name txt). rewrite !length_app in *. cbn [length] in *. lia.
Qed.

(** The fields of a structure with the values their texts stand for. *)
Definition slots := list (string * option (list byte * value)).
Definition texts (l : slots) : list (string * option (list byte)) := map (fun s => (s.1, fst <$> s.2)) l.
Definition present (l : slots) : list (string * list byte * value) :=
  omap (fun s => (fun tv => (s.1, tv.1, tv.2)) <$> s.2) l.

Definition slot_ok (d : Z) (s : string * option (list byte * value)) : Prop :=
  ValidString s.1 = true /\ match s.2 with Some (t, v) => encodes d t v | None => True end.

Lemma encodes_struct d l : 0 < d -> Forall (slot_ok (d - 1)) l -> encodes d (e_struct (texts l)) (VObj (present l)).
Proof.
  intros Hd H. unfold e_struct.
  assert (Hm : exists ms vs, omap (fun f => pair f.1 <$> f.2) (texts l) = ms /\ present l = members ms vs /\
    Forall2 (fun m v => ValidString m.1 = true /\ encodes (d - 1) m.2 v) ms vs).
  { induction H as [|[k [[t v]|]] l [Hk Hv] _ (ms & vs & E1 & E2 & E3)]; [by exists [], []| |].
    - exists ((k, t) :: ms), (v :: vs). split_and!; [| |by constructor].
      + rewrite <- E1. reflexivity.
      + change (present ((k, Some (t, v)) :: l)) with ((k, t, v) :: present l). by rewrite E2.
    - exists ms, vs. done. }
  destruct Hm as (ms & vs & -> & -> & Hf). clear H.
  split; [by eexists _, _|]. intros [|n] rest Hn _; [simpl in Hn; lia|].
  cbn [app] in *. rewrite <- app_assoc in *. cbn [app parse_value] in *.
  rewrite skip_byte by done. change (byte_val (byte_of 123)) with 123. cbn [Z.eqb Pos.eqb].
  rewrite (proj2 (Z.leb_gt _ _)) by done.
  destruct ms as [|m ms]; [apply Forall2_nil_inv_l in Hf as ->; done|].
  assert (Hs : starts 125 (skip_ws (e_join (map e_member (m :: ms)) ++ byte_of 125 :: rest)) = None).
  { destruct ms; done. }
  rewrite Hs, (parse_e_members _ _ vs); [done|done|done|]. simpl in Hn |- *. lia.
Qed.

(** Reading one field back from the slots. *)
Fixpoint get_slot {A} (d : decoder A) (name : string) (l : slots) (old : A) : option A :=
  match l with
  | [] => Some old
  | (k, o) :: l =>
      if name_matches k name then
        a ← match o with Some (t, v) => d v t old | None => Some old end; get_slot d name l a
      else get_slot d name l old
  end.

Lemma get_field_present {A} (d : decoder A) name l old :
  get_field d name (present l) old = get_slot d name l old.
Proof.
  revert old. induction l as [|[k [[t v]|]] l IH]; intros old; [done| |]; simpl.
  - destruct (name_matches k name); [|apply IH]. destruct (d v t old); simpl; [apply IH|done].
  - destruct (name_matches k name); apply IH.
Qed.

(** A field whose name matches one slot only is read from it: the positions are computed from the
    names alone. *)
Fixpoint matching (i : nat) (name : string) (keys : list string) : list nat :=
  match keys with
  | [] => []
  | k :: keys => (if name_matches k name then [i] else []) ++ matching (S i) name keys
  end.

Lemma matching_none {A} (d : decoder A) i name l old :
  matching i name (map fst l) = [] -> get_slot d name l old = Some old.
Proof.
  revert i. induction l as [|[k o] l IH]; intros i; simpl; [done|].
  destruct (name_matches k name); [done|]. apply IH.
Qed.

Lemma get_slot_at {A} (d : decoder A) name l old i k o :
  matching 0 name (map fst l) = [i] -> l !! i = Some (k, o) ->
  get_slot d name l old = match o with Some (t, v) => d v t old | None => Some old end.
Proof.
  enough (Hg : forall j l, matching j name (map fst l) = [i] -> l !! (i - j)%nat = Some (k, o) -> (j <= i)%nat ->
    get_slot d name l old = match o with Some (t, v) => d v t old | None => Some old end).
  { intros Hm Hl. eapply (Hg 0%nat); [done|by rewrite Nat.sub_0_r|lia]. }
  clear l. intros j l. revert j. induction l as [|[k' o'] l IH]; intros j; simpl; [done|].
  destruct (name_matches k' name) eqn:Ek.
  - intros [= -> Hm] Hl _. rewrite Nat.sub_diag in Hl. simpl in Hl. simplify_eq.
    destruct o as [[t v]|]; [destruct (d v t old); simpl; [|done]|]; simpl; by apply (matching_none _ (S i)).
  - simpl. intros Hm Hl Hj. destruct (decide (j = i)) as [->|].
    + exfalso. clear -Hm. assert (Hle : forall l j, i ∈ matching j name l -> (j <= i)%nat).
      { induction l0 as [|x l0 IH]; intros j; simpl; [set_solver|]. rewrite elem_of_app.
        intros [Hx|Hx%IH]; [|lia]. destruct (name_matches x name); set_solver. }
      specialize (Hle (map fst l) (S i)). rewrite Hm in Hle. set_solver by lia.
    + apply (IH (S j) Hm); [|lia]. by replace (i - j)%nat with (S (i - S j)) in Hl by lia.
Qed.

Lemma get_field_at {A} (d : decoder A) name l old i k o a :
  matching 0 name (map fst l) = [i] -> l !! i = Some (k, o) ->
  match o with Some (t, v) => d v t old | None => Some old end = Some a ->
  get_field d name (present l) old = Some a.
Proof. intros. rewrite get_field_present. by erewrite get_slot_at. Qed.

Lemma get_field_absent {A} (d : decoder A) name l old :
  matching 0 name (map fst l) = [] -> get_field d name (present l) old = Some old.
Proof. intros. rewrite get_field_present. by eapply matching_none. Qed.

Lemma bind_step {A B} (o : option A) (f : A -> option B) a r : o = Some a -> f a = r -> (o ≫= f) = r.
Proof. by intros -> <-. Qed.

(** Read the next field of a structure from the slot at position [i], by the fact [tac] about its value. *)
Ltac read_field i tac :=
  eapply bind_step; [eapply (get_field_at _ _ _ _ i); [vm_compute; reflexivity|reflexivity|tac]|].
Ltac no_field := eapply bind_step; [apply get_field_absent; vm_compute; reflexivity|].

(** A text field, always written or only when not empty. *)
Definition s_string (s : string) : option (list byte * value) := Some (e_string s, VStr s).
Definition s_omit (s : string) : option (list byte * value) := if s =s "" then None else s_string s.
Definition s_int (z : Z) : option (list byte * value) := Some (e_int z, VNum (bytes_of (FormatInt z))).
Definition s_bool (b : bool) : option (list byte * value) := Some (e_bool b, VBool b).

Lemma omit_text s : omit_string s = fst <$> s_omit s.
Proof. unfold omit_string, s_omit. by destruct (s =s ""). Qed.

Lemma get_omit s : match s_omit s with Some (t, v) => d_string v t "" | None => Some "" end = Some s.
Proof. unfold s_omit. destruct (s =s "") eqn:E; str_prop; by subst. Qed.

Lemma get_int z t old : in_int64 z -> d_int (VNum (bytes_of (FormatInt z))) t old = Some z.
Proof. intros Hz. unfold d_int. by rewrite string_of_bytes_of, ParseInt_FormatInt. Qed.

Lemma slot_string d k s : ValidString k = true -> ValidString s = true -> slot_ok d (k, s_string s).
Proof. intros. split; [done|]. by apply encodes_string. Qed.
Lemma slot_omit d k s : ValidString k = true -> ValidString s = true -> slot_ok d (k, s_omit s).
Proof. intros. split; [done|]. unfold s_omit. simpl. destruct (s =s ""); [done|]. by apply encodes_string. Qed.
Lemma slot_int d k z : ValidString k = true -> slot_ok d (k, s_int z).
Proof. intros. split; [done|]. apply encodes_int. Qed.
Lemma slot_bool d k b : ValidString k = true -> slot_ok d (k, s_bool b).
Proof. intros. split; [done|]. apply encodes_bool. Qed.
#[export] Hint Resolve slot_string slot_omit slot_int slot_bool : luna.

Lemma parse_e_elems d ts vs rest n :
  ts <> [] -> Forall2 (encodes d) ts vs ->
  (2 * length (e_join ts ++ byte_of 93 :: rest) + 1 < n)%nat ->
  parse_elems n d (e_join ts ++ byte_of 93 :: rest) = Some (vs, rest).
Proof.
  intros Hne H. revert n rest Hne. induction H as [|t v ts vs He Hts IH]; [done|].
  intros [|n] rest _ Hn; [lia|]. destruct ts as [|t' ts]; cbn [parse_elems].
  - apply Forall2_nil_inv_l in Hts as ->. cbn [e_join] in *.
    rewrite (proj2 He) by (auto with luna || lia). simpl. done.
  - change (e_join (t :: t' :: ts)) with (t ++ byte_of 44 :: e_join (t' :: ts)) in *.
    rewrite <- app_assoc in Hn |- *. cbn [app] in *.
    rewrite (proj2 He) by (auto with luna || lia). cbn [mbind option_bind]. rewrite skip_byte by done.
    change (byte_val (byte_of 44) =? 44) with true. cbn iota.
    rewrite IH; [done|done|]. destruct He as [(b & t0 & -> & _) _].
    rewrite !length_app in *. cbn [length] in *. rewrite ?length_app in *. cbn [length] in *. lia.
Qed.

Lemma encodes_list d ts vs : 0 < d -> Forall2 (encodes (d - 1)) ts vs -> encodes d (e_list ts) (VArr vs).
Proof.
  intros Hd H. split; [by eexists _, _|]. intros [|n] rest Hn _; [simpl in Hn; lia|].
  unfold e_list in *. cbn [app] in *. rewrite <- app_assoc in *. cbn [app parse_value] in *.
  rewrite skip_byte by done. change (byte_val (byte_of 91)) with 91. cbn [Z.eqb Pos.eqb].
  rewrite (proj2 (Z.leb_gt _ _)) by done.
  destruct H as [|t v ts vs He Hts]; [done|].
  assert (Hs : exists b k, e_join (t :: ts) ++ byte_of 93 :: rest = b :: k /\ ws b = false /\ byte_val b <> 93).
  { destruct He as [(b & t0 & -> & Hb) Hp]. exists b, (t0 ++ drop (S (length t0)) (e_join ((b :: t0) :: ts) ++ byte_of 93 :: rest)).
    split; [|split; [done|]].
    - destruct ts; simpl; by rewrite <- ?app_assoc, drop_app_length.
    - intros Eb. specialize (Hp (S (2 * length ((b :: t0) ++ []))) [] ltac:(lia) I). simpl in Hp.
      rewrite Hb in Hp. rewrite Eb in Hp. simpl in Hp.
      by destruct b. }
  destruct Hs as (b & k & E & Hb & Hne).
  assert (Hs : starts 93 (skip_ws (e_join (t :: ts) ++ byte_of 93 :: rest)) = None).
  { rewrite E. simpl. rewrite Hb. simpl. by rewrite (proj2 (Z.eqb_neq _ _)). }
  rewrite Hs, (parse_e_elems _ _ (v :: vs)); [done|done|by constructor|]. simpl in Hn |- *. lia.
Qed.

Lemma base64_valid b : ValidString (StdEncodeToString b) = true.
Proof.
  apply valid_graphic. unfold StdEncodeToString. rewrite bytes_of_string_of.
  eapply Forall_impl; [apply b64_chars_ok|]. naive_solver.
Qed.

Lemma encodes_base64 d b : encodes d (e_string (StdEncodeToString b)) (VStr (StdEncodeToString b)).
Proof. apply encodes_string, base64_valid. Qed.

Lemma encodes_bytes d o :
  encodes d (e_bytes o) (match o with None => VNull | Some b => VStr (StdEncodeToString b) end).
Proof. destruct o; [apply encodes_base64|apply encodes_null]. Qed.

(** A quoted byte takes at most six. *)
Lemma quote_length copy n l : (length (quote_bytes copy n l) <= 6 * length l)%nat.
Proof.
  assert (Ha : forall b, byte_val b < 128 -> (length (quote_ascii b) <= 6)%nat).
  { intros b Hb. destruct b; vm_compute in Hb; (discriminate Hb || (vm_compute; lia)). }
  revert copy n. induction l as [|b l IH]; intros copy n; [done|]. cbn [quote_bytes length].
  destruct n as [|n].
  - destruct (Z.ltb_spec (byte_val b) 128) as [Hb|Hb].
    { rewrite length_app. specialize (Ha b Hb). specialize (IH true 0%nat). lia. }
    destruct (decode_rune b l) as [r size]. pose proof (IH true 0%nat). pose proof (IH false (size - 1)%nat).
    pose proof (IH true (size - 1)%nat). repeat case_match; rewrite ?length_app; simpl; lia.
  - specialize (IH copy n). rewrite length_app. destruct copy; simpl; lia.
Qed.

Lemma e_string_length s : (length (e_string s) <= 6 * String.length s + 2)%nat.
Proof.
  unfold e_string. cbn [length]. rewrite length_app. cbn [length].
  pose proof (quote_length true 0 (bytes_of s)). rewrite length_bytes_of in *. lia.
Qed.

Lemma LimitReader_all limit l : Z.of_nat (length l) <= limit -> LimitReader limit l = l.
Proof. intros. unfold LimitReader. by rewrite (proj2 (Z.ltb_ge _ _)). Qed.

(** *** What is marshalled is unmarshalled *)

Lemma Unmarshal_encodes {A} (dec : decoder A) zero txt v :
  encodes maxNestingDepth txt v -> Unmarshal dec zero txt = dec v txt zero.
Proof.
  intros H. unfold Unmarshal, parse. pose proof (proj2 H (S (2 * length txt)) []) as Hp.
  rewrite app_nil_r in Hp. rewrite Hp by (done || lia). cbn [mbind option_bind skip_ws].
  pose proof (encodes_skip_ws _ _ _ [] H) as Hw. rewrite app_nil_r in Hw. rewrite Hw.
  simpl. by rewrite Nat.sub_0_r, firstn_all.
Qed.

(** The encoder of a response ends its text with a newline. *)
Lemma Decode_encodes {A} (dec : decoder A) zero txt v :
  encodes maxNestingDepth txt v -> Decode dec zero (txt ++ [byte_of 10]) = dec v txt zero.
Proof.
  intros H. unfold Decode, parse. rewrite (proj2 H) by (auto with luna || lia). cbn [mbind option_bind].
  rewrite (encodes_skip_ws _ _ _ _ H), length_app.
  replace (length txt + length [byte_of 10] - length [byte_of 10])%nat with (length txt) by lia.
  by rewrite take_app_length.
Qed.

End Json.
