(* ===== verification/GoFormat.v ===== *)
(** * Rendering times and durations

    [time.Time.Format(time.RFC3339)] in UTC and [time.Duration.String], as the approval messages
    use them. *)

From Stdlib Require Import Ascii.
From S2P Require Import Prelude GoTime GoStrings.

(** Decimal digits padded with zeros on the left to at least [n] characters. *)
Definition pad_left (n : nat) (s : string) : string :=
  string_of (replicate (n - String.length s) Byte.x30) +:+ s.
Definition digits (n : nat) (z : Z) : string := pad_left n (FormatInt z).

(** The proleptic Gregorian date of a day count since 1970-01-01: year, month, day. *)
Definition civil (days : Z) : Z * Z * Z :=
  let z := days + 719468 in
  let era := z / 146097 in
  let doe := z mod 146097 in
  let yoe := (doe - doe / 1460 + doe / 36524 - doe / 146096) / 365 in
  let doy := doe - (365 * yoe + yoe / 4 - yoe / 100) in
  let mp := (5 * doy + 2) / 153 in
  let d := doy - (153 * mp + 2) / 5 + 1 in
  let m := if mp <? 10 then mp + 3 else mp - 9 in
  let y := yoe + era * 400 + (if m <=? 2 then 1 else 0) in
  (y, m, d).

Definition RFC3339 (t : Z) : string :=
  let sec := Unix t in
  let '(y, m, d) := civil (sec / 86400) in
  let s := sec mod 86400 in
  digits 4 y +:+ "-" +:+ digits 2 m +:+ "-" +:+ digits 2 d +:+ "T" +:+
  digits 2 (s / 3600) +:+ ":" +:+ digits 2 (s / 60 mod 60) +:+ ":" +:+ digits 2 (s mod 60) +:+ "Z".

(** The fraction of [v] in units of [10^prec]: nothing when zero, trailing zeros dropped. *)
Definition fraction (v : Z) (prec : nat) : string :=
  let f := v mod 10 ^ Z.of_nat prec in
  if f =? 0 then "" else "." +:+ TrimRight (digits prec f) "0"%char.

(** [Duration.String]; the magnitude is a [uint64]. *)
Definition Duration_String (d : Z) : string :=
  let u := uint64 (Z.abs d) in
  let body :=
    if u =? 0 then "0s"
    else if u <? 1000 then FormatInt u +:+ "ns"
    else if u <? 1000000 then FormatInt (u / 1000) +:+ fraction u 3 +:+ string_of [Byte.xc2; Byte.xb5] +:+ "s"
    else if u <? Second then FormatInt (u / 1000000) +:+ fraction u 6 +:+ "ms"
    else
      let s := u / Second in
      let secs := FormatInt (s mod 60) +:+ fraction u 9 +:+ "s" in
      let m := s / 60 in
      if m =? 0 then secs else
      let mins := FormatInt (m mod 60) +:+ "m" +:+ secs in
      let h := m / 60 in
      if h =? 0 then mins else FormatInt h +:+ "h" +:+ mins in
  if d <? 0 then "-" +:+ body else body.

Example RFC3339_epoch : RFC3339 0 = "1970-01-01T00:00:00Z".
Proof. vm_compute. reflexivity. Qed.
Example RFC3339_2023 : RFC3339 (1700000000 * Second) = "2023-11-14T22:13:20Z".
Proof. vm_compute. reflexivity. Qed.
Example RFC3339_leap : RFC3339 (951782400 * Second) = "2000-02-29T00:00:00Z".
Proof. vm_compute. reflexivity. Qed.
Example Duration_minutes : Duration_String (300 * Second) = "5m0s".
Proof. vm_compute. reflexivity. Qed.
Example Duration_fraction : Duration_String (1500 * 1000000) = "1.5s".
Proof. vm_compute. reflexivity. Qed.
Example Duration_hours : Duration_String (- (3 * Hour + 30 * Second)) = "-3h0m30s".
Proof. vm_compute. reflexivity. Qed.

(** Instants are rendered with printable ASCII characters. *)
Definition printable (s : string) : Prop := Forall (fun b => graphic b = true) (bytes_of s).

Lemma printable_app s t : printable s -> printable t -> printable (s +:+ t).
Proof. unfold printable. rewrite bytes_of_app. apply Forall_app_2. Qed.

Lemma digits_printable n z : printable (digits n z).
Proof.
  unfold digits, pad_left. apply printable_app; unfold printable.
  - rewrite bytes_of_string_of. by apply Forall_replicate.
  - pose proof (FormatInt_chars z) as Hc. rewrite forallb_forall in Hc. apply Forall_forall.
    intros b Hb%list_elem_of_In%Hc. by destruct b.
Qed.

Lemma RFC3339_printable t : printable (RFC3339 t).
Proof.
  unfold RFC3339. destruct (civil _) as [[y m] d].
  assert (Hc : forall c, graphic c = true -> printable (string_of [c])).
  { intros c Hc. unfold printable. rewrite bytes_of_string_of. by apply Forall_singleton. }
  repeat first [apply digits_printable | by apply (Hc Byte.x2d) | by apply (Hc Byte.x54) | by apply (Hc Byte.x3a)
    | by apply (Hc Byte.x5a) | apply printable_app].
Qed.
