(* ===== verification/GoPath.v ===== *)
(** * What the source uses of [path/filepath] (Unix)

    A path is a text; [Clean] rewrites it lexically, and [resolve] is the list of names it denotes
    below the root, given the working directory.  Symbolic links are not modelled: without them the
    lexical reading of [..] is the kernel's. *)

From Stdlib Require Import Ascii.
From S2P Require Import Prelude GoStrings.

(** ** Names *)

(** [strings.Join(elems, sep)] *)
Fixpoint Join_strings (sep : string) (elems : list string) : string :=
  match elems with
  | [] => ""
  | [e] => e
  | e :: rest => e +:+ sep +:+ Join_strings sep rest
  end.

Definition slash : ascii := "/"%char.
Definition IsAbs (p : string) : bool := match p with String c _ => bool_decide (c = slash) | EmptyString => false end.

(** One name of a path, on the reversed stack of the names before it. *)
Definition path_step (rooted : bool) (st : list string) (name : string) : list string :=
  if (name =s "") || (name =s ".") then st else
  if name =s ".." then
    match st with
    | x :: st' => if x =s ".." then ".." :: st else st'
    | [] => if rooted then [] else [".."]
    end
  else name :: st.

Definition path_stack (rooted : bool) (st : list string) (names : list string) : list string :=
  foldl (path_step rooted) st names.

(** [filepath.Clean] *)
Definition Clean (p : string) : string :=
  let names := rev (path_stack (IsAbs p) [] (Split p slash)) in
  if IsAbs p then "/" +:+ Join_strings "/" names
  else match names with [] => "." | _ => Join_strings "/" names end.

(** [filepath.Join]: empty elements are left out. *)
Definition Join (elems : list string) : string :=
  match List.filter (fun e => negb (e =s "")) elems with
  | [] => ""
  | es => Clean (Join_strings "/" es)
  end.

(** [filepath.Dir]: the text up to its last separator, cleaned. *)
Fixpoint up_to_last (sep : byte) (l : list byte) : list byte :=
  match l with
  | [] => []
  | b :: l' => match up_to_last sep l' with
               | [] => if decide (b = sep) then [b] else []
               | k => b :: k
               end
  end.
Definition Dir (p : string) : string := Clean (string_of (up_to_last Byte.x2f (bytes_of p))).

(** [filepath.Abs], with the answer of [os.Getwd]. *)
Definition Abs (wd : option string) (p : string) : option string :=
  if IsAbs p then Some (Clean p) else (fun wd => Join [wd; p]) <$> wd.

(** The names a path denotes; [cwd] are those of the working directory, the innermost first. *)
Definition resolve (cwd : list string) (p : string) : list string :=
  path_stack true (if IsAbs p then [] else cwd) (Split p slash).

(** ** Cleaned paths denote the same file *)

(** A name other than the empty one, [.] and [..], without a separator. *)
Definition plain_name (n : string) : Prop := n <> "" /\ n <> "." /\ n <> ".." /\ has_byte slash n = false.

Lemma path_step_plain rooted st n : plain_name n -> path_step rooted st n = n :: st.
Proof.
  intros (H1 & H2 & H3 & _). unfold path_step.
  by rewrite (proj2 (str_eqb_neq _ _) H1), (proj2 (str_eqb_neq _ _) H2), (proj2 (str_eqb_neq _ _) H3).
Qed.

Lemma Split_join names :
  names <> [] -> Forall (fun n => has_byte slash n = false) names ->
  Split (Join_strings "/" names) slash = names.
Proof.
  intros Hne Hs. induction Hs as [|n names Hn Hs IH]; [done|].
  destruct names as [|m names]; [by apply Split_notin|].
  change (Join_strings "/" (n :: m :: names)) with (n +:+ String slash (Join_strings "/" (m :: names))).
  rewrite Split_app by done. by rewrite IH.
Qed.

Lemma split_bytes_pieces sep l : Forall (fun p => sep ∉ p) (split_bytes sep l).
Proof.
  induction l as [|b l IH]; simpl; [repeat constructor; set_solver|].
  case_decide as Hb; [constructor; [set_solver|done]|].
  destruct (split_bytes sep l) as [|p ps]; [repeat constructor; set_solver|].
  apply Forall_cons in IH as [Hp Hps]. constructor; [set_solver|done].
Qed.

Lemma Split_pieces s c : Forall (fun n => has_byte c n = false) (Split s c).
Proof.
  unfold Split. apply Forall_fmap. eapply Forall_impl; [apply split_bytes_pieces|].
  intros p Hp. unfold has_byte. simpl. rewrite bytes_of_string_of. by apply bool_decide_eq_false.
Qed.

(** The names a stack can hold. *)
Definition stack_name (n : string) : Prop := n <> "" /\ n <> "." /\ has_byte slash n = false.

Lemma path_step_names rooted st n :
  has_byte slash n = false -> Forall stack_name st -> Forall stack_name (path_step rooted st n).
Proof.
  intros Hn Hst. unfold path_step. destruct (_ || _) eqn:E; [done|]. bool_prop. str_prop.
  destruct (n =s "..") eqn:E2; [|by constructor].
  destruct Hst as [|x st Hx Hst]; [by destruct rooted; repeat constructor|].
  destruct (x =s ".."); [|done]. str_prop. subst n. constructor; [done|by constructor].
Qed.

Lemma path_stack_names rooted st names :
  Forall (fun n => has_byte slash n = false) names -> Forall stack_name st ->
  Forall stack_name (path_stack rooted st names).
Proof.
  intros Hn. revert st. induction Hn as [|n names Hn _ IH]; intros st Hst; [done|].
  apply IH. by apply path_step_names.
Qed.

(** Below the root [..] never stays. *)
Lemma path_step_rooted st n : ".." ∉ st -> ".." ∉ path_step true st n.
Proof.
  intros Hst. unfold path_step. destruct (_ || _); [done|]. destruct (n =s "..") eqn:E; str_prop.
  - destruct st as [|x st]; [done|]. destruct (x =s "..") eqn:Ex; str_prop; set_solver.
  - set_solver.
Qed.

Lemma path_stack_rooted st names : ".." ∉ st -> ".." ∉ path_stack true st names.
Proof. revert st. induction names as [|n names IH]; intros st Hst; [done|]. by apply IH, path_step_rooted. Qed.

(** Reading a relative stack below any directory is reading the names themselves. *)
Lemma path_step_relative cwd st n :
  Forall stack_name st ->
  path_stack true cwd (rev (path_step false st n)) = path_step true (path_stack true cwd (rev st)) n.
Proof.
  intros Hst. unfold path_step at 1. destruct ((n =s "") || (n =s ".")) eqn:E1.
  { unfold path_step at 1. by rewrite E1. }
  assert (Hpush : forall m st, path_stack true cwd (rev (m :: st)) = path_step true (path_stack true cwd (rev st)) m).
  { intros m st'. simpl. unfold path_stack. by rewrite foldl_app. }
  destruct (n =s "..") eqn:E2; [|by rewrite Hpush]. str_prop. subst n.
  destruct Hst as [|x st Hx Hst]; [by rewrite Hpush|]. destruct (x =s "..") eqn:Ex; [by rewrite Hpush|].
  rewrite Hpush, (path_step_plain true _ x) by (destruct Hx as (? & ? & ?); apply str_eqb_neq in Ex; unfold plain_name; tauto).
  unfold path_step. simpl. by rewrite Ex.
Qed.

Lemma path_stack_relative cwd names st :
  Forall (fun n => has_byte slash n = false) names -> Forall stack_name st ->
  path_stack true cwd (rev (path_stack false st names)) = path_stack true (path_stack true cwd (rev st)) names.
Proof.
  intros Hn. revert st. induction Hn as [|n names Hn _ IH]; intros st Hst; [done|].
  simpl. rewrite IH by (by apply path_step_names). by rewrite path_step_relative.
Qed.

Lemma path_stack_plain rooted st names :
  Forall stack_name names -> ".." ∉ names -> path_stack rooted st names = rev names ++ st.
Proof.
  intros Hn. revert st. induction Hn as [|n names (H1 & H2 & H3) _ IH]; intros st Hd; [done|].
  apply not_elem_of_cons in Hd as [Hd Hds]. simpl. rewrite path_step_plain, IH by done.
  by rewrite <- app_assoc.
Qed.

Lemma elem_of_rev {A} (x : A) l : x ∈ rev l <-> x ∈ l.
Proof. rewrite !list_elem_of_In. symmetry. apply in_rev. Qed.

Lemma Forall_rev_names (P : string -> Prop) l : Forall P l -> Forall P (rev l).
Proof. rewrite !Forall_forall. intros H x Hx. by apply H, elem_of_rev. Qed.

Lemma IsAbs_app p q : p <> "" -> IsAbs (p +:+ q) = IsAbs p.
Proof. by destruct p. Qed.

Lemma Join_relative names : names <> [] -> Forall stack_name names -> IsAbs (Join_strings "/" names) = false.
Proof.
  intros Hne Hs. destruct Hs as [|n names (H1 & _ & H3) _]; [done|].
  assert (Hn : IsAbs n = false).
  { destruct n as [|c n]; [done|]. apply bool_decide_eq_false. intros ->.
    apply bool_decide_eq_false in H3. apply H3. rewrite bytes_of_cons. by left. }
  destruct names as [|m names]; [done|].
  change (Join_strings "/" (n :: m :: names)) with (n +:+ ("/" +:+ Join_strings "/" (m :: names))).
  by rewrite IsAbs_app.
Qed.

Lemma resolve_Clean cwd p : resolve cwd (Clean p) = resolve cwd p.
Proof.
  pose proof (Split_pieces p slash) as Hp. unfold Clean, resolve. destruct (IsAbs p) eqn:Ea.
  - pose proof (path_stack_names true [] _ Hp ltac:(constructor)) as Hs.
    pose proof (path_stack_rooted [] (Split p slash) ltac:(set_solver)) as Hd.
    set (st := path_stack true [] (Split p slash)) in *.
    change (IsAbs ("/" +:+ Join_strings "/" (rev st))) with true. cbv iota.
    change ("/" +:+ Join_strings "/" (rev st)) with ("" +:+ String slash (Join_strings "/" (rev st))).
    rewrite Split_app by done. simpl.
    destruct (decide (rev st = [])) as [E|Hne].
    + rewrite E. simpl. by rewrite <- (rev_involutive st), E.
    + rewrite Split_join; [|done|].
      * rewrite path_stack_plain; [by rewrite rev_involutive, app_nil_r|by apply Forall_rev_names|].
        by rewrite elem_of_rev.
      * apply Forall_rev_names. eapply Forall_impl; [exact Hs|]. by intros n (_ & _ & H).
  - pose proof (path_stack_names false [] _ Hp ltac:(constructor)) as Hs.
    set (st := path_stack false [] (Split p slash)) in *.
    assert (Hr : path_stack true cwd (rev st) = path_stack true cwd (Split p slash)).
    { unfold st. by rewrite path_stack_relative by (done || constructor). }
    destruct (rev st) as [|n names] eqn:E; [exact Hr|]. rewrite <- E in *.
    assert (Hne : rev st <> []) by (by rewrite E).
    rewrite Join_relative by (done || by apply Forall_rev_names). rewrite Split_join; [done..|].
    apply Forall_rev_names. eapply Forall_impl; [exact Hs|]. by intros m (_ & _ & H).
Qed.

(** ** Files of a directory *)

Lemma split_bytes_snoc sep l k : exists init last',
  split_bytes sep l = init ++ [last'] /\
  (sep ∉ k -> split_bytes sep (l ++ k) = init ++ [last' ++ k]) /\
  split_bytes sep (l ++ sep :: k) = init ++ last' :: split_bytes sep k.
Proof.
  induction l as [|b l (init & la & E1 & E2 & E3)]; simpl.
  - exists [], []. split_and!; [done|by apply split_bytes_notin|by rewrite decide_True].
  - rewrite E1, E3. case_decide as Hb.
    + exists ([] :: init), la. split_and!; [done| |done]. intros Hk. by rewrite E2.
    + destruct init as [|i init]; simpl.
      * exists [], (b :: la). split_and!; [done| |done]. intros Hk. by rewrite E2.
      * exists ((b :: i) :: init), la. split_and!; [done| |done]. intros Hk. by rewrite E2.
Qed.

Lemma resolve_child cwd d n :
  d <> "" -> plain_name n -> resolve cwd (d +:+ "/" +:+ n) = n :: resolve cwd d.
Proof.
  intros Hd Hn. unfold resolve. rewrite IsAbs_app by done. unfold Split.
  rewrite bytes_of_app. change (bytes_of ("/" +:+ n)) with (Byte.x2f :: bytes_of n).
  change (byte_of_ascii slash) with Byte.x2f.
  destruct (split_bytes_snoc Byte.x2f (bytes_of d) (bytes_of n)) as (init & la & E1 & _ & E3).
  rewrite E1, E3, split_bytes_notin by (destruct Hn as (_ & _ & _ & Hn); by apply bool_decide_eq_false in Hn).
  rewrite !map_app. simpl. unfold path_stack. rewrite !foldl_app. simpl. rewrite string_of_bytes_of.
  by apply path_step_plain.
Qed.

Lemma resolve_Join cwd d n : d <> "" -> plain_name n -> resolve cwd (Join [d; n]) = n :: resolve cwd d.
Proof.
  intros Hd Hn. unfold Join. simpl. rewrite (proj2 (str_eqb_neq _ _) Hd). simpl.
  destruct Hn as (Hn & Hx). rewrite (proj2 (str_eqb_neq _ _) Hn). simpl. rewrite resolve_Clean.
  by apply resolve_child.
Qed.

(** The temporary name beside a file denotes another file. *)
Lemma tmp_no_slash : Byte.x2f ∉ bytes_of ".tmp".
Proof. apply (proj1 (bool_decide_eq_false _)). vm_compute. reflexivity. Qed.

Lemma tmp_plain l : Byte.x2f ∉ l -> plain_name (string_of (l ++ bytes_of ".tmp")).
Proof.
  intros Hl.
  assert (Hlen : forall s, (String.length s < 4)%nat -> string_of (l ++ bytes_of ".tmp") <> s).
  { intros s Hs E. apply (f_equal String.length) in E.
    rewrite <- length_bytes_of, bytes_of_string_of, length_app in E. simpl in E. lia. }
  split_and!; [apply Hlen; simpl; lia..|]. apply bool_decide_eq_false. rewrite bytes_of_string_of.
  change (byte_of_ascii slash) with Byte.x2f. apply not_elem_of_app. split; [done|].
  exact tmp_no_slash.
Qed.

(** The names that temporary names denote. *)
Definition temporary (k : list string) : Prop := exists l st, k = string_of (l ++ bytes_of ".tmp") :: st.

Lemma temporary_suffix n st : temporary (n :: st) -> drop (length (bytes_of n) - 4) (bytes_of n) = bytes_of ".tmp".
Proof.
  intros (l & st' & [= -> _]). rewrite bytes_of_string_of, length_app.
  change (length (bytes_of ".tmp")) with 4%nat. by rewrite Nat.add_sub, drop_app_length.
Qed.

(** A path with the suffix denotes its last name with the suffix, below where the path's last name is
    looked up. *)
Lemma resolve_tmp_split cwd p : exists la st,
  resolve cwd p = path_step true st (string_of la) /\
  resolve cwd (p +:+ ".tmp") = string_of (la ++ bytes_of ".tmp") :: st.
Proof.
  assert (Ha : IsAbs (p +:+ ".tmp") = IsAbs p) by (destruct p; [done|by apply IsAbs_app]).
  unfold resolve. rewrite Ha. unfold Split. rewrite bytes_of_app. change (byte_of_ascii slash) with Byte.x2f.
  destruct (split_bytes_snoc Byte.x2f (bytes_of p) (bytes_of ".tmp")) as (init & la & E1 & E2 & _).
  assert (Hla : Byte.x2f ∉ la).
  { pose proof (split_bytes_pieces Byte.x2f (bytes_of p)) as Hp. rewrite E1, Forall_app, Forall_singleton in Hp.
    apply Hp. }
  rewrite E1, E2 by exact tmp_no_slash. rewrite !map_app. simpl. unfold path_stack.
  rewrite !foldl_app. simpl. rewrite (path_step_plain _ _ (string_of (la ++ bytes_of ".tmp"))) by (by apply tmp_plain).
  eexists la, _. by split.
Qed.

Lemma resolve_tmp_temporary cwd p : temporary (resolve cwd (p +:+ ".tmp")).
Proof. destruct (resolve_tmp_split cwd p) as (la & st & _ & ->). by eexists _, _. Qed.

Lemma resolve_tmp cwd p : resolve cwd (p +:+ ".tmp") <> resolve cwd p.
Proof.
  destruct (resolve_tmp_split cwd p) as (la & S & -> & ->). unfold path_step.
  assert (Hlast : string_of (la ++ bytes_of ".tmp") <> string_of la).
  { intros E. apply string_of_inj, (f_equal length) in E. rewrite length_app in E. simpl in E. lia. }
  destruct (_ || _); [intros E; apply (f_equal length) in E; simpl in E; lia|].
  destruct (string_of la =s "..") eqn:Ed; [|congruence].
  str_prop. destruct S as [|x S']; [done|].
  destruct (x =s ".."); [congruence|]. intros E. apply (f_equal length) in E. simpl in E. lia.
Qed.

(** ** Absolute paths *)

Lemma resolve_under c d p :
  d <> "" -> IsAbs p = false -> resolve c (d +:+ "/" +:+ p) = resolve (resolve c d) p.
Proof.
  intros Hd Hp. unfold resolve. rewrite IsAbs_app, Hp by done. unfold Split.
  rewrite bytes_of_app. change (bytes_of ("/" +:+ p)) with (Byte.x2f :: bytes_of p).
  change (byte_of_ascii slash) with Byte.x2f.
  destruct (split_bytes_snoc Byte.x2f (bytes_of d) (bytes_of p)) as (init & la & E1 & _ & E3).
  rewrite E1, E3, !map_app. cbn [map]. unfold path_stack. rewrite !foldl_app. simpl. done.
Qed.

Lemma resolve_Join_under c d p :
  d <> "" -> IsAbs p = false -> resolve c (Join [d; p]) = resolve (resolve c d) p.
Proof.
  intros Hd Hp. unfold Join. simpl. rewrite (proj2 (str_eqb_neq _ _) Hd). simpl.
  destruct (p =s "") eqn:E; simpl; rewrite resolve_Clean; [|by apply resolve_under].
  str_prop. by subst.
Qed.

Lemma resolve_root c p : IsAbs p = true -> resolve c p = resolve [] p.
Proof. unfold resolve. by intros ->. Qed.

Lemma Clean_abs p : IsAbs p = true -> Clean p = "/" +:+ Join_strings "/" (rev (resolve [] p)).
Proof. unfold Clean, resolve. by intros ->. Qed.

Lemma IsAbs_Clean p : IsAbs (Clean p) = IsAbs p.
Proof.
  unfold Clean. destruct (IsAbs p) eqn:E; [done|]. destruct (rev _) as [|n names] eqn:Er; [done|].
  apply Join_relative; [done|]. rewrite <- Er. apply Forall_rev_names, path_stack_names; [apply Split_pieces|constructor].
Qed.

(** [Abs] gives the text of the names a path denotes. *)
Lemma Abs_names wd p a :
  IsAbs wd = true -> Abs (Some wd) p = Some a ->
  Clean a = "/" +:+ Join_strings "/" (rev (resolve (resolve [] wd) p)).
Proof.
  intros Hwd. unfold Abs. destruct (IsAbs p) eqn:Ep.
  - intros [= <-]. rewrite Clean_abs, resolve_Clean, (resolve_root (resolve _ _)) by (by rewrite ?IsAbs_Clean). done.
  - assert (Hne : wd <> "") by (by intros ->). intros E. simpl in E. injection E as <-.
    assert (Ha : IsAbs (Join [wd; p]) = true).
    { unfold Join. simpl. rewrite (proj2 (str_eqb_neq _ _) Hne). simpl.
      destruct (p =s ""); simpl; rewrite IsAbs_Clean; [done|]. by rewrite IsAbs_app. }
    rewrite Clean_abs by done. by rewrite resolve_Join_under.
Qed.

Lemma Join_strings_app l k : l <> [] -> k <> [] ->
  Join_strings "/" (l ++ k) = Join_strings "/" l +:+ "/" +:+ Join_strings "/" k.
Proof.
  intros Hl Hk. induction l as [|x l IH]; [done|]. destruct l as [|y l].
  - simpl. destruct k; [done|]. done.
  - change ((x :: y :: l) ++ k) with (x :: y :: (l ++ k)).
    change (Join_strings "/" (x :: y :: (l ++ k))) with (x +:+ "/" +:+ Join_strings "/" ((y :: l) ++ k)).
    change (Join_strings "/" (x :: y :: l)) with (x +:+ "/" +:+ Join_strings "/" (y :: l)).
    rewrite IH by done. apply bytes_of_inj. by rewrite !bytes_of_app, <- !app_assoc.
Qed.

Lemma Clean_nonempty p : Clean p <> "".
Proof.
  unfold Clean. destruct (IsAbs p); [done|].
  pose proof (path_stack_names false [] (Split p slash) (Split_pieces _ _) ltac:(constructor)) as Hs.
  apply Forall_rev_names in Hs. destruct Hs as [|x names (Hx & _) _]; [done|].
  destruct names; [done|]. simpl. by destruct x.
Qed.

Lemma Join_nonempty es : Exists (fun e => e <> "") es -> Join es <> "".
Proof.
  intros He. unfold Join. destruct (List.filter _ es) eqn:E; [|apply Clean_nonempty].
  apply Exists_exists in He as (e & Hin & Hne). apply list_elem_of_In in Hin.
  assert (Hf : In e (List.filter (fun e => negb (e =s "")) es)).
  { apply filter_In. split; [done|]. by apply negb_true_iff, str_eqb_neq. }
  by rewrite E in Hf.
Qed.
