(* ===== verification/GoDuration.v ===== *)
(** * [time.ParseDuration]

    A sign, then numbers with units: the integer parts are accumulated in a [uint64] that may reach
    [2^63], the fractions go through [float64], whose arithmetic is the one of [SpecFloat]. *)

From Stdlib Require Import Ascii SpecFloat.
From S2P Require Import Prelude GoTime GoStrings GoFormat.

(** ** [float64] *)

Definition float64 (z : Z) : spec_float := binary_normalize 53 1024 z 0 false.
Definition fmul (x y : spec_float) : spec_float := SFmul 53 1024 x y.
Definition fdiv (x y : spec_float) : spec_float := SFdiv 53 1024 x y.

(** [uint64(x)] for a non-negative [x] below [2^64]. *)
Definition truncate (x : spec_float) : Z :=
  match x with
  | S754_finite false m e => if 0 <=? e then Zpos m * 2 ^ e else Zpos m / 2 ^ (- e)
  | _ => 0
  end.

(** ** Numbers *)

Definition digit_val (b : byte) : option Z :=
  let v := byte_val b in if (48 <=? v) && (v <=? 57) then Some (v - 48) else None.

(** [leadingInt]: [None] on overflow. *)
Fixpoint leadingInt (x : Z) (l : list byte) : option (Z * list byte) :=
  match l with
  | [] => Some (x, [])
  | b :: l' =>
      match digit_val b with
      | None => Some (x, l)
      | Some d =>
          if 2 ^ 63 / 10 <? x then None else
          let x := x * 10 + d in
          if 2 ^ 63 <? x then None else leadingInt x l'
      end
  end.

(** [leadingFraction]: digits past the overflow are skipped. *)
Fixpoint leadingFraction (x : Z) (scale : spec_float) (overflow : bool) (l : list byte)
  : Z * spec_float * list byte :=
  match l with
  | [] => (x, scale, [])
  | b :: l' =>
      match digit_val b with
      | None => (x, scale, l)
      | Some d =>
          if overflow then leadingFraction x scale true l' else
          if (2 ^ 63 - 1) / 10 <? x then leadingFraction x scale true l' else
          let y := x * 10 + d in
          if 2 ^ 63 <? y then leadingFraction x scale true l'
          else leadingFraction y (fmul scale (float64 10)) false l'
      end
  end.

Definition unit_char (b : byte) : bool := negb (byte_val b =? 46) && negb (bool_decide (is_Some (digit_val b))).

Fixpoint span_unit (l : list byte) : list byte * list byte :=
  match l with
  | [] => ([], [])
  | b :: l' => if unit_char b then let '(u, rest) := span_unit l' in (b :: u, rest) else ([], l)
  end.

(** [unitMap]: the micro sign, the Greek letter and the ASCII letter all mean microseconds. *)
Definition unitMap (u : list byte) : option Z :=
  let s := string_of u in
  if s =s "ns" then Some 1
  else if (s =s "us") || bool_decide (u = [Byte.xc2; Byte.xb5; Byte.x73]) ||
          bool_decide (u = [Byte.xce; Byte.xbc; Byte.x73]) then Some 1000
  else if s =s "ms" then Some 1000000
  else if s =s "s" then Some Second
  else if s =s "m" then Some Minute
  else if s =s "h" then Some Hour
  else None.

(** One number with its unit: its nanoseconds and the rest of the text. *)
Definition parse_term (l : list byte) : option (Z * list byte) :=
  match l with
  | [] => None
  | b :: _ =>
      if negb (byte_val b =? 46) && negb (bool_decide (is_Some (digit_val b))) then None else
      '(v, l1) ← leadingInt 0 l;
      let pre := negb (length l1 =? length l)%nat in
      let '(f, scale, l2, post) :=
        match l1 with
        | c :: l1' => if byte_val c =? 46
                      then let '(f, scale, l2) := leadingFraction 0 (float64 1) false l1' in
                           (f, scale, l2, negb (length l2 =? length l1')%nat)
                      else (0, float64 1, l1, false)
        | [] => (0, float64 1, l1, false)
        end in
      if negb pre && negb post then None else
      let '(u, rest) := span_unit l2 in
      match u with
      | [] => None
      | _ =>
          unit ← unitMap u;
          if 2 ^ 63 / unit <? v then None else
          let v := v * unit in
          if 0 <? f then
            let v := uint64 (v + truncate (fmul (float64 f) (fdiv (float64 unit) scale))) in
            if 2 ^ 63 <? v then None else Some (v, rest)
          else Some (v, rest)
      end
  end.

(** The loop; every round consumes a byte, so the length of the text is enough fuel. *)
Fixpoint parse_terms (fuel : nat) (d : Z) (l : list byte) : option Z :=
  match l, fuel with
  | [], _ => Some d
  | _, O => None
  | _, S fuel =>
      '(v, rest) ← parse_term l;
      let d := uint64 (d + v) in
      if 2 ^ 63 <? d then None else parse_terms fuel d rest
  end.

Definition ParseDuration (s : string) : result Z :=
  let orig := bytes_of s in
  let '(neg, l) := match orig with
                   | b :: l' => if (byte_val b =? 45) || (byte_val b =? 43) then (byte_val b =? 45, l') else (false, orig)
                   | [] => (false, orig)
                   end in
  let invalid := Err (errorf ("time: invalid duration " +:+ s)) in
  if bool_decide (l = [Byte.x30]) then Ok 0 else
  if bool_decide (l = []) then invalid else
  match parse_terms (length l) 0 l with
  | None => invalid
  | Some d =>
      if neg then Ok (wrap64 (- d)) else
      if 2 ^ 63 - 1 <? d then invalid else Ok d
  end.

(** ** The fuel is enough *)

Lemma leadingInt_suffix x l v rest : leadingInt x l = Some (v, rest) -> exists k, l = k ++ rest.
Proof.
  revert x. induction l as [|b l IH]; intros x; simpl; [intros [= <- <-]; by exists []|].
  destruct (digit_val b); [|intros [= <- <-]; by exists []].
  destruct (_ <? x); [done|]. destruct (_ <? _); [done|]. intros [k ->]%IH. by exists (b :: k).
Qed.

Lemma leadingFraction_suffix x scale o l v s rest :
  leadingFraction x scale o l = (v, s, rest) -> exists k, l = k ++ rest.
Proof.
  revert x scale o. induction l as [|b l IH]; intros x scale o; simpl; [intros [= <- <- <-]; by exists []|].
  destruct (digit_val b); [|intros [= <- <- <-]; by exists []].
  destruct o; [intros [k ->]%IH; by exists (b :: k)|].
  destruct (_ <? x); [intros [k ->]%IH; by exists (b :: k)|].
  destruct (_ <? _); intros [k ->]%IH; by exists (b :: k).
Qed.

Lemma span_unit_app l u rest : span_unit l = (u, rest) -> l = u ++ rest.
Proof.
  revert u. induction l as [|b l IH]; intros u; simpl; [by intros [= <- <-]|].
  destruct (unit_char b); [|by intros [= <- <-]]. destruct (span_unit l) as [u' r].
  intros [= <- <-]. simpl. by rewrite (IH u').
Qed.

Lemma parse_term_shorter l v rest : parse_term l = Some (v, rest) -> (length rest < length l)%nat.
Proof.
  unfold parse_term. destruct l as [|b l0]; [done|]. set (l := b :: l0). destruct (_ && _); [done|].
  destruct (leadingInt 0 l) as [[v0 l1]|] eqn:E1; simpl; [|done]. apply leadingInt_suffix in E1 as [k Hk].
  destruct (match l1 with [] => _ | _ => _ end) as [[[f scale] l2] post] eqn:E2.
  assert (exists k2, l1 = k2 ++ l2) as [k2 Hk2].
  { destruct l1 as [|c l1']; [simplify_eq; by exists []|]. destruct (byte_val c =? 46); [|simplify_eq; by exists []].
    destruct (leadingFraction _ _ _ _) as [[f' s'] l2'] eqn:E3. simplify_eq.
    apply leadingFraction_suffix in E3 as [k3 ->]. by exists (c :: k3). }
  destruct (_ && _); [done|]. destruct (span_unit l2) as [u r] eqn:E4. apply span_unit_app in E4.
  destruct u as [|x u]; [done|]. destruct (unitMap _) as [unit|]; simpl; [|done].
  destruct (_ <? v0); [done|]. intros Hr. assert (rest = r) as ->.
  { destruct (0 <? f); [destruct (_ <? _); [done|]|]; by simplify_eq. }
  apply (f_equal length) in Hk. subst l l1 l2. rewrite !length_app in Hk. simpl in Hk |- *. lia.
Qed.

Lemma parse_terms_fuel n m d l :
  (length l <= n)%nat -> (length l <= m)%nat -> parse_terms n d l = parse_terms m d l.
Proof.
  revert m d l. induction n as [|n IH]; intros m d [|b l] Hn Hm; simpl in Hn, Hm; try lia; [by destruct m..|].
  destruct m as [|m]; [lia|]. cbn [parse_terms].
  destruct (parse_term (b :: l)) as [[v rest]|] eqn:E; [|done]. cbn [mbind option_bind].
  apply parse_term_shorter in E. simpl in E. destruct (_ <? _); [done|]. apply IH; lia.
Qed.

(** ** Results are [int64] values *)

Lemma parse_terms_range fuel d l r : 0 <= d <= 2 ^ 63 -> parse_terms fuel d l = Some r -> 0 <= r <= 2 ^ 63.
Proof.
  revert d l. induction fuel as [|fuel IH]; intros d [|b l] Hd; cbn [parse_terms]; try (by intros [= <-]); try done.
  destruct (parse_term (b :: l)) as [[v rest]|]; cbn [mbind option_bind]; [|done].
  destruct (_ <? _) eqn:E; [done|]. bool_prop. apply IH. pose proof (uint64_range (d + v)). lia.
Qed.

Lemma ParseDuration_range s d : ParseDuration s = Ok d -> in_int64 d.
Proof.
  unfold ParseDuration. destruct (match bytes_of s with [] => _ | _ => _ end) as [neg l].
  destruct (bool_decide (l = [_])); [by intros [= <-]|]. destruct (bool_decide (l = [])); [done|].
  destruct (parse_terms _ 0 l) as [r|] eqn:E; [|done]. apply parse_terms_range in E; [|done].
  destruct neg; [intros [= <-]; apply wrap64_range|]. destruct (_ <? r) eqn:Er; [done|]. bool_prop.
  intros [= <-]. unfold in_int64, min_int64, max_int64. lia.
Qed.

Example ParseDuration_seconds : ParseDuration "90s" = Ok (90 * Second).
Proof. vm_compute. reflexivity. Qed.
Example ParseDuration_printed : ParseDuration (Duration_String (90 * Second)) = Ok (90 * Second).
Proof. vm_compute. reflexivity. Qed.
Example ParseDuration_fraction : ParseDuration "-1.5h" = Ok (- (90 * Minute)).
Proof. vm_compute. reflexivity. Qed.
Example ParseDuration_no_unit : is_ok (ParseDuration "90") = false.
Proof. vm_compute. reflexivity. Qed.
Example ParseDuration_overflow : is_ok (ParseDuration "2562048h") = false.
Proof. vm_compute. reflexivity. Qed.
