(* ===== verification/GoOs.v ===== *)
(** * What the program uses of [os]: environment, files, standard input, commands

    Setup and configuration code runs in a [World] of files, unread input and executed commands, in
    an [Environ] that does not change: variables, identity, working directory and the faults of the
    file system, which are arbitrary.  Files are named by the list of names their path denotes
    ([resolve]); directories are not kept, creating one is an operation that may fail. *)

From Stdlib Require Import Ascii.
From S2P Require Import Prelude GoStrings GoPath.

(** ** Effects

    A computation reads and changes a world and may fail; what it changed before it failed stays. *)
Definition IO (W A : Type) : Type := W -> W * result A.

#[export] Instance io_ret W : MRet (IO W) := fun _ a w => (w, Ok a).
#[export] Instance io_bind W : MBind (IO W) := fun _ _ f m w =>
  match m w with
  | (w, Ok a) => f a w
  | (w, Err e) => (w, Err e)
  end.

Definition fail {W A} (e : error) : IO W A := fun w => (w, Err e).
Definition lift {W A} (r : result A) : IO W A := fun w => (w, r).
(** A result computed from the world. *)
Definition look {W A} (f : W -> result A) : IO W A := fun w => (w, f w).
(** A condition read from the world. *)
Definition test {W} (c : W -> bool) : IO W bool := fun w => (w, Ok (c w)).
(** The result of a call whose error the caller looks at. *)
Definition try {W A} (m : IO W A) : IO W (result A) := fun w => let '(w, r) := m w in (w, Ok r).
(** [if c { do m }] *)
Definition when {W} (c : bool) (m : IO W unit) : IO W unit := if c then m else mret tt.
(** A failing call's error with a text in front of it *)
Definition wrapping {W A} (text : string) (m : IO W A) : IO W A := fun w =>
  match m w with
  | (w, Err e) => (w, Err (annotate text e))
  | r => r
  end.

Lemma io_bind_ok {W A B} (m : IO W A) (f : A -> IO W B) w w' b :
  (m ≫= f) w = (w', Ok b) <-> exists w1 a, m w = (w1, Ok a) /\ f a w1 = (w', Ok b).
Proof. unfold mbind, io_bind. destruct (m w) as [w1 [a|e]]; naive_solver. Qed.

Lemma wrapping_ok {W A} text (m : IO W A) w w' a : wrapping text m w = (w', Ok a) <-> m w = (w', Ok a).
Proof. unfold wrapping. destruct (m w) as [w1 [b|e]]; naive_solver. Qed.

Lemma io_run {W A} (m : IO W A) w : is_ok (m w).2 = true -> exists w' a, m w = (w', Ok a).
Proof. destruct (m w) as [w' [a|e]]; [|done]. eauto. Qed.

(** Open successful computations of the hypotheses. *)
Ltac io_ok :=
  repeat match goal with
  | H : (_ ≫= _) ?w = (_, Ok _) |- _ =>
      apply io_bind_ok in H; let w1 := fresh "w" in let a := fresh "a" in destruct H as (w1 & a & ? & H)
  | H : wrapping _ _ _ = (_, Ok _) |- _ => apply wrapping_ok in H
  | H : mret _ _ = (_, Ok _) |- _ => injection H as ??
  | H : fail _ _ = (_, Ok _) |- _ => discriminate H
  | H : lift _ _ = (_, Ok _) |- _ => injection H as ??
  | H : look _ _ = (_, Ok _) |- _ => injection H as ??
  | H : test _ _ = (_, Ok _) |- _ => injection H as ??
  end.

(** ** Reasoning about computations

    [keeps R m]: whatever [m] returns, the world it leaves is related to the one it was given. *)
Definition keeps {W A} (R : relation W) (m : IO W A) : Prop := forall w, R w (m w).1.

#[export] Instance eq_preorder A : PreOrder (@eq A).
Proof. split; [done|]. by intros x y z -> ->. Qed.

Create HintDb keeps discriminated.

Section keeps.
Context {W : Type} (R : relation W) `{!PreOrder R}.

Lemma keeps_ret {A} (a : A) : keeps R (mret a).
Proof. intros w. simpl. reflexivity. Qed.
Lemma keeps_fail {A} e : keeps R (fail (A := A) e).
Proof. intros w. simpl. reflexivity. Qed.
Lemma keeps_lift {A} (r : result A) : keeps R (lift r).
Proof. intros w. simpl. reflexivity. Qed.
Lemma keeps_look {A} (f : W -> result A) : keeps R (look f).
Proof. intros w. simpl. reflexivity. Qed.
Lemma keeps_test c : keeps R (test c).
Proof. intros w. simpl. reflexivity. Qed.
Lemma keeps_bind {A B} (m : IO W A) (f : A -> IO W B) :
  keeps R m -> (forall a, keeps R (f a)) -> keeps R (m ≫= f).
Proof.
  intros Hm Hf w. unfold mbind, io_bind. specialize (Hm w). destruct (m w) as [w1 [a|e]]; simpl in *; [|done].
  etrans; [exact Hm|apply Hf].
Qed.
(** The second computation may use what the first one promises of its result. *)
Lemma keeps_bind_post {A B} (P : A -> Prop) (m : IO W A) (f : A -> IO W B) :
  keeps R m -> (forall w w' a, m w = (w', Ok a) -> P a) -> (forall a, P a -> keeps R (f a)) -> keeps R (m ≫= f).
Proof.
  intros Hm HP Hf w. unfold mbind, io_bind. specialize (Hm w). destruct (m w) as [w1 [a|e]] eqn:E; simpl in *; [|done].
  etrans; [exact Hm|]. eapply Hf, HP, E.
Qed.
Lemma keeps_wrapping {A} text (m : IO W A) : keeps R m -> keeps R (wrapping text m).
Proof. intros Hm w. unfold wrapping. specialize (Hm w). by destruct (m w) as [w1 [a|e]]. Qed.
Lemma keeps_try {A} (m : IO W A) : keeps R m -> keeps R (try m).
Proof. intros Hm w. unfold try. specialize (Hm w). by destruct (m w). Qed.
Lemma keeps_when c (m : IO W unit) : keeps R m -> keeps R (when c m).
Proof. intros Hm. destruct c; [done|]. apply keeps_ret. Qed.
End keeps.

Lemma keeps_run {W A} (R : relation W) (m : IO W A) w w' r : keeps R m -> m w = (w', r) -> R w w'.
Proof. intros Hm E. specialize (Hm w). by rewrite E in Hm. Qed.

#[export] Hint Resolve keeps_ret keeps_fail keeps_lift keeps_look keeps_test : keeps.

(** Open the structure of a computation whose steps keep a preorder. *)
Ltac keeps_step :=
  match goal with
  | |- keeps _ (_ ≫= _) => notypeclasses refine (keeps_bind _ _ _ _ _); [typeclasses eauto| |intros ?]
  | |- keeps _ (wrapping _ _) => apply keeps_wrapping
  | |- keeps _ (try _) => apply keeps_try
  | |- keeps _ (when _ _) => notypeclasses refine (keeps_when _ _ _ _); [typeclasses eauto|]
  | |- keeps _ (if ?b then _ else _) => destruct b eqn:?
  | |- keeps _ (match ?x with _ => _ end) => destruct x eqn:?
  | |- keeps _ _ => solve [eauto with keeps typeclass_instances]
  end.
Ltac keeps := repeat (cbv zeta; keeps_step).

Lemma bind_run {W A B} (m : IO W A) (f : A -> IO W B) w w' a : m w = (w', Ok a) -> (m ≫= f) w = f a w'.
Proof. unfold mbind, io_bind. by intros ->. Qed.
Lemma bind_fails {W A B} (m : IO W A) (f : A -> IO W B) w w' e : m w = (w', Err e) -> (m ≫= f) w = (w', Err e).
Proof. unfold mbind, io_bind. by intros ->. Qed.

(** *** Computations whose result does not depend on the world *)

Definition steady {W A} (m : IO W A) : Prop := forall w w', (m w).2 = (m w').2.

Lemma steady_ret {W A} (a : A) : steady (W := W) (mret a).
Proof. done. Qed.
Lemma steady_fail {W A} e : steady (fail (W := W) (A := A) e).
Proof. done. Qed.
Lemma steady_lift {W A} (r : result A) : steady (lift (W := W) r).
Proof. done. Qed.
Lemma steady_bind {W A B} (m : IO W A) (f : A -> IO W B) : steady m -> (forall a, steady (f a)) -> steady (m ≫= f).
Proof.
  intros Hm Hf w w'. unfold mbind, io_bind. specialize (Hm w w').
  destruct (m w) as [w1 [a|e]], (m w') as [w2 [a'|e']]; simpl in Hm; simplify_eq; [|done]. apply Hf.
Qed.
Lemma steady_wrapping {W A} text (m : IO W A) : steady m -> steady (wrapping text m).
Proof.
  intros Hm w w'. unfold wrapping. specialize (Hm w w').
  destruct (m w) as [w1 [a|e]], (m w') as [w2 [a'|e']]; simpl in Hm; by simplify_eq.
Qed.
Ltac steady_step :=
  match goal with
  | |- steady (_ ≫= _) => apply steady_bind; [|intros ?]
  | |- steady (wrapping _ _) => apply steady_wrapping
  | |- steady (if ?b then _ else _) => destruct b
  | |- steady _ => solve [apply steady_ret | apply steady_fail | apply steady_lift | auto]
  end.
Ltac steady := repeat steady_step.

(** ** The environment *)

(** What can go wrong with [os.WriteFile]: opening fails, or the disk fills up after some bytes. *)
Inductive wfault := NoFault | OpenFails | Short (n : nat).

Record Environ := mkEnviron {
  Getenv : string -> string;
  Geteuid : Z;
  Getwd : option string;
  cwd : list string;                          (* the names of the working directory, innermost first *)
  umask : Z;
  stat_fails : list string -> bool;           (* for another reason than absence *)
  read_fails : list string -> bool;
  write_fault : list string -> wfault;
  rename_fails : list string -> bool;         (* by destination *)
  mkdir_fails : list string -> bool;
  chmod_fails : list string -> bool;          (* [os.Chmod] and [os.Chown] *)
  is_dir : list string -> bool;               (* directories that exist *)
  can_create : list string -> bool            (* [os.CreateTemp] in a directory *)
}.

Definition UserHomeDir (env : Environ) : option string :=
  let h := Getenv env "HOME" in if h =s "" then None else Some h.

Definition UserConfigDir (env : Environ) : option string :=
  let d := Getenv env "XDG_CONFIG_HOME" in
  if d =s "" then (fun h => h +:+ "/.config") <$> UserHomeDir env
  else if IsAbs d then Some d else None.

(** ** Files *)

Record File := mkFile { f_data : list byte; f_mode : Z; f_gid : option Z }.

(** [nw] is the world of the network, [ran] the commands that were executed, the last one first. *)
Record World (N : Type) := mkWorld {
  files : gmap (list string) File;
  stdin : list byte;
  ran : list (list string);
  nw : N
}.
Arguments mkWorld {N} _ _ _ _.
Arguments files {N} _.
Arguments stdin {N} _.
Arguments ran {N} _.
Arguments nw {N} _.

Definition set_files {N : Type} (fs : gmap (list string) File) (w : World N) : World N :=
  mkWorld fs (stdin w) (ran w) (nw w).
Definition set_stdin {N : Type} (l : list byte) (w : World N) : World N := mkWorld (files w) l (ran w) (nw w).
Definition set_nw {N : Type} (n : N) (w : World N) : World N := mkWorld (files w) (stdin w) (ran w) n.

Inductive stat := Present | Absent | StatError.

Section os.
Context {N : Type} (env : Environ).
Notation W := (World N).

Definition key (p : string) : list string := resolve (cwd env) p.

(** [os.Stat]; a directory is present. *)
Definition Stat (w : W) (p : string) : stat :=
  if stat_fails env (key p) then StatError else
  if bool_decide (is_Some (files w !! key p)) || is_dir env (key p) then Present else Absent.

(** [_, err := os.Stat(path); err == nil] *)
Definition fileExists (p : string) (w : W) : bool := match Stat w p with Present => true | _ => false end.

Definition ReadFile (p : string) : IO W (list byte) := fun w =>
  (w, if read_fails env (key p) then Err (errorf ("open " +:+ p)) else
      match files w !! key p with
      | Some f => Ok (f_data f)
      | None => Err (errorf ("open " +:+ p +:+ ": no such file or directory"))
      end).

(** [os.WriteFile]: an existing file is truncated and keeps its mode. *)
Definition WriteFile (p : string) (data : list byte) (mode : Z) : IO W unit := fun w =>
  let old := files w !! key p in
  let put d := mkFile d (match old with Some f => f_mode f | None => Z.ldiff mode (umask env) end)
                        (old ≫= f_gid) in
  match write_fault env (key p) with
  | OpenFails => (w, Err (errorf ("open " +:+ p)))
  | Short n => (set_files (<[key p := put (take n data)]> (files w)) w, Err (errorf ("write " +:+ p)))
  | NoFault => (set_files (<[key p := put data]> (files w)) w, Ok tt)
  end.

Definition Rename (src dst : string) : IO W unit := fun w =>
  if rename_fails env (key dst) then (w, Err (errorf ("rename " +:+ src))) else
  match files w !! key src with
  | None => (w, Err (errorf ("rename " +:+ src +:+ ": no such file or directory")))
  | Some f => (set_files (<[key dst := f]> (delete (key src) (files w))) w, Ok tt)
  end.

Definition Remove (p : string) : IO W unit := fun w =>
  (set_files (delete (key p) (files w)) w, Ok tt).

Definition MkdirAll (p : string) : IO W unit := fun w =>
  (w, if mkdir_fails env (key p) then Err (errorf ("mkdir " +:+ p)) else Ok tt).

Definition Chmod (p : string) (mode : Z) : IO W unit := fun w =>
  if chmod_fails env (key p) then (w, Err (errorf ("chmod " +:+ p))) else
  match files w !! key p with
  | None => (w, Err (errorf ("chmod " +:+ p +:+ ": no such file or directory")))
  | Some f => (set_files (<[key p := mkFile (f_data f) mode (f_gid f)]> (files w)) w, Ok tt)
  end.

(** [os.Chown] with the file's own user. *)
Definition Chgrp (p : string) (gid : Z) : IO W unit := fun w =>
  if chmod_fails env (key p) then (w, Err (errorf ("chown " +:+ p))) else
  match files w !! key p with
  | None => (w, Err (errorf ("chown " +:+ p +:+ ": no such file or directory")))
  | Some f => (set_files (<[key p := mkFile (f_data f) (f_mode f) (Some gid)]> (files w)) w, Ok tt)
  end.

(** ** Writing a file atomically

    [writeFile] of the agent's setup and [writeFileAtomic] of the proxy's are the same code. *)
Definition writeFileAtomic (path : string) (data : list byte) (mode : Z) : IO W unit :=
  let tmp := path +:+ ".tmp" in
  _ ← wrapping ("write " +:+ path) (WriteFile tmp data mode);
  r ← try (Rename tmp path);
  match r with
  | Ok _ => mret tt
  | Err e => _ ← Remove tmp; fail (annotate ("rename " +:+ path) e)
  end.

(** The mode a new file gets, unless a stale temporary file lies in the way. *)
Definition written_mode (w : W) (path : string) (mode : Z) : Z :=
  match files w !! key (path +:+ ".tmp") with
  | Some f => f_mode f
  | None => Z.ldiff mode (umask env)
  end.

Lemma writeFileAtomic_cases path data mode w w' r :
  writeFileAtomic path data mode w = (w', r) ->
  stdin w' = stdin w /\ ran w' = ran w /\ nw w' = nw w /\
  (forall k, k <> key path -> k <> key (path +:+ ".tmp") -> files w' !! k = files w !! k) /\
  match r with
  | Ok _ => exists g, files w' !! key path = Some (mkFile data (written_mode w path mode) g)
  | Err _ => files w' !! key path = files w !! key path
  end.
Proof.
  assert (Hne : key (path +:+ ".tmp") <> key path) by apply resolve_tmp.
  unfold writeFileAtomic, mbind, io_bind, wrapping, WriteFile. unfold written_mode.
  destruct (write_fault env _) as [| |n].
  - unfold try, Rename. cbn [files set_files]. destruct (rename_fails env _).
    + cbn. intros [= <- <-]. cbn. split_and!; try done.
      * intros k Hk Hk'. by rewrite lookup_delete_ne, lookup_insert_ne.
      * by rewrite lookup_delete_ne, lookup_insert_ne.
    + rewrite lookup_insert_eq. cbn. intros [= <- <-]. cbn. split_and!; try done.
      * intros k Hk Hk'. by rewrite lookup_insert_ne, lookup_delete_ne, lookup_insert_ne.
      * eexists. by rewrite lookup_insert_eq.
  - intros [= <- <-]. by split_and!.
  - cbn. intros [= <- <-]. cbn. split_and!; try done.
    + intros k Hk Hk'. by rewrite lookup_insert_ne.
    + by rewrite lookup_insert_ne.
Qed.

End os.

(** ** Steps that do not fail *)

Record no_faults (env : Environ) : Prop := {
  nf_read : forall k, read_fails env k = false;
  nf_write : forall k, write_fault env k = NoFault;
  nf_rename : forall k, rename_fails env k = false;
  nf_mkdir : forall k, mkdir_fails env k = false
}.

Lemma ReadFile_run {N : Type} env p (w : World N) f :
  no_faults env -> files w !! key env p = Some f -> ReadFile env p w = (w, Ok (f_data f)).
Proof. intros Hn Hf. unfold ReadFile. by rewrite (nf_read _ Hn), Hf. Qed.

(** A file that was read. *)
Lemma ReadFile_file {N : Type} (env : Environ) p (w w' : World N) data :
  ReadFile env p w = (w', Ok data) -> w' = w /\ exists f, files w !! key env p = Some f /\ f_data f = data.
Proof.
  unfold ReadFile. intros [= <- Hd]. split; [done|].
  destruct (read_fails env (key env p)); [done|]. destruct (files w !! key env p) as [f|]; simplify_eq. eauto.
Qed.

Lemma writeFileAtomic_run {N : Type} env p data mode (w : World N) :
  no_faults env -> exists w', writeFileAtomic env p data mode w = (w', Ok tt).
Proof.
  intros Hn. unfold writeFileAtomic, mbind, io_bind, wrapping, WriteFile, try, Rename.
  rewrite (nf_write _ Hn). cbn [files set_files]. rewrite (nf_rename _ Hn), lookup_insert_eq. by eexists.
Qed.

Lemma writeFileAtomic_steady {N : Type} env p data mode : no_faults env -> steady (writeFileAtomic (N := N) env p data mode).
Proof.
  intros Hn w w'. destruct (writeFileAtomic_run env p data mode w Hn) as [v ->].
  by destruct (writeFileAtomic_run env p data mode w' Hn) as [v' ->].
Qed.

(** ** What computations do to files *)

Notation Files := (gmap (list string) File).

(** A relation between the files before and after. *)
Definition on_files {N : Type} (R : relation Files) : relation (World N) := fun w w' => R (files w) (files w').
#[export] Instance on_files_preorder {N} R : PreOrder R -> PreOrder (@on_files N R).
Proof. intros HR. split; [intros w; unfold on_files; reflexivity|]. intros x y z H1 H2. unfold on_files in *. by etrans. Qed.

(** Files stay, whatever they then contain, except those that may be deleted. *)
Definition grows (deleted : list string -> Prop) : relation Files := fun fs fs' =>
  forall k, ~ deleted k -> is_Some (fs !! k) -> is_Some (fs' !! k).
(** Files other than the touched ones stay with their contents. *)
Definition retains (touched : list string -> Prop) : relation Files := fun fs fs' =>
  forall k f, ~ touched k -> fs !! k = Some f -> exists f', fs' !! k = Some f' /\ f_data f' = f_data f.

#[export] Instance grows_preorder D : PreOrder (grows D).
Proof. split; [by intros x k _ ?|]. intros x y z H1 H2 k Hk Hx. eauto. Qed.
#[export] Instance retains_preorder T : PreOrder (retains T).
Proof.
  split; [by intros x k f _ Hf; exists f|]. intros x y z H1 H2 k f Hk Hf.
  destruct (H1 k f Hk Hf) as (g & Hg & Eg). destruct (H2 k g Hk Hg) as (h & Hh & Eh). exists h. by rewrite Eh, Eg.
Qed.

(** No file but the touched ones changes at all, and none appears or disappears. *)
Definition untouched (touched : list string -> Prop) : relation Files := fun fs fs' =>
  forall k, ~ touched k -> fs' !! k = fs !! k.
#[export] Instance untouched_preorder T : PreOrder (untouched T).
Proof. split; [by intros x k _|]. intros x y z H1 H2 k Hk. by rewrite (H2 k Hk), (H1 k Hk). Qed.

Lemma grows_insert D fs k f : grows D fs (<[k := f]> fs).
Proof. intros k' _ Hx. destruct (decide (k = k')) as [->|]; [by rewrite lookup_insert_eq|by rewrite lookup_insert_ne]. Qed.
Lemma retains_insert (T : list string -> Prop) fs k f : T k -> retains T fs (<[k := f]> fs).
Proof. intros Hk k' g Hk' Hg. exists g. rewrite lookup_insert_ne; [done|]. by intros ->. Qed.
Lemma retains_update (T : list string -> Prop) fs k f g :
  fs !! k = Some f -> f_data g = f_data f -> retains T fs (<[k := g]> fs).
Proof.
  intros Hf Hg k' h _ Hh. destruct (decide (k = k')) as [->|]; [exists g; rewrite lookup_insert_eq; naive_solver|].
  exists h. by rewrite lookup_insert_ne.
Qed.
Lemma retains_weaken (T T' : list string -> Prop) fs fs' :
  (forall k, T k -> T' k) -> retains T fs fs' -> retains T' fs fs'.
Proof. intros HT H k f Hk. apply H. auto. Qed.

Section effects.
Context {N : Type} (env : Environ).
Notation W := (World N).
Implicit Types (R : relation Files) (T D : list string -> Prop).

Lemma keeps_same_files {A} R (m : IO W A) : PreOrder R -> (forall w, files (m w).1 = files w) -> keeps (on_files R) m.
Proof. intros HR Hm w. unfold on_files. rewrite Hm. reflexivity. Qed.
Lemma keeps_no_files {A} R (m : IO W A) : PreOrder R -> keeps (on_files eq) m -> keeps (on_files R) m.
Proof. intros HR Hm. apply keeps_same_files; [done|]. intros w. symmetry. apply Hm. Qed.

Lemma ReadFile_keeps R p : PreOrder R -> keeps (on_files R) (@ReadFile N env p).
Proof. intros HR. by apply keeps_same_files. Qed.
Lemma MkdirAll_keeps R p : PreOrder R -> keeps (on_files R) (@MkdirAll N env p).
Proof. intros HR. by apply keeps_same_files. Qed.

Lemma WriteFile_grows D p d m : keeps (on_files (grows D)) (@WriteFile N env p d m).
Proof.
  intros w. unfold WriteFile, on_files. destruct (write_fault _ _); cbn; [|reflexivity|]; apply grows_insert.
Qed.
Lemma WriteFile_retains T p d m : T (key env p) -> keeps (on_files (retains T)) (@WriteFile N env p d m).
Proof.
  intros HT w. unfold WriteFile, on_files. destruct (write_fault _ _); cbn; [|reflexivity|]; by apply retains_insert.
Qed.
Lemma Chmod_retains T p m : keeps (on_files (retains T)) (@Chmod N env p m).
Proof.
  intros w. unfold Chmod, on_files. destruct (chmod_fails _ _); [reflexivity|].
  destruct (files w !! _) as [f|] eqn:E; [|reflexivity]. cbn. by apply (retains_update _ _ _ _ _ E).
Qed.
Lemma Chgrp_retains T p g : keeps (on_files (retains T)) (@Chgrp N env p g).
Proof.
  intros w. unfold Chgrp, on_files. destruct (chmod_fails _ _); [reflexivity|].
  destruct (files w !! _) as [f|] eqn:E; [|reflexivity]. cbn. by apply (retains_update _ _ _ _ _ E).
Qed.
Lemma Chmod_grows D p m : keeps (on_files (grows D)) (@Chmod N env p m).
Proof.
  intros w. unfold Chmod, on_files. destruct (chmod_fails _ _); [reflexivity|].
  destruct (files w !! _) as [f|] eqn:E; [|reflexivity]. cbn. apply grows_insert.
Qed.
Lemma Chgrp_grows D p g : keeps (on_files (grows D)) (@Chgrp N env p g).
Proof.
  intros w. unfold Chgrp, on_files. destruct (chmod_fails _ _); [reflexivity|].
  destruct (files w !! _) as [f|] eqn:E; [|reflexivity]. cbn. apply grows_insert.
Qed.

Lemma writeFileAtomic_retains T p d m :
  T (key env p) -> (forall k, temporary k -> T k) -> keeps (on_files (retains T)) (@writeFileAtomic N env p d m).
Proof.
  intros HT Htmp w. destruct (writeFileAtomic env p d m w) as [w' r] eqn:E. cbn.
  apply writeFileAtomic_cases in E as (_ & _ & _ & Hk & _). intros k f Hn Hf. exists f. split; [|done].
  rewrite Hk; [done|congruence|]. intros ->. apply Hn, Htmp, resolve_tmp_temporary.
Qed.
Lemma writeFileAtomic_grows D p d m :
  (forall k, temporary k -> D k) -> keeps (on_files (grows D)) (@writeFileAtomic N env p d m).
Proof.
  intros HD w. destruct (writeFileAtomic env p d m w) as [w' r] eqn:E. cbn.
  apply writeFileAtomic_cases in E as (_ & _ & _ & Hk & Hr). intros k Hn Hf.
  destruct (decide (k = key env p)) as [->|Hne].
  - destruct r as [[]|]; [|by rewrite Hr]. destruct Hr as [g ->]. by eexists.
  - rewrite Hk; [done|done|]. intros ->. apply Hn, HD, resolve_tmp_temporary.
Qed.

Lemma writeFileAtomic_untouched T p d m :
  T (key env p) -> (forall k, temporary k -> T k) -> keeps (on_files (untouched T)) (@writeFileAtomic N env p d m).
Proof.
  intros HT Htmp w. destruct (writeFileAtomic env p d m w) as [w' r] eqn:E. cbn.
  apply writeFileAtomic_cases in E as (_ & _ & _ & Hk & _). intros k Hn.
  apply Hk; [congruence|]. intros ->. apply Hn, Htmp, resolve_tmp_temporary.
Qed.

(** A computation that runs in the absence of a file cannot overwrite it, unless absence is what a
    file that cannot be examined looks like. *)
Lemma guarded_retains {A} T p (there absent : IO W A) :
  (stat_fails env (key env p) = true -> T (key env p)) -> keeps (on_files (retains T)) there ->
  keeps (on_files (retains (fun k => k = key env p \/ T k))) absent ->
  keeps (on_files (retains T)) (have ← test (fileExists env p); if (have : bool) then there else absent).
Proof.
  intros Hs Ht Ha w. unfold mbind, io_bind, test. unfold fileExists, Stat.
  destruct (stat_fails env (key env p)).
  { intros k f Hk Hf. apply (Ha w k f); [|done]. intros [->|?]; [|done]. by apply Hk, Hs. }
  destruct (bool_decide (is_Some (files w !! key env p))) eqn:Eb; cbn [orb]; [apply Ht|].
  apply bool_decide_eq_false in Eb. destruct (is_dir _ _); [apply Ht|].
  intros k f Hk Hf. apply (Ha w k f); [|done]. intros [->|?]; [|done]. apply Eb. by eexists.
Qed.
End effects.

#[export] Hint Resolve ReadFile_keeps MkdirAll_keeps WriteFile_grows WriteFile_retains Chmod_retains Chgrp_retains
  Chmod_grows Chgrp_grows writeFileAtomic_retains writeFileAtomic_grows
  writeFileAtomic_untouched : keeps.
