(* ===== verification/LeaseStore.v ===== *)
(** * Session leases (proxy/internal/lease)

    After an out-of-band approval the proxy remembers a lease for the client session; later sign
    requests of the same session are served from it without a new approval.  The store keeps the
    leases by their full key and an index from the approver-free lookup key to the full keys. *)

From S2P Require Import Prelude GoTime GoStrings.

Module Lease.

(** ** Data (key.go, store.go) *)

Record LookupKey := mkLookupKey {
  ClientCertFP : string;
  TargetUser : string;
  TargetIP : string;
  SourceIP : string;
  HostKeyFingerprint : string;
  DestinationHostKeyFingerprint : string
}.

Record FullKey := mkFullKey { lookup_key : LookupKey; Approver : string }.

#[export] Instance LookupKey_eq_dec : EqDecision LookupKey.
Proof. solve_decision. Defined.
#[export] Instance FullKey_eq_dec : EqDecision FullKey.
Proof. solve_decision. Defined.

#[export] Instance LookupKey_countable : Countable LookupKey.
Proof.
  refine (inj_countable'
    (fun k => (ClientCertFP k, TargetUser k, TargetIP k, SourceIP k, HostKeyFingerprint k,
               DestinationHostKeyFingerprint k))
    (fun '(a, b, c, d, e, f) => mkLookupKey a b c d e f) _).
  by intros [].
Defined.
#[export] Instance FullKey_countable : Countable FullKey.
Proof.
  refine (inj_countable' (fun k => (lookup_key k, Approver k)) (fun '(l, a) => mkFullKey l a) _).
  by intros [].
Defined.

Definition lookupString (k : LookupKey) : string :=
  ClientCertFP k +:+ "|" +:+ TargetUser k +:+ "|" +:+ TargetIP k +:+ "|" +:+ SourceIP k +:+ "|" +:+
  HostKeyFingerprint k +:+ "|" +:+ DestinationHostKeyFingerprint k.

Definition FullKey_String (k : FullKey) : string := lookupString (lookup_key k) +:+ "|" +:+ Approver k.

(** The destination fingerprint is variadic: only the first value counts. *)
Definition NewLookupKey (clientCertFP targetUser targetIP sourceIP hostKeyFingerprint : string)
    (destinationHostKeyFingerprint : list string) : LookupKey :=
  let destination :=
    match destinationHostKeyFingerprint with d :: _ => d | [] => "" end in
  mkLookupKey clientCertFP targetUser targetIP sourceIP hostKeyFingerprint destination.

Definition NewFullKey (lookup : LookupKey) (approver : string) : FullKey := mkFullKey lookup approver.

Definition FormatApproverChatID (chatID : Z) : string := "telegram:" +:+ FormatInt chatID.
Definition FormatApproverDeviceID (deviceID : string) : string := "device:" +:+ deviceID.

Record ActiveLease := mkActiveLease { lease_approver : string; ExpiresAt : Z }.

Record Store := mkStore {
  leases : gmap FullKey ActiveLease;
  byLookup : gmap LookupKey (gset FullKey)
}.

(** ** Operations (store.go)

    Every operation runs under the store's mutex and is one atomic step; [purgeLoop] repeats
    [purgeExpired] every 30 seconds, so [purgeExpired] may run between any two other operations. *)

Definition NewStore : Store := mkStore ∅ ∅.

Definition deleteLocked (s : Store) (full : FullKey) : Store :=
  let leases' := delete full (leases s) in
  match byLookup s !! lookup_key full with
  | Some bucket =>
      let bucket' := bucket ∖ {[full]} in
      if decide (size bucket' = 0%nat) then mkStore leases' (delete (lookup_key full) (byLookup s))
      else mkStore leases' (<[lookup_key full := bucket']> (byLookup s))
  | None => mkStore leases' (byLookup s)
  end.

(** The loop of [purgeExpired] over the leases in some iteration order. *)
Definition purge_loop (now : Z) (s : Store) (order : list (FullKey * ActiveLease)) : Store :=
  foldl (fun s kl => if After now (ExpiresAt kl.2) then deleteLocked s kl.1 else s) s order.

Definition purgeExpired (now : Z) (s : Store) : Store := purge_loop now s (map_to_list (leases s)).

Definition Put (s : Store) (key : FullKey) (expiresAt : Z) : Store :=
  let leases' := <[key := mkActiveLease (Approver key) expiresAt]> (leases s) in
  let bucket := default ∅ (byLookup s !! lookup_key key) in
  mkStore leases' (<[lookup_key key := {[key]} ∪ bucket]> (byLookup s)).

(** The loop of [FindActive]: [(best, found)] over the candidates in some iteration order. *)
Fixpoint find_loop (now : Z) (m : gmap FullKey ActiveLease) (order : list FullKey)
    (best : ActiveLease) (found : bool) : ActiveLease * bool :=
  match order with
  | [] => (best, found)
  | full :: rest =>
      match m !! full with
      | None => find_loop now m rest best found
      | Some l =>
          if After now (ExpiresAt l) then find_loop now m rest best found
          else if negb found || After (ExpiresAt l) (ExpiresAt best)
          then find_loop now m rest l true
          else find_loop now m rest best found
      end
  end.

Definition zeroLease : ActiveLease := mkActiveLease "" zeroTime.

Definition FindActive (now : Z) (s : Store) (lookup : LookupKey) : ActiveLease * bool :=
  find_loop now (leases s) (elements (default ∅ (byLookup s !! lookup))) zeroLease false.

Definition Remaining (now : Z) (l : ActiveLease) : Z :=
  let d := Sub (ExpiresAt l) now in if d <? 0 then 0 else d.

(** ** The index agrees with the leases *)

Definition wf (s : Store) : Prop :=
  (forall k bucket, byLookup s !! k = Some bucket -> bucket <> ∅) /\
  (forall full, full ∈ default ∅ (byLookup s !! lookup_key full) <-> is_Some (leases s !! full)) /\
  (forall k full, full ∈ default ∅ (byLookup s !! k) -> lookup_key full = k).

(** What a client of the store may rely on: a lease is held for a full key. *)
Definition holds (s : Store) (full : FullKey) (l : ActiveLease) : Prop := leases s !! full = Some l.

(** Equality of stores up to the representation of the index. *)
Lemma lease_wf_new : wf NewStore.
Proof.
  split_and!; simpl; intros *; rewrite ?lookup_empty; simpl; try done.
Qed.

Lemma deleteLocked_leases s full : leases (deleteLocked s full) = delete full (leases s).
Proof. unfold deleteLocked. by repeat case_match. Qed.

Lemma deleteLocked_bucket s full k :
  default ∅ (byLookup (deleteLocked s full) !! k) =
  (if decide (k = lookup_key full) then default ∅ (byLookup s !! k) ∖ {[full]}
   else default ∅ (byLookup s !! k)).
Proof.
  unfold deleteLocked. destruct (byLookup s !! lookup_key full) as [bucket|] eqn:E.
  - case_decide as Hs; case_decide as Hk; simpl; subst.
    + rewrite lookup_delete_eq, E. simpl.
      apply size_empty_inv in Hs. by apply leibniz_equiv.
    + by rewrite lookup_delete_ne.
    + by rewrite lookup_insert_eq, E.
    + by rewrite lookup_insert_ne.
  - simpl. case_decide; subst; [|done]. rewrite E. simpl. set_solver.
Qed.

Lemma deleteLocked_wf s full : wf s -> wf (deleteLocked s full).
Proof.
  intros (Hne & Hin & Hk). split_and!.
  - intros k bucket. unfold deleteLocked.
    destruct (byLookup s !! lookup_key full) as [b|] eqn:E; [|apply Hne].
    case_decide as Hs; simpl.
    + rewrite lookup_delete_Some. intros [_ ?]. by eapply Hne.
    + rewrite lookup_insert. case_decide; [|apply Hne].
      intros [= <-] Hempty. rewrite Hempty in Hs. by rewrite size_empty in Hs.
  - intros f. rewrite deleteLocked_leases, deleteLocked_bucket.
    destruct (decide (f = full)) as [->|Hf].
    + rewrite decide_True by done. rewrite lookup_delete_eq.
      split; [set_solver|by intros []].
    + rewrite lookup_delete_ne by done. rewrite <- Hin.
      case_decide; [|done]. set_solver.
  - intros k f. rewrite deleteLocked_bucket. case_decide; [|apply Hk].
    intros ?. apply Hk. set_solver.
Qed.

Lemma Put_bucket s key e k :
  default ∅ (byLookup (Put s key e) !! k) =
  (if decide (k = lookup_key key) then {[key]} ∪ default ∅ (byLookup s !! k)
   else default ∅ (byLookup s !! k)).
Proof.
  unfold Put. simpl. rewrite lookup_insert. repeat case_decide; subst; done.
Qed.

Lemma Put_wf s key e : wf s -> wf (Put s key e).
Proof.
  intros (Hne & Hin & Hk). split_and!.
  - intros k bucket. unfold Put. simpl. rewrite lookup_insert. case_decide; [|apply Hne].
    intros [= <-]. set_solver.
  - intros f. rewrite Put_bucket. simpl. rewrite lookup_insert.
    destruct (decide (f = key)) as [->|Hf].
    + rewrite decide_True, (decide_True (P := key = key)) by done. set_solver.
    + rewrite (decide_False (P := key = f)) by done. rewrite <- Hin.
      case_decide; [|done]. set_solver.
  - intros k f. rewrite Put_bucket. case_decide; [|apply Hk]. subst.
    intros [->%elem_of_singleton|?]%elem_of_union; [done|by apply Hk].
Qed.

(** Purging removes exactly the expired leases, in whatever order the map is walked. *)
Lemma purge_loop_sweep now order s :
  leases (purge_loop now s order) = sweep (fun l => After now (ExpiresAt l)) (leases s) order.
Proof.
  unfold purge_loop, sweep. revert s. induction order as [|[k l] order IH]; intros s; simpl; [done|].
  rewrite IH. by destruct (After now (ExpiresAt l)); rewrite ?deleteLocked_leases.
Qed.

Lemma lease_purge_wf now order s : wf s -> wf (purge_loop now s order).
Proof.
  revert s. induction order as [|[k l] order IH]; intros s Hs; [done|].
  unfold purge_loop in *. simpl. apply IH. case_match; [by apply deleteLocked_wf|done].
Qed.

Lemma purge_order_leases now s order full :
  iteration_of (leases s) order ->
  leases (purge_loop now s order) !! full =
  match leases s !! full with
  | Some l => if After now (ExpiresAt l) then None else Some l
  | None => None
  end.
Proof.
  intros Hp. rewrite purge_loop_sweep, sweep_filter, map_lookup_filter by done.
  destruct (leases s !! full) as [l|]; [|done]. simpl.
  by destruct (After now (ExpiresAt l)); [rewrite option_guard_False|rewrite option_guard_True].
Qed.

(** ** [FindActive] picks a longest-lived active lease *)

Definition active (now : Z) (m : gmap FullKey ActiveLease) (order : list FullKey) (l : ActiveLease)
    : Prop := exists full, full ∈ order /\ m !! full = Some l /\ now <= ExpiresAt l.

Lemma active_cons now m full order l' :
  active now m (full :: order) l' <->
  (m !! full = Some l' /\ now <= ExpiresAt l') \/ active now m order l'.
Proof.
  unfold active. split.
  - intros (f & [->|Hf]%elem_of_cons & Hm & He); eauto.
  - intros [[Hm He]|(f & Hf & Hm & He)]; eexists; split_and!; try done; set_solver.
Qed.

(** The loop invariant: [r] summarises the leases seen so far. *)
Definition find_post now m order (best : ActiveLease) (found : bool) (r : ActiveLease * bool) : Prop :=
  let seen l' := (found = true /\ l' = best) \/ active now m order l' in
  (r.2 = true <-> exists l', seen l') /\
  (r.2 = true -> seen r.1 /\ forall l', seen l' -> ExpiresAt l' <= ExpiresAt r.1) /\
  (r.2 = false -> r.1 = best).

Lemma find_loop_spec now m order best found :
  find_post now m order best found (find_loop now m order best found).
Proof.
  revert best found. induction order as [|full order IH]; intros best found.
  { unfold find_post, active. simpl. split_and!; [|intros ->..]; [|set_solver by lia|done].
    split; [intros ->; eauto|]. intros (l' & [[-> _]|(? & ? & _)]); [done|set_solver]. }
  assert (Hskip : (forall l, m !! full = Some l -> ~ now <= ExpiresAt l) ->
    find_post now m (full :: order) best found (find_loop now m order best found)).
  { intros Hno. specialize (IH best found). unfold find_post in *. setoid_rewrite active_cons.
    naive_solver. }
  simpl. destruct (m !! full) as [l|] eqn:E; [|apply Hskip; congruence].
  destruct (After now (ExpiresAt l)) eqn:Ha; time_prop.
  { apply Hskip. intros ? [= <-]. lia. }
  destruct (negb found || After (ExpiresAt l) (ExpiresAt best)) eqn:Hb.
  - specialize (IH l true). destruct (find_loop _ _ _ _ _) as [r ok].
    unfold find_post in *. simpl in *. setoid_rewrite active_cons.
    destruct IH as (I1 & I2 & I3).
    assert (Hok : ok = true) by (apply I1; eauto). subst.
    destruct (I2 eq_refl) as [I2a I2b].
    assert (Hl : found = true -> ExpiresAt best <= ExpiresAt l).
    { intros ->. simpl in Hb. time_prop. lia. }
    split_and!; [|intros _; split|done].
    + split; [|done]. intros _. exists l. naive_solver.
    + naive_solver.
    + intros l' [[Hf ->]|[[Hm _]|?]]; [|simplify_eq; by auto..].
      transitivity (ExpiresAt l); auto.
  - specialize (IH best found). bool_prop. time_prop. subst.
    destruct (find_loop _ _ _ _ _) as [r ok].
    unfold find_post in *. simpl in *. setoid_rewrite active_cons.
    destruct IH as (I1 & I2 & I3).
    assert (Hok : ok = true) by (apply I1; eauto). subst.
    destruct (I2 eq_refl) as [I2a I2b].
    split_and!; [naive_solver|intros _; split; [naive_solver|]|done].
    intros l' [[_ ->]|[[Hm _]|?]]; [by auto| |by auto].
    simplify_eq. transitivity (ExpiresAt best); auto.
Qed.

(** The candidates of a well-formed store are the leases with the lookup key. *)
Lemma active_candidates now s lookup order l :
  wf s -> order ≡ₚ elements (default ∅ (byLookup s !! lookup)) ->
  active now (leases s) order l <->
  exists full, lookup_key full = lookup /\ holds s full l /\ now <= ExpiresAt l.
Proof.
  intros (_ & Hin & Hk) Hp. unfold active, holds. split.
  - intros (full & Hf & Hm & He). exists full. split_and!; [|done..].
    apply Hk. by rewrite Hp, elem_of_elements in Hf.
  - intros (full & <- & Hm & He). exists full. split_and!; [|done..].
    rewrite Hp, elem_of_elements. apply Hin. eauto.
Qed.

(** ** Reference definition: one map, no index *)
Module Spec.

(** The latest expiry in a list. *)
Definition latest (l : list Z) : option Z :=
  foldr (fun e acc => Some (match acc with Some a => Z.max e a | None => e end)) None l.

Definition matches (now : Z) (lookup : LookupKey) (kl : FullKey * Z) : bool :=
  bool_decide (lookup_key kl.1 = lookup) && (now <=? kl.2).

(** The abstract state maps a full key to the expiry of its lease. *)
Definition put (m : gmap FullKey Z) (key : FullKey) (e : Z) : gmap FullKey Z := <[key := e]> m.
Definition purge (now : Z) (m : gmap FullKey Z) : gmap FullKey Z := filter (fun kl => now <= kl.2) m.
Definition find (now : Z) (m : gmap FullKey Z) (lookup : LookupKey) : option Z :=
  latest (List.filter (matches now lookup) (map_to_list m)).*2.

Lemma latest_spec l :
  match latest l with
  | Some e => e ∈ l /\ forall e', e' ∈ l -> e' <= e
  | None => l = []
  end.
Proof.
  induction l as [|x l IH]; [done|]. simpl. destruct (latest l) as [a|].
  - destruct IH as [Ha Hm]. split.
    + destruct (Z.max_spec x a) as [[_ ->]|[_ ->]]; set_solver.
    + intros e' [->|He]%elem_of_cons; [lia|]. apply Hm in He. lia.
  - subst. split; [set_solver|]. intros e' [->|He]%elem_of_cons; [lia|set_solver].
Qed.

Lemma find_elem now m lookup e :
  e ∈ (List.filter (matches now lookup) (map_to_list m)).*2 <->
  exists full, lookup_key full = lookup /\ m !! full = Some e /\ now <= e.
Proof.
  rewrite list_elem_of_fmap. setoid_rewrite list_elem_of_In. setoid_rewrite List.filter_In.
  setoid_rewrite <- list_elem_of_In. unfold matches. split.
  - intros ([full e'] & -> & Hm%elem_of_map_to_list & Hb). bool_prop. simpl in *. eauto.
  - intros (full & <- & Hm & He). exists (full, e). split_and!; [done|by apply elem_of_map_to_list|].
    simpl. rewrite bool_decide_true by done. by apply Z.leb_le.
Qed.

End Spec.

(** The abstraction forgets the index and the approver stored beside the expiry. *)
Definition abs (s : Store) : gmap FullKey Z := ExpiresAt <$> leases s.

Lemma abs_lookup s full e : abs s !! full = Some e <-> exists l, holds s full l /\ ExpiresAt l = e.
Proof. unfold abs, holds. rewrite lookup_fmap_Some. naive_solver. Qed.

Lemma abs_put s key e : abs (Put s key e) = Spec.put (abs s) key e.
Proof. unfold abs, Spec.put, Put. simpl. by rewrite fmap_insert. Qed.

Lemma abs_purge now s order :
  iteration_of (leases s) order -> abs (purge_loop now s order) = Spec.purge now (abs s).
Proof.
  intros Hp. apply map_eq. intros full. unfold abs, Spec.purge.
  rewrite lookup_fmap, purge_order_leases, map_lookup_filter by done. rewrite lookup_fmap.
  destruct (leases s !! full) as [l|]; simpl; [|done].
  destruct (After now (ExpiresAt l)) eqn:Ha; time_prop; simpl; case_guard; simpl in *; done || lia.
Qed.

Lemma find_order_abs now s lookup order :
  wf s -> order ≡ₚ elements (default ∅ (byLookup s !! lookup)) ->
  let r := find_loop now (leases s) order zeroLease false in
  (if r.2 then Some (ExpiresAt r.1) else None) = Spec.find now (abs s) lookup.
Proof.
  intros Hwf Hp r. pose proof (find_loop_spec now (leases s) order zeroLease false) as Hr.
  fold r in Hr. unfold find_post in Hr. setoid_rewrite active_candidates in Hr; [|done..].
  destruct Hr as (H1 & H2 & _).
  pose proof (Spec.latest_spec (List.filter (Spec.matches now lookup) (map_to_list (abs s))).*2) as Hl.
  unfold Spec.find. destruct (Spec.latest _) as [e|] eqn:El.
  - setoid_rewrite Spec.find_elem in Hl. setoid_rewrite abs_lookup in Hl.
    destruct Hl as [(full & Hk & (l & Hm & <-) & He) Hmax].
    assert (Hr2 : r.2 = true) by (apply H1; exists l; right; eauto).
    rewrite Hr2. f_equal. destruct (H2 Hr2) as [[[? _]|(f & Hf & Hmf & Hef)] Hbest]; [done|].
    apply Z.le_antisymm; [apply Hmax; eauto 8|apply Hbest; right; eauto 8].
  - destruct r.2 eqn:Hr2; [|done]. exfalso.
    destruct (proj1 H1 eq_refl) as (l & [[? _]|(full & Hk & Hm & He)]); [done|].
    assert (Hin : ExpiresAt l ∈ (List.filter (Spec.matches now lookup) (map_to_list (abs s))).*2).
    { apply Spec.find_elem. exists full. split_and!; [done|apply abs_lookup; eauto|done]. }
    rewrite Hl in Hin. set_solver.
Qed.

Lemma FindActive_sound now s lookup l :
  wf s -> FindActive now s lookup = (l, true) ->
  exists full, lookup_key full = lookup /\ holds s full l /\ now <= ExpiresAt l.
Proof.
  intros Hwf Hf. unfold FindActive in Hf.
  pose proof (find_loop_spec now (leases s)
    (elements (default ∅ (byLookup s !! lookup))) zeroLease false) as (_ & H2 & _).
  rewrite Hf in H2. simpl in H2. destruct (H2 eq_refl) as [[[? _]|Ha] _]; [done|].
  by apply (active_candidates now s lookup _ l Hwf (Permutation_refl _)) in Ha.
Qed.

Lemma FindActive_complete now s full l :
  wf s -> holds s full l -> now <= ExpiresAt l ->
  exists l', FindActive now s (lookup_key full) = (l', true) /\ ExpiresAt l <= ExpiresAt l'.
Proof.
  intros Hwf Hl He. unfold FindActive.
  pose proof (find_loop_spec now (leases s)
    (elements (default ∅ (byLookup s !! lookup_key full))) zeroLease false) as (H1 & H2 & _).
  destruct (find_loop _ _ _ _ _) as [r ok]. simpl in *.
  assert (Ha : active now (leases s) (elements (default ∅ (byLookup s !! lookup_key full))) l).
  { apply (active_candidates now s _ _ l Hwf (Permutation_refl _)). eauto. }
  assert (ok = true) as -> by (apply H1; eauto).
  exists r. split; [done|]. apply H2; auto.
Qed.

(** ** Runs of the store *)

(** One critical section: a [Put], or one round of [purgeLoop] in any iteration order. *)
Inductive step : Store -> Store -> Prop :=
| step_put s key e : step s (Put s key e)
| step_purge s now order : iteration_of (leases s) order -> step s (purge_loop now s order).

Definition reachable (s : Store) : Prop := rtc step NewStore s.

Definition approver_ok (s : Store) : Prop :=
  forall full l, holds s full l -> lease_approver l = Approver full.

Lemma lease_step_wf s s' : step s s' -> wf s /\ approver_ok s -> wf s' /\ approver_ok s'.
Proof.
  intros [? key e|? now order Hp] [Hwf Ha]; split.
  - by apply Put_wf.
  - intros full l. unfold holds, Put. simpl. rewrite lookup_insert.
    case_decide; [naive_solver|apply Ha].
  - by apply lease_purge_wf.
  - intros full l. unfold holds. rewrite purge_order_leases by done.
    destruct (leases s0 !! full) eqn:E; [|done]. case_match; [done|].
    intros [= <-]. by apply Ha.
Qed.

Lemma lease_reachable_wf s : reachable s -> wf s /\ approver_ok s.
Proof.
  intros Hr. apply (rtc_invariant step (fun s => wf s /\ approver_ok s) _ _ lease_step_wf Hr).
  split; [apply lease_wf_new|]. intros full l. unfold holds. simpl. by rewrite lookup_empty.
Qed.

(** The answer of [FindActive] as an optional expiry. *)
Definition found_expiry (r : ActiveLease * bool) : option Z :=
  if r.2 then Some (ExpiresAt r.1) else None.

Lemma FindActive_abs now s lookup :
  wf s -> found_expiry (FindActive now s lookup) = Spec.find now (abs s) lookup.
Proof. intros Hwf. by apply find_order_abs. Qed.

Lemma latest_ext l k : (forall e, e ∈ l <-> e ∈ k) -> Spec.latest l = Spec.latest k.
Proof.
  intros Hlk. pose proof (Spec.latest_spec l) as Hl. pose proof (Spec.latest_spec k) as Hk.
  destruct (Spec.latest l) as [x|], (Spec.latest k) as [y|]; [| | |done].
  - destruct Hl as [Hx Hl], Hk as [Hy Hk]. f_equal. apply Z.le_antisymm; set_solver.
  - subst. set_solver.
  - subst. set_solver.
Qed.

Lemma spec_find_purge now now' m lookup :
  now <= now' -> Spec.find now' (Spec.purge now m) lookup = Spec.find now' m lookup.
Proof.
  intros Hle. unfold Spec.find. apply latest_ext. intros e. rewrite !Spec.find_elem.
  unfold Spec.purge. setoid_rewrite map_lookup_filter_Some. simpl.
  split; [naive_solver|]. intros (full & Hk & Hm & He). exists full. split_and!; try done. lia.
Qed.

(** whatever sequence of [Put]s and purge rounds (each in any map iteration order) the store
    has run, its index lists exactly the stored leases by their lookup key, has no empty bucket,
    and every lease carries the approver of its key. *)
Theorem lease_index_invariant s : reachable s -> wf s /\ approver_ok s.
Proof. apply lease_reachable_wf. Qed.

(** C37: the two-map store implements the one-map reference: [Put] inserts, a purge round in any
    iteration order keeps exactly the unexpired leases, and the [FindActive] loop over the index
    bucket, in any iteration order, finds a lease exactly when the reference does and reports the
    latest expiry among the active leases of that session (comparing with a full scan). *)
Theorem lease_store_refines_spec s :
  reachable s ->
  (forall key e, abs (Put s key e) = Spec.put (abs s) key e) /\
  (forall now order, iteration_of (leases s) order ->
     abs (purge_loop now s order) = Spec.purge now (abs s)) /\
  (forall now lookup order, order ≡ₚ elements (default ∅ (byLookup s !! lookup)) ->
     found_expiry (find_loop now (leases s) order zeroLease false) =
     Spec.find now (abs s) lookup).
Proof.
  intros [Hwf _]%lease_reachable_wf. split_and!.
  - apply abs_put.
  - intros. by apply abs_purge.
  - intros. by apply find_order_abs.
Qed.

(** the background purge is invisible to clients: a purge round that started at [now] changes
    no answer of [FindActive] at a later time. *)
Theorem purge_transparent s now now' order lookup :
  reachable s -> iteration_of (leases s) order -> now <= now' ->
  found_expiry (FindActive now' (purge_loop now s order) lookup) =
  found_expiry (FindActive now' s lookup).
Proof.
  intros [Hwf _]%lease_reachable_wf Hp Hle.
  rewrite !FindActive_abs by (try apply lease_purge_wf; done).
  by rewrite abs_purge, spec_find_purge.
Qed.

(** ** A concrete session with two approvers *)
Definition demo_lookup : LookupKey := NewLookupKey "c3" "root" "10.0.0.7" "10.0.0.2" "hk" ["dst"].
Definition demo_store : Store :=
  Put (Put NewStore (NewFullKey demo_lookup (FormatApproverChatID 42)) 100)
      (NewFullKey demo_lookup (FormatApproverDeviceID "dev_1")) 250.

Lemma demo_reachable : reachable demo_store.
Proof.
  unfold reachable, demo_store.
  eapply rtc_l; [apply step_put|]. eapply rtc_l; [apply step_put|]. apply rtc_refl.
Qed.

Lemma lease_index_invariant_witness :
  wf demo_store /\ approver_ok demo_store /\ size (leases demo_store) = 2%nat.
Proof.
  destruct (lease_index_invariant demo_store demo_reachable) as [? ?].
  split_and!; [done|done|vm_compute; reflexivity].
Defined.

Lemma lease_store_refines_spec_witness :
  found_expiry (FindActive 120 demo_store demo_lookup) = Some 250 /\
  Spec.find 120 (abs demo_store) demo_lookup = Some 250.
Proof.
  split; [vm_compute; reflexivity|].
  destruct (lease_store_refines_spec demo_store demo_reachable) as (_ & _ & H).
  rewrite <- (H 120 demo_lookup _ (Permutation_refl _)). vm_compute; reflexivity.
Defined.

Lemma purge_transparent_witness :
  found_expiry (FindActive 200 (purgeExpired 150 demo_store) demo_lookup) = Some 250 /\
  size (leases (purgeExpired 150 demo_store)) = 1%nat.
Proof.
  split; [|vm_compute; reflexivity]. unfold purgeExpired.
  rewrite (purge_transparent demo_store 150 200 (map_to_list (leases demo_store)) demo_lookup
    demo_reachable (Permutation_refl _) ltac:(lia)).
  vm_compute; reflexivity.
Defined.

End Lease.
