(* ===== verification/ReplayCache.v ===== *)
(** * Replay cache (proxy/internal/auth/replay.go)

    A doubly linked list of recently seen body hashes, newest in front, with a map from a hash to
    its list element.  Entries expire after a TTL and the list is cut at a maximum length. *)

From S2P Require Import Prelude GoTime GoStrings.

Module Replay.

(** The key is a SHA-256 digest, [[32]byte]. *)
Notation Key := (list byte).

(** A list element and the entry it carries; the identity stands for the element's address. *)
Record Element := mkElement { el_id : nat; key : Key; expiresAt : Z }.

#[export] Instance Element_eq_dec : EqDecision Element.
Proof. solve_decision. Defined.

Record ReplayLRU := mkReplayLRU {
  ttl : Z;
  max : Z;
  byKey : gmap Key Element;
  order : list Element;
  next_id : nat
}.

Definition NewReplayLRU (ttl max : Z) : ReplayLRU := mkReplayLRU ttl max ∅ [] 0.

(** ** Operations *)

(** The loop of [evictExpired], from the back of the list. *)
Fixpoint evict_loop (now : Z) (back : list Element) (m : gmap Key Element)
    : list Element * gmap Key Element :=
  match back with
  | [] => ([], m)
  | ent :: prev =>
      if Before now (expiresAt ent) then (back, m)
      else evict_loop now prev (delete (key ent) m)
  end.

Definition evictExpired (now : Z) (r : ReplayLRU) : ReplayLRU :=
  let '(back, m) := evict_loop now (rev (order r)) (byKey r) in
  mkReplayLRU (ttl r) (max r) m (rev back) (next_id r).

(** [r.order.Remove(el)] *)
Definition list_remove (el : Element) (l : list Element) : list Element :=
  List.filter (fun e => negb (bool_decide (el_id e = el_id el))) l.

(** The loop that cuts the list at [r.max], from the back. *)
Fixpoint cut_loop (max : Z) (back : list Element) (m : gmap Key Element)
    : list Element * gmap Key Element :=
  match back with
  | [] => ([], m)
  | old :: rest =>
      if max <? Z.of_nat (length back) then cut_loop max rest (delete (key old) m)
      else (back, m)
  end.

(** The insertion half of [AddIfNew], after a stale element of the key has been dropped. *)
Definition push (now : Z) (r : ReplayLRU) (k : Key) : ReplayLRU :=
  let el := mkElement (next_id r) k (Add now (ttl r)) in
  let '(back, m) := cut_loop (max r) (rev (el :: order r)) (<[k := el]> (byKey r)) in
  mkReplayLRU (ttl r) (max r) m (rev back) (S (next_id r)).

Definition AddIfNew (now : Z) (r : ReplayLRU) (k : Key) : ReplayLRU * bool :=
  let r := evictExpired now r in
  match byKey r !! k with
  | Some el =>
      if Before now (expiresAt el) then (r, false)
      else
        (push now (mkReplayLRU (ttl r) (max r) (delete k (byKey r)) (list_remove el (order r))
                     (next_id r)) k, true)
  | None => (push now r k, true)
  end.

(** ** Invariant *)

Definition newer (a b : Element) : Prop := expiresAt b <= expiresAt a.

(** [last] bounds the clock readings made so far. *)
Record wf (last : Z) (r : ReplayLRU) : Prop := mk_wf {
  wf_map : forall k el, byKey r !! k = Some el <-> el ∈ order r /\ key el = k;
  wf_keys : NoDup (map key (order r));
  wf_ids : NoDup (map el_id (order r));
  wf_fresh : Forall (fun el => (el_id el < next_id r)%nat) (order r);
  wf_sorted : StronglySorted newer (order r);
  wf_bound : Forall (fun el => expiresAt el <= last + ttl r) (order r);
  wf_len : Z.of_nat (length (order r)) <= Z.max 0 (max r)
}.

Lemma replay_wf_new last ttl max : wf last (NewReplayLRU ttl max).
Proof.
  constructor; simpl; try constructor; try lia.
  - by rewrite lookup_empty.
  - set_solver.
Qed.

Lemma wf_later last last' r : last <= last' -> wf last r -> wf last' r.
Proof.
  intros Hl [H1 H2 H3 H4 H5 H6 H7]. constructor; try done.
  eapply Forall_impl; [exact H6|]. simpl. lia.
Qed.

(** ** Both loops drop a suffix of the list and the dropped keys *)

Definition drops (m : gmap Key Element) (dropped : list Element) : gmap Key Element :=
  foldl (fun m el => delete (key el) m) m dropped.

Lemma drops_lookup m dropped k el :
  drops m dropped !! k = Some el <-> m !! k = Some el /\ k ∉ map key dropped.
Proof.
  revert m. induction dropped as [|d dropped IH]; intros m; simpl.
  { set_solver. }
  unfold drops in *. simpl. rewrite IH, lookup_delete_Some, not_elem_of_cons. naive_solver.
Qed.

Lemma evict_loop_spec now back m :
  exists gone kept,
    back = gone ++ kept /\ evict_loop now back m = (kept, drops m gone) /\
    Forall (fun el => expiresAt el <= now) gone /\
    match kept with [] => True | el :: _ => now < expiresAt el end.
Proof.
  revert m. induction back as [|el back IH]; intros m; simpl.
  { exists [], []. done. }
  destruct (Before now (expiresAt el)) eqn:E; time_prop.
  { exists [], (el :: back). done. }
  destruct (IH (delete (key el) m)) as (gone & kept & -> & -> & Hg & Hk).
  exists (el :: gone), kept. split_and!; try done. by constructor.
Qed.

Lemma cut_loop_spec max back m :
  exists gone kept,
    back = gone ++ kept /\ cut_loop max back m = (kept, drops m gone) /\
    Z.of_nat (length kept) <= Z.max 0 max /\
    (gone <> [] -> 0 <= max -> Z.of_nat (length kept) = max).
Proof.
  revert m. induction back as [|el back IH]; intros m; cbn [cut_loop].
  { exists [], []. simpl. split_and!; try done; lia. }
  destruct (max <? Z.of_nat (length (el :: back))) eqn:E; bool_prop.
  - destruct (IH (delete (key el) m)) as (gone & kept & -> & -> & Hl & Hg).
    exists (el :: gone), kept. split_and!; try done. intros _ Hm.
    destruct gone as [|g gone]; [|by apply Hg].
    simpl in *. rewrite Nat2Z.inj_succ in E. lia.
  - exists [], (el :: back). split_and!; try done; lia.
Qed.

Lemma drops_wf m (l gone : list Element) :
  (forall k el, m !! k = Some el <-> el ∈ l ++ gone /\ key el = k) ->
  NoDup (map key (l ++ gone)) ->
  forall k el, drops m gone !! k = Some el <-> el ∈ l /\ key el = k.
Proof.
  intros Hm Hnd k el. rewrite drops_lookup, Hm. rewrite map_app in Hnd.
  apply NoDup_app in Hnd as (_ & Hd & _).
  assert (Hin : forall x (c : list Element), x ∈ c -> key x ∈ map key c).
  { intros x c Hx. apply list_elem_of_fmap. eauto. }
  split.
  - intros [[[Hel|Hel]%elem_of_app <-] Hk]; [done|]. exfalso. apply Hk. auto.
  - intros [Hel <-]. split_and!; [set_solver|done|]. apply Hd. auto.
Qed.

(** A prefix of the list, with the keys of the rest dropped, is still well formed. *)
Lemma prefix_wf last r l gone :
  wf last r -> order r = l ++ gone -> wf last (mkReplayLRU (ttl r) (max r) (drops (byKey r) gone) l (next_id r)).
Proof.
  intros [H1 H2 H3 H4 H5 H6 H7] E. rewrite E in *.
  constructor; simpl.
  - by apply drops_wf.
  - rewrite map_app in H2. by apply NoDup_app in H2 as (? & _).
  - rewrite map_app in H3. by apply NoDup_app in H3 as (? & _).
  - by apply Forall_app in H4 as [? _].
  - by eapply StronglySorted_app_1_l.
  - by apply Forall_app in H6 as [? _].
  - rewrite length_app in H7. lia.
Qed.

Lemma evictExpired_spec last now r :
  wf last r ->
  let r' := evictExpired now r in
  wf last r' /\ ttl r' = ttl r /\ max r' = max r /\
  (exists gone, order r = order r' ++ gone /\ Forall (fun el => expiresAt el <= now) gone) /\
  Forall (fun el => now < expiresAt el) (order r').
Proof.
  intros Hwf. unfold evictExpired.
  destruct (evict_loop_spec now (rev (order r)) (byKey r)) as (gone & kept & E & -> & Hg & Hk).
  assert (Ho : order r = rev kept ++ rev gone).
  { rewrite <- rev_app_distr, <- E. by rewrite rev_involutive. }
  simpl. split_and!; try done.
  - replace (drops (byKey r) gone) with (drops (byKey r) (rev gone)).
    { by apply prefix_wf. }
    apply map_eq. intros k. apply option_eq. intros el. rewrite !drops_lookup.
    by rewrite map_rev, <- (Permutation_rev (map key gone)).
  - exists (rev gone). split; [done|]. by rewrite <- (Permutation_rev gone).
  - destruct kept as [|el kept]; [done|]. simpl in *. rewrite <- app_assoc in Ho.
    pose proof (wf_sorted _ _ Hwf) as Hs. rewrite Ho in Hs.
    apply Forall_app. split; [|by constructor]. apply Forall_forall. intros x Hx.
    assert (Hn : newer x el).
    { eapply StronglySorted_app_1_elem_of; [exact Hs|done|set_solver]. }
    unfold newer in Hn. lia.
Qed.

Lemma push_spec last now r k :
  wf last r -> last <= now -> k ∉ map key (order r) ->
  let r' := push now r k in
  wf now r' /\ ttl r' = ttl r /\ max r' = max r /\
  exists el gone, key el = k /\ expiresAt el = now + ttl r /\
    el :: order r = order r' ++ gone /\
    (gone <> [] -> 0 <= max r -> Z.of_nat (length (order r')) = max r).
Proof.
  intros Hwf Hle Hk. unfold push.
  set (el := mkElement (next_id r) k (Add now (ttl r))).
  destruct (cut_loop_spec (max r) (rev (el :: order r)) (<[k := el]> (byKey r)))
    as (gone & kept & E & -> & Hl & Hg).
  assert (Ho : el :: order r = rev kept ++ rev gone).
  { rewrite <- rev_app_distr, <- E. by rewrite rev_involutive. }
  destruct Hwf as [H1 H2 H3 H4 H5 H6 H7].
  assert (Hnd : NoDup (map key (rev kept ++ rev gone))).
  { rewrite <- Ho. simpl. by constructor. }
  assert (Hmap : forall k' e, <[k := el]> (byKey r) !! k' = Some e <->
            e ∈ rev kept ++ rev gone /\ key e = k').
  { intros k' e. rewrite <- Ho, lookup_insert_Some, H1, elem_of_cons.
    split; [naive_solver|]. intros [[->|He] <-]; [by left|]. right.
    split; [|done]. intros ->. apply Hk. apply list_elem_of_fmap. eauto. }
  simpl. split_and!; try done.
  - assert (Hd : forall m, drops m gone = drops m (rev gone)).
    { intros m. apply map_eq. intros k'. apply option_eq. intros e. rewrite !drops_lookup.
      by rewrite map_rev, <- (Permutation_rev (map key gone)). }
    constructor; simpl.
    + rewrite Hd. by apply drops_wf.
    + rewrite map_app in Hnd. by apply NoDup_app in Hnd as (? & _).
    + assert (Hi : NoDup (map el_id (rev kept ++ rev gone))).
      { rewrite <- Ho. simpl. constructor; [|done]. intros Hin%list_elem_of_fmap.
        destruct Hin as (e & He & Hin). rewrite Forall_forall in H4. apply H4 in Hin. simpl in *. lia. }
      rewrite map_app in Hi. by apply NoDup_app in Hi as (? & _).
    + assert (Hf : Forall (fun e => (el_id e < S (next_id r))%nat) (rev kept ++ rev gone)).
      { rewrite <- Ho. constructor; [simpl; lia|]. eapply Forall_impl; [exact H4|]. simpl. lia. }
      by apply Forall_app in Hf as [? _].
    + eapply StronglySorted_app_1_l. rewrite <- Ho. constructor; [done|].
      eapply Forall_impl; [exact H6|]. unfold newer. simpl. unfold Add. lia.
    + assert (Hf : Forall (fun e => expiresAt e <= now + ttl r) (rev kept ++ rev gone)).
      { rewrite <- Ho. constructor; [simpl; unfold Add; lia|].
        eapply Forall_impl; [exact H6|]. simpl. lia. }
      by apply Forall_app in Hf as [? _].
    + rewrite length_rev. lia.
  - exists el, (rev gone). split_and!; try done. intros Hne Hm. rewrite length_rev.
    apply Hg; [|done]. intros ->. done.
Qed.

(** The element a key has in the cache. *)
Definition entry_of (r : ReplayLRU) (k : Key) (e : Z) : Prop :=
  exists el, el ∈ order r /\ key el = k /\ expiresAt el = e.

Lemma AddIfNew_spec last now r k :
  wf last r -> last <= now ->
  let '(r', ok) := AddIfNew now r k in
  wf now r' /\ ttl r' = ttl r /\ max r' = max r /\
  (ok = false <-> exists e, entry_of r k e /\ now < e) /\
  (ok = true -> exists el gone,
     key el = k /\ expiresAt el = now + ttl r /\
     el :: order (evictExpired now r) = order r' ++ gone /\
     (gone <> [] -> 0 <= max r -> Z.of_nat (length (order r')) = max r)) /\
  (ok = false -> r' = evictExpired now r).
Proof.
  intros Hwf Hle. destruct (evictExpired_spec last now r Hwf) as (Hwf' & Ht & Hm & (gone & Eo & Hg) & Hlive).
  unfold AddIfNew. set (r1 := evictExpired now r) in *. rewrite <- Ht, <- Hm.
  assert (Hentry : forall e, now < e -> entry_of r k e <-> exists el, byKey r1 !! k = Some el /\ expiresAt el = e).
  { intros e He. unfold entry_of. rewrite Eo. split.
    - intros (el & [Hel|Hel]%elem_of_app & <- & <-).
      + exists el. split; [|done]. by apply (wf_map _ _ Hwf').
      + rewrite Forall_forall in Hg. apply Hg in Hel. lia.
    - intros (el & [Hel <-]%(wf_map _ _ Hwf') & <-). exists el. set_solver. }
  destruct (byKey r1 !! k) as [el|] eqn:Ek.
  - assert (Hl : now < expiresAt el).
    { rewrite Forall_forall in Hlive. apply Hlive. by apply (wf_map _ _ Hwf') in Ek as [? _]. }
    rewrite (proj2 (Before_true _ _) Hl). split_and!; try done.
    + by eapply wf_later.
    + split; [|done]. intros _. exists (expiresAt el). split; [|done]. apply Hentry; eauto.
  - assert (Hk : k ∉ map key (order r1)).
    { intros (el & -> & Hel)%list_elem_of_fmap.
      assert (byKey r1 !! key el = Some el) by by apply (wf_map _ _ Hwf'). congruence. }
    destruct (push_spec last now r1 k Hwf' Hle Hk) as (? & ? & ? & ?).
    split_and!; try done. split; [done|]. intros (e & He & Hlt).
    apply Hentry in He as (? & ? & _); done.
Qed.

(** ** Runs: clock readings never go back (Go's monotonic clock) *)

Fixpoint run (r : ReplayLRU) (evs : list (Z * Key)) : ReplayLRU * list bool :=
  match evs with
  | [] => (r, [])
  | (now, k) :: evs' =>
      let '(r1, ok) := AddIfNew now r k in
      let '(r2, oks) := run r1 evs' in (r2, ok :: oks)
  end.

Fixpoint clock_ok (last : Z) (evs : list (Z * Key)) : Prop :=
  match evs with [] => True | (now, _) :: evs' => last <= now /\ clock_ok now evs' end.
Fixpoint clock_end (last : Z) (evs : list (Z * Key)) : Z :=
  match evs with [] => last | (now, _) :: evs' => clock_end now evs' end.

#[export] Instance clock_ok_dec last evs : Decision (clock_ok last evs).
Proof. revert last. induction evs as [|[now k] evs IH]; intros last; simpl; apply _. Defined.

(** How many requests of a run were accepted as new. *)
Definition accepted (oks : list bool) : nat := length (List.filter (fun b => b) oks).

Lemma AddIfNew_wf last now r k : wf last r -> last <= now -> wf now (AddIfNew now r k).1.
Proof.
  intros Hwf Hle. pose proof (AddIfNew_spec last now r k Hwf Hle) as H.
  destruct (AddIfNew now r k). simpl. by destruct H.
Qed.

(** A key just accepted is refused until its entry expires. *)
Lemma AddIfNew_again last t0 t1 r k r1 :
  wf last r -> last <= t0 <= t1 -> t1 < t0 + ttl r -> 0 < max r ->
  AddIfNew t0 r k = (r1, true) -> (AddIfNew t1 r1 k).2 = false.
Proof.
  intros Hwf Ht Hlt Hmax E0.
  pose proof (AddIfNew_spec last t0 r k Hwf ltac:(lia)) as H. rewrite E0 in H.
  destruct H as (Hwf1 & _ & _ & _ & Hadd & _).
  destruct (Hadd eq_refl) as (el & gone & Hk & He & Ed & Hg).
  pose proof (AddIfNew_spec t0 t1 r1 k Hwf1 ltac:(lia)) as H.
  destruct (AddIfNew t1 r1 k) as [r2 ok]. destruct H as (_ & _ & _ & Hiff & _). simpl.
  apply Hiff. exists (t0 + ttl r). split; [|done]. exists el. split; [|done].
  destruct (order r1) as [|x l] eqn:Eo; simpl in Ed; [|by simplify_eq; left].
  destruct gone; [done|]. specialize (Hg ltac:(done) ltac:(lia)). simpl in Hg. lia.
Qed.

Lemma AddIfNew_params now r k :
  ttl (AddIfNew now r k).1 = ttl r /\ max (AddIfNew now r k).1 = max r.
Proof.
  unfold AddIfNew, evictExpired, push.
  repeat (case_match; simplify_eq/=); done.
Qed.

Lemma run_wf last r evs :
  wf last r -> clock_ok last evs ->
  wf (clock_end last evs) (run r evs).1 /\ ttl (run r evs).1 = ttl r /\ max (run r evs).1 = max r.
Proof.
  revert last r. induction evs as [|[now k] evs IH]; intros last r Hwf Hc; simpl; [done|].
  destruct Hc as [Hle Hc]. pose proof (AddIfNew_wf last now r k Hwf Hle) as Hwf'.
  pose proof (AddIfNew_params now r k) as [Ht Hm].
  destruct (AddIfNew now r k) as [r1 ok]. simpl in *.
  specialize (IH now r1 Hwf' Hc). destruct (run r1 evs) as [r2 oks]. simpl in *.
  destruct IH as (? & ? & ?). split_and!; congruence.
Qed.

(** ** A fresh entry stays until it expires or [max] newer ones arrived *)

Definition within (r : ReplayLRU) (k : Key) (e : Z) (n : nat) : Prop :=
  exists pre el post, order r = pre ++ el :: post /\ key el = k /\ expiresAt el = e /\ (length pre <= n)%nat.

Lemma within_prefix l gone pre (el : Element) post :
  l ++ gone = pre ++ el :: post -> (length pre < length l)%nat ->
  exists post', l = pre ++ el :: post'.
Proof.
  intros E Hlt. exists (drop (S (length pre)) l).
  assert (Ht : l !! length pre = Some el).
  { rewrite <- (lookup_app_l l gone) by done. rewrite E. by apply list_lookup_middle. }
  assert (Hp : take (length pre) l = pre).
  { rewrite <- (take_app_le l gone) by lia. rewrite E. apply take_app_length. }
  rewrite <- Hp at 1. symmetry. by apply take_drop_middle.
Qed.

Lemma within_evict last now r k e n :
  wf last r -> now < e -> within r k e n -> within (evictExpired now r) k e n.
Proof.
  intros Hwf Hne (pre & el & post & Eo & Hk & He & Hn).
  destruct (evictExpired_spec last now r Hwf) as (_ & _ & _ & (gone & Ed & Hg) & _).
  rewrite Ed in Eo.
  destruct (decide (length pre < length (order (evictExpired now r)))%nat) as [Hlt|Hge].
  - destruct (within_prefix _ _ _ _ _ Eo Hlt) as [post' ?]. exists pre, el, post'. done.
  - exfalso. assert (Hin : el ∈ gone).
    { apply (list_elem_of_lookup_2 _ (length pre - length (order (evictExpired now r)))).
      rewrite <- lookup_app_r by lia. rewrite Eo. by apply list_lookup_middle. }
    rewrite Forall_forall in Hg. apply Hg in Hin. lia.
Qed.

Lemma within_step last now r k e n k' :
  wf last r -> last <= now -> now < e -> within r k e n -> Z.of_nat (S n) < max r ->
  let '(r', ok) := AddIfNew now r k' in within r' k e (if ok then S n else n).
Proof.
  intros Hwf Hle Hne Hw Hmax.
  pose proof (within_evict last now r k e n Hwf Hne Hw) as (pre & el & post & Eo & Hk & He & Hn).
  pose proof (AddIfNew_spec last now r k' Hwf Hle) as H.
  destruct (AddIfNew now r k') as [r' ok]. destruct H as (_ & _ & _ & _ & Ht & Hf).
  destruct ok; [|rewrite Hf by done; exists pre, el, post; done].
  destruct (Ht eq_refl) as (new & gone & _ & _ & Ed & Hg). rewrite Eo in Ed.
  assert (Hlen : (length (new :: pre) < length (order r'))%nat).
  { destruct gone as [|g gone].
    - rewrite app_nil_r in Ed. rewrite <- Ed. simpl. rewrite length_app. simpl. lia.
    - specialize (Hg ltac:(done) ltac:(lia)). simpl. lia. }
  destruct (within_prefix (order r') gone (new :: pre) el post) as [post' E']; [by rewrite <- Ed|done|].
  exists (new :: pre), el, post'. split_and!; try done. simpl. lia.
Qed.

Lemma within_run last r k e n evs :
  wf last r -> clock_ok last evs -> clock_end last evs < e -> within r k e n ->
  Z.of_nat (n + accepted (run r evs).2) < max r -> last < e ->
  exists n', within (run r evs).1 k e n'.
Proof.
  revert last r n. induction evs as [|[now k'] evs IH]; intros last r n Hwf Hc He Hw Hmax Hl; simpl in *.
  { eauto. }
  destruct Hc as [Hle Hc].
  assert (Hend : forall l t, clock_ok t l -> t <= clock_end t l).
  { induction l as [|[t' ?] l IHl]; intros t; simpl; [lia|]. intros [? ?%IHl]. lia. }
  pose proof (Hend _ _ Hc). assert (Hne : now < e) by lia.
  pose proof (AddIfNew_wf last now r k' Hwf Hle) as Hwf'.
  pose proof (AddIfNew_params now r k') as [_ Hm].
  pose proof (within_step last now r k e n k' Hwf Hle Hne Hw) as Hs.
  pose proof (AddIfNew_spec last now r k' Hwf Hle) as Hspec.
  destruct (AddIfNew now r k') as [r1 ok]. simpl in *.
  specialize (IH now r1). destruct (run r1 evs) as [r2 oks] eqn:Er. simpl in *.
  unfold accepted in *. simpl in *. destruct ok; simpl in *.
  - eapply (IH (S n)); try done; [apply Hs; lia|lia].
  - destruct Hspec as (_ & _ & _ & _ & _ & Hf). rewrite (Hf eq_refl) in *.
    eapply (IH n); try done; [by eapply within_evict|lia].
Qed.

(** ** Reference: the history of acceptances, newest first, of which the latest [max] count *)

Definition history : Type := list (Key * Z).

(** Whether [k] is among the entries and has not expired. *)
Definition live_in (now : Z) (h : history) (k : Key) : bool :=
  existsb (fun x => bool_decide (x.1 = k) && (now <? x.2)) h.

Definition spec_add (ttl max now : Z) (h : history) (k : Key) : history * bool :=
  if live_in now (take (Z.to_nat max) h) k then (h, false) else ((k, now + ttl) :: h, true).

Fixpoint spec_run (ttl max : Z) (h : history) (evs : list (Z * Key)) : list bool :=
  match evs with
  | [] => []
  | (now, k) :: evs' => let '(h', ok) := spec_add ttl max now h k in ok :: spec_run ttl max h' evs'
  end.

Lemma live_in_spec now h k : live_in now h k = true <-> exists e, (k, e) ∈ h /\ now < e.
Proof.
  unfold live_in. rewrite existsb_exists. split.
  - intros ([k' e] & Hin%list_elem_of_In & [Hk%bool_decide_eq_true He%Z.ltb_lt]%andb_true_iff). simpl in *. subst. by exists e.
  - intros (e & Hin & He). exists (k, e). split; [by apply list_elem_of_In|]. simpl. rewrite bool_decide_true by done. by apply Z.ltb_lt.
Qed.

(** The list of the cache is the beginning of the history, and what the latest [max] acceptances have
    beyond it has expired. *)
Definition entries (l : list Element) : history := map (fun el => (key el, expiresAt el)) l.
Record agree (last : Z) (r : ReplayLRU) (h : history) : Prop := mk_agree {
  ag_list : entries (order r) = take (length (order r)) h;
  ag_rest : Forall (fun x => x.2 <= last) (drop (length (order r)) (take (Z.to_nat (max r)) h))
}.

Lemma agree_live last now r h k : wf last r -> 0 <= max r -> last <= now -> agree last r h ->
  (exists e, entry_of r k e /\ now < e) <-> live_in now (take (Z.to_nat (max r)) h) k = true.
Proof.
  intros Hwf Hmax Hle [Hl Hr]. rewrite live_in_spec. pose proof (wf_len _ _ Hwf) as Hlen. rewrite Forall_forall in Hr.
  assert (Hpre : take (length (order r)) (take (Z.to_nat (max r)) h) = entries (order r)) by (rewrite take_take, Nat.min_l by lia; done).
  split.
  - intros (e & (el & Hin & <- & <-) & He). exists (expiresAt el). split; [|done].
    rewrite <- (take_drop (length (order r)) (take _ h)), Hpre. apply elem_of_app. left. apply list_elem_of_fmap. by exists el.
  - intros (e & Hin & He). exists e. split; [|done].
    rewrite <- (take_drop (length (order r)) (take _ h)), Hpre in Hin. apply elem_of_app in Hin as [Hin|Hin].
    + apply list_elem_of_fmap in Hin as (el & [= -> ->] & Hel). by exists el.
    + apply Hr in Hin. simpl in Hin. lia.
Qed.

(** A shorter list agrees if what was dropped has expired. *)
Lemma agree_prefix last now r r' h gone : last <= now -> max r' = max r -> agree last r h ->
  order r = order r' ++ gone -> Forall (fun el => expiresAt el <= now) gone -> wf last r -> 0 <= max r -> agree now r' h.
Proof.
  intros Hle Hm [Hl Hr] Eo Hg Hwf Hmax. pose proof (wf_len _ _ Hwf) as Hlen. rewrite Eo, length_app in *.
  unfold entries in Hl. rewrite map_app in Hl. split.
  - apply (f_equal (take (length (order r')))) in Hl. rewrite take_take, Nat.min_l in Hl by lia.
    by rewrite take_app_length' in Hl by (by rewrite length_map).
  - rewrite Hm. rewrite Forall_forall in Hr. rewrite Forall_forall in Hg. apply Forall_forall. intros x Hx.
    assert (Hd : map (fun el => (key el, expiresAt el)) gone = drop (length (order r')) (take (length (order r') + length gone) (take (Z.to_nat (max r)) h))).
    { rewrite take_take, Nat.min_l by lia. rewrite <- Hl. by rewrite drop_app_length' by (by rewrite length_map). }
    rewrite <- (take_drop (length (order r') + length gone) (take (Z.to_nat (max r)) h)) in Hx.
    rewrite drop_app in Hx. apply elem_of_app in Hx as [Hx|Hx].
    + rewrite <- Hd in Hx. apply list_elem_of_fmap in Hx as (el & -> & Hel). by apply Hg.
    + assert (Hx' : x ∈ drop (length (order r') + length gone) (take (Z.to_nat (max r)) h)).
      { revert Hx. generalize (drop (length (order r') + length gone) (take (Z.to_nat (max r)) h)). intros l Hx.
        apply list_elem_of_lookup in Hx as [i Hi]. rewrite lookup_drop in Hi. by apply list_elem_of_lookup_2 in Hi. }
      apply Hr in Hx'. lia.
Qed.

Lemma agree_push now r1 r' h el gone : 0 <= max r1 -> max r' = max r1 -> agree now r1 h -> el :: order r1 = order r' ++ gone ->
  (gone <> [] -> Z.of_nat (length (order r')) = max r1) -> agree now r' ((key el, expiresAt el) :: h).
Proof.
  intros Hmax Hm [Hl Hr] Ed Hcut. split.
  - assert (E : entries (el :: order r1) = take (S (length (order r1))) ((key el, expiresAt el) :: h)) by (simpl; by rewrite Hl at 1).
    rewrite Ed in E. unfold entries in E. rewrite map_app in E.
    apply (f_equal (take (length (order r')))) in E. rewrite take_app_length' in E by (by rewrite length_map).
    apply (f_equal length) in Ed. rewrite length_app in Ed. simpl in Ed. by rewrite take_take, Nat.min_l in E by lia.
  - rewrite Hm. destruct gone as [|g gone].
    + rewrite app_nil_r in Ed. rewrite <- Ed. cbn [length]. destruct (Z.to_nat (max r1)) as [|n] eqn:En; [constructor|].
      cbn [take drop]. apply Forall_forall. intros x Hx. rewrite Forall_forall in Hr. apply Hr.
      apply list_elem_of_lookup in Hx as [i Hi]. rewrite lookup_drop in Hi.
      apply (list_elem_of_lookup_2 _ i). rewrite lookup_drop. apply lookup_take_Some in Hi as [Hi Hlt].
      apply lookup_take_Some. split; [done|lia].
    + specialize (Hcut ltac:(done)). replace (drop _ _) with (@nil (Key * Z)); [constructor|]. symmetry. apply drop_ge. rewrite length_take. lia.
Qed.

Lemma agree_step last now r h k : wf last r -> last <= now -> 0 <= max r -> agree last r h ->
  let '(r', ok) := AddIfNew now r k in
  let '(h', ok') := spec_add (ttl r) (max r) now h k in
  ok = ok' /\ agree now r' h'.
Proof.
  intros Hwf Hle Hmax Ha. pose proof (AddIfNew_spec last now r k Hwf Hle) as H.
  destruct (evictExpired_spec last now r Hwf) as (_ & _ & Hm1 & (gone & Eo & Hg) & _).
  pose proof (agree_prefix last now r (evictExpired now r) h gone Hle Hm1 Ha Eo Hg Hwf Hmax) as Ha1.
  pose proof (agree_live last now r h k Hwf Hmax Hle Ha) as Hlive. unfold spec_add.
  destruct (AddIfNew now r k) as [r' ok]. destruct H as (_ & _ & Hm' & Hiff & Ht & Hf). rewrite Hlive in Hiff.
  destruct (live_in now _ k), ok; [by destruct Hiff as [_ Hx]; specialize (Hx eq_refl)| | |by destruct Hiff as [Hx _]; specialize (Hx eq_refl)].
  - rewrite (Hf eq_refl). by split.
  - split; [done|]. destruct (Ht eq_refl) as (el & gone' & Hk & He & Ed & Hcut). rewrite <- Hk, <- He.
    eapply (agree_push now (evictExpired now r)); rewrite ?Hm1; try done. intros Hne. by apply Hcut.
Qed.

Lemma agree_run last r h evs : wf last r -> clock_ok last evs -> 0 <= max r -> agree last r h ->
  (run r evs).2 = spec_run (ttl r) (max r) h evs.
Proof.
  revert last r h. induction evs as [|[now k] evs IH]; intros last r h Hwf Hc Hmax Ha; [done|].
  destruct Hc as [Hle Hc]. pose proof (agree_step last now r h k Hwf Hle Hmax Ha) as Hs.
  pose proof (AddIfNew_wf last now r k Hwf Hle) as Hwf'. pose proof (AddIfNew_params now r k) as [Htt Hm].
  simpl. destruct (AddIfNew now r k) as [r1 ok], (spec_add (ttl r) (max r) now h k) as [h1 ok'].
  simpl in *. destruct Hs as [<- Ha']. specialize (IH now r1 h1 Hwf' Hc ltac:(lia) Ha').
  destruct (run r1 evs) as [r2 oks]. simpl in *. by rewrite IH, Htt, Hm.
Qed.

Lemma run_app r evs evs' :
  (run r (evs ++ evs')).1 = (run (run r evs).1 evs').1.
Proof.
  revert r. induction evs as [|[now k] evs IH]; intros r; [done|]. simpl.
  destruct (AddIfNew now r k) as [r1 ok]. specialize (IH r1).
  destruct (run r1 evs) as [r2 oks], (run r1 (evs ++ evs')) as [r3 oks']. simpl in *. done.
Qed.

Lemma clock_ok_app last evs evs' :
  clock_ok last (evs ++ evs') <-> clock_ok last evs /\ clock_ok (clock_end last evs) evs'.
Proof.
  revert last. induction evs as [|[now k] evs IH]; intros last; simpl; [tauto|].
  rewrite IH. tauto.
Qed.

(** A key accepted as new sits at the front of the list with a full lifetime. *)
Lemma accepted_within last now r k :
  wf last r -> last <= now -> 0 < max r -> (AddIfNew now r k).2 = true ->
  within (AddIfNew now r k).1 k (now + ttl r) 0.
Proof.
  intros Hwf Hle Hm Hok. pose proof (AddIfNew_spec last now r k Hwf Hle) as H.
  destruct (AddIfNew now r k) as [r1 ok]. simpl in *. subst.
  destruct H as (_ & _ & _ & _ & Ht & _). destruct (Ht eq_refl) as (el & gone & Hk & He & Ed & Hcut).
  destruct (within_prefix (order r1) gone [] el (order (evictExpired now r))) as [post E].
  - by rewrite <- Ed.
  - simpl. destruct gone as [|g gone].
    + rewrite app_nil_r in Ed. rewrite <- Ed. simpl. lia.
    + specialize (Hcut ltac:(done) ltac:(lia)). lia.
  - exists [], el, post. done.
Qed.

Lemma rejected_within_ttl ttl max start before t0 k between t1 :
  let r0 := (run (NewReplayLRU ttl max) before).1 in
  let r1 := (AddIfNew t0 r0 k).1 in
  clock_ok start (before ++ (t0, k) :: between ++ [(t1, k)]) ->
  (AddIfNew t0 r0 k).2 = true ->
  Z.of_nat (accepted (run r1 between).2) < max -> t1 < t0 + ttl ->
  (AddIfNew t1 (run r1 between).1 k).2 = false.
Proof.
  intros r0 r1 Hc Hok Hacc Hlt. apply clock_ok_app in Hc as [Hc0 Hc1]. simpl in Hc1.
  destruct Hc1 as [Hle Hc1]. apply clock_ok_app in Hc1 as [Hc1 [Hle1 _]].
  destruct (run_wf start (NewReplayLRU ttl max) before (replay_wf_new _ _ _) Hc0) as (Hwf0 & Ht0 & Hm0).
  fold r0 in Hwf0, Ht0, Hm0. simpl in Ht0, Hm0.
  pose proof (AddIfNew_wf _ t0 r0 k Hwf0 Hle) as Hwf1. fold r1 in Hwf1.
  destruct (AddIfNew_params t0 r0 k) as [Ht1 Hm1]. fold r1 in Ht1, Hm1.
  pose proof (accepted_within _ t0 r0 k Hwf0 Hle ltac:(lia) Hok) as Hw.
  fold r1 in Hw. rewrite Ht0 in Hw.
  destruct (run_wf t0 r1 between Hwf1 Hc1) as (Hwf2 & _ & _).
  destruct (within_run t0 r1 k (t0 + ttl) 0 between) as (n & pre & el & post & Eo & Hk & He & _);
    try done; try lia.
  { assert (t0 <= clock_end t0 between); [|lia]. clear -Hc1. revert t0 Hc1.
    induction between as [|[t ?] l IHl]; intros t0; simpl; [lia|]. intros [? ?%IHl]. lia. }
  pose proof (AddIfNew_spec _ t1 (run r1 between).1 k Hwf2 Hle1) as H.
  destruct (AddIfNew t1 _ k) as [r2 ok]. destruct H as (_ & _ & _ & Hiff & _ & _). simpl.
  apply Hiff. exists (t0 + ttl). split; [|done]. exists el. rewrite Eo. set_solver.
Qed.

(** after any sequence of [AddIfNew] calls with a clock that never goes back, the map and the
    list hold the same entries, each key and element once, newest first, none living longer than
    the TTL, and the list is never longer than the configured maximum. *)
Theorem replay_cache_invariant ttl max start evs :
  clock_ok start evs -> wf (clock_end start evs) (run (NewReplayLRU ttl max) evs).1.
Proof. intros Hc. by eapply run_wf; [apply replay_wf_new|]. Qed.

(** a body hash accepted as new is rejected whenever it comes back before its TTL has
    passed, as long as fewer than [max] other hashes were accepted in between; earlier traffic is
    arbitrary. *)
Theorem replay_rejected_within_ttl ttl max start before t0 k between t1 :
  let r0 := (run (NewReplayLRU ttl max) before).1 in
  let r1 := (AddIfNew t0 r0 k).1 in
  clock_ok start (before ++ (t0, k) :: between ++ [(t1, k)]) ->
  (AddIfNew t0 r0 k).2 = true ->
  Z.of_nat (accepted (run r1 between).2) < max -> t1 < t0 + ttl ->
  (AddIfNew t1 (run r1 between).1 k).2 = false.
Proof. exact (rejected_within_ttl ttl max start before t0 k between t1). Qed.

(** C38: at any load, the linked list and the map answer every call exactly as the history of
    acceptances does: a hash is refused if and only if it is among the latest [max] accepted ones and
    was accepted less than the TTL ago.  The clock never goes back; the number of calls is
    arbitrary. *)
Theorem replay_matches_reference ttl max start evs :
  0 <= max -> clock_ok start evs -> (run (NewReplayLRU ttl max) evs).2 = spec_run ttl max [] evs.
Proof.
  intros Hm Hc. apply (agree_run start (NewReplayLRU ttl max)); try done; [apply replay_wf_new|].
  split; [done|]. simpl. rewrite take_nil. constructor.
Qed.

(** ** A concrete run: the production TTL of 60 s, two hashes, one replay *)
Definition demo_k1 : Key := [Byte.x01].
Definition demo_k2 : Key := [Byte.x02].
Definition demo_evs : list (Z * Key) :=
  [(0, demo_k1); (10 * Second, demo_k2); (59 * Second, demo_k1); (60 * Second, demo_k1)].

Definition demo_k3 : Key := [Byte.x03].
Definition demo_evs' : list (Z * Key) := [(6, demo_k1); (7, demo_k3); (8, demo_k2); (9, demo_k3)].

Lemma replay_cache_invariant_witness :
  wf (60 * Second) (run (NewReplayLRU (60 * Second) 1000) demo_evs).1.
Proof. exact (replay_cache_invariant (60 * Second) 1000 0 demo_evs ltac:(vm_compute; intuition discriminate)). Defined.

Lemma replay_rejected_within_ttl_witness :
  let r1 := (AddIfNew 0 (NewReplayLRU (60 * Second) 1000) demo_k1).1 in
  (AddIfNew (59 * Second) (run r1 [(10 * Second, demo_k2)]).1 demo_k1).2 = false.
Proof.
  exact (replay_rejected_within_ttl (60 * Second) 1000 0 [] 0 demo_k1 [(10 * Second, demo_k2)]
    (59 * Second) ltac:(vm_compute; intuition discriminate) ltac:(vm_compute; reflexivity)
    ltac:(vm_compute; reflexivity) ltac:(vm_compute; reflexivity)).
Defined.

(** The third hash pushes the first one out of a cache of two. *)
Lemma replay_matches_reference_witness :
  (run (NewReplayLRU (60 * Second) 2) ((5, demo_k3) :: demo_evs')).2 = [true; true; false; true; true].
Proof.
  rewrite (replay_matches_reference (60 * Second) 2 0 ((5, demo_k3) :: demo_evs')); [vm_compute; reflexivity| |];
    vm_compute; intuition discriminate.
Defined.

End Replay.
