(* ===== verification/External.v ===== *)
(** * Interfaces of the code the proxy only calls

    The cryptographic primitives, the TLS connection and [golang.org/x/crypto/ssh] are arguments
    of the model: classes of operations, with the documented behaviour the program relies on as a
    separate class of laws.  The last section instantiates all of them with small concrete
    functions, so that every law can hold and every statement that assumes them can be run. *)

From S2P Require Import Prelude GoTime GoStrings GoEncoding.

(** ** Hashes *)
Class HashLib := {
  sha256 : list byte -> list byte;                       (* crypto/sha256.Sum256 *)
  hmac_sha256 : list byte -> list byte -> list byte      (* crypto/hmac over SHA-256: key, message *)
}.

Class HashLaws `{HashLib} : Prop := {
  sha256_length : forall b, length (sha256 b) = 32%nat;
  hmac_length : forall k b, length (hmac_sha256 k b) = 32%nat
}.

(** ** TLS connections *)

(** What the server reads from a [*tls.Conn]: the keying-material exporter of its state. *)
Record Conn := mkConn { ExportKeyingMaterial : string -> Z -> option (list byte) }.

(** A client certificate: its DER bytes and the organizational units of its subject. *)
Record Certificate := mkCertificate { Raw : list byte; OrganizationalUnit : list string }.

(** ** SSH keys *)

Record Signature := mkSignature { Format : string; Blob : list byte }.

#[export] Instance Signature_eq_dec : EqDecision Signature.
Proof. solve_decision. Defined.

(** What [ssh.ParseRawPrivateKeyWithPassphrase] can return: an ed25519 key by value or by
    pointer (which may be nil), or a key of another type. *)
Inductive RawKey := RawEd25519 (k : list byte) | RawEd25519Ptr (k : option (list byte)) | RawOther.

Class SshLib := {
  PublicKey : Type;
  PublicKey_eq_dec :: EqDecision PublicKey;
  pub_type : PublicKey -> string;                                  (* Type() *)
  pub_marshal : PublicKey -> list byte;                            (* Marshal() *)
  pub_verify : PublicKey -> list byte -> Signature -> bool;        (* Verify(data, sig) == nil *)
  ParsePublicKey : list byte -> option PublicKey;
  ParseAuthorizedKey : list byte -> option PublicKey;
  MarshalAuthorizedKey : PublicKey -> list byte;
  unmarshal_signature : list byte -> option Signature;             (* ssh.Unmarshal(_, &ssh.Signature) *)
  Signer : Type;
  signer_pub : Signer -> PublicKey;                                (* PublicKey() *)
  signer_sign : Signer -> list byte -> option Signature;           (* Sign(rand, data) *)
  ParseRawPrivateKeyWithPassphrase : list byte -> list byte -> option RawKey;
  NewSignerFromKey : list byte -> option Signer
}.

Class SshLaws `{SshLib} : Prop := {
  parse_marshal : forall pub, ParsePublicKey (pub_marshal pub) = Some pub;
  sign_verify : forall sg data sig,
    signer_sign sg data = Some sig -> pub_verify (signer_pub sg) data sig = true
}.

(** [pub.Marshal()] determines the key. *)
Lemma pub_marshal_inj `{SshLaws} p q : pub_marshal p = pub_marshal q -> p = q.
Proof. intros E. apply (f_equal ParsePublicKey) in E. rewrite !parse_marshal in E. congruence. Qed.

(** ** A concrete instance

    A toy scheme: a key is a byte string, a signature is the key followed by the message, a
    private key file is the passphrase, a zero byte and the key. *)
Module Demo.

Definition pad32 (l : list byte) : list byte := take 32 (l ++ replicate 32 Byte.x00).

#[export] Instance demo_hash : HashLib := {|
  sha256 b := pad32 (rev b);
  hmac_sha256 k b := pad32 (k ++ rev b)
|}.

#[export] Instance demo_hash_laws : HashLaws.
Proof.
  assert (Hp : forall l, length (pad32 l) = 32%nat).
  { intros l. unfold pad32. rewrite length_take, length_app, length_replicate. lia. }
  constructor; intros; apply Hp.
Qed.

(** The text before the first zero byte, and the rest. *)
Fixpoint cut_zero (l : list byte) : option (list byte * list byte) :=
  match l with
  | [] => None
  | b :: l' => if decide (b = Byte.x00) then Some ([], l')
               else '(x, y) ← cut_zero l'; Some (b :: x, y)
  end.

#[export] Instance demo_ssh : SshLib := {|
  PublicKey := list byte;
  PublicKey_eq_dec := _;
  pub_type _ := "ssh-ed25519";
  pub_marshal k := k;
  pub_verify k data sig := bool_decide (Blob sig = k ++ data);
  ParsePublicKey k := Some k;
  ParseAuthorizedKey k := if decide (k = []) then None else Some k;
  MarshalAuthorizedKey k := k;
  unmarshal_signature b := Some (mkSignature "ssh-ed25519" b);
  Signer := list byte;
  signer_pub k := k;
  signer_sign k data := Some (mkSignature "ssh-ed25519" (k ++ data));
  ParseRawPrivateKeyWithPassphrase pem pass :=
    match cut_zero pem with
    | Some (p, k) => if decide (p = pass) then Some (RawEd25519 k) else None
    | None => None
    end;
  NewSignerFromKey k := Some k
|}.

#[export] Instance demo_ssh_laws : SshLaws.
Proof. constructor; [done|]. simpl. intros sg data sig [= <-]. by apply bool_decide_eq_true. Qed.

End Demo.
