(* ===== verification/Fingerprint.v ===== *)
(** * Key fingerprints (proxy/internal/keystore/fingerprint.go, agent/fingerprint.go,
      proxy/internal/cli/fingerprint.go) *)

From Stdlib Require Import Ascii.
From S2P Require Import Prelude GoTime GoStrings GoEncoding External.

Section fingerprint.
Context `{HashLib, SshLib}.

(** [keystore.Fingerprint]: unpadded base64 of the SHA-256 of the wire encoding. *)
Definition Fingerprint (pub : PublicKey) : string :=
  let sum := sha256 (pub_marshal pub) in RawStdEncodeToString sum.

(** [agent.PublicKeyFingerprint]: the client side of the same fingerprint. *)
Definition PublicKeyFingerprint (pub : PublicKey) : string :=
  let sum := sha256 (pub_marshal pub) in RawStdEncodeToString sum.

(** [cli.CertFingerprint]: hex SHA-256 of the DER certificate. *)
Definition CertFingerprint (cert : Certificate) : string := HexEncodeToString (sha256 (Raw cert)).

End fingerprint.

(** [keystore.NormalizeFingerprintInput] *)
Definition NormalizeFingerprintInput (s : string) : string :=
  let s := TrimSpace s in
  let s := TrimPrefix s "SHA256:" in
  TrimRight s "="%char.

(** [agent.normalizeFingerprintHint] *)
Definition normalizeFingerprintHint (s : string) : string :=
  let s := TrimSpace s in
  let s := TrimPrefix s "SHA256:" in
  TrimRight s "="%char.

Definition fingerprintDigest (raw : list byte) : string := RawStdEncodeToString raw.
Definition decodeFingerprintBase64 (s : string) : option (list byte) := RawStdDecodeString s.

(** [keystore.ParseFingerprintHint]: a 64-digit hex digest or an unpadded base64 one. *)
Definition ParseFingerprintHint (s : string) : result string :=
  let s := NormalizeFingerprintInput s in
  if s =s "" then Err (errorf "empty fingerprint") else
  let base64_case :=
    match decodeFingerprintBase64 s with
    | Some raw =>
        if (length raw =? 32)%nat then Ok (fingerprintDigest raw)
        else Err (errorf "invalid fingerprint")
    | None => Err (errorf "invalid fingerprint")
    end in
  if len s =? 64 then
    match HexDecodeString s with
    | Some raw => if (length raw =? 32)%nat then Ok (fingerprintDigest raw) else base64_case
    | None => base64_case
    end
  else base64_case.

(** ** Base64 text survives normalization *)

Lemma b64_text_graphic padded l : forallb graphic (b64_encode padded l) = true.
Proof.
  apply forallb_forall. intros b Hb%list_elem_of_In.
  pose proof (b64_chars_ok padded l) as Hc. rewrite Forall_forall in Hc. by apply Hc.
Qed.

Lemma b64_text_no_pad l : pad ∉ b64_encode false l.
Proof.
  intros Hin. pose proof (b64_chars_ok false l) as Hc. rewrite Forall_forall in Hc.
  destruct (Hc _ Hin) as (_ & _ & _ & Hp). by apply Hp.
Qed.

Lemma b64_text_no_colon l : Byte.x3a ∉ b64_encode false l.
Proof.
  intros Hin. pose proof (b64_chars_ok false l) as Hc. rewrite Forall_forall in Hc.
  destruct (Hc _ Hin) as (_ & _ & Hp & _). by apply Hp.
Qed.

Lemma digest_bytes raw : bytes_of (fingerprintDigest raw) = b64_encode false raw.
Proof. apply bytes_of_string_of. Qed.

(** The normal forms a user may type: optional [SHA256:] prefix, optional padding. *)
Lemma Normalize_digest raw n (prefix : bool) :
  NormalizeFingerprintInput
    ((if prefix then "SHA256:" else "") +:+ fingerprintDigest raw +:+ string_of (replicate n pad)) =
  fingerprintDigest raw.
Proof.
  set (body := fingerprintDigest raw +:+ string_of (replicate n pad)).
  assert (Hb : bytes_of body = b64_encode false raw ++ replicate n pad).
  { unfold body. by rewrite bytes_of_app, digest_bytes, bytes_of_string_of. }
  assert (Hg : forallb graphic (bytes_of body) = true).
  { rewrite Hb, forallb_app, b64_text_graphic. simpl. apply forallb_forall.
    by intros b [-> _]%list_elem_of_In%elem_of_replicate. }
  assert (Ht : TrimRight body "="%char = fingerprintDigest raw).
  { unfold TrimRight. rewrite Hb. change (Ascii.byte_of_ascii "="%char) with pad.
    rewrite trim_right_replicate, trim_right_notin by apply b64_text_no_pad. done. }
  unfold NormalizeFingerprintInput.
  destruct prefix.
  - rewrite TrimSpace_graphic.
    + by rewrite TrimPrefix_app.
    + by rewrite bytes_of_app, forallb_app, Hg.
  - change ("" +:+ body) with body. rewrite TrimSpace_graphic by done.
    rewrite TrimPrefix_none; [done|]. apply not_true_is_false. intros [t E]%HasPrefix_true.
    apply (f_equal bytes_of) in E. rewrite Hb, bytes_of_app in E.
    assert (Hin : Byte.x3a ∈ b64_encode false raw ++ replicate n pad).
    { rewrite E. apply elem_of_app. left. vm_compute. by repeat constructor. }
    apply elem_of_app in Hin as [Hin|[Hp _]%elem_of_replicate]; [by apply b64_text_no_colon in Hin|done].
Qed.

Lemma digest_nonempty raw : raw <> [] -> fingerprintDigest raw <> "".
Proof.
  intros Hr E%bytes_of_empty. rewrite digest_bytes in E.
  by destruct raw as [|a [|b [|c l]]].
Qed.

Lemma digest_len32 raw : length raw = 32%nat -> len (fingerprintDigest raw) = 43.
Proof.
  intros Hl. unfold len. rewrite <- length_bytes_of, digest_bytes, b64_raw_length, Hl. done.
Qed.

Lemma ParseFingerprintHint_digest raw n (prefix : bool) :
  length raw = 32%nat ->
  ParseFingerprintHint
    ((if prefix then "SHA256:" else "") +:+ fingerprintDigest raw +:+ string_of (replicate n pad)) =
  Ok (fingerprintDigest raw).
Proof.
  intros Hl. unfold ParseFingerprintHint. rewrite Normalize_digest.
  assert (Hne : (fingerprintDigest raw =s "") = false).
  { apply str_eqb_neq, digest_nonempty. by intros ->. }
  rewrite Hne, digest_len32 by done.
  unfold decodeFingerprintBase64, fingerprintDigest at 1. rewrite RawStdDecode_Encode, Hl. done.
Qed.

(** a fingerprint in any of the forms a user may paste (with or without the [SHA256:] prefix,
    with or without base64 padding) is parsed back to the fingerprint itself: the round trip of
    [fingerprintDigest] and [ParseFingerprintHint] on every 32-byte digest. *)
Theorem fingerprint_hint_roundtrip raw n (prefix : bool) :
  length raw = 32%nat ->
  ParseFingerprintHint
    ((if prefix then "SHA256:" else "") +:+ fingerprintDigest raw +:+ string_of (replicate n pad)) =
  Ok (fingerprintDigest raw).
Proof. apply ParseFingerprintHint_digest. Qed.

Lemma fingerprint_hint_roundtrip_witness :
  ParseFingerprintHint
    ("SHA256:" +:+ fingerprintDigest (replicate 32 Byte.xa7) +:+ string_of (replicate 1 pad)) =
  Ok (fingerprintDigest (replicate 32 Byte.xa7)).
Proof. exact (fingerprint_hint_roundtrip (replicate 32 Byte.xa7) 1 true eq_refl). Defined.

(** A 64-digit hex digest names the same key as its base64 form. *)
Lemma ParseFingerprintHint_hex raw :
  length raw = 32%nat ->
  ParseFingerprintHint (HexEncodeToString raw) = Ok (fingerprintDigest raw).
Proof.
  intros Hl. unfold ParseFingerprintHint.
  set (h := HexEncodeToString raw).
  assert (Hb : bytes_of h = hex_encode raw) by apply bytes_of_string_of.
  assert (Hd : forall v, 0 <= v < 16 -> graphic (hex_digit v) = true /\ hex_digit v <> pad /\ hex_digit v <> Byte.x3a).
  { intros v Hv. pose proof (all_below_spec 16 (fun v => graphic (hex_digit v) &&
      negb (bool_decide (hex_digit v = pad)) && negb (bool_decide (hex_digit v = Byte.x3a)))
      ltac:(by vm_compute) v Hv) as Hx. cbv beta in Hx. bool_prop. done. }
  assert (Hc : Forall (fun b => graphic b = true /\ b <> pad /\ b <> Byte.x3a) (bytes_of h)).
  { rewrite Hb. clear -Hd. induction raw as [|b raw IH]; [constructor|]. simpl.
    pose proof (byte_val_range b).
    constructor; [|constructor; [|done]]; apply Hd.
    - split; [apply Z.div_pos | apply Z.div_lt_upper_bound]; lia.
    - apply Z.mod_pos_bound; lia. }
  assert (Hn : NormalizeFingerprintInput h = h).
  { unfold NormalizeFingerprintInput. rewrite TrimSpace_graphic.
    - rewrite TrimPrefix_none.
      + unfold TrimRight. change (Ascii.byte_of_ascii "="%char) with pad.
        rewrite trim_right_notin; [apply string_of_bytes_of|].
        intros Hin. rewrite Forall_forall in Hc. by apply Hc in Hin as (_ & ? & _).
      + apply not_true_is_false. intros [t E]%HasPrefix_true. apply (f_equal bytes_of) in E.
        rewrite Forall_forall in Hc. destruct (Hc Byte.x3a) as (_ & _ & ?); [|done].
        rewrite E, bytes_of_app. apply elem_of_app. left. vm_compute. by repeat constructor.
    - apply forallb_forall. intros b Hin%list_elem_of_In. rewrite Forall_forall in Hc. by apply Hc. }
  rewrite Hn.
  assert (Hlen : len h = 64).
  { unfold len. by rewrite <- length_bytes_of, Hb, length_hex_encode, Hl. }
  assert (Hne : (h =s "") = false).
  { apply str_eqb_neq. intros E. by rewrite E in Hlen. }
  rewrite Hne, Hlen. simpl. unfold h. rewrite HexDecode_Encode, Hl. done.
Qed.

(** A fingerprint is its own normal form, with or without the [SHA256:] prefix. *)
Lemma Normalize_Fingerprint `{HashLib, SshLib} pub (prefix : bool) :
  NormalizeFingerprintInput ((if prefix then "SHA256:" else "") +:+ Fingerprint pub) = Fingerprint pub.
Proof.
  pose proof (Normalize_digest (sha256 (pub_marshal pub)) 0 prefix) as E.
  change (Fingerprint pub) with (fingerprintDigest (sha256 (pub_marshal pub))).
  replace (fingerprintDigest (sha256 (pub_marshal pub)) +:+ string_of (replicate 0 pad))
    with (fingerprintDigest (sha256 (pub_marshal pub))) in E; [done|].
  apply bytes_of_inj. rewrite bytes_of_app. by rewrite app_nil_r.
Qed.

(** The fingerprint of a key, taken as a hint, names the key. *)
Lemma ParseFingerprintHint_Fingerprint `{HashLaws, SshLib} pub :
  ParseFingerprintHint (Fingerprint pub) = Ok (Fingerprint pub).
Proof.
  pose proof (ParseFingerprintHint_digest (sha256 (pub_marshal pub)) 0 false (sha256_length _)) as E.
  replace ("" +:+ fingerprintDigest (sha256 (pub_marshal pub)) +:+ string_of (replicate 0 pad))
    with (fingerprintDigest (sha256 (pub_marshal pub))) in E; [done|].
  apply bytes_of_inj. rewrite !bytes_of_app. by rewrite app_nil_r.
Qed.

(** Both ends of the protocol compute the same fingerprint, and the fingerprint is a function of
    the digest only: two keys share it exactly when their digests agree. *)
Lemma Fingerprint_inj `{HashLib, SshLib} p q :
  Fingerprint p = Fingerprint q <-> sha256 (pub_marshal p) = sha256 (pub_marshal q).
Proof.
  unfold Fingerprint. split; [apply RawStdEncode_inj|]. by intros ->.
Qed.

Arguments NormalizeFingerprintInput : simpl never.
Arguments ParseFingerprintHint : simpl never.
Arguments Fingerprint : simpl never.
