(* ===== verification/SessionBinding.v ===== *)
(** * SSH session binding (proxy/internal/auth/session_binding.go)

    Before a hosted key signs anything, the proxy checks that the bytes are an SSH public-key
    user-auth request for the approved user and key, bound to a destination host key: either
    proven by OpenSSH's session-bind signature, or (direct clients) only asserted. *)

From S2P Require Import Prelude GoTime GoStrings GoEncoding External Fingerprint.

Module Bind.

(** ** Data *)

Record SessionBinding := mkSessionBinding {
  HostPublicKey : string;
  SessionID : string;
  BindSignature : string;
  Forwarding : bool
}.

Definition noBinding : SessionBinding := mkSessionBinding "" "" "" false.

Record ValidatedSessionBinding := mkValidated {
  HostKeyFingerprint : string;
  ValidatedSessionID : list byte
}.

Record userAuthSignData := mkUserAuth {
  ua_SessionID : list byte;
  ua_User : string;
  ua_Service : string;
  ua_Method : string;
  ua_HasSig : bool;
  ua_Algorithm : string;
  ua_PublicKey : list byte;
  ua_Rest : list byte
}.

Record goUserAuthSignData := mkGoUserAuth {
  go_Session : list byte;
  go_Type : Z;
  go_User : string;
  go_Service : string;
  go_Method : string;
  go_Sign : bool;
  go_Algo : string;
  go_PubKey : list byte;
  go_Rest : list byte
}.

#[export] Instance userAuth_eq_dec : EqDecision userAuthSignData.
Proof. solve_decision. Defined.
#[export] Instance Validated_eq_dec : EqDecision ValidatedSessionBinding.
Proof. solve_decision. Defined.

(** [ssh.Unmarshal] at the three struct types of this file. *)
Class SshWire := {
  unmarshal_goUserAuth : list byte -> option goUserAuthSignData;
  unmarshal_userAuth : list byte -> option userAuthSignData;
  unmarshal_hostbound : list byte -> option (list byte)
}.

Definition ErrInvalidSessionBinding : error := ENew "auth" "invalid SSH session binding".

(** [fmt.Errorf("%w: ...", ErrInvalidSessionBinding)] *)
Definition invalid (detail : string) : error :=
  EWrap ("invalid SSH session binding: " +:+ detail) ErrInvalidSessionBinding.

Definition msgUserAuthRequest : Z := 50.

(** ** Operations *)

Definition decodeRequiredBase64 (s : string) : result (list byte) :=
  if s =s "" then Err (errorf "required") else
  match StdDecodeString s with
  | Some [] | None => Err (errorf "invalid base64")
  | Some b => Ok b
  end.

Section operations.
Context `{HashLib, SshLib, SshWire}.

Definition parseUserAuthSignData (data : list byte) : result userAuthSignData :=
  match data with
  | [] => Err (invalid "missing sign data")
  | _ =>
      let legacy :=
        match unmarshal_userAuth data with
        | None => Err (invalid "user-auth request")
        | Some req =>
            match ua_SessionID req with
            | [] => Err (invalid "missing session id")
            | _ => Ok req
            end
        end in
      match unmarshal_goUserAuth data with
      | Some goReq =>
          if (go_Type goReq =? msgUserAuthRequest) && (0 <? length (go_Session goReq))%nat then
            Ok (mkUserAuth (go_Session goReq) (go_User goReq) (go_Service goReq) (go_Method goReq)
                  (go_Sign goReq) (go_Algo goReq) (go_PubKey goReq) (go_Rest goReq))
          else legacy
      | None => legacy
      end
  end.

Definition validateParsedUserAuth (req : userAuthSignData) (targetUser : string)
    (expectedKey : option PublicKey) (boundHostKey : PublicKey) : result unit :=
  let mismatch :=
    match expectedKey with
    | None => true
    | Some k =>
        negb (ua_User req =s targetUser) || negb (ua_Service req =s "ssh-connection") ||
        negb (ua_HasSig req) || negb (bool_decide (ua_PublicKey req = pub_marshal k))
    end in
  if mismatch then Err (invalid "user-auth request mismatch") else
  if ua_Method req =s "publickey" then
    match ua_Rest req with
    | [] => Ok tt
    | _ => Err (invalid "trailing user-auth data")
    end
  else if ua_Method req =s "publickey-hostbound-v00@openssh.com" then
    match unmarshal_hostbound (ua_Rest req) with
    | Some hostKey =>
        if bool_decide (hostKey = pub_marshal boundHostKey) then Ok tt
        else Err (invalid "host-bound key mismatch")
    | None => Err (invalid "host-bound key mismatch")
    end
  else Err (invalid "unsupported user-auth method").

Definition validateUserAuthSignData (data expectedSessionID : list byte) (targetUser : string)
    (expectedKey : option PublicKey) (boundHostKey : PublicKey) : result unit :=
  req ← parseUserAuthSignData data;
  if bool_decide (ua_SessionID req = expectedSessionID)
  then validateParsedUserAuth req targetUser expectedKey boundHostKey
  else Err (invalid "user-auth request mismatch").

Definition validateDirectUserAuthSignData (data : list byte) (targetUser : string)
    (expectedKey : option PublicKey) (hostKey : PublicKey) : result (list byte) :=
  req ← parseUserAuthSignData data;
  _ ← validateParsedUserAuth req targetUser expectedKey hostKey;
  Ok (ua_SessionID req).

(** Replace the error of a fallible call by a session-binding error. *)
Definition or_invalid {A} (r : result A) (detail : string) : result A :=
  match r with Ok a => Ok a | Err _ => Err (invalid detail) end.

Definition ValidateLocalKeySignData (binding : SessionBinding) (signData : list byte)
    (targetUser : string) (expectedKey : option PublicKey) : result ValidatedSessionBinding :=
  if Forwarding binding then Err (invalid "forwarding is not allowed") else
  hostWire ← or_invalid (decodeRequiredBase64 (HostPublicKey binding)) "host public key";
  hostKey ← or_err (ParsePublicKey hostWire) (invalid "host public key");
  sessionID ← or_invalid (decodeRequiredBase64 (SessionID binding)) "session id";
  sigWire ← or_invalid (decodeRequiredBase64 (BindSignature binding)) "signature";
  sig ← or_err (unmarshal_signature sigWire) (invalid "signature");
  if pub_verify hostKey sessionID sig then
    _ ← validateUserAuthSignData signData sessionID targetUser expectedKey hostKey;
    Ok (mkValidated (Fingerprint hostKey) sessionID)
  else Err (invalid "signature").

Definition ValidateDirectLocalKeySignData (hostPublicKey : string) (signData : list byte)
    (targetUser : string) (expectedKey : option PublicKey) : result ValidatedSessionBinding :=
  hostWire ← or_invalid (decodeRequiredBase64 hostPublicKey) "destination host public key";
  hostKey ← or_err (ParsePublicKey hostWire) (invalid "destination host public key");
  sessionID ← validateDirectUserAuthSignData signData targetUser expectedKey hostKey;
  Ok (mkValidated (Fingerprint hostKey) sessionID).

(** ** Lemmas *)

Lemma invalid_is detail : errors_is (invalid detail) ErrInvalidSessionBinding = true.
Proof.
  unfold invalid. cbn [errors_is]. apply orb_true_iff. right.
  apply orb_true_iff. left. by apply bool_decide_eq_true.
Qed.

Lemma or_invalid_ok {A} (r : result A) d a : or_invalid r d = Ok a <-> r = Ok a.
Proof. destruct r; naive_solver. Qed.
Lemma or_invalid_err {A} (r : result A) d e : or_invalid r d = Err e -> e = invalid d.
Proof. destruct r; naive_solver. Qed.

Lemma parse_err data e :
  parseUserAuthSignData data = Err e -> errors_is e ErrInvalidSessionBinding = true.
Proof.
  unfold parseUserAuthSignData. intros Hp.
  repeat (case_match; simplify_eq); apply invalid_is.
Qed.

Lemma parse_ok_session data req :
  parseUserAuthSignData data = Ok req -> data <> [] /\ ua_SessionID req <> [].
Proof.
  unfold parseUserAuthSignData. intros Hp. destruct data as [|b data]; [done|]. split; [done|].
  intros Hs. repeat (case_match; simplify_eq/=); bool_prop; rewrite ?Hs in *; simpl in *; (done || lia).
Qed.

Lemma validateParsed_err req user k h e :
  validateParsedUserAuth req user k h = Err e -> errors_is e ErrInvalidSessionBinding = true.
Proof.
  unfold validateParsedUserAuth. intros Hp. repeat (case_match; simplify_eq); apply invalid_is.
Qed.

(** What an accepted user-auth request says. *)
Definition request_for (req : userAuthSignData) (user : string) (k h : PublicKey) : Prop :=
  ua_User req = user /\ ua_Service req = "ssh-connection" /\ ua_HasSig req = true /\
  ua_PublicKey req = pub_marshal k /\
  ((ua_Method req = "publickey" /\ ua_Rest req = []) \/
   (ua_Method req = "publickey-hostbound-v00@openssh.com" /\
    unmarshal_hostbound (ua_Rest req) = Some (pub_marshal h))).

Lemma validateParsed_ok req user k h :
  validateParsedUserAuth req user k h = Ok tt <-> exists k', k = Some k' /\ request_for req user k' h.
Proof.
  unfold validateParsedUserAuth, request_for. split.
  - intros Hp. destruct k as [k'|]; [|done]. exists k'. split; [done|].
    destruct (_ || _ || _ || _) eqn:Em; [done|]. str_prop.
    split_and!; try done.
    destruct (ua_Method req =s "publickey") eqn:E1; str_prop.
    { left. split; [done|]. by case_match. }
    destruct (ua_Method req =s _) eqn:E2; [|done]. str_prop. right. split; [done|].
    repeat (case_match; simplify_eq). by bool_prop; subst.
  - intros (k' & -> & <- & -> & -> & -> & [[-> ->]|[-> Hh]]).
    + rewrite !str_eqb_refl, bool_decide_true by done. done.
    + rewrite !str_eqb_refl, bool_decide_true by done. simpl.
      rewrite Hh, bool_decide_true by done. done.
Qed.

Lemma validateUserAuth_ok data sid user k h :
  validateUserAuthSignData data sid user k h = Ok tt <->
  exists req k', parseUserAuthSignData data = Ok req /\ ua_SessionID req = sid /\
    k = Some k' /\ request_for req user k' h.
Proof.
  unfold validateUserAuthSignData. rewrite bind_ok. split.
  - intros (req & Hp & Hv). case_bool_decide; [|done]. apply validateParsed_ok in Hv. naive_solver.
  - intros (req & k' & Hp & Hs & Hk). exists req. split; [done|]. rewrite bool_decide_true by done.
    apply validateParsed_ok. naive_solver.
Qed.

Lemma validateUserAuth_err data sid user k h e :
  validateUserAuthSignData data sid user k h = Err e -> errors_is e ErrInvalidSessionBinding = true.
Proof.
  unfold validateUserAuthSignData. rewrite bind_err. intros [Hp|(req & _ & Hv)].
  - by eapply parse_err.
  - case_bool_decide; [by eapply validateParsed_err|]. simplify_eq. apply invalid_is.
Qed.

Lemma decodeRequired_nonempty s b : decodeRequiredBase64 s = Ok b -> b <> [].
Proof. unfold decodeRequiredBase64. intros Hd. by repeat (case_match; simplify_eq). Qed.

(** C8: a session binding the proxy accepts is a proof: the exchange hash in the signed data was
    signed by the destination host key whose fingerprint is reported, forwarding is off, and the
    data is a user-auth request for exactly the approved user and hosted key; a host-bound request
    names that same destination key. *)
Theorem session_binding_sound binding data user k v :
  ValidateLocalKeySignData binding data user (Some k) = Ok v ->
  Forwarding binding = false /\
  exists hostKey sig req,
    pub_verify hostKey (ValidatedSessionID v) sig = true /\
    HostKeyFingerprint v = Fingerprint hostKey /\
    parseUserAuthSignData data = Ok req /\
    ua_SessionID req = ValidatedSessionID v /\ ua_SessionID req <> [] /\
    request_for req user k hostKey.
Proof.
  unfold ValidateLocalKeySignData. destruct (Forwarding binding); [done|]. intros Hv.
  split; [done|]. inv_ok. rename a0 into hostKey, a1 into sid, a3 into sig.
  destruct (pub_verify hostKey sid sig) eqn:Hver; [|done]. inv_ok.
  match goal with H : validateUserAuthSignData _ _ _ _ _ = Ok ?u |- _ =>
    destruct u; apply validateUserAuth_ok in H as (req & k' & Hp & Hs & [= <-] & Hr) end.
  exists hostKey, sig, req. simpl. split_and!; try done.
  by apply parse_ok_session in Hp as [_ ?].
Qed.

(** every rejection of a session binding or of a direct request is the one sentinel
    [ErrInvalidSessionBinding], possibly wrapped, so [errors.Is] finds it. *)
Theorem binding_errors_are_sentinel binding host data user k e :
  ValidateLocalKeySignData binding data user k = Err e \/
  ValidateDirectLocalKeySignData host data user k = Err e ->
  errors_is e ErrInvalidSessionBinding = true.
Proof.
  assert (Ho : forall {A} (o : option A) d, or_err o (invalid d) = Err e -> e = invalid d).
  { intros A [a|] d; naive_solver. }
  intros [Hv|Hv].
  - unfold ValidateLocalKeySignData in Hv. case_match; [simplify_eq; apply invalid_is|].
    repeat (apply bind_err in Hv as [Hv|(? & _ & Hv)];
      [first [apply or_invalid_err in Hv | apply Ho in Hv]; subst; apply invalid_is|]).
    case_match; [|simplify_eq; apply invalid_is].
    apply bind_err in Hv as [Hv|(? & _ & Hv)]; [|done]. by eapply validateUserAuth_err.
  - unfold ValidateDirectLocalKeySignData in Hv.
    do 2 (apply bind_err in Hv as [Hv|(? & _ & Hv)];
      [first [apply or_invalid_err in Hv | apply Ho in Hv]; subst; apply invalid_is|]).
    apply bind_err in Hv as [Hv|(? & _ & Hv)]; [|done].
    unfold validateDirectUserAuthSignData in Hv.
    apply bind_err in Hv as [Hv|(? & _ & Hv)]; [by eapply parse_err|].
    apply bind_err in Hv as [Hv|(? & _ & Hv)]; [by eapply validateParsed_err|done].
Qed.

(** a direct client's destination is its own assertion: from one accepted plain
    [publickey] request, naming any other well-formed host key is accepted too, and the proxy
    then reports that key's fingerprint.  (Such approvals must not create leases.) *)
Theorem direct_destination_unauthenticated host host' data user k v wire' key' req :
  ValidateDirectLocalKeySignData host data user k = Ok v ->
  parseUserAuthSignData data = Ok req -> ua_Method req = "publickey" ->
  decodeRequiredBase64 host' = Ok wire' -> ParsePublicKey wire' = Some key' ->
  ValidateDirectLocalKeySignData host' data user k =
  Ok (mkValidated (Fingerprint key') (ValidatedSessionID v)).
Proof.
  intros Hv Hreq Hm Hw Hk. unfold ValidateDirectLocalKeySignData in Hv |- *. inv_ok.
  rewrite Hw. simpl. rewrite Hk. simpl.
  unfold validateDirectUserAuthSignData in *. inv_ok.
  match goal with H : parseUserAuthSignData data = Ok ?r |- _ =>
    assert (r = req) as -> by congruence end.
  rewrite Hreq. simpl.
  match goal with H : validateParsedUserAuth _ _ _ _ = Ok ?u |- _ =>
    destruct u; apply validateParsed_ok in H as (k' & -> & Hr) end.
  assert (Hr' : validateParsedUserAuth req user (Some k') key' = Ok tt).
  { apply validateParsed_ok. exists k'. split; [done|]. unfold request_for in *.
    destruct Hr as (? & ? & ? & ? & [?|[Hx _]]); [by split_and!; auto|congruence]. }
  by rewrite Hr'.
Qed.

End operations.

(** ** A concrete wire format: RFC 4251 strings, as [ssh.Unmarshal] reads these structs *)
Module WireDemo.

Definition get_string (l : list byte) : option (list byte * list byte) :=
  match l with
  | a :: b :: c :: d :: rest =>
      let n := Z.to_nat (((byte_val a * 256 + byte_val b) * 256 + byte_val c) * 256 + byte_val d) in
      if (n <=? length rest)%nat then Some (take n rest, drop n rest) else None
  | _ => None
  end.

Definition get_byte (l : list byte) : option (byte * list byte) :=
  match l with [] => None | b :: rest => Some (b, rest) end.

Definition put_string (s : list byte) : list byte :=
  let n := Z.of_nat (length s) in
  [byte_of (n / 16777216); byte_of (n / 65536); byte_of (n / 256); byte_of n] ++ s.

#[export] Instance demo_wire : SshWire := {|
  unmarshal_goUserAuth l :=
    '(sid, l) ← get_string l; '(t, l) ← get_byte l; '(user, l) ← get_string l;
    '(service, l) ← get_string l; '(method, l) ← get_string l; '(sign, l) ← get_byte l;
    '(algo, l) ← get_string l; '(key, rest) ← get_string l;
    Some (mkGoUserAuth sid (byte_val t) (string_of user) (string_of service) (string_of method)
            (negb (byte_val sign =? 0)) (string_of algo) key rest);
  unmarshal_userAuth l := None;
  unmarshal_hostbound l := '(key, rest) ← get_string l; if decide (rest = []) then Some key else None
|}.

(** A [publickey] request for [user] and [key] in the session [sid]. *)
Definition request (sid key : list byte) (user : string) : list byte :=
  put_string sid ++ [Byte.x32] ++ put_string (bytes_of user) ++
  put_string (bytes_of "ssh-connection") ++ put_string (bytes_of "publickey") ++ [Byte.x01] ++
  put_string (bytes_of "ssh-ed25519") ++ put_string key.

End WireDemo.

Import Demo WireDemo.

Definition demo_sid : list byte := bytes_of "session".
Definition demo_host : list byte := bytes_of "hostkey".
Definition demo_key : list byte := bytes_of "userkey".
Definition demo_request : list byte := request demo_sid demo_key "root".
Definition demo_binding : SessionBinding :=
  mkSessionBinding (StdEncodeToString demo_host) (StdEncodeToString demo_sid)
    (StdEncodeToString (demo_host ++ demo_sid)) false.
Definition demo_validated : ValidatedSessionBinding :=
  mkValidated (Fingerprint (H := demo_hash) (H0 := demo_ssh) demo_host) demo_sid.

Lemma session_binding_sound_witness :
  ValidateLocalKeySignData demo_binding demo_request "root" (Some demo_key) = Ok demo_validated /\
  Forwarding demo_binding = false.
Proof.
  assert (E : ValidateLocalKeySignData demo_binding demo_request "root" (Some demo_key)
              = Ok demo_validated) by (vm_compute; reflexivity).
  split; [exact E|]. exact (proj1 (session_binding_sound _ _ _ _ _ E)).
Defined.

Lemma binding_errors_are_sentinel_witness :
  exists e, ValidateLocalKeySignData demo_binding demo_request "admin" (Some demo_key) = Err e /\
    errors_is e ErrInvalidSessionBinding = true.
Proof.
  exists (invalid "user-auth request mismatch").
  assert (E : ValidateLocalKeySignData demo_binding demo_request "admin" (Some demo_key)
              = Err (invalid "user-auth request mismatch")) by (vm_compute; reflexivity).
  split; [exact E|].
  exact (binding_errors_are_sentinel _ "" _ _ _ _ (or_introl E)).
Defined.

Lemma direct_destination_unauthenticated_witness :
  ValidateDirectLocalKeySignData (StdEncodeToString (bytes_of "elsewhere")) demo_request "root"
    (Some demo_key)
  = Ok (mkValidated (Fingerprint (H := demo_hash) (H0 := demo_ssh) (bytes_of "elsewhere")) demo_sid).
Proof.
  apply (direct_destination_unauthenticated (H := demo_hash) (H0 := demo_ssh) (H1 := demo_wire)
           (StdEncodeToString demo_host) (StdEncodeToString (bytes_of "elsewhere")) demo_request "root" (Some demo_key)
           demo_validated (bytes_of "elsewhere") (bytes_of "elsewhere")
           (mkUserAuth demo_sid "root" "ssh-connection" "publickey" true "ssh-ed25519" demo_key []));
    vm_compute; reflexivity.
Defined.

End Bind.
