(* ===== verification/AuthPipeline.v ===== *)
(** * Request authentication (proxy/internal/auth: hmac.go, meta.go, pop.go, pipeline.go)

    Every signing request passes, in this order: the body HMAC keyed by the TLS exporter, the
    timestamp window, the replay cache, the proof of possession of the client's SSH key, and the
    check of the fields shown to the approver.  The client's half of the proof of possession
    (sdk/pop.go) is modelled beside the server's. *)

From Stdlib Require Import Ascii.
From S2P Require Import Prelude GoTime GoStrings GoEncoding GoUtf8 External SessionBinding ReplayCache.

Module Auth.

(** ** Body HMAC (hmac.go) *)

Definition exporterLabel : string := "luna-request-hmac".
Definition ErrInvalidHMAC : error := ENew "auth" "invalid body HMAC".

(** The accumulator of [subtle.ConstantTimeCompare] over slices of one length. *)
Fixpoint xor_acc (x y : list byte) (v : Z) : Z :=
  match x, y with
  | a :: x', b :: y' => xor_acc x' y' (Z.lor v (Z.lxor (byte_val a) (byte_val b)))
  | _, _ => v
  end.

Definition ConstantTimeCompare (x y : list byte) : Z :=
  if negb (length x =? length y)%nat then 0 else
  if xor_acc x y 0 =? 0 then 1 else 0.

Section hmac.
Context `{HashLib}.

Definition computeBodyHMAC (conn : Conn) (body : list byte) : result (list byte) :=
  key ← or_err (ExportKeyingMaterial conn exporterLabel 32) (errorf "tls: exporter unavailable");
  Ok (hmac_sha256 key body).

Definition ComputeBodyHMAC (conn : Conn) (body : list byte) : result (list byte) :=
  computeBodyHMAC conn body.

Definition VerifyBodyHMAC (conn : Conn) (body : list byte) (headerHex : string) : result unit :=
  expected ← computeBodyHMAC conn body;
  provided ← or_err (HexDecodeString headerHex) ErrInvalidHMAC;
  if negb (length provided =? length expected)%nat ||
     negb (ConstantTimeCompare provided expected =? 1)
  then Err ErrInvalidHMAC else Ok tt.
End hmac.

(** ** Display metadata (meta.go) *)

Definition maxSourceUserLen : Z := 64.
Definition maxClientNameLen : Z := 64.
Definition maxClientVersionLen : Z := 32.

Record SignClientMeta := mkMeta { SourceUser : string; ClientName : string; ClientVersion : string }.

Definition ErrInvalidDisplayField : error :=
  ENew "auth" "display field contains control characters".

Definition control_rune (r : Z) : bool := (r <? 32) || (r =? 127).

Definition checkDisplayField (field : string) : result unit :=
  if existsb control_rune (Runes field) then Err ErrInvalidDisplayField else Ok tt.

Definition ValidateDisplayFields (targetUser targetIP : string) (meta : SignClientMeta) : result unit :=
  _ ← checkDisplayField targetUser;
  _ ← checkDisplayField targetIP;
  _ ← checkDisplayField (SourceUser meta);
  _ ← checkDisplayField (ClientName meta);
  _ ← checkDisplayField (ClientVersion meta);
  Ok tt.

(** [s[:max]] cuts bytes. *)
Definition trimMetaField (s : string) (max : Z) : string :=
  let s := TrimSpace s in
  if max <? len s then string_of (take (Z.to_nat max) (bytes_of s)) else s.

Definition NormalizeSignClientMeta (sourceUser clientName clientVersion : string) : SignClientMeta :=
  mkMeta (trimMetaField sourceUser maxSourceUserLen) (trimMetaField clientName maxClientNameLen)
    (trimMetaField clientVersion maxClientVersionLen).

(** ** Proof of possession (pop.go, sdk/pop.go) *)

Definition popChallenge (user ip : string) (ts : Z) : list byte :=
  bytes_of user ++ [Byte.x3a] ++ bytes_of ip ++ [Byte.x3a] ++ bytes_of (FormatInt ts).

(** The client builds the same bytes. *)
Definition challenge (user ip : string) (ts : Z) : list byte :=
  bytes_of user ++ [Byte.x3a] ++ bytes_of ip ++ [Byte.x3a] ++ bytes_of (FormatInt ts).

Section pop.
Context `{SshLib}.

Definition VerifyPoP (pub : PublicKey) (user ip : string) (ts : Z) (sigHex : string) : result unit :=
  blob ← or_err (HexDecodeString sigHex) (errorf "encoding/hex: invalid byte");
  if pub_verify pub (popChallenge user ip ts) (mkSignature (pub_type pub) blob)
  then Ok tt else Err (errorf "ssh: signature did not verify").

(** [sign] is [ed25519.Sign] with the client's private key. *)
Definition SignPoP (sign : list byte -> list byte) (user ip : string) (ts : Z) : string :=
  HexEncodeToString (sign (challenge user ip ts)).
End pop.

(** ** Timestamp window *)

Definition timestampWindowSec : Z := 30.
Definition ErrTimestampOutsideWindow : error := ENew "auth" "timestamp outside allowed window".

Definition ValidateTimestampAt (ts now windowSec : Z) : result unit :=
  let ref := Unix now in
  let delta := wrap64 (ref - ts) in
  let delta := if delta <? 0 then wrap64 (- delta) else delta in
  if windowSec <? delta then Err ErrTimestampOutsideWindow else Ok tt.

(** ** The pipelines *)

Definition ErrReplay : error := ENew "auth" "replay detected".
Definition ErrInvalidPoP : error := ENew "auth" "invalid proof of possession".

Record SignRequest := mkSignRequest {
  req_PublicKey : string;
  TargetUser : string;
  TargetIP : string;
  Timestamp : Z;
  PopSignature : string;
  AgentSignData : string;
  req_HostPublicKey : string;
  req_HostKeyFingerprint : string;
  req_SourceUser : string;
  req_ClientName : string;
  req_ClientVersion : string;
  req_SessionBinding : Bind.SessionBinding;
  DestinationHostPublicKey : string;
  BodyMAC : string
}.

Section pipeline.
Context `{HashLib, SshLib}.

(** [clock] is the reading [AddIfNew] makes; the cache is the shared state. *)
Definition ValidateCLIKeysLoad (conn : Conn) (rawBody : list byte) (bodyMAC : string)
    (timestamp now clock : Z) (replay : Replay.ReplayLRU) : Replay.ReplayLRU * result unit :=
  match VerifyBodyHMAC conn rawBody bodyMAC with
  | Err e => (replay, Err e)
  | Ok _ =>
  match ValidateTimestampAt timestamp now timestampWindowSec with
  | Err e => (replay, Err e)
  | Ok _ =>
      let '(replay, new) := Replay.AddIfNew clock replay (sha256 rawBody) in
      (replay, if new then Ok tt else Err ErrReplay)
  end end.

Definition ValidateSignRequest (conn : Conn) (rawBody : list byte) (req : SignRequest)
    (now clock : Z) (replay : Replay.ReplayLRU) : Replay.ReplayLRU * result unit :=
  match VerifyBodyHMAC conn rawBody (BodyMAC req) with
  | Err e => (replay, Err e)
  | Ok _ =>
  match ValidateTimestampAt (Timestamp req) now timestampWindowSec with
  | Err e => (replay, Err e)
  | Ok _ =>
      let '(replay, new) := Replay.AddIfNew clock replay (sha256 rawBody) in
      (replay,
       if negb new then Err ErrReplay else
       match ParseAuthorizedKey (bytes_of (req_PublicKey req)) with
       | None => Err (EWrap "public_key: ssh: no key found" (errorf "ssh: no key found"))
       | Some pub =>
           match VerifyPoP pub (TargetUser req) (TargetIP req) (Timestamp req) (PopSignature req) with
           | Err _ => Err ErrInvalidPoP
           | Ok _ =>
               ValidateDisplayFields (TargetUser req) (TargetIP req)
                 (NormalizeSignClientMeta (req_SourceUser req) (req_ClientName req)
                    (req_ClientVersion req))
           end
       end)
  end end.
End pipeline.

(** ** Lemmas *)

Lemma lor_zero a b : Z.lor a b = 0 <-> a = 0 /\ b = 0.
Proof. apply Z.lor_eq_0_iff. Qed.

Lemma xor_acc_zero x y v :
  length x = length y -> xor_acc x y v = 0 <-> v = 0 /\ x = y.
Proof.
  revert y v. induction x as [|a x IH]; intros [|b y] v Hl; simplify_eq/=; [naive_solver|].
  rewrite IH, lor_zero, Z.lxor_eq_0_iff by done. split.
  - intros [[-> Hab] ->]. split; [done|]. f_equal. by rewrite <- (byte_of_val a), Hab, byte_of_val.
  - by intros [-> [= -> ->]].
Qed.

Lemma ConstantTimeCompare_eq x y : ConstantTimeCompare x y = 1 <-> x = y.
Proof.
  unfold ConstantTimeCompare. destruct (length x =? length y)%nat eqn:El; bool_prop; simpl.
  - pose proof (xor_acc_zero x y 0 El). destruct (xor_acc x y 0 =? 0) eqn:E; bool_prop; naive_solver.
  - split; [done|]. intros ->. done.
Qed.

(** The header is the hex form of the body's HMAC under the connection's exporter key. *)
Definition mac_valid `{HashLib} (conn : Conn) (body : list byte) (headerHex : string) : Prop :=
  exists key, ExportKeyingMaterial conn exporterLabel 32 = Some key /\
    HexDecodeString headerHex = Some (hmac_sha256 key body).

Lemma VerifyBodyHMAC_ok `{HashLib} conn body hdr :
  VerifyBodyHMAC conn body hdr = Ok tt <-> mac_valid conn body hdr.
Proof.
  unfold VerifyBodyHMAC, computeBodyHMAC, mac_valid. split.
  - intros Hv. inv_ok. case_match; [done|]. bool_prop.
    match goal with H : ConstantTimeCompare _ _ = 1 |- _ => apply ConstantTimeCompare_eq in H as -> end.
    eauto.
  - intros (key & -> & Hd). simpl. rewrite Hd. simpl.
    rewrite Nat.eqb_refl, (proj2 (ConstantTimeCompare_eq _ _) eq_refl). done.
Qed.

(** A string without ASCII control bytes. *)
Definition clean (s : string) : Prop := forall b, b ∈ bytes_of s -> 32 <= byte_val b /\ byte_val b <> 127.

Lemma checkDisplayField_ok s : checkDisplayField s = Ok tt <-> clean s.
Proof.
  unfold checkDisplayField, clean.
  assert (Hr : existsb control_rune (Runes s) = true <->
               exists b, b ∈ bytes_of s /\ (byte_val b < 32 \/ byte_val b = 127)).
  { rewrite existsb_exists. unfold control_rune. split.
    - intros (r & Hin%list_elem_of_In & Hc). apply orb_true_iff in Hc.
      assert (r < 128) by (destruct Hc; bool_prop; lia).
      apply Runes_ascii in Hin as (b & Hb & <-); [|done]. exists b. split; [done|].
      destruct Hc; bool_prop; lia.
    - intros (b & Hb & Hc). exists (byte_val b). split.
      + apply list_elem_of_In, Runes_ascii; [lia|]. eauto.
      + apply orb_true_iff. rewrite Z.ltb_lt, Z.eqb_eq. lia. }
  destruct (existsb _ _).
  - split; [done|]. intros Hc. destruct (proj1 Hr eq_refl) as (b & Hb & Hx). apply Hc in Hb. lia.
  - split; [|done]. intros _ b Hb. destruct (decide (32 <= byte_val b /\ byte_val b <> 127)); [done|].
    assert (false = true) by (apply Hr; exists b; split; [done|lia]). done.
Qed.

Definition clean_meta (m : SignClientMeta) : Prop :=
  clean (SourceUser m) /\ clean (ClientName m) /\ clean (ClientVersion m).

Lemma ValidateDisplayFields_ok user ip meta :
  ValidateDisplayFields user ip meta = Ok tt <-> clean user /\ clean ip /\ clean_meta meta.
Proof.
  unfold ValidateDisplayFields, clean_meta. rewrite <- !checkDisplayField_ok. split.
  - intros Hv. inv_ok. by repeat match goal with u : () |- _ => destruct u end.
  - by intros (-> & -> & -> & -> & ->).
Qed.

(** [ts] is at most [w] whole seconds away from the second [now] lies in. *)
Definition in_window (ts now w : Z) : Prop := Z.abs (Unix now - ts) <= w.

Lemma ValidateTimestampAt_ok ts now w :
  in_int64 ts -> 0 <= w -> 0 <= Unix now -> Unix now + w < max_int64 ->
  ValidateTimestampAt ts now w = Ok tt <-> in_window ts now w \/ ts = Unix now - 2 ^ 63.
Proof.
  unfold ValidateTimestampAt, in_window, in_int64, wrap64, min_int64, max_int64.
  intros Hts Hw Hn1 Hn2. set (ref := Unix now) in *.
  assert (Hm : (ref - ts + 2 ^ 63) mod 2 ^ 64 =
               if decide (ref - ts < 2 ^ 63) then ref - ts + 2 ^ 63 else ref - ts - 2 ^ 63).
  { case_decide; [apply Z.mod_small; lia|]. symmetry. apply (Z.mod_unique_pos _ _ 1); lia. }
  rewrite Hm. case_decide as Hd.
  - replace (ref - ts + 2 ^ 63 - 2 ^ 63) with (ref - ts) by lia.
    destruct (ref - ts <? 0) eqn:E; bool_prop.
    + rewrite Z.mod_small by lia. case_match; bool_prop; split; try done; lia.
    + case_match; bool_prop; split; try done; lia.
  - assert (E : ref - ts - 2 ^ 63 - 2 ^ 63 < 0) by lia. apply Z.ltb_lt in E. rewrite E. clear E.
    destruct (decide (ref - ts = 2 ^ 63)) as [E|E].
    + rewrite E. change (w <? _) with (w <? - 2 ^ 63). rewrite (proj2 (Z.ltb_ge _ _)) by lia.
      split; [|done]. right. lia.
    + rewrite (Z.mod_small (- _ + _)) by lia. rewrite (proj2 (Z.ltb_lt _ _)) by lia.
      split; [done|lia].
Qed.

Lemma VerifyPoP_ok `{SshLib} pub user ip ts sigHex :
  VerifyPoP pub user ip ts sigHex = Ok tt <->
  exists blob, HexDecodeString sigHex = Some blob /\
    pub_verify pub (popChallenge user ip ts) (mkSignature (pub_type pub) blob) = true.
Proof.
  unfold VerifyPoP. split.
  - intros Hv. inv_ok. case_match; [|done]. eauto.
  - intros (blob & -> & Hp). simpl. by rewrite Hp.
Qed.

(** The proof of possession of a request: its key parses and signed its challenge. *)
Definition pop_valid `{SshLib} (req : SignRequest) : Prop :=
  exists pub blob, ParseAuthorizedKey (bytes_of (req_PublicKey req)) = Some pub /\
    HexDecodeString (PopSignature req) = Some blob /\
    pub_verify pub (popChallenge (TargetUser req) (TargetIP req) (Timestamp req))
      (mkSignature (pub_type pub) blob) = true.

Definition request_meta (req : SignRequest) : SignClientMeta :=
  NormalizeSignClientMeta (req_SourceUser req) (req_ClientName req) (req_ClientVersion req).

Section acceptance.
Context `{HashLib, SshLib}.

Lemma ValidateSignRequest_ok conn raw req now clock r r' :
  ValidateSignRequest conn raw req now clock r = (r', Ok tt) <->
  mac_valid conn raw (BodyMAC req) /\
  ValidateTimestampAt (Timestamp req) now timestampWindowSec = Ok tt /\
  Replay.AddIfNew clock r (sha256 raw) = (r', true) /\
  pop_valid req /\ clean (TargetUser req) /\ clean (TargetIP req) /\ clean_meta (request_meta req).
Proof.
  unfold ValidateSignRequest, pop_valid. rewrite <- VerifyBodyHMAC_ok, <- ValidateDisplayFields_ok.
  split.
  - destruct (VerifyBodyHMAC _ _ _) as [[]|]; [|done].
    destruct (ValidateTimestampAt _ _ _) as [[]|]; [|done].
    destruct (Replay.AddIfNew _ _ _) as [r1 [|]]; simpl; [|done].
    destruct (ParseAuthorizedKey _) as [pub|]; [|done].
    destruct (VerifyPoP _ _ _ _ _) as [[]|] eqn:Ep; [|done]. intros [= -> Hd].
    apply VerifyPoP_ok in Ep as (blob & ? & ?). split_and!; try done. eauto.
  - intros (-> & -> & -> & (pub & blob & -> & Hb & Hp) & Hd). simpl.
    rewrite (proj2 (VerifyPoP_ok _ _ _ _ _)) by eauto. unfold request_meta in Hd. by rewrite Hd.
Qed.

(** C6: a signing request passes the pipeline exactly when the body carries the HMAC of this TLS
    connection, its timestamp is at most 30 s from the proxy's clock (or at the one value where
    the 64-bit subtraction overflows), the cache accepted the body hash as new, the key in the
    body signed [user:ip:timestamp], and no field shown to the approver has a control byte. *)
Theorem sign_request_accepted_iff conn raw req now clock r r' :
  in_int64 (Timestamp req) -> 0 <= Unix now < 2 ^ 62 ->
  ValidateSignRequest conn raw req now clock r = (r', Ok tt) <->
  mac_valid conn raw (BodyMAC req) /\
  (in_window (Timestamp req) now 30 \/ Timestamp req = Unix now - 2 ^ 63) /\
  Replay.AddIfNew clock r (sha256 raw) = (r', true) /\
  pop_valid req /\ clean (TargetUser req) /\ clean (TargetIP req) /\ clean_meta (request_meta req).
Proof.
  intros Ht Hn. rewrite ValidateSignRequest_ok.
  rewrite (ValidateTimestampAt_ok (Timestamp req) now timestampWindowSec); unfold max_int64; try done;
    unfold timestampWindowSec; lia.
Qed.

(** a request whose HMAC or timestamp is wrong leaves the replay cache untouched, on the
    signing and on the key-load route, so unauthenticated traffic cannot fill or evict it. *)
Theorem unauthenticated_keeps_replay_cache conn raw req now clock r :
  ~ mac_valid conn raw (BodyMAC req) \/
  ValidateTimestampAt (Timestamp req) now timestampWindowSec <> Ok tt ->
  (ValidateSignRequest conn raw req now clock r).1 = r /\
  (ValidateCLIKeysLoad conn raw (BodyMAC req) (Timestamp req) now clock r).1 = r.
Proof.
  rewrite <- VerifyBodyHMAC_ok. unfold ValidateSignRequest, ValidateCLIKeysLoad.
  destruct (VerifyBodyHMAC _ _ _) as [[]|]; [|done].
  destruct (ValidateTimestampAt _ _ _) as [[]|]; naive_solver.
Qed.

(** C7: the same body is accepted twice only about a minute apart.  On a clock that never goes back,
    and with fewer than 1000 other requests accepted in between, the second acceptance comes at least
    60 s after the first; and since both are accepted the timestamp check dates the second at most
    60 whole seconds after the first, for a timestamp within the window as for the one that the
    overflow of the check lets through. *)
Theorem replayed_body_needs_a_minute conn conn' raw req req' start before now0 t0 between now1 t1 r1 r2 :
  let r0 := (Replay.run (Replay.NewReplayLRU (60 * Second) 1000) before).1 in
  Replay.clock_ok start (before ++ (t0, sha256 raw) :: between ++ [(t1, sha256 raw)]) ->
  ValidateSignRequest conn raw req now0 t0 r0 = (r1, Ok tt) ->
  Z.of_nat (Replay.accepted (Replay.run r1 between).2) < 1000 ->
  ValidateSignRequest conn' raw req' now1 t1 (Replay.run r1 between).1 = (r2, Ok tt) ->
  Timestamp req' = Timestamp req -> in_int64 (Timestamp req) ->
  0 <= Unix now0 < 2 ^ 62 -> 0 <= Unix now1 < 2 ^ 62 ->
  t0 + 60 * Second <= t1 /\ Unix now1 <= Unix now0 + 60.
Proof.
  intros r0 Hc Hq0 Hacc Hq1 Hts Hin Hn0 Hn1.
  apply ValidateSignRequest_ok in Hq0 as (_ & Hw0 & Hq0 & _), Hq1 as (_ & Hw1 & Hq1 & _). split.
  - destruct (decide (t0 + 60 * Second <= t1)) as [|Hlt]; [done|]. exfalso.
    pose proof (Replay.rejected_within_ttl (60 * Second) 1000 start before t0 (sha256 raw) between t1 Hc) as Hr.
    fold r0 in Hr. rewrite Hq0 in Hr. simpl in Hr. rewrite Hq1 in Hr. simpl in Hr.
    specialize (Hr eq_refl Hacc ltac:(lia)). done.
  - rewrite Hts in Hw1.
    apply ValidateTimestampAt_ok in Hw0; [|unfold timestampWindowSec, max_int64 in *; (done || lia)..].
    apply ValidateTimestampAt_ok in Hw1; [|unfold timestampWindowSec, max_int64 in *; (done || lia)..].
    unfold in_window, timestampWindowSec in *. lia.
Qed.

(** the minute is not enough: a request stamped 30 s ahead of the proxy's clock and accepted
    is accepted a second time exactly 60 s later, when its cache entry has expired but its
    timestamp is still inside the window. *)
Theorem body_accepted_twice conn raw req last t r r1 :
  Replay.wf last r -> last <= t -> Replay.ttl r = 60 * Second -> 0 <= Unix t ->
  Unix t + 120 < max_int64 -> Timestamp req = Unix t + 30 ->
  ValidateSignRequest conn raw req t t r = (r1, Ok tt) ->
  (ValidateSignRequest conn raw req (t + 60 * Second) (t + 60 * Second) r1).2 = Ok tt.
Proof.
  intros Hwf Hl Httl Hp Hmax Hts Hok. apply ValidateSignRequest_ok in Hok as (Hm & Hw & Ha & Hrest).
  assert (Hu : Unix (t + 60 * Second) = Unix t + 60).
  { unfold Unix, Second. rewrite Z.div_add by lia. done. }
  pose proof (Replay.AddIfNew_spec last t r (sha256 raw) Hwf Hl) as Hs. rewrite Ha in Hs.
  destruct Hs as (Hwf1 & Ht1 & _).
  pose proof (Replay.AddIfNew_spec t (t + 60 * Second) r1 (sha256 raw) Hwf1 ltac:(unfold Second; lia)) as Hs.
  destruct (Replay.AddIfNew (t + 60 * Second) r1 (sha256 raw)) as [r2 ok] eqn:E2.
  destruct Hs as (_ & _ & _ & Hiff & _).
  assert (Hok : ok = true).
  { destruct ok; [done|]. destruct (proj1 Hiff eq_refl) as (e & (el & Hin & _ & He) & Hlt).
    pose proof (Replay.wf_bound _ _ Hwf1) as Hb. rewrite Forall_forall in Hb.
    apply Hb in Hin. rewrite Ht1, Httl in Hin. lia. }
  rewrite Hok in E2.
  rewrite (proj2 (ValidateSignRequest_ok conn raw req (t + 60 * Second) (t + 60 * Second) r1 r2)); [done|].
  split_and!; try apply Hrest; try done.
  apply ValidateTimestampAt_ok; unfold in_int64, min_int64, max_int64, timestampWindowSec, in_window in *; lia.
Qed.

End acceptance.

(** the proof-of-possession challenge is unambiguous for user names without a colon (and
    any address, IPv6 included): a signature for one user, address and time is a signature for no
    other. *)
Theorem pop_challenge_injective user ip ts user' ip' ts' :
  has_byte ":"%char user = false -> has_byte ":"%char user' = false ->
  popChallenge user ip ts = popChallenge user' ip' ts' -> user = user' /\ ip = ip' /\ ts = ts'.
Proof.
  unfold popChallenge. intros Hu Hu' E.
  assert (Hn : forall s, has_byte ":"%char s = false -> Byte.x3a ∉ bytes_of s).
  { intros s Hs. by apply bool_decide_eq_false in Hs. }
  simpl in E. apply split_first in E as [E1 E]; [|by apply Hn..].
  apply split_last in E as [E2 E3]; [|by apply Hn, FormatInt_no_byte..].
  apply bytes_of_inj in E1, E2, E3. apply FormatInt_inj in E3. done.
Qed.

(** the client's proof verifies at the proxy: the hex signature [SignPoP] makes over its
    challenge passes [VerifyPoP] for the same user, address and time, whenever the key's signature
    scheme verifies what it signs. *)
Theorem pop_roundtrip `{SshLib} pub sign user ip ts :
  (forall m, pub_verify pub m (mkSignature (pub_type pub) (sign m)) = true) ->
  VerifyPoP pub user ip ts (SignPoP sign user ip ts) = Ok tt.
Proof.
  intros Hs. apply VerifyPoP_ok. exists (sign (challenge user ip ts)). split; [|apply Hs].
  apply HexDecode_Encode.
Qed.

(** the display check accepts a string exactly when none of its bytes is an ASCII control
    character, whatever its UTF-8 decoding (invalid sequences included). *)
Theorem display_field_check_exact s : checkDisplayField s = Ok tt <-> clean s.
Proof. apply checkDisplayField_ok. Qed.

(** [ValidateTimestampAt] accepts exactly the timestamps at most [w] seconds from the clock,
    and, because of 64-bit wrap-around, the single timestamp [2^63] seconds before it. *)
Theorem timestamp_window_exact ts now w :
  in_int64 ts -> 0 <= w -> 0 <= Unix now -> Unix now + w < max_int64 ->
  ValidateTimestampAt ts now w = Ok tt <-> in_window ts now w \/ ts = Unix now - 2 ^ 63.
Proof. apply ValidateTimestampAt_ok. Qed.

(** ** Concrete requests: a connection with a constant exporter key and the toy signatures *)
Module PipelineDemo.
Import Demo.

Definition conn : Conn := mkConn (fun _ _ => Some (bytes_of "exporter")).
Definition raw : list byte := bytes_of "{}".
Definition clock : Z := 1700000000 * Second.
Definition pub : list byte := bytes_of "client-key".
Definition replay : Replay.ReplayLRU := Replay.NewReplayLRU (60 * Second) 1000.

Definition request (ts : Z) : SignRequest :=
  mkSignRequest "client-key" "root" "10.0.0.7" ts
    (SignPoP (fun m => pub ++ m) "root" "10.0.0.7" ts) "" "" "" "alice" " ssh " "1.0"
    Bind.noBinding "" (HexEncodeToString (hmac_sha256 (bytes_of "exporter") raw)).

Definition accepted : Replay.ReplayLRU :=
  (ValidateSignRequest conn raw (request 1700000030) clock clock replay).1.

Lemma request_accepted :
  ValidateSignRequest conn raw (request 1700000030) clock clock replay = (accepted, Ok tt).
Proof. vm_compute. reflexivity. Qed.

End PipelineDemo.
Import Demo.

Lemma sign_request_accepted_iff_witness :
  mac_valid PipelineDemo.conn PipelineDemo.raw (BodyMAC (PipelineDemo.request 1700000030)) /\
  pop_valid (PipelineDemo.request 1700000030).
Proof.
  destruct (proj1 (sign_request_accepted_iff PipelineDemo.conn PipelineDemo.raw
      (PipelineDemo.request 1700000030) PipelineDemo.clock PipelineDemo.clock PipelineDemo.replay
      PipelineDemo.accepted ltac:(vm_compute; intuition discriminate)
      ltac:(vm_compute; intuition discriminate)) PipelineDemo.request_accepted) as (? & _ & _ & ? & _).
  by split.
Defined.

Lemma unauthenticated_keeps_replay_cache_witness :
  (ValidateSignRequest PipelineDemo.conn PipelineDemo.raw (PipelineDemo.request 1700000031)
     PipelineDemo.clock PipelineDemo.clock PipelineDemo.replay).1 = PipelineDemo.replay.
Proof.
  destruct (unauthenticated_keeps_replay_cache PipelineDemo.conn PipelineDemo.raw
    (PipelineDemo.request 1700000031) PipelineDemo.clock PipelineDemo.clock PipelineDemo.replay)
    as [E _]; [right; vm_compute; discriminate|exact E].
Defined.

Lemma body_accepted_twice_witness :
  (ValidateSignRequest PipelineDemo.conn PipelineDemo.raw (PipelineDemo.request 1700000030)
     (PipelineDemo.clock + 60 * Second) (PipelineDemo.clock + 60 * Second) PipelineDemo.accepted).2
  = Ok tt.
Proof.
  apply (body_accepted_twice PipelineDemo.conn PipelineDemo.raw (PipelineDemo.request 1700000030) 0
    PipelineDemo.clock PipelineDemo.replay PipelineDemo.accepted);
    [apply Replay.replay_wf_new|vm_compute; congruence..|apply PipelineDemo.request_accepted].
Defined.

Lemma replayed_body_needs_a_minute_witness :
  PipelineDemo.clock + 60 * Second <= PipelineDemo.clock + 60 * Second /\
  Unix (PipelineDemo.clock + 60 * Second) <= Unix PipelineDemo.clock + 60.
Proof.
  apply (replayed_body_needs_a_minute PipelineDemo.conn PipelineDemo.conn PipelineDemo.raw
    (PipelineDemo.request 1700000030) (PipelineDemo.request 1700000030) 0 [] PipelineDemo.clock
    PipelineDemo.clock [] (PipelineDemo.clock + 60 * Second) (PipelineDemo.clock + 60 * Second)
    PipelineDemo.accepted
    (ValidateSignRequest PipelineDemo.conn PipelineDemo.raw (PipelineDemo.request 1700000030)
      (PipelineDemo.clock + 60 * Second) (PipelineDemo.clock + 60 * Second) PipelineDemo.accepted).1);
    vm_compute; intuition congruence.
Defined.

Lemma pop_challenge_injective_witness :
  popChallenge "root" "fe80::1" 17 = popChallenge "root" "fe80::1" 17 /\ "fe80::1" = "fe80::1".
Proof.
  split; [reflexivity|].
  exact (proj1 (proj2 (pop_challenge_injective "root" "fe80::1" 17 "root" "fe80::1" 17 eq_refl eq_refl eq_refl))).
Defined.

Lemma pop_roundtrip_witness :
  VerifyPoP PipelineDemo.pub "root" "10.0.0.7" 17
    (SignPoP (fun m => PipelineDemo.pub ++ m) "root" "10.0.0.7" 17) = Ok tt.
Proof.
  apply (pop_roundtrip (H := demo_ssh)). intros m. simpl. by apply bool_decide_eq_true.
Defined.

Lemma timestamp_window_exact_witness : ValidateTimestampAt (1700000000 - 2 ^ 63) PipelineDemo.clock 30 = Ok tt.
Proof.
  apply (timestamp_window_exact (1700000000 - 2 ^ 63) PipelineDemo.clock 30);
    [vm_compute; intuition discriminate.. |right; reflexivity].
Defined.

End Auth.
