(* ===== verification/Keystore.v ===== *)
(** * Keystore (proxy/internal/keystore: keystore.go, pool.go, resolve.go, mlock_linux.go)

    Signing keys are held in memory only after an operator loads an encrypted PEM.  In local-ca
    mode there is one CA slot; in local-key mode a pool of host keys indexed by fingerprint.  Five
    failed decryptions lock loading for fifteen minutes. *)

From S2P Require Import Prelude GoTime GoStrings GoEncoding External Fingerprint.

Module Ks.

Definition maxUnsealAttempts : Z := 5.
Definition unsealCooldown : Z := 15 * Minute.

Inductive Mode := ModeLocalCA | ModeLocalKey.
#[export] Instance Mode_eq_dec : EqDecision Mode.
Proof. solve_decision. Defined.

Definition ErrSealed : error := ENew "keystore" "keystore sealed".
Definition ErrUnsealLocked : error := ENew "keystore" "unseal temporarily locked".
Definition ErrNoSuchSigner : error := ENew "keystore" "no such signer in pool".
Definition ErrPoolEmpty : error := ENew "keystore" "signer pool empty".
Definition ErrAmbiguousSigner : error := ENew "keystore" "host key fingerprint required".

Record SignerInfo := mkSignerInfo { si_Fingerprint : string; si_PublicKey : string; si_Comment : string }.

(** The places where [LoadPEMBytes] and [parseEncryptedPEM] call [mlock(2)]; the system call may
    fail at any of them. *)
Inductive mlock_site := AtPem | AtPass | AtKey | AtOwned.

(** [mlockBytes]: an empty buffer is never locked. *)
Definition mlockBytes (syscall : mlock_site -> bool) (site : mlock_site) (b : list byte) : result unit :=
  match b with
  | [] => Ok tt
  | _ => if syscall site then Ok tt else Err (EWrap "mlock sensitive memory" (errorf "mlock"))
  end.

Definition zeroBytes (b : list byte) : list byte := replicate (length b) Byte.x00.

Section keystore.
Context `{HashLib, SshLib}.

(** ** The pool (pool.go) *)

Record loadedSigner := mkLoaded { signer : Signer; comment : string }.

Record LocalKeyPool := mkPool { signers : gmap string loadedSigner }.

Definition NewLocalKeyPool : LocalKeyPool := mkPool ∅.

Definition pool_Add (p : LocalKeyPool) (sg : option Signer) (c : string) : LocalKeyPool * result string :=
  match sg with
  | None => (p, Err (errorf "nil signer"))
  | Some sg =>
      let fp := Fingerprint (signer_pub sg) in
      (mkPool (<[fp := mkLoaded sg c]> (signers p)), Ok fp)
  end.

Definition pool_Remove (p : LocalKeyPool) (fingerprint : string) : LocalKeyPool * result unit :=
  let fingerprint := NormalizeFingerprintInput fingerprint in
  match signers p !! fingerprint with
  | None => (p, Err ErrNoSuchSigner)
  | Some _ => (mkPool (delete fingerprint (signers p)), Ok tt)
  end.

Definition pool_Get (p : LocalKeyPool) (fingerprint : string) : result Signer :=
  let fingerprint := NormalizeFingerprintInput fingerprint in
  match signers p !! fingerprint with
  | None => if (size (signers p) =? 0)%nat then Err ErrPoolEmpty else Err ErrNoSuchSigner
  | Some entry => Ok (signer entry)
  end.

(** One entry of the listing. *)
Definition info_of (kv : string * loadedSigner) : SignerInfo :=
  mkSignerInfo kv.1 (string_of (MarshalAuthorizedKey (signer_pub (signer kv.2)))) (comment kv.2).

(** The listing in one iteration order of the map. *)
Definition pool_List (p : LocalKeyPool) (order : list (string * loadedSigner)) : list SignerInfo :=
  map info_of order.

Definition pool_Available (p : LocalKeyPool) : bool := (0 <? size (signers p))%nat.
Definition pool_Len (p : LocalKeyPool) : Z := Z.of_nat (size (signers p)).

(** ** The keystore (keystore.go) *)

Record Keystore := mkKeystore {
  mode : Mode;
  caSigner : option Signer;
  pool : option LocalKeyPool;
  unsealFails : Z;
  unsealLockedUntil : Z
}.

Definition NewWithMode (m : Mode) : Keystore :=
  mkKeystore m None (match m with ModeLocalKey => Some NewLocalKeyPool | _ => None end) 0 zeroTime.

Definition New : Keystore := NewWithMode ModeLocalCA.

Definition Available (k : Keystore) : bool :=
  match mode k with
  | ModeLocalKey => match pool k with Some p => pool_Available p | None => false end
  | _ => match caSigner k with Some _ => true | None => false end
  end.

Definition SSHSigner (k : Keystore) : result Signer :=
  match mode k with
  | ModeLocalKey => Err (EWrap "SSHSigner: keystore sealed (use SignerForFingerprint)" ErrSealed)
  | _ => or_err (caSigner k) ErrSealed
  end.

Definition SignerForFingerprint (k : Keystore) (fingerprint : string) : result Signer :=
  match mode k, pool k with
  | ModeLocalKey, Some p =>
      match pool_Get p fingerprint with
      | Ok sg => Ok sg
      | Err e => if errors_is e ErrPoolEmpty || errors_is e ErrNoSuchSigner then Err ErrSealed else Err e
      end
  | _, _ => Err (EWrap "SignerForFingerprint: keystore sealed" ErrSealed)
  end.

Definition PublicKeyForFingerprint (k : Keystore) (fingerprint : string) : result PublicKey :=
  sg ← SignerForFingerprint k fingerprint; Ok (signer_pub sg).

(** [order] is the order in which the runtime walks the pool. *)
Definition ListSigners (k : Keystore) (order : list (string * loadedSigner)) : list SignerInfo :=
  match mode k with
  | ModeLocalKey => match pool k with None => [] | Some p => pool_List p order end
  | _ =>
      match caSigner k with
      | None => []
      | Some sg =>
          let pub := signer_pub sg in
          [mkSignerInfo (Fingerprint pub) (string_of (MarshalAuthorizedKey pub)) "ca"]
      end
  end.

Definition checkUnsealLock (now : Z) (k : Keystore) : Keystore * result unit :=
  if negb (IsZero (unsealLockedUntil k)) then
    if Before now (unsealLockedUntil k) then (k, Err ErrUnsealLocked)
    else (mkKeystore (mode k) (caSigner k) (pool k) 0 zeroTime, Ok tt)
  else (k, Ok tt).

Definition recordUnsealFailure (now : Z) (k : Keystore) : Keystore :=
  let fails := wrap64 (unsealFails k + 1) in
  if maxUnsealAttempts <=? fails
  then mkKeystore (mode k) (caSigner k) (pool k) 0 (Add now unsealCooldown)
  else mkKeystore (mode k) (caSigner k) (pool k) fails (unsealLockedUntil k).

(** [copy(owned, *key)] into a fresh 64-byte key. *)
Definition owned_copy (key : list byte) : list byte := take 64 (key ++ replicate 64 Byte.x00).

Definition parseEncryptedPEM (syscall : mlock_site -> bool) (pem pass : list byte) : result Signer :=
  match ParseRawPrivateKeyWithPassphrase pem pass with
  | None => Err (EWrap "decrypt private key" (errorf "ssh"))
  | Some (RawEd25519 key) =>
      _ ← mlockBytes syscall AtKey key;
      or_err (NewSignerFromKey key) (EWrap "load signer" (errorf "ssh"))
  | Some (RawEd25519Ptr None) => Err (errorf "nil ed25519 private key")
  | Some (RawEd25519Ptr (Some key)) =>
      let owned := owned_copy key in
      _ ← mlockBytes syscall AtKey key;
      _ ← mlockBytes syscall AtOwned owned;
      or_err (NewSignerFromKey owned) (EWrap "load signer" (errorf "ssh"))
  | Some RawOther => Err (errorf "unsupported private key type (ed25519 only)")
  end.

(** The switch that stores a decrypted signer, and the reset of the failure counter. *)
Definition store_signer (k : Keystore) (sg : Signer) (c : string) : Keystore :=
  match mode k with
  | ModeLocalKey =>
      let p := match pool k with Some p => p | None => NewLocalKeyPool end in
      mkKeystore (mode k) (caSigner k) (Some (pool_Add p (Some sg) c).1) 0 (unsealLockedUntil k)
  | _ => mkKeystore (mode k) (Some sg) (pool k) 0 (unsealLockedUntil k)
  end.

(** [LoadPEMBytes]: the keystore, the caller's PEM buffer (wiped in place by the deferred call)
    and the result.  [now] is the clock of the lock check, [now'] of a recorded failure. *)
Definition LoadPEMBytes (syscall : mlock_site -> bool) (now now' : Z) (k : Keystore)
    (pem : list byte) (passphrase c : string) : Keystore * list byte * result string :=
  match checkUnsealLock now k with
  | (k, Err e) => (k, pem, Err e)
  | (k, Ok _) =>
      match mlockBytes syscall AtPem pem with
      | Err e => (k, zeroBytes pem, Err e)
      | Ok _ =>
      let pass := bytes_of passphrase in
      match mlockBytes syscall AtPass pass with
      | Err e => (k, zeroBytes pem, Err e)
      | Ok _ =>
      match parseEncryptedPEM syscall pem pass with
      | Err e => (recordUnsealFailure now' k, zeroBytes pem, Err e)
      | Ok sg => (store_signer k sg c, zeroBytes pem, Ok (Fingerprint (signer_pub sg)))
      end end end
  end.

(** [ReadFile] is [os.ReadFile] on the path: the file's bytes, a fresh buffer. *)
Definition LoadPEMFile (syscall : mlock_site -> bool) (now now' : Z) (k : Keystore)
    (ReadFile : string -> option (list byte)) (path passphrase c : string) : Keystore * result string :=
  match ReadFile path with
  | None => (k, Err (EWrap "read key file" (errorf "os")))
  | Some pem => let '(k, _, r) := LoadPEMBytes syscall now now' k pem passphrase c in (k, r)
  end.

Definition Unseal (syscall : mlock_site -> bool) (now now' : Z) (k : Keystore)
    (ReadFile : string -> option (list byte)) (path passphrase : string) : Keystore * result unit :=
  let '(k, r) := LoadPEMFile syscall now now' k ReadFile path passphrase "" in
  (k, _ ← r; Ok tt).

Definition RemoveSigner (k : Keystore) (fingerprint : string) : Keystore * result unit :=
  let fingerprint := NormalizeFingerprintInput fingerprint in
  match mode k with
  | ModeLocalKey =>
      match pool k with
      | None => (k, Err ErrNoSuchSigner)
      | Some p =>
          let '(p, r) := pool_Remove p fingerprint in
          (mkKeystore (mode k) (caSigner k) (Some p) (unsealFails k) (unsealLockedUntil k), r)
      end
  | _ =>
      match caSigner k with
      | None => (k, Err ErrNoSuchSigner)
      | Some sg =>
          if negb (fingerprint =s "") && negb (Fingerprint (signer_pub sg) =s fingerprint)
          then (k, Err ErrNoSuchSigner)
          else (mkKeystore (mode k) None (pool k) (unsealFails k) (unsealLockedUntil k), Ok tt)
      end
  end.

(** ** Naming a signer (resolve.go) *)

Definition ResolveHostKeyFingerprint (hostPubB64 fpHint : string) : result string :=
  let fpHint := NormalizeFingerprintInput fpHint in
  if negb (hostPubB64 =s "") then
    raw ← or_err (StdDecodeString hostPubB64) (errorf "decode host_public_key: invalid base64");
    pub ← or_err (ParsePublicKey raw) (errorf "parse host_public_key: invalid format");
    let fp := Fingerprint pub in
    if negb (fpHint =s "") && negb (fpHint =s fp)
    then Err (errorf "host_key_fingerprint does not match host_public_key")
    else Ok fp
  else if negb (fpHint =s "") then ParseFingerprintHint fpHint
  else Err ErrAmbiguousSigner.

Definition SoleFingerprint (k : Keystore) (order : list (string * loadedSigner)) : result string :=
  match ListSigners k order with
  | [info] => Ok (si_Fingerprint info)
  | _ => Err ErrAmbiguousSigner
  end.

(** ** Invariant *)

(** Each pool entry sits under the fingerprint of its own key. *)
Definition pool_wf (p : LocalKeyPool) : Prop :=
  map_Forall (fun fp e => fp = Fingerprint (signer_pub (signer e))) (signers p).

Definition wf (k : Keystore) : Prop :=
  0 <= unsealFails k < maxUnsealAttempts /\
  (IsZero (unsealLockedUntil k) = false -> unsealFails k = 0) /\
  match mode k with
  | ModeLocalKey => caSigner k = None /\ exists p, pool k = Some p /\ pool_wf p
  | ModeLocalCA => pool k = None
  end.

Inductive step : Keystore -> Keystore -> Prop :=
| step_load syscall now now' k pem pass c :
    step k (LoadPEMBytes syscall now now' k pem pass c).1.1
| step_remove k fp : step k (RemoveSigner k fp).1.

Definition reachable (m : Mode) (k : Keystore) : Prop := rtc step (NewWithMode m) k.

Lemma ks_new_wf m : wf (NewWithMode m).
Proof.
  unfold wf, maxUnsealAttempts. split_and!; simpl; try done; try lia.
  destruct m; [done|]. split; [done|]. exists NewLocalKeyPool. split; [done|]. apply map_Forall_empty.
Qed.

Lemma pool_Add_wf p sg c : pool_wf p -> pool_wf (pool_Add p sg c).1.
Proof. intros Hp. destruct sg; [|done]. by apply map_Forall_insert_2. Qed.

Lemma pool_Remove_wf p fp : pool_wf p -> pool_wf (pool_Remove p fp).1.
Proof. intros Hp. unfold pool_Remove. case_match; [|done]. by apply map_Forall_delete. Qed.

Lemma checkUnsealLock_wf now k : wf k -> wf (checkUnsealLock now k).1.
Proof.
  intros Hwf. unfold checkUnsealLock. destruct (negb _); [|done]. destruct (Before _ _); [done|].
  destruct Hwf as (Hf & Hl & Hm). unfold wf. simpl. split_and!; try done; unfold maxUnsealAttempts; lia.
Qed.

Lemma recordUnsealFailure_wf now k :
  wf k -> IsZero (unsealLockedUntil k) = true -> wf (recordUnsealFailure now k).
Proof.
  intros (Hf & _ & Hm) Hz. unfold recordUnsealFailure, maxUnsealAttempts in *.
  rewrite wrap64_id by (unfold in_int64, min_int64, max_int64; lia).
  destruct (5 <=? _) eqn:E5; bool_prop; unfold wf, maxUnsealAttempts; simpl; split_and!; try done; try lia.
  rewrite Hz. done.
Qed.

Lemma store_signer_wf k sg c : wf k -> wf (store_signer k sg c).
Proof.
  intros (Hf & Hl & Hm). unfold store_signer, wf, maxUnsealAttempts in *.
  destruct (mode k) eqn:Ek; simpl.
  - split_and!; done || lia.
  - destruct Hm as (Hc & p & -> & Hp). split_and!; try done; try lia.
    eexists. split; [done|]. by apply (pool_Add_wf p (Some sg) c).
Qed.

Lemma checkUnsealLock_ok now k k' u :
  checkUnsealLock now k = (k', Ok u) ->
  IsZero (unsealLockedUntil k') = true /\ mode k' = mode k /\ caSigner k' = caSigner k /\ pool k' = pool k.
Proof. unfold checkUnsealLock. intros. by repeat (case_match; simplify_eq/=; bool_prop). Qed.

Lemma LoadPEMBytes_wf syscall now now' k pem pass c :
  wf k -> wf (LoadPEMBytes syscall now now' k pem pass c).1.1.
Proof.
  intros Hwf. unfold LoadPEMBytes. pose proof (checkUnsealLock_wf now k Hwf) as Hwf'.
  destruct (checkUnsealLock now k) as [k' [u|e]] eqn:Ec; [|done]. simpl in Hwf'.
  apply checkUnsealLock_ok in Ec as (Hz & _).
  repeat case_match; simpl; eauto using recordUnsealFailure_wf, store_signer_wf.
Qed.

Lemma RemoveSigner_wf k fp : wf k -> wf (RemoveSigner k fp).1.
Proof.
  intros (Hf & Hl & Hm). unfold RemoveSigner. destruct (mode k) eqn:Ek.
  - repeat case_match; simpl; unfold wf; simpl; rewrite ?Ek; done.
  - destruct Hm as (Hc & p & -> & Hp). pose proof (pool_Remove_wf p (NormalizeFingerprintInput fp) Hp) as Hp'.
    destruct (pool_Remove _ _). unfold wf. simpl. rewrite ?Ek. eauto 8.
Qed.

Lemma ks_step_wf k k' : step k k' -> wf k -> wf k'.
Proof. intros []; eauto using LoadPEMBytes_wf, RemoveSigner_wf. Qed.

Lemma ks_reachable_wf m k : reachable m k -> wf k.
Proof.
  intros Hr. eapply (rtc_invariant step wf); [exact ks_step_wf|exact Hr|apply ks_new_wf].
Qed.

Lemma load_mode syscall now now' k pem pass c :
  mode (LoadPEMBytes syscall now now' k pem pass c).1.1 = mode k.
Proof.
  assert (Hc : mode (checkUnsealLock now k).1 = mode k) by (unfold checkUnsealLock; by repeat case_match).
  assert (Hf : forall t k, mode (recordUnsealFailure t k) = mode k)
    by (intros; unfold recordUnsealFailure; by case_match).
  assert (Hs : forall k sg, mode (store_signer k sg c) = mode k)
    by (intros k0 ?; unfold store_signer; by destruct (mode k0)).
  unfold LoadPEMBytes. destruct (checkUnsealLock now k) as [k1 [u|e]]; [|done].
  repeat case_match; simpl in *; by rewrite ?Hf, ?Hs.
Qed.

Lemma remove_mode k fp : mode (RemoveSigner k fp).1 = mode k.
Proof.
  unfold RemoveSigner. destruct (mode k) eqn:Ek; [by repeat case_match|].
  destruct (pool k); [|done]. by destruct (pool_Remove _ _).
Qed.

Lemma step_mode k k' : step k k' -> mode k' = mode k.
Proof. intros []; [apply load_mode|apply remove_mode]. Qed.

Lemma reachable_mode m k : reachable m k -> mode k = m.
Proof.
  intros Hr. apply (rtc_invariant step (fun k => mode k = m) _ _) in Hr; [done| |by destruct m].
  intros a b ->%step_mode. done.
Qed.

(** whatever keys are loaded, refused or removed, the keystore keeps the mode it was built
    with, uses only that mode's slot, files every pool key under its own fingerprint, and counts
    fewer than five failures, none while locked. *)
Theorem keystore_invariant m k : reachable m k -> mode k = m /\ wf k.
Proof.
  intros Hr. split; [by apply reachable_mode|by eapply ks_reachable_wf].
Qed.

(** ** Brute force *)

Record load_event := mkLoad {
  ev_syscall : mlock_site -> bool;
  ev_now : Z;
  ev_now' : Z;
  ev_pem : list byte;
  ev_pass : string;
  ev_comment : string
}.

Definition load (k : Keystore) (ev : load_event) : Keystore * list byte * result string :=
  LoadPEMBytes (ev_syscall ev) (ev_now ev) (ev_now' ev) k (ev_pem ev) (ev_pass ev) (ev_comment ev).

(** The call reached the decryption, and the decryption failed: one guess of the passphrase. *)
Definition guess_failed (k : Keystore) (ev : load_event) : bool :=
  is_ok (checkUnsealLock (ev_now ev) k).2 && is_ok (mlockBytes (ev_syscall ev) AtPem (ev_pem ev)) &&
  is_ok (mlockBytes (ev_syscall ev) AtPass (bytes_of (ev_pass ev))) &&
  negb (is_ok (parseEncryptedPEM (ev_syscall ev) (ev_pem ev) (bytes_of (ev_pass ev)))).

Fixpoint load_run (k : Keystore) (evs : list load_event) : list (result string) :=
  match evs with
  | [] => []
  | ev :: evs => (load k ev).2 :: load_run (load k ev).1.1 evs
  end.

Fixpoint failed_guesses (k : Keystore) (evs : list load_event) : nat :=
  match evs with
  | [] => 0
  | ev :: evs => (if guess_failed k ev then 1 else 0) + failed_guesses (load k ev).1.1 evs
  end.

(** Guesses left before time [fin]. *)
Definition budget (fin : Z) (k : Keystore) : Z :=
  if IsZero (unsealLockedUntil k) then maxUnsealAttempts - unsealFails k
  else if fin <=? unsealLockedUntil k then 0 else maxUnsealAttempts.

Definition in_period (t fin : Z) (ev : load_event) : Prop :=
  t <= ev_now ev < fin /\ t <= ev_now' ev.

(** How many of the answers are successful loads. *)
Definition successes (rs : list (result string)) : nat := length (List.filter is_ok rs).

(** A failed guess takes one from the budget; a load that succeeds gives back at most four, since five
    failures lock. *)
Lemma budget_step t fin k ev :
  zeroTime <= t -> fin <= t + unsealCooldown -> wf k -> in_period t fin ev ->
  budget fin (load k ev).1.1 + (if guess_failed k ev then 1 else 0) <= budget fin k + (if is_ok (load k ev).2 then 4 else 0).
Proof.
  intros Ht Hfin Hwf [Hn Hn']. unfold load, LoadPEMBytes, guess_failed in *.
  pose proof (checkUnsealLock_wf (ev_now ev) k Hwf) as Hwf'.
  assert (Hb : budget fin (checkUnsealLock (ev_now ev) k).1 <= budget fin k).
  { unfold budget, checkUnsealLock, maxUnsealAttempts. repeat (case_match; bool_prop; simplify_eq/=; time_prop);
      try lia; try congruence. }
  destruct (checkUnsealLock (ev_now ev) k) as [k1 [u|e]] eqn:Ec; simpl in *; [|lia].
  apply checkUnsealLock_ok in Ec as (Hz & _).
  destruct (mlockBytes _ AtPem _); simpl in *; [|lia].
  destruct (mlockBytes _ AtPass _); simpl in *; [|lia].
  destruct Hwf' as (Hf & _ & _). unfold budget, maxUnsealAttempts in *. rewrite Hz in Hb.
  destruct (parseEncryptedPEM _ _ _); simpl in *.
  { unfold store_signer. destruct (mode k1); simpl; rewrite Hz; lia. }
  unfold recordUnsealFailure, maxUnsealAttempts. rewrite wrap64_id by (unfold in_int64, min_int64, max_int64; lia).
  destruct (5 <=? _) eqn:E5; bool_prop; simpl; [|rewrite Hz; lia].
  unfold IsZero, Add, unsealCooldown, Minute, Second in *.
  rewrite (proj2 (Z.eqb_neq _ _)) by lia. rewrite (proj2 (Z.leb_le _ _)) by lia. lia.
Qed.

Lemma failed_guesses_budget t fin k evs :
  zeroTime <= t -> fin <= t + unsealCooldown -> wf k -> Forall (in_period t fin) evs ->
  0 <= budget fin k -> Z.of_nat (failed_guesses k evs) <= budget fin k + 4 * Z.of_nat (successes (load_run k evs)).
Proof.
  intros Ht Hfin. revert k. induction evs as [|ev evs IH]; intros k Hwf Hp Hb; [simpl; lia|]. cbn [failed_guesses load_run].
  apply Forall_cons in Hp as [Hp Hps]. pose proof (budget_step t fin k ev Ht Hfin Hwf Hp) as Hs.
  assert (Hwf' : wf (load k ev).1.1) by (by apply LoadPEMBytes_wf).
  assert (Hb' : 0 <= budget fin (load k ev).1.1).
  { destruct Hwf' as (Hf & _). unfold budget, maxUnsealAttempts in *. repeat case_match; lia. }
  specialize (IH _ Hwf' Hps Hb'). unfold successes in *. cbn [List.filter].
  destruct (guess_failed k ev), (is_ok (load k ev).2); cbn [length]; lia.
Qed.


(** ** What a load does *)

Lemma LoadPEMBytes_ok syscall now now' k pem pass c k' pem' fp :
  LoadPEMBytes syscall now now' k pem pass c = (k', pem', Ok fp) <->
  exists k1 sg u, checkUnsealLock now k = (k1, Ok u) /\
    mlockBytes syscall AtPem pem = Ok tt /\ mlockBytes syscall AtPass (bytes_of pass) = Ok tt /\
    parseEncryptedPEM syscall pem (bytes_of pass) = Ok sg /\
    k' = store_signer k1 sg c /\ pem' = zeroBytes pem /\ fp = Fingerprint (signer_pub sg).
Proof.
  unfold LoadPEMBytes. split.
  - intros Hl. destruct (checkUnsealLock now k) as [k1 [u|e]]; [|done].
    destruct (mlockBytes _ AtPem _) as [[]|]; [|done].
    destruct (mlockBytes _ AtPass _) as [[]|]; [|done].
    destruct (parseEncryptedPEM _ _ _) as [sg|]; [|done]. simplify_eq. by exists k1, sg, u.
  - intros (k1 & sg & u & -> & -> & -> & -> & -> & -> & ->). done.
Qed.

Lemma keystore_mode_pool k :
  reachable ModeLocalKey k -> mode k = ModeLocalKey /\ exists p, pool k = Some p /\ pool_wf p.
Proof.
  intros Hr. pose proof (reachable_mode _ _ Hr) as Hm. split; [done|].
  destruct (ks_reachable_wf _ _ Hr) as (_ & _ & Hp). rewrite Hm in Hp. naive_solver.
Qed.

(** The signer found in a pool in local-key mode. *)
Lemma SignerForFingerprint_pool k p fp :
  mode k = ModeLocalKey -> pool k = Some p ->
  SignerForFingerprint k fp =
  match signers p !! NormalizeFingerprintInput fp with Some e => Ok (signer e) | None => Err ErrSealed end.
Proof.
  intros Hm Hp. unfold SignerForFingerprint, pool_Get. rewrite Hm, Hp.
  destruct (signers p !! _); [done|]. by destruct (size _ =? 0)%nat.
Qed.

Lemma RemoveSigner_pool k p fp e :
  mode k = ModeLocalKey -> pool k = Some p ->
  NormalizeFingerprintInput (NormalizeFingerprintInput fp) = NormalizeFingerprintInput fp ->
  signers p !! NormalizeFingerprintInput fp = Some e ->
  RemoveSigner k fp =
  (mkKeystore ModeLocalKey (caSigner k) (Some (mkPool (delete (NormalizeFingerprintInput fp) (signers p))))
     (unsealFails k) (unsealLockedUntil k), Ok tt).
Proof.
  intros Hm Hp Hn He. unfold RemoveSigner, pool_Remove. by rewrite Hm, Hp, Hn, He.
Qed.

Lemma pool_Get_wf p fp sg : pool_wf p -> pool_Get p fp = Ok sg ->
  Fingerprint (signer_pub sg) = NormalizeFingerprintInput fp.
Proof.
  intros Hp. unfold pool_Get. destruct (signers p !! _) as [e|] eqn:E; [|by case_match].
  intros [= <-]. by apply Hp in E.
Qed.

(** A key handed out for a fingerprint is the key of that fingerprint. *)
Lemma SignerForFingerprint_sound m k fp sg :
  reachable m k -> SignerForFingerprint k fp = Ok sg ->
  m = ModeLocalKey /\ Fingerprint (signer_pub sg) = NormalizeFingerprintInput fp.
Proof.
  intros Hr Hs. destruct (ks_reachable_wf m k Hr) as (_ & _ & Hm).
  pose proof (reachable_mode m k Hr) as Hmode.
  unfold SignerForFingerprint in Hs. rewrite Hmode in *. destruct m; [done|].
  destruct Hm as (_ & p & Hp & Hwf). rewrite Hp in Hs. split; [done|].
  destruct (pool_Get p fp) as [sg'|e] eqn:Eg; [|by case_match]. simplify_eq. by eapply pool_Get_wf.
Qed.

(** in local-key mode a successful load files the decrypted key, and only it: it is found
    under its fingerprint with or without the [SHA256:] prefix, every other fingerprint answers as
    before, the failure counter restarts, and removing it seals that fingerprint again. *)
Theorem load_then_lookup m k syscall now now' pem pass c k' pem' fp :
  reachable m k -> m = ModeLocalKey ->
  LoadPEMBytes syscall now now' k pem pass c = (k', pem', Ok fp) ->
  exists sg, parseEncryptedPEM syscall pem (bytes_of pass) = Ok sg /\ fp = Fingerprint (signer_pub sg) /\
    SignerForFingerprint k' fp = Ok sg /\ SignerForFingerprint k' ("SHA256:" +:+ fp) = Ok sg /\
    (forall fp', NormalizeFingerprintInput fp' <> fp -> SignerForFingerprint k' fp' = SignerForFingerprint k fp') /\
    unsealFails k' = 0 /\ (RemoveSigner k' fp).2 = Ok tt /\
    SignerForFingerprint (RemoveSigner k' fp).1 fp = Err ErrSealed.
Proof.
  intros Hr -> (k1 & sg & u & Hc & _ & _ & Hp & -> & _ & ->)%LoadPEMBytes_ok. exists sg.
  destruct (keystore_mode_pool k Hr) as (Hmode & p & Hpool & _).
  apply checkUnsealLock_ok in Hc as (_ & Hm1 & _ & Hp1). rewrite Hmode in Hm1. rewrite Hpool in Hp1.
  set (fp := Fingerprint (signer_pub sg)).
  assert (Hn : forall b : bool, NormalizeFingerprintInput ((if b then "SHA256:" else "") +:+ fp) = fp)
    by apply Normalize_Fingerprint.
  assert (Hn0 : NormalizeFingerprintInput fp = fp) by exact (Hn false).
  assert (Hn1 : NormalizeFingerprintInput ("SHA256:" +:+ fp) = fp) by exact (Hn true).
  set (p' := mkPool (<[fp := mkLoaded sg c]> (signers p))).
  assert (Hs : store_signer k1 sg c = mkKeystore ModeLocalKey (caSigner k1) (Some p') 0 (unsealLockedUntil k1)).
  { unfold store_signer. by rewrite Hm1, Hp1. }
  rewrite Hs. split_and!; try done.
  - rewrite (SignerForFingerprint_pool _ p'), Hn0 by done. simpl. by rewrite lookup_insert_eq.
  - rewrite (SignerForFingerprint_pool _ p'), Hn1 by done. simpl. by rewrite lookup_insert_eq.
  - intros fp' Hne. rewrite (SignerForFingerprint_pool _ p'), (SignerForFingerprint_pool k p) by done.
    simpl. by rewrite lookup_insert_ne.
  - rewrite (RemoveSigner_pool _ p' fp (mkLoaded sg c)), ?Hn0; rewrite ?Hn0; try done.
    apply lookup_insert_eq.
  - rewrite (RemoveSigner_pool _ p' fp (mkLoaded sg c)), Hn0; rewrite ?Hn0; try done.
    + rewrite (SignerForFingerprint_pool _ (mkPool (delete fp (signers p')))), Hn0 by done.
      cbn [signers]. by rewrite lookup_delete_eq.
    + apply lookup_insert_eq.
Qed.

(** key material is wiped: a load either is refused because the keystore is locked, with the
    buffer and the keystore untouched, or leaves the caller's PEM buffer all zero, whether it
    succeeded, could not lock memory, or failed to decrypt. *)
Theorem load_wipes_buffer syscall now now' k pem pass c :
  let '(k', pem', r) := LoadPEMBytes syscall now now' k pem pass c in
  (k' = k /\ pem' = pem /\ r = Err ErrUnsealLocked /\ now < unsealLockedUntil k) \/
  (pem' = replicate (length pem) Byte.x00 /\
   (now < unsealLockedUntil k -> unsealLockedUntil k = zeroTime)).
Proof.
  unfold LoadPEMBytes, checkUnsealLock.
  destruct (IsZero (unsealLockedUntil k)) eqn:Ez; simpl.
  { apply Z.eqb_eq in Ez. repeat case_match; simplify_eq; right; by split. }
  destruct (Before now (unsealLockedUntil k)) eqn:Eb; time_prop.
  { left. by split_and!. }
  repeat case_match; simplify_eq; right; split; (done || lia).
Qed.

End keystore.

(** ** A concrete keystore: one key file with the passphrase [pw] *)
Import Demo.

Definition demo_pem : list byte := bytes_of "pw" ++ Byte.x00 :: bytes_of "host-key".
Definition demo_guess (now : Z) (pass : string) : load_event :=
  mkLoad (fun _ => true) now now demo_pem pass "".
Definition demo_loaded : Keystore :=
  (LoadPEMBytes (fun _ => true) 0 0 (NewWithMode ModeLocalKey) demo_pem "pw" "web").1.1.

Lemma keystore_invariant_witness : mode demo_loaded = ModeLocalKey /\ wf demo_loaded.
Proof.
  apply (keystore_invariant ModeLocalKey demo_loaded).
  apply rtc_once. apply (step_load (fun _ => true) 0 0 (NewWithMode ModeLocalKey) demo_pem "pw" "web").
Defined.

Definition demo_guesses : list load_event :=
  map (fun x => demo_guess x.1 (if x.2 : bool then "pw" else "guess"))
    [(1, false); (2, false); (3, false); (4, false); (5, true); (6, false); (7, false); (8, false); (9, false); (10, false); (11, false)]%Z.


Definition demo_fp : string := Fingerprint (H := demo_hash) (H0 := demo_ssh) (bytes_of "host-key").

Lemma demo_load :
  LoadPEMBytes (fun _ => true) 0 0 (NewWithMode ModeLocalKey) demo_pem "pw" "web"
  = (demo_loaded, zeroBytes demo_pem, Ok demo_fp).
Proof. vm_cast_no_check (eq_refl (demo_loaded, zeroBytes demo_pem, Ok demo_fp : result string)). Qed.

Lemma load_then_lookup_witness : exists sg, SignerForFingerprint demo_loaded demo_fp = Ok sg.
Proof.
  pose proof (load_then_lookup (H := demo_hash) (H0 := demo_ssh) ModeLocalKey (NewWithMode ModeLocalKey)
    (fun _ => true) 0 0 demo_pem "pw" "web" demo_loaded (zeroBytes demo_pem) demo_fp
    (rtc_refl _ _) eq_refl demo_load) as Hx.
  destruct Hx as (sg & _ & _ & Hs & _). exists sg. exact Hs.
Defined.

End Ks.
