(* ===== verification/Pending.v ===== *)
(** * Pending key uploads (proxy/internal/keystore/pending.go)

    A mobile device may upload an encrypted key, which waits in memory until an operator confirms
    it.  The queue is limited globally and per device.  [Get] hands out a pointer to the stored
    entry and [List] copies entries that still share their byte buffer, so the buffers live in an
    explicit heap. *)

From S2P Require Import Prelude GoTime GoStrings External Keystore.

Module Pend.

Definition ErrPendingNotFound : error := ENew "keystore" "pending key not found".
Definition ErrPendingFull : error := ENew "keystore" "pending key queue full".

Definition defaultPendingTTL : Z := 15 * Minute.
Definition maxPendingGlobal : Z := 32.
Definition maxPendingPerDevice : Z := 4.

(** [Blob] is the address of the upload's bytes. *)
Record PendingKey := mkPendingKey {
  ID : string;
  DeviceID : string;
  Label : string;
  Comment : string;
  Blob : nat;
  ExpiresAt : Z
}.

Record PendingStore := mkPendingStore {
  entries : gmap string PendingKey;
  byDev : gmap string Z;
  heap : gmap nat (list byte);
  next_blob : nat
}.

Definition NewPendingStore : PendingStore := mkPendingStore ∅ ∅ ∅ 0.

(** [s.byDev[d]], zero when absent. *)
Definition dev_count (m : gmap string Z) (d : string) : Z := default 0 (m !! d).

(** [ulid] is the text of the fresh ULID, [now] the clock of the expiry. *)
Definition Add (ulid : string) (now : Z) (s : PendingStore) (deviceID label comment : string)
    (blob : list byte) : PendingStore * result string :=
  if maxPendingGlobal <=? Z.of_nat (size (entries s)) then (s, Err ErrPendingFull) else
  if maxPendingPerDevice <=? dev_count (byDev s) deviceID then (s, Err ErrPendingFull) else
  let id := "pend_" +:+ ulid in
  let p := mkPendingKey id deviceID label comment (next_blob s) (GoTime.Add now defaultPendingTTL) in
  (mkPendingStore (<[id := p]> (entries s))
     (<[deviceID := dev_count (byDev s) deviceID + 1]> (byDev s))
     (<[next_blob s := blob]> (heap s)) (S (next_blob s)),
   Ok id).

(** [delete(s.entries, id)] and the decrement of the device's counter. *)
Definition drop_entry (s : PendingStore) (id : string) (p : PendingKey) : PendingStore :=
  let n := dev_count (byDev s) (DeviceID p) in
  mkPendingStore (delete id (entries s))
    (if 0 <? n then <[DeviceID p := n - 1]> (byDev s) else byDev s) (heap s) (next_blob s).

Definition purge_loop (now : Z) (s : PendingStore) (order : list (string * PendingKey)) : PendingStore :=
  foldl (fun s kv => if After now (ExpiresAt kv.2) then drop_entry s kv.1 kv.2 else s) s order.

Definition purgeExpiredLocked (now : Z) (s : PendingStore) : PendingStore :=
  purge_loop now s (map_to_list (entries s)).

Definition Get (now : Z) (s : PendingStore) (id : string) : PendingStore * result PendingKey :=
  let s := purgeExpiredLocked now s in
  (s, or_err (entries s !! id) ErrPendingNotFound).

Definition Delete (s : PendingStore) (id : string) : PendingStore * result unit :=
  match entries s !! id with
  | None => (s, Err ErrPendingNotFound)
  | Some p => (drop_entry s id p, Ok tt)
  end.

(** The listing in one iteration order of the purged map. *)
Definition List (now : Z) (s : PendingStore) : PendingStore * list PendingKey :=
  let s := purgeExpiredLocked now s in (s, (map_to_list (entries s)).*2).

Definition Count (now : Z) (s : PendingStore) : PendingStore * Z :=
  let s := purgeExpiredLocked now s in (s, Z.of_nat (size (entries s))).

(** The bytes an entry's buffer holds now, and a write through the shared slice. *)
Definition blob_bytes (s : PendingStore) (p : PendingKey) : list byte := default [] (heap s !! Blob p).
Definition write_blob (s : PendingStore) (p : PendingKey) (b : list byte) : PendingStore :=
  mkPendingStore (entries s) (byDev s) (<[Blob p := b]> (heap s)) (next_blob s).

(** ** Invariant *)

Definition of_device (d : string) (p : PendingKey) : Prop := DeviceID p = d.
#[export] Instance of_device_dec d p : Decision (of_device d p).
Proof. unfold of_device. apply _. Defined.

Record wf (s : PendingStore) : Prop := mk_wf {
  wf_id : map_Forall (fun id p => ID p = id) (entries s);
  wf_dev : forall d, dev_count (byDev s) d = Z.of_nat (count_if (of_device d) (entries s));
  wf_dev_max : forall d, dev_count (byDev s) d <= maxPendingPerDevice;
  wf_max : Z.of_nat (size (entries s)) <= maxPendingGlobal;
  wf_blob : map_Forall (fun _ p => (Blob p < next_blob s)%nat /\ is_Some (heap s !! Blob p)) (entries s);
  wf_alias : forall i j p q, entries s !! i = Some p -> entries s !! j = Some q -> Blob p = Blob q -> i = j
}.

Lemma pending_new_wf : wf NewPendingStore.
Proof.
  constructor; simpl; [apply map_Forall_empty|done|done|done|apply map_Forall_empty|done].
Qed.

Lemma dev_count_insert m d n d' :
  dev_count (<[d := n]> m) d' = if decide (d' = d) then n else dev_count m d'.
Proof.
  unfold dev_count. case_decide; subst; [by rewrite lookup_insert_eq|by rewrite lookup_insert_ne].
Qed.

Lemma drop_entry_wf s id p : wf s -> entries s !! id = Some p -> wf (drop_entry s id p).
Proof.
  intros Hwf Hid. pose proof (wf_dev s Hwf (DeviceID p)) as Hd.
  rewrite (count_if_delete_true (of_device (DeviceID p)) _ id p) in Hd by done.
  destruct Hwf as [H1 H2 H3 H4 H5 H6]. unfold drop_entry.
  rewrite (proj2 (Z.ltb_lt _ _)) by lia. constructor; simpl.
  - by apply map_Forall_delete.
  - intros d. rewrite dev_count_insert. case_decide as E; [subst; lia|].
    rewrite (count_if_delete_false (of_device d) _ id p); unfold of_device; eauto.
  - intros d. rewrite dev_count_insert. case_decide; [subst; pose proof (H3 (DeviceID p)); lia|apply H3].
  - assert (size (delete id (entries s)) <= size (entries s))%nat
      by apply map_subseteq_size, delete_subseteq. lia.
  - by apply map_Forall_delete.
  - intros i j q r [_ Hi]%lookup_delete_Some [_ Hj]%lookup_delete_Some. by apply H6.
Qed.

Lemma Add_wf ulid now s d l c b :
  wf s -> entries s !! ("pend_" +:+ ulid) = None -> wf (Add ulid now s d l c b).1.
Proof.
  intros Hwf Hfresh. unfold Add. destruct (_ <=? _) eqn:E1; [done|].
  destruct (maxPendingPerDevice <=? _) eqn:E2; [done|]. bool_prop.
  destruct Hwf as [H1 H2 H3 H4 H5 H6]. constructor; cbn [entries byDev heap next_blob Blob ID DeviceID Label Comment ExpiresAt fst snd or_err mbind option_bind].
  - by apply map_Forall_insert_2.
  - intros d'. rewrite dev_count_insert. case_decide as E.
    + subst. rewrite count_if_insert_true by done. rewrite H2. lia.
    + rewrite count_if_insert_false; [by rewrite H2|done|]. unfold of_device. cbn. congruence.
  - intros d'. rewrite dev_count_insert. case_decide; [lia|apply H3].
  - rewrite map_size_insert_None by done. lia.
  - apply map_Forall_insert_2; [cbn [Blob]; split; [lia|by rewrite lookup_insert_eq]|].
    intros id p Hp. destruct (H5 id p Hp) as [Hlt Hs]. split; [lia|].
    rewrite lookup_insert_ne by lia. done.
  - assert (Hold : forall i p, entries s !! i = Some p -> Blob p <> next_blob s).
    { intros i p Hp. destruct (H5 i p Hp). lia. }
    intros i j p q [[? ?]|[? Hi]]%lookup_insert_Some [[? ?]|[? Hj]]%lookup_insert_Some Heq;
      simplify_eq; eauto; exfalso; cbn in Heq; by eapply Hold.
Qed.

Lemma pending_purge_wf now s order :
  wf s -> NoDup order.*1 -> (forall k p, (k, p) ∈ order -> entries s !! k = Some p) ->
  wf (purge_loop now s order) /\
  entries (purge_loop now s order) = sweep (fun p => After now (ExpiresAt p)) (entries s) order.
Proof.
  unfold purge_loop, sweep. revert s.
  induction order as [|[k p] order IH]; intros s Hwf Hnd Hin; csimpl; [done|].
  csimpl in Hnd. apply NoDup_cons in Hnd as [Hk Hnd].
  assert (Hp : entries s !! k = Some p) by (apply Hin; set_solver).
  destruct (After now (ExpiresAt p)).
  - apply IH; [by apply drop_entry_wf|done|]. intros k' p' Hx. simpl.
    rewrite lookup_delete_ne; [apply Hin; set_solver|].
    intros ->. apply Hk, list_elem_of_fmap. by exists (k', p').
  - apply IH; [done|done|]. intros k' p' Hx. apply Hin. set_solver.
Qed.

Definition live (now : Z) (m : gmap string PendingKey) : gmap string PendingKey :=
  filter (fun kv => After now (ExpiresAt kv.2) = false) m.

Lemma purge_spec now s order :
  wf s -> iteration_of (entries s) order ->
  wf (purge_loop now s order) /\ entries (purge_loop now s order) = live now (entries s).
Proof.
  intros Hwf Hp. destruct (pending_purge_wf now s order) as [Hw He]; try done.
  - rewrite Hp. apply NoDup_fst_map_to_list.
  - intros k p. by apply (iteration_elem _ _ _ _ Hp).
  - split; [done|]. rewrite He. by apply sweep_filter.
Qed.

Lemma write_blob_wf s id p b : wf s -> entries s !! id = Some p -> wf (write_blob s p b).
Proof.
  intros [H1 H2 H3 H4 H5 H6] Hid. constructor; simpl; try done.
  intros j q Hq. destruct (H5 j q Hq) as [Hlt Hs]. split; [done|].
  destruct (decide (Blob q = Blob p)) as [->|]; [by rewrite lookup_insert_eq|by rewrite lookup_insert_ne].
Qed.

(** Every call the program makes on the queue; a purge may run in any iteration order, and the
    holder of an entry may write through its buffer. *)
Inductive step : PendingStore -> PendingStore -> Prop :=
| step_add ulid now s d l c b :
    entries s !! ("pend_" +:+ ulid) = None -> step s (Add ulid now s d l c b).1
| step_purge now s order : iteration_of (entries s) order -> step s (purge_loop now s order)
| step_delete s id : step s (Delete s id).1
| step_write s id p b : entries s !! id = Some p -> step s (write_blob s p b).

Definition reachable (s : PendingStore) : Prop := rtc step NewPendingStore s.

Lemma pending_step_wf s s' : step s s' -> wf s -> wf s'.
Proof.
  intros [] Hwf; [by apply Add_wf|by apply purge_spec| |by eapply write_blob_wf].
  unfold Delete. destruct (entries s0 !! id) as [p|] eqn:E; [by apply drop_entry_wf|done].
Qed.

Lemma pending_reachable_wf s : reachable s -> wf s.
Proof. intros Hr. apply (rtc_invariant step wf _ _ pending_step_wf Hr), pending_new_wf. Qed.

Lemma purge_heap now s order : heap (purge_loop now s order) = heap s.
Proof.
  unfold purge_loop. revert s. induction order as [|[k p] o IH]; intros s; [done|]. csimpl.
  rewrite IH. by case_match.
Qed.

Lemma Get_spec now s id :
  wf s -> (Get now s id).2 = or_err (live now (entries s) !! id) ErrPendingNotFound /\
  heap (Get now s id).1 = heap s /\ entries (Get now s id).1 = live now (entries s).
Proof.
  intros Hwf. destruct (purge_spec now s (map_to_list (entries s)) Hwf) as [_ He]; [auto with luna|].
  unfold Get, purgeExpiredLocked. cbn [fst snd]. by rewrite He, purge_heap.
Qed.

Lemma Add_ok ulid now s d l c b id :
  (Add ulid now s d l c b).2 = Ok id ->
  let p := mkPendingKey id d l c (next_blob s) (now + defaultPendingTTL) in
  id = "pend_" +:+ ulid /\ entries (Add ulid now s d l c b).1 = <[id := p]> (entries s) /\
  heap (Add ulid now s d l c b).1 = <[next_blob s := b]> (heap s).
Proof.
  unfold Add. destruct (_ <=? _); [done|]. destruct (maxPendingPerDevice <=? _); [done|].
  cbn [fst snd entries heap]. by intros [= <-].
Qed.

(** the upload queue keeps its books: under any sequence of uploads, purges, deletions and
    writes through shared buffers, each device's counter equals its number of waiting uploads and
    is at most 4, the queue holds at most 32, entries sit under their own identifiers, and no two
    entries share a buffer. *)
Theorem pending_invariant s : reachable s -> wf s.
Proof. apply pending_reachable_wf. Qed.

(** an upload is found by [Get] with its label and bytes until its fifteen minutes are over,
    and by nobody after that. *)
Theorem pending_add_get s ulid now d l c b id now' :
  reachable s -> entries s !! ("pend_" +:+ ulid) = None ->
  (Add ulid now s d l c b).2 = Ok id ->
  let s1 := (Add ulid now s d l c b).1 in
  (now' <= now + defaultPendingTTL ->
   exists p, (Get now' s1 id).2 = Ok p /\ DeviceID p = d /\ Label p = l /\ Comment p = c /\
     blob_bytes (Get now' s1 id).1 p = b) /\
  (now + defaultPendingTTL < now' -> (Get now' s1 id).2 = Err ErrPendingNotFound).
Proof.
  intros Hr Hfresh Hok s1. pose proof (Add_wf ulid now s d l c b (pending_reachable_wf s Hr) Hfresh) as Hwf.
  destruct (Add_ok _ _ _ _ _ _ _ _ Hok) as (Eid & He & Hh).
  destruct (Get_spec now' s1 id Hwf) as (Hg & Hgh & _). rewrite Hg. unfold live.
  rewrite map_lookup_filter. subst s1. rewrite He, lookup_insert_eq. cbn [mbind option_bind].
  split; intros Ht.
  - rewrite option_guard_True by (apply After_false; simpl; lia).
    eexists. split; [done|]. split_and!; try done.
    unfold blob_bytes. rewrite Hgh, Hh. simpl. by rewrite lookup_insert_eq.
  - rewrite option_guard_False; [done|]. rewrite not_false_iff_true. apply After_true. simpl. lia.
Qed.

(** expired uploads still count: [Add] does not purge, so a device with four waiting uploads
    is refused even after all of them have expired, until some other call purges the queue. *)
Theorem expired_uploads_block_quota s ulid now d l c b :
  reachable s -> count_if (of_device d) (entries s) = 4%nat ->
  Forall (fun kv => ExpiresAt kv.2 < now) (map_to_list (entries s)) ->
  (Add ulid now s d l c b).2 = Err ErrPendingFull /\ (Count now s).2 = 0.
Proof.
  intros Hr Hc Hexp. pose proof (pending_reachable_wf s Hr) as Hwf. split.
  - unfold Add. destruct (_ <=? _); [done|]. rewrite (wf_dev s Hwf), Hc. done.
  - unfold Count. simpl. destruct (purge_spec now s (map_to_list (entries s)) Hwf) as [_ He]; [auto with luna|].
    unfold purgeExpiredLocked. rewrite He. assert (E : live now (entries s) = ∅); [|by rewrite E].
    apply map_empty. intros k. apply map_lookup_filter_None. right. intros p Hp Ha.
    rewrite Forall_forall in Hexp. specialize (Hexp (k, p) ltac:(by apply elem_of_map_to_list)).
    simpl in *. time_prop. lia.
Qed.

(** ** A concrete queue: four uploads of one device *)
Definition demo_add (ulid : string) (s : PendingStore) : PendingStore :=
  (Add ulid 0 s "phone" "web" "" (bytes_of ulid)).1.
Definition demo_full : PendingStore :=
  demo_add "4" (demo_add "3" (demo_add "2" (demo_add "1" NewPendingStore))).

Lemma demo_full_reachable : reachable demo_full.
Proof.
  repeat (eapply rtc_r; [|apply (step_add _ 0); vm_compute; reflexivity]). apply rtc_refl.
Qed.

Lemma pending_invariant_witness : wf demo_full.
Proof. exact (pending_invariant demo_full demo_full_reachable). Defined.

Lemma pending_add_get_witness :
  (Get (16 * Minute) (demo_add "1" NewPendingStore) "pend_1").2 = Err ErrPendingNotFound.
Proof.
  apply (pending_add_get NewPendingStore "1" 0 "phone" "web" "" (bytes_of "1") "pend_1" (16 * Minute));
    [apply rtc_refl|vm_compute; reflexivity..].
Defined.

Lemma expired_uploads_block_quota_witness :
  (Add "5" Hour demo_full "phone" "web" "" []).2 = Err ErrPendingFull /\ (Count Hour demo_full).2 = 0.
Proof.
  apply (expired_uploads_block_quota demo_full "5" Hour "phone" "web" "" []);
    [exact demo_full_reachable|vm_compute; reflexivity|].
  refine (bool_decide_unpack _ _). vm_compute. exact I.
Defined.

End Pend.
