(* ===== verification/Signing.v ===== *)
(** * Signers (proxy/internal/signing)

    What the approval store calls once a request is approved: an issuer of SSH user certificates
    backed by the keystore's CA key, or a signer that uses one hosted key of the pool. *)

From S2P Require Import Prelude GoTime GoStrings External Fingerprint Keystore.

Module Sign.

(** ** Certificates *)

Record IssueRequest := mkIssueRequest {
  ClientPubKey : string;
  TargetUser : string;
  TargetIP : string;
  SourceIP : string;
  ValidUntil : Z
}.

Record IssueResult := mkIssueResult { res_Certificate : string; res_ExpiresAt : Z }.

(** The fields of an [ssh.Certificate] the CA fills in before signing; times are [uint64]. *)
Record UserCert `{SshLib} := mkUserCert {
  Key : PublicKey;
  Serial : Z;
  CertType : Z;
  KeyId : string;
  ValidPrincipals : list string;
  ValidAfter : Z;
  ValidBefore : Z;
  CriticalOptions : list (string * string)
}.

(** [ssh.UserCert] *)
Definition ssh_UserCert : Z := 1.

(** [cert.SignCert(rand, signer)] and [ssh.MarshalAuthorizedKey] of the signed certificate. *)
Class CertLib `{SshLib} := {
  SignedCert : Type;
  SignCert : Signer -> UserCert -> option SignedCert;
  marshal_cert : SignedCert -> list byte
}.

(** ** The issuer interface (signer.go)

    [World] is the state the issuer reads; a client of the interface relies on the law only. *)
Class CertIssuer (World : Type) := IssueCert : World -> Z -> IssueRequest -> result IssueResult.

Class CertIssuerLaws (World : Type) `{CertIssuer World} : Prop :=
  issue_expiry : forall w now req res, IssueCert w now req = Ok res -> res_ExpiresAt res = ValidUntil req.

Section signing.
Context `{HashLib, SshLib, !CertLib}.

(** ** LocalCA (local_ca.go) *)

Definition cert_template (now : Z) (req : IssueRequest) (pub : PublicKey) : UserCert :=
  mkUserCert _ pub (uint64 (UnixNano now)) ssh_UserCert (TargetUser req) [TargetUser req]
    (uint64 (Unix (Add now (-30 * Second)))) (uint64 (Unix (ValidUntil req)))
    (if negb (SourceIP req =s "") then [("source-address", SourceIP req)] else []).

Definition LocalCA_IssueCert (ks : Ks.Keystore) (now : Z) (req : IssueRequest) : result IssueResult :=
  caSigner ← Ks.SSHSigner ks;
  pub ← or_err (ParseAuthorizedKey (bytes_of (ClientPubKey req)))
          (EWrap "parse client public key" (errorf "ssh"));
  let validAfter := uint64 (Unix (Add now (-30 * Second))) in
  let validBefore := uint64 (Unix (ValidUntil req)) in
  if validBefore <=? validAfter then Err (errorf "invalid cert validity window") else
  cert ← or_err (SignCert caSigner (cert_template now req pub)) (EWrap "sign certificate" (errorf "ssh"));
  Ok (mkIssueResult (string_of (marshal_cert cert)) (ValidUntil req)).

#[export] Instance LocalCA : CertIssuer Ks.Keystore := LocalCA_IssueCert.

#[export] Instance LocalCA_laws : CertIssuerLaws Ks.Keystore.
Proof.
  intros ks now req res. unfold IssueCert, LocalCA, LocalCA_IssueCert. intros Hr. inv_ok.
  case_match; [done|]. by inv_ok.
Qed.

(** ** LocalKey (local_key.go) *)

Definition SignAgent (ks : Ks.Keystore) (hostFP : string) (data : list byte) : result (list byte) :=
  match data with
  | [] => Err (errorf "empty sign data")
  | _ =>
      if hostFP =s "" then Err (errorf "host key fingerprint required") else
      signer ← Ks.SignerForFingerprint ks hostFP;
      sig ← or_err (signer_sign signer data) (EWrap "sign agent data" (errorf "ssh"));
      Ok (Blob sig)
  end.

(** C20: every certificate the CA issues is confined to its request: it is signed by the loaded CA
    key over the client's own key, names exactly the approved user as principal, is pinned to the
    source address when one is known, starts 30 s before now, ends after it starts, and ends no
    later than the approved instant. *)
Theorem ca_certificate_confined ks now req res :
  0 <= now - 30 * Second -> 0 <= ValidUntil req -> ValidUntil req / Second < 2 ^ 64 ->
  now / Second < 2 ^ 64 ->
  LocalCA_IssueCert ks now req = Ok res ->
  exists ca pub signed cert,
    Ks.SSHSigner ks = Ok ca /\ ParseAuthorizedKey (bytes_of (ClientPubKey req)) = Some pub /\
    SignCert ca cert = Some signed /\ res = mkIssueResult (string_of (marshal_cert signed)) (ValidUntil req) /\
    Key cert = pub /\ CertType cert = ssh_UserCert /\ ValidPrincipals cert = [TargetUser req] /\
    CriticalOptions cert = (if SourceIP req =s "" then [] else [("source-address", SourceIP req)]) /\
    ValidAfter cert = Unix (now - 30 * Second) /\
    ValidAfter cert < ValidBefore cert /\ ValidBefore cert * Second <= ValidUntil req.
Proof.
  intros Hn Hv Hm Hm' Hr. unfold LocalCA_IssueCert in Hr. inv_ok.
  destruct (_ <=? _) eqn:E; [done|]. bool_prop. inv_ok.
  assert (Hu : forall t, 0 <= t -> t / Second < 2 ^ 64 -> uint64 (Unix t) = Unix t).
  { intros t Ht Hlt. apply uint64_id. split; [|done]. apply Z.div_pos; [done|]. unfold Second. lia. }
  assert (Ha : Unix (Add now (-30 * Second)) = Unix (now - 30 * Second)) by (unfold Add; f_equal; lia).
  assert (Hb : (now - 30 * Second) / Second < 2 ^ 64).
  { apply Z.le_lt_trans with (now / Second); [|done]. apply Z.div_le_mono; unfold Second; lia. }
  pose proof (Unix_bounds (ValidUntil req)).
  eexists _, _, _, _. split_and!; try done; simpl.
  - by destruct (SourceIP req =s "").
  - by rewrite Ha, Hu.
  - by rewrite Hu by done; lia.
Qed.

(** What [SignAgent] signs with. *)
Lemma SignAgent_sound `{!SshLaws} m ks hostFP data blob :
  Ks.reachable m ks -> SignAgent ks hostFP data = Ok blob ->
  m = Ks.ModeLocalKey /\ data <> [] /\
  exists pub sig, Fingerprint pub = NormalizeFingerprintInput hostFP /\
    pub_verify pub data sig = true /\ Blob sig = blob.
Proof.
  intros Hr Hs. unfold SignAgent in Hs. destruct data as [|b data]; [done|].
  destruct (hostFP =s ""); [done|]. inv_ok.
  match goal with Hk : Ks.SignerForFingerprint _ _ = Ok _ |- _ =>
    destruct (Ks.SignerForFingerprint_sound m ks hostFP _ Hr Hk) as [-> Hf] end.
  split; [done|]. split; [done|]. eexists _, _. split; [exact Hf|]. split; [by apply sign_verify|done].
Qed.

(** a hosted-key signature is made with the key that was asked for: in any reachable keystore
    the signature verifies over the data under a key whose fingerprint is the requested one. *)
Theorem hosted_signature_sound `{!SshLaws} m ks hostFP data blob :
  Ks.reachable m ks -> SignAgent ks hostFP data = Ok blob ->
  m = Ks.ModeLocalKey /\ data <> [] /\
  exists pub sig, Fingerprint pub = NormalizeFingerprintInput hostFP /\
    pub_verify pub data sig = true /\ Blob sig = blob.
Proof. apply SignAgent_sound. Qed.

End signing.

(** ** Concrete signers *)
Import Demo.

#[export] Instance demo_cert : CertLib := {|
  SignedCert := UserCert;
  SignCert _ c := Some c;
  marshal_cert c := bytes_of (KeyId c)
|}.

Definition demo_ca : Ks.Keystore :=
  (Ks.LoadPEMBytes (fun _ => true) 0 0 (Ks.NewWithMode Ks.ModeLocalCA) Ks.demo_pem "pw" "").1.1.
Definition demo_req : IssueRequest :=
  mkIssueRequest "client-key" "deploy" "10.0.1.50" "203.0.113.10" (1700000300 * Second).

Lemma ca_certificate_confined_witness :
  exists cert : UserCert, ValidPrincipals cert = ["deploy"] /\
    CriticalOptions cert = [("source-address", "203.0.113.10")] /\ ValidAfter cert = 1699999970.
Proof.
  destruct (ca_certificate_confined demo_ca (1700000000 * Second) demo_req
    (mkIssueResult "deploy" (1700000300 * Second)) ltac:(vm_compute; congruence)
    ltac:(vm_compute; congruence) ltac:(vm_compute; congruence) ltac:(vm_compute; congruence)
    ltac:(vm_compute; reflexivity))
    as (ca & pub & signed & cert & _ & _ & _ & _ & _ & _ & Hp & Hc & Ha & _).
  exists cert. split; [exact Hp|]. split; [exact Hc|exact Ha].
Defined.

Lemma hosted_signature_sound_witness :
  exists pub sig, Fingerprint pub = NormalizeFingerprintInput Ks.demo_fp /\
    pub_verify pub (bytes_of "hello") sig = true.
Proof.
  destruct (hosted_signature_sound (H := demo_hash) (H0 := demo_ssh) Ks.ModeLocalKey Ks.demo_loaded Ks.demo_fp
      (bytes_of "hello") (bytes_of "host-key" ++ bytes_of "hello"))
    as (_ & _ & pub & sig & Hf & Hv & _).
  - apply rtc_once. apply (Ks.step_load (fun _ => true) 0 0 (Ks.NewWithMode Ks.ModeLocalKey) Ks.demo_pem "pw" "web").
  - vm_compute. reflexivity.
  - exists pub, sig. split; [exact Hf|exact Hv].
Defined.

End Sign.
