(* ===== verification/Config.v ===== *)
(** * Proxy configuration (proxy/internal/config/config.go)

    The runtime settings the other components read.  Reading them from files and the environment
    (viper) is not modelled. *)

From S2P Require Import Prelude GoTime.

Module Cfg.

Record Config := mkConfig {
  Env : string;
  ApprovalTimeout : Z;
  ListenAddr : string;
  TelegramBotToken : string;
  TelegramWebhookSecret : string;
  TelegramChatID : string;
  TelegramUserIDs : string;
  AdminClientOU : string;
  CliClientOU : string;
  KeyPath : string;
  SignerMode : string;
  AllowedTTLSeconds : list Z;
  MTLSServerCert : string;
  MTLSServerKey : string;
  MTLSClientCA : string;
  MTLSCACertPath : string;
  MTLSCAKeyPath : string;
  MTLSEnrollToken : string;
  FCMCredentials : string;
  ControlSocket : string;
  ControlSocketGroup : string
}.

(** The zero value of the struct. *)
Definition zeroConfig : Config :=
  mkConfig "" 0 "" "" "" "" "" "" "" "" "" [] "" "" "" "" "" "" "" "" "".

(** The defaults [load.go] applies when nothing is configured. *)
Definition defaultAllowedTTLSeconds : list Z := [180; 300; 900].
Definition defaultApprovalPeriod : Z := 60 * Second.

End Cfg.
