(* ===== verification/Approval.v ===== *)
(** * Approval store (proxy/internal/approval/store.go)

    In-flight approval transactions.  Every method that takes the store's mutex is one atomic
    operation on the state; [approveWithIssuer] and [Wait], which release it in between, are
    broken into their atomic phases here, and [ApprovalSys] interleaves the phases of all
    goroutines. *)

From S2P Require Import Prelude GoTime GoStrings GoEncoding External Fingerprint LeaseStore Keystore Signing Config.

Module Appr.

(** ** Data *)

Definition SignerModeLocalCA : string := "local-ca".
Definition SignerModeLocalKey : string := "local-key".

Inductive State := StatePending | StateApproving | StateApproved | StateDenied | StateExpired.
#[export] Instance State_eq_dec : EqDecision State.
Proof. solve_decision. Defined.

Definition DefaultDevCertTTL : Z := 5 * Minute.

Record Transaction := mkTransaction {
  ID : string;
  TargetUser : string;
  TargetIP : string;
  PublicKey : string;
  SourceIP : string;
  SourceUser : string;
  ClientName : string;
  ClientVersion : string;
  ClientCertFP : string;
  AgentSignData : string;
  HostKeyFingerprint : string;
  DestinationHostKeyFingerprint : string;
  DestinationHostKeySource : string;
  DisableLease : bool;
  tx_State : State;
  CreatedAt : Z
}.

#[export] Instance Transaction_eq_dec : EqDecision Transaction.
Proof. solve_decision. Defined.

Definition set_State (st : State) (t : Transaction) : Transaction :=
  mkTransaction (ID t) (TargetUser t) (TargetIP t) (PublicKey t) (SourceIP t) (SourceUser t)
    (ClientName t) (ClientVersion t) (ClientCertFP t) (AgentSignData t) (HostKeyFingerprint t)
    (DestinationHostKeyFingerprint t) (DestinationHostKeySource t) (DisableLease t) st (CreatedAt t).

Record ClientMeta := mkClientMeta {
  cm_SourceUser : string;
  cm_ClientName : string;
  cm_ClientVersion : string;
  cm_DestinationHostKeySource : string;
  cm_DisableLease : bool
}.

Record Result := mkResult {
  Cert : string;
  Signature : string;
  ExpiresAt : Z;
  LeaseExpiresAt : Z;
  Err : option error
}.

#[export] Instance Result_eq_dec : EqDecision Result.
Proof. solve_decision. Defined.

Definition zeroResult : Result := mkResult "" "" zeroTime zeroTime None.
Definition errResult (e : error) : Result := mkResult "" "" zeroTime zeroTime (Some e).
Definition set_LeaseExpiresAt (t : Z) (r : Result) : Result :=
  mkResult (Cert r) (Signature r) (ExpiresAt r) t (Err r).

Definition ErrNotFound : error := ENew "approval" "transaction not found".
Definition ErrDenied : error := ENew "approval" "transaction denied".
Definition ErrExpired : error := ENew "approval" "transaction expired".
Definition ErrTimeout : error := ENew "approval" "approval timeout".
Definition ErrSignerNotReady : error := ENew "approval" "signer not configured".
Definition ErrAgentSignData : error := ENew "approval" "agent_sign_data required for local-key mode".
Definition ErrWaitClientMismatch : error := ENew "approval" "client certificate mismatch".

(** A [chan Result] of capacity one, and the transaction it was made for. *)
Record chan := mkChan { buf : list Result; closed : bool; ch_tx : string }.

(** [resultCh] is the address of the channel; [timer] is nil, armed or stopped. *)
Record txEntry := mkEntry {
  tx : Transaction;
  result : option Result;
  resultCh : nat;
  timer : option bool;
  waiters : Z
}.

(** The issuer, the key signer and the lease store may be nil.  [panicked] records a send on a
    closed channel. *)
Record Store := mkStore {
  cfg : Cfg.Config;
  issuer : bool;
  keySigner : bool;
  leases : option Lease.Store;
  timeout : Z;
  txs : gmap string txEntry;
  chans : gmap nat chan;
  next_ch : nat;
  panicked : bool
}.

Definition NewStore (timeout : Z) : Store :=
  mkStore Cfg.zeroConfig false false None timeout ∅ ∅ 0 false.

Definition set_txs (s : Store) (m : gmap string txEntry) : Store :=
  mkStore (cfg s) (issuer s) (keySigner s) (leases s) (timeout s) m (chans s) (next_ch s) (panicked s).
Definition set_leases (s : Store) (l : option Lease.Store) : Store :=
  mkStore (cfg s) (issuer s) (keySigner s) l (timeout s) (txs s) (chans s) (next_ch s) (panicked s).

(** ** Setup *)

Definition SetConfig (s : Store) (c : Cfg.Config) : Store :=
  mkStore c (issuer s) (keySigner s) (leases s)
    (if 0 <? Cfg.ApprovalTimeout c then Cfg.ApprovalTimeout c else timeout s)
    (txs s) (chans s) (next_ch s) (panicked s).
Definition SetIssuer (s : Store) (b : bool) : Store :=
  mkStore (cfg s) b (keySigner s) (leases s) (timeout s) (txs s) (chans s) (next_ch s) (panicked s).
Definition SetKeySigner (s : Store) (b : bool) : Store :=
  mkStore (cfg s) (issuer s) b (leases s) (timeout s) (txs s) (chans s) (next_ch s) (panicked s).
Definition SetLeases (s : Store) (l : option Lease.Store) : Store := set_leases s l.

Definition signerMode (s : Store) : string :=
  if Cfg.SignerMode (cfg s) =s SignerModeLocalKey then SignerModeLocalKey else SignerModeLocalCA.

(** [ulid] is the text of a fresh ULID. *)
Definition newTxID (ulid : string) : string := "tx_" +:+ ulid.

(** ** Creating transactions *)

(** Store a new entry with a fresh channel holding [b]. *)
Definition add_entry (s : Store) (t : Transaction) (r : option Result) (b : list Result) (c : bool)
    (tm : option bool) : Store :=
  mkStore (cfg s) (issuer s) (keySigner s) (leases s) (timeout s)
    (<[ID t := mkEntry t r (next_ch s) tm 0]> (txs s))
    (<[next_ch s := mkChan b c (ID t)]> (chans s)) (S (next_ch s)) (panicked s).

(** [CreateBound]: the store, the transaction, its channel, and whether the development
    environment starts an approver for it.  The timer is armed. *)
Definition CreateBound (ulid : string) (now : Z) (s : Store)
    (targetUser targetIP publicKey sourceIP clientCertFP agentSignData hostKeyFP destinationHostKeyFP : string)
    (client : ClientMeta) : Store * Transaction * nat * bool :=
  let t := mkTransaction (newTxID ulid) targetUser targetIP publicKey sourceIP (cm_SourceUser client)
    (cm_ClientName client) (cm_ClientVersion client) clientCertFP agentSignData hostKeyFP
    destinationHostKeyFP (cm_DestinationHostKeySource client) (cm_DisableLease client) StatePending now in
  (add_entry s t None [] false (Some true), t, next_ch s, Cfg.Env (cfg s) =s "dev").

Definition Create (ulid : string) (now : Z) (s : Store)
    (targetUser targetIP publicKey sourceIP clientCertFP agentSignData hostKeyFP : string)
    (client : ClientMeta) : Store * Transaction * nat * bool :=
  CreateBound ulid now s targetUser targetIP publicKey sourceIP clientCertFP agentSignData hostKeyFP ""
    client.

Definition CreateInstantApproved (ulid : string) (now : Z) (s : Store)
    (targetUser targetIP publicKey sourceIP clientCertFP : string) (res : Result) : Store * Transaction :=
  let t := mkTransaction (newTxID ulid) targetUser targetIP publicKey sourceIP "" "" "" clientCertFP
    "" "" "" "" false StateApproved now in
  (add_entry s t (Some res) [res] true None, t).

(** ** Outcomes *)

(** The non-blocking send of [finishLocked]: it drops the value when the buffer is full and
    panics when the channel is closed. *)
Definition try_send (c : chan) (r : Result) : chan * bool :=
  if closed c then (c, true)
  else match buf c with
       | [] => (mkChan [r] false (ch_tx c), false)
       | _ => (c, false)
       end.

Definition finishLocked (s : Store) (txID : string) (e : txEntry) (st : State) (r : Result) : Store :=
  let e' := mkEntry (set_State st (tx e)) (Some r) (resultCh e)
              (match timer e with Some _ => Some false | None => None end) (waiters e) in
  let '(cs, p) :=
    match chans s !! resultCh e with
    | Some c => let '(c', p) := try_send c r in (<[resultCh e := c']> (chans s), p)
    | None => (chans s, false)
    end in
  mkStore (cfg s) (issuer s) (keySigner s) (leases s) (timeout s) (<[txID := e']> (txs s)) cs (next_ch s)
    (panicked s || p).

Definition finishPending (s : Store) (txID : string) (st : State) (r : Result) : Store :=
  match txs s !! txID with
  | None => s
  | Some e =>
      if bool_decide (result e <> None) || negb (bool_decide (tx_State (tx e) = StatePending)) then s
      else finishLocked s txID e st r
  end.

Definition finishClaimed (s : Store) (txID : string) (st : State) (r : Result) : Store * bool :=
  match txs s !! txID with
  | None => (s, false)
  | Some e =>
      if bool_decide (result e <> None) || negb (bool_decide (tx_State (tx e) = StateApproving))
      then (s, false)
      else (finishLocked s txID e st r, true)
  end.

Definition Deny (s : Store) (txID : string) : Store :=
  finishPending s txID StateDenied (errResult ErrDenied).
Definition expire (s : Store) (txID : string) : Store :=
  finishPending s txID StateExpired (errResult ErrTimeout).

(** The entry's transaction with the state just set, or nil. *)
Definition claimApproval (s : Store) (txID : string) : Store * option Transaction :=
  match txs s !! txID with
  | None => (s, None)
  | Some e =>
      if bool_decide (result e <> None) || negb (bool_decide (tx_State (tx e) = StatePending))
      then (s, None)
      else
        let t := set_State StateApproving (tx e) in
        (set_txs s (<[txID := mkEntry t (result e) (resultCh e) (timer e) (waiters e)]> (txs s)), Some t)
  end.

Definition Snapshot (s : Store) (txID : string) : option Transaction := tx <$> txs s !! txID.

Definition store_ClientCertFP (s : Store) (txID : string) : string * bool :=
  match txs s !! txID with
  | None => ("", false)
  | Some e => (ClientCertFP (tx e), true)
  end.

(** ** Waiting *)

(** The channel a waiter blocks on: the entry's own, or a fresh closed one with the outcome. *)
Definition waitResult (s : Store) (txID : string) : Store * option nat :=
  match txs s !! txID with
  | None => (s, None)
  | Some e =>
      match result e with
      | Some r =>
          (mkStore (cfg s) (issuer s) (keySigner s) (leases s) (timeout s) (txs s)
             (<[next_ch s := mkChan [r] true txID]> (chans s)) (S (next_ch s)) (panicked s),
           Some (next_ch s))
      | None =>
          (set_txs s (<[txID := mkEntry (tx e) None (resultCh e) (timer e) (waiters e + 1)]> (txs s)),
           Some (resultCh e))
      end
  end.

(** Receiving: blocked (None), or the value taken (the zero value from a drained closed channel). *)
Definition receive (s : Store) (ch : nat) : option (Store * Result) :=
  match chans s !! ch with
  | None => None
  | Some c =>
      match buf c with
      | r :: rest =>
          Some (mkStore (cfg s) (issuer s) (keySigner s) (leases s) (timeout s) (txs s)
                  (<[ch := mkChan rest (closed c) (ch_tx c)]> (chans s)) (next_ch s) (panicked s), r)
      | [] => if closed c then Some (s, zeroResult) else None
      end
  end.

Definition remove (s : Store) (txID : string) : Store := set_txs s (delete txID (txs s)).

Definition cancelWait (s : Store) (txID : string) : Store :=
  match txs s !! txID with
  | None => s
  | Some e =>
      let n := waiters e - 1 in
      if n <=? 0 then set_txs s (delete txID (txs s))
      else set_txs s (<[txID := mkEntry (tx e) (result e) (resultCh e) (timer e) n]> (txs s))
  end.

(** ** Issuing *)

Section issue.
Context `{HashLib, SshLib, !Sign.CertIssuer Ks.Keystore}.

(** [clock] is the issuer's own reading of the time. *)
Definition issueForTransaction (s : Store) (ks : Ks.Keystore) (clock : Z) (t : Transaction) (until : Z)
    : Prelude.result Result :=
  if signerMode s =s SignerModeLocalKey then
    if AgentSignData t =s "" then Prelude.Err ErrAgentSignData else
    if negb (keySigner s) then Prelude.Err ErrSignerNotReady else
    data ← or_err (StdDecodeString (AgentSignData t)) (errorf "illegal base64 data");
    if HostKeyFingerprint t =s "" then Prelude.Err Ks.ErrAmbiguousSigner else
    blob ← Sign.SignAgent ks (HostKeyFingerprint t) data;
    Ok (mkResult "" (StdEncodeToString blob) until zeroTime None)
  else
  if negb (issuer s) then Prelude.Err ErrSignerNotReady else
  res ← Sign.IssueCert ks clock
          (Sign.mkIssueRequest (PublicKey t) (TargetUser t) (TargetIP t) (SourceIP t) until);
  Ok (mkResult (Sign.res_Certificate res) "" (Sign.res_ExpiresAt res) zeroTime None).

(** The lookup key of an approved transaction. *)
Definition tx_lookup (t : Transaction) : Lease.LookupKey :=
  Lease.NewLookupKey (ClientCertFP t) (TargetUser t) (TargetIP t) (SourceIP t) (HostKeyFingerprint t)
    [DestinationHostKeyFingerprint t].

(** When an approval also records a session lease. *)
Definition lease_wanted (s : Store) (t : Transaction) (who : string) : bool :=
  bool_decide (leases s <> None) && negb (who =s "") && negb (ClientCertFP t =s "") && negb (DisableLease t).

(** The phases of [approveWithIssuer]. *)
Inductive approver :=
| ACall (txID : string) (ttl : Z) (who : string)
| AClaimed (txID : string) (t : Transaction) (ttl : Z) (who : string)
| AIssued (txID : string) (t : Transaction) (until : Z) (res : Prelude.result Result) (who : string)
| APut (t : Transaction) (until : Z) (who : string)
| AExit.

(** One phase; [now] is [time.Now()] of the deadline and [clock] the issuer's. *)
Definition approver_step (ks : Ks.Keystore) (now clock : Z) (s : Store) (a : approver) : Store * approver :=
  match a with
  | ACall txID ttl who =>
      match claimApproval s txID with
      | (s, None) => (s, AExit)
      | (s, Some t) => (s, AClaimed txID t ttl who)
      end
  | AClaimed txID t ttl who =>
      let until := Add now ttl in
      (s, AIssued txID t until (issueForTransaction s ks clock t until) who)
  | AIssued txID t until (Prelude.Err e) who =>
      ((finishClaimed s txID StateDenied (errResult e)).1, AExit)
  | AIssued txID t until (Ok res) who =>
      match finishClaimed s txID StateApproved (set_LeaseExpiresAt until res) with
      | (s, false) => (s, AExit)
      | (s, true) => (s, if lease_wanted s t who then APut t until who else AExit)
      end
  | APut t until who =>
      (match leases s with
       | Some l => set_leases s (Some (Lease.Put l (Lease.NewFullKey (tx_lookup t) who) until))
       | None => s
       end, AExit)
  | AExit => (s, AExit)
  end.

(** [approveWithIssuer] run alone: its four phases in sequence. *)
Definition approveWithIssuer (ks : Ks.Keystore) (now clock : Z) (s : Store) (txID : string) (ttl : Z)
    (who : string) : Store :=
  let '(s, a) := approver_step ks now clock s (ACall txID ttl who) in
  let '(s, a) := approver_step ks now clock s a in
  let '(s, a) := approver_step ks now clock s a in
  (approver_step ks now clock s a).1.

(** The goroutine [Approve] runs. *)
Definition Approve_call (txID : string) (ttl : Z) (approverChatID : string) : approver :=
  ACall txID (if ttl <=? 0 then DefaultDevCertTTL else ttl) approverChatID.

Definition Approve (ks : Ks.Keystore) (now clock : Z) (s : Store) (txID : string) (ttl : Z)
    (approverChatID : string) : Store :=
  approveWithIssuer ks now clock s txID (if ttl <=? 0 then DefaultDevCertTTL else ttl) approverChatID.

(** [IssueFromLease]; the clock is read by [FindActive], by [Remaining], for the deadline, and by
    the issuer. *)
Definition IssueFromLease (ks : Ks.Keystore) (t_find t_rem now clock : Z) (s : Store)
    (lookup : Lease.LookupKey) (publicKey agentSignData hostKeyFP : string) : Result * bool :=
  match leases s with
  | None => (zeroResult, false)
  | Some l =>
      let '(active, ok) := Lease.FindActive t_find l lookup in
      if negb ok then (zeroResult, false) else
      let remaining := Lease.Remaining t_rem active in
      if remaining <=? 0 then (zeroResult, false) else
      let t := mkTransaction "" (Lease.TargetUser lookup) (Lease.TargetIP lookup) publicKey
                 (Lease.SourceIP lookup) "" "" "" "" agentSignData hostKeyFP
                 (Lease.DestinationHostKeyFingerprint lookup) "" false StatePending zeroTime in
      match issueForTransaction s ks clock t (Add now remaining) with
      | Prelude.Err e => (errResult e, false)
      | Ok res => (set_LeaseExpiresAt (Lease.ExpiresAt active) res, true)
      end
  end.

End issue.

(** ** Well-formed stores *)

(** The outcome is present exactly in the terminal states, an error exactly when not approved. *)
Definition outcome_ok (e : txEntry) : Prop :=
  match tx_State (tx e), result e with
  | (StatePending | StateApproving), None => True
  | StateApproved, Some r => Err r = None
  | (StateDenied | StateExpired), Some r => Err r <> None
  | _, _ => False
  end.

(** The channel of an entry: its own, and open and empty until there is an outcome. *)
Definition chan_ok (s : Store) (id : string) (e : txEntry) : Prop :=
  exists c, chans s !! resultCh e = Some c /\ ch_tx c = id /\
    (result e = None -> closed c = false /\ buf c = []).

Record store_wf (s : Store) : Prop := mk_store_wf {
  sw_id : map_Forall (fun id e => ID (tx e) = id) (txs s);
  sw_outcome : map_Forall (fun _ e => outcome_ok e) (txs s);
  sw_chan : map_Forall (chan_ok s) (txs s);
  sw_fresh : map_Forall (fun ch _ => (ch < next_ch s)%nat) (chans s);
  sw_cap : map_Forall (fun _ c => (length (buf c) <= 1)%nat) (chans s);
  sw_panic : panicked s = false
}.

(** Two entries never share a channel. *)
Lemma chan_inj s i j e e' :
  store_wf s -> txs s !! i = Some e -> txs s !! j = Some e' -> resultCh e = resultCh e' -> i = j.
Proof.
  intros Hwf Hi Hj Heq. destruct (sw_chan s Hwf i e Hi) as (c & Hc & <- & _).
  destruct (sw_chan s Hwf j e' Hj) as (c' & Hc' & <- & _). rewrite Heq in Hc. congruence.
Qed.

Lemma store_new_wf timeout : store_wf (NewStore timeout).
Proof. constructor; simpl; [apply map_Forall_empty..|done]. Qed.

Lemma add_entry_wf s t r b c tm :
  store_wf s -> outcome_ok (mkEntry t r (next_ch s) tm 0) ->
  (r = None -> c = false /\ b = []) -> (length b <= 1)%nat -> store_wf (add_entry s t r b c tm).
Proof.
  intros [H1 H2 H3 H4 H6 H5] Ho Hc Hb. constructor; simpl; try done.
  - by apply map_Forall_insert_2.
  - by apply map_Forall_insert_2.
  - apply map_Forall_insert_2.
    + exists (mkChan b c (ID t)). simpl. rewrite lookup_insert_eq. naive_solver.
    + intros id e He. destruct (H3 id e He) as (c' & Hc' & Ht & Hn). exists c'. simpl.
      rewrite lookup_insert_ne; [done|]. apply H4 in Hc'. lia.
  - apply map_Forall_insert_2; [lia|]. intros ch c' Hc'. apply H4 in Hc'. lia.
  - by apply map_Forall_insert_2.
Qed.

(** An entry replaced by one with the same identity, channel and outcome. *)
Lemma replace_entry_wf s id e e' :
  store_wf s -> txs s !! id = Some e -> ID (tx e') = ID (tx e) -> resultCh e' = resultCh e ->
  result e' = result e -> outcome_ok e' -> store_wf (set_txs s (<[id := e']> (txs s))).
Proof.
  intros [H1 H2 H3 H4 H6 H5] He Hid Hch Hr Ho. constructor; simpl; try done.
  - apply map_Forall_insert_2; [|done]. rewrite Hid. by apply H1.
  - by apply map_Forall_insert_2.
  - apply map_Forall_insert_2; [|done]. destruct (H3 id e He) as (c & ? & ? & ?).
    exists c. simpl. by rewrite Hch, Hr.
Qed.

Lemma delete_entry_wf s id : store_wf s -> store_wf (set_txs s (delete id (txs s))).
Proof. intros [H1 H2 H3 H4 H6 H5]. constructor; simpl; try done; by apply map_Forall_delete. Qed.

(** The effect of [finishLocked] on an entry without an outcome. *)
Lemma finishLocked_spec s id e st r :
  store_wf s -> txs s !! id = Some e -> result e = None ->
  let e' := mkEntry (set_State st (tx e)) (Some r) (resultCh e)
              (match timer e with Some _ => Some false | None => None end) (waiters e) in
  finishLocked s id e st r =
  mkStore (cfg s) (issuer s) (keySigner s) (leases s) (timeout s) (<[id := e']> (txs s))
    (<[resultCh e := mkChan [r] false id]> (chans s)) (next_ch s) false.
Proof.
  intros Hwf He Hr e'. destruct (sw_chan s Hwf id e He) as (c & Hc & Ht & Hn).
  destruct (Hn Hr) as [Hcl Hb]. unfold finishLocked, try_send. rewrite Hc, Hcl, Hb, Ht.
  by rewrite (sw_panic s Hwf).
Qed.

Lemma finishLocked_wf s id e st r :
  store_wf s -> txs s !! id = Some e -> result e = None ->
  outcome_ok (mkEntry (set_State st (tx e)) (Some r) (resultCh e) (timer e) (waiters e)) ->
  store_wf (finishLocked s id e st r).
Proof.
  intros Hwf He Hr Ho. rewrite (finishLocked_spec s id e st r Hwf He Hr).
  pose proof (chan_inj s) as Hinj. destruct Hwf as [H1 H2 H3 H4 H6 H5] eqn:Ew. constructor; simpl; try done.
  - apply map_Forall_insert_2; [|done]. simpl. by apply H1.
  - by apply map_Forall_insert_2.
  - intros j e' [[<- <-]|[Hne Hj]]%lookup_insert_Some; unfold chan_ok; simpl.
    + exists (mkChan [r] false id). by rewrite lookup_insert_eq.
    + destruct (H3 j e' Hj) as (c & Hc & Ht & Hn). exists c. rewrite lookup_insert_ne; [done|].
      intros E. apply Hne. by eapply (Hinj id j e e').
  - apply map_Forall_insert_2; [|done]. destruct (H3 id e He) as (c & Hc & _). by apply H4 in Hc.
  - apply map_Forall_insert_2; [simpl; lia|done].
Qed.

(** The guards of [finishPending], [finishClaimed] and [claimApproval]. *)
Lemma guard_state e st0 :
  (bool_decide (result e <> None) || negb (bool_decide (tx_State (tx e) = st0))) = false <->
  result e = None /\ tx_State (tx e) = st0.
Proof.
  rewrite orb_false_iff, negb_false_iff, bool_decide_eq_false, bool_decide_eq_true.
  destruct (result e); naive_solver.
Qed.

Lemma finishPending_cases s id st r :
  finishPending s id st r = s \/
  exists e, txs s !! id = Some e /\ result e = None /\ tx_State (tx e) = StatePending /\
    finishPending s id st r = finishLocked s id e st r.
Proof.
  unfold finishPending. destruct (txs s !! id) as [e|] eqn:E; [|by left].
  destruct (_ || _) eqn:Eg; [by left|]. apply guard_state in Eg as []. right. by exists e.
Qed.

Lemma finishClaimed_cases s id st r :
  finishClaimed s id st r = (s, false) \/
  exists e, txs s !! id = Some e /\ result e = None /\ tx_State (tx e) = StateApproving /\
    finishClaimed s id st r = (finishLocked s id e st r, true).
Proof.
  unfold finishClaimed. destruct (txs s !! id) as [e|] eqn:E; [|by left].
  destruct (_ || _) eqn:Eg; [by left|]. apply guard_state in Eg as []. right. by exists e.
Qed.

Lemma claimApproval_cases s id :
  claimApproval s id = (s, None) \/
  exists e, let t := set_State StateApproving (tx e) in
    txs s !! id = Some e /\ result e = None /\ tx_State (tx e) = StatePending /\
    claimApproval s id =
      (set_txs s (<[id := mkEntry t None (resultCh e) (timer e) (waiters e)]> (txs s)), Some t).
Proof.
  unfold claimApproval. destruct (txs s !! id) as [e|] eqn:E; [|by left].
  destruct (_ || _) eqn:Eg; [by left|]. apply guard_state in Eg as [Er Es]. right. exists e.
  by rewrite Er.
Qed.

Lemma finishPending_wf s id st r :
  store_wf s -> (st = StateDenied \/ st = StateExpired) -> Err r <> None ->
  store_wf (finishPending s id st r).
Proof.
  intros Hwf Hst Hr. destruct (finishPending_cases s id st r) as [->|(e & He & Hn & _ & ->)]; [done|].
  apply finishLocked_wf; try done. unfold outcome_ok. simpl. by destruct Hst as [-> | ->].
Qed.

Lemma finishClaimed_wf s id st r :
  store_wf s -> (st = StateDenied /\ Err r <> None \/ st = StateApproved /\ Err r = None) ->
  store_wf (finishClaimed s id st r).1.
Proof.
  intros Hwf Hst. destruct (finishClaimed_cases s id st r) as [->|(e & He & Hn & _ & ->)]; [done|].
  apply finishLocked_wf; try done. unfold outcome_ok. simpl. by destruct Hst as [[-> ?]|[-> ?]].
Qed.

Lemma claimApproval_wf s id : store_wf s -> store_wf (claimApproval s id).1.
Proof.
  intros Hwf. destruct (claimApproval_cases s id) as [->|(e & He & Hn & Hs & ->)]; [done|].
  apply (replace_entry_wf s id e); done.
Qed.

Lemma waitResult_wf s id : store_wf s -> store_wf (waitResult s id).1.
Proof.
  intros Hwf. unfold waitResult. destruct (txs s !! id) as [e|] eqn:He; [|done].
  destruct (result e) as [r|] eqn:Er; simpl.
  - destruct Hwf as [H1 H2 H3 H4 H6 H5]. constructor; simpl; try done.
    + intros j e' Hj. destruct (H3 j e' Hj) as (c & Hc & ? & ?). exists c. simpl.
      rewrite lookup_insert_ne; [done|]. apply H4 in Hc. lia.
    + apply map_Forall_insert_2; [lia|]. intros ch c Hc. apply H4 in Hc. lia.
    + apply map_Forall_insert_2; [simpl; lia|done].
  - apply (replace_entry_wf s id e); try done. pose proof (sw_outcome s Hwf id e He) as Ho.
    unfold outcome_ok in *. simpl. by rewrite Er in Ho.
Qed.

Lemma receive_wf s ch s' r : store_wf s -> receive s ch = Some (s', r) -> store_wf s'.
Proof.
  intros [H1 H2 H3 H4 H6 H5]. unfold receive. destruct (chans s !! ch) as [c|] eqn:Ec; [|done].
  destruct (buf c) as [|r' rest] eqn:Eb; [case_match; [|done]; by intros [= <- <-]|].
  intros [= <- <-]. constructor; simpl; try done.
  - intros j e Hj. destruct (H3 j e Hj) as (c' & Hc' & Ht & Hn). unfold chan_ok. simpl.
    destruct (decide (resultCh e = ch)) as [<-|]; [|exists c'; by rewrite lookup_insert_ne].
    exists (mkChan rest (closed c) (ch_tx c)). simpl. rewrite lookup_insert_eq. simplify_eq.
    split_and!; try done. intros [_ ?]%Hn. congruence.
  - apply map_Forall_insert_2; [|done]. by apply H4 in Ec.
  - apply map_Forall_insert_2; [|done]. apply H6 in Ec. rewrite Eb in Ec. simpl in *. lia.
Qed.

Lemma cancelWait_wf s id : store_wf s -> store_wf (cancelWait s id).
Proof.
  intros Hwf. unfold cancelWait. destruct (txs s !! id) as [e|] eqn:He; [|done].
  destruct (_ <=? _); [by apply delete_entry_wf|]. apply (replace_entry_wf s id e); try done.
  exact (sw_outcome s Hwf id e He).
Qed.

Lemma set_leases_wf s l : store_wf s -> store_wf (set_leases s l).
Proof. intros [H1 H2 H3 H4 H6 H5]. by constructor. Qed.

(** ** Approving and reusing leases, sequentially *)

Section behaviour.
Context `{HashLib, SshLib, !Sign.CertIssuer Ks.Keystore}.

Lemma issue_ext s s' k clock t until :
  cfg s' = cfg s -> issuer s' = issuer s -> keySigner s' = keySigner s ->
  issueForTransaction s' k clock t until = issueForTransaction s k clock t until.
Proof. intros E1 E2 E3. unfold issueForTransaction, signerMode. by rewrite E1, E2, E3. Qed.

(** The lifetime [Approve] uses. *)
Definition approve_ttl (ttl : Z) : Z := if ttl <=? 0 then DefaultDevCertTTL else ttl.

(** The timer of a decided transaction, if it had one. *)
Definition stopped (t : option bool) : option bool := match t with Some _ => Some false | None => None end.

(** What [Approve] does to a pending transaction. *)
Lemma Approve_pending s k now clock id e ttl who :
  store_wf s -> txs s !! id = Some e -> tx_State (tx e) = StatePending ->
  let t := set_State StateApproving (tx e) in
  let until := now + approve_ttl ttl in
  let s' := Approve k now clock s id ttl who in
  let final r stt := exists e', txs s' !! id = Some e' /\ tx e' = set_State stt (tx e) /\ result e' = Some r /\
    timer e' = stopped (timer e) /\ waiters e' = waiters e /\ exists s'', receive s' (resultCh e) = Some (s'', r) in
  (forall j, j <> id -> txs s' !! j = txs s !! j) /\
  match issueForTransaction s k clock t until with
  | Ok res =>
      final (set_LeaseExpiresAt until res) StateApproved /\
      leases s' = match leases s with
                  | Some l => Some (if lease_wanted s t who
                                    then Lease.Put l (Lease.NewFullKey (tx_lookup t) who) until else l)
                  | None => None
                  end
  | Prelude.Err er => final (errResult er) StateDenied /\ leases s' = leases s
  end.
Proof.
  intros Hwf He Hst t until s' final.
  assert (Er : result e = None).
  { pose proof (sw_outcome s Hwf id e He) as Ho. unfold outcome_ok in Ho. simpl in Ho.
    rewrite Hst in Ho. by destruct (result e). }
  set (e1 := mkEntry t None (resultCh e) (timer e) (waiters e)).
  set (s1 := set_txs s (<[id := e1]> (txs s))).
  assert (Hclaim : claimApproval s id = (s1, Some t)).
  { unfold claimApproval. rewrite He. rewrite (proj2 (guard_state e StatePending)) by done. by rewrite Er. }
  assert (Hwf1 : store_wf s1) by (by apply (replace_entry_wf s id e)).
  assert (He1 : txs s1 !! id = Some e1) by apply lookup_insert_eq.
  assert (Hfin : forall stt r, finishClaimed s1 id stt r = (finishLocked s1 id e1 stt r, true)).
  { intros stt r. unfold finishClaimed. rewrite He1. by rewrite (proj2 (guard_state e1 StateApproving)). }
  assert (Hspec : forall stt r s2, (exists l, s2 = set_leases (finishLocked s1 id e1 stt r) l) \/ s2 = finishLocked s1 id e1 stt r ->
    (forall j, j <> id -> txs s2 !! j = txs s !! j) /\
    exists e', txs s2 !! id = Some e' /\ tx e' = set_State stt (tx e) /\ result e' = Some r /\
      timer e' = stopped (timer e) /\ waiters e' = waiters e /\ exists s'', receive s2 (resultCh e) = Some (s'', r)).
  { intros stt r s2 Hs2. rewrite (finishLocked_spec s1 id e1 stt r Hwf1 He1 eq_refl) in Hs2.
    assert (Ht2 : txs s2 = <[id := mkEntry (set_State stt t) (Some r) (resultCh e)
        (match timer e with Some _ => Some false | None => None end) (waiters e)]> (txs s1))
      by (destruct Hs2 as [[l ->]| ->]; done).
    assert (Hc2 : chans s2 = <[resultCh e := mkChan [r] false id]> (chans s1))
      by (destruct Hs2 as [[l ->]| ->]; done).
    split; [intros j Hj; rewrite Ht2; simpl; by rewrite !lookup_insert_ne|].
    eexists. rewrite Ht2, lookup_insert_eq. split_and!; try done.
    unfold receive. rewrite Hc2, lookup_insert_eq. simpl. by eexists. }
  unfold final, s', Approve, approveWithIssuer, approver_step. fold (approve_ttl ttl). rewrite Hclaim.
  change (Add now (approve_ttl ttl)) with until. rewrite (issue_ext s s1) by done.
  destruct (issueForTransaction s k clock t until) as [res|er]; rewrite Hfin.
  - set (r := set_LeaseExpiresAt until res). set (s2 := finishLocked s1 id e1 StateApproved r).
    assert (Hl2 : leases s2 = leases s) by (unfold s2; by rewrite (finishLocked_spec s1 id e1 _ _ Hwf1 He1)).
    assert (Hlw : lease_wanted s2 t who = lease_wanted s t who) by (unfold lease_wanted; by rewrite Hl2).
    rewrite Hlw. destruct (lease_wanted s t who) eqn:Ew; simpl.
    + rewrite Hl2. destruct (leases s) as [l|] eqn:El.
      * destruct (Hspec StateApproved r (set_leases s2 (Some (Lease.Put l (Lease.NewFullKey (tx_lookup t) who) until))))
          as [Ho Hf]; [left; by eexists|]. by split_and!.
      * unfold lease_wanted in Ew. by rewrite El in Ew.
    + destruct (Hspec StateApproved r s2) as [Ho Hf]; [by right|]. rewrite Hl2.
      split_and!; try done. by destruct (leases s).
  - simpl. destruct (Hspec StateDenied (errResult er) (finishLocked s1 id e1 StateDenied (errResult er)))
      as [Ho Hf]; [by right|].
    split_and!; try done. by rewrite (finishLocked_spec s1 id e1 _ _ Hwf1 He1).
Qed.

(** What [Approve] does otherwise. *)
Lemma Approve_refused s k now clock id ttl who :
  (forall e, txs s !! id = Some e -> tx_State (tx e) <> StatePending) -> Approve k now clock s id ttl who = s.
Proof.
  intros Hn. unfold Approve, approveWithIssuer, approver_step, claimApproval.
  destruct (txs s !! id) as [e|]; [|done]. rewrite (bool_decide_false (tx_State (tx e) = StatePending)) by (by apply Hn).
  by rewrite orb_true_r.
Qed.

(** C21: what an approval does, run alone, on every branch.  Of a pending transaction: when the
    credential is issued the transaction becomes approved, its channel delivers exactly that
    credential with the lease deadline, and a lease until the same instant is recorded when (and
    only when) the conditions for one hold; when issuing fails the transaction becomes denied with
    that error and no lease is recorded.  Either way its timer is stopped and its waiters are kept.
    An identifier that is unknown, or whose transaction is already claimed or decided, changes
    nothing, and no other transaction is ever touched. *)
Theorem approve_behaviour s k now clock id ttl who :
  store_wf s ->
  let s' := Approve k now clock s id ttl who in
  (forall j, j <> id -> txs s' !! j = txs s !! j) /\
  match txs s !! id with
  | None => s' = s
  | Some e =>
      let t := set_State StateApproving (tx e) in
      let until := now + approve_ttl ttl in
      let final r stt := exists e', txs s' !! id = Some e' /\ tx e' = set_State stt (tx e) /\ result e' = Some r /\
        timer e' = stopped (timer e) /\ waiters e' = waiters e /\ exists s'', receive s' (resultCh e) = Some (s'', r) in
      if negb (bool_decide (tx_State (tx e) = StatePending)) then s' = s else
      match issueForTransaction s k clock t until with
      | Ok res =>
          final (set_LeaseExpiresAt until res) StateApproved /\
          leases s' = match leases s with
                      | Some l => Some (if lease_wanted s t who
                                        then Lease.Put l (Lease.NewFullKey (tx_lookup t) who) until else l)
                      | None => None
                      end
      | Prelude.Err er => final (errResult er) StateDenied /\ leases s' = leases s
      end
  end.
Proof.
  intros Hwf s'. destruct (txs s !! id) as [e|] eqn:He.
  - destruct (bool_decide_reflect (tx_State (tx e) = StatePending)) as [Hp|Hp]; cbn [negb].
    + exact (Approve_pending s k now clock id e ttl who Hwf He Hp).
    + assert (E : s' = s) by (apply Approve_refused; naive_solver). by rewrite E.
  - assert (E : s' = s) by (apply Approve_refused; naive_solver). by rewrite E.
Qed.

(** the lease fast path signs only under a live lease: it answers with a credential only if a
    lease for exactly this lookup key is active, reports that lease's own expiry, and the
    credential ends no later than the lease plus the time that passed between the two clock
    readings of the call. *)
Theorem fast_path_needs_lease `{!Sign.CertIssuerLaws Ks.Keystore} s l k t_find t_rem now clock lookup pub data host r :
  leases s = Some l -> Lease.reachable l ->
  IssueFromLease k t_find t_rem now clock s lookup pub data host = (r, true) ->
  exists full al, Lease.holds l full al /\ Lease.lookup_key full = lookup /\ t_find <= Lease.ExpiresAt al /\
    LeaseExpiresAt r = Lease.ExpiresAt al /\ Err r = None /\
    now < ExpiresAt r <= Lease.ExpiresAt al + (now - t_rem).
Proof.
  intros Hl Hr Hi. unfold IssueFromLease in Hi. rewrite Hl in Hi.
  destruct (Lease.FindActive t_find l lookup) as [al []] eqn:Ef; [|done]. simpl in Hi.
  apply Lease.FindActive_sound in Ef as (full & Hlk & Hh & Ht); [|by apply Lease.lease_reachable_wf].
  destruct (_ <=? 0) eqn:Erem; [done|]. bool_prop.
  destruct (issueForTransaction _ _ _ _ _) as [res|] eqn:Ei; [|done]. simplify_eq/=.
  assert (Hres : Err res = None /\ ExpiresAt res = now + Lease.Remaining t_rem al).
  { revert Ei. unfold issueForTransaction. destruct (_ =s _).
    - destruct (_ =s _); [done|]. destruct (negb _); [done|]. intros Ei. inv_ok.
      destruct (_ =s _); [done|]. by inv_ok.
    - destruct (negb _); [done|]. intros (x & Hx & [= <-])%bind_ok. simpl. split; [done|].
      exact (Sign.issue_expiry _ _ _ _ Hx). }
  destruct Hres as [He Hx]. exists full, al. split_and!; try done; simpl; rewrite Hx; [lia|].
  unfold Lease.Remaining, Sub, min_int64, max_int64 in *. destruct (_ <? 0) eqn:E0; bool_prop; lia.
Qed.

End behaviour.

End Appr.
