(* ===== verification/ApprovalSys.v ===== *)
(** * The approval store under concurrency

    Approvers (Telegram, mobile, the development bypass), waiters, timers, the lease sweeper and
    keystore changes interleave freely; each atomic phase of [Approval] is one step.  Ghost
    components record what happened: the approval calls made, the transactions denied or expired
    while pending, the credentials granted, and the identifiers used. *)

From S2P Require Import Prelude GoTime GoStrings GoEncoding External Fingerprint LeaseStore Keystore Signing Config Approval.

Module Sys.
Import Appr.

(** A goroutine inside [Wait]. *)
Inductive waiter :=
| WBlocked (txID : string) (ch : nat)
| WReceived (txID : string) (r : Result)
| WDone (txID : string) (out : Prelude.result Result).

(** Ghost: a credential that left the issuer, from an approval or from a lease. *)
Inductive grant :=
| GApproved (txID : string) (t : Transaction) (until : Z) (who : string) (r : Result)
| GLease (txID : string) (lookup : Lease.LookupKey) (r : Result).

Definition grant_id (g : grant) : string :=
  match g with GApproved id _ _ _ _ | GLease id _ _ => id end.
Definition grant_res (g : grant) : Result :=
  match g with GApproved _ _ _ _ r | GLease _ _ r => r end.

Section sys.
Context `{HashLib, SshLib, !Sign.CertIssuer Ks.Keystore}.

Record Sys := mkSys {
  st : Store;
  ks : Ks.Keystore;
  approvers : list approver;
  waits : list waiter;
  issued : list (Lease.LookupKey * Result);   (* ghost: results of [IssueFromLease] *)
  grants : list grant;                        (* ghost *)
  calls : list (string * string);             (* ghost: transaction and approver of each call *)
  denied : list string;                       (* ghost: settled while pending *)
  used : gset string                          (* ghost: identifiers handed out *)
}.

Definition with_st (y : Sys) (s : Store) : Sys :=
  mkSys s (ks y) (approvers y) (waits y) (issued y) (grants y) (calls y) (denied y) (used y).
Definition with_waits (y : Sys) (w : list waiter) : Sys :=
  mkSys (st y) (ks y) (approvers y) w (issued y) (grants y) (calls y) (denied y) (used y).
Definition with_approvers (y : Sys) (a : list approver) : Sys :=
  mkSys (st y) (ks y) a (waits y) (issued y) (grants y) (calls y) (denied y) (used y).
Definition with_ks (y : Sys) (k : Ks.Keystore) : Sys :=
  mkSys (st y) k (approvers y) (waits y) (issued y) (grants y) (calls y) (denied y) (used y).
Definition with_issued (y : Sys) (l : list (Lease.LookupKey * Result)) : Sys :=
  mkSys (st y) (ks y) (approvers y) (waits y) l (grants y) (calls y) (denied y) (used y).
Definition with_grants (y : Sys) (g : list grant) : Sys :=
  mkSys (st y) (ks y) (approvers y) (waits y) (issued y) g (calls y) (denied y) (used y).
Definition with_calls (y : Sys) (c : list (string * string)) : Sys :=
  mkSys (st y) (ks y) (approvers y) (waits y) (issued y) (grants y) c (denied y) (used y).
Definition with_denied (y : Sys) (d : list string) : Sys :=
  mkSys (st y) (ks y) (approvers y) (waits y) (issued y) (grants y) (calls y) d (used y).
Definition with_used (y : Sys) (u : gset string) : Sys :=
  mkSys (st y) (ks y) (approvers y) (waits y) (issued y) (grants y) (calls y) (denied y) u.

(** An approver goroutine starts. *)
Definition spawn (y : Sys) (txID : string) (ttl : Z) (who : string) : Sys :=
  with_calls (with_approvers y (approvers y ++ [ACall txID ttl who])) (calls y ++ [(txID, who)]).

(** The grant an approver's phase produces, if any. *)
Definition granted (s : Store) (a : approver) : list grant :=
  match a with
  | AIssued txID t until (Ok r) who =>
      let r := set_LeaseExpiresAt until r in
      if (finishClaimed s txID StateApproved r).2 then [GApproved txID t until who r] else []
  | _ => []
  end.

(** Whether a pending transaction is settled by a denial or its timer. *)
Definition settles (s : Store) (txID : string) : bool :=
  match txs s !! txID with
  | Some e => negb (bool_decide (result e <> None) || negb (bool_decide (tx_State (tx e) = StatePending)))
  | None => false
  end.

Inductive step : Sys -> Sys -> Prop :=
| s_create y ulid now user ip pub src fp data host dst meta s t ch dev :
    newTxID ulid ∉ used y ->
    CreateBound ulid now (st y) user ip pub src fp data host dst meta = (s, t, ch, dev) ->
    let y' := with_used (with_st y s) ({[ID t]} ∪ used y) in
    step y (if dev then spawn y' (ID t) DefaultDevCertTTL "" else y')
| s_approve y txID ttl who :
    step y (spawn y txID (if ttl <=? 0 then DefaultDevCertTTL else ttl) who)
| s_approver y i a now clock s a' :
    approvers y !! i = Some a -> approver_step (ks y) now clock (st y) a = (s, a') ->
    step y (with_grants (with_approvers (with_st y s) (<[i := a']> (approvers y)))
              (grants y ++ granted (st y) a))
| s_deny y txID :
    step y (with_denied (with_st y (Deny (st y) txID))
              (if settles (st y) txID then txID :: denied y else denied y))
| s_expire y txID :
    step y (with_denied (with_st y (expire (st y) txID))
              (if settles (st y) txID then txID :: denied y else denied y))
| s_lease y t_find t_rem now clock lookup pub data host r :
    IssueFromLease (ks y) t_find t_rem now clock (st y) lookup pub data host = (r, true) ->
    step y (with_issued y ((lookup, r) :: issued y))
| s_instant y ulid now lookup pub r s t :
    newTxID ulid ∉ used y -> (lookup, r) ∈ issued y ->
    CreateInstantApproved ulid now (st y) (Lease.TargetUser lookup) (Lease.TargetIP lookup)
      pub (Lease.SourceIP lookup) (Lease.ClientCertFP lookup) r = (s, t) ->
    step y (with_grants (with_used (with_st y s) ({[ID t]} ∪ used y))
              (grants y ++ [GLease (ID t) lookup r]))
| s_wait y txID s w :
    waitResult (st y) txID = (s, w) ->
    step y (with_waits (with_st y s)
              (waits y ++ [match w with Some ch => WBlocked txID ch
                           | None => WDone txID (Prelude.Err ErrNotFound) end]))
| s_receive y i txID ch s r :
    waits y !! i = Some (WBlocked txID ch) -> receive (st y) ch = Some (s, r) ->
    step y (with_waits (with_st y s) (<[i := WReceived txID r]> (waits y)))
| s_return y i txID r :
    waits y !! i = Some (WReceived txID r) ->
    step y (with_waits (with_st y (remove (st y) txID))
              (<[i := WDone txID (match Err r with Some e => Prelude.Err e | None => Ok r end)]> (waits y)))
| s_cancel y i txID ch e :
    waits y !! i = Some (WBlocked txID ch) ->
    step y (with_waits (with_st y (cancelWait (st y) txID)) (<[i := WDone txID (Prelude.Err e)]> (waits y)))
| s_keystore y k : Ks.step (ks y) k -> step y (with_ks y k)
| s_purge y now l order :
    leases (st y) = Some l -> iteration_of (Lease.leases l) order ->
    step y (with_st y (set_leases (st y) (Some (Lease.purge_loop now l order)))).

(** The state [serve] builds: any configuration, nothing in flight. *)
Definition initial (y : Sys) : Prop :=
  exists timeout c iss sg (withLeases : bool) mode,
    y = mkSys (SetLeases (SetKeySigner (SetIssuer (SetConfig (NewStore timeout) c) iss) sg)
                 (if withLeases then Some Lease.NewStore else None))
          (Ks.NewWithMode mode) [] [] [] [] [] [] ∅.

Definition reachable (y : Sys) : Prop := exists y0, initial y0 /\ rtc step y0 y.

Lemma reachable_inv (P : Sys -> Prop) y :
  (forall y0, initial y0 -> P y0) -> (forall a b, step a b -> P a -> P b) -> reachable y -> P y.
Proof. intros H0' Hs (y0 & Hi & Hr). apply (rtc_invariant step P y0 y Hs Hr). by apply H0'. Qed.

(** ** The store stays well formed *)

Lemma issue_ok s k clock t until r :
  issueForTransaction s k clock t until = Ok r -> Err r = None.
Proof.
  unfold issueForTransaction. intros Hr. repeat case_match; try done; inv_ok; try case_match; inv_ok; done.
Qed.

(** Results of successful issues have no error, wherever they are on their way. *)
Definition results_ok (y : Sys) : Prop :=
  (forall i txID t until r who, approvers y !! i = Some (AIssued txID t until (Ok r) who) -> Err r = None) /\
  (forall lookup r, (lookup, r) ∈ issued y -> Err r = None).

Lemma lease_issue_ok k t1 t2 t3 t4 s lookup pub data host r :
  IssueFromLease k t1 t2 t3 t4 s lookup pub data host = (r, true) -> Err r = None.
Proof.
  unfold IssueFromLease. intros Hr. repeat (case_match; simplify_eq/=). by eapply issue_ok.
Qed.

Lemma list_insert_Some {A} (l : list A) i j x z :
  <[i := x]> l !! j = Some z -> (i = j /\ z = x) \/ (i <> j /\ l !! j = Some z).
Proof. intros Hl. apply list_lookup_insert_Some in Hl. naive_solver. Qed.

Lemma snoc_Some {A} (l : list A) x j z :
  (l ++ [x]) !! j = Some z -> l !! j = Some z \/ (j = length l /\ z = x).
Proof. intros [?|[? Hx]]%lookup_app_Some; [by left|]. apply list_lookup_singleton_Some in Hx as [? <-]. right. split; [lia|done]. Qed.

Lemma approver_step_wf k now clock s a s' a' :
  store_wf s -> (forall txID t until r who, a = AIssued txID t until (Ok r) who -> Err r = None) ->
  approver_step k now clock s a = (s', a') ->
  store_wf s' /\ (forall txID t until r who, a' = AIssued txID t until (Ok r) who -> Err r = None).
Proof.
  intros Hwf Hr Hs. destruct a as [txID ttl who|txID t ttl who|txID t until res who|t until who|]; simpl in Hs.
  - pose proof (claimApproval_wf s txID Hwf) as Hc.
    destruct (claimApproval s txID) as [s1 [t|]]; simplify_eq/=; by split.
  - simplify_eq/=. split; [done|]. intros. simplify_eq. by eapply issue_ok.
  - destruct res as [r|e]; simplify_eq/=.
    + pose proof (finishClaimed_wf s txID StateApproved (set_LeaseExpiresAt until r) Hwf) as Hc.
      specialize (Hc ltac:(right; split; [done|exact (Hr _ _ _ _ _ eq_refl)])).
      destruct (finishClaimed _ _ _ _) as [s1 []]; simplify_eq/=; (split; [done|]); repeat case_match; done.
    + split; [|done]. apply finishClaimed_wf; [done|]. by left.
  - simplify_eq/=. split; [|done]. case_match; [by apply set_leases_wf|done].
  - by simplify_eq/=.
Qed.

Lemma CreateBound_inv ulid now s user ip pub src fp data host dst meta s' t ch dev :
  CreateBound ulid now s user ip pub src fp data host dst meta = (s', t, ch, dev) ->
  s' = add_entry s t None [] false (Some true) /\ ID t = newTxID ulid /\ tx_State t = StatePending /\
  DisableLease t = cm_DisableLease meta.
Proof. unfold CreateBound. by intros [= <- <- _ _]. Qed.

Lemma CreateInstant_inv ulid now s user ip pub src fp r s' t :
  CreateInstantApproved ulid now s user ip pub src fp r = (s', t) ->
  s' = add_entry s t (Some r) [r] true None /\ ID t = newTxID ulid /\ tx_State t = StateApproved.
Proof. unfold CreateInstantApproved. by intros [= <- <-]. Qed.

Definition inv_store (y : Sys) : Prop := store_wf (st y) /\ results_ok y.

Lemma inv_store_initial y : initial y -> inv_store y.
Proof.
  intros (tm & c & iss & sg & b & m & ->). split; [|split; [done|set_solver]].
  apply set_leases_wf. constructor; simpl; [apply map_Forall_empty..|done].
Qed.

Lemma results_ok_same y y' :
  approvers y' = approvers y -> issued y' = issued y -> results_ok y -> results_ok y'.
Proof. unfold results_ok. by intros -> ->. Qed.

Lemma results_ok_spawn y y' id ttl who :
  approvers y' = approvers y ++ [ACall id ttl who] -> issued y' = issued y -> results_ok y -> results_ok y'.
Proof.
  intros Ha Hi [H1' H2']. split; [|by rewrite Hi]. rewrite Ha.
  intros i txID t until r w [Hl|[_ Hx]]%snoc_Some; [eauto|done].
Qed.

Lemma inv_store_step y y' : step y y' -> inv_store y -> inv_store y'.
Proof.
  intros Hs [Hwf Hres]. inversion Hs; subst; clear Hs; simpl.
  - match goal with Hx : CreateBound _ _ _ _ _ _ _ _ _ _ _ _ = _ |- _ =>
      apply CreateBound_inv in Hx as (-> & _ & Hp & _) end.
    assert (Hw : store_wf (add_entry (st y) t None [] false (Some true))).
    { apply add_entry_wf; try done; [|simpl; lia]. unfold outcome_ok. simpl. by rewrite Hp. }
    destruct dev; (split; [exact Hw|]); [by eapply results_ok_spawn|by apply (results_ok_same y)].
  - split; [done|]. by eapply results_ok_spawn.
  - destruct Hres as [Ha Hi].
    match goal with Hx : approver_step _ _ _ _ _ = _ |- _ =>
      eapply approver_step_wf in Hx as [Hw Hr]; [|done|intros; subst; eauto] end.
    split; [done|]. split; [|done]. simpl.
    intros j txID t until r who [[<- Hx]|[? ?]]%list_insert_Some; [by eapply Hr|eauto].
  - split; [by apply finishPending_wf; auto|done].
  - split; [by apply finishPending_wf; auto|done].
  - split; [done|]. destruct Hres as [Ha Hi]. split; [done|]. simpl.
    intros l r' [?|?]%elem_of_cons; simplify_eq; [by eapply lease_issue_ok|eauto].
  - match goal with Hx : CreateInstantApproved _ _ _ _ _ _ _ _ _ = _ |- _ =>
      apply CreateInstant_inv in Hx as (-> & _ & Hp) end. split; [|done].
    apply add_entry_wf; try done. destruct Hres as [_ Hi]. unfold outcome_ok. simpl. rewrite Hp. eauto.
  - split; [|done]. simpl. pose proof (waitResult_wf (st y) txID Hwf) as Hw.
    match goal with Hx : waitResult _ _ = _ |- _ => by rewrite Hx in Hw end.
  - split; [by eapply receive_wf|done].
  - split; [by apply delete_entry_wf|done].
  - split; [by apply cancelWait_wf|done].
  - by split.
  - split; [by apply set_leases_wf|done].
Qed.

Lemma reachable_store y : reachable y -> inv_store y.
Proof. apply reachable_inv; [apply inv_store_initial|apply inv_store_step]. Qed.

(** ** Claims: one approver at a time, one outcome *)

(** The approver has claimed the transaction and not finished it. *)
Definition holder (a : approver) (id : string) (t : Transaction) : Prop :=
  match a with
  | AClaimed id' t' _ _ | AIssued id' t' _ _ _ => id' = id /\ t' = t
  | _ => False
  end.

Definition held (y : Sys) (id : string) : Prop :=
  exists i a t, approvers y !! i = Some a /\ holder a id t.

(** Decided for good: no claim is open and any entry left has its outcome. *)
Definition settled (y : Sys) (id : string) : Prop :=
  id ∈ used y /\ ~ held y id /\ (forall e, txs (st y) !! id = Some e -> result e <> None).

Record inv_claim (y : Sys) : Prop := mk_inv_claim {
  c_used : forall id e, txs (st y) !! id = Some e -> id ∈ used y;
  c_hold : forall i a id t, approvers y !! i = Some a -> holder a id t ->
    id ∈ used y /\ tx_State t = StateApproving /\ ID t = id /\
    (forall e, txs (st y) !! id = Some e -> result e = None /\ tx e = t);
  c_uniq : forall i j a b id t u, approvers y !! i = Some a -> approvers y !! j = Some b ->
    holder a id t -> holder b id u -> i = j;
  c_denied : forall id, id ∈ denied y -> settled y id /\ (forall g, g ∈ grants y -> grant_id g <> id);
  c_granted : forall g, g ∈ grants y -> settled y (grant_id g);
  c_once : NoDup (map grant_id (grants y))
}.

(** Steps that open no claim: holders stay where they are, and an entry either keeps its
    transaction and outcome, or gets an outcome with no claim left, or is new. *)
Record settling (y y' : Sys) : Prop := mk_settling {
  q_used : used y ⊆ used y';
  q_hold : forall i a id t, approvers y' !! i = Some a -> holder a id t ->
    exists a0, approvers y !! i = Some a0 /\ holder a0 id t;
  q_txs : forall id e', txs (st y') !! id = Some e' ->
    (exists e, txs (st y) !! id = Some e /\ tx e' = tx e /\ result e' = result e) \/
    (id ∈ used y' /\ ((result e' <> None /\ ~ held y' id) \/ id ∉ used y))
}.

Lemma settling_settled y y' id : settling y y' -> settled y id -> settled y' id.
Proof.
  intros [Hu Hh Ht] (H1' & H2' & H3'). split_and!; [set_solver| |].
  - intros (i & a & t & Ha & Hold). destruct (Hh i a id t Ha Hold) as (a0 & ? & ?). apply H2'. by exists i, a0, t.
  - intros e' He'. destruct (Ht id e' He') as [(e & He & _ & ->)|[_ [[? _]|?]]]; [eauto|done|done].
Qed.

Lemma inv_claim_settling y y' :
  settling y y' -> inv_claim y ->
  (forall id, id ∈ denied y' -> id ∈ denied y \/ settled y' id) ->
  (forall id g, id ∈ denied y' -> g ∈ grants y' -> grant_id g = id -> id ∈ denied y /\ g ∈ grants y) ->
  (exists new, grants y' = grants y ++ new /\
     Forall (fun g => settled y' (grant_id g) /\ ~ settled y (grant_id g)) new /\ NoDup (map grant_id new)) ->
  inv_claim y'.
Proof.
  intros Hq [C1 C2 C3 C4 C5 C6] Hd Hdg (new & Hg & Hnew & Hnd).
  pose proof (fun id => settling_settled y y' id Hq) as Hset. destruct Hq as [Hu Hh Ht].
  rewrite Forall_forall in Hnew. constructor.
  - intros id e' He'. destruct (Ht id e' He') as [(e & He & _)|[? _]]; [|done]. apply Hu. by eapply C1.
  - intros i a id t Ha Hold. destruct (Hh i a id t Ha Hold) as (a0 & Ha0 & Hold0).
    destruct (C2 i a0 id t Ha0 Hold0) as (? & ? & ? & He). split_and!; try done; [set_solver|].
    intros e' He'. destruct (Ht id e' He') as [(e & He0 & -> & ->)|[_ [[_ Hx]|?]]]; [eauto| |done].
    exfalso. apply Hx. by exists i, a, t.
  - intros i j a b id t u Ha Hb Hoa Hob.
    destruct (Hh i a id t Ha Hoa) as (a0 & ? & ?), (Hh j b id u Hb Hob) as (b0 & ? & ?). by eapply C3.
  - intros id Hid. split.
    + destruct (Hd id Hid) as [Hx|?]; [|done]. apply Hset. by apply C4.
    + intros g Hgin Heq. destruct (Hdg id g Hid Hgin Heq) as [Hx Hy]. by eapply (C4 id Hx).
  - intros g Hgin. rewrite Hg in Hgin. apply elem_of_app in Hgin as [Hx|Hx]; [by apply Hset, C5|].
    by apply Hnew in Hx as [? _].
  - rewrite Hg, map_app. apply NoDup_app. split; [done|]. split; [|done].
    intros id Hx Hy. apply list_elem_of_fmap in Hx as (g & -> & Hx), Hy as (g' & Heq & Hy).
    apply Hnew in Hy as [_ Hy]. apply Hy. rewrite <- Heq. by apply C5.
Qed.

(** Steps that leave the ghost history alone. *)
Lemma inv_claim_quiet y y' :
  used y' = used y -> grants y' = grants y -> denied y' = denied y ->
  (forall i a id t, approvers y' !! i = Some a -> holder a id t ->
     exists a0, approvers y !! i = Some a0 /\ holder a0 id t) ->
  (forall id e', txs (st y') !! id = Some e' ->
     exists e, txs (st y) !! id = Some e /\ tx e' = tx e /\ result e' = result e) ->
  inv_claim y -> inv_claim y'.
Proof.
  intros Hu Hg Hd Hh Ht Hinv. eapply inv_claim_settling; [|exact Hinv| | |].
  - constructor; [by rewrite Hu|done|]. intros id e' He'. left. eauto.
  - rewrite Hd. by left.
  - rewrite Hd, Hg. done.
  - exists []. rewrite app_nil_r. split_and!; [done|constructor|constructor].
Qed.

(** Each entry of the new store is one of the old, up to its waiter count. *)
Definition txs_same (s s' : Store) : Prop :=
  forall id e', txs s' !! id = Some e' ->
    exists e, txs s !! id = Some e /\ tx e' = tx e /\ result e' = result e.

Lemma txs_same_refl s s' : txs s' = txs s -> txs_same s s'.
Proof. intros E id e'. rewrite E. eauto. Qed.

Lemma txs_same_delete s id : txs_same s (set_txs s (delete id (txs s))).
Proof. intros j e' Hj. simpl in Hj. apply lookup_delete_Some in Hj as [_ Hj]. eauto. Qed.

Lemma txs_same_replace s id e e' :
  txs s !! id = Some e -> tx e' = tx e -> result e' = result e ->
  txs_same s (set_txs s (<[id := e']> (txs s))).
Proof.
  intros He Ht Hr j x Hj. simpl in Hj. apply lookup_insert_Some in Hj as [[<- <-]|[_ Hj]]; eauto.
Qed.

Lemma waitResult_same s id s' w : waitResult s id = (s', w) -> txs_same s s'.
Proof.
  unfold waitResult. destruct (txs s !! id) as [e|] eqn:He; [|intros [= <- <-]; by apply txs_same_refl].
  destruct (result e) eqn:Er; intros [= <- <-]; [by apply txs_same_refl|].
  by apply (txs_same_replace s id e).
Qed.

Lemma receive_same s ch s' r : receive s ch = Some (s', r) -> txs_same s s'.
Proof.
  unfold receive. intros Hr. repeat (case_match; simplify_eq/=); by apply txs_same_refl.
Qed.

Lemma cancelWait_same s id : txs_same s (cancelWait s id).
Proof.
  unfold cancelWait. destruct (txs s !! id) as [e|] eqn:He; [|by apply txs_same_refl].
  case_match; [apply txs_same_delete|by apply (txs_same_replace s id e)].
Qed.

(** The transactions after [finishLocked]. *)
Lemma finishLocked_txs s id e stt r :
  store_wf s -> txs s !! id = Some e -> result e = None ->
  (exists e', txs (finishLocked s id e stt r) !! id = Some e' /\ result e' = Some r /\ tx e' = set_State stt (tx e)) /\
  (forall j, j <> id -> txs (finishLocked s id e stt r) !! j = txs s !! j).
Proof.
  intros Hwf He Hr. rewrite (finishLocked_spec s id e stt r Hwf He Hr). simpl. split.
  - eexists. by rewrite lookup_insert_eq.
  - intros j Hj. by rewrite lookup_insert_ne.
Qed.

Lemma pending_not_held y id e :
  inv_claim y -> txs (st y) !! id = Some e -> tx_State (tx e) = StatePending -> ~ held y id.
Proof.
  intros Hc He Hs (i & a & t & Ha & Hold). destruct (c_hold y Hc i a id t Ha Hold) as (_ & Ht & _ & Hx).
  destruct (Hx e He) as [_ <-]. congruence.
Qed.

(** A denial, or the timer. *)
Lemma inv_claim_finishPending y id stt r :
  inv_store y -> inv_claim y ->
  inv_claim (with_denied (with_st y (finishPending (st y) id stt r))
               (if settles (st y) id then id :: denied y else denied y)).
Proof.
  intros [Hwf _] Hc. unfold settles, finishPending.
  destruct (txs (st y) !! id) as [e|] eqn:He; [|by destruct y].
  destruct (_ || _) eqn:Eg; [by destruct y|]. apply guard_state in Eg as [Er Es]. simpl.
  pose proof (pending_not_held y id e Hc He Es) as Hnh.
  destruct (finishLocked_txs (st y) id e stt r Hwf He Er) as [(e' & He' & Hr' & _) Hother].
  assert (Hns : ~ settled y id). { intros (_ & _ & Hx). by apply (Hx e He). }
  assert (Hset : settled (with_denied (with_st y (finishLocked (st y) id e stt r)) (id :: denied y)) id).
  { split_and!; [exact (c_used y Hc id e He)|done|]. simpl. intros x Hx. rewrite He' in Hx. simplify_eq. congruence. }
  eapply inv_claim_settling; [|exact Hc| | |].
  - constructor; simpl; [done|eauto|]. intros j x Hx.
    destruct (decide (j = id)) as [->|Hne]; [|rewrite Hother in Hx by done; left; eauto].
    right. rewrite He' in Hx. simplify_eq. split; [exact (c_used y Hc id e He)|]. left. split; [congruence|done].
  - simpl. intros j [->|?]%elem_of_cons; [by right|by left].
  - simpl. intros j g [->|Hj]%elem_of_cons Hg Heq; [|done].
    exfalso. apply Hns. rewrite <- Heq. by apply (c_granted y Hc).
  - exists []. rewrite app_nil_r. split_and!; [done|constructor|constructor].
Qed.

(** A new transaction, pending or already approved from a lease. *)
Lemma inv_claim_create y t r b c tm new :
  ID t ∉ used y -> inv_claim y -> (new = [] \/ exists g, new = [g] /\ grant_id g = ID t /\ r <> None) ->
  inv_claim (with_grants (with_used (with_st y (add_entry (st y) t r b c tm)) ({[ID t]} ∪ used y))
               (grants y ++ new)).
Proof.
  intros Hf Hc Hnew.
  assert (Hnh : ~ held y (ID t)).
  { intros (i & a & u & Ha & Hold). by destruct (c_hold y Hc i a _ u Ha Hold). }
  eapply inv_claim_settling; [|exact Hc| | |]; simpl.
  - constructor; simpl; [set_solver|eauto|].
    intros j x [[<- <-]|[_ Hj]]%lookup_insert_Some; [|left; eauto]. right. split; [set_solver|by right].
  - by left.
  - intros j g Hj [?|Hg]%elem_of_app Heq; [done|]. exfalso.
    destruct Hnew as [->|(g' & -> & Hid & _)]; [set_solver|].
    apply list_elem_of_singleton in Hg as ->. destruct (c_denied y Hc j Hj) as [[? _] _]. congruence.
  - exists new. split; [done|]. destruct Hnew as [->|(g & -> & Hid & Hr)]; [by split; constructor|].
    split; [|apply NoDup_singleton]. constructor; [|constructor]. rewrite Hid. split.
    + split_and!; simpl; [set_solver|done|]. intros e He. rewrite lookup_insert_eq in He. by simplify_eq.
    + by intros [? _].
Qed.

(** Replacing an approver by one that holds nothing new. *)
Lemma replaced_holder y i a a' :
  approvers y !! i = Some a -> (forall id t, holder a' id t -> holder a id t) ->
  forall j b id t, <[i := a']> (approvers y) !! j = Some b -> holder b id t ->
    exists b0, approvers y !! j = Some b0 /\ holder b0 id t.
Proof. intros Ha Hh j b id t [[<- ->]|[_ Hj]]%list_insert_Some Hb; eauto. Qed.

(** After the holder at [i] lets go, nobody holds its transaction. *)
Lemma let_go y y' i a a' id t :
  inv_claim y -> approvers y !! i = Some a -> holder a id t -> (forall j u, ~ holder a' j u) ->
  approvers y' = <[i := a']> (approvers y) -> ~ held y' id.
Proof.
  intros Hc Ha Hold Hno Happ (j & b & u & Hb & Hob). rewrite Happ in Hb.
  apply list_insert_Some in Hb as [[<- ->]|[Hne Hb]]; [by eapply Hno|].
  apply Hne. by eapply (c_uniq y Hc i j a b id t u).
Qed.

(** The claiming phase. *)
Lemma inv_claim_claim y i txID ttl who e :
  inv_store y -> inv_claim y -> approvers y !! i = Some (ACall txID ttl who) ->
  txs (st y) !! txID = Some e -> result e = None -> tx_State (tx e) = StatePending ->
  let t := set_State StateApproving (tx e) in
  let e' := mkEntry t None (resultCh e) (timer e) (waiters e) in
  inv_claim (with_grants (with_approvers (with_st y (set_txs (st y) (<[txID := e']> (txs (st y)))))
               (<[i := AClaimed txID t ttl who]> (approvers y))) (grants y)).
Proof.
  intros [Hwf _] Hc Ha He Er Es t e'.
  pose proof (pending_not_held y txID e Hc He Es) as Hnh.
  assert (Hset : forall id, settled y id ->
            settled (with_grants (with_approvers (with_st y (set_txs (st y) (<[txID := e']> (txs (st y)))))
               (<[i := AClaimed txID t ttl who]> (approvers y))) (grants y)) id).
  { intros id (Hu & Hh & Hx). assert (id <> txID) by (intros ->; by apply (Hx e He)).
    split_and!; [done| |].
    - intros (j & b & u & Hb & Hob). simpl in Hb. apply list_insert_Some in Hb as [[<- ->]|[_ Hb]];
        [simpl in Hob; naive_solver|]. apply Hh. by exists j, b, u.
    - simpl. intros x Hx'. rewrite lookup_insert_ne in Hx' by done. eauto. }
  destruct Hc as [C1 C2 C3 C4 C5 C6]. constructor; simpl.
  - intros id x [[<- <-]|[_ Hx]]%lookup_insert_Some; eauto.
  - intros j b id u [[<- ->]|[_ Hb]]%list_insert_Some Hob.
    + simpl in Hob. destruct Hob as [<- <-]. split_and!; [eauto|done|by apply (sw_id _ Hwf)|].
      intros x Hx. rewrite lookup_insert_eq in Hx. by simplify_eq.
    + destruct (C2 j b id u Hb Hob) as (? & ? & ? & Hx). split_and!; try done.
      intros x [[<- <-]|[_ Hx']]%lookup_insert_Some; [|eauto]. exfalso. apply Hnh. by exists j, b, u.
  - intros j k b c id u v [[<- ->]|[? Hb]]%list_insert_Some [[<- ->]|[? Hk]]%list_insert_Some Hob Hoc.
    + done.
    + simpl in Hob. destruct Hob as [<- _]. exfalso. apply Hnh. by exists k, c, v.
    + simpl in Hoc. destruct Hoc as [<- _]. exfalso. apply Hnh. by exists j, b, u.
    + by eapply C3.
  - intros id Hid. destruct (C4 id Hid) as [? ?]. split; [by apply Hset|done].
  - intros g Hg. by apply Hset, C5.
  - done.
Qed.

(** The finishing phase: the holder settles its transaction, with or without a grant. *)
Lemma inv_claim_finish y i a a' id t e stt r new :
  inv_store y -> inv_claim y -> approvers y !! i = Some a -> holder a id t ->
  (forall j u, ~ holder a' j u) -> txs (st y) !! id = Some e -> result e = None ->
  (new = [] \/ exists g, new = [g] /\ grant_id g = id) ->
  inv_claim (with_grants (with_approvers (with_st y (finishLocked (st y) id e stt r))
               (<[i := a']> (approvers y))) (grants y ++ new)).
Proof.
  intros [Hwf _] Hc Ha Hold Hno He Er Hnew.
  set (y' := with_grants _ _).
  assert (Hnh : ~ held y' id) by (by eapply (let_go y y' i a a')).
  destruct (finishLocked_txs (st y) id e stt r Hwf He Er) as [(e' & He' & Hr' & _) Hother].
  assert (Hns : ~ settled y id). { intros (_ & _ & Hx). by apply (Hx e He). }
  assert (Hset : settled y' id).
  { split_and!; [exact (c_used y Hc id e He)|done|]. simpl. intros x Hx. rewrite He' in Hx. simplify_eq. congruence. }
  eapply inv_claim_settling; [|exact Hc| | |]; simpl.
  - constructor; simpl; [done| |].
    + apply (replaced_holder y i a a' Ha). intros j u Hx. by apply Hno in Hx.
    + intros j x Hx. destruct (decide (j = id)) as [->|Hne]; [|rewrite Hother in Hx by done; left; eauto].
      right. rewrite He' in Hx. simplify_eq. split; [exact (c_used y Hc id e He)|].
      left. split; [congruence|done].
  - by left.
  - intros j g Hj [?|Hg]%elem_of_app Heq; [done|]. exfalso.
    destruct Hnew as [->|(g' & -> & Hid)]; [set_solver|].
    apply list_elem_of_singleton in Hg as ->. apply Hns. rewrite <- Hid, Heq. by apply (c_denied y Hc).
  - exists new. split; [done|]. destruct Hnew as [->|(g & -> & Hid)]; [by split; constructor|].
    split; [|apply NoDup_singleton]. constructor; [|constructor]. by rewrite Hid.
Qed.

(** A phase that changes neither transactions nor claims. *)
Lemma inv_claim_idle y i a a' s new :
  inv_claim y -> approvers y !! i = Some a -> (forall id t, holder a' id t -> holder a id t) ->
  txs s = txs (st y) -> new = [] ->
  inv_claim (with_grants (with_approvers (with_st y s) (<[i := a']> (approvers y))) (grants y ++ new)).
Proof.
  intros Hc Ha Hh Ht ->. eapply inv_claim_quiet; [..|exact Hc]; simpl; try done.
  - by rewrite app_nil_r.
  - by apply (replaced_holder y i a).
  - intros id e'. rewrite Ht. eauto.
Qed.

Lemma inv_claim_approver y i a now clock s a' :
  inv_store y -> inv_claim y -> approvers y !! i = Some a ->
  approver_step (ks y) now clock (st y) a = (s, a') ->
  inv_claim (with_grants (with_approvers (with_st y s) (<[i := a']> (approvers y)))
               (grants y ++ granted (st y) a)).
Proof.
  intros Hst Hc Ha Hs.
  destruct a as [txID ttl who|txID t ttl who|txID t until res who|t until who|]; simpl in Hs.
  - destruct (claimApproval_cases (st y) txID) as [Hcl|(e & He & Er & Es & Hcl)]; rewrite Hcl in Hs; simplify_eq.
    + apply (inv_claim_idle y i (ACall txID ttl who)); done.
    + simpl. rewrite app_nil_r. by apply inv_claim_claim.
  - simplify_eq. apply (inv_claim_idle y i (AClaimed txID t ttl who)); done.
  - assert (Hstep : forall stt r, let '(s1, ok) := finishClaimed (st y) txID stt r in
      forall b new, (forall j u, ~ holder b j u) -> new = (if ok then new else []) ->
      (new = [] \/ exists g, new = [g] /\ grant_id g = txID) ->
      inv_claim (with_grants (with_approvers (with_st y s1) (<[i := b]> (approvers y))) (grants y ++ new))).
    { intros stt r. destruct (finishClaimed_cases (st y) txID stt r) as [->|(e & He & Er & Es & ->)].
      - intros b new Hb Hn _. apply (inv_claim_idle y i (AIssued txID t until res who)); try done.
        intros j u Hx. by apply Hb in Hx.
      - intros b new Hb _ Hn. by apply (inv_claim_finish y i (AIssued txID t until res who) b txID t). }
    destruct res as [r|er].
    + specialize (Hstep StateApproved (set_LeaseExpiresAt until r)). simpl.
      destruct (finishClaimed _ _ _ _) as [s1 [|]]; simplify_eq/=.
      * apply Hstep; [intros j u; destruct (lease_wanted _ _ _); by intros []|done|]. right. eexists. by split.
      * apply Hstep; [by intros j u []|done|by left].
    + specialize (Hstep StateDenied (errResult er)). simpl.
      destruct (finishClaimed _ _ _ _) as [s1 ok]; simplify_eq/=. apply Hstep; [by intros j u []| |by left]. by destruct ok.
  - simplify_eq. apply (inv_claim_idle y i (APut t until who)); try done. by destruct (leases (st y)).
  - simplify_eq. apply (inv_claim_idle y i AExit); done.
Qed.

Lemma inv_claim_step y y' : step y y' -> inv_store y /\ inv_claim y -> inv_store y' /\ inv_claim y'.
Proof.
  intros Hs [Hst Hc]. split; [by eapply inv_store_step|].
  assert (Hspawn : forall y id ttl who, inv_claim y -> inv_claim (spawn y id ttl who)).
  { intros z id ttl who Hz. eapply inv_claim_quiet; [..|exact Hz]; simpl; try done; [|eauto].
    intros j b id' t' [Hb|[_ ->]]%snoc_Some Hob; [eauto|done]. }
  inversion Hs; subst; clear Hs.
  - match goal with Hx : CreateBound _ _ _ _ _ _ _ _ _ _ _ _ = _ |- _ =>
      apply CreateBound_inv in Hx as (-> & Hid & _ & _) end.
    assert (Hy : inv_claim (with_used (with_st y (add_entry (st y) t None [] false (Some true))) ({[ID t]} ∪ used y))).
    { pose proof (inv_claim_create y t None [] false (Some true) []) as Hx. rewrite app_nil_r in Hx.
      apply Hx; [by rewrite Hid|done|by left]. }
    subst y'0. destruct dev; [by apply Hspawn|done].
  - by apply Hspawn.
  - by apply inv_claim_approver with (now := now) (clock := clock).
  - by apply inv_claim_finishPending.
  - by apply inv_claim_finishPending.
  - eapply inv_claim_quiet; [..|exact Hc]; simpl; eauto.
  - match goal with Hx : CreateInstantApproved _ _ _ _ _ _ _ _ _ = _ |- _ =>
      apply CreateInstant_inv in Hx as (-> & Hid & _) end.
    apply inv_claim_create; [by rewrite Hid|done|]. right. eexists. by split.
  - eapply inv_claim_quiet; [..|exact Hc]; simpl; eauto. by eapply waitResult_same.
  - eapply inv_claim_quiet; [..|exact Hc]; simpl; eauto. by eapply receive_same.
  - eapply inv_claim_quiet; [..|exact Hc]; simpl; eauto. apply txs_same_delete.
  - eapply inv_claim_quiet; [..|exact Hc]; simpl; eauto. apply cancelWait_same.
  - eapply inv_claim_quiet; [..|exact Hc]; simpl; eauto.
  - eapply inv_claim_quiet; [..|exact Hc]; simpl; eauto.
Qed.

Lemma reachable_claim y : reachable y -> inv_store y /\ inv_claim y.
Proof.
  apply (reachable_inv (fun y => inv_store y /\ inv_claim y)); [|apply inv_claim_step].
  intros y0 Hi. split; [by apply inv_store_initial|].
  destruct Hi as (tm & c & iss & sg & b & m & ->).
  constructor; simpl; try set_solver. constructor.
Qed.

(** ** Where credentials and leases come from *)

Context `{!Sign.CertIssuerLaws Ks.Keystore}.

(** The guard of the lease in [approveWithIssuer]. *)
Definition lease_cond (t : Transaction) (who : string) : Prop :=
  who <> "" /\ ClientCertFP t <> "" /\ DisableLease t = false.

(** An approval by [who] that allows leases was granted for this lookup key until [until]. *)
Definition origin (gs : list grant) (lookup : Lease.LookupKey) (who : string) (until : Z) : Prop :=
  exists id t r, GApproved id t until who r ∈ gs /\ lease_cond t who /\ tx_lookup t = lookup.

Definition approver_ok (cs : list (string * string)) (gs : list grant) (a : approver) : Prop :=
  match a with
  | ACall id _ who | AClaimed id _ _ who => (id, who) ∈ cs
  | AIssued id t until res who =>
      (id, who) ∈ cs /\ (forall r, res = Ok r -> Err r = None /\ ExpiresAt r = until)
  | APut t until who => (exists id r, GApproved id t until who r ∈ gs) /\ lease_cond t who
  | AExit => True
  end.

Definition grant_ok (cs : list (string * string)) (gs : list grant) (g : grant) : Prop :=
  match g with
  | GApproved id t until who r =>
      (id, who) ∈ cs /\ Err r = None /\ LeaseExpiresAt r = until /\ ExpiresAt r = until
  | GLease id lookup r => Err r = None /\ exists who, origin gs lookup who (LeaseExpiresAt r)
  end.

Definition lease_ok (gs : list grant) (l : Lease.Store) : Prop :=
  Lease.reachable l /\
  forall full al, Lease.holds l full al ->
    origin gs (Lease.lookup_key full) (Lease.Approver full) (Lease.ExpiresAt al).

Record inv_prov (y : Sys) : Prop := mk_inv_prov {
  p_approvers : Forall (approver_ok (calls y) (grants y)) (approvers y);
  p_grants : Forall (grant_ok (calls y) (grants y)) (grants y);
  p_leases : forall l, leases (st y) = Some l -> lease_ok (grants y) l;
  p_issued : Forall (fun lr => Err lr.2 = None /\ exists who, origin (grants y) lr.1 who (LeaseExpiresAt lr.2)) (issued y)
}.

Lemma origin_mono gs gs' lookup who until : gs ⊆ gs' -> origin gs lookup who until -> origin gs' lookup who until.
Proof. intros Hs (id & t & r & Hg & ?). exists id, t, r. split; [by apply Hs|done]. Qed.

Lemma approver_ok_mono cs cs' gs gs' a :
  cs ⊆ cs' -> gs ⊆ gs' -> approver_ok cs gs a -> approver_ok cs' gs' a.
Proof.
  intros Hc Hg. destruct a; simpl; try (by auto); [naive_solver|].
  intros [(id & r & ?) ?]. split; [|done]. exists id, r. by apply Hg.
Qed.

Lemma grant_ok_mono cs cs' gs gs' g : cs ⊆ cs' -> gs ⊆ gs' -> grant_ok cs gs g -> grant_ok cs' gs' g.
Proof.
  intros Hc Hg. destruct g; simpl; [naive_solver|]. intros [? [who ?]]. split; [done|]. exists who.
  by eapply origin_mono.
Qed.

(** The history only grows: it is enough to check what a step adds. *)
Lemma inv_prov_grow y y' :
  inv_prov y -> calls y ⊆ calls y' -> grants y ⊆ grants y' ->
  (forall a, a ∈ approvers y' -> a ∈ approvers y \/ approver_ok (calls y') (grants y') a) ->
  (forall g, g ∈ grants y' -> g ∈ grants y \/ grant_ok (calls y') (grants y') g) ->
  (forall l, leases (st y') = Some l -> leases (st y) = Some l \/ lease_ok (grants y') l) ->
  (forall lr, lr ∈ issued y' -> lr ∈ issued y \/
     (Err lr.2 = None /\ exists who, origin (grants y') lr.1 who (LeaseExpiresAt lr.2))) ->
  inv_prov y'.
Proof.
  intros [P1 P2 P3 P4] Hc Hg Ha Hgr Hl Hi. rewrite Forall_forall in P1. rewrite Forall_forall in P2.
  rewrite Forall_forall in P4.
  constructor; rewrite ?Forall_forall.
  - intros a [Hx|?]%Ha; [|done]. eapply approver_ok_mono; eauto.
  - intros g [Hx|?]%Hgr; [|done]. eapply grant_ok_mono; eauto.
  - intros l [Hx|?]%Hl; [|done]. destruct (P3 l Hx) as [Hr Hh]. split; [done|].
    intros full al Hfull. eapply origin_mono; eauto.
  - intros lr [Hx|?]%Hi; [|done]. destruct (P4 lr Hx) as [? [who ?]]. split; [done|]. exists who.
    eapply origin_mono; eauto.
Qed.

Lemma lease_put_ok gs l key until :
  lease_ok gs l -> origin gs (Lease.lookup_key key) (Lease.Approver key) until ->
  lease_ok gs (Lease.Put l key until).
Proof.
  intros [Hr Hh] Ho. split; [eapply rtc_r; [exact Hr|apply Lease.step_put]|].
  intros full al. unfold Lease.holds, Lease.Put. simpl.
  intros [[<- <-]|[_ Hx]]%lookup_insert_Some; [done|by apply Hh].
Qed.

Lemma lease_purge_ok gs l now order :
  lease_ok gs l -> iteration_of (Lease.leases l) order -> lease_ok gs (Lease.purge_loop now l order).
Proof.
  intros [Hr Hh] Ho. split; [eapply rtc_r; [exact Hr|by apply Lease.step_purge]|].
  intros full al. unfold Lease.holds. rewrite Lease.purge_order_leases by done.
  destruct (Lease.leases l !! full) eqn:E; [|done]. case_match; [done|]. intros [= <-]. by apply Hh.
Qed.

Lemma issue_until s k clock t until r :
  issueForTransaction s k clock t until = Ok r -> ExpiresAt r = until.
Proof.
  unfold issueForTransaction. intros Hr. case_match.
  - destruct (AgentSignData t =s ""); [done|]. destruct (negb (keySigner s)); [done|]. inv_ok.
    destruct (HostKeyFingerprint t =s ""); [done|]. by inv_ok.
  - case_match; [done|]. apply bind_ok in Hr as (res & Hx & [= <-]). exact (Sign.issue_expiry _ _ _ _ Hx).
Qed.

Lemma list_insert_elem {A} (l : list A) i x z : z ∈ <[i := x]> l -> z = x \/ z ∈ l.
Proof.
  intros [j Hj]%list_elem_of_lookup. apply list_insert_Some in Hj as [[_ ->]|[_ Hj]]; [by left|].
  right. by eapply list_elem_of_lookup_2.
Qed.

Lemma lease_wanted_cond s t who : lease_wanted s t who = true -> lease_cond t who.
Proof. unfold lease_wanted, lease_cond. intros. by str_prop. Qed.

(** One phase of an approver. *)
Lemma approver_prov y i a now clock s a' :
  inv_prov y -> approvers y !! i = Some a ->
  approver_step (ks y) now clock (st y) a = (s, a') ->
  let gs := grants y ++ granted (st y) a in
  approver_ok (calls y) gs a' /\ Forall (grant_ok (calls y) gs) (granted (st y) a) /\
  (forall l, leases s = Some l -> leases (st y) = Some l \/ lease_ok gs l).
Proof.
  intros [P1 _ P3 _] Ha Hs gs. rewrite Forall_forall in P1.
  pose proof (P1 a (list_elem_of_lookup_2 _ _ _ Ha)) as Hok.
  assert (Hfin : forall id stt r, leases (finishClaimed (st y) id stt r).1 = leases (st y)).
  { intros id stt r. unfold finishClaimed, finishLocked. by repeat case_match. }
  destruct a as [txID ttl who|txID t ttl who|txID t until res who|t until who|]; simpl in Hs, Hok.
  - destruct (claimApproval_cases (st y) txID) as [Hcl|(e & _ & _ & _ & Hcl)]; rewrite Hcl in Hs;
      simplify_eq/=; split_and!; auto; constructor.
  - simplify_eq/=. split; [|split; [constructor|auto]]. split; [done|]. intros r Hr.
    split; [by eapply issue_ok|by eapply issue_until].
  - destruct Hok as [Hcall Hres]. destruct res as [r|e].
    + subst gs. simpl. specialize (Hfin txID StateApproved (set_LeaseExpiresAt until r)).
      destruct (Hres r eq_refl) as [He Hu].
      destruct (finishClaimed _ _ _ _) as [s1 [|]]; simplify_eq/=.
      * split; [|split; [by repeat constructor|rewrite Hfin; auto]].
        destruct (lease_wanted s t who) eqn:Ew; simpl; [|done].
        split; [|by eapply lease_wanted_cond]. eexists txID, _. apply elem_of_app. right. by left.
      * split_and!; [done|constructor|rewrite Hfin; auto].
    + simplify_eq/=. rewrite Hfin. split_and!; [done|constructor|auto].
  - destruct Hok as [(id & r & Hg) Hcond]. simplify_eq/=. split_and!; [done|constructor|].
    destruct (leases (st y)) as [l0|] eqn:El; [|rewrite El; auto].
    simpl. intros l [= <-]. right. subst gs. rewrite app_nil_r. apply lease_put_ok; [by apply P3|].
    by exists id, t, r.
  - simplify_eq/=. split_and!; [done|constructor|auto].
Qed.

Lemma inv_prov_step y y' : step y y' -> inv_prov y -> inv_prov y'.
Proof.
  intros Hs Hp.
  assert (Hsame : forall z, calls z = calls y -> grants z = grants y -> approvers z = approvers y ->
    issued z = issued y -> leases (st z) = leases (st y) -> inv_prov z).
  { intros z E1 E2 E3 E4 E5. apply (inv_prov_grow y); rewrite ?E1, ?E2, ?E3, ?E4, ?E5; auto. }
  assert (Hspawn : forall z id ttl who, inv_prov z -> inv_prov (spawn z id ttl who)).
  { intros z id ttl who Hz. apply (inv_prov_grow z); simpl; auto; [set_solver|].
    intros a [?|Ha%list_elem_of_singleton]%elem_of_app; [by left|]. subst a. right. simpl. set_solver. }
  assert (Hfin : forall id stt r, leases (finishPending (st y) id stt r) = leases (st y)).
  { intros id stt r. unfold finishPending, finishLocked. by repeat case_match. }
  inversion Hs; subst; clear Hs.
  - match goal with Hx : CreateBound _ _ _ _ _ _ _ _ _ _ _ _ = _ |- _ =>
      apply CreateBound_inv in Hx as (-> & _) end.
    subst y'0. destruct dev; [apply Hspawn|]; by apply Hsame.
  - by apply Hspawn.
  - match goal with Hx : approver_step _ _ _ _ _ = _ |- _ =>
      destruct (approver_prov y i a now clock s a' Hp ltac:(done) Hx) as (Ha' & Hg & Hl) end.
    apply (inv_prov_grow y); simpl; auto; [set_solver| |].
    + intros b [->|?]%list_insert_elem; auto.
    + intros g [?|Hx]%elem_of_app; [by left|]. right. rewrite Forall_forall in Hg. by apply Hg.
  - apply Hsame; simpl; auto. apply Hfin.
  - apply Hsame; simpl; auto. apply Hfin.
  - apply (inv_prov_grow y); simpl; auto. intros lr [->|?]%elem_of_cons; [right|by left]. simpl.
    match goal with Hx : IssueFromLease _ _ _ _ _ _ _ _ _ _ = _ |- _ =>
      split; [by eapply lease_issue_ok|]; unfold IssueFromLease in Hx end.
    destruct (leases (st y)) as [l|] eqn:El; [|done].
    destruct (Lease.FindActive t_find l lookup) as [act []] eqn:Ef; [|done]. simpl in *.
    destruct (_ <=? 0); [done|]. destruct (issueForTransaction _ _ _ _ _); [|done]. simplify_eq/=.
    destruct (p_leases y Hp l El) as [Hr Hh].
    apply Lease.FindActive_sound in Ef as (full & <- & Hhold & _); [|by apply Lease.lease_reachable_wf].
    exists (Lease.Approver full). by apply Hh.
  - match goal with Hx : CreateInstantApproved _ _ _ _ _ _ _ _ _ = _ |- _ =>
      apply CreateInstant_inv in Hx as (-> & _) end.
    apply (inv_prov_grow y); simpl; auto; [set_solver|].
    intros g [?|Hg%list_elem_of_singleton]%elem_of_app; [by left|]. subst g. right. simpl.
    pose proof (p_issued y Hp) as Hi. rewrite Forall_forall in Hi.
    match goal with Hx : _ ∈ issued y |- _ => destruct (Hi _ Hx) as [? [who ?]] end.
    split; [done|]. exists who. eapply origin_mono; [|done]. set_solver.
  - apply Hsame; simpl; auto. match goal with Hx : waitResult _ _ = _ |- _ => revert Hx end.
    unfold waitResult. repeat case_match; by intros [= <- <-].
  - apply Hsame; simpl; auto. match goal with Hx : receive _ _ = _ |- _ => revert Hx end.
    unfold receive. repeat case_match; try done; by intros [= <- <-].
  - by apply Hsame.
  - apply Hsame; simpl; auto. unfold cancelWait. by repeat case_match.
  - by apply Hsame.
  - apply (inv_prov_grow y); simpl; auto. intros l' [= <-]. right. apply lease_purge_ok; [|done].
    by apply (p_leases y Hp).
Qed.

Lemma reachable_prov y : reachable y -> inv_prov y.
Proof.
  apply reachable_inv; [|apply inv_prov_step].
  intros y0 (tm & c & iss & sg & b & m & ->). constructor; simpl; try constructor.
  - destruct b; simplify_eq. apply rtc_refl.
  - intros full al. destruct b; simplify_eq. unfold Lease.holds. simpl. by rewrite lookup_empty.
Qed.

(** ** What waiters can receive *)

Definition released (gs : list grant) (id : string) (r : Result) : Prop :=
  Err r = None -> exists g, g ∈ gs /\ grant_id g = id /\ grant_res g = r.

Definition waiter_ok (gs : list grant) (w : waiter) : Prop :=
  match w with
  | WReceived id r => released gs id r
  | WDone id (Ok r) => Err r = None /\ released gs id r
  | _ => True
  end.

Record inv_wait (y : Sys) : Prop := mk_inv_wait {
  w_entry : forall id e r, txs (st y) !! id = Some e -> result e = Some r -> released (grants y) id r;
  w_chan : forall ch c r, chans (st y) !! ch = Some c -> r ∈ buf c -> released (grants y) (ch_tx c) r;
  w_blocked : forall i id ch, waits y !! i = Some (WBlocked id ch) ->
    exists c, chans (st y) !! ch = Some c /\ ch_tx c = id /\ (closed c = true -> buf c <> []);
  w_alone : forall i j id id' ch c, waits y !! i = Some (WBlocked id ch) ->
    waits y !! j = Some (WBlocked id' ch) -> chans (st y) !! ch = Some c -> closed c = true -> i = j;
  w_done : Forall (waiter_ok (grants y)) (waits y)
}.

Lemma released_mono gs gs' id r : gs ⊆ gs' -> released gs id r -> released gs' id r.
Proof. intros Hs Hr He. destruct (Hr He) as (g & ? & ?). exists g. split; [by apply Hs|done]. Qed.

Lemma waiter_ok_mono gs gs' w : gs ⊆ gs' -> waiter_ok gs w -> waiter_ok gs' w.
Proof. intros Hs. destruct w as [| |? []]; simpl; try naive_solver eauto using released_mono. Qed.

(** Steps that keep transactions' outcomes, channels and waiters. *)
Lemma inv_wait_quiet y y' :
  txs_same (st y) (st y') -> chans (st y') = chans (st y) -> waits y' = waits y -> grants y ⊆ grants y' ->
  inv_wait y -> inv_wait y'.
Proof.
  intros Ht Hch Hw Hg [W1 W2 W3 W4 W5]. constructor; rewrite ?Hch, ?Hw; try done.
  - intros id e r He Hr. destruct (Ht id e He) as (e0 & He0 & _ & Hr0). rewrite Hr0 in Hr.
    eapply released_mono; eauto.
  - intros ch c r Hc Hr. eapply released_mono; eauto.
  - eapply Forall_impl; [exact W5|]. intros w. by apply waiter_ok_mono.
Qed.

(** A transaction gets its outcome. *)
Lemma inv_wait_finish y y' id e stt r :
  inv_store y -> inv_wait y -> txs (st y) !! id = Some e -> result e = None ->
  st y' = finishLocked (st y) id e stt r -> waits y' = waits y -> grants y ⊆ grants y' ->
  released (grants y') id r -> inv_wait y'.
Proof.
  intros [Hwf _] [W1 W2 W3 W4 W5] He Er Hst Hw Hg Hrel.
  destruct (sw_chan _ Hwf id e He) as (c0 & Hc0 & Ht0 & Hn0). destruct (Hn0 Er) as [Hcl0 Hb0].
  rewrite (finishLocked_spec (st y) id e stt r Hwf He Er) in Hst. constructor; rewrite ?Hst, ?Hw; simpl.
  - intros j x r' [[<- <-]|[_ Hj]]%lookup_insert_Some Hr'; simplify_eq/=; [done|].
    eapply released_mono; eauto.
  - intros ch c r' [[<- <-]|[_ Hc]]%lookup_insert_Some Hr'; simpl in *.
    + by apply list_elem_of_singleton in Hr' as ->.
    + eapply released_mono; eauto.
  - intros i id' ch Hi. destruct (W3 i id' ch Hi) as (c & Hc & Ht & Hcl).
    destruct (decide (ch = resultCh e)) as [->|]; [|exists c; by rewrite lookup_insert_ne].
    eexists. rewrite lookup_insert_eq. split; [done|]. simpl. split; [congruence|done].
  - intros i j id1 id2 ch c Hi Hj [[<- <-]|[_ Hc]]%lookup_insert_Some Hcl; [done|]. by eapply W4.
  - eapply Forall_impl; [exact W5|]. intros w. by apply waiter_ok_mono.
Qed.

(** A new transaction with its own channel. *)
Lemma inv_wait_add y y' t r b c tm :
  inv_store y -> inv_wait y -> st y' = add_entry (st y) t r b c tm -> waits y' = waits y ->
  grants y ⊆ grants y' -> (forall r', r = Some r' \/ r' ∈ b -> released (grants y') (ID t) r') ->
  inv_wait y'.
Proof.
  intros [Hwf _] [W1 W2 W3 W4 W5] Hst Hw Hg Hrel.
  assert (Hf : forall ch c0, chans (st y) !! ch = Some c0 -> next_ch (st y) <> ch).
  { intros ch c0 Hc0. apply (sw_fresh _ Hwf) in Hc0. lia. }
  constructor; rewrite ?Hst, ?Hw; simpl.
  - intros j x r' [[<- <-]|[_ Hj]]%lookup_insert_Some Hr'; simplify_eq/=; [eauto|].
    eapply released_mono; eauto.
  - intros ch c0 r' [[<- <-]|[_ Hc]]%lookup_insert_Some Hr'; simpl in *; [eauto|].
    eapply released_mono; eauto.
  - intros i id' ch Hi. destruct (W3 i id' ch Hi) as (c0 & Hc0 & ?). exists c0.
    by rewrite lookup_insert_ne by eauto.
  - intros i j id1 id2 ch c0 Hi Hj [[<- <-]|[_ Hc]]%lookup_insert_Some Hcl; [|by eapply W4].
    destruct (W3 i id1 _ Hi) as (c1 & Hc1 & _). by apply Hf in Hc1.
  - eapply Forall_impl; [exact W5|]. intros w. by apply waiter_ok_mono.
Qed.

(** A waiter that is not blocked replaces another one. *)
Lemma inv_wait_replace y s i w :
  inv_wait y -> txs_same (st y) s -> chans s = chans (st y) -> waiter_ok (grants y) w ->
  (forall id ch, w <> WBlocked id ch) -> inv_wait (with_waits (with_st y s) (<[i := w]> (waits y))).
Proof.
  intros [W1 W2 W3 W4 W5] Ht Hch Hok Hnb. constructor; simpl; rewrite ?Hch; try done.
  - intros id e r He Hr. destruct (Ht id e He) as (e0 & He0 & _ & Hr0). rewrite Hr0 in Hr. eauto.
  - intros j id ch [[_ Hx]|[_ Hj]]%list_insert_Some; [by destruct (Hnb id ch)|eauto].
  - intros j k id1 id2 ch c [[_ Hx]|[_ Hj]]%list_insert_Some [[_ Hy]|[_ Hk]]%list_insert_Some;
      [by destruct (Hnb id1 ch)..|by destruct (Hnb id2 ch)|eauto].
  - apply Forall_forall. intros z [->|Hz]%list_insert_elem; [done|]. rewrite Forall_forall in W5. by apply W5.
Qed.

(** A waiter enters. *)
Lemma inv_wait_enter y txID s w :
  inv_store y -> inv_wait y -> waitResult (st y) txID = (s, w) ->
  inv_wait (with_waits (with_st y s)
    (waits y ++ [match w with Some ch => WBlocked txID ch | None => WDone txID (Prelude.Err ErrNotFound) end])).
Proof.
  intros [Hwf _] [W1 W2 W3 W4 W5] Hw. pose proof (waitResult_same _ _ _ _ Hw) as Ht.
  assert (H1' : forall id e r, txs s !! id = Some e -> result e = Some r -> released (grants y) id r).
  { intros id e r He Hr. destruct (Ht id e He) as (e0 & ? & _ & Hr0). rewrite Hr0 in Hr. eauto. }
  assert (H5' : forall w', waiter_ok (grants y) w' -> Forall (waiter_ok (grants y)) (waits y ++ [w'])).
  { intros w' Hw'. apply Forall_app. split; [done|]. by repeat constructor. }
  unfold waitResult in Hw. destruct (txs (st y) !! txID) as [e|] eqn:He.
  2:{ simplify_eq. constructor; simpl; auto.
      - intros i id ch [Hi|[_ ?]]%snoc_Some; [eauto|done].
      - intros i j id1 id2 ch c [Hi|[_ ?]]%snoc_Some [Hj|[_ ?]]%snoc_Some Hc Hcl;
          [by eapply W4|done..].
      - by apply H5'. }
  destruct (result e) as [r|] eqn:Er; simplify_eq.
  - assert (Hf : forall ch c0, chans (st y) !! ch = Some c0 -> next_ch (st y) <> ch).
    { intros ch c0 Hc0. apply (sw_fresh _ Hwf) in Hc0. lia. }
    constructor; simpl; auto.
    + intros ch c r' [[<- <-]|[_ Hc]]%lookup_insert_Some Hr'; simpl in *; [|eauto].
      apply list_elem_of_singleton in Hr' as ->. by eapply W1.
    + intros i id ch [Hi|[_ [= -> ->]]]%snoc_Some.
      * destruct (W3 i id ch Hi) as (c & Hc & ?). exists c. by rewrite lookup_insert_ne by eauto.
      * eexists. by rewrite lookup_insert_eq.
    + intros i j id1 id2 ch c [Hi|[-> Hx]]%snoc_Some [Hj|[-> Hy]]%snoc_Some Hc Hcl; simplify_eq; try done.
      * destruct (W3 i id1 ch Hi) as (c1 & Hc1 & _). rewrite lookup_insert_ne in Hc by eauto.
        exact (W4 _ _ _ _ _ _ Hi Hj Hc Hcl).
      * destruct (W3 i id1 _ Hi) as (c1 & Hc1 & _). by apply Hf in Hc1.
      * destruct (W3 j id2 _ Hj) as (c1 & Hc1 & _). by apply Hf in Hc1.
    + by apply H5'.
  - destruct (sw_chan _ Hwf txID e He) as (c0 & Hc0 & Ht0 & Hn0). destruct (Hn0 Er) as [Hcl0 _].
    constructor; simpl; auto.
    + intros i id ch [Hi|[_ [= -> ->]]]%snoc_Some; [eauto|]. exists c0. split_and!; try done. congruence.
    + intros i j id1 id2 ch c [Hi|[-> Hx]]%snoc_Some [Hj|[-> Hy]]%snoc_Some Hc Hcl; simplify_eq; try done;
        [exact (W4 _ _ _ _ _ _ Hi Hj Hc Hcl)|congruence..].
    + by apply H5'.
Qed.

(** A waiter takes a value. *)
Lemma inv_wait_receive y i txID ch s r :
  inv_wait y -> waits y !! i = Some (WBlocked txID ch) -> receive (st y) ch = Some (s, r) ->
  inv_wait (with_waits (with_st y s) (<[i := WReceived txID r]> (waits y))).
Proof.
  intros [W1 W2 W3 W4 W5] Hi Hr. pose proof (receive_same _ _ _ _ Hr) as Ht.
  destruct (W3 i txID ch Hi) as (c & Hc & Hid & Hcl). unfold receive in Hr. rewrite Hc in Hr.
  destruct (buf c) as [|r0 rest] eqn:Eb.
  { destruct (closed c); [|done]. by destruct (Hcl eq_refl). }
  simplify_eq. constructor; simpl.
  - intros id e r' He Hr'. destruct (Ht id e He) as (e0 & ? & _ & Hr0). rewrite Hr0 in Hr'. eauto.
  - intros ch' c' r' [[<- <-]|[_ Hc']]%lookup_insert_Some Hr'; simpl in *; [|eauto].
    eapply W2; [exact Hc|]. rewrite Eb. by right.
  - intros j id ch' [[_ ?]|[Hne Hj]]%list_insert_Some; [done|].
    destruct (W3 j id ch' Hj) as (c' & Hc' & Hid' & Hcl').
    destruct (decide (ch' = ch)) as [->|]; [|exists c'; by rewrite lookup_insert_ne].
    simplify_eq. eexists. rewrite lookup_insert_eq. split; [done|]. simpl. split; [done|].
    intros Hclosed. exfalso. apply Hne. by eapply (W4 i j).
  - intros j k id1 id2 ch' c' [[_ ?]|[_ Hj]]%list_insert_Some [[_ ?]|[_ Hk]]%list_insert_Some; [done..|].
    intros [[<- <-]|[_ Hc']]%lookup_insert_Some Hclosed; by eapply W4.
  - apply Forall_forall. intros z [->|Hz]%list_insert_elem; [|rewrite Forall_forall in W5; by apply W5].
    simpl. eapply W2; [exact Hc|]. rewrite Eb. by left.
Qed.

(** An approver's phase. *)
Lemma inv_wait_approver y i a now clock s a' :
  inv_store y -> inv_wait y -> approvers y !! i = Some a ->
  approver_step (ks y) now clock (st y) a = (s, a') ->
  inv_wait (with_grants (with_approvers (with_st y s) (<[i := a']> (approvers y)))
              (grants y ++ granted (st y) a)).
Proof.
  intros Hst Hw Ha Hs. assert (Hg : grants y ⊆ grants y ++ granted (st y) a) by set_solver.
  destruct a as [txID ttl who|txID t ttl who|txID t until res who|t until who|]; simpl in Hs.
  - destruct (claimApproval_cases (st y) txID) as [Hcl|(e & He & Er & Es & Hcl)]; rewrite Hcl in Hs; simplify_eq.
    + apply (inv_wait_quiet y); try done. by apply txs_same_refl.
    + destruct Hw as [W1 W2 W3 W4 W5]. constructor; simpl; rewrite ?app_nil_r; try done.
      intros id x r [[<- <-]|[_ Hx]]%lookup_insert_Some Hr; [done|eauto].
  - simplify_eq. apply (inv_wait_quiet y); try done. by apply txs_same_refl.
  - assert (Hfin : forall stt r b, (finishClaimed (st y) txID stt r).1 = s ->
      ((finishClaimed (st y) txID stt r).2 = true -> released (grants y ++ granted (st y) (AIssued txID t until res who)) txID r) ->
      inv_wait (with_grants (with_approvers (with_st y s) b) (grants y ++ granted (st y) (AIssued txID t until res who)))).
    { intros stt r b Hfs Hrel. destruct (finishClaimed_cases (st y) txID stt r) as [Hc|(e & He & Er & _ & Hc)];
        rewrite Hc in Hfs, Hrel; simpl in Hfs, Hrel; subst s.
      - apply (inv_wait_quiet y); try done. by apply txs_same_refl.
      - apply (inv_wait_finish y _ txID e stt r); try done. by apply Hrel. }
    destruct res as [r|er].
    + apply (Hfin StateApproved (set_LeaseExpiresAt until r)).
      * by destruct (finishClaimed _ _ _ _) as [s1 [|]]; simplify_eq/=.
      * simpl. intros ->. intros _. eexists. split; [apply elem_of_app; right; by left|done].
    + apply (Hfin StateDenied (errResult er)); [by simplify_eq/=|done].
  - simplify_eq. apply (inv_wait_quiet y); try done; [|by destruct (leases (st y))].
    apply txs_same_refl. by destruct (leases (st y)).
  - simplify_eq. apply (inv_wait_quiet y); try done. by apply txs_same_refl.
Qed.

Lemma inv_wait_step y y' :
  step y y' -> inv_store y /\ inv_wait y -> inv_store y' /\ inv_wait y'.
Proof.
  intros Hs [Hst Hw]. split; [by eapply inv_store_step|].
  assert (Hpend : forall z id stt r, txs_same (st y) (st y) -> st z = finishPending (st y) id stt r -> waits z = waits y ->
    grants z = grants y -> Err r <> None -> inv_wait z).
  { intros z id stt r _ Hz Hwz Hgz Her.
    destruct (finishPending_cases (st y) id stt r) as [Hc|(e & He & Er & _ & Hc)].
    - apply (inv_wait_quiet y); rewrite ?Hz, ?Hc, ?Hgz; try done. by apply txs_same_refl.
    - apply (inv_wait_finish y z id e stt r); rewrite ?Hgz; try done; [congruence|by intros ?]. }
  inversion Hs; subst; clear Hs.
  - match goal with Hx : CreateBound _ _ _ _ _ _ _ _ _ _ _ _ = _ |- _ =>
      apply CreateBound_inv in Hx as (-> & _) end.
    subst y'0. destruct dev; eapply inv_wait_add; try done; set_solver.
  - apply (inv_wait_quiet y); try done. by apply txs_same_refl.
  - by eapply inv_wait_approver.
  - by eapply Hpend; try apply txs_same_refl.
  - by eapply Hpend; try apply txs_same_refl.
  - apply (inv_wait_quiet y); try done. by apply txs_same_refl.
  - match goal with Hx : CreateInstantApproved _ _ _ _ _ _ _ _ _ = _ |- _ =>
      apply CreateInstant_inv in Hx as (-> & _) end.
    eapply inv_wait_add; try done; [set_solver|]. simpl.
    intros r' Hr'. assert (r' = r) as -> by (destruct Hr' as [?|?%list_elem_of_singleton]; congruence).
    intros _. exists (GLease (ID t) lookup r). set_solver.
  - by apply inv_wait_enter.
  - by eapply inv_wait_receive.
  - apply inv_wait_replace; try done; [apply txs_same_delete|]. pose proof (w_done y Hw) as Hd.
    rewrite Forall_forall in Hd.
    match goal with Hx : waits y !! i = _ |- _ => specialize (Hd _ (list_elem_of_lookup_2 _ _ _ Hx)) end.
    simpl in Hd |- *. by destruct (Err r) eqn:Er.
  - apply inv_wait_replace; try done; [apply cancelWait_same|].
    unfold cancelWait. by repeat case_match.
  - apply (inv_wait_quiet y); try done. by apply txs_same_refl.
  - apply (inv_wait_quiet y); try done. by apply txs_same_refl.
Qed.

Lemma reachable_wait y : reachable y -> inv_store y /\ inv_wait y.
Proof.
  apply (reachable_inv (fun y => inv_store y /\ inv_wait y)); [|apply inv_wait_step].
  intros y0 Hi. split; [by apply inv_store_initial|].
  destruct Hi as (tm & c & iss & sg & b & m & ->).
  constructor; simpl; try (intros *; by rewrite lookup_empty); done.
Qed.

(** ** Lifecycle *)

(** The arrows of the transaction state machine. *)
Definition arrow (a b : State) : bool :=
  match a, b with
  | StatePending, (StateApproving | StateDenied | StateExpired) => true
  | StateApproving, (StateApproved | StateDenied) => true
  | _, _ => false
  end.

(** An entry follows one arrow or stays; everything else about it is fixed, and so is an
    outcome. *)
Definition evolves (e e' : txEntry) : Prop :=
  (tx e' = tx e /\ result e' = result e) \/
  (tx e' = set_State (tx_State (tx e')) (tx e) /\ arrow (tx_State (tx e)) (tx_State (tx e')) = true /\
   result e = None).

Lemma evolves_finish s id e stt r id' x x' :
  store_wf s -> txs s !! id = Some e -> result e = None -> arrow (tx_State (tx e)) stt = true ->
  txs s !! id' = Some x -> txs (finishLocked s id e stt r) !! id' = Some x' -> evolves x x'.
Proof.
  intros Hwf He Er Harr Hx Hx'.
  destruct (finishLocked_txs s id e stt r Hwf He Er) as [(e' & He' & _ & Ht) Ho].
  destruct (decide (id' = id)) as [->|Hne]; [|rewrite Ho in Hx' by done; simplify_eq; by left].
  simplify_eq. right. rewrite Ht. simpl. by split_and!.
Qed.

Lemma evolves_same s s' id e e' :
  txs_same s s' -> txs s !! id = Some e -> txs s' !! id = Some e' -> evolves e e'.
Proof. intros Hs He He'. destruct (Hs id e' He') as (e0 & ? & ? & ?). simplify_eq. by left. Qed.

Lemma approver_evolves k now clock s a s' a' id e e' :
  store_wf s -> approver_step k now clock s a = (s', a') ->
  txs s !! id = Some e -> txs s' !! id = Some e' -> evolves e e'.
Proof.
  intros Hwf Hs He He'.
  assert (Hfin : forall id0 stt r, (stt = StateApproved \/ stt = StateDenied) ->
            txs (finishClaimed s id0 stt r).1 !! id = Some e' -> evolves e e').
  { intros id0 stt r Hstt Hx.
    destruct (finishClaimed_cases s id0 stt r) as [Hc|(e0 & He0 & Er & Es & Hc)]; rewrite Hc in Hx; simpl in Hx.
    - simplify_eq. by left.
    - eapply (evolves_finish s id0 e0); try done. rewrite Es. by destruct Hstt as [->| ->]. }
  destruct a as [txID ttl who|txID t ttl who|txID t until res who|t until who|]; simpl in Hs.
  - destruct (claimApproval_cases s txID) as [Hc|(e0 & He0 & Er & Es & Hc)]; rewrite Hc in Hs; simplify_eq;
      [by left|]. simpl in He'. apply lookup_insert_Some in He' as [[-> <-]|[_ He']]; simplify_eq; [|by left].
    right. simpl. rewrite Es. by split_and!.
  - simplify_eq. by left.
  - destruct res as [r|er].
    + destruct (finishClaimed s txID StateApproved _) as [s1 ok] eqn:Ef.
      eapply (Hfin txID StateApproved (set_LeaseExpiresAt until r)); [by left|]. rewrite Ef. simpl.
      by destruct ok; simplify_eq.
    + simplify_eq. eapply Hfin; [by right|done].
  - simplify_eq. destruct (leases s); simpl in He'; simplify_eq; by left.
  - simplify_eq. by left.
Qed.

Lemma create_evolves s t r b c tm id e e' :
  ID t <> id -> txs s !! id = Some e -> txs (add_entry s t r b c tm) !! id = Some e' -> evolves e e'.
Proof. simpl. intros Hne He He'. rewrite lookup_insert_ne in He' by done. simplify_eq. by left. Qed.

Lemma pending_evolves s id0 stt r id e e' :
  store_wf s -> arrow StatePending stt = true ->
  txs s !! id = Some e -> txs (finishPending s id0 stt r) !! id = Some e' -> evolves e e'.
Proof.
  intros Hwf Ha He He'.
  destruct (finishPending_cases s id0 stt r) as [Hc|(e0 & He0 & Er & Es & Hc)]; rewrite Hc in He'.
  - simplify_eq. by left.
  - eapply (evolves_finish s id0 e0); try done. by rewrite Es.
Qed.

Lemma step_evolves y y' id e e' :
  inv_store y -> inv_claim y -> step y y' ->
  txs (st y) !! id = Some e -> txs (st y') !! id = Some e' -> evolves e e'.
Proof.
  intros [Hwf _] Hc Hs He He'. pose proof (c_used y Hc id e He) as Hu.
  inversion Hs; subst; clear Hs.
  - match goal with Hx : CreateBound _ _ _ _ _ _ _ _ _ _ _ _ = _ |- _ =>
      apply CreateBound_inv in Hx as (-> & Hid & _) end.
    apply (create_evolves (st y) t None [] false (Some true) id); [by intros <-; rewrite Hid in Hu|done|].
    subst y'0. by destruct dev.
  - simpl in He'. simplify_eq. by left.
  - by eapply approver_evolves.
  - exact (pending_evolves (st y) txID StateDenied (errResult ErrDenied) id e e' Hwf eq_refl He He').
  - exact (pending_evolves (st y) txID StateExpired (errResult ErrTimeout) id e e' Hwf eq_refl He He').
  - simpl in He'. simplify_eq. by left.
  - match goal with Hx : CreateInstantApproved _ _ _ _ _ _ _ _ _ = _ |- _ =>
      apply CreateInstant_inv in Hx as (-> & Hid & _) end.
    apply (create_evolves (st y) t (Some r) [r] true None id); [|exact He|exact He'].
    intros <-. by rewrite Hid in Hu.
  - eapply (evolves_same (st y)); [by eapply waitResult_same|exact He|exact He'].
  - eapply (evolves_same (st y)); [by eapply receive_same|exact He|exact He'].
  - exact (evolves_same (st y) _ id e e' (txs_same_delete (st y) txID) He He').
  - exact (evolves_same (st y) _ id e e' (cancelWait_same (st y) txID) He He').
  - simpl in He'. simplify_eq. by left.
  - simpl in He'. simplify_eq. by left.
Qed.

(** ** A second waiter *)

(** An open empty channel no undecided transaction will ever send on. *)
Definition orphaned (s : Store) (ch : nat) : Prop :=
  (exists c, chans s !! ch = Some c /\ buf c = [] /\ closed c = false) /\
  (forall id e, txs s !! id = Some e -> resultCh e = ch -> result e <> None).

Lemma orphaned_blocks s ch : orphaned s ch -> receive s ch = None.
Proof. intros [(c & Hc & Hb & Hcl) _]. unfold receive. by rewrite Hc, Hb, Hcl. Qed.

(** The channel is untouched and the transactions on it are old ones with the same outcome. *)
Lemma orphaned_keep s s' ch :
  orphaned s ch -> chans s' !! ch = chans s !! ch ->
  (forall id e', txs s' !! id = Some e' -> resultCh e' = ch ->
     result e' <> None \/ exists e, txs s !! id = Some e /\ resultCh e = ch /\ result e' = result e) ->
  orphaned s' ch.
Proof.
  intros [Hc Ht] Hch Htx. split; [by rewrite Hch|]. intros id e' He' Hr.
  destruct (Htx id e' He' Hr) as [?|(e & He & Hre & ->)]; [done|eauto].
Qed.

Lemma orphaned_same s s' ch :
  orphaned s ch -> txs s' = txs s -> chans s' = chans s -> orphaned s' ch.
Proof. intros Ho Ht Hc. eapply orphaned_keep; [exact Ho|by rewrite Hc|]. rewrite Ht. eauto 6. Qed.

Lemma orphaned_finish s ch id e stt r :
  store_wf s -> orphaned s ch -> txs s !! id = Some e -> result e = None ->
  orphaned (finishLocked s id e stt r) ch.
Proof.
  intros Hwf Ho He Er. rewrite (finishLocked_spec s id e stt r Hwf He Er).
  assert (Hne : resultCh e <> ch) by (intros Heq; by destruct Ho as [_ Ho]; apply (Ho id e He)).
  eapply orphaned_keep; [exact Ho|simpl; by rewrite lookup_insert_ne|simpl].
  intros j e' [[<- <-]|[_ Hj]]%lookup_insert_Some Hr; [by left|eauto 6].
Qed.

Lemma orphaned_add s ch t r b c tm :
  store_wf s -> orphaned s ch -> orphaned (add_entry s t r b c tm) ch.
Proof.
  intros Hwf Ho. assert (Hne : next_ch s <> ch).
  { destruct Ho as [(c0 & Hc0 & _) _]. apply (sw_fresh s Hwf) in Hc0. lia. }
  eapply orphaned_keep; [exact Ho|simpl; by rewrite lookup_insert_ne|simpl].
  intros j e' [[<- <-]|[_ Hj]]%lookup_insert_Some Hr; [done|eauto 6].
Qed.

(** Replacing an entry without touching its channel or outcome, or dropping it. *)
Lemma orphaned_entry s ch id e o :
  orphaned s ch -> txs s !! id = Some e ->
  match o with Some e' => resultCh e' = resultCh e /\ result e' = result e | None => True end ->
  orphaned (set_txs s (match o with Some e' => <[id := e']> (txs s) | None => delete id (txs s) end)) ch.
Proof.
  intros Ho He Hx. eapply orphaned_keep; [exact Ho|done|]. simpl. intros j e' Hj Hr. destruct o as [x|].
  - destruct Hx as [Hx1 Hx2].
    apply lookup_insert_Some in Hj as [[<- <-]|[_ Hj]]; right; [|eauto]. exists e. split_and!; congruence.
  - apply lookup_delete_Some in Hj as [_ Hj]. eauto.
Qed.

Lemma orphaned_approver k now clock s a s' a' ch :
  store_wf s -> orphaned s ch -> approver_step k now clock s a = (s', a') -> orphaned s' ch.
Proof.
  intros Hwf Ho Hs.
  assert (Hfin : forall id0 stt r, orphaned (finishClaimed s id0 stt r).1 ch).
  { intros id0 stt r. destruct (finishClaimed_cases s id0 stt r) as [->|(e & He & Er & _ & ->)]; [done|].
    by apply orphaned_finish. }
  destruct a as [txID ttl who|txID t ttl who|txID t until res who|t until who|]; simpl in Hs.
  - destruct (claimApproval_cases s txID) as [Hc|(e & He & Er & Es & Hc)]; rewrite Hc in Hs; simplify_eq; [done|].
    by eapply (orphaned_entry s ch txID e (Some _)).
  - by simplify_eq.
  - destruct res as [r|er]; [|by simplify_eq].
    specialize (Hfin txID StateApproved (set_LeaseExpiresAt until r)).
    by destruct (finishClaimed _ _ _ _) as [s1 []]; simplify_eq.
  - simplify_eq. destruct (leases s); [|done]. by eapply orphaned_same.
  - by simplify_eq.
Qed.

Lemma orphaned_pending s id stt r ch :
  store_wf s -> orphaned s ch -> orphaned (finishPending s id stt r) ch.
Proof.
  intros Hwf Ho. destruct (finishPending_cases s id stt r) as [->|(e & He & Er & _ & ->)]; [done|].
  by apply orphaned_finish.
Qed.

Lemma orphaned_wait s id s' w ch :
  store_wf s -> orphaned s ch -> waitResult s id = (s', w) -> orphaned s' ch.
Proof.
  intros Hwf Ho. unfold waitResult. destruct (txs s !! id) as [e|] eqn:He; [|by intros [= <- _]].
  destruct (result e) eqn:Er; intros [= <- _].
  - eapply orphaned_keep; [exact Ho| |simpl; eauto 6]. simpl. rewrite lookup_insert_ne; [done|].
    destruct Ho as [(c0 & Hc0 & _) _]. apply (sw_fresh s Hwf) in Hc0. lia.
  - by eapply (orphaned_entry s ch id e (Some _)).
Qed.

Lemma orphaned_receive s ch' s' r ch : orphaned s ch -> receive s ch' = Some (s', r) -> orphaned s' ch.
Proof.
  intros Ho Hr. assert (Hne : ch' <> ch) by (intros ->; by rewrite orphaned_blocks in Hr).
  unfold receive in Hr. destruct (chans s !! ch') as [c|]; [|done].
  destruct (buf c); [case_match; by simplify_eq|]. simplify_eq.
  eapply orphaned_keep; [exact Ho|simpl; by rewrite lookup_insert_ne|simpl; eauto 6].
Qed.

Lemma orphaned_step y y' ch :
  step y y' -> inv_store y /\ orphaned (st y) ch -> inv_store y' /\ orphaned (st y') ch.
Proof.
  intros Hs [Hst Ho]. split; [by eapply inv_store_step|]. destruct Hst as [Hwf _].
  inversion Hs; subst; clear Hs; try exact Ho.
  - match goal with Hx : CreateBound _ _ _ _ _ _ _ _ _ _ _ _ = _ |- _ =>
      apply CreateBound_inv in Hx as (-> & _) end.
    assert (orphaned (add_entry (st y) t None [] false (Some true)) ch) by (by apply orphaned_add).
    subst y'0. by destruct dev.
  - by eapply orphaned_approver.
  - by apply orphaned_pending.
  - by apply orphaned_pending.
  - match goal with Hx : CreateInstantApproved _ _ _ _ _ _ _ _ _ = _ |- _ =>
      apply CreateInstant_inv in Hx as (-> & _) end. by apply orphaned_add.
  - by eapply orphaned_wait.
  - by eapply orphaned_receive.
  - simpl. destruct (txs (st y) !! txID) as [e|] eqn:He.
    + by eapply (orphaned_entry (st y) ch txID e None).
    + unfold remove. rewrite delete_id by done. by eapply orphaned_same.
  - simpl. unfold cancelWait. destruct (txs (st y) !! txID) as [en|] eqn:He; [|done].
    case_match; [by eapply (orphaned_entry (st y) ch txID en None)|by eapply (orphaned_entry (st y) ch txID en (Some _))].
Qed.

(** ** Claims *)

(** C19: every transaction in the store is consistent in every reachable state of the concurrent
    system: it has an outcome exactly in a terminal state, the outcome is an error exactly when it
    was not approved, its channel is its own and still open and empty while it is undecided, and
    nothing was ever sent on a closed channel. *)
Theorem approval_store_invariant y :
  reachable y -> store_wf (st y).
Proof. intros Hr. by destruct (reachable_store y Hr). Qed.

(** C18: a transaction's lifecycle is one-way under every interleaving: a step leaves an entry
    alone or moves it along pending -> approving -> approved/denied or pending -> denied/expired
    without touching its other fields, and never changes an outcome once it is set. *)
Theorem transaction_lifecycle y y' id e e' :
  reachable y -> step y y' -> txs (st y) !! id = Some e -> txs (st y') !! id = Some e' -> evolves e e'.
Proof. intros [Hst Hc]%reachable_claim. by apply step_evolves. Qed.

(** C2: racing approvers cannot double-spend: two goroutines never hold the same transaction, each
    transaction yields at most one credential over the whole history, and one that was denied or
    timed out while pending yields none, however many approvals race with the denial. *)
Theorem one_outcome y :
  reachable y ->
  (forall i j a b id t u, approvers y !! i = Some a -> approvers y !! j = Some b ->
     holder a id t -> holder b id u -> i = j) /\
  NoDup (map grant_id (grants y)) /\
  (forall id g, id ∈ denied y -> g ∈ grants y -> grant_id g <> id).
Proof.
  intros [_ Hc]%reachable_claim. split_and!; [apply (c_uniq y Hc)|apply (c_once y Hc)|].
  intros id g Hd Hg. by apply (c_denied y Hc id Hd).
Qed.

(** C3: no lease without a person: every lease in the store, at any time, was recorded by an
    approval with a named approver, of a transaction with a client certificate and with leases
    allowed, for exactly that transaction's client, user, addresses and keys, and ends when that
    approval's credential ends. *)
Theorem lease_provenance y l full al :
  reachable y -> leases (st y) = Some l -> Lease.holds l full al ->
  exists id t r, GApproved id t (Lease.ExpiresAt al) (Lease.Approver full) r ∈ grants y /\
    tx_lookup t = Lease.lookup_key full /\ Lease.Approver full <> "" /\ ClientCertFP t <> "" /\
    DisableLease t = false /\ ExpiresAt r = Lease.ExpiresAt al.
Proof.
  intros Hp%reachable_prov Hl Hh. destruct (p_leases y Hp l Hl) as [_ Ho].
  destruct (Ho full al Hh) as (id & t & r & Hg & (? & ? & ?) & ?).
  exists id, t, r. pose proof (p_grants y Hp) as Hgs. rewrite Forall_forall in Hgs.
  destruct (Hgs _ Hg) as (_ & _ & _ & ?). by split_and!.
Qed.

Lemma waiter_provenance y i id r :
  reachable y -> waits y !! i = Some (WDone id (Ok r)) ->
  id ∉ denied y /\
  ((exists t until who, GApproved id t until who r ∈ grants y /\ (id, who) ∈ calls y /\ ExpiresAt r = until) \/
   (exists lookup who id0 t0 r0, GLease id lookup r ∈ grants y /\
      GApproved id0 t0 (LeaseExpiresAt r) who r0 ∈ grants y /\ (id0, who) ∈ calls y /\
      lease_cond t0 who /\ tx_lookup t0 = lookup)).
Proof.
  intros Hr Hw. destruct (reachable_wait y Hr) as [_ Hwait]. destruct (reachable_claim y Hr) as [_ Hc].
  pose proof (reachable_prov y Hr) as Hp. pose proof (p_grants y Hp) as Hgs. rewrite Forall_forall in Hgs.
  pose proof (w_done y Hwait) as Hd. rewrite Forall_forall in Hd.
  specialize (Hd _ (list_elem_of_lookup_2 _ _ _ Hw)). simpl in Hd.
  destruct Hd as [E Hd]. destruct (Hd E) as (g & Hg & Hid & Hres). split.
  { intros Hden. by apply (c_denied y Hc id Hden) in Hid. }
  destruct g as [id' t until who r'|id' lookup r']; simpl in Hid, Hres; subst.
  - left. destruct (Hgs _ Hg) as (? & ? & ? & ?). by exists t, until, who.
  - right. destruct (Hgs _ Hg) as (_ & who & id0 & t0 & r0 & Hg0 & Hcond & Hlk).
    destruct (Hgs _ Hg0) as (? & _). by exists lookup, who, id0, t0, r0.
Qed.

(** C1: no credential without an approval: whatever a waiter gets for a transaction was granted
    for that transaction, either by a recorded approval call, or on the strength of a lease that
    a named approver's earlier approval created for the same client, user, addresses and keys, and
    never on a transaction that was denied or expired while pending. *)
Theorem credential_provenance y i id r :
  reachable y -> waits y !! i = Some (WDone id (Ok r)) ->
  id ∉ denied y /\
  ((exists t until who, GApproved id t until who r ∈ grants y /\ (id, who) ∈ calls y /\ ExpiresAt r = until) \/
   (exists lookup who id0 t0 r0, GLease id lookup r ∈ grants y /\
      GApproved id0 t0 (LeaseExpiresAt r) who r0 ∈ grants y /\ (id0, who) ∈ calls y /\
      lease_cond t0 who /\ tx_lookup t0 = lookup)).
Proof. apply waiter_provenance. Qed.

(** C40: only one waiter is served: when two requests wait on the same undecided transaction and
    one of them has taken the outcome, the other can never receive it, whatever happens next; it
    blocks until its own context is cancelled. *)
Theorem second_waiter_starves y i j id ch s r y' :
  reachable y -> i <> j -> waits y !! i = Some (WBlocked id ch) -> waits y !! j = Some (WBlocked id ch) ->
  receive (st y) ch = Some (s, r) ->
  rtc step (with_waits (with_st y s) (<[i := WReceived id r]> (waits y))) y' ->
  receive (st y') ch = None.
Proof.
  intros Hr Hij Hi Hj Hrecv Hrtc. destruct (reachable_wait y Hr) as [Hst Hw].
  set (y1 := with_waits _ _) in Hrtc.
  assert (Hstep : step y y1) by (by apply (s_receive y i id ch)).
  assert (Hst1 : inv_store y1) by (by eapply inv_store_step).
  destruct Hst as [Hwf _]. destruct (w_blocked y Hw i id ch Hi) as (c & Hc & Hid & _).
  assert (Hop : closed c = false).
  { destruct (closed c) eqn:Ecl; [|done]. exfalso. apply Hij. by eapply (w_alone y Hw i j). }
  pose proof (sw_cap _ Hwf ch c Hc) as Hcap. simpl in Hcap.
  assert (Ho : orphaned (st y1) ch).
  { unfold receive in Hrecv. rewrite Hc in Hrecv. destruct (buf c) as [|r0 rest] eqn:Eb; [by rewrite Hop in Hrecv|].
    simpl in Hcap. destruct rest; [|simpl in Hcap; lia]. simplify_eq. split.
    - simpl. eexists. by rewrite lookup_insert_eq.
    - simpl. intros id' e He Hre Hnone. destruct (sw_chan _ Hwf id' e He) as (c' & Hc' & _ & Hn).
      rewrite Hre in Hc'. simplify_eq. destruct (Hn Hnone) as [_ Hb]. congruence. }
  apply orphaned_blocks.
  by apply (rtc_invariant step (fun z => inv_store z /\ orphaned (st z) ch) y1 y' (fun a b => orphaned_step a b ch) Hrtc).
Qed.

(** ** Running the system *)

Definition do_approver (y : Sys) (i : nat) (now clock : Z) : Sys :=
  match approvers y !! i with
  | Some a =>
      let '(s, a') := approver_step (ks y) now clock (st y) a in
      with_grants (with_approvers (with_st y s) (<[i := a']> (approvers y))) (grants y ++ granted (st y) a)
  | None => y
  end.

Definition do_wait (y : Sys) (txID : string) : Sys :=
  let '(s, w) := waitResult (st y) txID in
  with_waits (with_st y s)
    (waits y ++ [match w with Some ch => WBlocked txID ch | None => WDone txID (Prelude.Err ErrNotFound) end]).

Definition do_receive (y : Sys) (i : nat) : Sys :=
  match waits y !! i with
  | Some (WBlocked txID ch) =>
      match receive (st y) ch with
      | Some (s, r) => with_waits (with_st y s) (<[i := WReceived txID r]> (waits y))
      | None => y
      end
  | Some (WReceived txID r) =>
      with_waits (with_st y (remove (st y) txID))
        (<[i := WDone txID (match Err r with Some e => Prelude.Err e | None => Ok r end)]> (waits y))
  | _ => y
  end.

Lemma do_approver_steps y i now clock : rtc step y (do_approver y i now clock).
Proof.
  unfold do_approver. destruct (approvers y !! i) as [a|] eqn:Ea; [|done].
  destruct (approver_step _ _ _ _ _) as [s a'] eqn:Es. apply rtc_once. by apply (s_approver y i a now clock).
Qed.

Lemma do_approver_step y i a now clock :
  approvers y !! i = Some a -> step y (do_approver y i now clock).
Proof.
  intros Ha. unfold do_approver. rewrite Ha. destruct (approver_step _ _ _ _ _) as [s a'] eqn:Es.
  by apply (s_approver y i a now clock).
Qed.

Lemma do_wait_steps y txID : rtc step y (do_wait y txID).
Proof.
  unfold do_wait. destruct (waitResult _ _) as [s w] eqn:Ew. apply rtc_once. by apply s_wait.
Qed.

Lemma do_receive_steps y i : rtc step y (do_receive y i).
Proof.
  unfold do_receive. destruct (waits y !! i) as [[id ch|id r|id o]|] eqn:Ew; try done.
  - destruct (receive _ _) as [[s r]|] eqn:Er; [|done]. apply rtc_once. by apply (s_receive y i id ch).
  - apply rtc_once. by apply s_return.
Qed.

Lemma reachable_more y y' : reachable y -> rtc step y y' -> reachable y'.
Proof. intros (y0 & Hi & Hr) Hs. exists y0. split; [done|]. by etrans. Qed.

End sys.

(** ** A concrete run: hosted key, two waiters, one Telegram approval *)
Module Run.
Import Demo.

Definition config : Cfg.Config :=
  Cfg.mkConfig "prod" (60 * Second) "" "" "" "7" "" "luna-admin" "luna-cli" "" "local-key" [180; 300; 900]
    "" "" "" "" "" "" "" "" "".

#[local] Existing Instances Sign.demo_cert Sign.LocalCA Sign.LocalCA_laws.

Definition y0 : Sys :=
  mkSys (SetLeases (SetKeySigner (SetIssuer (SetConfig (NewStore 0) config) false) true) (Some Lease.NewStore))
    (Ks.NewWithMode Ks.ModeLocalKey) [] [] [] [] [] [] ∅.
Definition y1 : Sys :=
  with_ks y0 (Ks.LoadPEMBytes (fun _ => true) 0 0 (ks y0) Ks.demo_pem "pw" "web").1.1.
Definition created :=
  CreateBound "1" 0 (st y1) "root" "10.0.0.7" "key" "10.0.0.2" "c3" (StdEncodeToString (bytes_of "auth-data"))
    Ks.demo_fp "dst" (mkClientMeta "" "" "" "session-bound" false).
Definition y2 : Sys := with_used (with_st y1 created.1.1.1) ({["tx_1"]} ∪ used y1).
Definition y3 : Sys := do_wait (do_wait y2 "tx_1") "tx_1".
Definition y4 : Sys := spawn y3 "tx_1" (300 * Second) "telegram:7".
Definition y5 : Sys := do_approver (do_approver (do_approver (do_approver y4 0 0 0) 0 0 0) 0 0 0) 0 0 0.
Definition y6 : Sys := do_receive (do_receive y5 0) 0.

Lemma y2_reachable : reachable y2.
Proof.
  exists y0. split; [by exists 0, config, false, true, true, Ks.ModeLocalKey|].
  eapply rtc_l; [apply (s_keystore y0), (Ks.step_load (fun _ => true) 0 0 (ks y0) Ks.demo_pem "pw" "web")|].
  apply rtc_once.
  apply (s_create y1 "1" 0 "root" "10.0.0.7" "key" "10.0.0.2" "c3" (StdEncodeToString (bytes_of "auth-data"))
    Ks.demo_fp "dst" (mkClientMeta "" "" "" "session-bound" false) created.1.1.1 created.1.1.2 created.1.2 false).
  - set_solver.
  - vm_compute. reflexivity.
Qed.

Lemma y4_reachable : reachable y4.
Proof.
  apply (reachable_more y2); [apply y2_reachable|]. unfold y4, y3.
  etrans; [apply do_wait_steps|]. etrans; [apply do_wait_steps|]. apply rtc_once.
  exact (s_approve _ "tx_1" (300 * Second) "telegram:7").
Qed.

Lemma y5_reachable : reachable y5.
Proof.
  apply (reachable_more y4); [apply y4_reachable|]. unfold y5.
  repeat (etrans; [|apply do_approver_steps]). done.
Qed.

Lemma y6_reachable : reachable y6.
Proof.
  apply (reachable_more y5); [apply y5_reachable|]. unfold y6.
  repeat (etrans; [|apply do_receive_steps]). done.
Qed.

Lemma approval_store_invariant_witness : store_wf (st y6).
Proof. exact (approval_store_invariant y6 y6_reachable). Defined.

Lemma transaction_lifecycle_witness :
  exists e e', txs (st y4) !! "tx_1" = Some e /\ txs (st (do_approver y4 0 0 0)) !! "tx_1" = Some e' /\
    evolves e e'.
Proof.
  eexists _, _. split; [vm_compute; reflexivity|]. split; [vm_compute; reflexivity|].
  apply (transaction_lifecycle y4 (do_approver y4 0 0 0) "tx_1");
    [exact y4_reachable| |vm_compute; reflexivity..].
  apply (do_approver_step y4 0 (ACall "tx_1" (300 * Second) "telegram:7")). vm_compute. reflexivity.
Defined.

Lemma one_outcome_witness : NoDup (map grant_id (grants y6)) /\ map grant_id (grants y6) = ["tx_1"].
Proof.
  split; [exact (proj1 (proj2 (one_outcome y6 y6_reachable)))|vm_compute; reflexivity].
Defined.

Definition full : Lease.FullKey :=
  Lease.NewFullKey (Lease.NewLookupKey "c3" "root" "10.0.0.7" "10.0.0.2" Ks.demo_fp ["dst"]) "telegram:7".
Definition lease_store : Lease.Store := Lease.Put Lease.NewStore full (300 * Second).

Lemma y6_leases : leases (st y6) = Some lease_store.
Proof. vm_cast_no_check (eq_refl (Some lease_store)). Qed.

Lemma lease_held : Lease.holds lease_store full (Lease.mkActiveLease "telegram:7" (300 * Second)).
Proof. unfold Lease.holds, lease_store, Lease.Put. simpl. apply lookup_insert_eq. Qed.

Lemma lease_provenance_witness :
  exists id t r, GApproved id t (300 * Second) "telegram:7" r ∈ grants y6 /\ DisableLease t = false.
Proof.
  destruct (lease_provenance y6 lease_store full (Lease.mkActiveLease "telegram:7" (300 * Second)) y6_reachable
    y6_leases lease_held) as (id & t & r & Hg & _ & _ & _ & Hd & _).
  exists id, t, r. split; [exact Hg|exact Hd].
Defined.

Definition delivered : Result :=
  mkResult "" (StdEncodeToString (bytes_of "host-keyauth-data")) (300 * Second) (300 * Second) None.

Lemma credential_provenance_witness : "tx_1" ∉ denied y6.
Proof.
  exact (proj1 (credential_provenance y6 0 "tx_1" delivered y6_reachable ltac:(vm_compute; reflexivity))).
Defined.

Lemma y5_blocked : waits y5 = [WBlocked "tx_1" 0; WBlocked "tx_1" 0].
Proof. vm_compute. reflexivity. Qed.

Definition s5 : Store := match receive (st y5) 0 with Some (s, _) => s | None => st y5 end.

Lemma y5_receive : receive (st y5) 0 = Some (s5, delivered).
Proof. vm_cast_no_check (eq_refl (Some (s5, delivered))). Qed.

Lemma second_waiter_starves_witness : exists y', rtc step y5 y' /\ receive (st y') 0 = None.
Proof.
  exists (with_waits (with_st y5 s5) (<[0%nat := WReceived "tx_1" delivered]> (waits y5))). split.
  - apply rtc_once, (s_receive y5 0 "tx_1" 0); [rewrite y5_blocked; reflexivity|exact y5_receive].
  - apply (second_waiter_starves y5 0 1 "tx_1" 0 s5 delivered);
      [exact y5_reachable|discriminate|rewrite y5_blocked; reflexivity..|exact y5_receive|apply rtc_refl].
Defined.

Definition pending_entry : txEntry :=
  mkEntry created.1.1.2 None 0 (Some true) 2.

Lemma y4_entry : txs (st y4) !! "tx_1" = Some pending_entry.
Proof. vm_cast_no_check (eq_refl (Some pending_entry)). Qed.

Definition issued_res : Result :=
  mkResult "" (StdEncodeToString (bytes_of "host-keyauth-data")) (300 * Second) zeroTime None.

Lemma y4_issue :
  issueForTransaction (st y4) (ks y4) 0 (set_State StateApproving (tx pending_entry)) (0 + approve_ttl 0)
  = Ok issued_res.
Proof. vm_cast_no_check (eq_refl (Ok issued_res)). Qed.

Lemma approve_behaviour_witness :
  exists e', txs (Approve (ks y4) 0 0 (st y4) "tx_1" 0 "telegram:7") !! "tx_1" = Some e' /\
    tx_State (tx e') = StateApproved /\ timer e' = stopped (timer pending_entry).
Proof.
  assert (Hx : forall s k e res, store_wf s -> txs s !! "tx_1" = Some e -> tx_State (tx e) = StatePending ->
    issueForTransaction s k 0 (set_State StateApproving (tx e)) (0 + approve_ttl 0) = Ok res ->
    exists e', txs (Approve k 0 0 s "tx_1" 0 "telegram:7") !! "tx_1" = Some e' /\
      tx_State (tx e') = StateApproved /\ timer e' = stopped (timer e)).
  { intros s k e res Hwf He Hp Hi. pose proof (approve_behaviour s k 0 0 "tx_1" 0 "telegram:7" Hwf) as [_ H].
    rewrite He in H. cbv zeta in H. rewrite bool_decide_true in H by exact Hp. cbn [negb] in H. rewrite Hi in H.
    destruct H as [(e' & H1 & H2 & _ & H3 & _) _]. exists e'. split; [exact H1|]. split; [rewrite H2; reflexivity|exact H3]. }
  exact (Hx (st y4) (ks y4) pending_entry issued_res (proj1 (reachable_store y4 y4_reachable)) y4_entry eq_refl y4_issue).
Defined.

Lemma fast_path_needs_lease_witness :
  exists full' al, Lease.holds lease_store full' al /\ Lease.lookup_key full' = Lease.lookup_key full.
Proof.
  destruct (fast_path_needs_lease (st y6) lease_store (ks y6) 1 1 1 1 (Lease.lookup_key full) "key"
      (StdEncodeToString (bytes_of "auth-data")) Ks.demo_fp delivered)
    as (full' & al & Hh & Hl & _).
  - exact y6_leases.
  - apply rtc_once, Lease.step_put.
  - vm_compute. reflexivity.
  - exists full', al. split; [exact Hh|exact Hl].
Defined.

End Run.

End Sys.
