(* ===== verification/Telegram.v ===== *)
(** * Telegram approvals (proxy/internal/approval: callback.go, telegram.go, poller.go)

    The notifier posts an approval prompt with one button per allowed lifetime; the poller reads
    button presses back and approves or denies.  The Bot API is outside: a request is a value, and
    what the HTTP client answers to it is an argument. *)

From Stdlib Require Import Ascii.
From S2P Require Import Prelude GoTime GoStrings GoEncoding GoFormat External Fingerprint LeaseStore Keystore Signing Config Approval.

Module Tg.
Import Appr.

(** ** Callback data (callback.go) *)

Definition TTLAllowed (sec : Z) (allowed : list Z) : bool := existsb (fun a => a =? sec) allowed.

(** [(action, txID, ttl, ok)]; the zero values accompany [ok = false]. *)
Definition ParseCallbackData (data : string) (allowedTTLs : list Z) : string * string * Z * bool :=
  let bad := ("", "", 0, false) in
  match Split data ":"%char with
  | action :: p1 :: rest =>
      if action =s "deny" then
        if negb (bool_decide (rest = [])) || negb (HasPrefix p1 "tx_") then bad
        else (action, p1, 0, true)
      else if action =s "approve" then
        if negb (HasPrefix p1 "tx_") then bad
        else
          match rest with
          | p2 :: _ =>
              match ParseInt p2 with
              | Some sec => if negb (TTLAllowed sec allowedTTLs) then bad else (action, p1, seconds sec, true)
              | None => bad
              end
          | [] => (action, p1, 0, true)
          end
      else bad
  | _ => bad
  end.

Definition DefaultTTLFromAllowed (allowed : list Z) : Z :=
  match allowed with
  | a :: _ => seconds a
  | [] => 5 * Minute
  end.

Definition ChatAllowed (configuredChatID : string) (chatID : Z) : bool :=
  let configuredChatID := TrimSpace configuredChatID in
  if configuredChatID =s "" then false else
  match ParseInt configuredChatID with
  | None => false
  | Some allowed => chatID =? allowed
  end.

Definition TelegramUserAllowed (configuredChatID configuredUserIDs : string) (userID : Z) : bool :=
  existsb (fun raw => match ParseInt (TrimSpace raw) with Some allowed => allowed =? userID | None => false end)
    (Split configuredUserIDs ","%char) ||
  match ParseInt (TrimSpace configuredChatID) with
  | Some chatID => (0 <? chatID) && (chatID =? userID)
  | None => false
  end.

(** ** Requests to the Bot API *)

Definition telegramAPIBase : string := "https://api.telegram.org".

(** One inline button: its label and its callback data. *)
Record button := mkButton { text : string; callback_data : string }.

Inductive payload :=
| PSendMessage (chatID text : string) (keyboard : list (list button))
| PEditMessage (chatID messageID : Z) (text : string)
| PAnswer (callbackQueryID : string) (text : option string)
| PEmpty.

Record request := mkRequest { url : string; body : payload }.

(** What [client.Do] gives back: an error, or a status with the [ok] field of the JSON body when
    the body parses. *)
Inductive response := RespErr | Resp (status : Z) (ack : option bool).

Definition status_ok (status : Z) : bool := (200 <=? status) && (status <? 300).

(** ** Notifier (telegram.go) *)

Record NotifierConfig := mkNotifierConfig {
  BotToken : string;
  ChatID : string;
  nc_AllowedTTLSeconds : list Z;
  BaseURL : string
}.

Record Notifier := mkNotifier {
  token : string;
  chatID : string;
  allowedTTLs : list Z;
  baseURL : string;
  sent : gset string
}.

Definition Configured (n : option Notifier) : bool :=
  match n with None => false | Some n => negb (token n =s "") && negb (chatID n =s "") end.

Definition NewNotifier (cfg : NotifierConfig) : Notifier :=
  mkNotifier (BotToken cfg) (ChatID cfg) (nc_AllowedTTLSeconds cfg)
    (if BaseURL cfg =s "" then telegramAPIBase else BaseURL cfg) ∅.

Definition formatTTLLabel (sec : Z) : string :=
  if (Z.rem sec 60 =? 0) && (60 <=? sec) then "Approve " +:+ FormatInt (Z.quot sec 60) +:+ "m"
  else "Approve " +:+ FormatInt sec +:+ "s".

Definition approvalKeyboard (txID : string) (allowedTTLs : list Z) : list (list button) :=
  let ttls := match allowedTTLs with [] => [180; 300; 900] | _ => allowedTTLs end in
  [map (fun sec => mkButton (formatTTLLabel sec) ("approve:" +:+ txID +:+ ":" +:+ FormatInt sec)) ttls
   ++ [mkButton "Deny" ("deny:" +:+ txID)]].

Definition nl : string := String "010"%char "".

Definition destinationHostKeyLabel (t : option Transaction) : string :=
  match t with
  | Some t => if DestinationHostKeySource t =s "client-reported" then "Client-reported SSH host key"
              else "Session-bound SSH host key"
  | None => "Session-bound SSH host key"
  end.

(** The lines common to the prompt and its resolution, up to the transaction line. *)
Definition message_lines (t : Transaction) : string :=
  "Luna SSH sign request" +:+ nl +:+
  "Target user: " +:+ TargetUser t +:+ nl +:+
  "Target host claim: " +:+ TargetIP t +:+ nl +:+
  (if negb (DestinationHostKeyFingerprint t =s "")
   then destinationHostKeyLabel (Some t) +:+ ": " +:+ DestinationHostKeyFingerprint t +:+ nl else "") +:+
  (if negb (SourceIP t =s "") then "Source IP: " +:+ SourceIP t +:+ nl else "") +:+
  (if negb (SourceUser t =s "") then "Source user: " +:+ SourceUser t +:+ nl else "") +:+
  (if negb (ClientName t =s "") || negb (ClientVersion t =s "") then
     if negb (ClientVersion t =s "") then "Client: " +:+ ClientName t +:+ " " +:+ ClientVersion t +:+ nl
     else "Client: " +:+ ClientName t +:+ nl
   else "").

Definition formatApprovalMessage (t : option Transaction) : string :=
  match t with
  | None => "Luna SSH sign request"
  | Some t => message_lines t +:+ "Tx: " +:+ ID t
  end.

Record Resolution := mkResolution { Decision : string; res_Approver : string; At : Z; TTL : Z }.

Definition formatApproverDisplay (approver : string) : string :=
  if HasPrefix approver "telegram:" then "Telegram chat " +:+ TrimPrefix approver "telegram:"
  else if HasPrefix approver "device:" then "Mobile device " +:+ TrimPrefix approver "device:"
  else approver.

Definition formatResolvedApprovalMessage (t : option Transaction) (res : Resolution) : string :=
  match t with
  | None => "Luna SSH sign request" +:+ nl +:+ "Status: " +:+ Decision res
  | Some t =>
      TrimRight
        (message_lines t +:+ "Tx: " +:+ ID t +:+ nl +:+ "Status: " +:+ Decision res +:+ nl +:+
         (if negb (res_Approver res =s "") then "By: " +:+ formatApproverDisplay (res_Approver res) +:+ nl else "") +:+
         (if negb (IsZero (At res)) then "At: " +:+ RFC3339 (At res) +:+ nl else "") +:+
         (if (Decision res =s "APPROVED") && (0 <? TTL res) then "Lease TTL: " +:+ Duration_String (TTL res) else ""))
        "010"%char
  end.

Definition forgetSent (n : Notifier) (txID : string) : Notifier :=
  mkNotifier (token n) (chatID n) (allowedTTLs n) (baseURL n) (sent n ∖ {[txID]}).

(** [Notify]: the notifier, the request made if any, and the result. *)
Definition Notify (http : request -> response) (n : Notifier) (t : option Transaction)
    : Notifier * option request * Prelude.result unit :=
  match t with
  | None => (n, None, Ok tt)
  | Some tr =>
      if (token n =s "") || (chatID n =s "") then (n, None, Ok tt) else
      if decide (ID tr ∈ sent n) then (n, None, Ok tt) else
      let n := mkNotifier (token n) (chatID n) (allowedTTLs n) (baseURL n) ({[ID tr]} ∪ sent n) in
      let req := mkRequest (baseURL n +:+ "/bot" +:+ token n +:+ "/sendMessage")
        (PSendMessage (chatID n) (formatApprovalMessage t) (approvalKeyboard (ID tr) (allowedTTLs n))) in
      match http req with
      | RespErr => (forgetSent n (ID tr), Some req, Prelude.Err (errorf "http"))
      | Resp status _ =>
          if negb (status_ok status)
          then (forgetSent n (ID tr), Some req, Prelude.Err (errorf ("telegram sendMessage: HTTP " +:+ FormatInt status)))
          else (n, Some req, Ok tt)
      end
  end.

(** The acknowledgement checks shared by the POST calls. *)
Definition check_ack (method : string) (r : response) : Prelude.result unit :=
  match r with
  | RespErr => Prelude.Err (errorf "http")
  | Resp status ack =>
      if negb (status_ok status) then Prelude.Err (errorf ("telegram " +:+ method +:+ ": HTTP " +:+ FormatInt status)) else
      match ack with
      | None => Prelude.Err (errorf ("telegram " +:+ method +:+ ": invalid json response"))
      | Some false => Prelude.Err (errorf ("telegram " +:+ method +:+ ": not ok"))
      | Some true => Ok tt
      end
  end.

Definition telegramAPIPOST (http : request -> response) (cfg : NotifierConfig) (method : string) (p : payload)
    : request * Prelude.result unit :=
  let base := if BaseURL cfg =s "" then telegramAPIBase else BaseURL cfg in
  let req := mkRequest (base +:+ "/bot" +:+ BotToken cfg +:+ "/" +:+ method) p in
  (req, check_ack method (http req)).

Definition EditMessageText (http : request -> response) (cfg : NotifierConfig) (chat messageID : Z) (txt : string)
    : option request * Prelude.result unit :=
  if (BotToken cfg =s "") || (messageID =? 0) then (None, Ok tt) else
  let '(req, r) := telegramAPIPOST http cfg "editMessageText" (PEditMessage chat messageID txt) in (Some req, r).

Definition DeleteWebhook (http : request -> response) (cfg : NotifierConfig) : option request * Prelude.result unit :=
  let tok := TrimSpace (BotToken cfg) in
  if tok =s "" then (None, Prelude.Err (errorf "telegram bot token not configured")) else
  let base := if BaseURL cfg =s "" then telegramAPIBase else BaseURL cfg in
  let req := mkRequest (base +:+ "/bot" +:+ tok +:+ "/deleteWebhook") PEmpty in
  (Some req, check_ack "deleteWebhook" (http req)).

(** ** Poller (poller.go) *)

Definition defaultPollTimeout : Z := 30 * Second.

Record Poller := mkPoller {
  p_token : string;
  p_chatID : string;
  allowedUserIDs : string;
  p_allowedTTLs : list Z;
  p_baseURL : string;
  pollTimeout : Z;
  offset : Z
}.

Definition NewPoller (cfg : NotifierConfig) (userIDs : string) (timeout : Z) : Poller :=
  mkPoller (TrimSpace (BotToken cfg)) (TrimSpace (ChatID cfg)) (TrimSpace userIDs)
    (nc_AllowedTTLSeconds cfg) (if BaseURL cfg =s "" then telegramAPIBase else BaseURL cfg)
    (if timeout <=? 0 then defaultPollTimeout else timeout) 0.

Record telegramMessage := mkMessage { MessageID : Z; msg_Chat : Z }.

Record telegramCallbackQuery := mkCallbackQuery {
  cq_ID : string;
  Data : string;
  From : Z;
  Message : option telegramMessage
}.

Record telegramUpdate := mkUpdate { UpdateID : Z; CallbackQuery : option telegramCallbackQuery }.

(** Everything the poller sends or logs. *)
Inductive event :=
| Sent (r : request)
| Logged (txID outcome detail : string).

Section poller.
Context `{HashLib, SshLib, !Sign.CertIssuer Ks.Keystore}.

Definition answerCallbackQuery (p : Poller) (id toast : string) : list event :=
  if id =s "" then [] else
  [Sent (mkRequest (p_baseURL p +:+ "/bot" +:+ p_token p +:+ "/answerCallbackQuery")
           (PAnswer id (if toast =s "" then None else Some toast)))].

Definition poller_config (p : Poller) : NotifierConfig := mkNotifierConfig (p_token p) "" [] (p_baseURL p).

Definition editResolvedMessage (http : request -> response) (p : Poller) (msg : option telegramMessage)
    (t : option Transaction) (res : Resolution) : list event :=
  match msg with
  | None => []
  | Some m =>
      if MessageID m =? 0 then [] else
      let '(req, r) := EditMessageText http (poller_config p) (msg_Chat m) (MessageID m)
                         (formatResolvedApprovalMessage t res) in
      (match req with Some q => [Sent q] | None => [] end) ++
      (match r with Ok _ => [] | Prelude.Err _ => [Logged "" "edit_message_failed" ""] end)
  end.

(** [handleUpdate]: the approval store after the call and what was sent and logged, the deferred
    answer last.  [at_] is the clock of the resolution, [now] and [clock] those of the approval. *)
Definition handleUpdate (http : request -> response) (ks : Ks.Keystore) (at_ now clock : Z) (p : Poller)
    (s : Store) (upd : telegramUpdate) : Store * list event :=
  match CallbackQuery upd with
  | None => (s, [])
  | Some cq =>
      if Data cq =s "" then (s, []) else
      match ParseCallbackData (Data cq) (p_allowedTTLs p) with
      | (_, _, _, false) => (s, [Logged "" "ignored_callback" (Data cq)])
      | (action, txID, ttl, true) =>
          let toast := if action =s "approve" then "Approved" else if action =s "deny" then "Denied" else "" in
          let answer := answerCallbackQuery p (cq_ID cq) toast in
          let chat := match Message cq with Some m => msg_Chat m | None => 0 end in
          if bool_decide (Message cq = None) || negb (ChatAllowed (p_chatID p) chat)
          then (s, [Logged txID "ignored_chat" ("chat_id=" +:+ FormatInt chat)] ++ answer) else
          if negb (TelegramUserAllowed (p_chatID p) (allowedUserIDs p) (From cq))
          then (s, [Logged txID "ignored_user" ("user_id=" +:+ FormatInt (From cq))] ++ answer) else
          let snap := Snapshot s txID in
          let approver := Lease.FormatApproverChatID chat in
          if action =s "approve" then
            let ttl := if ttl <=? 0 then DefaultTTLFromAllowed (p_allowedTTLs p) else ttl in
            (Approve ks now clock s txID ttl approver,
             [Logged txID "approved" ("ttl=" +:+ Duration_String ttl)] ++
             editResolvedMessage http p (Message cq) snap (mkResolution "APPROVED" approver at_ ttl) ++ answer)
          else if action =s "deny" then
            (Deny s txID,
             [Logged txID "denied" ""] ++
             editResolvedMessage http p (Message cq) snap (mkResolution "DENIED" approver at_ 0) ++ answer)
          else (s, answer)
      end
  end.

(** The body of [pollOnce]'s loop: the offset moves past the update before it is handled. *)
Definition poll_update (http : request -> response) (ks : Ks.Keystore) (clk : Z) (st : Poller * Store * list event)
    (upd : telegramUpdate) : Poller * Store * list event :=
  let '(p, s, evs) := st in
  let p := if offset p <=? UpdateID upd
           then mkPoller (p_token p) (p_chatID p) (allowedUserIDs p) (p_allowedTTLs p) (p_baseURL p)
                  (pollTimeout p) (wrap64 (UpdateID upd + 1))
           else p in
  let '(s, e) := handleUpdate http ks clk clk clk p s upd in (p, s, evs ++ e).

(** What [getUpdates] answered: a transport error, or a status and the decoded body. *)
Inductive updates := UErr | UResp (status : Z) (decoded : option (bool * list telegramUpdate)).

Definition pollOnce (http : request -> response) (ks : Ks.Keystore) (clk : Z) (p : Poller) (s : Store) (r : updates)
    : Poller * Store * list event * Prelude.result unit :=
  match r with
  | UErr => (p, s, [], Prelude.Err (errorf "http"))
  | UResp status decoded =>
      if negb (status_ok status)
      then (p, s, [], Prelude.Err (errorf ("telegram getUpdates: HTTP " +:+ FormatInt status))) else
      match decoded with
      | None => (p, s, [], Prelude.Err (errorf "telegram getUpdates: invalid json response"))
      | Some (false, _) => (p, s, [], Prelude.Err (errorf "telegram getUpdates: not ok"))
      | Some (true, upds) => (foldl (poll_update http ks clk) (p, s, []) upds, Ok tt)
      end
  end.

(** *** The loop (Poller.Run) *)

(** Where [pollOnce] asks; [url.Values.Encode] sorts the parameters. *)
Definition getUpdates_url (p : Poller) : string :=
  p_baseURL p +:+ "/bot" +:+ p_token p +:+ "/getUpdates?allowed_updates=%5B%22callback_query%22%5D" +:+
  (if 0 <? offset p then "&offset=" +:+ FormatInt (offset p) else "") +:+
  "&timeout=" +:+ FormatInt (Z.quot (pollTimeout p) Second).

(** One round of the loop: what the API answers at which address, the clock, the keys the proxy
    holds by then, and what others did to the store before. *)
Record round := mkRound {
  r_reply : string -> updates;
  r_clk : Z;
  r_keys : Ks.Keystore;
  r_before : Store -> Store
}.

(** The rounds until the context ends.  A failed poll is logged and the next round follows. *)
Fixpoint run_rounds (http : request -> response) (rounds : list round) (p : Poller) (s : Store) : Poller * Store * list event :=
  match rounds with
  | [] => (p, s, [])
  | r :: rounds =>
      let '(p, s, evs, res) := pollOnce http (r_keys r) (r_clk r) p (r_before r s) (r_reply r (getUpdates_url p)) in
      let logged := match res with Ok _ => [] | Prelude.Err e => [Logged "" "error" (error_text e)] end in
      let '(p, s, evs') := run_rounds http rounds p s in
      (p, s, evs ++ logged ++ evs')
  end.

Definition Run (http : request -> response) (rounds : list round) (p : option Poller) (s : Store) : option Poller * Store * list event :=
  match p with
  | None => (None, s, [])
  | Some p =>
      if p_token p =s "" then (Some p, s, []) else
      let '(req, res) := DeleteWebhook http (poller_config p) in
      let started := match res with
                     | Prelude.Err e => Logged "" "delete_webhook_failed" (error_text e)
                     | Ok _ => Logged "" "started" ("timeout=" +:+ Duration_String (pollTimeout p))
                     end in
      let '(p, s, evs) := run_rounds http rounds p s in
      (Some p, s, match req with Some req => [Sent req] | None => [] end ++ [started] ++ evs)
  end.

(** The updates that the rounds handle, in order: those of each successful poll, which [pollOnce] hands
    to [handleUpdate] one by one ([pollOnce_acts]). *)
Definition accepted (r : updates) : list telegramUpdate :=
  match r with
  | UResp status (Some (true, upds)) => if status_ok status then upds else []
  | _ => []
  end.

Fixpoint handled (http : request -> response) (rounds : list round) (p : Poller) (s : Store) : list telegramUpdate :=
  match rounds with
  | [] => []
  | r :: rounds =>
      let reply := r_reply r (getUpdates_url p) in
      let '(p, s, _, _) := pollOnce http (r_keys r) (r_clk r) p (r_before r s) reply in
      accepted reply ++ handled http rounds p s
  end.

End poller.

(** ** Lemmas and claims *)

Lemma TTLAllowed_spec sec allowed : TTLAllowed sec allowed = true <-> sec ∈ allowed.
Proof.
  unfold TTLAllowed. rewrite existsb_exists. setoid_rewrite list_elem_of_In.
  split; [intros (a & ? & E%Z.eqb_eq); by subst|]. intros. exists sec. split; [done|apply Z.eqb_refl].
Qed.

Lemma Split_prefix (a : string) rest :
  has_byte ":"%char a = false -> Split (a +:+ ":" +:+ rest) ":"%char = a :: Split rest ":"%char.
Proof. intros. by apply Split_app. Qed.

(** what the prompt offers is what the poller accepts: every approve button of the keyboard
    sent for a transaction parses back to approving that transaction for exactly its configured
    lifetime, and the deny button to denying it. *)
Theorem keyboard_roundtrip txID allowed sec :
  has_byte ":"%char txID = false -> HasPrefix txID "tx_" = true -> sec ∈ allowed -> in_int64 sec ->
  (exists label, mkButton label ("approve:" +:+ txID +:+ ":" +:+ FormatInt sec) ∈ mjoin (approvalKeyboard txID allowed)) /\
  mkButton "Deny" ("deny:" +:+ txID) ∈ mjoin (approvalKeyboard txID allowed) /\
  ParseCallbackData ("approve:" +:+ txID +:+ ":" +:+ FormatInt sec) allowed = ("approve", txID, seconds sec, true) /\
  ParseCallbackData ("deny:" +:+ txID) allowed = ("deny", txID, 0, true).
Proof.
  intros Hc Hp Hin Hr.
  assert (Hb : approvalKeyboard txID allowed =
    [map (fun sec => mkButton (formatTTLLabel sec) ("approve:" +:+ txID +:+ ":" +:+ FormatInt sec)) allowed
     ++ [mkButton "Deny" ("deny:" +:+ txID)]]) by (destruct allowed; [set_solver|done]).
  rewrite Hb. cbn [mjoin list_join]. rewrite app_nil_r. split_and!.
  - exists (formatTTLLabel sec). apply elem_of_app. left. apply list_elem_of_fmap. by exists sec.
  - apply elem_of_app. right. by left.
  - unfold ParseCallbackData.
    change ("approve:" +:+ txID +:+ ":" +:+ FormatInt sec) with ("approve" +:+ ":" +:+ (txID +:+ ":" +:+ FormatInt sec)).
    rewrite Split_prefix by done. rewrite Split_prefix by done.
    rewrite Split_notin by (by apply FormatInt_no_byte).
    simpl. rewrite Hp. cbn [negb]. rewrite ParseInt_FormatInt by done.
    by rewrite (proj2 (TTLAllowed_spec sec allowed)).
  - unfold ParseCallbackData. change ("deny:" +:+ txID) with ("deny" +:+ ":" +:+ txID).
    rewrite Split_prefix, Split_notin by done. simpl. by rewrite Hp.
Qed.

(** no other lifetime gets through: accepted callback data names an identifier that starts
    with [tx_], and an approval carries either no lifetime or one from the configured list. *)
Theorem callback_ttl_allowed data allowed action txID ttl :
  ParseCallbackData data allowed = (action, txID, ttl, true) ->
  HasPrefix txID "tx_" = true /\
  ((action = "deny" /\ ttl = 0) \/
   (action = "approve" /\ (ttl = 0 \/ exists sec, sec ∈ allowed /\ ttl = seconds sec))).
Proof.
  unfold ParseCallbackData. destruct (Split data ":"%char) as [|a [|p1 rest]]; [done..|].
  destruct (a =s "deny") eqn:Ed; str_prop.
  { destruct (_ || _) eqn:Eb; [done|]. bool_prop. intros; simplify_eq. split; [done|]. by left. }
  destruct (a =s "approve") eqn:Ea; str_prop; [|done].
  destruct (negb (HasPrefix p1 "tx_")) eqn:Ep; [done|]. bool_prop.
  destruct rest as [|p2 rest]; [intros; simplify_eq; split; [done|]; right; by auto|].
  destruct (ParseInt p2) as [sec|]; [|done]. destruct (negb (TTLAllowed sec allowed)) eqn:Et; [done|].
  bool_prop. apply TTLAllowed_spec in Et. intros; simplify_eq.
  split; [done|]. right. split; [done|]. right. by exists sec.
Qed.

Lemma callback_facts data allowed action txID ttl :
  ParseCallbackData data allowed = (action, txID, ttl, true) -> action = "deny" \/ action = "approve".
Proof.
  unfold ParseCallbackData. intros Hp. repeat (case_match; simplify_eq; str_prop; auto).
Qed.

Lemma ChatAllowed_spec cfg chat :
  ChatAllowed cfg chat = true <-> ParseInt (TrimSpace cfg) = Some chat.
Proof.
  unfold ChatAllowed. destruct (TrimSpace cfg =s "") eqn:E; str_prop.
  - rewrite E. split; [done|]. intros Hx. vm_compute in Hx. done.
  - destruct (ParseInt _) as [a|]; [|done]. rewrite Z.eqb_eq. naive_solver.
Qed.

Section claims.
Context `{HashLib, SshLib, !Sign.CertIssuer Ks.Keystore}.

(** The update comes from the configured chat and from a user allowed there. *)
Definition authorized (p : Poller) (cq : telegramCallbackQuery) : Prop :=
  exists m, Message cq = Some m /\ ParseInt (TrimSpace (p_chatID p)) = Some (msg_Chat m) /\
    TelegramUserAllowed (p_chatID p) (allowedUserIDs p) (From cq) = true.

Lemma handleUpdate_cases http ks at_ now clock p s upd :
  let s' := (handleUpdate http ks at_ now clock p s upd).1 in
  s' = s \/
  exists cq m action txID ttl, CallbackQuery upd = Some cq /\ Message cq = Some m /\ authorized p cq /\
    ParseCallbackData (Data cq) (p_allowedTTLs p) = (action, txID, ttl, true) /\
    ((action = "deny" /\ s' = Deny s txID) \/
     (action = "approve" /\
      s' = Approve ks now clock s txID (if ttl <=? 0 then DefaultTTLFromAllowed (p_allowedTTLs p) else ttl)
             ("telegram:" +:+ FormatInt (msg_Chat m)))).
Proof.
  unfold handleUpdate. destruct (CallbackQuery upd) as [cq|]; [|by left].
  destruct (Data cq =s ""); [by left|].
  destruct (ParseCallbackData _ _) as [[[action txID] ttl] []] eqn:Ep; [|by left].
  destruct (Message cq) as [m|] eqn:Em; [|by left].
  rewrite bool_decide_false by done. destruct (ChatAllowed _ _) eqn:Ec; [|by left].
  destruct (TelegramUserAllowed _ _ _) eqn:Eu; [|by left]. apply ChatAllowed_spec in Ec. simpl.
  destruct (callback_facts _ _ _ _ _ Ep) as [-> | ->]; simpl; right;
    eexists _, m, _, txID, ttl; (split; [done|]); (split; [done|]); (split; [by exists m|]);
    (split; [done|]); [by left|by right].
Qed.

(** C10: only an authorized press acts: an update either leaves the approval store alone, or comes
    from a message in the configured chat and from an allowed user, and then does exactly what its
    callback data says: deny the transaction, or approve it under the approver identity of that
    chat, for a configured lifetime or the default one. *)
Theorem poller_acts_only_when_authorized http ks at_ now clock p s upd :
  let s' := (handleUpdate http ks at_ now clock p s upd).1 in
  s' = s \/
  exists cq m action txID ttl, CallbackQuery upd = Some cq /\ Message cq = Some m /\ authorized p cq /\
    ParseCallbackData (Data cq) (p_allowedTTLs p) = (action, txID, ttl, true) /\
    ((action = "deny" /\ s' = Deny s txID) \/
     (action = "approve" /\
      s' = Approve ks now clock s txID (if ttl <=? 0 then DefaultTTLFromAllowed (p_allowedTTLs p) else ttl)
             ("telegram:" +:+ FormatInt (msg_Chat m)))).
Proof. apply handleUpdate_cases. Qed.

(** an ignored press is still answered with the toast of its action: a user outside the
    allow list who presses an approve button changes nothing, but is told "Approved". *)
Theorem ignored_press_is_acknowledged http ks at_ now clock p s upd cq txID ttl :
  CallbackQuery upd = Some cq -> cq_ID cq <> "" -> Data cq <> "" ->
  ParseCallbackData (Data cq) (p_allowedTTLs p) = ("approve", txID, ttl, true) ->
  TelegramUserAllowed (p_chatID p) (allowedUserIDs p) (From cq) = false ->
  (handleUpdate http ks at_ now clock p s upd).1 = s /\
  Sent (mkRequest (p_baseURL p +:+ "/bot" +:+ p_token p +:+ "/answerCallbackQuery")
          (PAnswer (cq_ID cq) (Some "Approved"))) ∈ (handleUpdate http ks at_ now clock p s upd).2.
Proof.
  intros Hcq Hid Hdata Hp Hu. unfold handleUpdate. rewrite Hcq, Hp, Hu.
  rewrite (proj2 (str_eqb_neq _ _) Hdata).
  assert (Ha : answerCallbackQuery p (cq_ID cq) "Approved" =
    [Sent (mkRequest (p_baseURL p +:+ "/bot" +:+ p_token p +:+ "/answerCallbackQuery")
       (PAnswer (cq_ID cq) (Some "Approved")))]).
  { unfold answerCallbackQuery. by rewrite (proj2 (str_eqb_neq _ _) Hid). }
  cbn [str_eqb]. change ("approve" =s "approve") with true. cbv iota. rewrite Ha.
  destruct (_ || _); cbn [fst snd negb]; (split; [done|]); set_solver.
Qed.

Lemma poll_update_offset http ks clk p s evs upd :
  in_int64 (UpdateID upd + 1) -> in_int64 (offset p) ->
  let p' := (poll_update http ks clk (p, s, evs) upd).1.1 in
  offset p <= offset p' /\ UpdateID upd < offset p' /\ in_int64 (offset p').
Proof.
  intros Hid Ho. unfold poll_update. destruct (handleUpdate _ _ _ _ _ _ _ _). simpl.
  destruct (offset p <=? UpdateID upd) eqn:E; simpl; bool_prop; [|split_and!; (done || lia)].
  rewrite wrap64_id by done. split_and!; try done; lia.
Qed.

Definition set_offset (p : Poller) (o : Z) : Poller :=
  mkPoller (p_token p) (p_chatID p) (allowedUserIDs p) (p_allowedTTLs p) (p_baseURL p) (pollTimeout p) o.

(** A batch moves the offset beyond each of its updates, never back, and changes nothing else of the
    poller. *)
Lemma poll_updates_offset http ks clk upds : forall p s evs, Forall (fun u => in_int64 (UpdateID u + 1)) upds -> in_int64 (offset p) ->
  let p' := (foldl (poll_update http ks clk) (p, s, evs) upds).1.1 in
  p' = set_offset p (offset p') /\ in_int64 (offset p') /\ offset p <= offset p' /\ Forall (fun u => UpdateID u < offset p') upds.
Proof.
  induction upds as [|u upds IH]; intros p s evs Hin Ho; cbn [foldl fst]; [by destruct p|].
  apply Forall_cons in Hin as [Hu Hin].
  pose proof (poll_update_offset http ks clk p s evs u Hu Ho) as (H1' & H2' & H3').
  assert (Hset : forall o, set_offset (poll_update http ks clk (p, s, evs) u).1.1 o = set_offset p o).
  { intros o. unfold poll_update. destruct (handleUpdate _ _ _ _ _ _ _ _). by destruct (offset p <=? UpdateID u). }
  destruct (poll_update _ _ _ _ u) as [[p1 s1] evs1]. cbn [fst] in H1', H2', H3', Hset.
  destruct (IH p1 s1 evs1 Hin H3') as (E & Hi & Hle & Hf). rewrite Hset in E.
  split_and!; [done|done|by etrans|]. constructor; [by eapply Z.lt_le_trans|done].
Qed.

Lemma pollOnce_offset http ks clk p s r p' s' evs res :
  Forall (fun u => in_int64 (UpdateID u + 1)) (accepted r) -> in_int64 (offset p) -> pollOnce http ks clk p s r = (p', s', evs, res) ->
  p' = set_offset p (offset p') /\ in_int64 (offset p') /\ offset p <= offset p' /\ Forall (fun u => UpdateID u < offset p') (accepted r).
Proof.
  intros Hin Ho Hp. unfold pollOnce in Hp. unfold accepted in *.
  destruct r as [|status [[[] upds]|]]; try destruct (status_ok status); cbn [negb] in Hp; simplify_eq; try (by destruct p').
  match goal with Hf : foldl _ _ _ = _ |- _ => pose proof (poll_updates_offset http ks clk upds p s [] Hin Ho) as Hx; by rewrite Hf in Hx end.
Qed.

Lemma handleUpdate_offset http ks at_ now clock p o s upd :
  handleUpdate http ks at_ now clock (set_offset p o) s upd = handleUpdate http ks at_ now clock p s upd.
Proof. done. Qed.

(** What a poll does to the store is what [handleUpdate] does with each accepted update in turn. *)
Lemma pollOnce_acts http ks clk p s r :
  (pollOnce http ks clk p s r).1.1.2 = foldl (fun st u => (handleUpdate http ks clk clk clk p st u).1) s (accepted r).
Proof.
  assert (Hx : forall upds o s evs, (foldl (poll_update http ks clk) (set_offset p o, s, evs) upds).1.2 =
    foldl (fun st u => (handleUpdate http ks clk clk clk p st u).1) s upds).
  { clear. induction upds as [|u upds IH]; intros o s evs; [done|]. cbn [foldl]. unfold poll_update at 2. cbv zeta.
    destruct (_ <=? _);
      (match goal with |- context [handleUpdate _ _ _ _ _ ?q s u] =>
         change (handleUpdate http ks clk clk clk q s u) with (handleUpdate http ks clk clk clk p s u) end;
       destruct (handleUpdate http ks clk clk clk p s u) as [s1 e1]; cbn [fst]);
      [exact (IH (wrap64 (UpdateID u + 1)) s1 _)|exact (IH o s1 _)]. }
  specialize (fun upds => Hx upds (offset p) s []). replace (set_offset p (offset p)) with p in Hx by (by destruct p).
  unfold pollOnce, accepted. destruct r as [|status [[[] upds]|]]; try destruct (status_ok status); try done. apply Hx.
Qed.

(** What the Bot API promises about [getUpdates]: identifiers increase within a batch, and none is
    below the offset that was sent.  They are positive, so this holds without an offset too. *)
Definition honours (p : Poller) (reply : string -> updates) : Prop :=
  forall o, let upds := accepted (reply (getUpdates_url (set_offset p o))) in
    StronglySorted Z.lt (UpdateID <$> upds) /\ Forall (fun u => o <= UpdateID u /\ in_int64 (UpdateID u + 1)) upds.

Lemma handled_sorted http rounds : forall p s, in_int64 (offset p) -> Forall (fun r => honours p (r_reply r)) rounds ->
  StronglySorted Z.lt (UpdateID <$> handled http rounds p s) /\ Forall (fun u => offset p <= UpdateID u) (handled http rounds p s).
Proof.
  induction rounds as [|r rounds IH]; intros p s Ho Hall; cbn [handled]; [split; constructor|].
  apply Forall_cons in Hall as [Hr Hall]. pose proof (Hr (offset p)) as Hr'.
  replace (set_offset p (offset p)) with p in Hr' by (by destruct p). destruct Hr' as [Hs Hf].
  destruct (pollOnce _ _ _ _ _ _) as [[[p' s'] evs] res] eqn:Ep.
  destruct (pollOnce_offset _ _ _ _ _ _ _ _ _ _ (Forall_impl _ _ _ Hf (fun u Hu => proj2 Hu)) Ho Ep) as (E & Ho' & Hle & Hlt).
  destruct (IH p' s' Ho') as [Hs' Hf'].
  { rewrite E. eapply Forall_impl; [exact Hall|]. intros r0 Hr0 o. exact (Hr0 o). }
  split.
  - rewrite fmap_app. apply StronglySorted_app. split_and!; [|done|done].
    intros i j (u & -> & Hu)%list_elem_of_fmap (v & -> & Hv)%list_elem_of_fmap.
    rewrite Forall_forall in Hlt, Hf'. specialize (Hlt u Hu). specialize (Hf' v Hv). lia.
  - apply Forall_app. split; [eapply Forall_impl; [exact Hf|]; by intros u [? _]|].
    eapply Forall_impl; [exact Hf'|]. intros u Hu. cbn in Hu |- *. lia.
Qed.

Lemma run_rounds_offset http rounds : forall p s, in_int64 (offset p) -> Forall (fun r => honours p (r_reply r)) rounds ->
  let p' := (run_rounds http rounds p s).1.1 in
  p' = set_offset p (offset p') /\ offset p <= offset p' /\ Forall (fun u => UpdateID u < offset p') (handled http rounds p s).
Proof.
  induction rounds as [|r rounds IH]; intros p s Ho Hall; cbn [handled run_rounds]; [by destruct p|].
  apply Forall_cons in Hall as [Hr Hall]. pose proof (Hr (offset p)) as Hr'.
  replace (set_offset p (offset p)) with p in Hr' by (by destruct p). destruct Hr' as [_ Hf].
  destruct (pollOnce _ _ _ _ _ _) as [[[p1 s1] evs] res] eqn:Ep.
  destruct (pollOnce_offset _ _ _ _ _ _ _ _ _ _ (Forall_impl _ _ _ Hf (fun u Hu => proj2 Hu)) Ho Ep) as (E & Ho' & Hle & Hlt).
  destruct (IH p1 s1 Ho') as (E' & Hle' & Hlt').
  { rewrite E. eapply Forall_impl; [exact Hall|]. intros r0 Hr0 o. exact (Hr0 o). }
  destruct (run_rounds http rounds p1 s1) as [[p2 s2] evs2]. cbn [fst] in *.
  split_and!; [by rewrite E', E|by etrans|]. apply Forall_app. split; [|done].
  eapply Forall_impl; [exact Hlt|]. intros u Hu. cbn in Hu |- *. lia.
Qed.

(** C17: Each press is handled once: over a whole run of the poller, whatever polls fail in between and
    whatever else happens to the store, no update is handled again and they are handled in the order of
    their identifiers.  The poller ends as it began but for its offset, which is beyond all of them;
    without a token it does nothing. *)
Theorem presses_handled_once http rounds p s : in_int64 (offset p) -> Forall (fun r => honours p (r_reply r)) rounds ->
  NoDup (handled http rounds p s) /\ StronglySorted Z.lt (UpdateID <$> handled http rounds p s) /\
  (p_token p = "" -> Run http rounds (Some p) s = (Some p, s, [])) /\
  (p_token p <> "" -> exists o, (Run http rounds (Some p) s).1.1 = Some (set_offset p o) /\ offset p <= o /\
     Forall (fun u => UpdateID u < o) (handled http rounds p s)).
Proof.
  intros Ho Hall. destruct (handled_sorted http rounds p s Ho Hall) as [Hs _]. split; [|split; [done|split]].
  - apply (NoDup_fmap_1 UpdateID). revert Hs. generalize (UpdateID <$> handled http rounds p s). intros l.
    induction 1 as [|x l _ IH Hx]; constructor; [|done]. intros Hin. rewrite Forall_forall in Hx. specialize (Hx x Hin). lia.
  - intros E. cbn [Run]. by rewrite E.
  - intros E. cbn [Run]. rewrite (proj2 (str_eqb_neq _ _) E).
    destruct (run_rounds_offset http rounds p s Ho Hall) as (E' & Hle & Hlt). exists (offset (run_rounds http rounds p s).1.1).
    destruct (DeleteWebhook _ _) as [req res]. destruct (run_rounds _ _ _ _) as [[p' s'] evs]. cbn [fst] in *. by rewrite <- E'.
Qed.

(** an update is never polled twice: the offset sent with the next request is beyond every
    update of the batch, handled or ignored, and never moves back. *)
Theorem poll_offset_passes_updates http ks clk p s status upds p' s' evs r :
  Forall (fun u => in_int64 (UpdateID u + 1)) upds -> in_int64 (offset p) ->
  pollOnce http ks clk p s (UResp status (Some (true, upds))) = (p', s', evs, r) -> r = Ok tt ->
  offset p <= offset p' /\ Forall (fun u => UpdateID u < offset p') upds.
Proof.
  intros Hin Ho Hp ->. assert (Hacc : accepted (UResp status (Some (true, upds))) = upds).
  { cbn [accepted]. unfold pollOnce in Hp. by destruct (status_ok status). }
  rewrite <- Hacc in Hin |- *. by destruct (pollOnce_offset _ _ _ _ _ _ _ _ _ _ Hin Ho Hp) as (_ & _ & ? & ?).
Qed.

End claims.

(** one prompt per transaction: after a prompt was delivered every further [Notify] for the
    same identifier makes no request; after a failed delivery the identifier is forgotten, so that
    the next call tries again. *)
Theorem notify_once http http' n t t' n' req r :
  Notify http n (Some t) = (n', Some req, r) -> ID t' = ID t ->
  match r with
  | Ok _ => Notify http' n' (Some t') = (n', None, Ok tt)
  | Prelude.Err _ => sent n' = sent n /\ exists req', (Notify http' n' (Some t')).1.2 = Some req'
  end.
Proof.
  unfold Notify. intros Hn Hid. destruct (_ || _) eqn:Eg; [done|].
  destruct (decide (ID t ∈ sent n)) as [|Hni]; [done|].
  assert (Hset : ({[ID t]} ∪ sent n) ∖ {[ID t]} = sent n) by set_solver.
  destruct (http _) as [|status ack]; [|destruct (negb (status_ok status))]; simplify_eq; cbn [token chatID sent forgetSent].
  - rewrite Eg, Hid, Hset. split; [done|]. rewrite decide_False by done.
    destruct (http' _); [eauto|]. destruct (negb _); eauto.
  - rewrite Eg, Hid, Hset. split; [done|]. rewrite decide_False by done.
    destruct (http' _); [eauto|]. destruct (negb _); eauto.
  - rewrite Eg, Hid. rewrite decide_True by set_solver. done.
Qed.

(** ** Concrete presses *)
Module TgDemo.
Import Demo.
Definition poller : Poller := NewPoller (mkNotifierConfig "tok" "-100" [180; 300] "") "5, 6" 0.
Definition press (user : Z) (data : string) : telegramUpdate :=
  mkUpdate 41 (Some (mkCallbackQuery "cq" data user (Some (mkMessage 9 (-100))))).
Definition http : request -> response := fun _ => Resp 200 (Some true).
Definition tx1 : Transaction :=
  mkTransaction "tx_1" "root" "10.0.0.7" "" "" "" "" "" "" "" "" "" "" false StatePending 0.

End TgDemo.
Import Demo.
#[local] Existing Instances Sign.demo_cert Sign.LocalCA.

Lemma keyboard_roundtrip_witness :
  ParseCallbackData ("approve:" +:+ "tx_1" +:+ ":" +:+ FormatInt 300) [180; 300] = ("approve", "tx_1", seconds 300, true).
Proof.
  apply (keyboard_roundtrip "tx_1" [180; 300] 300);
    [vm_compute; reflexivity..|right; left|vm_compute; split; discriminate].
Defined.

Lemma callback_ttl_allowed_witness :
  HasPrefix "tx_1" "tx_" = true /\ ParseCallbackData "approve:tx_1:300" [180; 300] = ("approve", "tx_1", seconds 300, true).
Proof.
  assert (E : ParseCallbackData "approve:tx_1:300" [180; 300] = ("approve", "tx_1", seconds 300, true))
    by (vm_compute; reflexivity).
  split; [exact (proj1 (callback_ttl_allowed _ _ _ _ _ E))|exact E].
Defined.

Lemma ignored_press_is_acknowledged_witness :
  (handleUpdate TgDemo.http Ks.demo_loaded 0 0 0 TgDemo.poller (NewStore 0)
     (TgDemo.press 7 "approve:tx_1:300")).1 = NewStore 0.
Proof.
  destruct (ignored_press_is_acknowledged TgDemo.http Ks.demo_loaded 0 0 0 TgDemo.poller (NewStore 0)
    (TgDemo.press 7 "approve:tx_1:300")
    (mkCallbackQuery "cq" "approve:tx_1:300" 7 (Some (mkMessage 9 (-100)))) "tx_1" (seconds 300))
    as [E _]; [reflexivity|discriminate|discriminate|vm_compute; reflexivity..|exact E].
Defined.

Lemma poll_offset_passes_updates_witness :
  exists p', offset TgDemo.poller <= offset p' /\ 41 < offset p'.
Proof.
  destruct (pollOnce TgDemo.http Ks.demo_loaded 0 TgDemo.poller (NewStore 0)
    (UResp 200 (Some (true, [TgDemo.press 7 "deny:tx_1"])))) as [[[p' s'] evs] r] eqn:E.
  destruct (poll_offset_passes_updates TgDemo.http Ks.demo_loaded 0 TgDemo.poller (NewStore 0) 200
    [TgDemo.press 7 "deny:tx_1"] p' s' evs r) as [Ho Hf].
  - repeat constructor; vm_compute; discriminate.
  - vm_compute. split; discriminate.
  - exact E.
  - apply (f_equal snd) in E. vm_compute in E. symmetry. exact E.
  - exists p'. split; [exact Ho|]. apply Forall_cons in Hf as [Hx _]. exact Hx.
Defined.

(** Presses 40, 41 and 42, with a failed poll in between. *)
Definition demo_reply (o : Z) (ids : list Z) (url : string) : updates :=
  UResp 200 (Some (true, if url =s getUpdates_url (set_offset TgDemo.poller o)
                         then map (fun i => mkUpdate i (CallbackQuery (TgDemo.press 7 "deny:tx_1"))) ids else [])).
Definition demo_rounds : list round :=
  [mkRound (demo_reply 0 [40; 41]) 0 Ks.demo_loaded id; mkRound (fun _ => UErr) 0 Ks.demo_loaded id;
   mkRound (demo_reply 42 [42]) 0 Ks.demo_loaded id].

Lemma getUpdates_offset a b : getUpdates_url (set_offset TgDemo.poller a) = getUpdates_url (set_offset TgDemo.poller b) ->
  a = b \/ (a <= 0 /\ b <= 0).
Proof.
  unfold getUpdates_url. cbn [set_offset offset p_token p_baseURL pollTimeout TgDemo.poller NewPoller].
  intros E%(inj (String.app _))%(inj (String.app _))%(inj (String.app _))%(inj (String.app _)).
  destruct (0 <? a) eqn:Ea, (0 <? b) eqn:Eb; bool_prop; [|discriminate E|discriminate E|by right].
  left. apply (f_equal bytes_of) in E. rewrite !bytes_of_app in E. simplify_list_eq. by apply FormatInt_inj, bytes_of_inj.
Qed.

Lemma demo_honours o ids : 0 <= o -> StronglySorted Z.lt ids -> Forall (fun i => o <= i /\ in_int64 (i + 1)) ids ->
  honours TgDemo.poller (demo_reply o ids).
Proof.
  intros Hpos Hs Hf b. unfold demo_reply. cbn [accepted status_ok]. destruct (_ =s _) eqn:E; [|split; constructor]. str_prop.
  apply getUpdates_offset in E. change (status_ok 200) with true. cbv iota. split.
  - rewrite <- list_fmap_compose. cbn. by rewrite map_id.
  - apply Forall_fmap. eapply Forall_impl; [exact Hf|]. intros i [H1 H2]. cbn. split; [lia|done].
Qed.

Lemma presses_handled_once_witness :
  Forall (fun r => honours TgDemo.poller (r_reply r)) demo_rounds /\
  (UpdateID <$> handled TgDemo.http demo_rounds TgDemo.poller (NewStore 0)) = [40; 41; 42] /\
  NoDup (handled TgDemo.http demo_rounds TgDemo.poller (NewStore 0)).
Proof.
  assert (Hall : Forall (fun r => honours TgDemo.poller (r_reply r)) demo_rounds).
  { repeat apply Forall_cons_2; [apply demo_honours| |apply demo_honours|apply Forall_nil_2];
      try (intros o; split; constructor); repeat constructor; try done. }
  split; [exact Hall|]. split; [vm_compute; reflexivity|].
  destruct (presses_handled_once TgDemo.http demo_rounds TgDemo.poller (NewStore 0)) as [Hn _]; [vm_compute; split; discriminate|exact Hall|exact Hn].
Defined.

Lemma notify_once_witness :
  let n := NewNotifier (mkNotifierConfig "tok" "-100" [180; 300] "") in
  let n' := (Notify TgDemo.http n (Some TgDemo.tx1)).1.1 in
  Notify TgDemo.http n' (Some TgDemo.tx1) = (n', None, Ok tt).
Proof.
  intros n n'. destruct (Notify TgDemo.http n (Some TgDemo.tx1)) as [[m o] r] eqn:E.
  destruct o as [req|]; [|apply (f_equal (fun x => x.1.2)) in E; vm_compute in E; discriminate].
  assert (Hr : r = Ok tt) by (apply (f_equal snd) in E; vm_compute in E; symmetry; exact E).
  pose proof (notify_once TgDemo.http TgDemo.http n TgDemo.tx1 TgDemo.tx1 m req r E eq_refl) as Hx.
  rewrite Hr in Hx. exact Hx.
Defined.

End Tg.
