(* ===== verification/Devices.v ===== *)
(** * Enrolled devices and the load limiter

    The in-memory registries of mobile approvers (proxy/internal/mobile) and of operator command
    line clients (proxy/internal/cli/store.go, validate.go), and the limiter of remote key loads
    (proxy/internal/cli/ratelimit.go).  A registry hands out pointers to its devices, but no code
    writes through them, so devices are values. *)

From S2P Require Import Prelude GoTime GoStrings GoEncoding External.

(** ** Mobile approvers *)
Module Mob.

Definition ErrNotFound : error := ENew "mobile" "device not found".
Definition ErrInvalidKey : error := ENew "mobile" "invalid device public key".
Definition ErrEmptyLabel : error := ENew "mobile" "device label required".

Record Device := mkDevice {
  ID : string;
  Label : string;
  PubKey : list byte;
  CertFingerprint : string;
  EnrolledAt : Z
}.

Notation Store := (gmap string Device).
Definition NewStore : Store := ∅.

(** [ulid] is the text of the fresh ULID, [now] the clock read for [EnrolledAt]. *)
Definition EnrollBound (ulid : string) (now : Z) (s : Store)
    (label devicePubKeyB64 certFingerprint : string) : Store * result Device :=
  if label =s "" then (s, Err ErrEmptyLabel) else
  match StdDecodeString devicePubKeyB64 with
  | None => (s, Err ErrInvalidKey)
  | Some raw =>
      if negb (length raw =? 32)%nat then (s, Err ErrInvalidKey) else
      let id := "dev_" +:+ ulid in
      let dev := mkDevice id label raw certFingerprint now in
      (<[id := dev]> s, Ok dev)
  end.

Definition Enroll (ulid : string) (now : Z) (s : Store) (label devicePubKeyB64 : string)
  : Store * result Device :=
  EnrollBound ulid now s label devicePubKeyB64 "".

Definition Get (s : Store) (id : string) : option Device := s !! id.

(** The listing in one iteration order. *)
Definition List (s : Store) : list Device := (map_to_list s).*2.

Definition Delete (s : Store) (id : string) : Store * result unit :=
  match s !! id with
  | None => (s, Err ErrNotFound)
  | Some _ => (delete id s, Ok tt)
  end.

(** The push notifier is a stub whatever the credentials. *)
Definition ErrPushNotConfigured : error := ENew "mobile" "mobile push not configured".
Inductive PushNotifier := StubNotifier.
Definition NewPushNotifier (fcmCredentials : string) : PushNotifier :=
  if fcmCredentials =s "" then StubNotifier else StubNotifier.
Definition NotifyPending (n : PushNotifier) : result unit :=
  match n with StubNotifier => Err ErrPushNotConfigured end.

(** *** Invariant: a device is stored under its own id, has a label and a 32-byte key. *)
Definition device_wf (id : string) (d : Device) : Prop :=
  ID d = id /\ Label d <> "" /\ length (PubKey d) = 32%nat.
Definition wf (s : Store) : Prop := map_Forall device_wf s.

Inductive step : Store -> Store -> Prop :=
| step_enroll ulid now s label key fp : step s (fst (EnrollBound ulid now s label key fp))
| step_delete s id : step s (fst (Delete s id)).

Lemma EnrollBound_ok ulid now s label key fp s' d :
  EnrollBound ulid now s label key fp = (s', Ok d) ->
  s' = <[ID d := d]> s /\ device_wf (ID d) d /\ CertFingerprint d = fp /\
  StdDecodeString key = Some (PubKey d).
Proof.
  unfold EnrollBound, device_wf. intros H. split_match; str_prop; simplify_eq/=. done.
Qed.

Lemma EnrollBound_err ulid now s label key fp s' e :
  EnrollBound ulid now s label key fp = (s', Err e) -> s' = s.
Proof. unfold EnrollBound. intros H. split_match; done. Qed.

Lemma mobile_reachable_wf s : rtc step NewStore s -> wf s.
Proof.
  intros H. eapply rtc_invariant; [|done|apply map_Forall_empty].
  intros a b Hst Ha. destruct Hst as [ulid now a label key fp|a id].
  - destruct (EnrollBound ulid now a label key fp) as [s' [d|e]] eqn:E.
    + apply EnrollBound_ok in E as (-> & Hd & _). by apply map_Forall_insert_2.
    + apply EnrollBound_err in E as ->. done.
  - unfold Delete. destruct (a !! id); [by apply map_Forall_delete|done].
Qed.

End Mob.

(** ** Command line clients *)
Module Cli.

Definition ErrNotFound : error := ENew "cli" "device not found".
Definition ErrEmptyLabel : error := ENew "cli" "device label required".
Definition ErrDuplicateFingerprint : error := ENew "cli" "certificate fingerprint already enrolled".
Definition ErrLabelTooLong : error := ENew "cli" "device label too long".
Definition MaxLabelLen : Z := 128.

Record Device := mkDevice {
  ID : string;
  Label : string;
  CertFingerprint : string;
  EnrolledAt : Z
}.

#[export] Instance Device_eq_dec : EqDecision Device.
Proof. solve_decision. Defined.

Notation Store := (gmap string Device).
Definition NewStore : Store := ∅.

Definition ValidateLabel (label : string) : result unit :=
  if label =s "" then Err ErrEmptyLabel else
  if MaxLabelLen <? len label then Err ErrLabelTooLong else Ok tt.

(** [for _, d := range s.devices { if d.CertFingerprint == fp { return d, true } }], in one
    iteration order of the map. *)
Fixpoint find_fingerprint (fp : string) (order : list (string * Device)) : option Device :=
  match order with
  | [] => None
  | (_, d) :: order' => if CertFingerprint d =s fp then Some d else find_fingerprint fp order'
  end.

Definition Enroll (ulid : string) (now : Z) (s : Store) (label certFingerprint : string)
  : Store * result Device :=
  match ValidateLabel label with
  | Err e => (s, Err e)
  | Ok _ =>
      match find_fingerprint certFingerprint (map_to_list s) with
      | Some _ => (s, Err ErrDuplicateFingerprint)
      | None =>
          let id := "cli_" +:+ ulid in
          let dev := mkDevice id label certFingerprint now in
          (<[id := dev]> s, Ok dev)
      end
  end.

Definition GetByFingerprint (s : Store) (fp : string) : option Device :=
  find_fingerprint fp (map_to_list s).

Definition List (s : Store) : list Device := (map_to_list s).*2.

Definition Delete (s : Store) (id : string) : Store * result unit :=
  match s !! id with
  | None => (s, Err ErrNotFound)
  | Some _ => (delete id s, Ok tt)
  end.

(** *** Invariant: ids are keys, labels are within their limits, no certificate is enrolled twice. *)
Definition device_wf (id : string) (d : Device) : Prop :=
  ID d = id /\ ValidateLabel (Label d) = Ok tt.
Definition one_device_per_cert (s : Store) : Prop :=
  forall i j d e, s !! i = Some d -> s !! j = Some e ->
    CertFingerprint d = CertFingerprint e -> i = j.
Definition wf (s : Store) : Prop := map_Forall device_wf s /\ one_device_per_cert s.

Inductive step : Store -> Store -> Prop :=
| step_enroll ulid now s label fp : step s (fst (Enroll ulid now s label fp))
| step_delete s id : step s (fst (Delete s id)).

Lemma find_fingerprint_some fp order d :
  find_fingerprint fp order = Some d -> CertFingerprint d = fp /\ exists i, (i, d) ∈ order.
Proof.
  induction order as [|[i e] order IH]; simpl; intros H; [done|]. split_match; str_prop.
  - split; [done|]. exists i. by left.
  - destruct (IH H) as (? & j & ?). split; [done|]. exists j. by right.
Qed.

Lemma find_fingerprint_none fp order i d :
  find_fingerprint fp order = None -> (i, d) ∈ order -> CertFingerprint d <> fp.
Proof.
  induction order as [|[j e] order IH]; simpl; intros H Hin; [by apply not_elem_of_nil in Hin|].
  split_match; str_prop. apply elem_of_cons in Hin as [?|?]; simplify_eq; auto.
Qed.

Lemma Enroll_ok ulid now s label fp s' d :
  Enroll ulid now s label fp = (s', Ok d) ->
  s' = <[ID d := d]> s /\ device_wf (ID d) d /\ CertFingerprint d = fp /\
  map_Forall (fun _ e => CertFingerprint e <> fp) s.
Proof.
  unfold Enroll, device_wf. intros H. destruct (ValidateLabel label) as [[]|] eqn:E; [|done].
  destruct (find_fingerprint fp (map_to_list s)) eqn:F; simplify_eq/=. repeat split; try done.
  intros i e Hi. eapply find_fingerprint_none; [done|]. by apply elem_of_map_to_list.
Qed.

Lemma Enroll_err ulid now s label fp s' e :
  Enroll ulid now s label fp = (s', Err e) -> s' = s.
Proof. unfold Enroll. intros H. split_match; done. Qed.

Lemma one_per_cert_insert s i d :
  one_device_per_cert s -> map_Forall (fun _ e => CertFingerprint e <> CertFingerprint d) s ->
  one_device_per_cert (<[i := d]> s).
Proof.
  intros H Hn j k d1 d2 Hj Hk E.
  destruct (decide (i = j)) as [->|Hij], (decide (j = k)) as [->|Hjk]; try done.
  - rewrite lookup_insert_eq in Hj. rewrite lookup_insert_ne in Hk by done. simplify_eq.
    by destruct (Hn _ _ Hk).
  - rewrite lookup_insert_ne in Hj by done. destruct (decide (i = k)) as [->|Hik].
    + rewrite lookup_insert_eq in Hk. simplify_eq. by destruct (Hn _ _ Hj).
    + rewrite lookup_insert_ne in Hk by done. eauto.
Qed.

Lemma cli_reachable_wf s : rtc step NewStore s -> wf s.
Proof.
  intros H. eapply rtc_invariant; [|done|].
  2: { split; [apply map_Forall_empty|]. unfold NewStore. intros i j d e Hi. by rewrite lookup_empty in Hi. }
  intros a b Hst [Ha Hone]. destruct Hst as [ulid now a label fp|a id].
  - destruct (Enroll ulid now a label fp) as [s' [d|e]] eqn:E.
    + apply Enroll_ok in E as (-> & Hd & <- & Hn). split; [by apply map_Forall_insert_2|].
      by apply one_per_cert_insert.
    + by apply Enroll_err in E as ->.
  - unfold Delete. destruct (a !! id) as [d0|]; [|done]. cbn [fst]. split; [by apply map_Forall_delete|].
    intros i j d e [_ Hi]%lookup_delete_Some [_ Hj]%lookup_delete_Some. eauto.
Qed.

(** With one device per certificate a lookup is a function of the registry. *)
Lemma find_fingerprint_unique s order fp d :
  one_device_per_cert s -> iteration_of s order ->
  find_fingerprint fp order = Some d <-> exists i, s !! i = Some d /\ CertFingerprint d = fp.
Proof.
  intros Hone Hit. split.
  - intros (Hfp & i & Hi)%find_fingerprint_some. exists i. split; [|done].
    by apply (iteration_elem _ _ _ _ Hit).
  - intros (i & Hi & Hfp). destruct (find_fingerprint fp order) as [e|] eqn:E.
    + apply find_fingerprint_some in E as (He & j & Hj). apply (iteration_elem _ _ _ _ Hit) in Hj.
      assert (i = j) as <- by (eapply Hone; [done..|congruence]). congruence.
    + apply (iteration_elem _ _ _ _ Hit) in Hi. by destruct (find_fingerprint_none _ _ _ _ E Hi).
Qed.

(** In every registry reachable by enrolling and revoking, a certificate is enrolled for at
    most one device and every label is non-empty and at most 128 bytes; looking a certificate up
    gives the same device in every iteration order of the map, namely the one enrolled with it; and
    enrolling a certificate that a lookup finds is refused and changes nothing. *)
Theorem cli_registry_invariant (s : Store) (order : list (string * Device)) (fp : string) :
  rtc step NewStore s -> iteration_of s order ->
  wf s /\
  find_fingerprint fp order = GetByFingerprint s fp /\
  (forall d, GetByFingerprint s fp = Some d <-> exists i, s !! i = Some d /\ CertFingerprint d = fp) /\
  (forall d ulid now label, GetByFingerprint s fp = Some d -> ValidateLabel label = Ok tt ->
    Enroll ulid now s label fp = (s, Err ErrDuplicateFingerprint)).
Proof.
  intros [Hw Hone]%cli_reachable_wf Hit.
  assert (Hu := fun order Hi d => find_fingerprint_unique s order fp d Hone Hi).
  split; [by split|]. split; [|split; [by intros d; apply Hu, iteration_self|]].
  - apply option_eq. intros d. unfold GetByFingerprint.
    by rewrite (Hu order), (Hu (map_to_list s)) by auto with luna.
  - intros d ulid now label Hd Hl. unfold Enroll. rewrite Hl. unfold GetByFingerprint in Hd.
    by rewrite Hd.
Qed.

Lemma cli_registry_invariant_witness :
  let s := fst (Enroll "A" 5 NewStore "laptop" "fp1") in
  Enroll "B" 6 s "other" "fp1" = (s, Err ErrDuplicateFingerprint).
Proof.
  intros s. assert (Hr : rtc step NewStore s) by (apply rtc_once, step_enroll).
  destruct (cli_registry_invariant s (map_to_list s) "fp1" Hr (iteration_self s))
    as (_ & _ & _ & H).
  by apply (H (mkDevice "cli_A" "laptop" "fp1" 5)).
Defined.

End Cli.

(** ** The limiter of remote key loads *)
Module Rate.

Definition loadRateLimitCount : Z := 10.
Definition loadRateLimitWindow : Z := Hour.

(** Per device, the times of its recorded loads. *)
Record LoadRateLimiter := mkLimiter { loads : gmap string (list Z) }.
Definition NewLoadRateLimiter : LoadRateLimiter := mkLimiter ∅.

(** The in-place compaction of [pruneLocked]: [i] is the index of the range loop, [n] the write
    index, [k] the number of elements left. *)
Fixpoint compact (cutoff : Z) (times : list Z) (i n k : nat) : list Z * nat :=
  match k, times !! i with
  | S k', Some ts =>
      if After ts cutoff then compact cutoff (<[n := ts]> times) (S i) (S n) k'
      else compact cutoff times (S i) n k'
  | _, _ => (times, n)
  end.

Definition pruneLocked (l : LoadRateLimiter) (deviceID : string) (cutoff : Z)
  : LoadRateLimiter * list Z :=
  let times := default [] (loads l !! deviceID) in
  let '(arr, n) := compact cutoff times 0 0 (length times) in
  let times := take n arr in
  (mkLimiter (if (length times =? 0)%nat then delete deviceID (loads l)
              else <[deviceID := times]> (loads l)), times).

Definition Allowed (now : Z) (l : LoadRateLimiter) (deviceID : string) : LoadRateLimiter * bool :=
  if deviceID =s "" then (l, false) else
  let '(l, times) := pruneLocked l deviceID (Add now (- loadRateLimitWindow)) in
  (l, Z.of_nat (length times) <? loadRateLimitCount).

Definition TryRecordSuccess (now : Z) (l : LoadRateLimiter) (deviceID : string)
  : LoadRateLimiter * bool :=
  if deviceID =s "" then (l, false) else
  let cutoff := Add now (- loadRateLimitWindow) in
  let '(l, times) := pruneLocked l deviceID cutoff in
  if loadRateLimitCount <=? Z.of_nat (length times) then (l, false) else
  (mkLimiter (<[deviceID := times ++ [now]]> (loads l)), true).

Definition Forget (l : LoadRateLimiter) (deviceID : string) : LoadRateLimiter :=
  if deviceID =s "" then l else mkLimiter (delete deviceID (loads l)).

(** *** The compaction is a filter *)
Lemma compact_spec cutoff times i n k :
  length times = (i + k)%nat -> (n <= i)%nat ->
  let '(arr, m) := compact cutoff times i n k in
  take m arr = take n times ++ filter (fun ts => cutoff < ts) (drop i times).
Proof.
  revert times i n. induction k as [|k IH]; intros times i n Hlen Hn; simpl.
  { rewrite drop_ge by lia. by rewrite filter_nil, app_nil_r. }
  destruct (lookup_lt_is_Some_2 times i) as [ts Hts]; [lia|]. rewrite Hts.
  rewrite (drop_S _ _ _ Hts), filter_cons. destruct (After ts cutoff) eqn:Ea; time_prop.
  - specialize (IH (<[n := ts]> times) (S i) (S n)). rewrite length_insert in IH.
    specialize (IH ltac:(lia) ltac:(lia)). destruct (compact _ _ _ _ _) as [arr m].
    rewrite IH, drop_insert_lt, decide_True by (done || lia).
    rewrite (take_S_r _ _ ts) by (apply list_lookup_insert_eq; lia).
    by rewrite take_insert_ge, <- app_assoc by lia.
  - rewrite decide_False by lia. apply IH; lia.
Qed.

Lemma pruneLocked_times l d cutoff :
  (pruneLocked l d cutoff).2 = filter (fun ts => cutoff < ts) (default [] (loads l !! d)).
Proof.
  unfold pruneLocked. set (times := default [] _).
  pose proof (compact_spec cutoff times 0 0 (length times) eq_refl ltac:(lia)) as H.
  destruct (compact _ _ _ _ _) as [arr n]. simpl in *. by rewrite H, drop_0.
Qed.

(** The stored times of a device after a prune, and of the others. *)
Lemma pruneLocked_stored l d cutoff e :
  default [] (loads (pruneLocked l d cutoff).1 !! e) =
  if decide (e = d) then (pruneLocked l d cutoff).2 else default [] (loads l !! e).
Proof.
  unfold pruneLocked. destruct (compact _ _ _ _ _) as [arr n]. simpl.
  destruct (decide (e = d)) as [->|Hne].
  - destruct (take n arr); simpl; [by rewrite lookup_delete_eq|by rewrite lookup_insert_eq].
  - destruct (_ =? 0)%nat; [by rewrite lookup_delete_ne|by rewrite lookup_insert_ne].
Qed.

(** *** Histories

    [reach l t h]: the limiter after a sequence of calls whose clock readings never go back, the
    last of them [t]; [h] lists the recorded loads of every device since its last [Forget]. *)
Inductive reach : LoadRateLimiter -> Z -> list (string * Z) -> Prop :=
| reach_new t : reach NewLoadRateLimiter t []
| reach_allowed l t h now d : reach l t h -> t <= now -> reach (Allowed now l d).1 now h
| reach_try l t h now d : reach l t h -> t <= now ->
    reach (TryRecordSuccess now l d).1 now
      (if (TryRecordSuccess now l d).2 then h ++ [(d, now)] else h)
| reach_forget l t h d : reach l t h ->
    reach (Forget l d) t (filter (fun e => e.1 <> d) h).

(** The loads of [d] in the interval (a, b]. *)
Definition window (h : list (string * Z)) (d : string) (a b : Z) : nat :=
  length (filter (fun e : string * Z => e.1 = d /\ a < e.2 <= b) h).

Definition times_of (h : list (string * Z)) (d : string) : list Z :=
  (filter (fun e : string * Z => e.1 = d) h).*2.

(** What is stored is a suffix of the history that reaches back at least one window. *)
Definition inv (l : LoadRateLimiter) (t : Z) (h : list (string * Z)) : Prop :=
  times_of h "" = [] /\
  Forall (fun e => e.2 <= t) h /\
  forall d, exists c, c <= t - loadRateLimitWindow /\
    default [] (loads l !! d) = filter (fun ts => c < ts) (times_of h d).

Lemma filter_later c c' (ts : list Z) :
  c <= c' -> filter (fun x => c' < x) (filter (fun x => c < x) ts) = filter (fun x => c' < x) ts.
Proof. intros Hc. apply list_filter_filter_l. lia. Qed.

Lemma filter_agree {A} (P Q : A -> Prop) `{!forall x, Decision (P x), !forall x, Decision (Q x)} l :
  Forall (fun x => P x <-> Q x) l -> filter P l = filter Q l.
Proof.
  induction 1 as [|x l Hx _ IH]; [done|]. rewrite !filter_cons, IH.
  destruct (decide (P x)), (decide (Q x)); try done; tauto.
Qed.

Lemma prune_history l t h now d :
  inv l t h -> t <= now ->
  (pruneLocked l d (now - loadRateLimitWindow)).2 =
  filter (fun ts => now - loadRateLimitWindow < ts) (times_of h d).
Proof.
  intros (_ & _ & H) Ht. destruct (H d) as (c & Hc & E).
  rewrite pruneLocked_times, E. apply filter_later. lia.
Qed.

Lemma prune_inv l t h now d :
  inv l t h -> t <= now -> inv (pruneLocked l d (now - loadRateLimitWindow)).1 now h.
Proof.
  intros Hi Ht. pose proof (prune_history l t h now d Hi Ht) as Hp.
  destruct Hi as (H0 & Hle & H). split; [done|]. split.
  { eapply Forall_impl; [done|]. simpl. lia. }
  intros e. rewrite pruneLocked_stored. destruct (decide (e = d)) as [->|].
  - exists (now - loadRateLimitWindow). split; [lia|done].
  - destruct (H e) as (c & ? & ?). exists c. split; [lia|done].
Qed.

Lemma times_of_app h d e now :
  times_of (h ++ [(d, now)]) e = times_of h e ++ (if decide (d = e) then [now] else []).
Proof.
  unfold times_of. rewrite filter_app, fmap_app, filter_cons, filter_nil. simpl.
  by destruct (decide (d = e)).
Qed.

Lemma window_times h d a b :
  window h d a b = length (filter (fun x => a < x <= b) (times_of h d)).
Proof.
  unfold window, times_of. induction h as [|[e x] h IH]; [done|]. rewrite !filter_cons. simpl.
  destruct (decide (e = d)); csimpl.
  - rewrite filter_cons. destruct (decide (a < x <= b)).
    + rewrite decide_True by tauto. simpl. by rewrite IH.
    + rewrite decide_False by tauto. done.
  - rewrite decide_False by tauto. done.
Qed.

Lemma times_of_filter h d e :
  times_of (filter (fun x : string * Z => x.1 <> d) h) e = if decide (e = d) then [] else times_of h e.
Proof.
  unfold times_of. induction h as [|[e' x] h IH]; [by destruct (decide _)|]. rewrite !filter_cons.
  simpl. destruct (decide (e' <> d)); [rewrite filter_cons; simpl|];
    destruct (decide (e' = e)), (decide (e = d)); subst; csimpl; rewrite ?IH; try done;
    try (exfalso; tauto).
Qed.

(** The clock bound: later reads of the same window see the same loads. *)
Lemma recent_window h d now :
  Forall (fun e => e.2 <= now) h ->
  filter (fun ts => now - loadRateLimitWindow < ts) (times_of h d) =
  filter (fun x => now - loadRateLimitWindow < x <= now) (times_of h d).
Proof.
  intros Hle. apply filter_agree. apply Forall_forall.
  rewrite Forall_forall in Hle. unfold times_of. intros x ([e y] & -> & He)%list_elem_of_fmap.
  apply list_elem_of_filter in He as [_ He]. apply Hle in He. simpl in *. lia.
Qed.

Lemma TryRecordSuccess_history l t h now d :
  inv l t h -> t <= now -> d <> "" ->
  (TryRecordSuccess now l d).2 =
  (Z.of_nat (window h d (now - loadRateLimitWindow) now) <? loadRateLimitCount).
Proof.
  intros Hi Ht Hd. pose proof (prune_history l t h now d Hi Ht) as Hp. destruct Hi as (_ & Hle & _).
  rewrite recent_window in Hp by (eapply Forall_impl; [done|simpl; lia]).
  rewrite window_times, <- Hp. unfold TryRecordSuccess, Add, loadRateLimitCount.
  replace (now + - loadRateLimitWindow) with (now - loadRateLimitWindow) by lia.
  apply str_eqb_neq in Hd as ->. destruct (pruneLocked _ _ _) as [l' times]. simpl.
  destruct (Z.leb_spec 10 (Z.of_nat (length times))); simpl;
    [by rewrite (proj2 (Z.ltb_ge _ _)) by lia|by rewrite (proj2 (Z.ltb_lt _ _)) by lia].
Qed.

Lemma TryRecordSuccess_inv l t h now d :
  inv l t h -> t <= now ->
  inv (TryRecordSuccess now l d).1 now (if (TryRecordSuccess now l d).2 then h ++ [(d, now)] else h).
Proof.
  intros Hi Ht. unfold TryRecordSuccess, Add.
  replace (now + - loadRateLimitWindow) with (now - loadRateLimitWindow) by lia.
  destruct (d =s "") eqn:Ed; str_prop; simpl.
  { destruct Hi as (H0 & Hle & H). split; [done|]. split; [eapply Forall_impl; [done|simpl; lia]|].
    intros e. destruct (H e) as (c & ? & ?). exists c. split; [lia|done]. }
  pose proof (prune_history l t h now d Hi Ht) as Hp.
  pose proof (prune_inv l t h now d Hi Ht) as (H0 & Hle & H).
  destruct (pruneLocked _ _ _) as [l' times]. simpl in *. destruct (_ <=? _); simpl; [done|].
  split; [|split].
  - by rewrite times_of_app, H0, decide_False by congruence.
  - rewrite Forall_app, Forall_singleton. simpl. split; [done|lia].
  - intros e. cbn [loads]. rewrite times_of_app. destruct (decide (d = e)) as [<-|Hne].
    + exists (now - loadRateLimitWindow). split; [lia|]. rewrite lookup_insert_eq. simpl.
      rewrite filter_app, Hp, filter_cons, decide_True; [done|].
      unfold loadRateLimitWindow, Hour, Minute, Second. lia.
    + rewrite lookup_insert_ne, app_nil_r by done. apply H.
Qed.

Lemma reach_inv l t h : reach l t h -> inv l t h.
Proof.
  induction 1 as [t|l t h now d _ IH Ht|l t h now d _ IH Ht|l t h d _ IH].
  - split; [done|]. split; [done|]. intros d. exists (t - loadRateLimitWindow). split; [lia|done].
  - unfold Allowed, Add. replace (now + - loadRateLimitWindow) with (now - loadRateLimitWindow) by lia.
    destruct (d =s ""); simpl.
    + destruct IH as (H0 & Hle & H). split; [done|]. split; [eapply Forall_impl; [done|simpl; lia]|].
      intros e. destruct (H e) as (c & ? & ?). exists c. split; [lia|done].
    + pose proof (prune_inv l t h now d IH Ht). by destruct (pruneLocked _ _ _).
  - by apply (TryRecordSuccess_inv l t).
  - destruct IH as (H0 & Hle & H). split; [|split].
    + rewrite times_of_filter. by destruct (decide _).
    + apply Forall_forall. intros x [_ Hx]%list_elem_of_filter. rewrite Forall_forall in Hle. auto.
    + intros e. rewrite times_of_filter. destruct (H e) as (c & ? & E). exists c. split; [lia|].
      unfold Forget. destruct (d =s "") eqn:Ed; str_prop; subst; simpl.
      * destruct (decide (e = "")) as [->|]; [|done]. by rewrite E, H0.
      * destruct (decide (e = d)) as [->|]; [by rewrite lookup_delete_eq|by rewrite lookup_delete_ne].
Qed.

Lemma window_app h d e now a b :
  window (h ++ [(d, now)]) e a b =
  (window h e a b + if decide (d = e /\ (a < now <= b)%Z) then 1 else 0)%nat.
Proof.
  unfold window. rewrite filter_app, length_app, filter_cons, filter_nil. simpl.
  by destruct (decide _).
Qed.

Lemma window_mono h d a b a' b' :
  (forall x, (d, x) ∈ h -> a < x <= b -> a' < x <= b') -> (window h d a b <= window h d a' b')%nat.
Proof.
  unfold window. induction h as [|[e x] h IH]; intros H; [done|]. rewrite !filter_cons. simpl.
  specialize (IH ltac:(intros y Hy; apply H; by right)).
  destruct (decide (e = d /\ a < x <= b)) as [[-> Hx]|]; simpl.
  - rewrite decide_True; [simpl; lia|]. split; [done|]. apply H; [by left|done].
  - destruct (decide _); simpl; lia.
Qed.

Lemma reach_window l t h d a :
  reach l t h -> Z.of_nat (window h d a (a + loadRateLimitWindow)) <= loadRateLimitCount.
Proof.
  induction 1 as [t|l t h now e Hr IH Ht|l t h now e Hr IH Ht|l t h e Hr IH]; [done|done| |].
  - destruct (TryRecordSuccess now l e).2 eqn:E; [|done]. rewrite window_app.
    destruct (decide _) as [[-> Hin]|]; [|by rewrite Nat.add_0_r].
    destruct (decide (d = "")) as [->|Hd]; [done|].
    rewrite (TryRecordSuccess_history l t h) in E by eauto using reach_inv. bool_prop.
    apply reach_inv in Hr as (_ & Hle & _). rewrite Forall_forall in Hle.
    assert (window h d a (a + loadRateLimitWindow)
            <= window h d (now - loadRateLimitWindow) now)%nat.
    { apply window_mono. intros x Hx%Hle ?. simpl in Hx. lia. }
    lia.
  - etrans; [|apply IH]. rewrite !window_times, times_of_filter.
    destruct (decide _); [simpl; lia|done].
Qed.

(** After any sequence of calls whose clock never goes back: a load of an enrolled device is
    recorded exactly when fewer than ten loads of it were recorded in the hour that ends now, so
    that no hour, wherever it starts, holds more than ten recorded loads of one device since its
    history was last forgotten; and the read-only check answers what an attempt would. *)
Theorem load_rate_limit (l : LoadRateLimiter) (t now : Z) (h : list (string * Z)) (d : string) :
  reach l t h -> t <= now -> d <> "" ->
  (TryRecordSuccess now l d).2 =
    (Z.of_nat (window h d (now - loadRateLimitWindow) now) <? loadRateLimitCount) /\
  (Allowed now l d).2 = (TryRecordSuccess now l d).2 /\
  forall a, Z.of_nat (window h d a (a + loadRateLimitWindow)) <= loadRateLimitCount.
Proof.
  intros Hr Ht Hd. split; [|split].
  - by eapply TryRecordSuccess_history; [apply reach_inv|..].
  - unfold Allowed, TryRecordSuccess. apply str_eqb_neq in Hd as ->.
    destruct (pruneLocked _ _ _) as [l' times]. destruct (Z.leb_spec loadRateLimitCount (Z.of_nat (length times)));
      simpl; [by apply Z.ltb_ge|by apply Z.ltb_lt].
  - intros a. by apply (reach_window l t).
Qed.

Fixpoint record_all (l : LoadRateLimiter) (d : string) (times : list Z) : LoadRateLimiter * list (string * Z) :=
  match times with
  | [] => (l, [])
  | now :: times' =>
      let '(l', ok) := TryRecordSuccess now l d in
      let '(l'', h) := record_all l' d times' in
      (l'', if ok then (d, now) :: h else h)
  end.

Lemma record_all_reach l t h d times :
  reach l t h -> Sorted Z.le (t :: times) ->
  reach (record_all l d times).1 (List.last times t) (h ++ (record_all l d times).2).
Proof.
  revert l t h. induction times as [|now times IH]; intros l t h Hr Hs; simpl.
  { by rewrite app_nil_r. }
  apply Sorted_inv in Hs as [Hs Ht]. apply HdRel_inv in Ht.
  pose proof (reach_try l t h now d Hr Ht) as H.
  destruct (TryRecordSuccess now l d) as [l' ok]. simpl in H.
  specialize (IH _ _ _ H Hs). destruct (record_all l' d times) as [l'' h']. simpl in *.
  replace (match times with [] => now | _ :: _ => List.last times t end) with (List.last times now).
  - destruct ok; [by rewrite <- app_assoc in IH|done].
  - destruct times as [|x times]; [done|]. clear. revert x.
    induction times as [|y times IH]; intros x; [done|]. apply IH.
Qed.

Lemma load_rate_limit_witness :
  (TryRecordSuccess (Hour + 3) (record_all NewLoadRateLimiter "cli_A" (seqZ 1 12)).1 "cli_A").2 = true /\
  (TryRecordSuccess Hour (record_all NewLoadRateLimiter "cli_A" (seqZ 1 12)).1 "cli_A").2 = false.
Proof.
  set (r := record_all NewLoadRateLimiter "cli_A" (seqZ 1 12)).
  assert (Hr : reach r.1 12 r.2).
  { apply (record_all_reach NewLoadRateLimiter 0 [] "cli_A" (seqZ 1 12)); [constructor|].
    vm_compute. repeat constructor; done. }
  split.
  - by rewrite (proj1 (load_rate_limit r.1 12 (Hour + 3) r.2 "cli_A" Hr ltac:(done) ltac:(done))).
  - by rewrite (proj1 (load_rate_limit r.1 12 Hour r.2 "cli_A" Hr ltac:(done) ltac:(done))).
Defined.

End Rate.
