(* ===== verification/Csr.v ===== *)
(** * Client certificates (proxy/internal/cli/csr.go)

    The proxy issues mTLS client certificates from certificate signing requests, for operator
    command line clients (with their role OU) and for automation clients (with none), and its
    handlers tell the roles apart by the OUs of the peer certificate (api/auth_cli.go,
    api/admin_handler.go).  [encoding/pem], [crypto/x509] and the file system are interfaces. *)

From Stdlib Require Import Ascii.
From S2P Require Import Prelude GoTime GoStrings GoEncoding External Fingerprint Config.

(** ** Roles of client certificates *)
Module Role.

Definition adminClientAllowed (requiredOU : string) (cert : Certificate) : bool :=
  if requiredOU =s "" then false else existsb (fun ou => ou =s requiredOU) (OrganizationalUnit cert).

Definition cliClientAllowed (requiredOU : string) (cert : Certificate) : bool :=
  if requiredOU =s "" then false else existsb (fun ou => ou =s requiredOU) (OrganizationalUnit cert).

Lemma adminClientAllowed_true ou cert :
  adminClientAllowed ou cert = true <-> ou <> "" /\ ou ∈ OrganizationalUnit cert.
Proof.
  unfold adminClientAllowed. destruct (ou =s "") eqn:E; str_prop; [naive_solver|].
  rewrite existsb_exists. setoid_rewrite str_eqb_eq. setoid_rewrite <- list_elem_of_In. naive_solver.
Qed.

Lemma cliClientAllowed_true ou cert :
  cliClientAllowed ou cert = true <-> ou <> "" /\ ou ∈ OrganizationalUnit cert.
Proof. exact (adminClientAllowed_true ou cert). Qed.

End Role.

Module Csr.

Definition ErrCSRInvalid : error := ENew "cli" "invalid certificate signing request".
Definition ErrCANotConfigured : error := ENew "cli" "mTLS CA certificate and key paths required".

Definition defaultAutomationClientCertTTL : Z := 3650 * 24 * Hour.
Definition defaultCLIClientCertTTL : Z := 365 * 24 * Hour.

(** ** crypto/x509 and encoding/pem *)

(** The dynamic type of a request's public key. *)
Inductive PubKey := PubRSA (N E : Z) | PubECDSA (k : list byte) | PubOther (k : list byte).

(** [BitLen] of a [big.Int] *)
Definition BitLen (n : Z) : Z := if n =? 0 then 0 else Z.log2 (Z.abs n) + 1.

Record Name := mkName { CommonName : string; name_OU : list string }.

(** A parsed signing request; [csr_sig_ok] is whether [CheckSignature] accepts it. *)
Record CertificateRequest := mkCSR { csr_Subject : Name; csr_PublicKey : PubKey; csr_sig_ok : bool }.

(** [KeyUsageDigitalSignature] and [ExtKeyUsageClientAuth] are the only usages the code sets. *)
Inductive Usage := DigitalSignature | ClientAuth.

Record Template := mkTemplate {
  SerialNumber : Z;
  Subject : Name;
  NotBefore : Z;
  NotAfter : Z;
  KeyUsage : list Usage
}.

Class X509Lib := {
  PrivateKey : Type;
  pem_Decode : list byte -> option (string * list byte);            (* the first block: type, bytes *)
  pem_Encode : string -> list byte -> list byte;
  ParseCertificateRequest : list byte -> option CertificateRequest;
  CreateCertificate : Template -> Certificate -> PubKey -> PrivateKey -> option (list byte);
  ParseCertificate : list byte -> option Certificate;
  ParsePKCS1PrivateKey : list byte -> option PrivateKey;
  ParsePKCS8PrivateKey : list byte -> option PrivateKey;
  ParseECPrivateKey : list byte -> option PrivateKey
}.

(** Documented behaviour: [Raw] of a parsed certificate is the whole DER input, and a created
    certificate has the subject of its template. *)
Class X509Laws `{X509Lib} : Prop := {
  parse_raw : forall der cert, ParseCertificate der = Some cert -> Raw cert = der;
  parse_created : forall tpl ca pub key der cert,
    CreateCertificate tpl ca pub key = Some der -> ParseCertificate der = Some cert ->
    OrganizationalUnit cert = name_OU (Subject tpl)
}.

Section csr.
Context `{HashLib, X509Lib}.

Record CSRSigner := mkCSRSigner {
  caCert : option Certificate;
  caKey : option PrivateKey;
  requiredOU : string;
  ttl : Z
}.

Definition NewCSRSigner (cert : option Certificate) (key : option PrivateKey) (ou : string) (d : Z)
  : CSRSigner := mkCSRSigner cert key ou d.

(** ** Checking a request *)

Definition parseCSR (csrPEM : list byte) : result CertificateRequest :=
  match pem_Decode csrPEM with
  | None => Err ErrCSRInvalid
  | Some (ty, bytes) =>
      if negb (ty =s "CERTIFICATE REQUEST") then Err ErrCSRInvalid
      else or_err (ParseCertificateRequest bytes) ErrCSRInvalid
  end.

Definition validateCSRPublicKey (pub : PubKey) : result unit :=
  match pub with
  | PubRSA n _ => if BitLen n <? 2048 then Err ErrCSRInvalid else Ok tt
  | PubECDSA _ => Ok tt
  | PubOther _ => Err ErrCSRInvalid
  end.

Definition validateCSR (csr : CertificateRequest) (required : string) : result unit :=
  if negb (csr_sig_ok csr) then Err ErrCSRInvalid else
  let ous := name_OU (csr_Subject csr) in
  if (required =s "") && negb (length ous =? 0)%nat then Err ErrCSRInvalid else
  if negb (required =s "") &&
     (negb (length ous =? 1)%nat || negb (bool_decide (head ous = Some required))) then Err ErrCSRInvalid
  else validateCSRPublicKey (csr_PublicKey csr).

(** ** Issuing

    [serial] is the random serial number ([None] when the random source fails), [now] the clock. *)
Definition signCSRWithTTL (serial : option Z) (now : Z) (s : CSRSigner) (csr : CertificateRequest)
    (d : Z) (subject : Name) : result (list byte * string) :=
  match serial, caCert s, caKey s with
  | None, _, _ => Err (EWrap "generate serial" (errorf "rand"))
  | Some n, Some ca, Some key =>
      let template := mkTemplate n subject (Add now (- Minute)) (Add now d) [DigitalSignature; ClientAuth] in
      der ← or_err (CreateCertificate template ca (csr_PublicKey csr) key)
              (EWrap "sign certificate" (errorf "x509"));
      cert ← or_err (ParseCertificate der) (EWrap "parse issued certificate" (errorf "x509"));
      Ok (pem_Encode "CERTIFICATE" der, CertFingerprint cert)
  | _, _, _ => Err (EWrap "sign certificate" (errorf "x509"))
  end.

(** [s == nil || s.caCert == nil || s.caKey == nil] *)
Definition ca_ready (s : option CSRSigner) : option CSRSigner :=
  s ← s; _ ← caCert s; _ ← caKey s; Some s.

Definition cliSubject (s : CSRSigner) : Name := mkName "Luna CLI Client" [requiredOU s].
Definition automationSubject : Name := mkName "Luna Automation Client" [].

Definition signCSR (serial : option Z) (now : Z) (s : CSRSigner) (csr : CertificateRequest)
  : result (list byte * string) :=
  signCSRWithTTL serial now s csr (ttl s) (cliSubject s).

Definition Sign (serial : option Z) (now : Z) (s : option CSRSigner) (csrPEM : list byte)
  : result (list byte * string) :=
  s ← or_err (ca_ready s) ErrCANotConfigured;
  csr ← parseCSR csrPEM;
  _ ← validateCSR csr (requiredOU s);
  signCSRWithTTL serial now s csr (ttl s) (cliSubject s).

Definition SignAutomation (serial : option Z) (now : Z) (s : option CSRSigner) (csrPEM : list byte)
  : result (list byte * string) :=
  s ← or_err (ca_ready s) ErrCANotConfigured;
  csr ← parseCSR csrPEM;
  _ ← validateCSR csr "";
  signCSRWithTTL serial now s csr defaultAutomationClientCertTTL automationSubject.

(** ** Loading the CA; [fs] reads a file *)

Definition loadCAFromFiles (fs : string -> option (list byte)) (certPath keyPath : string)
  : result (Certificate * PrivateKey) :=
  certPEM ← or_err (fs certPath) (EWrap "read mTLS CA cert" (errorf "os"));
  certDER ← match pem_Decode certPEM with
            | Some (ty, bytes) => if ty =s "CERTIFICATE" then Ok bytes
                                  else Err (errorf "parse mTLS CA cert: no certificate block")
            | None => Err (errorf "parse mTLS CA cert: no certificate block")
            end;
  cert ← or_err (ParseCertificate certDER) (EWrap "parse mTLS CA cert" (errorf "x509"));
  keyPEM ← or_err (fs keyPath) (EWrap "read mTLS CA key" (errorf "os"));
  kb ← or_err (pem_Decode keyPEM) (errorf "parse mTLS CA key: no PEM block");
  key ← (let '(ty, bytes) := kb in
         let bad := EWrap "parse mTLS CA key" (errorf "x509") in
         if ty =s "RSA PRIVATE KEY" then or_err (ParsePKCS1PrivateKey bytes) bad
         else if ty =s "PRIVATE KEY" then or_err (ParsePKCS8PrivateKey bytes) bad
         else if ty =s "EC PRIVATE KEY" then or_err (ParseECPrivateKey bytes) bad
         else Err (errorf "parse mTLS CA key: unsupported PEM type"));
  Ok (cert, key).

Definition NewCSRSignerFromConfig (fs : string -> option (list byte)) (cfg : Cfg.Config)
  : result (option CSRSigner) :=
  let certPath := TrimSpace (Cfg.MTLSCACertPath cfg) in
  let keyPath := TrimSpace (Cfg.MTLSCAKeyPath cfg) in
  if (certPath =s "") && (keyPath =s "") then Ok None else
  if (certPath =s "") || (keyPath =s "") then Err ErrCANotConfigured else
  ck ← loadCAFromFiles fs certPath keyPath;
  let required := TrimSpace (Cfg.CliClientOU cfg) in
  let required := if required =s "" then "luna-cli" else required in
  Ok (Some (NewCSRSigner (Some ck.1) (Some ck.2) required defaultCLIClientCertTTL)).

(** ** What is issued *)

Lemma signCSRWithTTL_ok serial now s csr d subject pem fp :
  signCSRWithTTL serial now s csr d subject = Ok (pem, fp) ->
  exists n ca key der cert, serial = Some n /\ caCert s = Some ca /\ caKey s = Some key /\
    CreateCertificate (mkTemplate n subject (now - Minute) (now + d) [DigitalSignature; ClientAuth])
      ca (csr_PublicKey csr) key = Some der /\
    ParseCertificate der = Some cert /\ pem = pem_Encode "CERTIFICATE" der /\ fp = CertFingerprint cert.
Proof.
  unfold signCSRWithTTL, Add. intros Hs. destruct serial as [n|], (caCert s) as [ca|], (caKey s) as [key|];
    try done. inv_ok. replace (now + - Minute) with (now - Minute) in * by lia.
  by exists n, ca, key, a, a0.
Qed.

Lemma validateCSR_ok csr required :
  validateCSR csr required = Ok tt <->
  csr_sig_ok csr = true /\
  name_OU (csr_Subject csr) = (if required =s "" then [] else [required]) /\
  match csr_PublicKey csr with
  | PubRSA n _ => 2048 <= BitLen n | PubECDSA _ => True | PubOther _ => False
  end.
Proof.
  unfold validateCSR. destruct (csr_sig_ok csr); simpl; [|naive_solver].
  assert (Hk : validateCSRPublicKey (csr_PublicKey csr) = Ok tt <->
    match csr_PublicKey csr with
    | PubRSA n _ => 2048 <= BitLen n | PubECDSA _ => True | PubOther _ => False
    end).
  { unfold validateCSRPublicKey. destruct (csr_PublicKey csr); try naive_solver.
    destruct (Z.ltb_spec (BitLen N) 2048); split; intros; (done || lia). }
  destruct (required =s "") eqn:Er; simpl.
  - destruct (name_OU (csr_Subject csr)) as [|o l]; simpl; [rewrite Hk|]; naive_solver.
  - destruct (name_OU (csr_Subject csr)) as [|o [|o' l]]; simpl; [naive_solver| |naive_solver].
    destruct (decide (o = required)) as [->|Hne].
    + rewrite bool_decide_true by done. simpl. rewrite Hk. naive_solver.
    + rewrite bool_decide_false by congruence. simpl. naive_solver.
Qed.

(** What a successful issue shows of the request and of the certificate. *)
Definition issued_from (now d : Z) (s : option CSRSigner) (required : string) (subject : Name)
    (csrPEM pem : list byte) (fp : string) : Prop :=
  exists sg ca key csr n der cert,
    s = Some sg /\ caCert sg = Some ca /\ caKey sg = Some key /\
    parseCSR csrPEM = Ok csr /\ validateCSR csr required = Ok tt /\
    CreateCertificate (mkTemplate n subject (now - Minute) (now + d) [DigitalSignature; ClientAuth])
      ca (csr_PublicKey csr) key = Some der /\
    ParseCertificate der = Some cert /\ pem = pem_Encode "CERTIFICATE" der /\
    Raw cert = der /\ OrganizationalUnit cert = name_OU subject /\ fp = CertFingerprint cert.

Context `{!X509Laws}.

Lemma ca_ready_some s sg : ca_ready s = Some sg -> s = Some sg.
Proof. unfold ca_ready. destruct s as [x|]; [|done]. simpl. destruct (caCert x), (caKey x); naive_solver. Qed.

Lemma sign_issued_from serial now s csrPEM pem fp required d subject :
  (s' ← or_err (ca_ready s) ErrCANotConfigured; csr ← parseCSR csrPEM;
   _ ← validateCSR csr (required s'); signCSRWithTTL serial now s' csr (d s') (subject s')) = Ok (pem, fp) ->
  exists sg, s = Some sg /\ issued_from now (d sg) s (required sg) (subject sg) csrPEM pem fp.
Proof.
  intros Hs. inv_ok. destruct a1. rename a into sg, a0 into csr.
  apply signCSRWithTTL_ok in Hs as (n & ca & key & der & cert & -> & Hca & Hkey & Hc & Hp & -> & ->).
  apply ca_ready_some in H2 as ->. exists sg. split; [done|].
  exists sg, ca, key, csr, n, der, cert.
  split_and!; try done; [by eapply parse_raw|]. by rewrite (parse_created _ _ _ _ _ _ Hc Hp).
Qed.

(** A certificate issued for a command line client comes from a well-signed request for exactly
    the required OU with an RSA key of at least 2048 bits or an ECDSA key, carries exactly that OU
    and the request's key, may authenticate clients only, starts a minute before now and ends after
    the configured lifetime; the reported fingerprint is that of the issued bytes.  It passes the
    administrator check only when the administrator OU is configured to be the same OU. *)
Theorem cli_certificate_confined serial now s csrPEM pem fp :
  Sign serial now s csrPEM = Ok (pem, fp) ->
  exists sg, s = Some sg /\
    issued_from now (ttl sg) s (requiredOU sg) (cliSubject sg) csrPEM pem fp /\
    forall cert adminOU, OrganizationalUnit cert = [requiredOU sg] ->
      Role.adminClientAllowed adminOU cert = true -> adminOU = requiredOU sg.
Proof.
  intros Hs. apply (sign_issued_from serial now s csrPEM pem fp requiredOU ttl cliSubject) in Hs
    as (sg & Hsg & Hi). exists sg. split; [done|]. split; [done|].
  intros cert ou Hou [_ Ha]%Role.adminClientAllowed_true. rewrite Hou in Ha.
  by apply list_elem_of_singleton in Ha.
Qed.

(** A certificate issued to an automation client comes from a well-signed request without any
    OU and has none itself, so that whatever OUs are configured it is neither an administrator's nor
    a command line client's. *)
Theorem automation_certificate_has_no_role serial now s csrPEM pem fp adminOU cliOU :
  SignAutomation serial now s csrPEM = Ok (pem, fp) ->
  exists der cert, pem = pem_Encode "CERTIFICATE" der /\ ParseCertificate der = Some cert /\
    fp = CertFingerprint cert /\
    Role.adminClientAllowed adminOU cert = false /\ Role.cliClientAllowed cliOU cert = false /\
    issued_from now defaultAutomationClientCertTTL s "" automationSubject csrPEM pem fp.
Proof.
  intros Hs. apply (sign_issued_from serial now s csrPEM pem fp (fun _ => "")
    (fun _ => defaultAutomationClientCertTTL) (fun _ => automationSubject)) in Hs as (sg & _ & Hi).
  destruct Hi as (sg' & ca & key & csr & n & der & cert & ? & ? & ? & ? & ? & ? & ? & -> & ? & Hou & ->).
  exists der, cert. split_and!; try done.
  - apply not_true_iff_false. rewrite Role.adminClientAllowed_true, Hou. set_solver.
  - apply not_true_iff_false. rewrite Role.cliClientAllowed_true, Hou. set_solver.
  - by exists sg', ca, key, csr, n, der, cert.
Qed.

End csr.

(** ** A concrete instance: a certificate is its OUs, separated by commas *)
Module CsrDemo.
Import Demo.

Definition join (l : list string) : string := String.concat "," l.
Definition split (s : string) : list string := if s =s "" then [] else Split s ","%char.

(** A block is its type, a colon and the bytes; a request is its OUs. *)
Definition cut_colon (l : list byte) : option (string * list byte) :=
  match split_bytes Byte.x3a l with
  | [ty; b] => Some (string_of ty, b)
  | _ => None
  end.

#[export] Instance demo_x509 : X509Lib := {|
  PrivateKey := unit;
  pem_Decode := cut_colon;
  pem_Encode ty b := bytes_of ty ++ Byte.x3a :: b;
  ParseCertificateRequest b := Some (mkCSR (mkName "" (split (string_of b))) (PubECDSA [Byte.x01]) true);
  CreateCertificate tpl _ _ _ :=
    if decide (split (string_of (bytes_of (join (name_OU (Subject tpl))))) = name_OU (Subject tpl))
    then Some (bytes_of (join (name_OU (Subject tpl)))) else None;
  ParseCertificate b := Some (mkCertificate b (split (string_of b)));
  ParsePKCS1PrivateKey _ := Some tt;
  ParsePKCS8PrivateKey _ := Some tt;
  ParseECPrivateKey _ := Some tt
|}.

#[export] Instance demo_x509_laws : X509Laws.
Proof.
  constructor; simpl.
  - by intros der cert [= <-].
  - intros tpl ca pub key der cert Hd [= <-]. case_decide as E; simplify_eq. exact E.
Qed.

Definition signer : option CSRSigner :=
  Some (NewCSRSigner (Some (mkCertificate [] [])) (Some tt) "luna-cli" defaultCLIClientCertTTL).
Definition cli_csr : list byte := bytes_of "CERTIFICATE REQUEST:luna-cli".
Definition bare_csr : list byte := bytes_of "CERTIFICATE REQUEST:".

Lemma cli_certificate_confined_witness :
  Sign (Some 7) 0 signer cli_csr =
    Ok (bytes_of "CERTIFICATE:luna-cli", CertFingerprint (mkCertificate (bytes_of "luna-cli") [])) /\
  exists sg, signer = Some sg /\ requiredOU sg = "luna-cli" /\
    issued_from 0 defaultCLIClientCertTTL signer "luna-cli" (cliSubject sg) cli_csr
      (bytes_of "CERTIFICATE:luna-cli") (CertFingerprint (mkCertificate (bytes_of "luna-cli") [])).
Proof.
  assert (E : Sign (Some 7) 0 signer cli_csr =
    Ok (bytes_of "CERTIFICATE:luna-cli", CertFingerprint (mkCertificate (bytes_of "luna-cli") [])))
    by reflexivity.
  split; [exact E|]. destruct (cli_certificate_confined _ _ _ _ _ _ E) as (sg & Hsg & Hi & _).
  assert (Hou : requiredOU sg = "luna-cli") by by injection Hsg as <-.
  assert (Ht : ttl sg = defaultCLIClientCertTTL) by by injection Hsg as <-.
  exists sg. rewrite Hou, Ht in Hi. by repeat split.
Defined.

Lemma automation_certificate_has_no_role_witness :
  SignAutomation (Some 7) 0 signer bare_csr =
    Ok (bytes_of "CERTIFICATE:", CertFingerprint (mkCertificate [] [])) /\
  SignAutomation (Some 7) 0 signer cli_csr = Err ErrCSRInvalid /\
  exists der cert, ParseCertificate der = Some cert /\
    Role.adminClientAllowed "luna-admin" cert = false /\ Role.cliClientAllowed "luna-cli" cert = false.
Proof.
  assert (E : SignAutomation (Some 7) 0 signer bare_csr =
    Ok (bytes_of "CERTIFICATE:", CertFingerprint (mkCertificate [] []))) by reflexivity.
  split; [exact E|]. split; [reflexivity|].
  destruct (automation_certificate_has_no_role _ _ _ _ _ _ "luna-admin" "luna-cli" E)
    as (der & cert & _ & Hp & _ & Ha & Hc & _). by exists der, cert.
Defined.

End CsrDemo.
End Csr.
