(* ===== verification/Http.v ===== *)
(** * HTTP requests, responses and wire types (proxy/internal/api)

    What the handlers of the API read from a request and write to a response, the JSON bodies, the
    access log, and the two middlewares that require a client certificate.  The JSON codec and
    ed25519 are interfaces; [net.SplitHostPort] and [http.MaxBytesReader] are modelled. *)

From Stdlib Require Import Ascii.
From S2P Require Import Prelude GoTime GoStrings GoEncoding External Fingerprint SessionBinding AuthPipeline Config Csr.

(** ** [net.SplitHostPort] *)

Definition index_byte (c : byte) (l : list byte) : option nat := fst <$> list_find (eq c) l.
Definition last_index_byte (c : byte) (l : list byte) : option nat :=
  (fun i => (length l - 1 - i)%nat) <$> index_byte c (reverse l).

Definition SplitHostPort (hostport : string) : option (string * string) :=
  let l := bytes_of hostport in
  i ← last_index_byte Byte.x3a l;
  '(host, j, k) ←
    (if bool_decide (head l = Some Byte.x5b) then
       e ← index_byte Byte.x5d l;
       if (e + 1 =? length l)%nat then None
       else if (e + 1 =? i)%nat then Some (take (e - 1) (drop 1 l), 1%nat, (e + 1)%nat)
       else None
     else
       let host := take i l in
       if bool_decide (Byte.x3a ∈ host) then None else Some (host, 0%nat, 0%nat));
  if bool_decide (Byte.x5b ∈ drop j l) then None else
  if bool_decide (Byte.x5d ∈ drop k l) then None else
  Some (string_of host, string_of (drop (i + 1) l)).

Example split_v4 : SplitHostPort "10.0.0.2:5123" = Some ("10.0.0.2", "5123").
Proof. reflexivity. Qed.
Example split_v6 : SplitHostPort "[fe80::1]:80" = Some ("fe80::1", "80").
Proof. reflexivity. Qed.
Example split_bare_v6 : SplitHostPort "fe80::1" = None.
Proof. reflexivity. Qed.

Module Http.

Definition clientIPFromRemoteAddr (addr : string) : string :=
  match SplitHostPort addr with Some (host, _) => host | None => "" end.

(** ** Requests *)

(** [TLS] is [r.TLS.PeerCertificates], [None] for a nil [r.TLS]; [conn] is the connection that
    [ConnContext] stored; the body is what the client sends before the stream ends or fails. *)
Record Request := mkRequest {
  TLS : option (list Certificate);
  conn : option Conn;
  RemoteAddr : string;
  body : list byte;
  body_fails : bool;
  Header : string -> string;
  PathValue : string -> string
}.

(** [io.ReadAll(http.MaxBytesReader(w, r.Body, limit))] *)
Inductive read_result := ReadOK (raw : list byte) | ReadTooLarge | ReadFailed.
Definition ReadAll (limit : Z) (r : Request) : read_result :=
  if limit <? Z.of_nat (length (body r)) then ReadTooLarge
  else if body_fails r then ReadFailed else ReadOK (body r).

(** [r.TLS == nil || len(r.TLS.PeerCertificates) == 0], and the leaf otherwise. *)
Definition peer (r : Request) : option Certificate := certs ← TLS r; head certs.

(** ** Responses *)

Record waitResponse := mkWaitResponse {
  SSHCertificate : string;
  SSHSignature : string;
  ExpiresAt : string;
  LeaseExpiresAt : string
}.

Record loadedSignerEntry := mkLoadedSigner { ls_Fingerprint : string; ls_PublicKey : string; ls_Comment : string }.
Record capabilitiesResponse := mkCapabilities {
  cap_SignerMode : string;
  LeaseSupported : bool;
  cap_AllowedTTLSeconds : list Z;
  Sealed : bool;
  LoadedSigners : list loadedSignerEntry
}.
Record cliDeviceJSON := mkCliDeviceJSON {
  dj_DeviceID : string;
  dj_Label : string;
  dj_CertFingerprint : string;
  dj_EnrolledAt : string
}.

(** [CText] is the text with a final newline. *)
Inductive content :=
| CNone
| CText (s : string)
| CSign (txID : string)
| CWait (w : waitResponse)
| CCapabilities (c : capabilitiesResponse)
| CMobileEnroll (deviceID : string)
| CPending (pendingID : string)
| CCliEnroll (deviceID certificatePEM : string)
| CCliDevices (l : list cliDeviceJSON)
| CKeysLoad (fingerprint : string)
| CKeysLoadError (code msg : string)
| CMtlsEnroll (certificatePEM : string)
| CPem (b : list byte).

Record Response := mkResponse { status : Z; payload : content }.

Definition StatusOK : Z := 200.
Definition StatusCreated : Z := 201.
Definition StatusAccepted : Z := 202.
Definition StatusNoContent : Z := 204.
Definition StatusBadRequest : Z := 400.
Definition StatusUnauthorized : Z := 401.
Definition StatusForbidden : Z := 403.
Definition StatusNotFound : Z := 404.
Definition StatusRequestTimeout : Z := 408.
Definition StatusConflict : Z := 409.
Definition StatusGone : Z := 410.
Definition StatusRequestEntityTooLarge : Z := 413.
Definition StatusTooManyRequests : Z := 429.
Definition StatusInternalServerError : Z := 500.
Definition StatusServiceUnavailable : Z := 503.

(** [http.Error(w, msg, code)] *)
Definition Error (msg : string) (code : Z) : Response := mkResponse code (CText msg).

(** ** JSON bodies *)

Record mobileEnrollRequest := mkMobileEnroll { me_Label : string; DevicePubKey : string; me_CertFingerprint : string }.
Record mobileApproveSignPayload := mkApprovePayload {
  TxID : string;
  Action : string;
  TTLSeconds : Z;
  ap_DeviceID : string;
  ap_Timestamp : Z
}.
Record mobileApproveRequest := mkMobileApprove { ap_payload : mobileApproveSignPayload; ap_Signature : string }.
Record mobileKeysPendingSignPayload := mkPendingPayload {
  pp_DeviceID : string;
  pp_EncryptedPEM : string;
  pp_Label : string;
  pp_Comment : string;
  pp_Timestamp : Z
}.
Record mobileKeysPendingRequest := mkKeysPending { pp_payload : mobileKeysPendingSignPayload; pp_Signature : string }.
Record cliEnrollRequest := mkCliEnroll { ce_Label : string; ce_CSRPEM : string }.
(** [Passphrase] is the raw JSON of the field, empty when absent. *)
Record cliKeysLoadWire := mkKeysLoadWire {
  w_EncryptedPEM : string;
  w_Passphrase : list byte;
  w_Label : string;
  w_Comment : string;
  w_Timestamp : Z
}.
Record parsedCLIKeysLoad := mkKeysLoad {
  EncryptedPEM : string;
  Passphrase : list byte;
  Label : string;
  Comment : string;
  Timestamp : Z
}.

Class JsonLib := {
  json_SignRequest : list byte -> option Auth.SignRequest;
  json_mobileEnroll : list byte -> option mobileEnrollRequest;
  json_mobileApprove : list byte -> option mobileApproveRequest;
  json_keysPending : list byte -> option mobileKeysPendingRequest;
  json_cliEnroll : list byte -> option cliEnrollRequest;
  json_cliKeysLoad : list byte -> option cliKeysLoadWire;
  json_mtlsEnroll : list byte -> option string;                    (* the field csr_pem *)
  json_string : list byte -> option string;
  marshal_approve : mobileApproveSignPayload -> option (list byte);
  marshal_pending : mobileKeysPendingSignPayload -> option (list byte)
}.

Class EdLib := { ed25519_Verify : list byte -> list byte -> list byte -> bool }.   (* key, message, signature *)

Definition decodeJSONStringField `{JsonLib} (raw : list byte) : result (list byte) :=
  match raw with
  | [] => Err (errorf "required")
  | _ => s ← or_err (json_string raw) (errorf "invalid json string"); Ok (bytes_of s)
  end.

Definition parseCLIKeysLoadBody `{JsonLib} (raw : list byte) : result parsedCLIKeysLoad :=
  wire ← or_err (json_cliKeysLoad raw) (errorf "json");
  pass ← match decodeJSONStringField (w_Passphrase wire) with
         | Ok p => Ok p
         | Err _ => Err (errorf "invalid json string")
         end;
  Ok (mkKeysLoad (w_EncryptedPEM wire) pass (w_Label wire) (w_Comment wire) (w_Timestamp wire)).

(** ** Device signatures (device_auth.go) *)

Inductive errDeviceAuth := errTimestampOutOfRange | errInvalidDeviceSignature.

Definition verifyDeviceSignature `{EdLib} (pub payload : list byte) (sigHex : string) (now ts : Z)
  : option errDeviceAuth :=
  if (ts <? wrap64 (Unix now - 30)) || (wrap64 (Unix now + 30) <? ts) then Some errTimestampOutOfRange else
  match HexDecodeString sigHex with
  | None => Some errInvalidDeviceSignature
  | Some sig =>
      if negb (length sig =? 64)%nat then Some errInvalidDeviceSignature
      else if negb (ed25519_Verify pub payload sig) then Some errInvalidDeviceSignature else None
  end.

Definition writeDeviceAuthError (e : errDeviceAuth) : Response :=
  match e with
  | errTimestampOutOfRange => Error "timestamp out of range" StatusBadRequest
  | errInvalidDeviceSignature => Error "forbidden" StatusForbidden
  end.

(** A signature is accepted exactly when it is 64 bytes of hex that verify, at most 30 s from now. *)
Lemma verifyDeviceSignature_ok `{EdLib} pub payload sigHex now ts :
  0 <= Unix now < 2 ^ 62 ->
  verifyDeviceSignature pub payload sigHex now ts = None <->
  Z.abs (ts - Unix now) <= 30 /\ exists sig, HexDecodeString sigHex = Some sig /\
    length sig = 64%nat /\ ed25519_Verify pub payload sig = true.
Proof.
  intros Hn. unfold verifyDeviceSignature.
  rewrite !wrap64_id by (unfold in_int64, min_int64, max_int64; lia).
  destruct (Z.ltb_spec ts (Unix now - 30)), (Z.ltb_spec (Unix now + 30) ts); simpl;
    try (split; [done|lia]).
  destruct (HexDecodeString sigHex) as [sig|]; [|by split; [|intros (_ & ? & ? & _)]].
  destruct (Nat.eqb_spec (length sig) 64); simpl;
    [|split; [done|intros (_ & ? & ? & ? & _); congruence]].
  destruct (ed25519_Verify pub payload sig) eqn:Ev; simpl;
    [split; [intros _; split; [lia|eauto]|done]|].
  split; [done|]. intros (_ & ? & ? & _ & ?). congruence.
Qed.

(** ** Client certificates and the access log (sign_log.go) *)

Section certs.
Context `{HashLib}.

Definition clientCertFingerprint (cert : option Certificate) : string :=
  match cert with None => "" | Some c => HexEncodeToString (sha256 (Raw c)) end.

Definition clientCertFPFromRequest (r : Request) : string :=
  match peer r with None => "" | Some c => clientCertFingerprint (Some c) end.

Record signLogEntry := mkSignLog {
  Route : string;
  log_TxID : string;
  ClientCertFP : string;
  SourceIP : string;
  log_TargetUser : string;
  log_TargetIP : string;
  log_meta : Auth.SignClientMeta;
  Outcome : string;
  log_Sealed : bool;
  log_LoadedSigners : Z;
  log_SignerMode : string;
  LatencyMS : Z
}.

(** [time.Since(start).Milliseconds()] *)
Definition latency (start now : Z) : Z := Z.quot (Sub now start) 1000000.

Definition emptyMeta : Auth.SignClientMeta := Auth.mkMeta "" "" "".

Definition signOutcomeFromAuthErr (e : error) : string :=
  if errors_is e Auth.ErrReplay then "replay"
  else if errors_is e Auth.ErrInvalidHMAC then "invalid_hmac"
  else if errors_is e Auth.ErrInvalidPoP then "invalid_pop"
  else if errors_is e Auth.ErrTimestampOutsideWindow then "timestamp_outside_window"
  else "auth_rejected".

Definition logSignRequest (r : Request) (start now : Z) (txID targetUser targetIP outcome : string)
    (meta : Auth.SignClientMeta) : signLogEntry :=
  mkSignLog "ssh/sign" txID (clientCertFPFromRequest r) (clientIPFromRemoteAddr (RemoteAddr r))
    targetUser targetIP meta outcome false 0 "" (latency start now).

Definition logCapabilitiesRequest (cfg : Cfg.Config) (r : Request) (start now : Z) (sealed : bool)
    (loadedCount : Z) : signLogEntry :=
  mkSignLog "capabilities" "" (clientCertFPFromRequest r) (clientIPFromRemoteAddr (RemoteAddr r))
    "" "" emptyMeta (if sealed then "sealed" else "ok") sealed loadedCount (Cfg.SignerMode cfg)
    (latency start now).

Definition logTelegramEvent (route txID outcome : string) : signLogEntry :=
  mkSignLog route txID "" "" "" "" emptyMeta outcome false 0 "" 0.

(** ** Middleware: the response that stops a request, or none *)

Definition withMTLS (r : Request) : option Response :=
  match peer r with
  | None => Some (Error "client certificate required" StatusUnauthorized)
  | Some _ => None
  end.

Definition withAdminMTLS (cfg : Cfg.Config) (r : Request) : option Response :=
  match peer r with
  | None => Some (Error "client certificate required" StatusUnauthorized)
  | Some cert =>
      if negb (Role.adminClientAllowed (Cfg.AdminClientOU cfg) cert)
      then Some (Error "admin client certificate required" StatusForbidden) else None
  end.

(** ** Error mappings *)

Definition writeAuthError (e : error) : Response :=
  if errors_is e Auth.ErrReplay then Error "replay detected" StatusConflict
  else if errors_is e Auth.ErrInvalidHMAC || errors_is e Auth.ErrInvalidPoP ||
          errors_is e Auth.ErrTimestampOutsideWindow then Error "unauthorized" StatusUnauthorized
  else Error "bad request" StatusBadRequest.

Definition writeCLIKeysLoadError (st : Z) (code msg : string) : Response :=
  mkResponse st (CKeysLoadError code msg).

(** [err.Error()] *)

Definition writeCLIKeysLoadAuthError (e : error) : Response :=
  if errors_is e Auth.ErrReplay then writeCLIKeysLoadError StatusConflict "REPLAY" (error_text e)
  else if errors_is e Auth.ErrInvalidHMAC then
    writeCLIKeysLoadError StatusUnauthorized "INVALID_HMAC" (error_text e)
  else if errors_is e Auth.ErrTimestampOutsideWindow then
    writeCLIKeysLoadError StatusUnauthorized "TIMESTAMP" (error_text e)
  else writeCLIKeysLoadError StatusBadRequest "AUTH" (error_text e).

End certs.
End Http.
