(* ===== verification/Api.v ===== *)
(** * The HTTP API (proxy/internal/api)

    One definition per handler, over the server's shared services, composed by [serve] the way
    [NewServer] registers the routes.  A handler that calls several services makes each call
    atomically; what other requests do in between is the subject of [ApprovalSys]. *)

From S2P Require Import Prelude GoTime GoStrings GoEncoding GoFormat External Fingerprint LeaseStore ReplayCache SessionBinding AuthPipeline Keystore Pending Signing Config Approval Telegram Devices Csr Http.

Module Api.
Import Http.

Definition maxSignRequestBody : Z := 64 * 1024.
Definition maxAgentSignDataB64 : Z := 12 * 1024.
Definition maxMobileBody : Z := 64 * 1024.
Definition maxPendingKeyBody : Z := 64 * 1024.
Definition maxCLIEnrollBody : Z := 64 * 1024.
Definition maxCLIKeyLoadBody : Z := 64 * 1024.
Definition maxMTLSEnrollBody : Z := 64 * 1024.

(** The readings of the clock a handler makes, by what they are for. *)
Inductive reading :=
| TStart | TLog | TAuth | TReplay | TFind | TRemaining | TDeadline | TIssuer | TCreate
| TAllowed | TLock | TFailure | TRecord | TPending | TEnroll | TFallback | TSerial.

Section api.
Context `{HashLib, SshLib, !Sign.CertIssuer Ks.Keystore, Bind.SshWire, Csr.X509Lib, JsonLib, EdLib}.

(** What a handler gets from outside: the clock, a fresh ULID, a random serial number, the file
    system, the [mlock] system call and the order in which maps are walked. *)
Record Env := mkEnv {
  tick : reading -> Z;
  ulid : string;
  serial : option Z;
  fs : string -> option (list byte);
  syscall : Ks.mlock_site -> bool;
  order : list (string * Ks.loadedSigner)
}.

(** [cli], [pending], [mobile] and [loadLimiter] are never nil: [NewServer] creates them. *)
Record server := mkServer {
  cfg : Cfg.Config;
  keystore : Ks.Keystore;
  store : Appr.Store;
  replay : Replay.ReplayLRU;
  telegram : option Tg.Notifier;
  mobile : gmap string Mob.Device;
  pending : Pend.PendingStore;
  push : Mob.PushNotifier;
  cli : gmap string Cli.Device;
  csrSigner : option Csr.CSRSigner;
  loadLimiter : Rate.LoadRateLimiter
}.

Record ServerDeps := mkServerDeps {
  dep_Config : Cfg.Config;
  dep_Keystore : Ks.Keystore;
  dep_Pending : option Pend.PendingStore;
  dep_Store : Appr.Store;
  dep_Replay : Replay.ReplayLRU;
  dep_Telegram : option Tg.Notifier;
  dep_Mobile : option (gmap string Mob.Device);
  dep_CLI : option (gmap string Cli.Device);
  dep_CSRSigner : option Csr.CSRSigner;
  dep_LoadLimiter : option Rate.LoadRateLimiter
}.

Definition NewServer (fs : string -> option (list byte)) (deps : ServerDeps) : server :=
  mkServer (dep_Config deps) (dep_Keystore deps) (dep_Store deps) (dep_Replay deps) (dep_Telegram deps)
    (default Mob.NewStore (dep_Mobile deps)) (default Pend.NewPendingStore (dep_Pending deps))
    (Mob.NewPushNotifier (Cfg.FCMCredentials (dep_Config deps)))
    (default Cli.NewStore (dep_CLI deps))
    (match dep_CSRSigner deps with
     | Some sg => Some sg
     | None => match Csr.NewCSRSignerFromConfig fs (dep_Config deps) with Ok sg => sg | Err _ => None end
     end)
    (default Rate.NewLoadRateLimiter (dep_LoadLimiter deps)).

Definition with_keystore (s : server) (k : Ks.Keystore) : server :=
  mkServer (cfg s) k (store s) (replay s) (telegram s) (mobile s) (pending s) (push s) (cli s) (csrSigner s) (loadLimiter s).
Definition with_store (s : server) (st : Appr.Store) : server :=
  mkServer (cfg s) (keystore s) st (replay s) (telegram s) (mobile s) (pending s) (push s) (cli s) (csrSigner s) (loadLimiter s).
Definition with_replay (s : server) (x : Replay.ReplayLRU) : server :=
  mkServer (cfg s) (keystore s) (store s) x (telegram s) (mobile s) (pending s) (push s) (cli s) (csrSigner s) (loadLimiter s).
Definition with_mobile (s : server) (m : gmap string Mob.Device) : server :=
  mkServer (cfg s) (keystore s) (store s) (replay s) (telegram s) m (pending s) (push s) (cli s) (csrSigner s) (loadLimiter s).
Definition with_pending (s : server) (p : Pend.PendingStore) : server :=
  mkServer (cfg s) (keystore s) (store s) (replay s) (telegram s) (mobile s) p (push s) (cli s) (csrSigner s) (loadLimiter s).
Definition with_cli (s : server) (c : gmap string Cli.Device) : server :=
  mkServer (cfg s) (keystore s) (store s) (replay s) (telegram s) (mobile s) (pending s) (push s) c (csrSigner s) (loadLimiter s).
Definition with_limiter (s : server) (l : Rate.LoadRateLimiter) : server :=
  mkServer (cfg s) (keystore s) (store s) (replay s) (telegram s) (mobile s) (pending s) (push s) (cli s) (csrSigner s) l.

(** What a handler leaves behind besides its response: log lines and goroutines. *)
Inductive event :=
| ELog (e : signLogEntry)
| ENotify (t : Appr.Transaction)
| EPush (t : Appr.Transaction)
| EDevApprove (txID : string).

(** ** Health and capabilities *)

Definition handleHealthz : Response := mkResponse StatusOK (CText "ok").

Definition handleCapabilities (env : Env) (s : server) (r : Request) : Response * list event :=
  let sealed := negb (Ks.Available (keystore s)) in
  let loaded := if sealed then [] else
    map (fun i => mkLoadedSigner (Ks.si_Fingerprint i) (Ks.si_PublicKey i) (Ks.si_Comment i))
      (Ks.ListSigners (keystore s) (order env)) in
  (mkResponse StatusOK (CCapabilities (mkCapabilities (Cfg.SignerMode (cfg s)) true
     (Cfg.AllowedTTLSeconds (cfg s)) sealed loaded)),
   [ELog (logCapabilitiesRequest (cfg s) r (tick env TStart) (tick env TLog) sealed
            (Z.of_nat (length loaded)))]).

Definition handleUnseal : Response :=
  Error "admin unseal moved to luna-proxy key load via control socket" StatusGone.
Definition handleSealStatus : Response :=
  Error "admin seal-status moved to luna-proxy status via control socket" StatusGone.

(** ** Signing requests (sign_handler.go) *)

Definition signClientMeta (req : Auth.SignRequest) : Appr.ClientMeta :=
  let m := Auth.NormalizeSignClientMeta (Auth.req_SourceUser req) (Auth.req_ClientName req)
             (Auth.req_ClientVersion req) in
  Appr.mkClientMeta (Auth.SourceUser m) (Auth.ClientName m) (Auth.ClientVersion m) "" false.

Definition resolveHostKeyFingerprint (env : Env) (s : server) (req : Auth.SignRequest) : result string :=
  if negb (Cfg.SignerMode (cfg s) =s Appr.SignerModeLocalKey) then Ok "" else
  match Ks.ResolveHostKeyFingerprint (Auth.req_HostPublicKey req) (Auth.req_HostKeyFingerprint req) with
  | Ok fp => Ok fp
  | Err e => if errors_is e Ks.ErrAmbiguousSigner then Ks.SoleFingerprint (keystore s) (order env) else Err e
  end.

(** The local-key part of [handleSign]: a refusal (its log outcome, if any, and response), or the
    destination host key, the metadata and whether a lease may be used. *)
Definition bindDestination (s : server) (req : Auth.SignRequest) (hostKeyFP : string) (meta : Appr.ClientMeta)
  : (option string * Response) + (string * Appr.ClientMeta * bool) :=
  if negb (Cfg.SignerMode (cfg s) =s Appr.SignerModeLocalKey) then inr ("", meta, true) else
  match Ks.PublicKeyForFingerprint (keystore s) hostKeyFP with
  | Err _ => inl (Some "invalid_host_key", Error "hosted signer unavailable" StatusServiceUnavailable)
  | Ok hostedPub =>
  match StdDecodeString (Auth.AgentSignData req) with
  | None => inl (None, Error "invalid agent_sign_data" StatusBadRequest)
  | Some signData =>
      let bound := negb (Bind.HostPublicKey (Auth.req_SessionBinding req) =s "") in
      let binding :=
        if bound then
          Bind.ValidateLocalKeySignData (Auth.req_SessionBinding req) signData (Auth.TargetUser req) (Some hostedPub)
        else
          Bind.ValidateDirectLocalKeySignData (Auth.DestinationHostPublicKey req) signData
            (Auth.TargetUser req) (Some hostedPub) in
      let meta := Appr.mkClientMeta (Appr.cm_SourceUser meta) (Appr.cm_ClientName meta) (Appr.cm_ClientVersion meta)
        (if bound then "session-bound" else "client-reported") (negb bound) in
      match binding with
      | Err _ => inl (Some "invalid_session_binding", Error "invalid session binding" StatusUnauthorized)
      | Ok v => inr (Bind.HostKeyFingerprint v, meta, bound)
      end
  end end.

(** The end of [handleSign]: the lease fast path, or a new transaction and its notifications. *)
Definition openTransaction (env : Env) (s : server) (req : Auth.SignRequest)
    (sourceIP clientFP hostKeyFP destinationHostKeyFP : string) (txMeta : Appr.ClientMeta) (allowLease : bool)
    (log : string -> string -> signLogEntry) : server * Response * list event :=
  let lookup := Lease.NewLookupKey clientFP (Auth.TargetUser req) (Auth.TargetIP req) sourceIP hostKeyFP
                  [destinationHostKeyFP] in
  let dev := Cfg.Env (cfg s) =s "dev" in
  let fast :=
    if negb dev && allowLease then
      let '(res, ok) := Appr.IssueFromLease (keystore s) (tick env TFind) (tick env TRemaining)
          (tick env TDeadline) (tick env TIssuer) (store s) lookup (Auth.req_PublicKey req)
          (Auth.AgentSignData req) hostKeyFP in
      if ok then Some res else None
    else None in
  match fast with
  | Some res =>
      let '(st, t) := Appr.CreateInstantApproved (ulid env) (tick env TCreate) (store s) (Auth.TargetUser req)
          (Auth.TargetIP req) (Auth.req_PublicKey req) sourceIP clientFP res in
      (with_store s st, mkResponse StatusAccepted (CSign (Appr.ID t)), [ELog (log (Appr.ID t) "lease_hit")])
  | None =>
      let '(st, t, _, bypass) := Appr.CreateBound (ulid env) (tick env TCreate) (store s) (Auth.TargetUser req)
          (Auth.TargetIP req) (Auth.req_PublicKey req) sourceIP clientFP (Auth.AgentSignData req) hostKeyFP
          destinationHostKeyFP txMeta in
      (with_store s st, mkResponse StatusAccepted (CSign (Appr.ID t)),
       (if bypass then [EDevApprove (Appr.ID t)] else []) ++
       (if negb dev then
          (if Tg.Configured (telegram s) then [ENotify t]
           else [ELog (logTelegramEvent "notify" (Appr.ID t) "skipped_unconfigured")]) ++ [EPush t]
        else []) ++
       [ELog (log (Appr.ID t) "accepted")])
  end.

Definition set_BodyMAC (mac : string) (q : Auth.SignRequest) : Auth.SignRequest :=
  Auth.mkSignRequest (Auth.req_PublicKey q) (Auth.TargetUser q) (Auth.TargetIP q) (Auth.Timestamp q)
    (Auth.PopSignature q) (Auth.AgentSignData q) (Auth.req_HostPublicKey q) (Auth.req_HostKeyFingerprint q)
    (Auth.req_SourceUser q) (Auth.req_ClientName q) (Auth.req_ClientVersion q) (Auth.req_SessionBinding q)
    (Auth.DestinationHostPublicKey q) mac.

Definition handleSign (env : Env) (s : server) (r : Request) : server * Response * list event :=
  let log0 outcome := ELog (logSignRequest r (tick env TStart) (tick env TLog) "" "" "" outcome emptyMeta) in
  match ReadAll maxSignRequestBody r with
  | ReadTooLarge => (s, Error "request body too large" StatusRequestEntityTooLarge, [log0 "body_too_large"])
  | ReadFailed => (s, Error "read body" StatusBadRequest, [log0 "read_body_error"])
  | ReadOK rawBody =>
  match json_SignRequest rawBody with
  | None => (s, Error "invalid json" StatusBadRequest, [log0 "invalid_json"])
  | Some req =>
  let req := set_BodyMAC (Header r "X-Luna-Body-Mac") req in
  let clientMeta := Auth.NormalizeSignClientMeta (Auth.req_SourceUser req) (Auth.req_ClientName req)
                      (Auth.req_ClientVersion req) in
  let log txID outcome := logSignRequest r (tick env TStart) (tick env TLog) txID (Auth.TargetUser req)
                            (Auth.TargetIP req) outcome clientMeta in
  match conn r with
  | None => (s, Error "tls connection required" StatusUnauthorized, [ELog (log "" "tls_required")])
  | Some c =>
  match Auth.ValidateSignRequest c rawBody req (tick env TAuth) (tick env TReplay) (replay s) with
  | (rp, Err e) => (with_replay s rp, writeAuthError e, [ELog (log "" (signOutcomeFromAuthErr e))])
  | (rp, Ok _) =>
  let s := with_replay s rp in
  if negb (Ks.Available (keystore s)) then
    (s, Error "sealed" StatusServiceUnavailable, [ELog (log "" "sealed")]) else
  let clientFP := clientCertFPFromRequest r in
  let sourceIP := clientIPFromRemoteAddr (RemoteAddr r) in
  if (Cfg.SignerMode (cfg s) =s Appr.SignerModeLocalKey) && (Auth.AgentSignData req =s "") then
    (s, Error "agent_sign_data required" StatusBadRequest, [ELog (log "" "missing_agent_sign_data")]) else
  if maxAgentSignDataB64 <? len (Auth.AgentSignData req) then
    (s, Error "agent_sign_data too large" StatusRequestEntityTooLarge,
     [ELog (log "" "agent_sign_data_too_large")]) else
  match resolveHostKeyFingerprint env s req with
  | Err _ => (s, Error "invalid host key" StatusBadRequest, [ELog (log "" "invalid_host_key")])
  | Ok hostKeyFP =>
  match bindDestination s req hostKeyFP (signClientMeta req) with
  | inl (outcome, resp) =>
      (s, resp, match outcome with Some o => [ELog (log "" o)] | None => [] end)
  | inr (destinationHostKeyFP, txMeta, allowLease) =>
      openTransaction env s req sourceIP clientFP hostKeyFP destinationHostKeyFP txMeta allowLease log
  end end end end end end.

(** ** Waiting *)

Definition writeWaitError (e : error) : Response :=
  if errors_is e Appr.ErrWaitClientMismatch then Error "client certificate mismatch" StatusForbidden
  else if errors_is e Appr.ErrDenied then Error "transaction denied" StatusForbidden
  else if errors_is e Appr.ErrTimeout then Error "approval timeout" StatusRequestTimeout
  else if errors_is e Appr.ErrNotFound then Error "transaction not found" StatusNotFound
  else Error "internal server error" StatusInternalServerError.

Definition formatTimeRFC3339 (now t fallbackTTL : Z) : string :=
  if IsZero t then RFC3339 (Add now fallbackTTL) else RFC3339 t.

(** How a blocked [Wait] resumes: its channel is ready, or its context ends. *)
Inductive wake := WakeResult | WakeCanceled (e : error).

(** [Wait]: [during] is what the other goroutines do to the store while it is blocked; [None] when
    it is still blocked. *)
Definition Wait (during : Appr.Store -> Appr.Store) (w : wake) (st : Appr.Store) (txID : string)
  : option (Appr.Store * Prelude.result Appr.Result) :=
  match Appr.waitResult st txID with
  | (st, None) => Some (st, Err Appr.ErrNotFound)
  | (st, Some ch) =>
      let st := during st in
      match w with
      | WakeResult =>
          '(st, res) ← Appr.receive st ch;
          Some (Appr.remove st txID, match Appr.Err res with Some e => Err e | None => Ok res end)
      | WakeCanceled e => Some (Appr.cancelWait st txID, Err e)
      end
  end.

Definition handleWait (during : Appr.Store -> Appr.Store) (w : wake) (env : Env) (s : server) (r : Request)
  : option (server * Response) :=
  let txID := PathValue r "tx_id" in
  let '(bound, ok) := Appr.store_ClientCertFP (store s) txID in
  if ok && negb (bound =s "") && negb (clientCertFPFromRequest r =s bound)
  then Some (s, Error "client certificate mismatch" StatusForbidden) else
  '(st, res) ← Wait during w (store s) txID;
  let s := with_store s st in
  match res with
  | Err e => Some (s, writeWaitError e)
  | Ok res =>
      Some (s, mkResponse StatusOK (CWait (mkWaitResponse (Appr.Cert res) (Appr.Signature res)
        (formatTimeRFC3339 (tick env TFallback) (Appr.ExpiresAt res) (5 * Minute))
        (if IsZero (Appr.LeaseExpiresAt res) then "" else RFC3339 (Appr.LeaseExpiresAt res)))))
  end.

(** ** Mobile approvers (mobile_handler.go, keys_pending_handler.go) *)

Definition handleMobileEnroll (env : Env) (s : server) (r : Request) : server * Response :=
  match ReadAll maxMobileBody r with
  | ReadOK raw =>
      match json_mobileEnroll raw with
      | None => (s, Error "invalid json" StatusBadRequest)
      | Some req =>
          if me_CertFingerprint req =s "" then (s, Error "cert_fingerprint required" StatusBadRequest) else
          let '(m, res) := Mob.EnrollBound (ulid env) (tick env TEnroll) (mobile s) (me_Label req)
                             (DevicePubKey req) (me_CertFingerprint req) in
          (with_mobile s m,
           match res with
           | Ok dev => mkResponse StatusOK (CMobileEnroll (Mob.ID dev))
           | Err e =>
               if errors_is e Mob.ErrEmptyLabel then Error "device label required" StatusBadRequest
               else if errors_is e Mob.ErrInvalidKey then Error "invalid device public key" StatusBadRequest
               else Error "enroll failed" StatusInternalServerError
           end)
      end
  | _ => (s, Error "read body" StatusBadRequest)
  end.

Definition handleMobileDeleteDevice (s : server) (r : Request) : server * Response :=
  let id := PathValue r "device_id" in
  if id =s "" then (s, Error "device_id required" StatusBadRequest) else
  let '(m, res) := Mob.Delete (mobile s) id in
  (with_mobile s m,
   match res with
   | Ok _ => mkResponse StatusNoContent CNone
   | Err e => if errors_is e Mob.ErrNotFound then Error "not found" StatusNotFound
              else Error "delete failed" StatusInternalServerError
   end).

Definition handleMobileApprove (env : Env) (s : server) (r : Request) : server * Response :=
  match ReadAll maxMobileBody r with
  | ReadOK raw =>
  match json_mobileApprove raw with
  | None => (s, Error "invalid json" StatusBadRequest)
  | Some (mkMobileApprove req sig) =>
  if negb (Action req =s "approve") then (s, Error "unsupported action" StatusBadRequest) else
  if (TxID req =s "") || (ap_DeviceID req =s "") || (sig =s "") then
    (s, Error "missing fields" StatusBadRequest) else
  match Mob.Get (mobile s) (ap_DeviceID req) with
  | None => (s, Error "unknown device" StatusForbidden)
  | Some dev =>
  if negb (clientCertFPFromRequest r =s Mob.CertFingerprint dev) then
    (s, Error "mobile client certificate mismatch" StatusForbidden) else
  match marshal_approve req with
  | None => (s, Error "payload encode" StatusInternalServerError)
  | Some payloadBytes =>
  match verifyDeviceSignature (Mob.PubKey dev) payloadBytes sig (tick env TAuth) (ap_Timestamp req) with
  | Some e => (s, writeDeviceAuthError e)
  | None =>
  let allowed := Cfg.AllowedTTLSeconds (cfg s) in
  let ttl := seconds (TTLSeconds req) in
  let approve ttl :=
    (with_store s (Appr.Approve (keystore s) (tick env TDeadline) (tick env TIssuer) (store s) (TxID req) ttl
       (Lease.FormatApproverDeviceID (ap_DeviceID req))), mkResponse StatusOK CNone) in
  if ttl <=? 0 then approve (Tg.DefaultTTLFromAllowed allowed)
  else if negb (Tg.TTLAllowed (TTLSeconds req) allowed) then (s, Error "ttl not allowed" StatusBadRequest)
  else approve ttl
  end end end end
  | _ => (s, Error "read body" StatusBadRequest)
  end.

Definition handleMobileKeysPending (env : Env) (s : server) (r : Request) : server * Response :=
  if match peer r with Some c => Role.adminClientAllowed (Cfg.AdminClientOU (cfg s)) c | None => false end
  then (s, Error "automation/admin cert cannot upload keys" StatusForbidden) else
  match ReadAll maxPendingKeyBody r with
  | ReadOK raw =>
  match json_keysPending raw with
  | None => (s, Error "invalid json" StatusBadRequest)
  | Some (mkKeysPending req sig) =>
  if (pp_DeviceID req =s "") || (pp_EncryptedPEM req =s "") || (pp_Label req =s "") || (sig =s "") then
    (s, Error "device_id, encrypted_pem, label, and signature required" StatusBadRequest) else
  if pp_Timestamp req =? 0 then (s, Error "timestamp required" StatusBadRequest) else
  match Mob.Get (mobile s) (pp_DeviceID req) with
  | None => (s, Error "unknown device" StatusForbidden)
  | Some dev =>
  if negb (clientCertFPFromRequest r =s Mob.CertFingerprint dev) then
    (s, Error "mobile client certificate mismatch" StatusForbidden) else
  match marshal_pending req with
  | None => (s, Error "payload encode" StatusInternalServerError)
  | Some payloadBytes =>
  match verifyDeviceSignature (Mob.PubKey dev) payloadBytes sig (tick env TAuth) (pp_Timestamp req) with
  | Some e => (s, writeDeviceAuthError e)
  | None =>
  match StdDecodeString (pp_EncryptedPEM req) with
  | None => (s, Error "invalid encrypted_pem" StatusBadRequest)
  | Some blob =>
      let '(p, res) := Pend.Add (ulid env) (tick env TPending) (pending s) (pp_DeviceID req) (pp_Label req)
                         (pp_Comment req) blob in
      (with_pending s p,
       match res with
       | Ok id => mkResponse StatusAccepted (CPending id)
       | Err e => if bool_decide (e = Pend.ErrPendingFull) then Error "pending queue full" StatusTooManyRequests
                  else Error "upload failed" StatusInternalServerError
       end)
  end end end end end
  | _ => (s, Error "read body" StatusBadRequest)
  end.

(** ** Command line clients (cli_handler.go) *)

Definition cliDeviceFromPeer (s : server) (cert : option Certificate) : option Cli.Device :=
  c ← cert; Cli.GetByFingerprint (cli s) (CertFingerprint c).

Definition labelError (e : error) (other : Response) : Response :=
  if errors_is e Cli.ErrEmptyLabel then Error "device label required" StatusBadRequest
  else if errors_is e Cli.ErrLabelTooLong then Error "device label too long" StatusBadRequest
  else other.

Definition handleCLIEnroll (env : Env) (s : server) (r : Request) : server * Response :=
  match csrSigner s with
  | None => (s, Error "CLI CSR signing not configured" StatusServiceUnavailable)
  | Some _ =>
  match ReadAll maxCLIEnrollBody r with
  | ReadOK raw =>
  match json_cliEnroll raw with
  | None => (s, Error "invalid json" StatusBadRequest)
  | Some req =>
  if ce_CSRPEM req =s "" then (s, Error "csr_pem required" StatusBadRequest) else
  match Cli.ValidateLabel (ce_Label req) with
  | Err e => (s, labelError e (Error "invalid label" StatusBadRequest))
  | Ok _ =>
  match Csr.Sign (serial env) (tick env TSerial) (csrSigner s) (bytes_of (ce_CSRPEM req)) with
  | Err e =>
      (s, if errors_is e Csr.ErrCSRInvalid then Error "invalid certificate signing request" StatusBadRequest
          else if errors_is e Csr.ErrCANotConfigured
          then Error "CLI CSR signing not configured" StatusServiceUnavailable
          else Error "sign failed" StatusInternalServerError)
  | Ok (certPEM, fp) =>
      let '(c, res) := Cli.Enroll (ulid env) (tick env TEnroll) (cli s) (ce_Label req) fp in
      (with_cli s c,
       match res with
       | Ok dev => mkResponse StatusCreated (CCliEnroll (Cli.ID dev) (string_of certPEM))
       | Err e =>
           labelError e (if errors_is e Cli.ErrDuplicateFingerprint
                         then Error "certificate fingerprint already enrolled" StatusConflict
                         else Error "enroll failed" StatusInternalServerError)
       end)
  end end end
  | _ => (s, Error "read body" StatusBadRequest)
  end end.

Definition handleCLIListDevices (s : server) : Response :=
  mkResponse StatusOK (CCliDevices
    (map (fun d => mkCliDeviceJSON (Cli.ID d) (Cli.Label d) (Cli.CertFingerprint d) (RFC3339 (Cli.EnrolledAt d)))
       (Cli.List (cli s)))).

Definition handleCLIDeleteDevice (s : server) (r : Request) : server * Response :=
  let id := PathValue r "device_id" in
  if id =s "" then (s, Error "device_id required" StatusBadRequest) else
  match Cli.Delete (cli s) id with
  | (c, Err e) =>
      (with_cli s c, if errors_is e Cli.ErrNotFound then Error "not found" StatusNotFound
                     else Error "delete failed" StatusInternalServerError)
  | (c, Ok _) =>
      (with_limiter (with_cli s c) (Rate.Forget (loadLimiter s) id), mkResponse StatusNoContent CNone)
  end.

Definition handleCLIKeysLoad (env : Env) (s : server) (r : Request) : server * Response :=
  match peer r with
  | None => (s, writeCLIKeysLoadError StatusUnauthorized "CLIENT_CERT_REQUIRED" "client certificate required")
  | Some p =>
  if Role.adminClientAllowed (Cfg.AdminClientOU (cfg s)) p then
    (s, writeCLIKeysLoadError StatusForbidden "FORBIDDEN_ADMIN" "automation/admin cert cannot upload keys") else
  if negb (Role.cliClientAllowed (Cfg.CliClientOU (cfg s)) p) then
    (s, writeCLIKeysLoadError StatusForbidden "FORBIDDEN_CLI_CERT" "cli client certificate required") else
  match cliDeviceFromPeer s (Some p) with
  | None => (s, writeCLIKeysLoadError StatusForbidden "UNKNOWN_DEVICE" "unknown cli device")
  | Some dev =>
  if negb (Cfg.SignerMode (cfg s) =s Appr.SignerModeLocalKey) then
    (s, writeCLIKeysLoadError StatusBadRequest "SIGNER_MODE" "local-key mode required") else
  match ReadAll maxCLIKeyLoadBody r with
  | ReadOK raw =>
  match conn r with
  | None => (s, writeCLIKeysLoadError StatusUnauthorized "TLS_REQUIRED" "tls connection required")
  | Some c =>
  match parseCLIKeysLoadBody raw with
  | Err _ => (s, writeCLIKeysLoadError StatusBadRequest "INVALID_JSON" "invalid json")
  | Ok parsed =>
  match Auth.ValidateCLIKeysLoad c raw (Header r "X-Luna-Body-Mac") (Timestamp parsed) (tick env TAuth)
          (tick env TReplay) (replay s) with
  | (rp, Err e) => (with_replay s rp, writeCLIKeysLoadAuthError e)
  | (rp, Ok _) =>
  let s := with_replay s rp in
  if (EncryptedPEM parsed =s "") || (length (Passphrase parsed) =? 0)%nat || (Label parsed =s "") then
    (s, writeCLIKeysLoadError StatusBadRequest "MISSING_FIELDS" "encrypted_pem, passphrase, and label required") else
  match Cli.ValidateLabel (Label parsed) with
  | Err e => (s, writeCLIKeysLoadError StatusBadRequest "INVALID_LABEL" (error_text e))
  | Ok _ =>
  let '(l, allowed) := Rate.Allowed (tick env TAllowed) (loadLimiter s) (Cli.ID dev) in
  let s := with_limiter s l in
  if negb allowed then (s, writeCLIKeysLoadError StatusTooManyRequests "RATE_LIMIT" "rate limit exceeded") else
  match StdDecodeString (EncryptedPEM parsed) with
  | None => (s, writeCLIKeysLoadError StatusBadRequest "INVALID_PEM" "invalid encrypted_pem")
  | Some blob =>
  match Ks.LoadPEMBytes (syscall env) (tick env TLock) (tick env TFailure) (keystore s) blob
          (string_of (Passphrase parsed)) (Label parsed) with
  | (k, _, Err e) =>
      (with_keystore s k,
       if errors_is e Ks.ErrUnsealLocked then writeCLIKeysLoadError StatusForbidden "LOCKED" (error_text e)
       else writeCLIKeysLoadError StatusForbidden "LOAD_FAILED" "load failed")
  | (k, _, Ok fp) =>
      let '(l, _) := Rate.TryRecordSuccess (tick env TRecord) (loadLimiter s) (Cli.ID dev) in
      (with_limiter (with_keystore s k) l, mkResponse StatusOK (CKeysLoad fp))
  end end end end end end
  | _ => (s, writeCLIKeysLoadError StatusBadRequest "READ_BODY" "read body")
  end end end.

(** ** Bootstrapping mTLS (mtls_bootstrap_handler.go) *)

Definition handleMTLSCA (env : Env) (s : server) : Response :=
  let path := TrimSpace (Cfg.MTLSClientCA (cfg s)) in
  let path := if path =s "" then TrimSpace (Cfg.MTLSCACertPath (cfg s)) else path in
  if path =s "" then Error "mTLS CA not configured" StatusServiceUnavailable else
  match fs env path with
  | None => Error "mTLS CA unavailable" StatusServiceUnavailable
  | Some pemBytes => mkResponse StatusOK (CPem pemBytes)
  end.

Definition enrollBucket (r : Request) : string := "mtls-enroll:" +:+ clientIPFromRemoteAddr (RemoteAddr r).

Definition handleMTLSEnroll (env : Env) (s : server) (r : Request) : server * Response :=
  let '(l, ok) := Rate.TryRecordSuccess (tick env TRecord) (loadLimiter s) (enrollBucket r) in
  let s := with_limiter s l in
  if negb ok then (s, Error "rate limit exceeded" StatusTooManyRequests) else
  match csrSigner s with
  | None => (s, Error "mTLS enrollment not configured" StatusServiceUnavailable)
  | Some _ =>
  let expected := TrimSpace (Cfg.MTLSEnrollToken (cfg s)) in
  if expected =s "" then (s, Error "mTLS enrollment disabled (set mtls_enroll_token)" StatusForbidden) else
  let got := TrimSpace (Header r "X-Luna-Enroll-Token") in
  if negb (Auth.ConstantTimeCompare (bytes_of got) (bytes_of expected) =? 1) then
    (s, Error "invalid enroll token" StatusUnauthorized) else
  match ReadAll maxMTLSEnrollBody r with
  | ReadOK body =>
  match json_mtlsEnroll body with
  | None => (s, Error "invalid json" StatusBadRequest)
  | Some csrPEM =>
  if TrimSpace csrPEM =s "" then (s, Error "csr_pem required" StatusBadRequest) else
  (s, match Csr.SignAutomation (serial env) (tick env TSerial) (csrSigner s) (bytes_of csrPEM) with
      | Ok (certPEM, _) => mkResponse StatusCreated (CMtlsEnroll (string_of certPEM))
      | Err e =>
          if errors_is e Csr.ErrCSRInvalid then Error "invalid certificate signing request" StatusBadRequest
          else if errors_is e Csr.ErrCANotConfigured
          then Error "mTLS enrollment not configured" StatusServiceUnavailable
          else Error "sign failed" StatusInternalServerError
      end)
  end
  | _ => (s, Error "invalid body" StatusBadRequest)
  end end.

(** ** Routes (server.go) *)

Inductive route :=
| RHealthz | RMtlsCA | RMtlsEnroll | RUnseal | RSealStatus | RCapabilities | RSign
| RWait (during : Appr.Store -> Appr.Store) (w : wake)
| RMobileEnroll | RMobileDelete | RMobileApprove | RMobilePending
| RCliEnroll | RCliList | RCliDelete | RCliKeysLoad.

(** [s.withMTLS(h)] and [s.withAdminMTLS(h)] *)
Definition guarded (stop : option Response) (s : server) (h : option (server * Response * list event))
  : option (server * Response * list event) :=
  match stop with Some resp => Some (s, resp, []) | None => h end.

Definition plain (sr : server * Response) : option (server * Response * list event) := Some (sr, []).

(** The response of a route, [None] while a wait is still blocked. *)
Definition serve (env : Env) (s : server) (rt : route) (r : Request)
  : option (server * Response * list event) :=
  let mtls := guarded (withMTLS r) s in
  let admin := guarded (withAdminMTLS (cfg s) r) s in
  match rt with
  | RHealthz => plain (s, handleHealthz)
  | RMtlsCA => plain (s, handleMTLSCA env s)
  | RMtlsEnroll => plain (handleMTLSEnroll env s r)
  | RUnseal => admin (plain (s, handleUnseal))
  | RSealStatus => admin (plain (s, handleSealStatus))
  | RCapabilities => mtls (let '(resp, evs) := handleCapabilities env s r in Some (s, resp, evs))
  | RSign => mtls (Some (handleSign env s r))
  | RWait during w => mtls ('(s', resp) ← handleWait during w env s r; plain (s', resp))
  | RMobileEnroll => admin (plain (handleMobileEnroll env s r))
  | RMobileDelete => admin (plain (handleMobileDeleteDevice s r))
  | RMobileApprove => mtls (plain (handleMobileApprove env s r))
  | RMobilePending => mtls (plain (handleMobileKeysPending env s r))
  | RCliEnroll => admin (plain (handleCLIEnroll env s r))
  | RCliList => admin (plain (s, handleCLIListDevices s))
  | RCliDelete => admin (plain (handleCLIDeleteDevice s r))
  | RCliKeysLoad => mtls (plain (handleCLIKeysLoad env s r))
  end.

(** ** What an accepted signing request shows *)

Lemma writeAuthError_status e : status (writeAuthError e) <> StatusAccepted.
Proof. unfold writeAuthError. repeat case_match; done. Qed.

(** The destination of a local-key request: the validated binding, by either path. *)
Definition destination_valid (s : server) (req : Auth.SignRequest) (hostKeyFP : string)
    (v : Bind.ValidatedSessionBinding) : Prop :=
  exists pub data, Ks.PublicKeyForFingerprint (keystore s) hostKeyFP = Ok pub /\
    StdDecodeString (Auth.AgentSignData req) = Some data /\
    if Bind.HostPublicKey (Auth.req_SessionBinding req) =s "" then
      Bind.ValidateDirectLocalKeySignData (Auth.DestinationHostPublicKey req) data (Auth.TargetUser req) (Some pub) = Ok v
    else
      Bind.ValidateLocalKeySignData (Auth.req_SessionBinding req) data (Auth.TargetUser req) (Some pub) = Ok v.

Lemma bindDestination_inl s req fp meta o resp :
  bindDestination s req fp meta = inl (o, resp) -> status resp <> StatusAccepted.
Proof. unfold bindDestination. intros Hb. repeat case_match; simplify_eq/=; done. Qed.

Lemma bindDestination_inr s req fp meta dest meta' allow :
  bindDestination s req fp meta = inr (dest, meta', allow) ->
  (Cfg.SignerMode (cfg s) <> Appr.SignerModeLocalKey /\ dest = "" /\ meta' = meta /\ allow = true) \/
  (Cfg.SignerMode (cfg s) = Appr.SignerModeLocalKey /\
   allow = negb (Bind.HostPublicKey (Auth.req_SessionBinding req) =s "") /\
   Appr.cm_DisableLease meta' = negb allow /\
   exists v, destination_valid s req fp v /\ dest = Bind.HostKeyFingerprint v).
Proof.
  unfold bindDestination, destination_valid.
  destruct (Cfg.SignerMode (cfg s) =s _) eqn:Em; simpl; str_prop; [|by intros [= <- <- <-]; left].
  destruct (Ks.PublicKeyForFingerprint _ _) as [pub|] eqn:Ep; [|done].
  destruct (StdDecodeString _) as [data|] eqn:Ed; [|done].
  destruct (Bind.HostPublicKey _ =s "") eqn:Eb; simpl;
    [destruct (Bind.ValidateDirectLocalKeySignData _ _ _ _) as [v|] eqn:Ev
    |destruct (Bind.ValidateLocalKeySignData _ _ _ _) as [v|] eqn:Ev]; [|done| |done];
    intros [= <- <- <-]; right; split_and!; try done; exists v; split; try done; by exists pub, data.
Qed.

(** [st'] is [st] with one more entry and a channel of its own for it. *)
Definition adds_entry (st st' : Appr.Store) (id : string) (e : Appr.txEntry) : Prop :=
  Appr.resultCh e = Appr.next_ch st /\
  exists c, st' = Appr.mkStore (Appr.cfg st) (Appr.issuer st) (Appr.keySigner st) (Appr.leases st) (Appr.timeout st)
    (<[id := e]> (Appr.txs st)) (<[Appr.next_ch st := c]> (Appr.chans st)) (S (Appr.next_ch st)) (Appr.panicked st).

(** The entry [openTransaction] adds: approved from a lease, or pending. *)
Definition opened (s : server) (req : Auth.SignRequest) (r : Request) (hostFP dest : string) (meta : Appr.ClientMeta)
    (allow : bool) (s' : server) (id : string) : Prop :=
  exists e, Appr.txs (store s') !! id = Some e /\ Appr.leases (store s') = Appr.leases (store s) /\
    adds_entry (store s) (store s') id e /\
    Appr.TargetUser (Appr.tx e) = Auth.TargetUser req /\ Appr.TargetIP (Appr.tx e) = Auth.TargetIP req /\
    Appr.PublicKey (Appr.tx e) = Auth.req_PublicKey req /\
    Appr.SourceIP (Appr.tx e) = clientIPFromRemoteAddr (RemoteAddr r) /\
    Appr.ClientCertFP (Appr.tx e) = clientCertFPFromRequest r /\
    ((allow = true /\ Cfg.Env (cfg s) <> "dev" /\ Appr.tx_State (Appr.tx e) = Appr.StateApproved) \/
     (Appr.tx_State (Appr.tx e) = Appr.StatePending /\ Appr.result e = None /\
      Appr.AgentSignData (Appr.tx e) = Auth.AgentSignData req /\ Appr.HostKeyFingerprint (Appr.tx e) = hostFP /\
      Appr.DestinationHostKeyFingerprint (Appr.tx e) = dest /\
      Appr.DisableLease (Appr.tx e) = Appr.cm_DisableLease meta)).

Lemma openTransaction_spec env s req r hostFP dest meta allow log s' resp evs :
  openTransaction env s req (clientIPFromRemoteAddr (RemoteAddr r)) (clientCertFPFromRequest r) hostFP dest
    meta allow log = (s', resp, evs) ->
  s' = with_store s (store s') /\ resp = mkResponse StatusAccepted (CSign (Appr.newTxID (ulid env))) /\
  opened s req r hostFP dest meta allow s' (Appr.newTxID (ulid env)).
Proof.
  unfold openTransaction, opened. intros Ho.
  set (fast := if negb _ && _ then _ else _) in Ho.
  destruct fast as [res|] eqn:Ef; simpl in Ho; injection Ho as <- <- _; (split; [done|]); (split; [done|]);
    (eexists; split; [apply lookup_insert_eq|]); split_and!; try done; try (split; [done|by eexists]); [left|by right].
  unfold fast in Ef. destruct (Cfg.Env (cfg s) =s "dev") eqn:Ed, allow; str_prop; simpl in Ef; try done.
Qed.

(** The request body as the handler reads it. *)
Definition sign_body (r : Request) (req : Auth.SignRequest) : Prop :=
  Z.of_nat (length (body r)) <= maxSignRequestBody /\ body_fails r = false /\
  set_BodyMAC (Header r "X-Luna-Body-Mac") <$> json_SignRequest (body r) = Some req.

Lemma handleSign_accepted env s r s' resp evs :
  handleSign env s r = (s', resp, evs) -> status resp = StatusAccepted ->
  exists req c rp hostFP dest meta allow,
    sign_body r req /\ conn r = Some c /\
    Auth.ValidateSignRequest c (body r) req (tick env TAuth) (tick env TReplay) (replay s) = (rp, Ok tt) /\
    Ks.Available (keystore s) = true /\
    resolveHostKeyFingerprint env (with_replay s rp) req = Ok hostFP /\
    bindDestination (with_replay s rp) req hostFP (signClientMeta req) = inr (dest, meta, allow) /\
    s' = with_store (with_replay s rp) (store s') /\
    resp = mkResponse StatusAccepted (CSign (Appr.newTxID (ulid env))) /\
    opened (with_replay s rp) req r hostFP dest meta allow s' (Appr.newTxID (ulid env)).
Proof.
  intros Hh Hst. unfold handleSign, ReadAll in Hh.
  destruct (Z.ltb_spec maxSignRequestBody (Z.of_nat (length (body r)))) as [|Hlen]; [by simplify_eq|].
  destruct (body_fails r) eqn:Ebf; [by simplify_eq|].
  destruct (json_SignRequest (body r)) as [req0|] eqn:Ej; [|by simplify_eq].
  set (req := set_BodyMAC _ req0) in *. destruct (conn r) as [c|] eqn:Ec; [|by simplify_eq].
  destruct (Auth.ValidateSignRequest c _ req _ _ _) as [rp [[]|e]] eqn:Ev.
  2: { injection Hh as <- <- <-. by destruct (writeAuthError_status e). }
  cbn [keystore with_replay cfg] in Hh. destruct (Ks.Available (keystore s)) eqn:Ea; simpl in Hh; [|by simplify_eq].
  destruct ((_ =s _) && _); [by simplify_eq|]. destruct (_ <? len _); [by simplify_eq|].
  destruct (resolveHostKeyFingerprint _ _ _) as [hostFP|] eqn:Er; [|by simplify_eq].
  destruct (bindDestination _ _ _ _) as [[o resp']|[[dest meta] allow]] eqn:Eb.
  { injection Hh as <- <- <-. by destruct (bindDestination_inl _ _ _ _ _ _ Eb). }
  apply openTransaction_spec in Hh as (Hs & Hr & Ho).
  exists req, c, rp, hostFP, dest, meta, allow. split_and!; try done.
  unfold sign_body. by rewrite Ej.
Qed.

(** C4: A signing request is accepted only after the whole pipeline passed on a TLS connection with
    an unsealed keystore; in local-key mode, only for sign data that the session binding or the
    client-reported host key validates for the resolved hosted key.  It opens exactly one transaction
    for the caller's certificate, user and address: the approval store becomes what it was with that
    entry and its own channel added, every other transaction, channel and lease as before, the replay
    cache takes the body and nothing else of the server changes.  That transaction is decided at once
    only outside development and when a lease may be used. *)
Theorem sign_accepted_authenticated env s r s' resp evs :
  handleSign env s r = (s', resp, evs) -> status resp = StatusAccepted ->
  exists req c rp hostFP e,
    sign_body r req /\ conn r = Some c /\
    Auth.ValidateSignRequest c (body r) req (tick env TAuth) (tick env TReplay) (replay s) = (rp, Ok tt) /\
    Ks.Available (keystore s) = true /\ resolveHostKeyFingerprint env s req = Ok hostFP /\
    s' = with_store (with_replay s rp) (store s') /\ payload resp = CSign (Appr.newTxID (ulid env)) /\
    Appr.txs (store s') !! Appr.newTxID (ulid env) = Some e /\
    adds_entry (store s) (store s') (Appr.newTxID (ulid env)) e /\
    Appr.ClientCertFP (Appr.tx e) = clientCertFPFromRequest r /\
    Appr.TargetUser (Appr.tx e) = Auth.TargetUser req /\ Appr.TargetIP (Appr.tx e) = Auth.TargetIP req /\
    (Appr.tx_State (Appr.tx e) = Appr.StatePending \/
     Appr.tx_State (Appr.tx e) = Appr.StateApproved /\ Cfg.Env (cfg s) <> "dev" /\
     (Cfg.SignerMode (cfg s) = Appr.SignerModeLocalKey -> Bind.HostPublicKey (Auth.req_SessionBinding req) <> "")) /\
    (Cfg.SignerMode (cfg s) = Appr.SignerModeLocalKey -> exists v, destination_valid s req hostFP v /\
       (Appr.tx_State (Appr.tx e) = Appr.StatePending ->
        Appr.DestinationHostKeyFingerprint (Appr.tx e) = Bind.HostKeyFingerprint v)).
Proof.
  intros Hh Hst. apply handleSign_accepted in Hh as
    (req & c & rp & hostFP & dest & meta & allow & Hb & Hc & Hv & Ha & Hr & Hd & Hs & -> & Ho); [|done].
  destruct Ho as (e & He & _ & Hadd & Hu & Hip & _ & _ & Hfp & Hcase).
  apply bindDestination_inr in Hd. cbn [cfg with_replay] in Hd.
  exists req, c, rp, hostFP, e. split_and!; try done.
  - destruct Hcase as [(Hal & Hdev & Hst')|(Hst' & _)]; [right|by left]. split_and!; try done.
    intros Hm. destruct Hd as [(Hne & _)|(_ & Hal' & _)]; [done|]. rewrite Hal in Hal'.
    symmetry in Hal'. by apply negb_true_iff, str_eqb_neq in Hal'.
  - intros Hm. destruct Hd as [(Hne & _)|(_ & _ & _ & v & Hv' & ->)]; [done|]. exists v. split; [done|].
    intros Hp. destruct Hcase as [(_ & _ & Hst')|(_ & _ & _ & _ & Hde & _)]; congruence.
Qed.

(** ** Destinations the client only reports *)

Lemma Approve_keeps_leases ks now clock st id ttl who e :
  Appr.txs st !! id = Some e -> Appr.DisableLease (Appr.tx e) = true ->
  Appr.leases (Appr.Approve ks now clock st id ttl who) = Appr.leases st.
Proof.
  intros He Hd. unfold Appr.Approve, Appr.approveWithIssuer, Appr.approver_step, Appr.claimApproval.
  rewrite He. destruct (_ || _); [done|]. cbn [fst snd].
  destruct (Appr.issueForTransaction _ _ _ _ _) as [res|er]; unfold Appr.finishClaimed; simpl;
    rewrite lookup_insert_eq; simpl; destruct (_ || _); try done;
    unfold Appr.finishLocked, Appr.lease_wanted; simpl; rewrite ?Hd, ?andb_false_r;
    by destruct (Appr.chans st !! _) as [c|]; [destruct (Appr.try_send _ _)|].
Qed.

(** C5: In local-key mode a request without a verified session binding never benefits from a lease
    and never creates one: an accepted one waits for its own approval, no lease changes, and neither
    does any later approval of it, by whomever and for however long. *)
Theorem client_reported_never_leases env s r s' resp evs req :
  handleSign env s r = (s', resp, evs) -> status resp = StatusAccepted ->
  Cfg.SignerMode (cfg s) = Appr.SignerModeLocalKey ->
  set_BodyMAC (Header r "X-Luna-Body-Mac") <$> json_SignRequest (body r) = Some req ->
  Bind.HostPublicKey (Auth.req_SessionBinding req) = "" ->
  (exists e, Appr.txs (store s') !! Appr.newTxID (ulid env) = Some e /\
     Appr.tx_State (Appr.tx e) = Appr.StatePending /\ Appr.result e = None) /\
  Appr.leases (store s') = Appr.leases (store s) /\
  forall ks now clock ttl who,
    Appr.leases (Appr.Approve ks now clock (store s') (Appr.newTxID (ulid env)) ttl who) = Appr.leases (store s).
Proof.
  intros Hh Hst Hm Hreq Hb. apply handleSign_accepted in Hh as
    (req' & c & rp & hostFP & dest & meta & allow & (_ & _ & Hj) & _ & _ & _ & _ & Hd & _ & _ & Ho); [|done].
  assert (req' = req) as -> by congruence.
  apply bindDestination_inr in Hd as [(Hne & _)|(_ & Hal & Hdis & _)]; [done|].
  rewrite Hb in Hal. simpl in Hal. subst allow. destruct Ho as (e & He & Hl & _ & _ & _ & _ & _ & _ & Hcase).
  destruct Hcase as [(? & _)|(Hp & Hr & _ & _ & _ & Hdl)]; [done|].
  split; [by exists e|]. split; [done|]. cbn [store with_replay] in Hl. intros. rewrite <- Hl.
  eapply Approve_keeps_leases; [done|].
  by rewrite Hdl, Hdis.
Qed.

(** ** Collecting credentials *)

(** C11: A decided or undecided transaction bound to a client certificate is visible to that
    certificate only: a wait with any other one, or with none, is refused with 403 and leaves the
    store untouched, whatever the state of the transaction; a wait is answered with credentials only
    when the certificate matches. *)
Theorem wait_only_by_requester during w env s r e :
  Appr.txs (store s) !! PathValue r "tx_id" = Some e -> Appr.ClientCertFP (Appr.tx e) <> "" ->
  (Appr.ClientCertFP (Appr.tx e) <> clientCertFPFromRequest r ->
   handleWait during w env s r = Some (s, Error "client certificate mismatch" StatusForbidden)) /\
  (forall s' resp wr, handleWait during w env s r = Some (s', resp) -> payload resp = CWait wr ->
   Appr.ClientCertFP (Appr.tx e) = clientCertFPFromRequest r).
Proof.
  intros He Hfp. unfold handleWait, Appr.store_ClientCertFP. rewrite He. simpl.
  apply str_eqb_neq in Hfp as ->. simpl. split.
  - intros Hne. rewrite (proj2 (str_eqb_neq _ _)) by congruence. done.
  - intros s' resp wr. destruct (_ =s _) eqn:Ec; str_prop; [done|]. simpl. by intros [= <- <-].
Qed.

(** ** Mobile approvals *)

(** What an accepted mobile approval had to show. *)
Definition device_approved (env : Env) (s : server) (r : Request) (req : mobileApproveSignPayload) (dev : Mob.Device)
  : Prop :=
  mobile s !! ap_DeviceID req = Some dev /\ Action req = "approve" /\ TxID req <> "" /\
  clientCertFPFromRequest r = Mob.CertFingerprint dev /\
  exists sig payloadBytes, json_mobileApprove (body r) = Some (mkMobileApprove req sig) /\
    marshal_approve req = Some payloadBytes /\
    verifyDeviceSignature (Mob.PubKey dev) payloadBytes sig (tick env TAuth) (ap_Timestamp req) = None.

(** The lifetime the handler grants. *)
Definition granted_ttl (s : server) (sec : Z) : option Z :=
  if seconds sec <=? 0 then Some (Tg.DefaultTTLFromAllowed (Cfg.AllowedTTLSeconds (cfg s)))
  else if Tg.TTLAllowed sec (Cfg.AllowedTTLSeconds (cfg s)) then Some (seconds sec) else None.

Definition approve_for (env : Env) (s : server) (req : mobileApproveSignPayload) (ttl : Z) : server :=
  with_store s (Appr.Approve (keystore s) (tick env TDeadline) (tick env TIssuer) (store s) (TxID req) ttl
    (Lease.FormatApproverDeviceID (ap_DeviceID req))).

Lemma handleMobileApprove_ok env s r s' resp :
  handleMobileApprove env s r = (s', resp) -> status resp = StatusOK ->
  exists req dev ttl, device_approved env s r req dev /\ granted_ttl s (TTLSeconds req) = Some ttl /\
    s' = approve_for env s req ttl.
Proof.
  unfold handleMobileApprove, granted_ttl, device_approved, Mob.Get, ReadAll. intros Hh Hst.
  destruct (_ <? _); [by simplify_eq|]. destruct (body_fails r); [by simplify_eq|].
  destruct (json_mobileApprove (body r)) as [[req sig]|]; [|by simplify_eq].
  destruct (Action req =s "approve") eqn:Ea; simpl in Hh; [|by simplify_eq].
  destruct (TxID req =s "") eqn:Et; simpl in Hh; [by simplify_eq|].
  destruct (_ || _); simpl in Hh; [by simplify_eq|].
  destruct (mobile s !! ap_DeviceID req) as [dev|] eqn:Ed; [|by simplify_eq].
  destruct (_ =s Mob.CertFingerprint dev) eqn:Ec; simpl in Hh; [|by simplify_eq].
  destruct (marshal_approve req) as [pb|] eqn:Em; [|by simplify_eq].
  destruct (verifyDeviceSignature _ _ _ _ _) as [er|] eqn:Ev;
    [destruct er; by simplify_eq|]. str_prop.
  destruct (seconds _ <=? 0) eqn:El;
    [|destruct (Tg.TTLAllowed _ _) eqn:Ea'; simpl in Hh; [|by simplify_eq]]; simplify_eq;
    exists req, dev; eexists; rewrite El, ?Ea'; (split; [|split; [reflexivity|done]]); split_and!; try done; by exists sig, pb.
Qed.

Lemma handleMobileApprove_refused env s r s' resp :
  handleMobileApprove env s r = (s', resp) -> status resp <> StatusOK -> s' = s.
Proof.
  unfold handleMobileApprove. intros Hh Hst. repeat case_match; simplify_eq; done.
Qed.

(** C9: The mobile route approves a transaction only for an enrolled device: the request comes over
    the client certificate the device was enrolled with and carries the device key's signature over
    exactly this transaction, action, lifetime, device and timestamp, at most 30 s from the proxy's
    clock.  The granted lifetime is one of the configured ones or the configured default, and the
    approval is recorded under the device's name; every other request leaves the server unchanged. *)
Theorem mobile_approve_authorized env s r s' resp :
  0 <= Unix (tick env TAuth) < 2 ^ 62 ->
  handleMobileApprove env s r = (s', resp) ->
  (status resp <> StatusOK /\ s' = s) \/
  exists req dev ttl sigHex sig payloadBytes,
    status resp = StatusOK /\ json_mobileApprove (body r) = Some (mkMobileApprove req sigHex) /\
    HexDecodeString sigHex = Some sig /\ mobile s !! ap_DeviceID req = Some dev /\
    clientCertFPFromRequest r = Mob.CertFingerprint dev /\
    marshal_approve req = Some payloadBytes /\ Action req = "approve" /\
    Z.abs (ap_Timestamp req - Unix (tick env TAuth)) <= 30 /\
    ed25519_Verify (Mob.PubKey dev) payloadBytes sig = true /\
    (ttl = Tg.DefaultTTLFromAllowed (Cfg.AllowedTTLSeconds (cfg s)) \/
     exists sec, sec ∈ Cfg.AllowedTTLSeconds (cfg s) /\ TTLSeconds req = sec /\ ttl = seconds sec) /\
    s' = with_store s (Appr.Approve (keystore s) (tick env TDeadline) (tick env TIssuer) (store s)
           (TxID req) ttl ("device:" +:+ ap_DeviceID req)).
Proof.
  intros Hn Hh. destruct (decide (status resp = StatusOK)) as [Hok|];
    [right|left; split; [done|by eapply handleMobileApprove_refused]].
  apply handleMobileApprove_ok in Hh as (req & dev & ttl & Hd & Ht & ->); [|done].
  destruct Hd as (Hdev & Ha & _ & Hfp & sig & pb & Hj & Hm & Hv).
  apply verifyDeviceSignature_ok in Hv as (Hts & sg & Hsg & _ & Hv); [|done].
  exists req, dev, ttl, sig, sg, pb. split_and!; try done. unfold granted_ttl in Ht.
  destruct (_ <=? 0); [by simplify_eq; left|]. destruct (Tg.TTLAllowed _ _) eqn:E; simplify_eq.
  right. exists (TTLSeconds req). by rewrite <- Tg.TTLAllowed_spec.
Qed.

(** A device that asks for a lifetime so large that its nanoseconds overflow is not told that
    the lifetime is not allowed: the product wraps below zero, and the request is approved with the
    default lifetime. *)
Theorem oversized_ttl_becomes_default env s r req dev :
  device_approved env s r req dev -> ap_DeviceID req <> "" ->
  (forall sig, json_mobileApprove (body r) = Some (mkMobileApprove req sig) -> sig <> "") ->
  Z.of_nat (length (body r)) <= maxMobileBody -> body_fails r = false ->
  0 < TTLSeconds req -> seconds (TTLSeconds req) <= 0 ->
  handleMobileApprove env s r =
  (approve_for env s req (Tg.DefaultTTLFromAllowed (Cfg.AllowedTTLSeconds (cfg s))), mkResponse StatusOK CNone).
Proof.
  intros (Hdev & Ha & Ht & Hfp & sig & pb & Hj & Hm & Hv) Hid Hsig Hlen Hbf _ Hs.
  unfold handleMobileApprove, ReadAll, Mob.Get. rewrite (proj2 (Z.ltb_ge _ _)), Hbf, Hj by lia.
  rewrite Ha, Hdev, Hfp, Hm, Hv, !str_eqb_refl. simpl.
  rewrite (proj2 (str_eqb_neq _ _) Ht), (proj2 (str_eqb_neq _ _) Hid), (proj2 (str_eqb_neq _ _) (Hsig sig Hj)).
  simpl. by rewrite (proj2 (Z.leb_le _ _) Hs).
Qed.

(** ** Loading keys remotely *)

Lemma handleCLIKeysLoad_changes env s r s' resp :
  handleCLIKeysLoad env s r = (s', resp) -> keystore s' <> keystore s ->
  exists cert dev c parsed rp blob,
    peer r = Some cert /\ Role.adminClientAllowed (Cfg.AdminClientOU (cfg s)) cert = false /\
    Role.cliClientAllowed (Cfg.CliClientOU (cfg s)) cert = true /\
    Cli.GetByFingerprint (cli s) (CertFingerprint cert) = Some dev /\
    Cfg.SignerMode (cfg s) = Appr.SignerModeLocalKey /\ conn r = Some c /\
    parseCLIKeysLoadBody (body r) = Ok parsed /\
    Auth.ValidateCLIKeysLoad c (body r) (Header r "X-Luna-Body-Mac") (Timestamp parsed) (tick env TAuth)
      (tick env TReplay) (replay s) = (rp, Ok tt) /\
    Cli.ValidateLabel (Label parsed) = Ok tt /\
    (Rate.Allowed (tick env TAllowed) (loadLimiter s) (Cli.ID dev)).2 = true /\
    StdDecodeString (EncryptedPEM parsed) = Some blob /\
    keystore s' = (Ks.LoadPEMBytes (syscall env) (tick env TLock) (tick env TFailure) (keystore s) blob
                     (string_of (Passphrase parsed)) (Label parsed)).1.1.
Proof.
  unfold handleCLIKeysLoad, ReadAll. intros Hh Hk.
  destruct (peer r) as [cert|]; [|by simplify_eq].
  destruct (Role.adminClientAllowed _ _) eqn:Ea; [by simplify_eq|].
  destruct (Role.cliClientAllowed _ _) eqn:Ec; simpl in Hh; [|by simplify_eq].
  unfold cliDeviceFromPeer in Hh. simpl in Hh.
  destruct (Cli.GetByFingerprint _ _) as [dev|] eqn:Ed; [|by simplify_eq].
  destruct (_ =s Appr.SignerModeLocalKey) eqn:Em; simpl in Hh; [|by simplify_eq].
  destruct (_ <? _); [by simplify_eq|]. destruct (body_fails r); [by simplify_eq|].
  destruct (conn r) as [c|]; [|by simplify_eq].
  destruct (parseCLIKeysLoadBody (body r)) as [parsed|] eqn:Ep; [|by simplify_eq].
  destruct (Auth.ValidateCLIKeysLoad _ _ _ _ _ _ _) as [rp [[]|]] eqn:Ev; [|by simplify_eq].
  destruct (_ || _ || _); [by simplify_eq|].
  destruct (Cli.ValidateLabel _) as [[]|] eqn:El; [|by simplify_eq]. cbn [loadLimiter with_replay] in Hh.
  destruct (Rate.Allowed _ _ _) as [l ok] eqn:Er. destruct ok; simpl in Hh; [|by simplify_eq].
  destruct (StdDecodeString _) as [blob|] eqn:Eb; [|by simplify_eq]. str_prop.
  exists cert, dev, c, parsed, rp, blob. rewrite Er. split_and!; try done.
  destruct (Ks.LoadPEMBytes _ _ _ _ _ _ _) as [[k b] [fp|e]]; [|by simplify_eq].
  destruct (Rate.TryRecordSuccess _ _ _). by simplify_eq.
Qed.

(** The remote key-load route changes the keystore only for an operator: the peer certificate
    carries the command line OU and not the administrator OU and is the certificate of an enrolled
    device, the proxy runs in local-key mode, the body has the HMAC of this connection and a fresh,
    timely content, and the device is under its hourly limit; the change is then exactly the one
    [LoadPEMBytes] makes with the decrypted upload, counted failures included. *)
Theorem keys_load_authorized env s r s' resp :
  handleCLIKeysLoad env s r = (s', resp) -> keystore s' <> keystore s ->
  exists cert dev c parsed rp blob,
    peer r = Some cert /\ Role.adminClientAllowed (Cfg.AdminClientOU (cfg s)) cert = false /\
    Role.cliClientAllowed (Cfg.CliClientOU (cfg s)) cert = true /\
    Cli.GetByFingerprint (cli s) (CertFingerprint cert) = Some dev /\
    Cfg.SignerMode (cfg s) = Appr.SignerModeLocalKey /\ conn r = Some c /\
    parseCLIKeysLoadBody (body r) = Ok parsed /\
    Auth.ValidateCLIKeysLoad c (body r) (Header r "X-Luna-Body-Mac") (Timestamp parsed) (tick env TAuth)
      (tick env TReplay) (replay s) = (rp, Ok tt) /\
    Cli.ValidateLabel (Label parsed) = Ok tt /\
    (Rate.Allowed (tick env TAllowed) (loadLimiter s) (Cli.ID dev)).2 = true /\
    StdDecodeString (EncryptedPEM parsed) = Some blob /\
    keystore s' = (Ks.LoadPEMBytes (syscall env) (tick env TLock) (tick env TFailure) (keystore s) blob
                     (string_of (Passphrase parsed)) (Label parsed)).1.1.
Proof. apply handleCLIKeysLoad_changes. Qed.

(** Revoking a command line device takes effect at once: after the delete answers 204, every
    key-load request over that device's certificate is refused with 403 and changes nothing. *)
Theorem revoked_device_cannot_load s r s' resp cert d :
  rtc Cli.step Cli.NewStore (cli s) -> Cli.GetByFingerprint (cli s) (CertFingerprint cert) = Some d ->
  PathValue r "device_id" = Cli.ID d -> Cli.ID d <> "" ->
  handleCLIDeleteDevice s r = (s', resp) ->
  status resp = StatusNoContent /\
  forall env r', peer r' = Some cert ->
    (handleCLIKeysLoad env s' r').1 = s' /\ status (handleCLIKeysLoad env s' r').2 = StatusForbidden.
Proof.
  intros Hr Hg Hid Hne Hh. apply Cli.cli_reachable_wf in Hr as [Hw Hone].
  apply (Cli.find_fingerprint_unique (cli s)) in Hg as (i & Hi & Hfp); [|done|apply iteration_self].
  destruct (Hw _ _ Hi) as [Hid' _]. subst i.
  unfold handleCLIDeleteDevice in Hh. rewrite Hid, (proj2 (str_eqb_neq _ _) Hne) in Hh.
  unfold Cli.Delete in Hh. rewrite Hi in Hh. injection Hh as <- <-. split; [done|].
  intros env r' Hp. unfold handleCLIKeysLoad, cliDeviceFromPeer. rewrite Hp. simpl.
  destruct (Role.adminClientAllowed _ _); [done|]. destruct (Role.cliClientAllowed _ _); [|done]. simpl.
  unfold Cli.GetByFingerprint.
  destruct (Cli.find_fingerprint _ _) as [e|] eqn:E; [|done]. exfalso.
  apply Cli.find_fingerprint_some in E as (He & j & Hj%elem_of_map_to_list).
  apply lookup_delete_Some in Hj as [Hji Hj]. apply Hji.
  by eapply (Hone (Cli.ID d) j d e); [..|congruence].
Qed.

(** ** Who may change what *)

Lemma withAdminMTLS_none c r :
  withAdminMTLS c r = None -> exists cert, peer r = Some cert /\ Role.adminClientAllowed (Cfg.AdminClientOU c) cert = true.
Proof.
  unfold withAdminMTLS. destruct (peer r) as [cert|]; [|done].
  destruct (Role.adminClientAllowed _ _) eqn:E; [|done]. eauto.
Qed.

(** The parts of the server no handler but the named ones touches. *)
Definition same_registries (s s' : server) : Prop := mobile s' = mobile s /\ cli s' = cli s.
Definition same_but_limiter (s s' : server) : Prop := s' = with_limiter s (loadLimiter s').

Lemma same_but_limiter_refl s : same_but_limiter s s.
Proof. by destruct s. Qed.
#[local] Hint Resolve same_but_limiter_refl : luna.

Lemma handleMTLSEnroll_frame env s r : same_but_limiter s (handleMTLSEnroll env s r).1.
Proof.
  unfold handleMTLSEnroll, same_but_limiter. destruct (Rate.TryRecordSuccess _ _ _) as [l ok].
  repeat case_match; by simplify_eq/=.
Qed.

Lemma handleSign_frame env s r : same_registries s (handleSign env s r).1.1.
Proof.
  unfold handleSign, openTransaction, same_registries. cbv zeta.
  repeat case_match; simplify_eq/=; done.
Qed.

Lemma handleWait_frame during w env s r s' resp :
  handleWait during w env s r = Some (s', resp) -> same_registries s s'.
Proof.
  unfold handleWait. intros Hh. repeat case_match; simplify_eq/=; [done|].
  destruct (Wait _ _ _ _) as [[st [res|e]]|]; by simplify_eq/=.
Qed.

Lemma handleMobileApprove_frame env s r : same_registries s (handleMobileApprove env s r).1.
Proof. unfold handleMobileApprove. cbv zeta. repeat case_match; done. Qed.

Lemma handleMobileKeysPending_frame env s r : same_registries s (handleMobileKeysPending env s r).1.
Proof. unfold handleMobileKeysPending. repeat case_match; done. Qed.

Lemma handleCLIKeysLoad_frame env s r : same_registries s (handleCLIKeysLoad env s r).1.
Proof. unfold handleCLIKeysLoad. cbv zeta. repeat case_match; done. Qed.

Definition public_route (rt : route) : bool :=
  match rt with RHealthz | RMtlsCA | RMtlsEnroll => true | _ => false end.
Definition admin_route (rt : route) : bool :=
  match rt with
  | RUnseal | RSealStatus | RMobileEnroll | RMobileDelete | RCliEnroll | RCliList | RCliDelete => true
  | _ => false
  end.

Lemma serve_public env s rt r s' resp evs :
  public_route rt = true -> serve env s rt r = Some (s', resp, evs) -> same_but_limiter s s' /\ evs = [].
Proof.
  destruct rt; try done; intros _; simpl; unfold plain.
  - intros [= <- <- <-]. auto with luna.
  - intros [= <- <- <-]. auto with luna.
  - pose proof (handleMTLSEnroll_frame env s r). destruct (handleMTLSEnroll env s r). by intros [= <- <- <-].
Qed.

Lemma serve_no_certificate env s rt r :
  public_route rt = false -> peer r = None ->
  serve env s rt r = Some (s, Error "client certificate required" StatusUnauthorized, []).
Proof. intros Hp Hr. destruct rt; try done; simpl; unfold withMTLS, withAdminMTLS; by rewrite Hr. Qed.

Lemma serve_not_admin env s rt r resp :
  admin_route rt = true -> withAdminMTLS (cfg s) r = Some resp -> serve env s rt r = Some (s, resp, []).
Proof. intros Ha Hr. destruct rt; try done; simpl; by rewrite Hr. Qed.

Lemma serve_registries env s rt r s' resp evs :
  admin_route rt = false -> serve env s rt r = Some (s', resp, evs) -> same_registries s s'.
Proof.
  intros Ha Hs. destruct (public_route rt) eqn:Hp.
  { destruct (serve_public _ _ _ _ _ _ _ Hp Hs) as [-> _]. done. }
  destruct (peer r) as [cert|] eqn:Hr.
  2: { rewrite serve_no_certificate in Hs by done. by simplify_eq. }
  destruct rt; try done; simpl in Hs; unfold withMTLS, plain in Hs; rewrite Hr in Hs; simpl in Hs.
  - by injection Hs as <- _ _.
  - injection Hs as Hs. pose proof (handleSign_frame env s r) as Hf. by rewrite Hs in Hf.
  - destruct (handleWait during w env s r) as [[s1 r1]|] eqn:E; simplify_eq/=. by eapply handleWait_frame.
  - injection Hs as Hs _. pose proof (handleMobileApprove_frame env s r) as Hf. by rewrite Hs in Hf.
  - injection Hs as Hs _. pose proof (handleMobileKeysPending_frame env s r) as Hf. by rewrite Hs in Hf.
  - injection Hs as Hs _. pose proof (handleCLIKeysLoad_frame env s r) as Hf. by rewrite Hs in Hf.
Qed.

(** Whatever the request, the device registries change only when the peer certificate carries
    the administrator OU; a request without a client certificate changes nothing but the rate
    limiter (the enrolment route counts its attempts) and is refused with 401 outside the three
    public routes. *)
Theorem registries_admin_only env s rt r s' resp evs :
  serve env s rt r = Some (s', resp, evs) ->
  (mobile s' <> mobile s \/ cli s' <> cli s ->
    exists cert, peer r = Some cert /\ Role.adminClientAllowed (Cfg.AdminClientOU (cfg s)) cert = true) /\
  (peer r = None -> same_but_limiter s s' /\ evs = [] /\
    (public_route rt = false -> s' = s /\ status resp = StatusUnauthorized)).
Proof.
  intros Hs. split.
  - intros Hx. destruct (admin_route rt) eqn:Ha.
    + destruct (withAdminMTLS (cfg s) r) eqn:E; [|by apply withAdminMTLS_none].
      rewrite (serve_not_admin _ _ _ _ _ Ha E) in Hs. simplify_eq. tauto.
    + destruct (serve_registries _ _ _ _ _ _ _ Ha Hs) as [Hm Hc]. rewrite Hm, Hc in Hx. tauto.
  - intros Hp. destruct (public_route rt) eqn:E.
    + destruct (serve_public _ _ _ _ _ _ _ E Hs). done.
    + rewrite serve_no_certificate in Hs by done. simplify_eq. auto with luna.
Qed.

(** The enrolment route issues a certificate only to a caller that presents the configured,
    non-empty token and whose address made fewer than ten attempts in the last hour; what it issues
    is an automation certificate for the submitted request. *)
Theorem mtls_enroll_guarded env s r s' resp :
  handleMTLSEnroll env s r = (s', resp) -> status resp = StatusCreated ->
  (Rate.TryRecordSuccess (tick env TRecord) (loadLimiter s) (enrollBucket r)).2 = true /\
  TrimSpace (Cfg.MTLSEnrollToken (cfg s)) <> "" /\
  TrimSpace (Header r "X-Luna-Enroll-Token") = TrimSpace (Cfg.MTLSEnrollToken (cfg s)) /\
  exists csrPEM pem fp, json_mtlsEnroll (body r) = Some csrPEM /\
    Csr.SignAutomation (serial env) (tick env TSerial) (csrSigner s) (bytes_of csrPEM) = Ok (pem, fp) /\
    payload resp = CMtlsEnroll (string_of pem).
Proof.
  unfold handleMTLSEnroll, ReadAll. intros Hh Hst.
  destruct (Rate.TryRecordSuccess _ _ _) as [l ok]. destruct ok; simpl in Hh; [|by simplify_eq].
  destruct (csrSigner s) as [sg|]; [|by simplify_eq].
  destruct (_ =s "") eqn:Ee; [by simplify_eq|].
  destruct (Auth.ConstantTimeCompare _ _ =? 1) eqn:Ec; simpl in Hh; [|by simplify_eq].
  destruct (_ <? _); [by simplify_eq|]. destruct (body_fails r); [by simplify_eq|].
  destruct (json_mtlsEnroll (body r)) as [csrPEM|]; [|by simplify_eq].
  destruct (TrimSpace csrPEM =s ""); [by simplify_eq|]. str_prop.
  apply Auth.ConstantTimeCompare_eq, bytes_of_inj in Ec.
  destruct (Csr.SignAutomation _ _ _ _) as [[pem fp]|e] eqn:Es.
  - simplify_eq. split_and!; try done. by exists csrPEM, pem, fp.
  - exfalso. repeat case_match; simplify_eq; done.
Qed.

End api.

(** ** A concrete server *)
Module ApiDemo.
Import Demo Bind.WireDemo Csr.CsrDemo.
#[local] Existing Instances Sign.demo_cert Sign.LocalCA Sign.LocalCA_laws.

Definition eta2 {A B} (x : A * B) : x = (x.1, x.2) := match x with (a, b) => eq_refl end.
Definition eta3 {A B C} (x : A * B * C) : x = (x.1.1, x.1.2, x.2) := match x with (a, b, c) => eq_refl end.

Definition clock : Z := 1700000000 * Second.
Definition dest_host : list byte := bytes_of "server-key".

(** A hosted-key request for [root], whose destination the client reports. *)
Definition sign_req : Auth.SignRequest :=
  Auth.mkSignRequest "client-key" "root" "10.0.0.7" 1700000000
    (Auth.SignPoP (fun m => bytes_of "client-key" ++ m) "root" "10.0.0.7" 1700000000)
    (StdEncodeToString (request (bytes_of "session") (bytes_of "host-key") "root"))
    "" "" "alice" "ssh" "1.0" Bind.noBinding (StdEncodeToString dest_host) "".

Definition approve_req : mobileApproveSignPayload :=
  mkApprovePayload "tx_1" "approve" 9223372037 "dev_1" 1700000000.
Definition device_key : list byte := bytes_of "device-key-of-thirty-two-bytes!!".
Definition toy_sig (k m : list byte) : list byte := take 64 (k ++ m ++ replicate 64 Byte.x00).

#[export] Instance demo_json : JsonLib := {|
  json_SignRequest _ := Some sign_req;
  json_mobileEnroll _ := None;
  json_mobileApprove _ :=
    Some (mkMobileApprove approve_req (HexEncodeToString (toy_sig device_key (bytes_of "payload"))));
  json_keysPending _ := None;
  json_cliEnroll _ := None;
  json_cliKeysLoad _ :=
    Some (mkKeysLoadWire (StdEncodeToString Ks.demo_pem) (bytes_of "pw") "web" "" 1700000000);
  json_mtlsEnroll _ := Some "CERTIFICATE REQUEST:";
  json_string b := Some (string_of b);
  marshal_approve _ := Some (bytes_of "payload");
  marshal_pending _ := None
|}.

#[export] Instance demo_ed : EdLib := {| ed25519_Verify k m sg := bool_decide (sg = toy_sig k m) |}.

Definition config : Cfg.Config :=
  Cfg.mkConfig "prod" (60 * Second) "" "" "" "7" "" "luna-admin" "luna-cli" "" "local-key" [180; 300; 900]
    "" "" "" "" "" "join" "" "" "".

Definition env : Env :=
  mkEnv (fun _ => clock) "1" (Some 7) (fun _ => None) (fun _ => true)
    [(Ks.demo_fp, Ks.mkLoaded (bytes_of "host-key") "web")].

Definition cli_cert : Certificate := mkCertificate (bytes_of "laptop") ["luna-cli"].
Definition phone_cert : Certificate := mkCertificate (bytes_of "phone") [].

Definition deps (k : Ks.Keystore) : ServerDeps :=
  mkServerDeps config k None
    (Appr.SetLeases (Appr.SetKeySigner (Appr.SetConfig (Appr.NewStore 0) config) true) (Some Lease.NewStore))
    (Replay.NewReplayLRU (60 * Second) 1000) None
    (Some (Mob.EnrollBound "1" clock Mob.NewStore "phone" (StdEncodeToString device_key)
             (CertFingerprint phone_cert)).1)
    (Some (Cli.Enroll "1" clock Cli.NewStore "laptop" (CertFingerprint cli_cert)).1)
    signer None.

Definition sealed : server := NewServer (fun _ => None) (deps (Ks.NewWithMode Ks.ModeLocalKey)).
Definition unsealed : server := NewServer (fun _ => None) (deps Ks.demo_loaded).

(** A request over [cert] with a valid body HMAC. *)
Definition over (cert : Certificate) (path : string) : Request :=
  mkRequest (Some [cert]) (Some Auth.PipelineDemo.conn) "10.0.0.2:5123" (bytes_of "{}") false
    (fun h => if h =s "X-Luna-Body-Mac" then HexEncodeToString (hmac_sha256 (bytes_of "exporter") (bytes_of "{}"))
              else if h =s "X-Luna-Enroll-Token" then " join " else "")
    (fun _ => path).

Definition signed : server * Response * list event := handleSign env unsealed (over cli_cert "").

Lemma signed_accepted : status signed.1.2 = StatusAccepted.
Proof. vm_compute. reflexivity. Qed.

Lemma sign_accepted_authenticated_witness :
  exists e, Appr.txs (store signed.1.1) !! "tx_1" = Some e /\
    Appr.ClientCertFP (Appr.tx e) = CertFingerprint cli_cert.
Proof.
  destruct (sign_accepted_authenticated env unsealed (over cli_cert "") signed.1.1 signed.1.2 signed.2
    (eta3 _) signed_accepted) as (req & c & rp & hostFP & e & _ & _ & _ & _ & _ & _ & _ & He & _ & Hfp & _).
  exists e. split; [exact He|exact Hfp].
Defined.

Lemma client_reported_never_leases_witness :
  Appr.leases (Appr.Approve Ks.demo_loaded clock clock (store signed.1.1) "tx_1" Hour "telegram:7")
  = Some Lease.NewStore.
Proof.
  destruct (client_reported_never_leases env unsealed (over cli_cert "") signed.1.1 signed.1.2 signed.2
    (set_BodyMAC (Header (over cli_cert "") "X-Luna-Body-Mac") sign_req)
    (eta3 _) signed_accepted eq_refl eq_refl eq_refl) as (_ & _ & H).
  exact (H Ks.demo_loaded clock clock Hour "telegram:7").
Defined.

Definition bound_fp_check : bool :=
  match Appr.txs (store signed.1.1) !! "tx_1" with
  | Some e => negb (Appr.ClientCertFP (Appr.tx e) =s "") &&
              negb (Appr.ClientCertFP (Appr.tx e) =s clientCertFPFromRequest (over phone_cert "tx_1"))
  | None => false
  end.

Lemma wait_only_by_requester_witness :
  handleWait (fun st => st) WakeResult env signed.1.1 (over phone_cert "tx_1")
  = Some (signed.1.1, Error "client certificate mismatch" StatusForbidden).
Proof.
  assert (Hb : bound_fp_check = true) by (vm_compute; reflexivity).
  unfold bound_fp_check in Hb. destruct (Appr.txs (store signed.1.1) !! "tx_1") as [e|] eqn:He; [|done].
  apply andb_prop in Hb as [H1%negb_true_iff%str_eqb_neq H2%negb_true_iff%str_eqb_neq].
  exact (proj1 (wait_only_by_requester (fun st => st) WakeResult env signed.1.1 (over phone_cert "tx_1") e He H1) H2).
Defined.

Definition approved : server * Response := handleMobileApprove env signed.1.1 (over phone_cert "").

Lemma mobile_approve_authorized_witness :
  exists ttl, (ttl = 180 * Second \/ exists sec, sec ∈ [180; 300; 900] /\ ttl = seconds sec) /\
    approved.1 = with_store signed.1.1 (Appr.Approve (keystore signed.1.1) clock clock (store signed.1.1)
                                          "tx_1" ttl "device:dev_1").
Proof.
  assert (Hn : 0 <= Unix (tick env TAuth) < 2 ^ 62) by (vm_compute; intuition discriminate).
  destruct (mobile_approve_authorized env signed.1.1 (over phone_cert "") approved.1 approved.2 Hn (eta2 _))
    as [[Hs _]|(req & dev & ttl & hx & sig & pb & _ & Hj & _ & Hdev & _ & _ & _ & _ & _ & Httl & Hs)].
  { exfalso. apply Hs. vm_compute. reflexivity. }
  exists ttl. injection Hj as <- _. split; [|exact Hs].
  destruct Httl as [Ht|(sec & Hsec & _ & Ht)]; [left; exact Ht|right; exists sec; split; [exact Hsec|exact Ht]].
Defined.

Lemma oversized_ttl_becomes_default_witness :
  exists dev, seconds 9223372037 < 0 /\ mobile signed.1.1 !! "dev_1" = Some dev /\
    handleMobileApprove env signed.1.1 (over phone_cert "") =
    (approve_for env signed.1.1 approve_req (180 * Second), mkResponse StatusOK CNone).
Proof.
  destruct (mobile signed.1.1 !! "dev_1") as [dev|] eqn:Hdev; [|vm_compute in Hdev; discriminate].
  assert (Hf : Mob.CertFingerprint dev = CertFingerprint phone_cert /\ Mob.PubKey dev = device_key).
  { vm_compute in Hdev. injection Hdev as <-. split; vm_compute; reflexivity. }
  destruct Hf as [Hfp Hkey]. exists dev. split; [reflexivity|]. split; [reflexivity|].
  apply (oversized_ttl_becomes_default env signed.1.1 (over phone_cert "") approve_req dev);
    try (vm_compute; congruence).
  split; [exact Hdev|]. split; [reflexivity|]. split; [discriminate|]. split; [symmetry; exact Hfp|].
  exists (HexEncodeToString (toy_sig device_key (bytes_of "payload"))), (bytes_of "payload").
  rewrite Hkey. split; [reflexivity|]. split; [reflexivity|]. vm_compute. reflexivity.
Defined.

Definition loaded : server * Response := handleCLIKeysLoad env sealed (over cli_cert "").

Lemma keys_load_authorized_witness :
  exists dev, Cli.GetByFingerprint (cli sealed) (CertFingerprint cli_cert) = Some dev /\
    (Rate.Allowed clock (loadLimiter sealed) (Cli.ID dev)).2 = true.
Proof.
  assert (Hk : keystore loaded.1 <> keystore sealed).
  { intros E. apply (f_equal Ks.Available) in E. vm_compute in E. discriminate. }
  destruct (keys_load_authorized env sealed (over cli_cert "") loaded.1 loaded.2 (eta2 _) Hk)
    as (cert & dev & c & parsed & rp & blob & Hp & _ & _ & Hdev & _ & _ & _ & _ & _ & Hr & _).
  injection Hp as <-. exists dev. split; [exact Hdev|exact Hr].
Defined.

Definition revoked : server * Response := handleCLIDeleteDevice sealed (over cli_cert "cli_1").

Lemma revoked_device_cannot_load_witness :
  status revoked.2 = StatusNoContent /\ status (handleCLIKeysLoad env revoked.1 (over cli_cert "")).2 = StatusForbidden.
Proof.
  destruct (revoked_device_cannot_load sealed (over cli_cert "cli_1") revoked.1 revoked.2 cli_cert
    (Cli.mkDevice "cli_1" "laptop" (CertFingerprint cli_cert) clock)) as [Hs Hr];
    [apply rtc_once; exact (Cli.step_enroll "1" clock Cli.NewStore "laptop" (CertFingerprint cli_cert))
    |vm_compute; reflexivity|reflexivity|discriminate|apply eta2|].
  split; [exact Hs|]. exact (proj2 (Hr env (over cli_cert "") eq_refl)).
Defined.

Definition nobody : Request :=
  mkRequest (Some []) None "10.0.0.2:5123" (bytes_of "{}") false (fun _ => " join ") (fun _ => "").

Lemma registries_admin_only_witness :
  serve env unsealed RMobileEnroll nobody =
    Some (unsealed, Error "client certificate required" StatusUnauthorized, []) /\
  same_but_limiter unsealed unsealed.
Proof.
  assert (E : serve env unsealed RMobileEnroll nobody =
    Some (unsealed, Error "client certificate required" StatusUnauthorized, [])) by reflexivity.
  split; [exact E|]. exact (proj1 (proj2 (registries_admin_only _ _ _ _ _ _ _ E) eq_refl)).
Defined.

Definition enrolled : server * Response := handleMTLSEnroll env sealed nobody.

Lemma mtls_enroll_guarded_witness :
  exists pem fp, Csr.SignAutomation (Some 7) clock signer (bytes_of "CERTIFICATE REQUEST:") = Ok (pem, fp).
Proof.
  destruct (mtls_enroll_guarded env sealed nobody enrolled.1 enrolled.2 (eta2 _) ltac:(vm_compute; reflexivity))
    as (_ & _ & _ & csrPEM & pem & fp & Hc & Hs & _).
  injection Hc as <-. exists pem, fp. exact Hs.
Defined.

End ApiDemo.
End Api.
