(* ===== verification/Control.v ===== *)
(** * The control socket (proxy/internal/control)

    Operators on the proxy's host manage keys and devices over a Unix socket: the peer's credentials
    are checked, one JSON request is read, dispatched and answered.  The pending uploads are shared
    with the HTTP API, and [key.confirm] hands the stored buffer itself to the keystore, which wipes
    it in place. *)

From S2P Require Import Prelude GoTime GoStrings GoEncoding GoFormat External Fingerprint Keystore Pending Signing Config Approval Devices Csr Http.

Module Ctl.

(** ** Peer credentials (peer_linux.go)

    [uid] and [gid] are what [SO_PEERCRED] reports: the peer's user and its primary group.
    [LookupGroup] gives the decimal group id of a name. *)
Definition credAllowed (euid : Z) (LookupGroup : string -> option string) (peerUID peerGID : Z)
    (groupName : string) : result unit :=
  if peerUID =? 0 then Ok tt else
  if peerUID =? euid then Ok tt else
  if groupName =s "" then Err (errorf "peer uid not allowed") else
  g ← or_err (LookupGroup groupName) (EWrap "lookup group" (errorf "user"));
  wantGID ← or_err (z ← parse_digits g; if z <? 2 ^ 32 then Some z else None) (EWrap "parse gid" (errorf "fmt"));
  if peerGID =? wantGID then Ok tt else Err (errorf "peer not in group").

(** [cred] is the socket option, which may fail. *)
Definition peerAllowed (cred : option (Z * Z)) (euid : Z) (LookupGroup : string -> option string)
    (groupName : string) : result unit :=
  c ← or_err cred (EWrap "peer cred" (errorf "syscall"));
  credAllowed euid LookupGroup c.1 c.2 groupName.

(** ** Requests and responses (types.go) *)

Record Request := mkRequest { Op : string; req_ID : string; Data : list byte }.

Record keyLoadData := mkKeyLoad { kl_Path : string; kl_Passphrase : string; kl_Comment : string }.
Record keyConfirmData := mkKeyConfirm { kc_PendingID : string; kc_Passphrase : string }.
Record mobileEnrollData := mkMobileEnroll { me_Label : string; me_DevicePubKey : string; me_CertFingerprint : string }.
Record cliEnrollData := mkCliEnroll { ce_Label : string; ce_CSRPEM : string }.

Record pendingItem := mkPendingItem {
  pi_ID : string;
  pi_DeviceID : string;
  pi_Label : string;
  pi_Comment : string;
  pi_ExpiresAt : string
}.

Inductive data :=
| DNone
| DStatus (sealed : bool) (signerMode : string) (loaded : list Ks.SignerInfo) (pendingCount : Z)
| DFingerprint (fp : string)
| DSigners (l : list Ks.SignerInfo)
| DPending (l : list pendingItem)
| DDevice (deviceID : string)
| DMobile (l : list Mob.Device)
| DCliEnroll (deviceID certificatePEM : string)
| DCliDevices (l : list Http.cliDeviceJSON).

Record Response := mkResponse { OK : bool; res_ID : string; res_Data : data; res_Error : string; Code : string }.

Definition ok (id : string) (d : data) : Response := mkResponse true id d "" "".
Definition fail (id msg code : string) : Response := mkResponse false id DNone msg code.

(** The JSON payloads of the operations; the single-field ones are strings. *)
Class CtlJson := {
  json_keyLoad : list byte -> option keyLoadData;
  json_keyRemove : list byte -> option string;
  json_keyConfirm : list byte -> option keyConfirmData;
  json_keyReject : list byte -> option string;
  json_mobileEnroll : list byte -> option mobileEnrollData;
  json_mobileDelete : list byte -> option string;
  json_cliEnroll : list byte -> option cliEnrollData;
  json_cliDelete : list byte -> option string;
  json_request : list byte -> option Request
}.

Section control.
Context `{HashLib, SshLib, Csr.X509Lib, CtlJson}.

(** ** State (ops.go) *)

Record Server := mkServer {
  cfg : Cfg.Config;
  keystore : Ks.Keystore;
  mobile : gmap string Mob.Device;
  pending : Pend.PendingStore;
  cli : gmap string Cli.Device;
  csrSigner : option Csr.CSRSigner;
  loadLimiter : option Rate.LoadRateLimiter
}.

(** [pend] and [c] are nil when the caller supplies none. *)
Definition NewServer (g : Cfg.Config) (k : Ks.Keystore) (m : gmap string Mob.Device)
    (pend : option Pend.PendingStore) (c : option (gmap string Cli.Device)) (sg : option Csr.CSRSigner)
    (l : option Rate.LoadRateLimiter) : Server :=
  mkServer g k m (default Pend.NewPendingStore pend) (default Cli.NewStore c) sg l.

Definition with_keystore (s : Server) (k : Ks.Keystore) : Server :=
  mkServer (cfg s) k (mobile s) (pending s) (cli s) (csrSigner s) (loadLimiter s).
Definition with_mobile (s : Server) (m : gmap string Mob.Device) : Server :=
  mkServer (cfg s) (keystore s) m (pending s) (cli s) (csrSigner s) (loadLimiter s).
Definition with_pending (s : Server) (p : Pend.PendingStore) : Server :=
  mkServer (cfg s) (keystore s) (mobile s) p (cli s) (csrSigner s) (loadLimiter s).
Definition with_cli (s : Server) (c : gmap string Cli.Device) : Server :=
  mkServer (cfg s) (keystore s) (mobile s) (pending s) c (csrSigner s) (loadLimiter s).
Definition with_limiter (s : Server) (l : option Rate.LoadRateLimiter) : Server :=
  mkServer (cfg s) (keystore s) (mobile s) (pending s) (cli s) (csrSigner s) l.

(** What an operation gets from outside: the clock of the queue, of the lock check, of a recorded
    failure, of an enrolment and of a certificate; a fresh ULID; a serial number; files; [mlock];
    the order in which the key pool is walked. *)
Record Env := mkEnv {
  t_pending : Z;
  t_lock : Z;
  t_failure : Z;
  t_enroll : Z;
  t_cert : Z;
  ulid : string;
  serial : option Z;
  fs : string -> option (list byte);
  syscall : Ks.mlock_site -> bool;
  order : list (string * Ks.loadedSigner)
}.

(** ** Keys *)

Definition statusData (env : Env) (s : Server) : Server * data :=
  let '(p, n) := Pend.Count (t_pending env) (pending s) in
  (with_pending s p,
   DStatus (negb (Ks.Available (keystore s))) (Cfg.SignerMode (cfg s)) (Ks.ListSigners (keystore s) (order env)) n).

Definition handleKeyLoad (env : Env) (s : Server) (req : Request) : Server * Response :=
  match json_keyLoad (Data req) with
  | None => (s, fail (req_ID req) "invalid json" "BAD_REQUEST")
  | Some i =>
      if (kl_Path i =s "") || (kl_Passphrase i =s "")
      then (s, fail (req_ID req) "path and passphrase required" "BAD_REQUEST") else
      let '(k, res) := Ks.LoadPEMFile (syscall env) (t_lock env) (t_failure env) (keystore s) (fs env)
                         (kl_Path i) (kl_Passphrase i) (kl_Comment i) in
      (with_keystore s k,
       match res with
       | Err e => if errors_is e Ks.ErrUnsealLocked then fail (req_ID req) (error_text e) "LOCKED"
                  else fail (req_ID req) "load failed" "FORBIDDEN"
       | Ok fp => ok (req_ID req) (DFingerprint fp)
       end)
  end.

Definition keyListData (env : Env) (s : Server) : data := DSigners (Ks.ListSigners (keystore s) (order env)).

Definition handleKeyRemove (s : Server) (req : Request) : Server * Response :=
  match json_keyRemove (Data req) with
  | None => (s, fail (req_ID req) "invalid json" "BAD_REQUEST")
  | Some fp =>
      let '(k, res) := Ks.RemoveSigner (keystore s) fp in
      (with_keystore s k,
       match res with
       | Err e => fail (req_ID req) (error_text e) "NOT_FOUND"
       | Ok _ => ok (req_ID req) DNone
       end)
  end.

(** [p.Blob] is the queue's own buffer: [LoadPEMBytes] writes through it. *)
Definition handleKeyConfirm (env : Env) (s : Server) (req : Request) : Server * Response :=
  if negb (Cfg.SignerMode (cfg s) =s Appr.SignerModeLocalKey)
  then (s, fail (req_ID req) "local-key mode required" "BAD_REQUEST") else
  match json_keyConfirm (Data req) with
  | None => (s, fail (req_ID req) "invalid json" "BAD_REQUEST")
  | Some i =>
      match Pend.Get (t_pending env) (pending s) (kc_PendingID i) with
      | (q, Err e) => (with_pending s q, fail (req_ID req) (error_text e) "NOT_FOUND")
      | (q, Ok p) =>
          let '(k, blob, res) := Ks.LoadPEMBytes (syscall env) (t_lock env) (t_failure env) (keystore s)
                                   (Pend.blob_bytes q p) (kc_Passphrase i) (Pend.Label p) in
          let q := Pend.write_blob q p blob in
          let s := with_keystore s k in
          match res with
          | Err e =>
              (with_pending s q,
               if errors_is e Ks.ErrUnsealLocked then fail (req_ID req) (error_text e) "LOCKED"
               else fail (req_ID req) "confirm failed" "FORBIDDEN")
          | Ok fp =>
              (with_pending s (Pend.Delete q (kc_PendingID i)).1, ok (req_ID req) (DFingerprint fp))
          end
      end
  end.

Definition handleKeyReject (s : Server) (req : Request) : Server * Response :=
  match json_keyReject (Data req) with
  | None => (s, fail (req_ID req) "invalid json" "BAD_REQUEST")
  | Some id =>
      let '(q, res) := Pend.Delete (pending s) id in
      (with_pending s q,
       match res with
       | Err e => fail (req_ID req) (error_text e) "NOT_FOUND"
       | Ok _ => ok (req_ID req) DNone
       end)
  end.

(** The layout [2006-01-02T15:04:05Z] in UTC prints what RFC 3339 does. *)
Definition pendingListData (env : Env) (s : Server) : Server * data :=
  let '(q, l) := Pend.List (t_pending env) (pending s) in
  (with_pending s q,
   DPending (map (fun p => mkPendingItem (Pend.ID p) (Pend.DeviceID p) (Pend.Label p) (Pend.Comment p)
                             (RFC3339 (Pend.ExpiresAt p))) l)).

(** ** Devices *)

Definition handleMobileEnroll (env : Env) (s : Server) (req : Request) : Server * Response :=
  match json_mobileEnroll (Data req) with
  | None => (s, fail (req_ID req) "invalid json" "BAD_REQUEST")
  | Some i =>
      if me_CertFingerprint i =s "" then (s, fail (req_ID req) "cert_fingerprint required" "BAD_REQUEST") else
      let '(m, res) := Mob.EnrollBound (ulid env) (t_enroll env) (mobile s) (me_Label i) (me_DevicePubKey i)
                         (me_CertFingerprint i) in
      (with_mobile s m,
       match res with
       | Err e => fail (req_ID req) (error_text e) "BAD_REQUEST"
       | Ok dev => ok (req_ID req) (DDevice (Mob.ID dev))
       end)
  end.

Definition mobileListData (s : Server) : data := DMobile (Mob.List (mobile s)).

Definition handleMobileDelete (s : Server) (req : Request) : Server * Response :=
  match json_mobileDelete (Data req) with
  | None => (s, fail (req_ID req) "invalid json" "BAD_REQUEST")
  | Some id =>
      let '(m, res) := Mob.Delete (mobile s) id in
      (with_mobile s m,
       match res with
       | Err e => fail (req_ID req) (error_text e) "NOT_FOUND"
       | Ok _ => ok (req_ID req) DNone
       end)
  end.

Definition label_error (e : error) : bool := errors_is e Cli.ErrEmptyLabel || errors_is e Cli.ErrLabelTooLong.

Definition handleCLIEnroll (env : Env) (s : Server) (req : Request) : Server * Response :=
  match csrSigner s with
  | None => (s, fail (req_ID req) "CLI CSR signing not configured" "UNAVAILABLE")
  | Some _ =>
  match json_cliEnroll (Data req) with
  | None => (s, fail (req_ID req) "invalid json" "BAD_REQUEST")
  | Some i =>
  if (ce_Label i =s "") || (ce_CSRPEM i =s "")
  then (s, fail (req_ID req) "label and csr_pem required" "BAD_REQUEST") else
  match Cli.ValidateLabel (ce_Label i) with
  | Err e => (s, if label_error e then fail (req_ID req) (error_text e) "BAD_REQUEST"
                 else fail (req_ID req) "invalid label" "BAD_REQUEST")
  | Ok _ =>
  match Csr.Sign (serial env) (t_cert env) (csrSigner s) (bytes_of (ce_CSRPEM i)) with
  | Err e => (s, if errors_is e Csr.ErrCSRInvalid then fail (req_ID req) (error_text e) "BAD_REQUEST"
                 else fail (req_ID req) "sign failed" "FORBIDDEN")
  | Ok (certPEM, fp) =>
      let '(c, res) := Cli.Enroll (ulid env) (t_enroll env) (cli s) (ce_Label i) fp in
      (with_cli s c,
       match res with
       | Err e => if label_error e then fail (req_ID req) (error_text e) "BAD_REQUEST"
                  else if errors_is e Cli.ErrDuplicateFingerprint
                  then fail (req_ID req) (error_text e) "CONFLICT"
                  else fail (req_ID req) "enroll failed" "FORBIDDEN"
       | Ok dev => ok (req_ID req) (DCliEnroll (Cli.ID dev) (string_of certPEM))
       end)
  end end end end.

Definition cliListData (s : Server) : data :=
  DCliDevices (map (fun d => Http.mkCliDeviceJSON (Cli.ID d) (Cli.Label d) (Cli.CertFingerprint d)
                               (RFC3339 (Cli.EnrolledAt d))) (Cli.List (cli s))).

Definition handleCLIDelete (s : Server) (req : Request) : Server * Response :=
  match json_cliDelete (Data req) with
  | None => (s, fail (req_ID req) "invalid json" "BAD_REQUEST")
  | Some id =>
      match Cli.Delete (cli s) id with
      | (c, Err e) => (with_cli s c, fail (req_ID req) (error_text e) "NOT_FOUND")
      | (c, Ok _) =>
          (with_limiter (with_cli s c) ((fun l => Rate.Forget l id) <$> loadLimiter s), ok (req_ID req) DNone)
      end
  end.

(** ** Dispatch *)

Definition answer (req : Request) (sd : Server * data) : Server * Response :=
  (sd.1, ok (req_ID req) sd.2).

Definition handle (env : Env) (s : Server) (req : Request) : Server * Response :=
  if Op req =s "status" then answer req (statusData env s)
  else if Op req =s "key.load" then handleKeyLoad env s req
  else if Op req =s "key.list" then answer req (s, keyListData env s)
  else if Op req =s "key.remove" then handleKeyRemove s req
  else if Op req =s "key.confirm" then handleKeyConfirm env s req
  else if Op req =s "key.reject" then handleKeyReject s req
  else if Op req =s "key.pending.list" then answer req (pendingListData env s)
  else if Op req =s "mobile.enroll" then handleMobileEnroll env s req
  else if Op req =s "mobile.list" then answer req (s, mobileListData s)
  else if Op req =s "mobile.delete" then handleMobileDelete s req
  else if Op req =s "cli.enroll" then handleCLIEnroll env s req
  else if Op req =s "cli.list" then answer req (s, cliListData s)
  else if Op req =s "cli.delete" then handleCLIDelete s req
  else (s, fail (req_ID req) "unknown op" "UNKNOWN").

(** One connection: nothing is written when the peer is refused or sends no line. *)
Definition serveConn (env : Env) (cred : option (Z * Z)) (euid : Z) (LookupGroup : string -> option string)
    (group : string) (line : option (list byte)) (s : Server) : Server * option Response :=
  match peerAllowed cred euid LookupGroup group with
  | Err _ => (s, None)
  | Ok _ =>
      match line with
      | None => (s, None)
      | Some l =>
          match json_request l with
          | None => (s, Some (fail "" "invalid json" "BAD_REQUEST"))
          | Some req => let '(s, resp) := handle env s req in (s, Some resp)
          end
      end
  end.

(** ** Who is served *)

Lemma credAllowed_ok euid lookup uid gid group :
  credAllowed euid lookup uid gid group = Ok tt <->
  uid = 0 \/ uid = euid \/
  (group <> "" /\ exists g, lookup group = Some g /\ parse_digits g = Some gid /\ gid < 2 ^ 32).
Proof.
  unfold credAllowed. destruct (Z.eqb_spec uid 0); [naive_solver|].
  destruct (Z.eqb_spec uid euid); [naive_solver|].
  destruct (group =s "") eqn:Eg; str_prop; [naive_solver|].
  destruct (lookup group) as [g|]; [|naive_solver]. simpl.
  destruct (parse_digits g) as [z|] eqn:Ez; simpl; [|naive_solver].
  destruct (Z.ltb_spec z (2 ^ 32)); simpl.
  - destruct (Z.eqb_spec gid z) as [->|Hne]; split; try done.
    + intros _. right. right. split; [done|]. by exists g.
    + intros [?|[?|(_ & g' & ? & ? & _)]]; congruence.
  - split; [done|]. intros [?|[?|(_ & g' & ? & ? & ?)]]; simplify_eq. lia.
Qed.

(** A connection to the control socket is served exactly when its peer is root, runs as the
    proxy's own user, or has the configured group as the group its credentials report; membership of
    that group by any other way is not looked at.  A peer that is not served gets no byte back and
    changes nothing. *)
Theorem control_peer_exact env cred euid lookup group line s :
  (peerAllowed cred euid lookup group = Ok tt <->
   exists uid gid, cred = Some (uid, gid) /\
     (uid = 0 \/ uid = euid \/
      (group <> "" /\ exists g, lookup group = Some g /\ parse_digits g = Some gid /\ gid < 2 ^ 32))) /\
  (peerAllowed cred euid lookup group <> Ok tt ->
   serveConn env cred euid lookup group line s = (s, None)).
Proof.
  split.
  - unfold peerAllowed. destruct cred as [[uid gid]|]; simpl; [|naive_solver].
    rewrite credAllowed_ok. naive_solver.
  - unfold serveConn. by destruct (peerAllowed _ _ _ _) as [[]|].
Qed.

(** ** Confirming an upload *)

(** The queue after [Get] finds an entry. *)
Lemma Get_found now q id p :
  Pend.reachable q -> Pend.entries q !! id = Some p -> now <= Pend.ExpiresAt p ->
  exists q', Pend.Get now q id = (q', Ok p) /\ Pend.entries q' !! id = Some p /\ Pend.heap q' = Pend.heap q.
Proof.
  intros Hr Hp Ht. destruct (Pend.Get_spec now q id (Pend.pending_reachable_wf q Hr)) as (Hg & Hh & He).
  assert (Hl : Pend.live now (Pend.entries q) !! id = Some p).
  { unfold Pend.live. rewrite map_lookup_filter, Hp. simpl. rewrite option_guard_True; [done|].
    by apply After_false. }
  destruct (Pend.Get now q id) as [q' r]. simpl in *. exists q'. rewrite Hg, He, Hl. by split_and!.
Qed.

(** The branches of [LoadPEMBytes] on an unlocked keystore whose buffers can be locked. *)
Lemma LoadPEMBytes_unlocked now now' k pem pass c :
  (Ks.checkUnsealLock now k).2 = Ok tt ->
  let k0 := (Ks.checkUnsealLock now k).1 in
  Ks.LoadPEMBytes (fun _ => true) now now' k pem pass c =
  match Ks.parseEncryptedPEM (fun _ => true) pem (bytes_of pass) with
  | Err e => (Ks.recordUnsealFailure now' k0, Ks.zeroBytes pem, Err e)
  | Ok sg => (Ks.store_signer k0 sg c, Ks.zeroBytes pem, Ok (Fingerprint (signer_pub sg)))
  end.
Proof.
  unfold Ks.LoadPEMBytes. destruct (Ks.checkUnsealLock now k) as [k0 r]. simpl. intros ->.
  unfold Ks.mlockBytes. by destruct pem, (bytes_of pass).
Qed.

(** A request to confirm [id] with [pass]. *)
Definition confirms (req : Request) (id pass : string) : Prop :=
  json_keyConfirm (Data req) = Some (mkKeyConfirm id pass).

Lemma parse_fails_None pem pass :
  ParseRawPrivateKeyWithPassphrase pem pass = None ->
  exists e, Ks.parseEncryptedPEM (fun _ => true) pem pass = Err e /\ errors_is e Ks.ErrUnsealLocked = false.
Proof. unfold Ks.parseEncryptedPEM. intros ->. eexists. split; reflexivity. Qed.

Lemma handleKeyConfirm_wrong env s req id p pass :
  Cfg.SignerMode (cfg s) = Appr.SignerModeLocalKey -> syscall env = (fun _ => true) ->
  confirms req id pass -> Pend.reachable (pending s) ->
  Pend.entries (pending s) !! id = Some p -> t_pending env <= Pend.ExpiresAt p ->
  (Ks.checkUnsealLock (t_lock env) (keystore s)).2 = Ok tt ->
  ParseRawPrivateKeyWithPassphrase (Pend.blob_bytes (pending s) p) (bytes_of pass) = None ->
  exists s', handleKeyConfirm env s req = (s', fail (req_ID req) "confirm failed" "FORBIDDEN") /\
    cfg s' = cfg s /\ Pend.entries (pending s') !! id = Some p /\
    Pend.blob_bytes (pending s') p = Ks.zeroBytes (Pend.blob_bytes (pending s) p) /\
    keystore s' = Ks.recordUnsealFailure (t_failure env) (Ks.checkUnsealLock (t_lock env) (keystore s)).1.
Proof.
  intros Hm Hsys Hc Hr Hp Ht Hl Hpp. destruct (Get_found _ _ id p Hr Hp Ht) as (q' & Hg & He & Hh).
  assert (Hb : Pend.blob_bytes q' p = Pend.blob_bytes (pending s) p) by (unfold Pend.blob_bytes; by rewrite Hh).
  destruct (parse_fails_None _ _ Hpp) as (e & Hpe & Hnl).
  unfold handleKeyConfirm. rewrite Hm, str_eqb_refl, Hc. cbn [negb kc_PendingID kc_Passphrase].
  rewrite Hg, Hsys, Hb, LoadPEMBytes_unlocked, Hpe, Hnl by done.
  eexists. split; [done|]. simpl. split_and!; try done.
  unfold Pend.blob_bytes. simpl. by rewrite lookup_insert_eq.
Qed.

Lemma purge_reachable now q : Pend.reachable q -> Pend.reachable (Pend.purgeExpiredLocked now q).
Proof. intros Hr. eapply rtc_r; [exact Hr|]. apply Pend.step_purge, iteration_self. Qed.

Lemma delete_reachable q id : Pend.reachable q -> Pend.reachable (Pend.Delete q id).1.
Proof. intros Hr. eapply rtc_r; [exact Hr|]. apply Pend.step_delete. Qed.

Lemma handleKeyConfirm_pending env s req :
  Pend.reachable (pending s) -> Pend.reachable (pending (handleKeyConfirm env s req).1).
Proof.
  intros Hp. unfold handleKeyConfirm. destruct (negb _); [done|].
  destruct (json_keyConfirm _) as [i|]; [|done].
  pose proof (purge_reachable (t_pending env) _ Hp) as Hq. unfold Pend.Get.
  destruct (Pend.entries _ !! _) as [p|] eqn:Ep; simpl; [|done].
  set (q := Pend.purgeExpiredLocked _ _) in *. destruct (Ks.LoadPEMBytes _ _ _ _ _ _ _) as [[k b] r].
  assert (Hw : Pend.reachable (Pend.write_blob q p b)).
  { eapply rtc_r; [exact Hq|]. by eapply Pend.step_write. }
  destruct r; simpl; [|done]. by apply (delete_reachable _ (kc_PendingID i)).
Qed.

(** One wrong passphrase destroys a waiting upload: the confirmation is refused and the entry
    stays in the queue, but the shared buffer has been wiped, so that confirming again, now with the
    passphrase that would have opened the upload, is refused as well. *)
Theorem wrong_passphrase_destroys_upload env env' s req req' id p pass pass' s1 resp :
  Cfg.SignerMode (cfg s) = Appr.SignerModeLocalKey ->
  syscall env = (fun _ => true) -> syscall env' = (fun _ => true) ->
  Pend.reachable (pending s) ->
  Pend.entries (pending s) !! id = Some p ->
  t_pending env <= Pend.ExpiresAt p -> t_pending env' <= Pend.ExpiresAt p ->
  confirms req id pass -> confirms req' id pass' ->
  (Ks.checkUnsealLock (t_lock env) (keystore s)).2 = Ok tt ->
  ParseRawPrivateKeyWithPassphrase (Pend.blob_bytes (pending s) p) (bytes_of pass) = None ->
  ParseRawPrivateKeyWithPassphrase (Ks.zeroBytes (Pend.blob_bytes (pending s) p)) (bytes_of pass') = None ->
  handleKeyConfirm env s req = (s1, resp) ->
  (Ks.checkUnsealLock (t_lock env') (keystore s1)).2 = Ok tt ->
  Code resp = "FORBIDDEN" /\ Pend.entries (pending s1) !! id = Some p /\
  Forall (fun b => b = Byte.x00) (Pend.blob_bytes (pending s1) p) /\
  Code (handleKeyConfirm env' s1 req').2 = "FORBIDDEN".
Proof.
  intros Hm Hsys Hsys' Hr Hp Ht Ht' Hc Hc' Hl Hw Hz Hh Hl'.
  pose proof (handleKeyConfirm_pending env s req Hr) as Hr1. rewrite Hh in Hr1. simpl in Hr1.
  destruct (handleKeyConfirm_wrong env s req id p pass) as (s2 & E & Hcfg & He & Hb & _); try done.
  rewrite Hh in E. simplify_eq.
  destruct (handleKeyConfirm_wrong env' s2 req' id p pass') as (s3 & E3 & _); try done.
  { by rewrite Hcfg. } { by rewrite Hb. }
  rewrite E3, Hb. split_and!; try done. unfold Ks.zeroBytes. by apply Forall_replicate.
Qed.

(** ** Invariants *)

Record services_ok (m : Ks.Mode) (s : Server) : Prop := mk_services_ok {
  so_keystore : Ks.reachable m (keystore s);
  so_pending : Pend.reachable (pending s);
  so_mobile : rtc Mob.step Mob.NewStore (mobile s);
  so_cli : rtc Cli.step Cli.NewStore (cli s)
}.

Lemma load_reachable m sy now now' k pem pass c :
  Ks.reachable m k -> Ks.reachable m (Ks.LoadPEMBytes sy now now' k pem pass c).1.1.
Proof. intros Hr. eapply rtc_r; [exact Hr|apply Ks.step_load]. Qed.

Lemma load_file_reachable m sy now now' k fs path pass c :
  Ks.reachable m k -> Ks.reachable m (Ks.LoadPEMFile sy now now' k fs path pass c).1.
Proof.
  intros Hr. unfold Ks.LoadPEMFile. destruct (fs path) as [pem|]; [|done].
  pose proof (load_reachable m sy now now' k pem pass c Hr).
  by destruct (Ks.LoadPEMBytes _ _ _ _ _ _ _) as [[k' b] r].
Qed.

Lemma handleKeyConfirm_services m env s req :
  services_ok m s -> services_ok m (handleKeyConfirm env s req).1.
Proof.
  intros [Hk Hp Hm Hc]. pose proof (handleKeyConfirm_pending env s req Hp) as Hp'.
  unfold handleKeyConfirm in *. destruct (negb _); [done|]. destruct (json_keyConfirm _) as [i|]; [|done].
  destruct (Pend.Get _ _ _) as [q [p|]]; [|done].
  pose proof (load_reachable m (syscall env) (t_lock env) (t_failure env) _ (Pend.blob_bytes q p)
    (kc_Passphrase i) (Pend.Label p) Hk) as Hk'.
  by destruct (Ks.LoadPEMBytes _ _ _ _ _ _ _) as [[k b] [fp|e]].
Qed.

Lemma with_keystore_services m s k : services_ok m s -> Ks.reachable m k -> services_ok m (with_keystore s k).
Proof. by intros []. Qed.
Lemma with_pending_services m s q : services_ok m s -> Pend.reachable q -> services_ok m (with_pending s q).
Proof. by intros []. Qed.
Lemma with_mobile_services m s x : services_ok m s -> Mob.step (mobile s) x -> services_ok m (with_mobile s x).
Proof. intros [] Hs. constructor; try done. by eapply rtc_r. Qed.
Lemma with_cli_services m s x : services_ok m s -> Cli.step (cli s) x -> services_ok m (with_cli s x).
Proof. intros [] Hs. constructor; try done. by eapply rtc_r. Qed.

(** No control request, well-formed or not, breaks the services it works on: after any operation
    the keystore, the upload queue and both device registries are still in states their own
    operations reach, so the invariants proved for each of them hold. *)
Theorem control_keeps_invariants m env s req :
  services_ok m s -> services_ok m (handle env s req).1.
Proof.
  intros Hs. unfold handle.
  repeat match goal with |- context [if Op req =s ?o then _ else _] => destruct (Op req =s o) end;
    unfold answer; cbn [fst]; try done; pose proof Hs as [Hk Hp Hm Hc].
  - by apply with_pending_services, purge_reachable.
  - unfold handleKeyLoad. destruct (json_keyLoad _) as [i|]; [|done]. destruct (_ || _); [done|].
    pose proof (load_file_reachable m (syscall env) (t_lock env) (t_failure env) _ (fs env) (kl_Path i)
      (kl_Passphrase i) (kl_Comment i) Hk). destruct (Ks.LoadPEMFile _ _ _ _ _ _ _ _).
    by apply with_keystore_services.
  - unfold handleKeyRemove. destruct (json_keyRemove _) as [fp|]; [|done].
    pose proof (Ks.step_remove (keystore s) fp) as Hst. destruct (Ks.RemoveSigner _ _) as [k r].
    apply with_keystore_services; [done|]. by eapply rtc_r.
  - by apply handleKeyConfirm_services.
  - unfold handleKeyReject. destruct (json_keyReject _) as [id|]; [|done].
    pose proof (delete_reachable _ id Hp). destruct (Pend.Delete _ _). by apply with_pending_services.
  - by apply with_pending_services, purge_reachable.
  - unfold handleMobileEnroll. destruct (json_mobileEnroll _) as [i|]; [|done]. destruct (_ =s _); [done|].
    pose proof (Mob.step_enroll (ulid env) (t_enroll env) (mobile s) (me_Label i) (me_DevicePubKey i)
      (me_CertFingerprint i)). destruct (Mob.EnrollBound _ _ _ _ _ _). by apply with_mobile_services.
  - unfold handleMobileDelete. destruct (json_mobileDelete _) as [id|]; [|done].
    pose proof (Mob.step_delete (mobile s) id). destruct (Mob.Delete _ _). by apply with_mobile_services.
  - unfold handleCLIEnroll. destruct (csrSigner s); [|done]. destruct (json_cliEnroll _) as [i|]; [|done].
    destruct (_ || _); [done|]. destruct (Cli.ValidateLabel _); [|done].
    destruct (Csr.Sign _ _ _ _) as [[pem fp]|]; [|done].
    pose proof (Cli.step_enroll (ulid env) (t_enroll env) (cli s) (ce_Label i) fp).
    destruct (Cli.Enroll _ _ _ _ _). by apply with_cli_services.
  - unfold handleCLIDelete. destruct (json_cliDelete _) as [id|]; [|done].
    pose proof (Cli.step_delete (cli s) id) as Hst. destruct (Cli.Delete _ _) as [c [[]|]]; simpl in Hst;
      [|by apply with_cli_services].
    by destruct (with_cli_services m s c Hs Hst).
Qed.

End control.

(** ** A concrete server: one waiting upload, opened by the passphrase [pw] *)
Module CtlDemo.
Import Demo Csr.CsrDemo.

#[export] Instance demo_ctl_json : CtlJson := {|
  json_keyLoad _ := None;
  json_keyRemove b := Some (string_of b);
  json_keyConfirm b := Some (mkKeyConfirm "pend_1" (string_of b));
  json_keyReject b := Some (string_of b);
  json_mobileEnroll _ := None;
  json_mobileDelete b := Some (string_of b);
  json_cliEnroll _ := None;
  json_cliDelete b := Some (string_of b);
  json_request _ := None
|}.

Definition config : Cfg.Config :=
  Cfg.mkConfig "prod" 0 "" "" "" "" "" "" "" "" "local-key" [] "" "" "" "" "" "" "" "" "".
Definition env : Env := mkEnv 5 5 5 5 5 "9" None (fun _ => None) (fun _ => true) [].
Definition queue : Pend.PendingStore := (Pend.Add "1" 0 Pend.NewPendingStore "phone" "web" "" Ks.demo_pem).1.
Definition upload : Pend.PendingKey := Pend.mkPendingKey "pend_1" "phone" "web" "" 0 (15 * Minute).
Definition start : Server :=
  NewServer config (Ks.NewWithMode Ks.ModeLocalKey) Mob.NewStore (Some queue) None None None.
Definition confirm (pass : string) : Request := mkRequest "key.confirm" "1" (bytes_of pass).
Definition after_wrong : Server * Response := handleKeyConfirm env start (confirm "guess").

Lemma queue_reachable : Pend.reachable queue.
Proof. apply rtc_once, Pend.step_add. vm_compute. reflexivity. Qed.

(** The right passphrase opens the upload at first. *)
Example right_first : OK (handleKeyConfirm env start (confirm "pw")).2 = true.
Proof. vm_compute. reflexivity. Qed.

Lemma wrong_passphrase_destroys_upload_witness :
  Pend.entries (pending after_wrong.1) !! "pend_1" = Some upload /\
  Code (handleKeyConfirm env after_wrong.1 (confirm "pw")).2 = "FORBIDDEN".
Proof.
  destruct (wrong_passphrase_destroys_upload env env start (confirm "guess") (confirm "pw") "pend_1" upload
    "guess" "pw" after_wrong.1 after_wrong.2) as (_ & He & _ & Hf);
    [reflexivity|reflexivity|reflexivity|exact queue_reachable|vm_compute; reflexivity
    |vm_compute; discriminate|vm_compute; discriminate|reflexivity|reflexivity|vm_compute; reflexivity
    |vm_compute; reflexivity|vm_compute; reflexivity|apply surjective_pairing|vm_compute; reflexivity|].
  split; [exact He|exact Hf].
Defined.

Lemma control_keeps_invariants_witness :
  services_ok Ks.ModeLocalKey (handle env start (confirm "pw")).1.
Proof.
  apply (control_keeps_invariants Ks.ModeLocalKey env start (confirm "pw")).
  constructor; [apply rtc_refl|exact queue_reachable|apply rtc_refl|apply rtc_refl].
Defined.

End CtlDemo.
End Ctl.
