(* ===== verification/GoNet.v ===== *)
(** * What the clients use of [strings], [net], [net/url] and [net/http]

    Substring search and lower case, host and port, and the network a client talks to: a world that
    changes with every dial and every exchange.  Parsing a URL is an interface. *)

From Stdlib Require Import Ascii.
From S2P Require Import Prelude GoTime GoStrings GoEncoding External Http.

(** ** [strings] *)

(** [strings.Contains] and [bytes.Contains] *)
Fixpoint contains_bytes (sub l : list byte) : bool :=
  bool_decide (take (length sub) l = sub) ||
  match l with [] => false | _ :: l' => contains_bytes sub l' end.
Definition Contains (s sub : string) : bool := contains_bytes (bytes_of sub) (bytes_of s).

(** [strings.HasSuffix] *)
Definition HasSuffix (s suf : string) : bool :=
  bool_decide (drop (length (bytes_of s) - length (bytes_of suf)) (bytes_of s) = bytes_of suf).

(** [strings.ToLower], as far as the ASCII letters of the result go: the letters themselves and the
    two other runes whose lower case is one (U+0130 and U+212A). *)
Fixpoint lower_bytes (l : list byte) : list byte :=
  match l with
  | [] => []
  | b :: l1 =>
      let v := byte_val b in
      if (65 <=? v) && (v <=? 90) then byte_of (v + 32) :: lower_bytes l1
      else match l1 with
           | c :: l2 =>
               if (v =? 196) && (byte_val c =? 176) then byte_of 105 :: lower_bytes l2
               else match l2 with
                    | d :: l3 =>
                        if (v =? 226) && (byte_val c =? 132) && (byte_val d =? 170)
                        then byte_of 107 :: lower_bytes l3 else b :: lower_bytes l1
                    | [] => b :: lower_bytes l1
                    end
           | [] => b :: lower_bytes l1
           end
  end.
Definition ToLower (s : string) : string := string_of (lower_bytes (bytes_of s)).

Lemma contains_bytes_spec sub l : contains_bytes sub l = true <-> exists a b, l = a ++ sub ++ b.
Proof.
  split.
  - induction l as [|x l IH]; simpl; intros H.
    + rewrite orb_false_r, bool_decide_eq_true, take_nil in H. subst. by exists [], [].
    + apply orb_true_iff in H as [H|H].
      * apply bool_decide_eq_true in H. exists [], (drop (length sub) (x :: l)). simpl.
        by rewrite <- H at 1; rewrite <- (take_drop (length sub) (x :: l)) at 1.
      * destruct (IH H) as (a & b & ->). by exists (x :: a), b.
  - intros (a & b & ->). induction a as [|x a IH]; simpl.
    + destruct (sub ++ b) eqn:E; simpl; rewrite <- ?E, take_app_length, bool_decide_true; done.
    + by rewrite IH, orb_true_r.
Qed.

Lemma Contains_spec s sub : Contains s sub = true <-> exists a b, s = a +:+ sub +:+ b.
Proof.
  unfold Contains. rewrite contains_bytes_spec. split.
  - intros (a & b & E). exists (string_of a), (string_of b).
    apply bytes_of_inj. by rewrite !bytes_of_app, !bytes_of_string_of.
  - intros (a & b & ->). exists (bytes_of a), (bytes_of b). by rewrite !bytes_of_app.
Qed.

(** ** [net] *)

(** [net.JoinHostPort] *)
Definition JoinHostPort (host port : string) : string :=
  if has_byte ":"%char host then "[" +:+ host +:+ "]:" +:+ port else host +:+ ":" +:+ port.

(** ** [net/url] *)

Record URL := mkURL { Scheme : string; Host : string }.
Class UrlLib := { url_Parse : string -> option URL }.

(** A colon and decimal digits, or nothing. *)
Definition validOptionalPort (l : list byte) : bool :=
  match l with
  | [] => true
  | b :: l' => (byte_val b =? 58) && forallb (fun c => (48 <=? byte_val c) && (byte_val c <=? 57)) l'
  end.

(** [u.Hostname()]: the host without a port and without the brackets of an IPv6 address. *)
Definition Hostname (u : URL) : string :=
  let l := bytes_of (Host u) in
  let l := match last_index_byte Byte.x3a l with
           | Some i => if validOptionalPort (drop i l) then take i l else l
           | None => l
           end in
  string_of (match l with
             | b :: l' => if (byte_val b =? 91) && bool_decide (last l = Some Byte.x5d)
                          then take (length l' - 1) l' else l
             | [] => []
             end).

(** [u.Port()]: what follows the last colon, if it is digits. *)
Definition Port (u : URL) : string :=
  let l := bytes_of (Host u) in
  match last_index_byte Byte.x3a l with
  | Some i => if validOptionalPort (drop i l) then string_of (drop (S i) l) else ""
  | None => ""
  end.

(** ** [crypto/tls] and [net/http], the client's side *)

(** What a client configures; the minimum version is always TLS 1.2.  No [RootCAs] are the host's own
    ([nil] in Go: the pools of the program are never empty). *)
Record TlsConfig := mkTlsConfig {
  Certificates : list Certificate;
  RootCAs : list Certificate;
  ServerName : string;
  InsecureSkipVerify : bool
}.

Record HttpRequest := mkHttpRequest {
  Method : string;
  Url : string;
  Headers : list (string * string);
  Body : list byte
}.

Record HttpResponse := mkHttpResponse { StatusCode : Z; RespBody : list byte }.

(** The network: dialing a TLS connection, one exchange over a given connection, and a request of the
    pooled HTTP client, each of which may fail and changes the world [W]. *)
Record Net (W : Type) := mkNet {
  net_dial : TlsConfig -> string -> W -> W * result Conn;
  net_over : Conn -> HttpRequest -> W -> W * result HttpResponse;
  net_do : TlsConfig -> HttpRequest -> W -> W * result HttpResponse
}.
Arguments mkNet {W} _ _ _.
Arguments net_dial {W} _ _ _ _.
Arguments net_over {W} _ _ _ _.
Arguments net_do {W} _ _ _ _.
