(* ===== verification/Wire.v ===== *)
(** * JSON of the wire types (internal/api, internal/auth, internal/control, sdk/sign)

    The structures that cross the wire with their tags: decoders of the request bodies, which
    instantiate the interface the HTTP and control handlers are written against, and the text the
    handlers write back. *)

From S2P Require Import Prelude GoTime GoStrings GoEncoding GoUtf8 GoJson External Fingerprint SessionBinding AuthPipeline Config Keystore Devices Csr Http Control.

Module Wire.
Import Json.

(** ** Requests of the HTTP API *)

Definition dec_SessionBinding : decoder Bind.SessionBinding := d_struct (fun ms old =>
  hp ← get_field d_string "host_public_key" ms (Bind.HostPublicKey old);
  sid ← get_field d_string "session_id" ms (Bind.SessionID old);
  sig ← get_field d_string "signature" ms (Bind.BindSignature old);
  fwd ← get_field d_bool "forwarding" ms (Bind.Forwarding old);
  Some (Bind.mkSessionBinding hp sid sig fwd)).

Definition zeroSignRequest : Auth.SignRequest :=
  Auth.mkSignRequest "" "" "" 0 "" "" "" "" "" "" "" Bind.noBinding "" "".

(** [BodyMAC] is tagged [-]: it stays as it is. *)
Definition dec_SignRequest : decoder Auth.SignRequest := d_struct (fun ms old =>
  pk ← get_field d_string "public_key" ms (Auth.req_PublicKey old);
  user ← get_field d_string "target_user" ms (Auth.TargetUser old);
  ip ← get_field d_string "target_ip" ms (Auth.TargetIP old);
  ts ← get_field d_int "timestamp" ms (Auth.Timestamp old);
  pop ← get_field d_string "pop_signature" ms (Auth.PopSignature old);
  data ← get_field d_string "agent_sign_data" ms (Auth.AgentSignData old);
  hpk ← get_field d_string "host_public_key" ms (Auth.req_HostPublicKey old);
  hfp ← get_field d_string "host_key_fingerprint" ms (Auth.req_HostKeyFingerprint old);
  su ← get_field d_string "source_user" ms (Auth.req_SourceUser old);
  cn ← get_field d_string "client_name" ms (Auth.req_ClientName old);
  cv ← get_field d_string "client_version" ms (Auth.req_ClientVersion old);
  sb ← get_field dec_SessionBinding "session_binding" ms (Auth.req_SessionBinding old);
  dst ← get_field d_string "destination_host_public_key" ms (Auth.DestinationHostPublicKey old);
  Some (Auth.mkSignRequest pk user ip ts pop data hpk hfp su cn cv sb dst (Auth.BodyMAC old))).

Definition dec_mobileEnroll : decoder Http.mobileEnrollRequest := d_struct (fun ms old =>
  l ← get_field d_string "label" ms (Http.me_Label old);
  k ← get_field d_string "device_pubkey" ms (Http.DevicePubKey old);
  f ← get_field d_string "cert_fingerprint" ms (Http.me_CertFingerprint old);
  Some (Http.mkMobileEnroll l k f)).

Definition dec_mobileApprove : decoder Http.mobileApproveRequest := d_struct (fun ms old =>
  let p := Http.ap_payload old in
  tx ← get_field d_string "tx_id" ms (Http.TxID p);
  a ← get_field d_string "action" ms (Http.Action p);
  ttl ← get_field d_int "ttl_seconds" ms (Http.TTLSeconds p);
  dev ← get_field d_string "device_id" ms (Http.ap_DeviceID p);
  ts ← get_field d_int "timestamp" ms (Http.ap_Timestamp p);
  sig ← get_field d_string "signature" ms (Http.ap_Signature old);
  Some (Http.mkMobileApprove (Http.mkApprovePayload tx a ttl dev ts) sig)).

Definition dec_keysPending : decoder Http.mobileKeysPendingRequest := d_struct (fun ms old =>
  let p := Http.pp_payload old in
  dev ← get_field d_string "device_id" ms (Http.pp_DeviceID p);
  pem ← get_field d_string "encrypted_pem" ms (Http.pp_EncryptedPEM p);
  l ← get_field d_string "label" ms (Http.pp_Label p);
  c ← get_field d_string "comment" ms (Http.pp_Comment p);
  ts ← get_field d_int "timestamp" ms (Http.pp_Timestamp p);
  sig ← get_field d_string "signature" ms (Http.pp_Signature old);
  Some (Http.mkKeysPending (Http.mkPendingPayload dev pem l c ts) sig)).

Definition dec_cliEnroll : decoder Http.cliEnrollRequest := d_struct (fun ms old =>
  l ← get_field d_string "label" ms (Http.ce_Label old);
  c ← get_field d_string "csr_pem" ms (Http.ce_CSRPEM old);
  Some (Http.mkCliEnroll l c)).

Definition dec_cliKeysLoad : decoder Http.cliKeysLoadWire := d_struct (fun ms old =>
  pem ← get_field d_string "encrypted_pem" ms (Http.w_EncryptedPEM old);
  pass ← get_field d_raw "passphrase" ms (Http.w_Passphrase old);
  l ← get_field d_string "label" ms (Http.w_Label old);
  c ← get_field d_string "comment" ms (Http.w_Comment old);
  ts ← get_field d_int "timestamp" ms (Http.w_Timestamp old);
  Some (Http.mkKeysLoadWire pem pass l c ts)).

(** A structure with one text field. *)
Definition dec_one (name : string) : decoder string := d_struct (fun ms old => get_field d_string name ms old).

(** What a device signs. *)
Definition enc_approve (p : Http.mobileApproveSignPayload) : list byte := e_struct
  [("tx_id", Some (e_string (Http.TxID p))); ("action", Some (e_string (Http.Action p)));
   ("ttl_seconds", Some (e_int (Http.TTLSeconds p))); ("device_id", Some (e_string (Http.ap_DeviceID p)));
   ("timestamp", Some (e_int (Http.ap_Timestamp p)))].

Definition enc_pending (p : Http.mobileKeysPendingSignPayload) : list byte := e_struct
  [("device_id", Some (e_string (Http.pp_DeviceID p))); ("encrypted_pem", Some (e_string (Http.pp_EncryptedPEM p)));
    ("label", Some (e_string (Http.pp_Label p))); ("comment", omit_string (Http.pp_Comment p));
   ("timestamp", Some (e_int (Http.pp_Timestamp p)))].

#[export] Instance go_json : Http.JsonLib := {|
  Http.json_SignRequest := Unmarshal dec_SignRequest zeroSignRequest;
  Http.json_mobileEnroll := Unmarshal dec_mobileEnroll (Http.mkMobileEnroll "" "" "");
  Http.json_mobileApprove :=
    Unmarshal dec_mobileApprove (Http.mkMobileApprove (Http.mkApprovePayload "" "" 0 "" 0) "");
  Http.json_keysPending :=
    Unmarshal dec_keysPending (Http.mkKeysPending (Http.mkPendingPayload "" "" "" "" 0) "");
  Http.json_cliEnroll := Unmarshal dec_cliEnroll (Http.mkCliEnroll "" "");
  Http.json_cliKeysLoad := Unmarshal dec_cliKeysLoad (Http.mkKeysLoadWire "" [] "" "" 0);
  Http.json_mtlsEnroll := Unmarshal (dec_one "csr_pem") "";
  Http.json_string := Unmarshal d_string "";
  Http.marshal_approve p := Some (enc_approve p);
  Http.marshal_pending p := Some (enc_pending p)
|}.

(** ** Responses of the HTTP API: the bytes of a body

    [json.NewEncoder(w).Encode] and [http.Error] end with a newline; a map is written in the order
    of its keys. *)

Definition line (l : list byte) : list byte := l ++ [byte_of 10].

(** A slice that is nil when it has no elements. *)
Definition e_slice (l : list (list byte)) : list byte :=
  match l with [] => bytes_of "null" | _ => e_list l end.

Definition enc_waitResponse (w : Http.waitResponse) : list byte := e_struct
  [("ssh_certificate", omit_string (Http.SSHCertificate w)); ("ssh_signature", omit_string (Http.SSHSignature w));
   ("expires_at", Some (e_string (Http.ExpiresAt w))); ("lease_expires_at", omit_string (Http.LeaseExpiresAt w))].

Definition enc_loadedSigner (s : Http.loadedSignerEntry) : list byte := e_struct
  [("fingerprint", Some (e_string (Http.ls_Fingerprint s))); ("public_key", omit_string (Http.ls_PublicKey s));
   ("comment", omit_string (Http.ls_Comment s))].

Definition enc_capabilities (c : Http.capabilitiesResponse) : list byte := e_struct
  [("signer_mode", Some (e_string (Http.cap_SignerMode c))); ("lease_supported", Some (e_bool (Http.LeaseSupported c)));
    ("allowed_ttl_seconds", Some (e_slice (map e_int (Http.cap_AllowedTTLSeconds c))));
    ("sealed", Some (e_bool (Http.Sealed c)));
   ("loaded_signers", match Http.LoadedSigners c with [] => None | l => Some (e_list (map enc_loadedSigner l)) end)].

Definition enc_cliDevice (d : Http.cliDeviceJSON) : list byte := e_struct
  [("device_id", Some (e_string (Http.dj_DeviceID d))); ("label", Some (e_string (Http.dj_Label d)));
   ("cert_fingerprint", Some (e_string (Http.dj_CertFingerprint d))); ("enrolled_at", Some (e_string (Http.dj_EnrolledAt d)))].

Definition content_bytes (c : Http.content) : list byte :=
  match c with
  | Http.CNone => []
  | Http.CText s => line (bytes_of s)
  | Http.CSign id => line (e_struct [("tx_id", Some (e_string id))])
  | Http.CWait w => line (enc_waitResponse w)
  | Http.CCapabilities c => line (enc_capabilities c)
  | Http.CMobileEnroll id => line (e_struct [("device_id", Some (e_string id))])
  | Http.CPending id => line (e_struct [("pending_id", Some (e_string id))])
  | Http.CCliEnroll id pem => line (e_struct [("device_id", Some (e_string id)); ("certificate_pem", Some (e_string pem))])
  | Http.CCliDevices l => line (e_struct [("devices", Some (e_list (map enc_cliDevice l)))])
  | Http.CKeysLoad fp => line (e_struct [("fingerprint", Some (e_string fp))])
  | Http.CKeysLoadError code msg => line (e_struct [("code", Some (e_string code)); ("error", Some (e_string msg))])
  | Http.CMtlsEnroll pem => line (e_struct [("certificate_pem", Some (e_string pem))])
  | Http.CPem b => b
  end.

End Wire.
