(* ===== verification/Sdk.v ===== *)
(** * The client SDK (sdk, sdk/sign)

    Building and sending signing requests, collecting the result, discovering what the proxy offers.
    Every function takes the network and the world it acts on and returns the world with its result,
    so that a network made of the proxy's own handlers can be put in its place. *)

From Stdlib Require Import Ascii.
From S2P Require Import Prelude GoTime GoStrings GoEncoding GoUtf8 GoJson External Fingerprint SessionBinding AuthPipeline Http GoNet Wire.

Module Sdk.
Import Json.

(** ** Configuration and client (sign/client.go) *)

Definition defaultTimeout : Z := 90 * Second.

Record Config := mkConfig {
  ProxyURL : string;
  TLSCert : Certificate;
  TLSRootCAs : list Certificate;
  Timeout : Z
}.

(** [timeout] is the HTTP client's; [tlsCfg] serves it and the direct dials. *)
Record Client := mkClient {
  timeout : Z;
  proxyURL : string;
  tlsCfg : TlsConfig;
  addr : string
}.

Definition NewClient `{UrlLib} (cfg : Config) : result Client :=
  if ProxyURL cfg =s "" then Err (errorf "ProxyURL is required") else
  u ← or_err (url_Parse (ProxyURL cfg)) (errorf "parse ProxyURL");
  if negb (Scheme u =s "https") then Err (errorf "ProxyURL must use https") else
  let timeout := if Timeout cfg =? 0 then defaultTimeout else Timeout cfg in
  let serverName := Hostname u in
  let serverName :=
    if (serverName =s "") || (serverName =s "127.0.0.1") || (serverName =s "::1")
    then "localhost" else serverName in
  let host := if negb (Contains (Host u) ":") then JoinHostPort (Host u) "443" else Host u in
  Ok (mkClient timeout (TrimRight (ProxyURL cfg) "/"%char)
        (mkTlsConfig [TLSCert cfg] (TLSRootCAs cfg) serverName false) host).

(** ** Wire types (sign/request.go, sign/capabilities.go) *)

(** A [[]byte]: [None] is nil. *)
Definition bslice := option (list byte).
Definition slice_len (b : bslice) : Z := Z.of_nat (length (default [] b)).

Record sessionBindingRequest := mkSbr {
  sbr_HostPublicKey : bslice;
  sbr_SessionID : bslice;
  sbr_Signature : bslice;
  sbr_Forwarding : bool
}.

Record Request := mkRequest {
  r_PublicKey : string;
  r_TargetUser : string;
  r_TargetIP : string;
  r_Timestamp : Z;
  r_PopSignature : string;
  r_SourceUser : string;
  r_ClientName : string;
  r_ClientVersion : string;
  r_AgentSignData : string;
  r_HostKeyFingerprint : string;
  r_SessionBinding : sessionBindingRequest;
  r_DestinationHostPublicKey : bslice
}.

(** [omitempty] has no effect on a structure. *)
Definition enc_binding (b : sessionBindingRequest) : list byte := e_struct
  [("host_public_key", Some (e_bytes (sbr_HostPublicKey b))); ("session_id", Some (e_bytes (sbr_SessionID b)));
   ("signature", Some (e_bytes (sbr_Signature b))); ("forwarding", Some (e_bool (sbr_Forwarding b)))].

Definition omit_bytes (b : bslice) : option (list byte) :=
  if slice_len b =? 0 then None else Some (e_bytes b).

Definition request_fields (q : Request) : list (string * option (list byte)) :=
  [("public_key", Some (e_string (r_PublicKey q))); ("target_user", Some (e_string (r_TargetUser q)));
   ("target_ip", Some (e_string (r_TargetIP q))); ("timestamp", Some (e_int (r_Timestamp q)));
   ("pop_signature", Some (e_string (r_PopSignature q)));
   ("source_user", omit_string (r_SourceUser q)); ("client_name", omit_string (r_ClientName q));
   ("client_version", omit_string (r_ClientVersion q)); ("agent_sign_data", omit_string (r_AgentSignData q));
   ("host_key_fingerprint", omit_string (r_HostKeyFingerprint q));
   ("session_binding", Some (enc_binding (r_SessionBinding q)));
   ("destination_host_public_key", omit_bytes (r_DestinationHostPublicKey q))].

(** [json.Marshal] of a request cannot fail. *)
Definition marshal_request (q : Request) : list byte := e_struct (request_fields q).

Definition dec_Response : decoder string := Wire.dec_one "tx_id".

Record WaitResponse := mkWaitResponse {
  SSHCertificate : string;
  SSHSignature : string;
  ExpiresAt : string;
  LeaseExpiresAt : string
}.

Definition dec_WaitResponse : decoder WaitResponse := d_struct (fun ms old =>
  c ← get_field d_string "ssh_certificate" ms (SSHCertificate old);
  s ← get_field d_string "ssh_signature" ms (SSHSignature old);
  e ← get_field d_string "expires_at" ms (ExpiresAt old);
  l ← get_field d_string "lease_expires_at" ms (LeaseExpiresAt old);
  Some (mkWaitResponse c s e l)).

Record ClientInfo := mkClientInfo { SourceUser : string; ClientName : string; ClientVersion : string }.

Record CertRequest := mkCertRequest { cr_TargetUser : string; cr_TargetIP : string; cr_Client : ClientInfo }.

Record SessionBinding := mkSessionBinding {
  HostPublicKey : bslice;
  SessionID : bslice;
  Signature : bslice;
  Forwarding : bool
}.

Record SignatureRequest := mkSignatureRequest {
  TargetUser : string;
  TargetIP : string;
  HostKeyFingerprint : string;
  sr_SessionBinding : SessionBinding;
  DestinationHostPublicKey : bslice;
  SignatureFormat : string;
  sr_Client : ClientInfo
}.

Definition noBinding : SessionBinding := mkSessionBinding None None None false.

Record LoadedSigner := mkLoadedSigner { Fingerprint : string; ls_PublicKey : string; ls_Comment : string }.

Record Capabilities := mkCapabilities {
  cap_SignerMode : string;
  LeaseSupported : bool;
  AllowedTTLSeconds : list Z;
  Sealed : bool;
  LoadedSigners : list LoadedSigner
}.

Definition dec_LoadedSigner : decoder LoadedSigner := d_struct (fun ms old =>
  f ← get_field d_string "fingerprint" ms (Fingerprint old);
  p ← get_field d_string "public_key" ms (ls_PublicKey old);
  c ← get_field d_string "comment" ms (ls_Comment old);
  Some (mkLoadedSigner f p c)).

Definition dec_Capabilities : decoder Capabilities := d_struct (fun ms old =>
  m ← get_field d_string "signer_mode" ms (cap_SignerMode old);
  l ← get_field d_bool "lease_supported" ms (LeaseSupported old);
  t ← get_field (d_list 0 d_int) "allowed_ttl_seconds" ms (AllowedTTLSeconds old);
  s ← get_field d_bool "sealed" ms (Sealed old);
  ls ← get_field (d_list (mkLoadedSigner "" "" "") dec_LoadedSigner) "loaded_signers" ms (LoadedSigners old);
  Some (mkCapabilities m l t s ls)).

Definition zeroCapabilities : Capabilities := mkCapabilities "" false [] false [].

(** ** Request authentication (sign/hmac.go, signPoP) *)

Definition exporterLabel : string := "luna-request-hmac".

Section sdk.
Context `{HashLib, SshLib}.

Definition ComputeBodyHMAC (conn : Conn) (body : list byte) : result (list byte) :=
  key ← or_err (ExportKeyingMaterial conn exporterLabel 32) (errorf "tls: exporter unavailable");
  Ok (hmac_sha256 key body).

Definition FormatMACHeader (mac : list byte) : string := HexEncodeToString mac.

(** An ed25519 private key: its public key, and [ed25519.Sign] with it. *)
Record PrivateKey := mkPrivateKey { priv_public : PublicKey; ed25519_Sign : list byte -> list byte }.

Definition signPoP (priv : PrivateKey) (user ip : string) (ts : Z) : string :=
  let msg := bytes_of user ++ [Byte.x3a] ++ bytes_of ip ++ [Byte.x3a] ++ bytes_of (FormatInt ts) in
  HexEncodeToString (ed25519_Sign priv msg).

(** ** Errors *)

(** [fmt.Errorf("prefix: %w", err)] *)
Definition wrapf (prefix : string) (e : error) : error := EWrap (prefix +:+ error_text e) e.

(** The body is drained and left out of the error. *)
Definition readHTTPError (resp : HttpResponse) (op : string) : error :=
  errorf (op +:+ ": HTTP " +:+ FormatInt (StatusCode resp)).

Definition isRetryableConnErr (e : error) : bool :=
  let msg := ToLower (error_text e) in
  Contains msg "eof" || Contains msg "connection reset" || Contains msg "broken pipe" ||
  Contains msg "use of closed network connection" || Contains msg "tls: ".

(** ** Talking to the proxy *)

Context {W : Type} (net : Net W).

(** [for attempt := 0; attempt < 2; attempt++]: [once] is tried, and once more when its first error
    looks like a broken connection. *)
Fixpoint attempts {A} (remaining : nat) (attempt : Z) (lastErr : error) (once : W -> W * result A) (w : W)
  : W * result A :=
  match remaining with
  | O => (w, Err lastErr)
  | S remaining =>
      match once w with
      | (w, Ok a) => (w, Ok a)
      | (w, Err e) =>
          if (attempt =? 0) && isRetryableConnErr e then attempts remaining (attempt + 1) e once w else (w, Err e)
      end
  end.

Definition two_attempts {A} (once : W -> W * result A) (w : W) : W * result A :=
  attempts 2 0 (errorf "") once w.

Definition maxResponse : Z := 1048576.

Definition sign_post (c : Client) (mac : list byte) (body : list byte) : HttpRequest :=
  mkHttpRequest "POST" (proxyURL c +:+ "/api/v1/ssh/sign")
    [("Content-Type", "application/json"); ("X-Luna-Body-Mac", FormatMACHeader mac)] body.

Definition postSignOnce (c : Client) (body : list byte) (w : W) : W * result string :=
  match net_dial net (tlsCfg c) (addr c) w with
  | (w, Err e) => (w, Err (wrapf "tls dial: " e))
  | (w, Ok conn) =>
  match ComputeBodyHMAC conn body with
  | Err e => (w, Err (wrapf "body HMAC: " e))
  | Ok mac =>
  match net_over net conn (sign_post c mac body) w with
  | (w, Err e) => (w, Err (wrapf "POST sign: " e))
  | (w, Ok resp) =>
      (w,
       if negb (StatusCode resp =? Http.StatusAccepted) then Err (readHTTPError resp "POST sign") else
       match Decode dec_Response "" (LimitReader maxResponse (RespBody resp)) with
       | None => Err (errorf "decode sign response: invalid json")
       | Some txID => if txID =s "" then Err (errorf "empty tx_id in sign response") else Ok txID
       end)
  end end end.

Definition postSign (c : Client) (body : list byte) (w : W) : W * result string :=
  two_attempts (postSignOnce c body) w.

Definition wait_get (c : Client) (txID : string) : HttpRequest :=
  mkHttpRequest "GET" (proxyURL c +:+ "/api/v1/ssh/sign/" +:+ txID +:+ "/wait") [] [].

(** Only the transport is retried: an answer, whatever its status, ends the loop. *)
Definition getWait (c : Client) (txID : string) (w : W) : W * result WaitResponse :=
  match two_attempts (net_do net (tlsCfg c) (wait_get c txID)) w with
  | (w, Err e) => (w, Err (wrapf "GET wait: " e))
  | (w, Ok resp) =>
      (w,
       if negb (StatusCode resp =? Http.StatusOK) then Err (readHTTPError resp "GET wait") else
       or_err (Decode dec_WaitResponse (mkWaitResponse "" "" "" "") (LimitReader maxResponse (RespBody resp)))
         (errorf "decode wait response: invalid json"))
  end.

Definition capabilities_get (c : Client) : HttpRequest :=
  mkHttpRequest "GET" (proxyURL c +:+ "/api/v1/capabilities") [] [].

Definition fetchCapabilitiesOnce (c : Client) (w : W) : W * result Capabilities :=
  match net_do net (tlsCfg c) (capabilities_get c) w with
  | (w, Err e) => (w, Err (wrapf "GET capabilities: " e))
  | (w, Ok resp) =>
      (w,
       if negb (StatusCode resp =? Http.StatusOK) then Err (readHTTPError resp "GET capabilities") else
       match Decode dec_Capabilities zeroCapabilities (LimitReader maxResponse (RespBody resp)) with
       | None => Err (errorf "decode capabilities: invalid json")
       | Some caps => if cap_SignerMode caps =s "" then Err (errorf "capabilities: empty signer_mode") else Ok caps
       end)
  end.

Definition FetchCapabilities (c : Client) (w : W) : W * result Capabilities :=
  two_attempts (fetchCapabilitiesOnce c) w.

(** ** Requests for credentials *)

(** What a request draws from outside: a fresh private key, if the system has randomness, and the
    clock.  [ssh.NewPublicKey] accepts every ed25519 key. *)
Record Fresh := mkFresh { key : option PrivateKey; now : Z }.

Definition GenerateKey (fr : Fresh) : result PrivateKey := or_err (key fr) (errorf "generate key").

(** SSH certificates: the type assertion from a public key, and the key a certificate certifies. *)
Context (Cert : Type) (as_certificate : PublicKey -> option Cert) (cert_key : Cert -> PublicKey).

Definition parseCertificate (line : string) : result Cert :=
  pub ← or_err (ParseAuthorizedKey (bytes_of line)) (errorf "parse ssh certificate");
  or_err (as_certificate pub) (errorf "authorized key is not an SSH certificate").

Definition noSbr : sessionBindingRequest := mkSbr None None None false.

Definition cert_request (req : CertRequest) (priv : PrivateKey) (ts : Z) : Request :=
  mkRequest (string_of (MarshalAuthorizedKey (priv_public priv))) (cr_TargetUser req) (cr_TargetIP req) ts
    (signPoP priv (cr_TargetUser req) (cr_TargetIP req) ts) (SourceUser (cr_Client req))
    (ClientName (cr_Client req)) (ClientVersion (cr_Client req)) "" "" noSbr None.

Definition RequestCertificate (c : Client) (fr : Fresh) (req : CertRequest) (w : W)
  : W * result (Cert * PrivateKey) :=
  if (cr_TargetUser req =s "") || (cr_TargetIP req =s "")
  then (w, Err (errorf "TargetUser and TargetIP are required")) else
  match GenerateKey fr with
  | Err e => (w, Err e)
  | Ok priv =>
  let body := marshal_request (cert_request req priv (Unix (now fr))) in
  match postSign c body w with
  | (w, Err e) => (w, Err e)
  | (w, Ok txID) =>
  match getWait c txID w with
  | (w, Err e) => (w, Err e)
  | (w, Ok wait) =>
      (w, if SSHCertificate wait =s "" then Err (errorf "empty ssh_certificate in wait response") else
          cert ← parseCertificate (SSHCertificate wait); Ok (cert, priv))
  end end end.

(** ** Signatures with a hosted key (sign/signature.go) *)

Definition nonempty (b : bslice) : Z := if 0 <? slice_len b then 1 else 0.

Definition sessionBindingFields (b : SessionBinding) : Z :=
  nonempty (HostPublicKey b) + nonempty (SessionID b) + nonempty (Signature b).

(** The checks before anything is generated or sent. *)
Definition checkSignatureRequest (req : SignatureRequest) (signData : list byte) : result unit :=
  let b := sr_SessionBinding req in
  let n := sessionBindingFields b in
  let dest := slice_len (DestinationHostPublicKey req) in
  if (TargetUser req =s "") || (TargetIP req =s "") then Err (errorf "TargetUser and TargetIP are required") else
  if (length signData =? 0)%nat then Err (errorf "signData is required") else
  if negb (n =? 0) && negb (n =? 3) then Err (errorf "SessionBinding is incomplete") else
  let hasSessionBinding := n =? 3 in
  if negb hasSessionBinding && (dest =? 0)
  then Err (errorf "SessionBinding or DestinationHostPublicKey is required") else
  if hasSessionBinding && (0 <? dest)
  then Err (errorf "SessionBinding and DestinationHostPublicKey are mutually exclusive") else
  if Forwarding b then Err (errorf "forwarded SessionBinding is not allowed") else Ok tt.

Definition signature_request (req : SignatureRequest) (signData : list byte) (priv : PrivateKey)
    (ts : Z) : Request :=
  let b := sr_SessionBinding req in
  mkRequest (string_of (MarshalAuthorizedKey (priv_public priv))) (TargetUser req) (TargetIP req) ts
    (signPoP priv (TargetUser req) (TargetIP req) ts) (SourceUser (sr_Client req))
    (ClientName (sr_Client req)) (ClientVersion (sr_Client req)) (StdEncodeToString signData)
    (HostKeyFingerprint req) (mkSbr (HostPublicKey b) (SessionID b) (Signature b) (Forwarding b))
    (DestinationHostPublicKey req).

Definition RequestSignature (c : Client) (fr : Fresh) (req : SignatureRequest) (signData : list byte) (w : W)
  : W * result External.Signature :=
  match checkSignatureRequest req signData with
  | Err e => (w, Err e)
  | Ok _ =>
  match GenerateKey fr with
  | Err e => (w, Err e)
  | Ok priv =>
  let body := marshal_request (signature_request req signData priv (Unix (now fr))) in
  match postSign c body w with
  | (w, Err e) => (w, Err e)
  | (w, Ok txID) =>
  match getWait c txID w with
  | (w, Err e) => (w, Err e)
  | (w, Ok wait) =>
      (w, if SSHSignature wait =s "" then Err (errorf "empty ssh_signature in wait response") else
          blob ← or_err (StdDecodeString (SSHSignature wait)) (errorf "decode ssh_signature: invalid base64");
          let format := if SignatureFormat req =s "" then pub_type (priv_public priv) else SignatureFormat req in
          Ok (mkSignature format blob))
  end end end end.

(** ** The public client (sdk/client.go, signer.go, signature.go, capabilities.go) *)

(** A signer that presents a certificate ([ssh.NewCertSigner] refuses a key the certificate is not
    for); its signatures are those of the private key. *)
Record CertSigner := mkCertSigner { cs_cert : Cert; cs_Sign : list byte -> External.Signature }.

Definition NewCertSigner (cert : option Cert) (priv : PrivateKey) : result CertSigner :=
  match cert with
  | None => Err (errorf "certificate is nil")
  | Some cert =>
      if bool_decide (pub_marshal (cert_key cert) = pub_marshal (priv_public priv)) then
        Ok (mkCertSigner cert (fun data => mkSignature (pub_type (priv_public priv)) (ed25519_Sign priv data)))
      else Err (errorf "ssh: signer and cert have different public key")
  end.
End sdk.

Record SdkConfig := mkSdkConfig { sc_Config : Config; sc_SignerMode : string }.
Record SdkClient := mkSdkClient { inner : Client; signerMode : string }.

Definition SignerModeLocalCA : string := "local-ca".
Definition SignerModeLocalKey : string := "local-key".

Definition NewSdkClient `{UrlLib} (cfg : SdkConfig) : result SdkClient :=
  c ← NewClient (sc_Config cfg); Ok (mkSdkClient c (sc_SignerMode cfg)).

Definition SignerMode (c : SdkClient) : string :=
  if negb (signerMode c =s "") then signerMode c else SignerModeLocalCA.

(** *** Loading the client's TLS files (mtls.go)

    [LoadX509KeyPair] and [AppendCertsFromPEM] are the interfaces of the files' formats. *)
Definition LoadTLSConfig (LoadX509KeyPair : string -> string -> option Certificate)
    (AppendCertsFromPEM : list byte -> list Certificate) (fs : string -> option (list byte))
    (certFile keyFile caFile : string) : result (Certificate * list Certificate) :=
  cert ← or_err (LoadX509KeyPair certFile keyFile) (errorf "load client cert");
  caPEM ← or_err (fs caFile) (errorf "read CA");
  match AppendCertsFromPEM caPEM with
  | [] => Err (errorf ("parse CA PEM from " +:+ caFile))
  | pool => Ok (cert, pool)
  end.

(** ** Retries *)

Section retries.
Context {W A : Type} (once : W -> W * result A).

(** At most two tries, the second one only after an error that looks like a broken connection. *)
Lemma two_attempts_spec w :
  two_attempts once w =
  match once w with
  | (w1, Err e) => if isRetryableConnErr e then once w1 else (w1, Err e)
  | r => r
  end.
Proof.
  unfold two_attempts. cbn [attempts]. destruct (once w) as [w1 [a|e]]; [done|].
  cbn [Z.eqb andb]. destruct (isRetryableConnErr e); [|done]. by destruct (once w1) as [w2 [a|e2]].
Qed.

Lemma two_attempts_ok w w1 a : once w = (w1, Ok a) -> two_attempts once w = (w1, Ok a).
Proof. intros E. by rewrite two_attempts_spec, E. Qed.
End retries.

(** The network with a count of the dialled connections. *)
Definition counting {W} (net : Net W) : Net (W * nat) := mkNet
  (fun cfg a w => let '(w', r) := net_dial net cfg a w.1 in ((w', S w.2), r))
  (fun c q w => let '(w', r) := net_over net c q w.1 in ((w', w.2), r))
  (fun cfg q w => let '(w', r) := net_do net cfg q w.1 in ((w', w.2), r)).

Lemma counting_once `{HashLib} {W} (net : Net W) c body w n :
  postSignOnce (counting net) c body (w, n) =
  ((postSignOnce net c body w).1, S n, (postSignOnce net c body w).2).
Proof.
  unfold postSignOnce, counting. cbn. destruct (net_dial net _ _ w) as [w1 [conn|e]]; cbn; [|done].
  destruct (ComputeBodyHMAC conn body); cbn; [|done]. by destruct (net_over net _ _ w1) as [w2 [resp|e]].
Qed.

(** whatever the network does, [postSign] returns after one connection, or after two when the
    first attempt failed with an error that looks like a broken connection; it never makes a third,
    and it reports the outcome of the last one. *)
Theorem post_sign_terminates `{HashLib} {W} (net : Net W) c body w :
  exists n w' r, postSign (counting net) c body (w, 0%nat) = ((w', n), r) /\ (1 <= n <= 2)%nat /\
    postSign net c body w = (w', r) /\
    (n = 2%nat <-> exists w1 e, postSignOnce net c body w = (w1, Err e) /\ isRetryableConnErr e = true) /\
    (n = 1%nat -> postSignOnce net c body w = (w', r)) /\
    (n = 2%nat -> postSignOnce net c body (postSignOnce net c body w).1 = (w', r)).
Proof.
  unfold postSign. rewrite !two_attempts_spec, counting_once.
  destruct (postSignOnce net c body w) as [w1 [a|e]] eqn:E1; cbn [fst snd].
  - exists 1%nat, w1, (Ok a). split_and!; try done; try lia. split; [done|]. intros (? & ? & ? & _). done.
  - destruct (isRetryableConnErr e) eqn:Er.
    + rewrite counting_once. destruct (postSignOnce net c body w1) as [w2 r] eqn:E2. cbn [fst snd].
      exists 2%nat, w2, r. split_and!; try done; try lia. split; [|done]. eauto.
    + exists 1%nat, w1, (Err e). split_and!; try done; try lia. split; [done|].
      intros (? & ? & [= <- <-] & ?). congruence.
Qed.

(** ** Clients *)

(** a client exists only for an https URL and always verifies the proxy: certificate checks are
    never skipped, the name it checks is not empty and is the host of the URL unless that is empty or
    a loopback address (then [localhost]), the address it dials names a port, and the timeout is
    never the zero that means none. *)
Theorem client_always_verifies `{UrlLib} cfg c :
  NewClient cfg = Ok c ->
  exists u, url_Parse (ProxyURL cfg) = Some u /\ Scheme u = "https" /\
    InsecureSkipVerify (tlsCfg c) = false /\ RootCAs (tlsCfg c) = TLSRootCAs cfg /\
    Certificates (tlsCfg c) = [TLSCert cfg] /\
    ServerName (tlsCfg c) = (if bool_decide (Hostname u ∈ [""; "127.0.0.1"; "::1"]) then "localhost" else Hostname u) /\
    ServerName (tlsCfg c) <> "" /\ Contains (addr c) ":" = true /\ timeout c <> 0.
Proof.
  unfold NewClient. destruct (ProxyURL cfg =s ""); [done|]. intros Hn. inv_ok.
  destruct (Scheme a =s "https") eqn:Es; cbn [negb] in *; [|done]. str_prop. injection Hn as <-.
  exists a. cbn [addr timeout tlsCfg InsecureSkipVerify RootCAs Certificates ServerName]. split_and!; try done.
  - destruct (_ || _) eqn:Eo.
    + rewrite bool_decide_true; [done|]. apply orb_true_iff in Eo as [Eo%orb_true_iff|Eo]; [destruct Eo as [Eo|Eo]|];
        str_prop; rewrite Eo; set_solver.
    + str_prop. rewrite bool_decide_false; [done|]. set_solver.
  - destruct (_ || _) eqn:Eo; [done|]. by str_prop.
  - destruct (Contains (Host a) ":") eqn:Ec; cbn [negb]; [done|]. unfold JoinHostPort.
    apply Contains_spec. destruct (has_byte _ _).
    + exists ("[" +:+ Host a +:+ "]"), "443". apply bytes_of_inj.
      by rewrite !bytes_of_app, <- !app_assoc.
    + by exists (Host a), "443".
  - destruct (Timeout cfg =? 0) eqn:Et; bool_prop; done.
Qed.

(** a hosted-key request leaves the client exactly when it names a user and an address, has data
    to sign, is not for a forwarded session, and identifies its destination in exactly one way: all
    three parts of a session binding and no destination key, or a destination key and no part of a
    binding.  Otherwise [RequestSignature] fails without drawing a key or touching the network. *)
Theorem signature_request_checked `{HashLib, SshLib} {W} (net : Net W) c fr req data w :
  let b := sr_SessionBinding req in
  let full x := slice_len x <> 0 in
  (checkSignatureRequest req data = Ok tt <->
   TargetUser req <> "" /\ TargetIP req <> "" /\ data <> [] /\ Forwarding b = false /\
   ((full (HostPublicKey b) /\ full (SessionID b) /\ full (Signature b) /\ ~ full (DestinationHostPublicKey req)) \/
    (~ full (HostPublicKey b) /\ ~ full (SessionID b) /\ ~ full (Signature b) /\ full (DestinationHostPublicKey req)))) /\
  (checkSignatureRequest req data <> Ok tt -> exists e, RequestSignature net c fr req data w = (w, Err e)).
Proof.
  intros b full. split.
  - assert (Hs : forall x, 0 <= slice_len x) by (intros; unfold slice_len; lia).
    unfold checkSignatureRequest, sessionBindingFields, nonempty, full. fold b.
    pose proof (Hs (HostPublicKey b)). pose proof (Hs (SessionID b)). pose proof (Hs (Signature b)).
    pose proof (Hs (DestinationHostPublicKey req)).
    destruct (TargetUser req =s "") eqn:E1; simpl; [str_prop; naive_solver|].
    destruct (TargetIP req =s "") eqn:E2; simpl; [str_prop; naive_solver|]. str_prop.
    destruct data as [|x data]; simpl; [naive_solver|].
    destruct (Z.ltb_spec 0 (slice_len (HostPublicKey b))), (Z.ltb_spec 0 (slice_len (SessionID b))),
      (Z.ltb_spec 0 (slice_len (Signature b))), (Z.eqb_spec (slice_len (DestinationHostPublicKey req)) 0),
      (Z.ltb_spec 0 (slice_len (DestinationHostPublicKey req))), (Forwarding b); simpl; try lia;
      (split; [try done; intros _; split_and!; try done; lia|intros (_ & _ & _ & ? & ?); try done; lia]).
  - unfold RequestSignature. destruct (checkSignatureRequest req data) as [[]|e]; [done|]. eauto.
Qed.

(** ** What the proxy reads is what the client wrote *)

Definition b64_slice (b : bslice) : string := match b with None => "" | Some b => StdEncodeToString b end.

(** A request as the proxy's structure. *)
Definition proxy_view (q : Request) : Auth.SignRequest :=
  let b := r_SessionBinding q in
  Auth.mkSignRequest (r_PublicKey q) (r_TargetUser q) (r_TargetIP q) (r_Timestamp q) (r_PopSignature q)
    (r_AgentSignData q) "" (r_HostKeyFingerprint q) (r_SourceUser q) (r_ClientName q) (r_ClientVersion q)
    (Bind.mkSessionBinding (b64_slice (sbr_HostPublicKey b)) (b64_slice (sbr_SessionID b))
       (b64_slice (sbr_Signature b)) (sbr_Forwarding b))
    (b64_slice (r_DestinationHostPublicKey q)) "".

(** Text fields are valid UTF-8; the timestamp is an [int64]. *)
Definition valid_request (q : Request) : Prop :=
  Forall (fun s => ValidString s = true)
    [r_PublicKey q; r_TargetUser q; r_TargetIP q; r_PopSignature q; r_SourceUser q; r_ClientName q;
     r_ClientVersion q; r_AgentSignData q; r_HostKeyFingerprint q] /\ in_int64 (r_Timestamp q).

Definition bytes_value (b : bslice) : value :=
  match b with None => VNull | Some b => VStr (StdEncodeToString b) end.
Definition s_bytes (b : bslice) : option (list byte * value) := Some (e_bytes b, bytes_value b).
Definition s_omit_bytes (b : bslice) : option (list byte * value) :=
  if slice_len b =? 0 then None else s_bytes b.

Lemma get_bytes b t : d_string (bytes_value b) t "" = Some (b64_slice b).
Proof. by destruct b. Qed.

Lemma omit_bytes_text b : omit_bytes b = fst <$> s_omit_bytes b.
Proof. unfold omit_bytes, s_omit_bytes. by destruct (_ =? 0). Qed.

Lemma get_omit_bytes b :
  match s_omit_bytes b with Some (t, v) => d_string v t "" | None => Some "" end = Some (b64_slice b).
Proof.
  unfold s_omit_bytes, slice_len. destruct b as [b|]; [|done].
  destruct b; [done|]. rewrite (proj2 (Z.eqb_neq _ _)) by (simpl; lia). done.
Qed.

Lemma slot_bytes d k b : ValidString k = true -> slot_ok d (k, s_bytes b).
Proof. intros. split; [done|]. apply encodes_bytes. Qed.
Lemma slot_omit_bytes d k b : ValidString k = true -> slot_ok d (k, s_omit_bytes b).
Proof. intros. split; [done|]. unfold s_omit_bytes. simpl. destruct (_ =? 0); [done|]. apply encodes_bytes. Qed.
#[local] Hint Resolve slot_bytes slot_omit_bytes : luna.

Definition binding_slots (b : sessionBindingRequest) : slots :=
  [("host_public_key", s_bytes (sbr_HostPublicKey b)); ("session_id", s_bytes (sbr_SessionID b));
   ("signature", s_bytes (sbr_Signature b)); ("forwarding", s_bool (sbr_Forwarding b))].

Definition request_slots (q : Request) : slots :=
  [("public_key", s_string (r_PublicKey q)); ("target_user", s_string (r_TargetUser q));
   ("target_ip", s_string (r_TargetIP q)); ("timestamp", s_int (r_Timestamp q));
   ("pop_signature", s_string (r_PopSignature q)); ("source_user", s_omit (r_SourceUser q));
   ("client_name", s_omit (r_ClientName q)); ("client_version", s_omit (r_ClientVersion q));
   ("agent_sign_data", s_omit (r_AgentSignData q)); ("host_key_fingerprint", s_omit (r_HostKeyFingerprint q));
   ("session_binding", Some (enc_binding (r_SessionBinding q), VObj (present (binding_slots (r_SessionBinding q)))));
   ("destination_host_public_key", s_omit_bytes (r_DestinationHostPublicKey q))].

Lemma encodes_binding d b : 0 < d -> encodes d (enc_binding b) (VObj (present (binding_slots b))).
Proof.
  intros Hd. apply (encodes_struct d (binding_slots b)); [done|].
  repeat (apply Forall_cons; split; [by auto with luna|]). constructor.
Qed.

Lemma encodes_request d q : 1 < d -> valid_request q ->
  encodes d (marshal_request q) (VObj (present (request_slots q))).
Proof.
  intros Hd [Hv _]. unfold marshal_request.
  replace (request_fields q) with (texts (request_slots q)).
  2: { unfold request_fields. rewrite !omit_text, omit_bytes_text. reflexivity. }
  apply encodes_struct; [lia|].
  repeat match goal with H : Forall _ (_ :: _) |- _ => apply Forall_cons in H as [? H] end.
  repeat (apply Forall_cons; split; [by auto with luna|]).
  apply Forall_cons; split; [split; [done|apply encodes_binding; lia]|].
  repeat (apply Forall_cons; split; [by auto with luna|]). constructor.
Qed.

Lemma decode_binding b t :
  Wire.dec_SessionBinding (VObj (present (binding_slots b))) t Bind.noBinding =
  Some (Bind.mkSessionBinding (b64_slice (sbr_HostPublicKey b)) (b64_slice (sbr_SessionID b))
          (b64_slice (sbr_Signature b)) (sbr_Forwarding b)).
Proof.
  unfold Wire.dec_SessionBinding, d_struct.
  read_field 0%nat ltac:(apply get_bytes). read_field 1%nat ltac:(apply get_bytes).
  read_field 2%nat ltac:(apply get_bytes). read_field 3%nat ltac:(reflexivity). reflexivity.
Qed.

#[local] Existing Instance Wire.go_json.

Lemma proxy_reads_request q :
  valid_request q -> Http.json_SignRequest (marshal_request q) = Some (proxy_view q).
Proof.
  intros Hq. unfold Http.json_SignRequest, Wire.go_json.
  rewrite (Unmarshal_encodes _ _ _ _ (encodes_request maxNestingDepth q eq_refl Hq)).
  destruct Hq as [_ Hts]. unfold Wire.dec_SignRequest, d_struct.
  do 3 (eapply bind_step; [eapply get_field_at; [vm_compute; reflexivity|reflexivity|reflexivity]|]).
  read_field 3%nat ltac:(by apply get_int). read_field 4%nat ltac:(reflexivity).
  read_field 8%nat ltac:(apply get_omit). no_field. read_field 9%nat ltac:(apply get_omit).
  read_field 5%nat ltac:(apply get_omit). read_field 6%nat ltac:(apply get_omit).
  read_field 7%nat ltac:(apply get_omit). read_field 10%nat ltac:(apply decode_binding).
  read_field 11%nat ltac:(apply get_omit_bytes). reflexivity.
Qed.

(** the body the SDK marshals decodes at the proxy to the request itself: every text and the
    timestamp unchanged (whatever has to be escaped), byte strings as base64, fields that were left
    out as empty ones.  Texts have to be valid UTF-8 and the timestamp an [int64]. *)
Theorem sign_request_wire_roundtrip q :
  valid_request q -> Http.json_SignRequest (marshal_request q) = Some (proxy_view q).
Proof. apply proxy_reads_request. Qed.

(** A transaction identifier comes back from the text of the response. *)
Lemma decode_sign_response id :
  ValidString id = true -> 6 * len id + 64 <= maxResponse ->
  Decode dec_Response "" (LimitReader maxResponse (Wire.content_bytes (Http.CSign id))) = Some id.
Proof.
  intros Hv Hl. rewrite LimitReader_all.
  - unfold Wire.content_bytes, Wire.line.
    change (e_struct _) with (e_struct (texts [("tx_id", s_string id)])).
    rewrite (Decode_encodes _ _ _ (VObj (present [("tx_id", s_string id)]))).
    2: { apply encodes_struct; [done|]. apply Forall_singleton. by auto with luna. }
    unfold dec_Response, Wire.dec_one, d_struct.
    by eapply (get_field_at _ _ _ _ 0); [vm_compute; reflexivity|reflexivity|reflexivity].
  - unfold Wire.content_bytes, Wire.line, e_struct, len in *. simpl.
    rewrite !length_app. pose proof (quote_length true 0 (bytes_of id)). rewrite length_bytes_of in *.
    simpl. rewrite ?length_app. simpl. unfold maxResponse in *. lia.
Qed.

(** What the proxy answers to a wait is what the client reads. *)
Lemma decode_wait_response w :
  Forall (fun s => ValidString s = true)
    [Http.SSHCertificate w; Http.SSHSignature w; Http.ExpiresAt w; Http.LeaseExpiresAt w] ->
  Z.of_nat (length (Wire.content_bytes (Http.CWait w))) <= maxResponse ->
  Decode dec_WaitResponse (mkWaitResponse "" "" "" "") (LimitReader maxResponse (Wire.content_bytes (Http.CWait w))) =
  Some (mkWaitResponse (Http.SSHCertificate w) (Http.SSHSignature w) (Http.ExpiresAt w) (Http.LeaseExpiresAt w)).
Proof.
  intros Hv Hl. rewrite LimitReader_all by done. unfold Wire.content_bytes, Wire.line, Wire.enc_waitResponse.
  set (l := [("ssh_certificate", s_omit (Http.SSHCertificate w)); ("ssh_signature", s_omit (Http.SSHSignature w));
             ("expires_at", s_string (Http.ExpiresAt w)); ("lease_expires_at", s_omit (Http.LeaseExpiresAt w))] : slots).
  replace (e_struct _) with (e_struct (texts l)) by (rewrite !omit_text; reflexivity).
  rewrite (Decode_encodes _ _ _ (VObj (present l))).
  - unfold dec_WaitResponse, d_struct.
    read_field 0%nat ltac:(apply get_omit). read_field 1%nat ltac:(apply get_omit).
    read_field 2%nat ltac:(reflexivity). read_field 3%nat ltac:(apply get_omit). reflexivity.
  - apply encodes_struct; [done|].
    repeat match goal with H : Forall _ (_ :: _) |- _ => apply Forall_cons in H as [? H] end.
    repeat (apply Forall_cons; split; [by auto with luna|]). constructor.
Qed.

(** Capabilities, as the client sees what the proxy offers. *)
Definition sdk_signer (s : Http.loadedSignerEntry) : LoadedSigner :=
  mkLoadedSigner (Http.ls_Fingerprint s) (Http.ls_PublicKey s) (Http.ls_Comment s).
Definition sdk_view (c : Http.capabilitiesResponse) : Capabilities :=
  mkCapabilities (Http.cap_SignerMode c) (Http.LeaseSupported c) (Http.cap_AllowedTTLSeconds c) (Http.Sealed c)
    (map sdk_signer (Http.LoadedSigners c)).

Definition valid_capabilities (c : Http.capabilitiesResponse) : Prop :=
  ValidString (Http.cap_SignerMode c) = true /\ Forall in_int64 (Http.cap_AllowedTTLSeconds c) /\
  Forall (fun s => ValidString (Http.ls_Fingerprint s) = true /\ ValidString (Http.ls_PublicKey s) = true /\
                   ValidString (Http.ls_Comment s) = true) (Http.LoadedSigners c).

Definition signer_slots (s : Http.loadedSignerEntry) : slots :=
  [("fingerprint", s_string (Http.ls_Fingerprint s)); ("public_key", s_omit (Http.ls_PublicKey s));
   ("comment", s_omit (Http.ls_Comment s))].

Lemma signer_text s : Wire.enc_loadedSigner s = e_struct (texts (signer_slots s)).
Proof. unfold Wire.enc_loadedSigner. rewrite !omit_text. reflexivity. Qed.

Lemma decode_signers l :
  mapM (fun v => dec_LoadedSigner v [] (mkLoadedSigner "" "" "")) (map (fun s => VObj (present (signer_slots s))) l)
  = Some (map sdk_signer l).
Proof.
  induction l as [|s l IH]; [done|]. cbn [map mapM]. eapply bind_step.
  { unfold dec_LoadedSigner, d_struct. read_field 0%nat ltac:(reflexivity).
    read_field 1%nat ltac:(apply get_omit). read_field 2%nat ltac:(apply get_omit). reflexivity. }
  by rewrite IH.
Qed.

Lemma decode_ints l : Forall in_int64 l ->
  mapM (fun v => d_int v [] 0) (map (fun z => VNum (bytes_of (FormatInt z))) l) = Some l.
Proof.
  induction 1 as [|z l Hz _ IH]; [done|]. cbn [map mapM]. eapply bind_step; [by apply get_int|]. by rewrite IH.
Qed.

Definition capability_slots (c : Http.capabilitiesResponse) : slots :=
  [("signer_mode", s_string (Http.cap_SignerMode c)); ("lease_supported", s_bool (Http.LeaseSupported c));
   ("allowed_ttl_seconds", Some (Wire.e_slice (map e_int (Http.cap_AllowedTTLSeconds c)),
      match Http.cap_AllowedTTLSeconds c with
      | [] => VNull | l => VArr (map (fun z => VNum (bytes_of (FormatInt z))) l) end));
   ("sealed", s_bool (Http.Sealed c));
   ("loaded_signers", match Http.LoadedSigners c with
      | [] => None
      | l => Some (e_list (map Wire.enc_loadedSigner l), VArr (map (fun s => VObj (present (signer_slots s))) l)) end)].

Lemma encodes_capabilities c :
  valid_capabilities c -> encodes maxNestingDepth (Wire.enc_capabilities c) (VObj (present (capability_slots c))).
Proof.
  intros (Hm & Ht & Hs). unfold Wire.enc_capabilities.
  replace (e_struct _) with (e_struct (texts (capability_slots c))) by (by destruct (Http.LoadedSigners c) eqn:E;
    unfold capability_slots; rewrite ?E).
  apply encodes_struct; [done|]. unfold capability_slots.
  repeat (apply Forall_cons; split; [try by auto with luna|]); [| |constructor].
  - split; [done|]. simpl. destruct (Http.cap_AllowedTTLSeconds c) as [|z l]; [apply encodes_null|].
    apply encodes_list; [done|]. cbn [map]. apply Forall2_cons. split; [apply encodes_int|].
    clear. induction l; constructor; [apply encodes_int|done].
  - split; [done|]. cbn [snd]. destruct Hs as [|x ss (H1 & H2 & H3) Hs]; [done|].
    apply encodes_list; [done|].
    assert (Hx : forall x, ValidString (Http.ls_Fingerprint x) = true -> ValidString (Http.ls_PublicKey x) = true ->
      ValidString (Http.ls_Comment x) = true ->
      encodes (maxNestingDepth - 1 - 1) (Wire.enc_loadedSigner x) (VObj (present (signer_slots x)))).
    { intros y ? ? ?. rewrite signer_text. apply encodes_struct; [done|].
      repeat (apply Forall_cons; split; [by auto with luna|]). constructor. }
    cbn [map]. constructor; [by apply Hx|]. clear x H1 H2 H3.
    induction Hs as [|x ss (H1 & H2 & H3) _ IH]; cbn [map]; constructor; [by apply Hx|done].
Qed.

(** The client reads exactly the capabilities the proxy reports. *)
Lemma decode_capabilities c :
  valid_capabilities c -> Z.of_nat (length (Wire.content_bytes (Http.CCapabilities c))) <= maxResponse ->
  Decode dec_Capabilities zeroCapabilities (LimitReader maxResponse (Wire.content_bytes (Http.CCapabilities c))) =
  Some (sdk_view c).
Proof.
  intros Hv Hl. rewrite LimitReader_all by done. unfold Wire.content_bytes, Wire.line.
  rewrite (Decode_encodes _ _ _ _ (encodes_capabilities c Hv)). destruct Hv as (_ & Ht & _).
  unfold dec_Capabilities, d_struct.
  read_field 0%nat ltac:(reflexivity). read_field 1%nat ltac:(reflexivity).
  read_field 2%nat ltac:(idtac).
  { instantiate (1 := Http.cap_AllowedTTLSeconds c). simpl.
    destruct (Http.cap_AllowedTTLSeconds c) as [|z l]; [done|]. by apply (decode_ints (z :: l)). }
  read_field 3%nat ltac:(reflexivity).
  read_field 4%nat ltac:(idtac).
  { instantiate (1 := map sdk_signer (Http.LoadedSigners c)).
    destruct (Http.LoadedSigners c) as [|s l]; [done|]. by apply (decode_signers (s :: l)). }
  reflexivity.
Qed.

End Sdk.
