(* ===== verification/Agent.v ===== *)
(** * The SSH agent (agent/agent.go, session_bind.go, identities.go, client_info.go)

    OpenSSH talks to the agent over a Unix socket; every connection has its own wrapper that keeps the
    session binding OpenSSH sent over it, and all share one [LunaAgent], which asks the proxy for each
    signature.  What the agent needs from the SDK is an interface, [AccessProvider]. *)

From Stdlib Require Import Ascii.
From S2P Require Import Prelude GoTime GoStrings GoEncoding GoUtf8 GoJson External Fingerprint SessionBinding AuthPipeline Keystore Http GoNet Wire Sdk.

Module Agent.

Definition SignerModeLocalCA : string := "local-ca".
Definition SignerModeLocalKey : string := "local-key".
Definition defaultSocketPath : string := "/run/luna/agent.sock".
Definition defaultApprovalTimeout : Z := 90 * Second.
Definition sessionBindExtension : string := "session-bind@openssh.com".
Definition clientName : string := "luna-agent".

(** ** Configuration (config.go) *)

Record Config := mkConfig {
  ProxyURL : string;
  MTLSCert : string;
  MTLSKey : string;
  MTLSCA : string;
  TargetUser : string;
  TargetHost : string;
  SocketPath : string;
  cfg_SignerMode : string;
  ApprovalTimeout : Z;
  HostKeyFingerprint : string;
  HostedPublicKey : string
}.

(** ** Client metadata (client_info.go): the environment, [user.Current] and the build's version *)

Record Process := mkProcess { getenv_USER : string; current_user : option string; version : string }.

Definition DefaultClientInfo (p : Process) : Sdk.ClientInfo :=
  let sourceUser := getenv_USER p in
  let sourceUser := match current_user p with
                    | Some u => if negb (u =s "") then u else sourceUser
                    | None => sourceUser
                    end in
  Sdk.mkClientInfo sourceUser clientName (version p).

Section agent.
Context `{HashLib, SshLib}.

(** [agent.Key] *)
Record Key := mkKey { key_Format : string; key_Blob : list byte }.

Definition agentKeyFromPublic (pub : PublicKey) : Key := mkKey (pub_type pub) (pub_marshal pub).

(** ** The provider interface

    [ctx] is the deadline of the call. *)
Context (Cert : Type) (cert_key : Cert -> PublicKey).

Record AccessProvider (W : Type) := mkProvider {
  p_SignerMode : string;
  p_RequestCertificate : Z -> Sdk.CertRequest -> W -> W * result (Cert * Sdk.PrivateKey);
  p_RequestSignature : Z -> Sdk.SignatureRequest -> list byte -> W -> W * result Signature
}.
Arguments mkProvider {W} _ _ _.
Arguments p_SignerMode {W} _.
Arguments p_RequestCertificate {W} _ _ _ _.
Arguments p_RequestSignature {W} _ _ _ _ _.

(** ** LunaAgent (agent.go) *)

Record LunaAgent := mkAgent {
  signerMode : string;
  targetUser : string;
  targetHost : string;
  hostKeyFingerprint : string;
  approvalTimeout : Z;
  identities : list Key;
  locked : bool
}.

Definition NewLunaAgent (mode user host fp : string) (ids : list Key) (timeout : Z) : LunaAgent :=
  let mode := if mode =s "" then SignerModeLocalCA else mode in
  let timeout := if timeout <=? 0 then defaultApprovalTimeout else timeout in
  mkAgent mode user host fp timeout ids false.

Definition List (a : LunaAgent) : list Key := if locked a then [] else identities a.

Definition set_locked (b : bool) (a : LunaAgent) : LunaAgent :=
  mkAgent (signerMode a) (targetUser a) (targetHost a) (hostKeyFingerprint a) (approvalTimeout a) (identities a) b.
Definition Lock (passphrase : list byte) (a : LunaAgent) : LunaAgent := set_locked true a.
Definition Unlock (passphrase : list byte) (a : LunaAgent) : LunaAgent := set_locked false a.

(** Keys cannot be added or removed. *)
Definition Add (a : LunaAgent) : LunaAgent := a.
Definition Remove (pub : PublicKey) (a : LunaAgent) : LunaAgent := a.
Definition RemoveAll (a : LunaAgent) : LunaAgent := a.

(** [mode] of one signature: the provider's, unless it has none. *)
Definition sign_mode {W} (p : AccessProvider W) (a : LunaAgent) : string :=
  if negb (p_SignerMode p =s "") then p_SignerMode p else signerMode a.

Definition signWithBinding {W} (p : AccessProvider W) (proc : Process) (a : LunaAgent) (pub : option PublicKey)
    (data : list byte) (binding : Sdk.SessionBinding) (w : W) : W * result Signature :=
  if locked a then (w, Err (errorf "agent locked")) else
  if sign_mode p a =s SignerModeLocalKey then
    if (Sdk.slice_len (Sdk.HostPublicKey binding) =? 0) || (Sdk.slice_len (Sdk.SessionID binding) =? 0) ||
       (Sdk.slice_len (Sdk.Signature binding) =? 0)
    then (w, Err (errorf "session-bind@openssh.com required for local-key signing")) else
    let fp := match pub with Some k => PublicKeyFingerprint k | None => hostKeyFingerprint a end in
    p_RequestSignature p (approvalTimeout a)
      (Sdk.mkSignatureRequest (targetUser a) (targetHost a) fp binding None "" (DefaultClientInfo proc)) data w
  else
    match p_RequestCertificate p (approvalTimeout a)
            (Sdk.mkCertRequest (targetUser a) (targetHost a) (DefaultClientInfo proc)) w with
    | (w, Err e) => (w, Err e)
    | (w, Ok (cert, priv)) =>
        (w, signer ← Sdk.NewCertSigner Cert cert_key (Some cert) priv; Ok (Sdk.cs_Sign _ signer data))
    end.

Definition Sign {W} (p : AccessProvider W) (proc : Process) (a : LunaAgent) (pub : option PublicKey)
    (data : list byte) (w : W) : W * result Signature :=
  signWithBinding p proc a pub data Sdk.noBinding w.

(** ** ConnectionAgent (session_bind.go)

    [bindMsg] is the anonymous structure of the extension. *)
Record bindMsg := mkBindMsg {
  m_HostPublicKey : list byte;
  m_SessionID : list byte;
  m_Signature : list byte;
  m_Forwarding : bool
}.

Context (unmarshal_bind : list byte -> option bindMsg).          (* ssh.Unmarshal at that type *)

Definition ErrExtensionUnsupported : error := ENew "agent" "agent: extension unsupported".

(** [append([]byte(nil), b...)]: nil for an empty slice. *)
Definition copy_slice (b : list byte) : Sdk.bslice := match b with [] => None | _ => Some b end.

(** The connection's new binding and the result. *)
Definition Extension (extensionType : string) (contents : list byte) (binding : Sdk.SessionBinding)
  : Sdk.SessionBinding * result unit :=
  if negb (extensionType =s sessionBindExtension) then (binding, Err ErrExtensionUnsupported) else
  match unmarshal_bind contents with
  | None => (binding, Err (errorf "invalid session binding"))
  | Some msg =>
  if m_Forwarding msg then (binding, Err (errorf "forwarded session binding is not allowed")) else
  match ParsePublicKey (m_HostPublicKey msg) with
  | None => (binding, Err (errorf "invalid session host key"))
  | Some hostKey =>
  match unmarshal_signature (m_Signature msg) with
  | None => (binding, Err (errorf "invalid session signature"))
  | Some sig =>
  if negb (pub_verify hostKey (m_SessionID msg) sig) then (binding, Err (errorf "verify session binding")) else
  (Sdk.mkSessionBinding (copy_slice (m_HostPublicKey msg)) (copy_slice (m_SessionID msg))
     (copy_slice (m_Signature msg)) false, Ok tt)
  end end end.

Definition SignWithFlags {W} (p : AccessProvider W) (proc : Process) (a : LunaAgent) (binding : Sdk.SessionBinding)
    (pub : option PublicKey) (data : list byte) (w : W) : W * result Signature :=
  signWithBinding p proc a pub data binding w.

(** ** The agent with its connections

    The connections are numbered in the order they are accepted; a step is one request of one of
    them. *)
Record System := mkSystem { parent : LunaAgent; conns : gmap nat Sdk.SessionBinding }.

Inductive step : System -> System -> Prop :=
| step_accept y i : conns y !! i = None -> step y (mkSystem (parent y) (<[i := Sdk.noBinding]> (conns y)))
| step_close y i : step y (mkSystem (parent y) (delete i (conns y)))
| step_extension y i b ty contents :
    conns y !! i = Some b -> step y (mkSystem (parent y) (<[i := (Extension ty contents b).1]> (conns y)))
| step_lock y i b pass : conns y !! i = Some b -> step y (mkSystem (Lock pass (parent y)) (conns y))
| step_unlock y i b pass : conns y !! i = Some b -> step y (mkSystem (Unlock pass (parent y)) (conns y)).

(** ** Identities (identities.go) *)

Definition loadHostedPublicKeyLine (fs : string -> option (list byte)) (pathOrLine : string) : result string :=
  let pathOrLine := TrimSpace pathOrLine in
  if pathOrLine =s "" then Ok "" else
  if HasPrefix pathOrLine "ssh-" then Ok pathOrLine else
  raw ← or_err (fs pathOrLine) (errorf "read hosted_public_key");
  Ok (TrimSpace (string_of raw)).

Definition parsePublicKeyLine (line : string) : result PublicKey :=
  if line =s "" then Err (errorf "empty public key") else
  match ParseAuthorizedKey (bytes_of line) with
  | Some pub => Ok pub
  | None => or_err (ParsePublicKey (bytes_of line)) (errorf "ssh: unmarshal error")
  end.

(** The line of one signer: its own, or the configured one where that is allowed. *)
Definition signer_line (filter : string) (single : bool) (fallbackLine : string) (fallbackPub : option PublicKey)
    (s : Sdk.LoadedSigner) : string :=
  let pubLine := TrimSpace (Sdk.ls_PublicKey s) in
  match fallbackPub with
  | Some fb =>
      if (pubLine =s "") && (negb (filter =s "") || single) &&
         ((filter =s "") || (normalizeFingerprintHint (Sdk.Fingerprint s) =s PublicKeyFingerprint fb))
      then fallbackLine else pubLine
  | None => pubLine
  end.

(** The loop over the signers: the keys and the number of signers without a public key. *)
Fixpoint collect_keys (filter : string) (single : bool) (fallbackLine : string) (fallbackPub : option PublicKey)
    (signers : list Sdk.LoadedSigner) (keys : list Key) (missing : Z) : result (list Key * Z) :=
  match signers with
  | [] => Ok (keys, missing)
  | s :: rest =>
      if negb (filter =s "") && negb (normalizeFingerprintHint (Sdk.Fingerprint s) =s filter)
      then collect_keys filter single fallbackLine fallbackPub rest keys missing else
      let pubLine := signer_line filter single fallbackLine fallbackPub s in
      if pubLine =s "" then collect_keys filter single fallbackLine fallbackPub rest keys (missing + 1) else
      match parsePublicKeyLine pubLine with
      | Err e => Err (Sdk.wrapf "parse loaded signer public key: " e)
      | Ok pub => collect_keys filter single fallbackLine fallbackPub rest (keys ++ [agentKeyFromPublic pub]) missing
      end
  end.

Definition resolveLocalKeyIdentities (fs : string -> option (list byte)) (caps : Sdk.Capabilities) (cfg : Config)
  : result (list Key) :=
  if Sdk.Sealed caps then Err (errorf "proxy keystore is sealed") else
  match Sdk.LoadedSigners caps with
  | [] => Err (errorf "no host signing keys loaded on proxy (use: luna-proxy key load)")
  | signers =>
      fallbackLine ← loadHostedPublicKeyLine fs (HostedPublicKey cfg);
      let fallbackPub := match parsePublicKeyLine fallbackLine with Ok k => Some k | Err _ => None end in
      let filter := normalizeFingerprintHint (HostKeyFingerprint cfg) in
      '(keys, missing) ← collect_keys filter (length signers =? 1)%nat fallbackLine fallbackPub signers [] 0;
      match keys with
      | [] => if 0 <? missing then Err (errorf "signers without public_key")
              else Err (errorf "no matching host signing keys (check host_key_fingerprint or hosted_public_key)")
      | _ => Ok keys
      end
  end.

(** A fresh key whose private half is dropped. *)
Definition resolveLocalCAIdentities (fresh : option Sdk.PrivateKey) : result (list Key) :=
  priv ← or_err fresh (errorf "generate ephemeral key");
  Ok [agentKeyFromPublic (Sdk.priv_public priv)].

(** [caps] is what [FetchCapabilities] returned and [clientMode] the client's [SignerMode()]. *)
Definition ResolveIdentities (fs : string -> option (list byte)) (fresh : option Sdk.PrivateKey)
    (caps : result Sdk.Capabilities) (clientMode : string) (cfg : Config) : result (list Key) :=
  match caps with
  | Err e => Err (Sdk.wrapf "fetch capabilities: " e)
  | Ok caps =>
      let mode := Sdk.cap_SignerMode caps in
      let mode := if mode =s "" then clientMode else mode in
      let mode := if mode =s "" then cfg_SignerMode cfg else mode in
      if mode =s SignerModeLocalKey then resolveLocalKeyIdentities fs caps cfg
      else resolveLocalCAIdentities fresh
  end.

(** ** What a connection's binding proves *)

Definition content (b : Sdk.bslice) : list byte := default [] b.

Definition verified (b : Sdk.SessionBinding) : Prop :=
  Sdk.Forwarding b = false /\ exists hostKey sig,
    ParsePublicKey (content (Sdk.HostPublicKey b)) = Some hostKey /\
    unmarshal_signature (content (Sdk.Signature b)) = Some sig /\
    pub_verify hostKey (content (Sdk.SessionID b)) sig = true.

Lemma content_copy l : content (copy_slice l) = l.
Proof. by destruct l. Qed.

(** An accepted extension replaces the binding by a verified one; a refused one keeps it. *)
Lemma Extension_cases ty contents b :
  (is_ok (Extension ty contents b).2 = false /\ (Extension ty contents b).1 = b) \/
  ((Extension ty contents b).2 = Ok tt /\ ty = sessionBindExtension /\ verified (Extension ty contents b).1).
Proof.
  unfold Extension. destruct (ty =s sessionBindExtension) eqn:Et; cbn [negb]; [|by left].
  destruct (unmarshal_bind contents) as [msg|]; [|by left]. destruct (m_Forwarding msg); [by left|].
  destruct (ParsePublicKey _) as [hk|] eqn:Ep; [|by left].
  destruct (unmarshal_signature _) as [sig|] eqn:Es; [|by left].
  destruct (pub_verify _ _ _) eqn:Ev; cbn [negb]; [|by left].
  right. str_prop. split; [done|]. split; [done|]. split; [done|]. exists hk, sig. cbn. by rewrite !content_copy.
Qed.

Definition binding_ok (b : Sdk.SessionBinding) : Prop := b = Sdk.noBinding \/ verified b.

Definition initial (a : LunaAgent) : System := mkSystem a ∅.

Lemma reachable_bindings a y : rtc step (initial a) y -> map_Forall (fun _ b => binding_ok b) (conns y).
Proof.
  intros Hr. apply (rtc_invariant step (fun y => map_Forall (fun _ b => binding_ok b) (conns y)) _ _) in Hr;
    [done| |apply map_Forall_empty].
  clear. intros y z Hs Hy. destruct Hs as [y i|y i|y i b ty ct Hb|y i b p Hb|y i b p Hb]; simpl; try done.
  - apply map_Forall_insert_2; [by left|done].
  - by apply map_Forall_delete.
  - apply map_Forall_insert_2; [|done].
    destruct (Extension_cases ty ct b) as [[_ ->]|(_ & _ & Hv)]; [by apply (Hy i)|by right].
Qed.

Lemma slice_len_pos b : Sdk.slice_len b <> 0 <-> content b <> [].
Proof. unfold Sdk.slice_len, content. destruct b as [[|x b]|]; simpl; split; try done; lia. Qed.

(** C23: in local-key mode the agent asks the proxy for a signature only on a connection over which
    OpenSSH proved its session: in every reachable state either the request fails without reaching
    the proxy, or the connection's own binding is complete, not forwarded, and carries the destination
    host key's signature over the session identifier, and exactly that binding is sent. *)
Theorem local_key_needs_session {W} (p : AccessProvider W) proc a y i b pub data w :
  rtc step (initial a) y -> conns y !! i = Some b -> sign_mode p (parent y) = SignerModeLocalKey ->
  (exists e, SignWithFlags p proc (parent y) b pub data w = (w, Err e)) \/
  (locked (parent y) = false /\ verified b /\
   content (Sdk.HostPublicKey b) <> [] /\ content (Sdk.SessionID b) <> [] /\ content (Sdk.Signature b) <> [] /\
   exists fp, (forall k, pub = Some k -> fp = PublicKeyFingerprint k) /\
     SignWithFlags p proc (parent y) b pub data w =
     p_RequestSignature p (approvalTimeout (parent y))
       (Sdk.mkSignatureRequest (targetUser (parent y)) (targetHost (parent y)) fp b None ""
          (DefaultClientInfo proc)) data w).
Proof.
  intros Hr Hb Hm. pose proof (reachable_bindings a y Hr i b Hb) as Hok.
  unfold SignWithFlags, signWithBinding. rewrite Hm, str_eqb_refl.
  destruct (locked (parent y)); [left; eauto|].
  destruct (_ || _) eqn:E; [left; eauto|]. right. bool_prop.
  rewrite <- !slice_len_pos. split_and!; try done.
  - destruct Hok as [->|Hv]; [done|done].
  - eexists. split; [|reflexivity]. by intros k ->.
Qed.

(** Requests of other connections do not change a connection's binding. *)
Lemma step_isolated y z i b :
  step y z -> conns y !! i = Some b ->
  conns z !! i = Some b \/ conns z !! i = None \/
  exists ty contents, conns z !! i = Some (Extension ty contents b).1.
Proof.
  intros Hs Hb. destruct Hs as [y j Hj|y j|y j b' ty ct Hj|y j b' p Hj|y j b' p Hj]; simpl; auto.
  - left. rewrite lookup_insert_ne; [done|]. congruence.
  - destruct (decide (i = j)) as [->|]; [right; left; apply lookup_delete_eq|left; by rewrite lookup_delete_ne].
  - destruct (decide (j = i)) as [->|]; [|left; by rewrite lookup_insert_ne].
    right; right. exists ty, ct. rewrite lookup_insert_eq. congruence.
Qed.

(** ** Locking *)

(** a locked agent offers nothing and signs nothing, on every connection and without reaching the
    proxy; locking changes nothing else.  Unlocking undoes it whatever passphrase either call gave:
    the agent keeps none and compares none. *)
Theorem lock_ignores_passphrase {W} (p : AccessProvider W) proc a pass pass' b pub data w :
  List (Lock pass a) = [] /\
  SignWithFlags p proc (Lock pass a) b pub data w = (w, Err (errorf "agent locked")) /\
  Unlock pass' (Lock pass a) = Unlock pass' a /\
  (locked a = false -> Unlock pass' (Lock pass a) = a).
Proof. split_and!; try done. destruct a. simpl. by intros ->. Qed.

(** ** Certificates *)

(** in the certificate mode the key OpenSSH asks for plays no part: the signature is made with the
    private key drawn for this request's certificate, whichever identity was offered and asked for, so
    it verifies under the certificate's key and not under the listed one. *)
Theorem local_ca_ignores_identity {W} (p : AccessProvider W) proc a pub pub' data b b' w w' sig :
  sign_mode p a <> SignerModeLocalKey ->
  signWithBinding p proc a pub data b w = signWithBinding p proc a pub' data b' w /\
  (signWithBinding p proc a pub data b w = (w', Ok sig) ->
   exists cert priv, p_RequestCertificate p (approvalTimeout a)
       (Sdk.mkCertRequest (targetUser a) (targetHost a) (DefaultClientInfo proc)) w = (w', Ok (cert, priv)) /\
     pub_marshal (cert_key cert) = pub_marshal (Sdk.priv_public priv) /\
     Blob sig = Sdk.ed25519_Sign priv data).
Proof.
  intros Hm. unfold signWithBinding. rewrite (proj2 (str_eqb_neq _ _) Hm). split; [done|].
  destruct (locked a); [done|].
  destruct (p_RequestCertificate _ _ _ _) as [w1 [[cert priv]|e]]; [|done].
  unfold Sdk.NewCertSigner. destruct (bool_decide _) eqn:Eb; [|done]. bool_prop. simpl.
  intros [= <- <-]. by exists cert, priv.
Qed.

(** ** The proxy's view of a binding *)

Definition wire_binding (b : Sdk.SessionBinding) : Bind.SessionBinding :=
  Bind.mkSessionBinding (Sdk.b64_slice (Sdk.HostPublicKey b)) (Sdk.b64_slice (Sdk.SessionID b))
    (Sdk.b64_slice (Sdk.Signature b)) (Sdk.Forwarding b).

Lemma required_slice b : content b <> [] -> Bind.decodeRequiredBase64 (Sdk.b64_slice b) = Ok (content b).
Proof.
  destruct b as [b|]; [|done]. simpl. intros Hb. unfold Bind.decodeRequiredBase64.
  pose proof (StdDecode_Encode b) as Hd. destruct (StdEncodeToString b =s "") eqn:E.
  { str_prop. rewrite E in Hd. vm_compute in Hd. congruence. }
  rewrite Hd. by destruct b.
Qed.

(** A complete verified binding passes the proxy's check of the binding, which leaves the data. *)
Lemma verified_passes_proxy `{Bind.SshWire} b data user expected :
  verified b -> content (Sdk.HostPublicKey b) <> [] -> content (Sdk.SessionID b) <> [] ->
  content (Sdk.Signature b) <> [] ->
  exists hostKey, ParsePublicKey (content (Sdk.HostPublicKey b)) = Some hostKey /\
    Bind.ValidateLocalKeySignData (wire_binding b) data user expected =
    (_ ← Bind.validateUserAuthSignData data (content (Sdk.SessionID b)) user expected hostKey;
     Ok (Bind.mkValidated (Fingerprint hostKey) (content (Sdk.SessionID b)))).
Proof.
  intros (Hf & hk & sig & Hp & Hs & Hv) H1' H2' H3'. exists hk. split; [done|].
  unfold Bind.ValidateLocalKeySignData, wire_binding.
  cbn [Bind.Forwarding Bind.HostPublicKey Bind.SessionID Bind.BindSignature].
  rewrite Hf, !required_slice by done. cbn [Bind.or_invalid mbind result_bind].
  rewrite Hp. cbn [or_err mbind result_bind]. rewrite Hs. cbn [or_err mbind result_bind]. by rewrite Hv.
Qed.

(** The fields of the extension's message as the proxy gets them. *)
Definition wire_message (msg : bindMsg) : Bind.SessionBinding :=
  Bind.mkSessionBinding (StdEncodeToString (m_HostPublicKey msg)) (StdEncodeToString (m_SessionID msg))
    (StdEncodeToString (m_Signature msg)) (m_Forwarding msg).

Definition complete (msg : bindMsg) : Prop := m_HostPublicKey msg <> [] /\ m_SessionID msg <> [] /\ m_Signature msg <> [].
#[global] Instance complete_dec msg : Decision (complete msg).
Proof. unfold complete. apply _. Defined.

Lemma b64_copy l : Sdk.b64_slice (copy_slice l) = StdEncodeToString l.
Proof. by destruct l. Qed.

Lemma required_ok l x : Bind.decodeRequiredBase64 (StdEncodeToString l) = Ok x -> x = l /\ l <> [].
Proof.
  unfold Bind.decodeRequiredBase64. destruct (_ =s ""); [done|]. rewrite StdDecode_Encode.
  destruct l; [done|]. by intros [= <-].
Qed.

(** A binding the proxy accepts, for whatever data, is complete and verifies. *)
Lemma proxy_accepts_message `{Bind.SshWire} msg data user expected v :
  Bind.ValidateLocalKeySignData (wire_message msg) data user expected = Ok v ->
  complete msg /\ m_Forwarding msg = false /\ exists hostKey sig, ParsePublicKey (m_HostPublicKey msg) = Some hostKey /\
    unmarshal_signature (m_Signature msg) = Some sig /\ pub_verify hostKey (m_SessionID msg) sig = true.
Proof.
  unfold Bind.ValidateLocalKeySignData, wire_message, Bind.or_invalid. cbn [Bind.Forwarding Bind.HostPublicKey Bind.SessionID Bind.BindSignature].
  destruct (m_Forwarding msg); [done|].
  destruct (Bind.decodeRequiredBase64 (StdEncodeToString (m_HostPublicKey msg))) as [x|] eqn:E1; [|done]. apply required_ok in E1 as [-> H1'].
  cbn [mbind result_bind]. destruct (ParsePublicKey _) as [hk|] eqn:Ep; [|done]. cbn [or_err mbind result_bind].
  destruct (Bind.decodeRequiredBase64 (StdEncodeToString (m_SessionID msg))) as [x|] eqn:E2; [|done]. apply required_ok in E2 as [-> H2'].
  destruct (Bind.decodeRequiredBase64 (StdEncodeToString (m_Signature msg))) as [x|] eqn:E3; [|done]. apply required_ok in E3 as [-> H3'].
  cbn [mbind result_bind]. destruct (unmarshal_signature _) as [sig|] eqn:Es; [|done]. cbn [or_err mbind result_bind].
  destruct (pub_verify _ _ _) eqn:Ev; [|done]. intros _. split; [done|]. split; [done|]. by exists hk, sig.
Qed.

Lemma Extension_message contents msg b : unmarshal_bind contents = Some msg ->
  ((Extension sessionBindExtension contents b).2 = Ok tt <->
   m_Forwarding msg = false /\ exists hostKey sig, ParsePublicKey (m_HostPublicKey msg) = Some hostKey /\
     unmarshal_signature (m_Signature msg) = Some sig /\ pub_verify hostKey (m_SessionID msg) sig = true) /\
  ((Extension sessionBindExtension contents b).2 = Ok tt ->
   (Extension sessionBindExtension contents b).1 =
     Sdk.mkSessionBinding (copy_slice (m_HostPublicKey msg)) (copy_slice (m_SessionID msg)) (copy_slice (m_Signature msg)) false).
Proof.
  intros Hm. unfold Extension. rewrite Hm. cbn [negb str_eqb]. change (sessionBindExtension =s sessionBindExtension) with true. cbn [negb].
  destruct (m_Forwarding msg); [naive_solver|]. destruct (ParsePublicKey _) as [hk|]; cbn [fst snd]; [|naive_solver].
  destruct (unmarshal_signature _) as [sig|]; cbn [fst snd]; [|naive_solver]. destruct (pub_verify hk _ sig) eqn:Ev; cbn [negb fst snd];
    [|split; [split; [done|]; intros (_ & hk' & sig' & [= <-] & [= <-] & Hx); congruence|done]].
  split; [|done]. split; [|done]. intros _. split; [done|]. by exists hk, sig.
Qed.

(** C24: the agent's check of a session-bind message and the proxy's check of what the agent makes of
    it agree.  Whatever message the proxy would accept as a binding, the agent accepts, and it keeps
    exactly the fields of the message for the proxy.  Of a message the agent accepts, the proxy's
    verdict on a signing request is exactly its verdict on the data, which must be a
    user-authentication request of that session for the user and hosted key; only if a field of the
    message is empty, which the agent lets through, does the proxy refuse the binding itself. *)
Theorem agent_binding_passes_proxy `{Bind.SshWire} contents msg b b' res : unmarshal_bind contents = Some msg ->
  Extension sessionBindExtension contents b = (b', res) ->
  (forall data user expected v, Bind.ValidateLocalKeySignData (wire_message msg) data user expected = Ok v -> res = Ok tt) /\
  (res = Ok tt -> wire_binding b' = wire_message msg /\
     exists hostKey, ParsePublicKey (m_HostPublicKey msg) = Some hostKey /\ forall data user expected,
       if decide (complete msg)
       then Bind.ValidateLocalKeySignData (wire_binding b') data user expected =
            (_ ← Bind.validateUserAuthSignData data (m_SessionID msg) user expected hostKey;
             Ok (Bind.mkValidated (Fingerprint hostKey) (m_SessionID msg)))
       else is_ok (Bind.ValidateLocalKeySignData (wire_binding b') data user expected) = false).
Proof.
  intros Hm He. destruct (Extension_message contents msg b Hm) as [Hiff Hb]. rewrite He in Hiff, Hb. cbn [fst snd] in Hiff, Hb.
  split; [intros data user expected v Hv; apply Hiff; by eapply proxy_accepts_message|].
  intros Hok. specialize (Hb Hok). apply Hiff in Hok as (Hf & hk & sig & Hp & Hs & Hv).
  assert (Hw : wire_binding b' = wire_message msg) by (unfold wire_binding, wire_message; rewrite Hb, Hf; cbn; by rewrite !b64_copy).
  split; [done|]. exists hk. split; [done|]. intros data user expected. destruct (decide (complete msg)) as [(H1' & H2' & H3')|Hn].
  - destruct (verified_passes_proxy b' data user expected) as (hk' & Hp' & E); rewrite Hb in *; cbn in *; rewrite ?content_copy in *; try done.
    + split; [done|]. exists hk, sig. cbn. by rewrite !content_copy.
    + by simplify_eq.
  - rewrite Hw. destruct (Bind.ValidateLocalKeySignData _ _ _ _) as [v|] eqn:E; [|done]. by apply proxy_accepts_message in E as [? _].
Qed.

(** ** Identities and the keys of the proxy *)

(** Capabilities that report the keystore. *)
Definition reports (ks : Ks.Keystore) (order : list (string * Ks.loadedSigner)) (caps : Sdk.Capabilities) : Prop :=
  Sdk.Sealed caps = negb (Ks.Available ks) /\
  Sdk.LoadedSigners caps =
    map (fun i => Sdk.mkLoadedSigner (Ks.si_Fingerprint i) (Ks.si_PublicKey i) (Ks.si_Comment i))
      (if Ks.Available ks then Ks.ListSigners ks order else []).

(** The line of a key reads back, its final newline cut off. *)
Definition line_ok (pub : PublicKey) : Prop :=
  TrimSpace (string_of (MarshalAuthorizedKey pub)) <> "" /\
  ParseAuthorizedKey (bytes_of (TrimSpace (string_of (MarshalAuthorizedKey pub)))) = Some pub.

(** A key of the pool that the filter lets through. *)
Definition hosted (ks : Ks.Keystore) (filter : string) (pub : PublicKey) : Prop :=
  (filter = "" \/ Fingerprint pub = filter) /\ exists p fp e,
    Ks.pool ks = Some p /\ Ks.signers p !! fp = Some e /\ pub = signer_pub (Ks.signer e).

Lemma collect_keys_app filter single fl fp signers keys missing :
  collect_keys filter single fl fp signers keys missing =
  ('(ks, m) ← collect_keys filter single fl fp signers [] missing; Ok (keys ++ ks, m)).
Proof.
  revert keys missing. induction signers as [|x rest IH]; intros keys missing; simpl; [by rewrite app_nil_r|].
  destruct (_ && _); [apply IH|]. destruct (_ =s ""); [apply IH|].
  destruct (parsePublicKeyLine _) as [pub|]; [|done]. rewrite IH, (IH [agentKeyFromPublic pub]).
  destruct (collect_keys _ _ _ _ rest [] missing) as [[ks m]|]; [|done]. simpl. by rewrite <- app_assoc.
Qed.

Definition sdk_info (kv : string * Ks.loadedSigner) : Sdk.LoadedSigner :=
  let i := Ks.info_of kv in Sdk.mkLoadedSigner (Ks.si_Fingerprint i) (Ks.si_PublicKey i) (Ks.si_Comment i).

Lemma collect_keys_pool filter single fl fp order m keys missing :
  Forall (fun kv => kv.1 = Fingerprint (signer_pub (Ks.signer kv.2)) /\ line_ok (signer_pub (Ks.signer kv.2))) order ->
  collect_keys filter single fl fp (map sdk_info order) [] m = Ok (keys, missing) ->
  missing = m /\
  keys = map (fun kv => agentKeyFromPublic (signer_pub (Ks.signer kv.2)))
           (List.filter (fun kv => (filter =s "") || (kv.1 =s filter)) order).
Proof.
  intros Hall. revert keys missing. induction Hall as [|[f e] order [Hf [Hne Hp]] _ IH]; intros keys missing; simpl.
  { by intros [= <- <-]. }
  simpl in Hf, Hne, Hp.
  assert (Hn : normalizeFingerprintHint f = f).
  { subst f. pose proof (Normalize_Fingerprint (signer_pub (Ks.signer e)) false) as Hn. exact Hn. }
  rewrite Hn. destruct ((filter =s "") || (f =s filter)) eqn:Ef.
  - replace (negb (filter =s "") && negb (f =s filter)) with false
      by (by destruct (filter =s ""), (f =s filter)).
    unfold signer_line. cbn [Sdk.ls_PublicKey sdk_info Ks.info_of Ks.si_PublicKey snd].
    apply str_eqb_neq in Hne. rewrite Hne. cbn [andb].
    replace (match fp with Some _ => _ | None => _ end) with (TrimSpace (string_of (MarshalAuthorizedKey (signer_pub (Ks.signer e)))))
      by (by destruct fp).
    rewrite Hne. unfold parsePublicKeyLine. rewrite Hne, Hp. rewrite collect_keys_app.
    destruct (collect_keys _ _ _ _ (map sdk_info order) [] m) as [[ks m']|]; [|done]. intros [= <- <-].
    by destruct (IH ks m' eq_refl) as [-> ->].
  - replace (negb (filter =s "") && negb (f =s filter)) with true
      by (by destruct (filter =s ""), (f =s filter)).
    apply IH.
Qed.

Lemma resolve_own_fingerprint `{!HashLaws} pub :
  Ks.ResolveHostKeyFingerprint "" (PublicKeyFingerprint pub) = Ok (Fingerprint pub).
Proof.
  unfold Ks.ResolveHostKeyFingerprint. change (PublicKeyFingerprint pub) with (Fingerprint pub).
  assert (Hn : NormalizeFingerprintInput (Fingerprint pub) = Fingerprint pub)
    by exact (Normalize_Fingerprint pub false).
  rewrite Hn. change (negb ("" =s "")) with false. cbv iota.
  pose proof (ParseFingerprintHint_Fingerprint pub) as Hp.
  destruct (Fingerprint pub =s "") eqn:E; [|exact Hp].
  str_prop. by rewrite E in Hp.
Qed.

Lemma reported_order_wf ks p order :
  Ks.wf ks -> Ks.mode ks = Ks.ModeLocalKey -> Ks.pool ks = Some p -> iteration_of (Ks.signers p) order ->
  (forall fp e, Ks.signers p !! fp = Some e -> line_ok (signer_pub (Ks.signer e))) ->
  Forall (fun kv => kv.1 = Fingerprint (signer_pub (Ks.signer kv.2)) /\ line_ok (signer_pub (Ks.signer kv.2))) order.
Proof.
  intros (_ & _ & Hwf) Hm Hp Ho Hl. rewrite Hm, Hp in Hwf. destruct Hwf as (_ & p' & [= <-] & Hwf).
  apply Forall_forall. intros [fp e] Hin. apply (iteration_elem _ _ _ _ Ho) in Hin. simpl. eauto.
Qed.

Lemma PublicKeyForFingerprint_pool ks p e pub :
  Ks.mode ks = Ks.ModeLocalKey -> Ks.pool ks = Some p -> Ks.signers p !! Fingerprint pub = Some e ->
  signer_pub (Ks.signer e) = pub -> Ks.PublicKeyForFingerprint ks (Fingerprint pub) = Ok pub.
Proof.
  intros Hm Hp He Hpub. unfold Ks.PublicKeyForFingerprint. rewrite (Ks.SignerForFingerprint_pool ks p) by done.
  assert (Hn : NormalizeFingerprintInput (Fingerprint pub) = Fingerprint pub)
    by exact (Normalize_Fingerprint pub false).
  rewrite Hn, He. simpl. by rewrite Hpub.
Qed.

(** every identity the agent offers in local-key mode is a key the proxy hosts: from capabilities
    that report a keystore, the agent's keys are exactly the hosted ones that match the configured
    fingerprint (all without one), and the fingerprint the agent sends when asked to sign with one of
    them resolves at the proxy to that very key. *)
Theorem offered_identities_resolve `{!HashLaws} ks p order caps cfg fs fresh mode keys :
  Ks.reachable Ks.ModeLocalKey ks -> Ks.pool ks = Some p -> iteration_of (Ks.signers p) order ->
  reports ks order caps -> Sdk.cap_SignerMode caps = SignerModeLocalKey ->
  (forall fp e, Ks.signers p !! fp = Some e -> line_ok (signer_pub (Ks.signer e))) ->
  ResolveIdentities fs fresh (Ok caps) mode cfg = Ok keys ->
  let filter := normalizeFingerprintHint (HostKeyFingerprint cfg) in
  keys <> [] /\
  (forall fp e, Ks.signers p !! fp = Some e -> filter = "" \/ fp = filter ->
     agentKeyFromPublic (signer_pub (Ks.signer e)) ∈ keys) /\
  forall k, k ∈ keys -> exists pub, k = agentKeyFromPublic pub /\ (filter = "" \/ Fingerprint pub = filter) /\
    Ks.ResolveHostKeyFingerprint "" (PublicKeyFingerprint pub) = Ok (Fingerprint pub) /\
    Ks.PublicKeyForFingerprint ks (Fingerprint pub) = Ok pub.
Proof.
  intros Hr Hp Ho [Hse Hls] Hm Hlines Hres filter.
  pose proof (Ks.reachable_mode _ _ Hr) as Hmode.
  pose proof (reported_order_wf _ _ _ (Ks.ks_reachable_wf _ _ Hr) Hmode Hp Ho Hlines) as Hall.
  unfold ResolveIdentities in Hres. rewrite Hm in Hres. cbn in Hres. unfold resolveLocalKeyIdentities in Hres.
  destruct (Ks.Available ks); rewrite Hse in Hres; cbn [negb] in Hres; [|done].
  unfold Ks.ListSigners in Hls. rewrite Hmode, Hp in Hls. unfold Ks.pool_List in Hls. rewrite map_map in Hls.
  change (map _ order) with (map sdk_info order) in Hls. rewrite Hls in Hres.
  destruct (map sdk_info order) as [|x l] eqn:El; [done|]. rewrite <- El in Hres.
  destruct (loadHostedPublicKeyLine _ _) as [fl|]; [|done]. cbn [mbind result_bind] in Hres.
  destruct (collect_keys _ _ _ _ _ _ _) as [[ks' missing]|] eqn:Ec; [|done].
  apply collect_keys_pool in Ec as [-> ->]; [|done]. fold filter in Hres. cbn [mbind result_bind] in Hres.
  set (sel := List.filter _ order) in Hres.
  assert (Hk : keys = map (fun kv => agentKeyFromPublic (signer_pub (Ks.signer kv.2))) sel /\ keys <> []).
  { destruct (map _ sel) eqn:E; [done|]. change (Ok (k :: l0) = Ok keys) in Hres. by simplify_eq. }
  destruct Hk as [Hk Hne]. split; [done|]. split.
  - intros fp e He Hf. subst keys. apply list_elem_of_fmap. exists (fp, e). split; [done|].
    apply list_elem_of_In, filter_In. split; [by apply list_elem_of_In, (iteration_elem _ _ _ _ Ho)|].
    simpl. destruct Hf as [->| ->]; [done|]. by rewrite str_eqb_refl, orb_true_r.
  - intros k Hin. subst keys. apply list_elem_of_fmap in Hin as ([fp e] & -> & Hin).
    apply list_elem_of_In, filter_In in Hin as [Hin Hf]. simpl in Hf |- *.
    apply list_elem_of_In in Hin. pose proof (proj1 (Forall_forall _ _) Hall _ Hin) as [Hfp _]. simpl in Hfp.
    apply (iteration_elem _ _ _ _ Ho) in Hin. exists (signer_pub (Ks.signer e)). subst fp.
    split_and!; [done| |apply resolve_own_fingerprint|by eapply PublicKeyForFingerprint_pool].
    apply orb_true_iff in Hf as [Hf|Hf]; apply str_eqb_eq in Hf; auto.
Qed.

End agent.

Arguments mkProvider {_ Cert W} _ _ _.
Arguments p_SignerMode {_ Cert W} _.
Arguments p_RequestCertificate {_ Cert W} _ _ _ _.
Arguments p_RequestSignature {_ Cert W} _ _ _ _ _.

(** ** A concrete agent *)
Module AgentDemo.
Import Demo Bind.WireDemo.

Definition demo_unmarshal (l : list byte) : option bindMsg :=
  '(key, l) ← get_string l; '(sid, l) ← get_string l; '(sig, l) ← get_string l; '(fwd, l) ← get_byte l;
  if decide (l = []) then Some (mkBindMsg key sid sig (negb (byte_val fwd =? 0))) else None.

Definition demo_message : list byte :=
  put_string Bind.demo_host ++ put_string Bind.demo_sid ++ put_string (Bind.demo_host ++ Bind.demo_sid) ++ [Byte.x00].
Definition demo_bound : Sdk.SessionBinding :=
  (Extension demo_unmarshal sessionBindExtension demo_message Sdk.noBinding).1.

Definition demo_priv : Sdk.PrivateKey :=
  Sdk.mkPrivateKey (bytes_of "fresh" : PublicKey) (fun m => bytes_of "fresh" ++ m).

(** A provider that counts its calls. *)
Definition demo_provider (mode : string) : AccessProvider (list byte) nat :=
  mkProvider mode (fun _ _ w => (S w, Ok (bytes_of "fresh", demo_priv)))
    (fun _ req data w => (S w, Ok (mkSignature "ssh-ed25519" data))).
Definition demo_process : Process := mkProcess "root" (Some "alice") "1.0".
Definition demo_agent : LunaAgent := NewLunaAgent SignerModeLocalKey "root" "10.0.0.7" "" [] 0.
Definition demo_accepted : System := mkSystem demo_agent (<[0%nat := Sdk.noBinding]> ∅).
Definition demo_system : System := mkSystem demo_agent (<[0%nat := demo_bound]> (conns demo_accepted)).

Lemma demo_agent_reachable : rtc (step demo_unmarshal) (initial demo_agent) demo_system.
Proof.
  eapply rtc_l; [apply (step_accept _ _ 0%nat); apply lookup_empty|].
  apply rtc_once. apply (step_extension _ demo_accepted 0%nat Sdk.noBinding sessionBindExtension demo_message).
  apply lookup_insert_eq.
Qed.

Lemma local_key_needs_session_witness :
  conns demo_system !! 0%nat = Some demo_bound /\
  ((exists e, SignWithFlags _ id (demo_provider SignerModeLocalKey) demo_process demo_agent demo_bound None [] 0%nat = (0%nat, Err e)) \/
   verified demo_bound).
Proof.
  split; [apply lookup_insert_eq|].
  destruct (local_key_needs_session (H := demo_hash) (H0 := demo_ssh) (list byte) id demo_unmarshal
    (demo_provider SignerModeLocalKey) demo_process demo_agent demo_system 0%nat demo_bound None [] 0%nat demo_agent_reachable
    (lookup_insert_eq _ _ _) eq_refl) as [He|(_ & Hv & _)]; [left; exact He|right; exact Hv].
Defined.

Lemma local_ca_ignores_identity_witness :
  exists cert priv, Blob (mkSignature "ssh-ed25519" (bytes_of "fresh" ++ [Byte.x01])) = Sdk.ed25519_Sign priv [Byte.x01] /\
    pub_marshal (cert : PublicKey) = pub_marshal (Sdk.priv_public priv).
Proof.
  destruct (local_ca_ignores_identity (H0 := demo_ssh) (list byte) id (demo_provider SignerModeLocalCA)
    demo_process demo_agent None (Some (bytes_of "listed")) [Byte.x01] Sdk.noBinding demo_bound 0%nat 1%nat
    (mkSignature "ssh-ed25519" (bytes_of "fresh" ++ [Byte.x01])) ltac:(discriminate)) as [_ Hs].
  destruct (Hs eq_refl) as (cert & priv & _ & Hk & Hb). exists cert, priv. split; [exact Hb|exact Hk].
Defined.

Lemma agent_binding_passes_proxy_witness :
  Bind.ValidateLocalKeySignData (wire_binding demo_bound) Bind.demo_request "root" (Some Bind.demo_key)
  = Ok Bind.demo_validated.
Proof.
  destruct (demo_unmarshal demo_message) as [msg|] eqn:Em; [|vm_compute in Em; discriminate Em].
  destruct (agent_binding_passes_proxy (H := demo_hash) (H0 := demo_ssh) demo_unmarshal demo_message msg Sdk.noBinding demo_bound (Ok tt) Em)
    as [_ Hx]; [vm_compute; reflexivity|].
  destruct (Hx eq_refl) as (_ & hk & Hk & E). specialize (E Bind.demo_request "root" (Some Bind.demo_key)).
  vm_compute in Em. injection Em as <-. rewrite decide_True in E by (repeat split; discriminate).
  rewrite E. vm_compute in Hk. injection Hk as <-. vm_compute. reflexivity.
Defined.

Definition demo_caps : Sdk.Capabilities :=
  Sdk.mkCapabilities SignerModeLocalKey true [] false [Sdk.mkLoadedSigner Ks.demo_fp "host-key" "web"].
Definition demo_config : Config := mkConfig "https://proxy" "" "" "" "root" "10.0.0.7" "" "" 0 "" "".
Definition demo_entry : Ks.loadedSigner := Ks.mkLoaded (bytes_of "host-key" : Signer) "web".
Definition demo_pool : Ks.LocalKeyPool := Ks.mkPool {[Ks.demo_fp := demo_entry]}.

Lemma demo_loaded_pool : Ks.pool Ks.demo_loaded = Some demo_pool.
Proof. vm_cast_no_check (eq_refl (Some demo_pool)). Qed.
Lemma demo_reports : reports Ks.demo_loaded [(Ks.demo_fp, demo_entry)] demo_caps.
Proof. split; [vm_cast_no_check (eq_refl false)|vm_cast_no_check (eq_refl (Sdk.LoadedSigners demo_caps))]. Qed.

Lemma offered_identities_resolve_witness :
  Ks.PublicKeyForFingerprint Ks.demo_loaded Ks.demo_fp = Ok (bytes_of "host-key" : PublicKey).
Proof.
  destruct (offered_identities_resolve (H := demo_hash) (H0 := demo_ssh) Ks.demo_loaded demo_pool [(Ks.demo_fp, demo_entry)] demo_caps demo_config
    (fun _ => None) None "" [agentKeyFromPublic (H0 := demo_ssh) (bytes_of "host-key")]) as (_ & _ & Hk).
  - apply rtc_once. apply (Ks.step_load (fun _ => true) 0 0 (Ks.NewWithMode Ks.ModeLocalKey) Ks.demo_pem "pw" "web").
  - exact demo_loaded_pool.
  - unfold iteration_of. simpl. by rewrite map_to_list_singleton.
  - exact demo_reports.
  - reflexivity.
  - intros fp e He. unfold demo_pool in He. cbn [Ks.signers] in He. apply lookup_singleton_Some in He as [_ <-]. split; [|vm_compute; reflexivity]. by vm_compute.
  - vm_compute. reflexivity.
  - destruct (Hk _ (list_elem_of_here _ _)) as (pub & Hp & _ & _ & Hl). injection Hp as <-. exact Hl.
Defined.

End AgentDemo.
End Agent.
