(* ===== verification/SdkProxy.v ===== *)
(** * The client SDK against the proxy

    A network whose other end is the proxy's own route table: a request reaches [Api.serve], and its
    response is encoded and decoded as the two sides do it.  The proxy may be slow, drop a request or
    lose a reply.  Shown here: the proxy accepts what the SDK sends, and what the SDK's single retry
    does when only the reply was lost. *)

From Stdlib Require Import Ascii.
From S2P Require Import Prelude GoTime GoStrings GoEncoding GoUtf8 GoJson GoFormat External Fingerprint LeaseStore ReplayCache SessionBinding AuthPipeline Keystore Pending Signing Config Approval Telegram Devices Csr Http Api Control GoNet Wire Sdk.

Module SdkProxy.
Import Json.
#[local] Existing Instance Wire.go_json.

Section network.
Context `{HashLib, SshLib, !Sign.CertIssuer Ks.Keystore, Bind.SshWire, Csr.X509Lib, Http.EdLib}.

(** ** The proxy as a network

    What happens to the next request: it is served and answered, it is served but the answer is lost
    with an error, or it does not arrive.  [during] and [wake] are what a blocked wait sees. *)
Inductive delivery :=
| Deliver (env : Api.Env) (during : Appr.Store -> Appr.Store) (w : Api.wake)
| LoseReply (env : Api.Env) (e : error)
| DropRequest (e : error).

Record World := mkWorld { srv : Api.server; script : list delivery }.

(** The client's side of the connections: the proxy's base URL, the TLS connection (both ends export
    the same keying material), the certificate it presents and its address. *)
Context (base : string) (link : Conn) (certs : list Certificate) (remote : string).

Definition header_of (q : HttpRequest) (h : string) : string :=
  match List.find (fun kv => kv.1 =s h) (Headers q) with Some kv => kv.2 | None => "" end.

(** [ServeMux] with the patterns the clients use. *)
Definition wait_path (path : string) : option string :=
  let rest := TrimPrefix path "/api/v1/ssh/sign/" in
  if HasPrefix path "/api/v1/ssh/sign/" && HasSuffix rest "/wait"
  then Some (string_of (take (length (bytes_of rest) - 5) (bytes_of rest))) else None.

Definition route_of (q : HttpRequest) (during : Appr.Store -> Appr.Store) (w : Api.wake)
  : option (Api.route * string) :=
  let path := TrimPrefix (Url q) base in
  if (Method q =s "POST") && (path =s "/api/v1/ssh/sign") then Some (Api.RSign, "")
  else if (Method q =s "GET") && (path =s "/api/v1/capabilities") then Some (Api.RCapabilities, "")
  else if (Method q =s "POST") && (path =s "/api/v1/cli/keys/load") then Some (Api.RCliKeysLoad, "")
  else if (Method q =s "POST") && (path =s "/api/v1/cli/enroll") then Some (Api.RCliEnroll, "")
  else if (Method q =s "GET") && (path =s "/api/v1/mtls/ca") then Some (Api.RMtlsCA, "")
  else if (Method q =s "POST") && (path =s "/api/v1/mtls/enroll") then Some (Api.RMtlsEnroll, "")
  else if (Method q =s "GET") && (path =s "/healthz") then Some (Api.RHealthz, "")
  else if Method q =s "GET" then id ← wait_path path; Some (Api.RWait during w, id)
  else None.

Definition server_request (c : option Conn) (q : HttpRequest) (pathValue : string) : Http.Request :=
  Http.mkRequest (Some certs) c remote (Body q) false (header_of q) (fun _ => pathValue).

Definition refused : error := errorf "connection refused".

(** A request that arrives: the proxy afterwards and its answer, if it gives one. *)
Definition arrive (env : Api.Env) (during : Appr.Store -> Appr.Store) (wk : Api.wake) (c : option Conn)
    (q : HttpRequest) (s : Api.server) : option (Api.server * HttpResponse) :=
  match route_of q during wk with
  | None => Some (s, mkHttpResponse Http.StatusNotFound [])
  | Some (rt, pv) =>
      '(s, resp, _) ← Api.serve env s rt (server_request c q pv);
      Some (s, mkHttpResponse (Http.status resp) (Wire.content_bytes (Http.payload resp)))
  end.

(** One exchange. *)
Definition exchange (c : option Conn) (q : HttpRequest) (w : World) : World * result HttpResponse :=
  match script w with
  | [] => (w, Err refused)
  | DropRequest e :: rest => (mkWorld (srv w) rest, Err e)
  | LoseReply env e :: rest =>
      match arrive env id Api.WakeResult c q (srv w) with
      | Some (s, _) => (mkWorld s rest, Err e)
      | None => (mkWorld (srv w) rest, Err e)
      end
  | Deliver env during wk :: rest =>
      match arrive env during wk c q (srv w) with
      | Some (s, resp) => (mkWorld s rest, Ok resp)
      | None => (mkWorld (srv w) rest, Err (errorf "timeout"))
      end
  end.

Definition proxy_net : Net World := mkNet
  (fun _ _ w => (w, Ok link))
  (fun c q w => exchange (Some c) q w)
  (fun _ q w => exchange (Some link) q w).

(** ** A signing request that arrives *)

(** What the SDK put into a request it signed with [priv]. *)
Definition signed_by (priv : Sdk.PrivateKey) (q : Sdk.Request) : Prop :=
  Sdk.r_PublicKey q = string_of (MarshalAuthorizedKey (Sdk.priv_public priv)) /\
  Sdk.r_PopSignature q = Sdk.signPoP priv (Sdk.r_TargetUser q) (Sdk.r_TargetIP q) (Sdk.r_Timestamp q).

(** The private key belongs to its public key, whose authorized-keys line reads back. *)
Definition key_ok (priv : Sdk.PrivateKey) : Prop :=
  (forall m, pub_verify (Sdk.priv_public priv) m
     (mkSignature (pub_type (Sdk.priv_public priv)) (Sdk.ed25519_Sign priv m)) = true) /\
  ParseAuthorizedKey (MarshalAuthorizedKey (Sdk.priv_public priv)) = Some (Sdk.priv_public priv).

Definition clean_request (q : Sdk.Request) : Prop :=
  Auth.clean (Sdk.r_TargetUser q) /\ Auth.clean (Sdk.r_TargetIP q) /\
  Auth.clean_meta (Auth.NormalizeSignClientMeta (Sdk.r_SourceUser q) (Sdk.r_ClientName q) (Sdk.r_ClientVersion q)).

(** The proxy's clock is within 30 s of the request's and the body has not been seen. *)
Definition timely (env : Api.Env) (s : Api.server) (q : Sdk.Request) : Prop :=
  0 <= Unix (Api.tick env Api.TAuth) < 2 ^ 62 /\
  Auth.in_window (Sdk.r_Timestamp q) (Api.tick env Api.TAuth) 30 /\
  (Replay.AddIfNew (Api.tick env Api.TReplay) (Api.replay s) (sha256 (Sdk.marshal_request q))).2 = true.

Lemma pop_valid_sdk priv q mac :
  key_ok priv -> signed_by priv q -> Auth.pop_valid (Api.set_BodyMAC mac (Sdk.proxy_view q)).
Proof.
  intros [Hv Hp] [Hk Hs]. exists (Sdk.priv_public priv).
  exists (Sdk.ed25519_Sign priv (Auth.popChallenge (Sdk.r_TargetUser q) (Sdk.r_TargetIP q) (Sdk.r_Timestamp q))).
  unfold Api.set_BodyMAC, Sdk.proxy_view.
  cbn [Auth.req_PublicKey Auth.PopSignature Auth.TargetUser Auth.TargetIP Auth.Timestamp].
  rewrite Hk, Hs, bytes_of_string_of. split_and!; [done| |apply Hv]. apply HexDecode_Encode.
Qed.

Lemma mac_valid_sdk c body mac :
  Sdk.ComputeBodyHMAC c body = Ok mac -> Auth.mac_valid c body (Sdk.FormatMACHeader mac).
Proof.
  unfold Sdk.ComputeBodyHMAC, Auth.mac_valid. intros Hm. inv_ok. exists a. split; [done|apply HexDecode_Encode].
Qed.

(** The authentication pipeline accepts what the SDK signed. *)
Lemma pipeline_accepts c env s priv q mac :
  key_ok priv -> signed_by priv q -> Sdk.valid_request q -> clean_request q -> timely env s q ->
  Sdk.ComputeBodyHMAC c (Sdk.marshal_request q) = Ok mac ->
  exists rp, Auth.ValidateSignRequest c (Sdk.marshal_request q)
    (Api.set_BodyMAC (Sdk.FormatMACHeader mac) (Sdk.proxy_view q)) (Api.tick env Api.TAuth)
    (Api.tick env Api.TReplay) (Api.replay s) = (rp, Ok tt).
Proof.
  intros Hk Hs Hv (Hcu & Hci & Hcm) (Hn & Hw & Hr) Hm.
  destruct (Replay.AddIfNew _ _ _) as [rp new] eqn:Ea. simpl in Hr. subst new. exists rp.
  apply Auth.ValidateSignRequest_ok. split_and!; try done.
  - by apply mac_valid_sdk.
  - apply Auth.ValidateTimestampAt_ok; unfold Auth.timestampWindowSec, max_int64; try lia; [apply Hv|by left].
  - by eapply pop_valid_sdk.
Qed.

(** The signer's part of [handleSign] agrees: hosted-key data where the mode needs it, a resolvable
    hosted key and a destination that validates. *)
Definition signer_accepts (env : Api.Env) (s : Api.server) (req : Auth.SignRequest)
    (hostFP dest : string) (meta : Appr.ClientMeta) (allow : bool) : Prop :=
  Ks.Available (Api.keystore s) = true /\
  (Cfg.SignerMode (Api.cfg s) = Appr.SignerModeLocalKey -> Auth.AgentSignData req <> "") /\
  len (Auth.AgentSignData req) <= Api.maxAgentSignDataB64 /\
  Api.resolveHostKeyFingerprint env s req = Ok hostFP /\
  Api.bindDestination s req hostFP (Api.signClientMeta req) = inr (dest, meta, allow).

Lemma handleSign_opens env s r req c rp hostFP dest meta allow :
  Api.sign_body r req -> Http.conn r = Some c ->
  Auth.ValidateSignRequest c (Http.body r) req (Api.tick env Api.TAuth) (Api.tick env Api.TReplay) (Api.replay s)
    = (rp, Ok tt) ->
  signer_accepts env s req hostFP dest meta allow ->
  exists log, Api.handleSign env s r =
    Api.openTransaction env (Api.with_replay s rp) req (Http.clientIPFromRemoteAddr (Http.RemoteAddr r))
      (Http.clientCertFPFromRequest r) hostFP dest meta allow log.
Proof.
  intros (Hlen & Hbf & Hj) Hc Hv (Ha & Hd & Hl & Hr & Hb). unfold Api.handleSign, Http.ReadAll.
  rewrite (proj2 (Z.ltb_ge _ _)), Hbf by done.
  destruct (Http.json_SignRequest (Http.body r)) as [req0|]; [|done]. simpl in Hj. injection Hj as Hj.
  rewrite Hj, Hc, Hv. cbn [Api.keystore Api.with_replay Api.cfg]. rewrite Ha. cbn [negb].
  replace ((Cfg.SignerMode (Api.cfg s) =s Appr.SignerModeLocalKey) && (Auth.AgentSignData req =s "")) with false.
  2: { symmetry. destruct (_ =s Appr.SignerModeLocalKey) eqn:E; [|done]. str_prop.
       by apply str_eqb_neq, Hd. }
  rewrite (proj2 (Z.ltb_ge _ _)) by done.
  change (Api.resolveHostKeyFingerprint env (Api.with_replay s rp) req)
    with (Api.resolveHostKeyFingerprint env s req). rewrite Hr.
  change (Api.bindDestination (Api.with_replay s rp) req hostFP (Api.signClientMeta req))
    with (Api.bindDestination s req hostFP (Api.signClientMeta req)). rewrite Hb. by eexists.
Qed.

(** A network request of [postSign], as the proxy sees it. *)
Lemma route_of_sign c mac body during wk :
  Sdk.proxyURL c = base -> route_of (Sdk.sign_post c mac body) during wk = Some (Api.RSign, "").
Proof.
  intros Hb. unfold route_of, Sdk.sign_post. cbn [Url Method]. rewrite Hb. by rewrite TrimPrefix_app.
Qed.

Definition sign_arrival (c : Sdk.Client) (mac : list byte) (q : Sdk.Request) : Http.Request :=
  server_request (Some link) (Sdk.sign_post c mac (Sdk.marshal_request q)) "".

(** What the transaction of a request says. *)
Definition opened_for (q : Sdk.Request) (cert : Certificate) (id : string) (s : Api.server) : Prop :=
  exists e, Appr.txs (Api.store s) !! id = Some e /\
    Appr.TargetUser (Appr.tx e) = Sdk.r_TargetUser q /\ Appr.TargetIP (Appr.tx e) = Sdk.r_TargetIP q /\
    Appr.PublicKey (Appr.tx e) = Sdk.r_PublicKey q /\
    Appr.ClientCertFP (Appr.tx e) = Http.clientCertFingerprint (Some cert).

Lemma arrive_sign env during wk s c q priv mac cert rest hostFP dest meta allow :
  Sdk.proxyURL c = base -> certs = cert :: rest ->
  key_ok priv -> signed_by priv q -> Sdk.valid_request q -> clean_request q -> timely env s q ->
  Z.of_nat (length (Sdk.marshal_request q)) <= Api.maxSignRequestBody ->
  Sdk.ComputeBodyHMAC link (Sdk.marshal_request q) = Ok mac ->
  signer_accepts env s (Api.set_BodyMAC (Sdk.FormatMACHeader mac) (Sdk.proxy_view q)) hostFP dest meta allow ->
  exists s', arrive env during wk (Some link) (Sdk.sign_post c mac (Sdk.marshal_request q)) s =
      Some (s', mkHttpResponse Http.StatusAccepted (Wire.content_bytes (Http.CSign (Appr.newTxID (Api.ulid env))))) /\
    opened_for q cert (Appr.newTxID (Api.ulid env)) s' /\
    exists rp log resp evs,
      Replay.AddIfNew (Api.tick env Api.TReplay) (Api.replay s) (sha256 (Sdk.marshal_request q)) = (rp, true) /\
      s' = Api.with_store (Api.with_replay s rp) (Api.store s') /\
      Api.openTransaction env (Api.with_replay s rp)
        (Api.set_BodyMAC (Sdk.FormatMACHeader mac) (Sdk.proxy_view q)) (Http.clientIPFromRemoteAddr remote)
        (Http.clientCertFingerprint (Some cert)) hostFP dest meta allow log = (s', resp, evs).
Proof.
  intros Hbase Hcerts Hk Hs Hv Hc Ht Hlen Hm Hsig.
  destruct (pipeline_accepts link env s priv q mac Hk Hs Hv Hc Ht Hm) as [rp Hrp].
  set (r := sign_arrival c mac q).
  assert (Hbody : Api.sign_body r (Api.set_BodyMAC (Sdk.FormatMACHeader mac) (Sdk.proxy_view q))).
  { split; [done|]. split; [done|]. cbn [Http.body r sign_arrival server_request].
    change (Body (Sdk.sign_post c mac (Sdk.marshal_request q))) with (Sdk.marshal_request q).
    by rewrite Sdk.proxy_reads_request. }
  destruct (handleSign_opens env s r _ link rp hostFP dest meta allow Hbody eq_refl Hrp Hsig) as [log Hh].
  assert (Hpeer : Http.peer r = Some cert) by (unfold Http.peer; cbn; by rewrite Hcerts).
  assert (Hfp : Http.clientCertFPFromRequest r = Http.clientCertFingerprint (Some cert)).
  { unfold Http.clientCertFPFromRequest. by rewrite Hpeer. }
  destruct (Api.openTransaction _ _ _ _ _ _ _ _ _ log) as [[s' resp] evs] eqn:Eo.
  pose proof (Api.openTransaction_spec _ _ _ _ _ _ _ _ _ _ _ _ Eo)
    as (Hs' & Hresp & e & He & _ & _ & Hu & Hi & Hp & _ & Hf & _).
  exists s'. unfold arrive. rewrite route_of_sign by done. fold (sign_arrival c mac q). fold r.
  cbn [Api.serve]. unfold Http.withMTLS. rewrite Hpeer. cbn [Api.guarded]. rewrite Hh, Hresp.
  split; [done|]. split.
  - exists e. by rewrite <- Hfp.
  - exists rp, log, resp, evs. rewrite Hfp in Eo. split_and!; [|done..].
    by apply Auth.ValidateSignRequest_ok in Hrp as (_ & _ & Hrp & _).
Qed.

(** The text of a ULID: 26 printable characters. *)
Definition is_ulid (u : string) : Prop := len u = 26 /\ Forall (fun b => graphic b = true) (bytes_of u).

Lemma txID_response u :
  is_ulid u -> Decode Sdk.dec_Response "" (LimitReader Sdk.maxResponse
    (Wire.content_bytes (Http.CSign (Appr.newTxID u)))) = Some (Appr.newTxID u).
Proof.
  intros [Hl Hg]. apply Sdk.decode_sign_response.
  - apply valid_graphic. unfold Appr.newTxID. rewrite bytes_of_app. apply Forall_app. split; [|done].
    by repeat constructor.
  - unfold Appr.newTxID, len in *. change (String.length ("tx_" +:+ u)) with (3 + String.length u)%nat.
    unfold Sdk.maxResponse. lia.
Qed.

Lemma postSign_arrived env during wk later s s' c body mac :
  Sdk.ComputeBodyHMAC link body = Ok mac -> is_ulid (Api.ulid env) ->
  arrive env during wk (Some link) (Sdk.sign_post c mac body) s =
    Some (s', mkHttpResponse Http.StatusAccepted (Wire.content_bytes (Http.CSign (Appr.newTxID (Api.ulid env))))) ->
  Sdk.postSign proxy_net c body (mkWorld s (Deliver env during wk :: later)) =
    (mkWorld s' later, Ok (Appr.newTxID (Api.ulid env))).
Proof.
  intros Hm Hu Ha. apply Sdk.two_attempts_ok. unfold Sdk.postSignOnce.
  cbn [net_dial net_over proxy_net]. rewrite Hm. unfold exchange. cbn [script srv]. rewrite Ha.
  cbn [StatusCode RespBody]. rewrite Z.eqb_refl, txID_response by done. done.
Qed.

(** A request that is answered gives the client the identifier of the transaction it opened. *)
Lemma postSign_delivered env during wk later s c q priv key cert rest hostFP dest meta allow :
  let mac := hmac_sha256 key (Sdk.marshal_request q) in
  Sdk.proxyURL c = base -> certs = cert :: rest -> ExportKeyingMaterial link Sdk.exporterLabel 32 = Some key ->
  key_ok priv -> signed_by priv q -> Sdk.valid_request q -> clean_request q -> timely env s q ->
  Z.of_nat (length (Sdk.marshal_request q)) <= Api.maxSignRequestBody -> is_ulid (Api.ulid env) ->
  signer_accepts env s (Api.set_BodyMAC (Sdk.FormatMACHeader mac) (Sdk.proxy_view q)) hostFP dest meta allow ->
  exists s', Sdk.postSign proxy_net c (Sdk.marshal_request q) (mkWorld s (Deliver env during wk :: later)) =
      (mkWorld s' later, Ok (Appr.newTxID (Api.ulid env))) /\
    opened_for q cert (Appr.newTxID (Api.ulid env)) s'.
Proof.
  intros mac Hbase Hcerts Hkey Hk Hs Hv Hc Ht Hlen Hu Hsig.
  assert (Hm : Sdk.ComputeBodyHMAC link (Sdk.marshal_request q) = Ok mac).
  { unfold Sdk.ComputeBodyHMAC. by rewrite Hkey. }
  destruct (arrive_sign env during wk s c q priv mac cert rest hostFP dest meta allow Hbase Hcerts Hk Hs Hv Hc
    Ht Hlen Hm Hsig) as (s' & Ha & Ho & _). exists s'. split; [by eapply postSign_arrived|done].
Qed.

(** Any certificate request of the SDK is accepted by a proxy in a certificate mode: the client's
    one POST opens a transaction for the requested user, address and fresh key under the client's
    certificate, and the client learns its identifier. *)
Theorem sdk_certificate_request_accepted env during wk later s c req priv ts key cert rest :
  let q := Sdk.cert_request req priv ts in
  Sdk.proxyURL c = base -> certs = cert :: rest -> ExportKeyingMaterial link Sdk.exporterLabel 32 = Some key ->
  key_ok priv -> Sdk.valid_request q -> clean_request q -> timely env s q ->
  Z.of_nat (length (Sdk.marshal_request q)) <= Api.maxSignRequestBody -> is_ulid (Api.ulid env) ->
  Ks.Available (Api.keystore s) = true -> Cfg.SignerMode (Api.cfg s) <> Appr.SignerModeLocalKey ->
  exists s', Sdk.postSign proxy_net c (Sdk.marshal_request q) (mkWorld s (Deliver env during wk :: later)) =
      (mkWorld s' later, Ok (Appr.newTxID (Api.ulid env))) /\
    exists e, Appr.txs (Api.store s') !! Appr.newTxID (Api.ulid env) = Some e /\
      Appr.TargetUser (Appr.tx e) = Sdk.cr_TargetUser req /\ Appr.TargetIP (Appr.tx e) = Sdk.cr_TargetIP req /\
      Appr.PublicKey (Appr.tx e) = string_of (MarshalAuthorizedKey (Sdk.priv_public priv)) /\
      Appr.ClientCertFP (Appr.tx e) = Http.clientCertFingerprint (Some cert).
Proof.
  intros q Hbase Hcerts Hkey Hk Hv Hc Ht Hlen Hu Ha Hm.
  eapply (postSign_delivered env during wk later s c q priv key cert rest ""); try done.
  split; [done|]. split; [done|]. split; [done|].
  unfold Api.resolveHostKeyFingerprint, Api.bindDestination. apply str_eqb_neq in Hm. by rewrite Hm.
Qed.

(** The same body again, within the life of its cache entry, is answered with 409. *)
Lemma arrive_replayed env during wk s c q mac key cert rest :
  Sdk.proxyURL c = base -> certs = cert :: rest -> ExportKeyingMaterial link Sdk.exporterLabel 32 = Some key ->
  mac = hmac_sha256 key (Sdk.marshal_request q) -> Sdk.valid_request q ->
  Z.of_nat (length (Sdk.marshal_request q)) <= Api.maxSignRequestBody ->
  0 <= Unix (Api.tick env Api.TAuth) < 2 ^ 62 -> Auth.in_window (Sdk.r_Timestamp q) (Api.tick env Api.TAuth) 30 ->
  (Replay.AddIfNew (Api.tick env Api.TReplay) (Api.replay s) (sha256 (Sdk.marshal_request q))).2 = false ->
  exists rp resp, arrive env during wk (Some link) (Sdk.sign_post c mac (Sdk.marshal_request q)) s =
    Some (Api.with_replay s rp, mkHttpResponse Http.StatusConflict resp).
Proof.
  intros Hbase Hcerts Hkey Hmac Hv Hlen Hn Hw Hr.
  destruct (Replay.AddIfNew _ _ _) as [rp new] eqn:Ea. simpl in Hr. subst new. exists rp. eexists.
  unfold arrive. rewrite route_of_sign by done. cbn [Api.serve]. fold (sign_arrival c mac q).
  set (r := sign_arrival c mac q).
  assert (Hpeer : Http.peer r = Some cert) by (unfold Http.peer; cbn; by rewrite Hcerts).
  unfold Http.withMTLS. rewrite Hpeer. cbn [Api.guarded]. unfold Api.handleSign, Http.ReadAll.
  change (Http.body r) with (Sdk.marshal_request q). change (Http.body_fails r) with false.
  rewrite (proj2 (Z.ltb_ge _ _)), Sdk.proxy_reads_request by done.
  change (Http.conn r) with (Some link). cbv zeta. unfold Auth.ValidateSignRequest.
  rewrite (proj2 (Auth.VerifyBodyHMAC_ok _ _ _)).
  2: { exists key. split; [done|]. subst mac. apply HexDecode_Encode. }
  assert (Hts : Auth.ValidateTimestampAt (Sdk.r_Timestamp q) (Api.tick env Api.TAuth) Auth.timestampWindowSec = Ok tt).
  { apply Auth.ValidateTimestampAt_ok; unfold Auth.timestampWindowSec, max_int64; try lia; [apply Hv|by left]. }
  change (Auth.Timestamp _) with (Sdk.r_Timestamp q). rewrite Hts, Ea. reflexivity.
Qed.

(** When the proxy serves the first POST but the reply is lost with an error the SDK takes for a
    broken connection, the retry sends the same body and is refused as a replay: the caller gets an
    error although a transaction for its request is open and can still be approved. *)
Theorem lost_reply_orphans_transaction env1 env2 e during wk later s c req priv ts key cert rest last :
  let q := Sdk.cert_request req priv ts in
  Sdk.proxyURL c = base -> certs = cert :: rest -> ExportKeyingMaterial link Sdk.exporterLabel 32 = Some key ->
  key_ok priv -> Sdk.valid_request q -> clean_request q -> timely env1 s q ->
  Z.of_nat (length (Sdk.marshal_request q)) <= Api.maxSignRequestBody ->
  Ks.Available (Api.keystore s) = true -> Cfg.SignerMode (Api.cfg s) <> Appr.SignerModeLocalKey ->
  Replay.wf last (Api.replay s) -> 0 < Replay.max (Api.replay s) ->
  last <= Api.tick env1 Api.TReplay <= Api.tick env2 Api.TReplay ->
  Api.tick env2 Api.TReplay < Api.tick env1 Api.TReplay + Replay.ttl (Api.replay s) ->
  0 <= Unix (Api.tick env2 Api.TAuth) < 2 ^ 62 -> Auth.in_window ts (Api.tick env2 Api.TAuth) 30 ->
  Sdk.isRetryableConnErr (Sdk.wrapf "POST sign: " e) = true ->
  exists s', Sdk.postSign proxy_net c (Sdk.marshal_request q)
      (mkWorld s (LoseReply env1 e :: Deliver env2 during wk :: later)) =
      (mkWorld s' later, Err (errorf "POST sign: HTTP 409")) /\
    opened_for q cert (Appr.newTxID (Api.ulid env1)) s'.
Proof.
  intros q Hbase Hcerts Hkey Hk Hv Hc Ht Hlen Ha Hm Hwf Hmax Hle Hlt Hn2 Hw2 He.
  set (mac := hmac_sha256 key (Sdk.marshal_request q)).
  assert (Hmac : Sdk.ComputeBodyHMAC link (Sdk.marshal_request q) = Ok mac).
  { unfold Sdk.ComputeBodyHMAC. by rewrite Hkey. }
  destruct (arrive_sign env1 id Api.WakeResult s c q priv mac cert rest ""
    "" (Api.signClientMeta (Api.set_BodyMAC (Sdk.FormatMACHeader mac) (Sdk.proxy_view q))) true)
    as (s1 & Ha1 & Ho & rp & log & resp1 & evs & Hrp & Hs1 & _); try done.
  { split; [done|]. split; [done|]. split; [done|].
    unfold Api.resolveHostKeyFingerprint, Api.bindDestination. apply str_eqb_neq in Hm. by rewrite Hm. }
  destruct (arrive_replayed env2 during wk s1 c q mac key cert rest) as (rp2 & resp & Ha2); try done.
  { rewrite Hs1. cbn [Api.replay Api.with_store Api.with_replay]. by eapply Replay.AddIfNew_again. }
  exists (Api.with_replay s1 rp2). split; [|done].
  unfold Sdk.postSign, Sdk.two_attempts. cbn [Sdk.attempts]. unfold Sdk.postSignOnce.
  cbn [net_dial net_over proxy_net]. rewrite Hmac. unfold exchange. cbn [script srv]. rewrite Ha1.
  rewrite He. cbn [Z.eqb andb script srv]. rewrite Ha2. reflexivity.
Qed.
End network.

End SdkProxy.
