(* ===== verification/EndToEnd.v ===== *)
(** * From the client to the signature: SDK, proxy and approver together

    One run through the whole system in local-key mode: the SDK posts a request and waits; while it
    waits an approver approves; the proxy signs with the hosted key; the SDK decodes the signature.
    The three components are the ones modelled elsewhere, joined by the network of [SdkProxy]. *)

From Stdlib Require Import Ascii.
From S2P Require Import Prelude GoTime GoStrings GoEncoding GoUtf8 GoJson GoFormat External Fingerprint LeaseStore ReplayCache SessionBinding AuthPipeline Keystore Pending Signing Config Approval ApprovalSys Telegram Devices Csr Http Api Control GoNet Wire Sdk SdkProxy.

Module E2E.
Import Json SdkProxy.
#[local] Existing Instance Wire.go_json.

Section e2e.
Context `{HashLib, SshLib, !Sign.CertIssuer Ks.Keystore, Bind.SshWire, Csr.X509Lib, Http.EdLib}.
Context (base : string) (link : Conn) (certs : list Certificate) (remote : string).

(** ** A wait during which the transaction is approved *)

Lemma Wait_approved k t0 t1 st id e ttl who res :
  Appr.store_wf st -> Appr.txs st !! id = Some e -> Appr.tx_State (Appr.tx e) = Appr.StatePending ->
  Appr.issueForTransaction st k t1 (Appr.set_State Appr.StateApproving (Appr.tx e)) (t0 + Appr.approve_ttl ttl)
    = Ok res ->
  exists st', Api.Wait (fun st => Appr.Approve k t0 t1 st id ttl who) Api.WakeResult st id =
    Some (st', Ok (Appr.set_LeaseExpiresAt (t0 + Appr.approve_ttl ttl) res)).
Proof.
  intros Hwf He Hst Hi.
  assert (Er : Appr.result e = None).
  { pose proof (Appr.sw_outcome st Hwf id e He) as Ho. unfold Appr.outcome_ok in Ho. simpl in Ho.
    rewrite Hst in Ho. by destruct (Appr.result e). }
  pose proof (Appr.waitResult_wf st id Hwf) as Hwf1. unfold Api.Wait, Appr.waitResult in *. rewrite He, Er in *.
  cbn [fst snd] in Hwf1. set (e1 := Appr.mkEntry _ _ _ _ _) in *. set (st1 := Appr.set_txs _ _) in *.
  assert (He1 : Appr.txs st1 !! id = Some e1) by apply lookup_insert_eq.
  destruct (Appr.Approve_pending st1 k t0 t1 id e1 ttl who Hwf1 He1 Hst) as [_ Hap].
  rewrite (Appr.issue_ext st st1) in Hap by done. cbn [Appr.tx e1] in Hap. rewrite Hi in Hap.
  destruct Hap as [(e' & _ & _ & _ & _ & _ & st2 & Hrecv) _]. cbn [Appr.resultCh e1] in Hrecv. rewrite Hrecv.
  eexists. cbn. assert (Hn : Appr.Err res = None) by (by eapply Sys.issue_ok).
  by rewrite Hn.
Qed.

(** ** A request that no lease answers *)

Definition no_lease (env : Api.Env) (s : Api.server) (key : Lease.LookupKey) : Prop :=
  forall l, Appr.leases (Api.store s) = Some l -> (Lease.FindActive (Api.tick env Api.TFind) l key).2 = false.

(** The entry of a request that waits for an approver. *)
Definition waiting (req : Auth.SignRequest) (ip fp hostFP dest : string) (st st' : Appr.Store) (id : string) : Prop :=
  Appr.store_wf st' /\ Appr.cfg st' = Appr.cfg st /\ Appr.issuer st' = Appr.issuer st /\
  Appr.keySigner st' = Appr.keySigner st /\
  exists e, Appr.txs st' !! id = Some e /\ Appr.tx_State (Appr.tx e) = Appr.StatePending /\
    Appr.ClientCertFP (Appr.tx e) = fp /\ Appr.AgentSignData (Appr.tx e) = Auth.AgentSignData req /\
    Appr.HostKeyFingerprint (Appr.tx e) = hostFP /\ Appr.PublicKey (Appr.tx e) = Auth.req_PublicKey req /\
    Appr.TargetUser (Appr.tx e) = Auth.TargetUser req /\ Appr.TargetIP (Appr.tx e) = Auth.TargetIP req /\
    Appr.SourceIP (Appr.tx e) = ip.

Lemma openTransaction_waiting env s req ip fp hostFP dest meta allow log s' resp evs :
  Appr.store_wf (Api.store s) ->
  no_lease env s (Lease.NewLookupKey fp (Auth.TargetUser req) (Auth.TargetIP req) ip hostFP [dest]) ->
  Api.openTransaction env s req ip fp hostFP dest meta allow log = (s', resp, evs) ->
  waiting req ip fp hostFP dest (Api.store s) (Api.store s') (Appr.newTxID (Api.ulid env)).
Proof.
  intros Hwf Hnl. unfold Api.openTransaction.
  assert (Hf : forall t1 t2 t3, (Appr.IssueFromLease (Api.keystore s) (Api.tick env Api.TFind) t1 t2 t3 (Api.store s)
    (Lease.NewLookupKey fp (Auth.TargetUser req) (Auth.TargetIP req) ip hostFP [dest]) (Auth.req_PublicKey req)
    (Auth.AgentSignData req) hostFP).2 = false).
  { intros. unfold Appr.IssueFromLease. destruct (Appr.leases (Api.store s)) as [l|] eqn:El; [|done].
    specialize (Hnl l El). destruct (Lease.FindActive _ _ _) as [al ok]. simpl in Hnl. by rewrite Hnl. }
  match goal with |- context [Appr.IssueFromLease ?a ?b ?c ?d ?e ?f ?g ?h ?i ?j] =>
    specialize (Hf c d e); destruct (Appr.IssueFromLease a b c d e f g h i j) as [r ok] end.
  simpl in Hf. subst ok.
  assert (Hno : (if negb (Cfg.Env (Api.cfg s) =s "dev") && allow then None else @None Appr.Result) = None)
    by (by destruct (_ && _)).
  rewrite Hno. unfold Appr.CreateBound. intros [= <- _ _]. cbn [Api.store Api.with_store].
  split; [apply Appr.add_entry_wf; [done|done|done|simpl; lia]|].
  split_and!; try done. eexists. split; [apply lookup_insert_eq|]. done.
Qed.

(** ** Collecting over the network *)

Lemma route_of_wait c id during wk :
  Sdk.proxyURL c = base -> route_of base (Sdk.wait_get c id) during wk = Some (Api.RWait during wk, id).
Proof.
  intros Hb. unfold route_of, Sdk.wait_get. cbn [Url Method]. rewrite Hb, TrimPrefix_app.
  set (path := "/api/v1/ssh/sign/" +:+ id +:+ "/wait").
  replace (("GET" =s "POST") && (path =s "/api/v1/ssh/sign")) with false by done.
  replace (("GET" =s "GET") && (path =s "/api/v1/capabilities")) with false by done.
  replace ("GET" =s "GET") with true by done. unfold wait_path, path.
  rewrite HasPrefix_app, TrimPrefix_app. unfold HasSuffix. rewrite bytes_of_app, length_app.
  change (length (bytes_of "/wait")) with 5%nat.
  replace (length (bytes_of id) + 5 - 5)%nat with (length (bytes_of id)) by lia.
  rewrite drop_app_length, bool_decide_true, take_app_length by done. simpl.
  by rewrite string_of_bytes_of.
Qed.

Notation net := (proxy_net base link certs remote).

(** The texts of a result are ASCII or checked, and the response is not oversized. *)
Definition wait_body (env : Api.Env) (res : Appr.Result) : Http.waitResponse :=
  Http.mkWaitResponse (Appr.Cert res) (Appr.Signature res)
    (Api.formatTimeRFC3339 (Api.tick env Api.TFallback) (Appr.ExpiresAt res) (5 * Minute))
    (if IsZero (Appr.LeaseExpiresAt res) then "" else RFC3339 (Appr.LeaseExpiresAt res)).

Definition fits (env : Api.Env) (res : Appr.Result) : Prop :=
  ValidString (Appr.Cert res) = true /\ ValidString (Appr.Signature res) = true /\
  Z.of_nat (length (Wire.content_bytes (Http.CWait (wait_body env res)))) <= Sdk.maxResponse.

Lemma wait_body_valid env res :
  fits env res -> Decode Sdk.dec_WaitResponse (Sdk.mkWaitResponse "" "" "" "")
    (LimitReader Sdk.maxResponse (Wire.content_bytes (Http.CWait (wait_body env res)))) =
  Some (Sdk.mkWaitResponse (Appr.Cert res) (Appr.Signature res) (Http.ExpiresAt (wait_body env res))
          (Http.LeaseExpiresAt (wait_body env res))).
Proof.
  intros (Hc & Hs & Hl). rewrite Sdk.decode_wait_response; [done| |done].
  repeat constructor; try done; apply valid_graphic.
  - unfold wait_body, Api.formatTimeRFC3339. simpl. destruct (IsZero _); apply RFC3339_printable.
  - unfold wait_body. simpl. destruct (IsZero _); [constructor|apply RFC3339_printable].
Qed.

(** A wait over the certificate that made the request, during which it is approved. *)
Lemma getWait_approved env later s c cert rest id e k t0 t1 ttl who res :
  Sdk.proxyURL c = base -> certs = cert :: rest ->
  Appr.store_wf (Api.store s) -> Appr.txs (Api.store s) !! id = Some e ->
  Appr.tx_State (Appr.tx e) = Appr.StatePending ->
  Appr.ClientCertFP (Appr.tx e) = Http.clientCertFingerprint (Some cert) ->
  Appr.issueForTransaction (Api.store s) k t1 (Appr.set_State Appr.StateApproving (Appr.tx e))
    (t0 + Appr.approve_ttl ttl) = Ok res ->
  let res := Appr.set_LeaseExpiresAt (t0 + Appr.approve_ttl ttl) res in
  fits env res ->
  exists s', Sdk.getWait net c id
      (mkWorld s (Deliver env (fun st => Appr.Approve k t0 t1 st id ttl who) Api.WakeResult :: later)) =
    (mkWorld s' later, Ok (Sdk.mkWaitResponse (Appr.Cert res) (Appr.Signature res)
       (Http.ExpiresAt (wait_body env res)) (Http.LeaseExpiresAt (wait_body env res)))).
Proof.
  intros Hb Hc Hwf He Hst Hfp Hi res' Hfit.
  destruct (Wait_approved k t0 t1 (Api.store s) id e ttl who res Hwf He Hst Hi) as [st' Hw].
  set (during := fun st => _) in Hw |- *.
  assert (Ha : arrive base certs remote env during Api.WakeResult (Some link) (Sdk.wait_get c id) s =
    Some (Api.with_store s st', mkHttpResponse Http.StatusOK (Wire.content_bytes (Http.CWait (wait_body env res'))))).
  { unfold arrive. rewrite route_of_wait by done. cbn [Api.serve]. set (r := server_request _ _ _ _ _).
    assert (Hpeer : Http.peer r = Some cert) by (unfold Http.peer; cbn; by rewrite Hc).
    unfold Http.withMTLS. rewrite Hpeer. cbn [Api.guarded]. unfold Api.handleWait.
    change (Http.PathValue r "tx_id") with id. unfold Appr.store_ClientCertFP. rewrite He, Hfp.
    assert (Hfr : Http.clientCertFPFromRequest r = Http.clientCertFingerprint (Some cert)).
    { unfold Http.clientCertFPFromRequest. by rewrite Hpeer. }
    rewrite Hfr, str_eqb_refl, andb_false_r, Hw. done. }
  exists (Api.with_store s st'). unfold Sdk.getWait.
  rewrite (Sdk.two_attempts_ok _ _ (mkWorld (Api.with_store s st') later)
    (mkHttpResponse Http.StatusOK (Wire.content_bytes (Http.CWait (wait_body env res'))))).
  - cbn [StatusCode RespBody]. rewrite Z.eqb_refl. cbn [negb]. by rewrite wait_body_valid.
  - cbn [net_do proxy_net]. unfold exchange. cbn [script srv]. by rewrite Ha.
Qed.

(** ** Hosted-key signatures *)

(** The result of approving a hosted-key transaction. *)
Lemma issue_local_key st k t1 t until data blob :
  Cfg.SignerMode (Appr.cfg st) = Appr.SignerModeLocalKey -> Appr.keySigner st = true ->
  Appr.AgentSignData t = StdEncodeToString data -> StdEncodeToString data <> "" ->
  Sign.SignAgent k (Appr.HostKeyFingerprint t) data = Ok blob ->
  Appr.issueForTransaction st k t1 t until = Ok (Appr.mkResult "" (StdEncodeToString blob) until zeroTime None).
Proof.
  intros Hm Hk Hd Hne Hs. unfold Appr.issueForTransaction, Appr.signerMode. rewrite Hm. simpl.
  rewrite Hd, (proj2 (str_eqb_neq _ _) Hne), Hk. cbn [negb]. rewrite StdDecode_Encode. simpl.
  destruct (Appr.HostKeyFingerprint t =s "") eqn:E; [|by rewrite Hs].
  str_prop. rewrite E in Hs. unfold Sign.SignAgent in Hs. by destruct data.
Qed.

Lemma StdEncode_nonempty b : b <> [] -> StdEncodeToString b <> "".
Proof.
  intros Hb E. pose proof (StdDecode_Encode b) as Hd. rewrite E in Hd. vm_compute in Hd. congruence.
Qed.

(** The network's script of a run: the request is answered, and while the client waits an approver
    approves it. *)
Definition approved_run (env1 env2 : Api.Env) (k : Ks.Keystore) (t0 t1 ttl : Z) (who : string)
    (later : list delivery) : list delivery :=
  Deliver env1 id Api.WakeResult ::
  Deliver env2 (fun st => Appr.Approve k t0 t1 st (Appr.newTxID (Api.ulid env1)) ttl who) Api.WakeResult :: later.

Definition signature_result (until : Z) (blob : list byte) : Appr.Result :=
  Appr.mkResult "" (StdEncodeToString blob) until until None.

(** C22: A complete run in local-key mode: a signature request that passes the SDK's checks, that the
    proxy's pipeline and signer accept and that no lease answers, approved by anyone while the client
    waits, gives the caller the signature of the hosted key it named over exactly the data it asked
    for: it verifies under a key with the resolved fingerprint. *)
Theorem signature_end_to_end `{!SshLaws} m k env1 env2 t0 t1 ttl who later s c req signData priv t ekey cert rest
    hostFP dest meta allow blob :
  let q := Sdk.signature_request req signData priv (Unix t) in
  let mac := hmac_sha256 ekey (Sdk.marshal_request q) in
  Sdk.checkSignatureRequest req signData = Ok tt ->
  Sdk.proxyURL c = base -> certs = cert :: rest -> ExportKeyingMaterial link Sdk.exporterLabel 32 = Some ekey ->
  key_ok priv -> Sdk.valid_request q -> clean_request q -> timely env1 s q ->
  Z.of_nat (length (Sdk.marshal_request q)) <= Api.maxSignRequestBody -> is_ulid (Api.ulid env1) ->
  signer_accepts env1 s (Api.set_BodyMAC (Sdk.FormatMACHeader mac) (Sdk.proxy_view q)) hostFP dest meta allow ->
  Appr.store_wf (Api.store s) ->
  no_lease env1 s (Lease.NewLookupKey (Http.clientCertFingerprint (Some cert)) (Sdk.TargetUser req)
    (Sdk.TargetIP req) (Http.clientIPFromRemoteAddr remote) hostFP [dest]) ->
  Cfg.SignerMode (Appr.cfg (Api.store s)) = Appr.SignerModeLocalKey -> Appr.keySigner (Api.store s) = true ->
  Ks.reachable m k -> Sign.SignAgent k hostFP signData = Ok blob -> blob <> [] ->
  Z.of_nat (length (Wire.content_bytes (Http.CWait (wait_body env2
    (signature_result (t0 + Appr.approve_ttl ttl) blob))))) <= Sdk.maxResponse ->
  exists s' sig pub,
    Sdk.RequestSignature net c (Sdk.mkFresh (Some priv) t) req signData
      (mkWorld s (approved_run env1 env2 k t0 t1 ttl who later)) = (mkWorld s' later, Ok sig) /\
    Format sig = (if Sdk.SignatureFormat req =s "" then pub_type (Sdk.priv_public priv) else Sdk.SignatureFormat req) /\
    Fingerprint pub = NormalizeFingerprintInput hostFP /\
    exists sig', Blob sig' = Blob sig /\ pub_verify pub signData sig' = true.
Proof.
  intros q mac Hck Hb Hc Hx Hk Hv Hcl Ht Hlen Hu Hacc Hwf Hnl Hm Hks Hr Hs Hbl Hfit.
  assert (Hmac : Sdk.ComputeBodyHMAC link (Sdk.marshal_request q) = Ok mac).
  { unfold Sdk.ComputeBodyHMAC. by rewrite Hx. }
  assert (Hsb : signed_by priv q) by done.
  destruct (arrive_sign base link certs remote env1 id Api.WakeResult s c q priv mac cert rest hostFP dest meta allow
    Hb Hc Hk Hsb Hv Hcl Ht Hlen Hmac Hacc) as (s1 & Ha & _ & rp & log & resp & evs & _ & _ & Ho).
  set (preq := Api.set_BodyMAC (Sdk.FormatMACHeader mac) (Sdk.proxy_view q)) in *.
  assert (Hu' : Auth.TargetUser preq = Sdk.TargetUser req) by reflexivity.
  assert (Hi' : Auth.TargetIP preq = Sdk.TargetIP req) by reflexivity.
  assert (Hd' : Auth.AgentSignData preq = StdEncodeToString signData) by reflexivity.
  rewrite <- Hu', <- Hi' in Hnl. clearbody preq.
  destruct (openTransaction_waiting env1 (Api.with_replay s rp) preq _ _ _ _ _ _ _ _ _ _ Hwf Hnl Ho)
    as (Hwf1 & Hcfg & _ & Hks1 & e & He & Hst & Hfp & Had & Hhf & _).
  cbn [Api.store Api.with_replay] in Hcfg, Hks1.
  assert (Hne : StdEncodeToString signData <> "").
  { apply StdEncode_nonempty. intros ->. by destruct (hostFP =s ""). }
  assert (Hi : forall until, Appr.issueForTransaction (Api.store s1) k t1
      (Appr.set_State Appr.StateApproving (Appr.tx e)) until
    = Ok (Appr.mkResult "" (StdEncodeToString blob) until zeroTime None)).
  { intros u. eapply issue_local_key; [by rewrite Hcfg|by rewrite Hks1|by rewrite <- Hd'|done|].
    cbn [Appr.HostKeyFingerprint Appr.set_State]. by rewrite Hhf. }
  destruct (getWait_approved env2 later s1 c cert rest _ e k t0 t1 ttl who _ Hb Hc Hwf1 He Hst Hfp (Hi _))
    as (s2 & Hw).
  { split; [done|]. split; [|done]. apply base64_valid. }
  destruct (Sign.SignAgent_sound m k hostFP signData blob Hr Hs) as (_ & _ & pub & sig' & Hpf & Hpv & Hpb).
  exists s2. eexists. exists pub. split.
  - unfold Sdk.RequestSignature, approved_run. rewrite Hck. cbn [Sdk.GenerateKey Sdk.key Sdk.now or_err].
    fold q. rewrite (postSign_arrived base link certs remote env1 id Api.WakeResult _ s s1 c _ mac Hmac Hu Ha).
    rewrite Hw. cbn [Sdk.SSHSignature Appr.Signature Appr.set_LeaseExpiresAt].
    rewrite (proj2 (str_eqb_neq _ _) (StdEncode_nonempty _ Hbl)), StdDecode_Encode. reflexivity.
  - split; [done|]. split; [done|]. by exists sig'.
Qed.

End e2e.

(** ** Concrete runs *)
Module RunDemo.
Import Demo Bind.WireDemo Csr.CsrDemo Api.ApiDemo.
#[local] Existing Instances Sign.demo_cert Sign.LocalCA Sign.LocalCA_laws.

Definition url : string := "https://proxy.example:8443".
Definition client : Sdk.Client := Sdk.mkClient Sdk.defaultTimeout url
  (mkTlsConfig [cli_cert] [] "proxy.example" false) "proxy.example:8443".
Definition priv : Sdk.PrivateKey :=
  Sdk.mkPrivateKey (bytes_of "client-key" : PublicKey) (fun m => bytes_of "client-key" ++ m).
Definition info : Sdk.ClientInfo := Sdk.mkClientInfo "alice" "ssh" "1.0".
Definition link : Conn := Auth.PipelineDemo.conn.
Definition remote : string := "10.0.0.2:5123".

Definition env1 : Api.Env :=
  Api.mkEnv (fun _ => clock) "01ARZ3NDEKTSV4RRFFQ69G5FAV" (Some 7) (fun _ => None) (fun _ => true) (Api.order env).
Definition env2 : Api.Env :=
  Api.mkEnv (fun _ => clock + 20 * Second) "01ARZ3NDEKTSV4RRFFQ69G5FAW" (Some 7) (fun _ => None) (fun _ => true)
    (Api.order env).

Lemma clean_ascii s : forallb (fun b => (32 <=? byte_val b) && negb (byte_val b =? 127)) (bytes_of s) = true ->
  Auth.clean s.
Proof.
  intros Hs b Hb%list_elem_of_In. rewrite forallb_forall in Hs. apply Hs in Hb. bool_prop. lia.
Qed.

Lemma ulid_ok : is_ulid (Api.ulid env1).
Proof. split; [done|]. by repeat constructor. Qed.

Lemma priv_ok : key_ok priv.
Proof. split; [|done]. intros m. by apply bool_decide_eq_true. Qed.

(** A proxy that issues certificates. *)
Definition ca_config : Cfg.Config :=
  Cfg.mkConfig "prod" (60 * Second) "" "" "" "7" "" "luna-admin" "luna-cli" "" "local-ca" [180; 300; 900]
    "" "" "" "" "" "join" "" "" "".
Definition ca_proxy : Api.server := Api.NewServer (fun _ => None)
  (Api.mkServerDeps ca_config Sign.demo_ca None (Appr.SetIssuer (Appr.SetConfig (Appr.NewStore 0) ca_config) true)
     (Replay.NewReplayLRU (60 * Second) 1000) None None None signer None).
Definition cert_req : Sdk.CertRequest := Sdk.mkCertRequest "root" "10.0.0.7" info.
Definition cert_q : Sdk.Request := Sdk.cert_request cert_req priv 1700000000.

Lemma cert_q_valid : Sdk.valid_request cert_q.
Proof. split; [|by vm_compute]. repeat (apply Forall_cons; split; [by vm_compute|]). constructor. Qed.
Lemma cert_q_clean : clean_request cert_q.
Proof. unfold clean_request, Auth.clean_meta. split_and!; apply clean_ascii; by vm_compute. Qed.
Lemma cert_q_timely : timely env1 ca_proxy cert_q.
Proof. split_and!; [by vm_compute..|]. by vm_compute. Qed.

Lemma sdk_certificate_request_accepted_witness :
  exists s' e, Sdk.postSign (proxy_net url link [cli_cert] remote) client (Sdk.marshal_request cert_q)
      (mkWorld ca_proxy [Deliver env1 id Api.WakeResult]) = (mkWorld s' [], Ok "tx_01ARZ3NDEKTSV4RRFFQ69G5FAV") /\
    Appr.txs (Api.store s') !! "tx_01ARZ3NDEKTSV4RRFFQ69G5FAV" = Some e /\
    Appr.TargetUser (Appr.tx e) = "root".
Proof.
  destruct (sdk_certificate_request_accepted url link [cli_cert] remote env1 id Api.WakeResult [] ca_proxy client
    cert_req priv 1700000000 (bytes_of "exporter") cli_cert [] eq_refl eq_refl eq_refl priv_ok cert_q_valid cert_q_clean
    cert_q_timely ltac:(vm_compute; discriminate) ulid_ok eq_refl ltac:(vm_compute; discriminate))
    as (s' & Hp & e & He & Hu & _).
  exists s', e. split; [exact Hp|]. split; [exact He|exact Hu].
Defined.

Lemma sign_request_wire_roundtrip_witness :
  Http.json_SignRequest (JsonLib := Wire.go_json) (Sdk.marshal_request cert_q) = Some (Sdk.proxy_view cert_q).
Proof. exact (Sdk.sign_request_wire_roundtrip cert_q cert_q_valid). Defined.

(** A parser that knows one URL. *)
Definition demo_url : UrlLib := {| url_Parse s := if s =s url then Some (mkURL "https" "proxy.example:8443") else None |}.
Definition demo_sdk_config : Sdk.Config := Sdk.mkConfig url cli_cert [] 0.

Lemma client_always_verifies_witness :
  exists c, Sdk.NewClient (H := demo_url) demo_sdk_config = Ok c /\ InsecureSkipVerify (Sdk.tlsCfg c) = false.
Proof.
  exists client. assert (E : Sdk.NewClient (H := demo_url) demo_sdk_config = Ok client) by (vm_compute; reflexivity).
  split; [exact E|]. destruct (Sdk.client_always_verifies (H := demo_url) _ _ E) as (u & _ & _ & Hi & _). exact Hi.
Defined.

Definition eof : error := errorf "unexpected EOF".

Lemma lost_reply_orphans_transaction_witness :
  exists s' e, Sdk.postSign (proxy_net url link [cli_cert] remote) client (Sdk.marshal_request cert_q)
      (mkWorld ca_proxy [LoseReply env1 eof; Deliver env2 id Api.WakeResult])
      = (mkWorld s' [], Prelude.Err (errorf "POST sign: HTTP 409")) /\
    Appr.txs (Api.store s') !! "tx_01ARZ3NDEKTSV4RRFFQ69G5FAV" = Some e.
Proof.
  destruct (lost_reply_orphans_transaction url link [cli_cert] remote env1 env2 eof id Api.WakeResult [] ca_proxy client
    cert_req priv 1700000000 (bytes_of "exporter") cli_cert [] 0 eq_refl eq_refl eq_refl priv_ok cert_q_valid
    cert_q_clean cert_q_timely ltac:(vm_compute; discriminate) eq_refl ltac:(vm_compute; discriminate)
    (Replay.replay_wf_new 0 (60 * Second) 1000) eq_refl ltac:(by vm_compute) eq_refl ltac:(by vm_compute)
    ltac:(vm_compute; discriminate) eq_refl) as (s' & Hp & e & He & _).
  exists s', e. split; [exact Hp|exact He].
Defined.

(** A hosted-key signature for a client that reports its destination. *)
Definition sign_data : list byte := request (bytes_of "session") (bytes_of "host-key") "root".
Definition sig_req : Sdk.SignatureRequest :=
  Sdk.mkSignatureRequest "root" "10.0.0.7" "" Sdk.noBinding (Some dest_host) "" info.
Definition sig_q : Sdk.Request := Sdk.signature_request sig_req sign_data priv 1700000000.
Definition sig_mac : list byte := hmac_sha256 (bytes_of "exporter") (Sdk.marshal_request sig_q).
Definition sig_view : Auth.SignRequest := Api.set_BodyMAC (Sdk.FormatMACHeader sig_mac) (Sdk.proxy_view sig_q).
Definition bound : string * Appr.ClientMeta * bool :=
  match Api.bindDestination unsealed sig_view Ks.demo_fp (Api.signClientMeta sig_view) with
  | inr x => x
  | inl _ => ("", Api.signClientMeta sig_view, true)
  end.

Lemma sig_q_valid : Sdk.valid_request sig_q.
Proof. split; [|by vm_compute]. repeat (apply Forall_cons; split; [by vm_compute|]). constructor. Qed.
Lemma sig_q_clean : clean_request sig_q.
Proof. unfold clean_request, Auth.clean_meta. split_and!; apply clean_ascii; by vm_compute. Qed.
Lemma sig_q_timely : timely env1 unsealed sig_q.
Proof. split_and!; [by vm_compute..|]. by vm_compute. Qed.
Lemma sig_accepted : signer_accepts env1 unsealed sig_view Ks.demo_fp bound.1.1 bound.1.2 bound.2.
Proof. split_and!; [by vm_compute|done|by vm_compute|by vm_compute|by vm_compute]. Qed.
Lemma unsealed_wf : Appr.store_wf (Api.store unsealed).
Proof. constructor; simpl; [apply map_Forall_empty..|done]. Qed.
Lemma unsealed_no_lease key : no_lease env1 unsealed key.
Proof. intros l [= <-]. by vm_compute. Qed.

Lemma signature_end_to_end_witness :
  exists s' sig, Sdk.RequestSignature (proxy_net url link [cli_cert] remote) client (Sdk.mkFresh (Some priv) clock)
      sig_req sign_data
      (mkWorld unsealed (approved_run env1 env2 Ks.demo_loaded clock clock Hour "telegram:7" [])) =
      (mkWorld s' [], Ok sig) /\ Format sig = "ssh-ed25519".
Proof.
  destruct (signature_end_to_end url link [cli_cert] remote Ks.ModeLocalKey Ks.demo_loaded env1 env2 clock clock Hour
    "telegram:7" [] unsealed client sig_req sign_data priv clock (bytes_of "exporter") cli_cert [] Ks.demo_fp
    bound.1.1 bound.1.2 bound.2 (bytes_of "host-key" ++ sign_data) eq_refl eq_refl eq_refl eq_refl priv_ok sig_q_valid
    sig_q_clean sig_q_timely ltac:(vm_compute; discriminate) ulid_ok sig_accepted unsealed_wf (unsealed_no_lease _)
    eq_refl eq_refl) as (s' & sig & pub & Hs & Hf & _).
  - apply rtc_once. apply (Ks.step_load (fun _ => true) 0 0 (Ks.NewWithMode Ks.ModeLocalKey) Ks.demo_pem "pw" "web").
  - vm_compute. reflexivity.
  - discriminate.
  - vm_compute. discriminate.
  - exists s', sig. split; [exact Hs|exact Hf].
Defined.

End RunDemo.
End E2E.
