(* ===== verification/ConfigLoad.v ===== *)
(** * Loading the configuration (proxy/internal/config/load.go, certs.go, mtls.go, paths.go;
      agent/config_load.go, config_defaults.go, config_paths.go, socket.go, debug.go)

    Both programs read settings through viper: defaults, configuration files, environment variables.
    Viper and its file formats are an interface with the documented behaviour the code relies on;
    everything the program computes from the settings is modelled.  The environment is the one after
    [gotenv.Load], whose errors the code ignores. *)

From Stdlib Require Import Ascii.
From S2P Require Import Prelude GoTime GoStrings GoFormat GoPath GoDuration GoOs Config External Http GoNet Signing Approval Agent.

(** ** Viper *)

Class ViperLib := {
  Viper : Type;
  viper_New : Viper;
  SetDefault : string -> string -> Viper -> Viper;
  ReadInConfig : string -> list byte -> Viper -> option Viper;      (* the file's name and contents *)
  MergeInConfig : string -> list byte -> Viper -> option Viper;
  BindEnv : string -> string -> Viper -> Viper;
  AutomaticEnv : Viper -> Viper;
  GetString : (string -> string) -> Viper -> string -> string       (* with the environment *)
}.

(** The variable of a key: its letters in upper case. *)
Definition upper_byte (b : byte) : byte :=
  let v := byte_val b in if (97 <=? v) && (v <=? 122) then byte_of (v - 32) else b.
Definition env_name (key : string) : string := string_of (map upper_byte (bytes_of key)).

(** After [AutomaticEnv] a variable named like the key comes first. *)
Class ViperLaws `{ViperLib} : Prop := {
  automatic_env : forall env v k, env (env_name k) <> "" -> GetString env (AutomaticEnv v) k = env (env_name k)
}.

Definition bind_all `{ViperLib} (l : list (string * string)) (v : Viper) : Viper :=
  foldl (fun v kv => BindEnv kv.1 kv.2 v) v l.

Section files.
Context {N : Type} (env : Environ) `{ViperLib}.
Notation W := (World N).

(** [userLunaConfigDir], the same in both programs *)
Definition userLunaConfigDir : string :=
  match UserConfigDir env with
  | Some dir => Join [dir; "luna"]
  | None =>
      match UserHomeDir env with
      | None => Join [".config"; "luna"]
      | Some home => Join [home; ".config"; "luna"]
      end
  end.

(** [proxyConfigPaths] and [agentConfigPaths] differ in the name only. *)
Definition config_paths (name : string) : list string :=
  concat (map (fun base => map (fun ext => Join [base; name +:+ ext]) [".yml"; ".yaml"])
            ["."; userLunaConfigDir; "/etc/luna"]).
Definition proxyConfigPaths : list string := config_paths "proxy".
Definition agentConfigPaths : list string := config_paths "agent".

Fixpoint mergeConfigFiles (v : Viper) (paths : list string) : IO W Viper :=
  match paths with
  | [] => mret v
  | path :: rest => fun w =>
      if negb (fileExists env path w) then mergeConfigFiles v rest w else
      (data ← wrapping ("read config " +:+ path) (ReadFile env path);
       match MergeInConfig path data v with
       | None => fail (errorf ("read config " +:+ path))
       | Some v => mergeConfigFiles v rest
       end) w
  end.

Definition readConfigFileIfExists (v : Viper) (path : string) : IO W Viper := fun w =>
  match Stat env w path with
  | Absent => (w, Ok v)
  | StatError => (w, Err (errorf ("stat config " +:+ path)))
  | Present =>
      (data ← wrapping ("read config " +:+ path) (ReadFile env path);
       match ReadInConfig path data v with
       | None => fail (errorf ("read config " +:+ path))
       | Some v => mret v
       end) w
  end.

(** The part of [newViper] and [newAgentViper] after the defaults. *)
Definition load_settings (v : Viper) (paths : list string) (binds : list (string * string)) : IO W Viper :=
  let path := Getenv env "LUNA_CONFIG" in
  v ← (if negb (path =s "") then readConfigFileIfExists v path else mergeConfigFiles v paths);
  mret (AutomaticEnv (bind_all binds v)).
End files.

(** ** The proxy *)
Module Load.

Definition defaultListenAddr : string := ":8443".
Definition defaultAdminClientOU : string := "luna-admin".
Definition defaultSignerMode : string := "local-key".
Definition DefaultCertsDir : string := "/etc/luna/certs".
Definition ProductionControlSocket : string := "/run/luna/control.sock".
Definition DefaultProxyConfigPath : string := "/etc/luna/proxy.yml".
Definition defaultControlSocketName : string := "control.sock".

Definition ProductionCertPath (name : string) : string := Join [DefaultCertsDir; name].

Definition isDevOrTestEnv (env : string) : bool :=
  let e := TrimSpace env in (e =s "dev") || (e =s "test").

Section load.
Context {N : Type} (env : Environ) `{ViperLib}.
Notation W := (World N).

Definition devCertPath (name : string) (w : W) : string :=
  let p1 := Join ["testdata/ca"; name] in
  let p2 := Join [Join [".."; ".."; "testdata"; "ca"]; name] in
  if fileExists env p1 w then p1 else if fileExists env p2 w then p2 else Join ["testdata"; "ca"; name].

Definition or_default (s d : string) : string := if s =s "" then d else s.

Definition set_certs (c : Cfg.Config) (server key clientCA ca caKey : string) : Cfg.Config :=
  Cfg.mkConfig (Cfg.Env c) (Cfg.ApprovalTimeout c) (Cfg.ListenAddr c) (Cfg.TelegramBotToken c)
    (Cfg.TelegramWebhookSecret c) (Cfg.TelegramChatID c) (Cfg.TelegramUserIDs c) (Cfg.AdminClientOU c)
    (Cfg.CliClientOU c) (Cfg.KeyPath c) (Cfg.SignerMode c) (Cfg.AllowedTTLSeconds c) server key clientCA ca caKey
    (Cfg.MTLSEnrollToken c) (Cfg.FCMCredentials c) (Cfg.ControlSocket c) (Cfg.ControlSocketGroup c).

Definition applyMTLSDefaults (c : Cfg.Config) (w : W) : Cfg.Config :=
  if isDevOrTestEnv (Cfg.Env c) then
    set_certs c (or_default (Cfg.MTLSServerCert c) (devCertPath "server.crt" w))
      (or_default (Cfg.MTLSServerKey c) (devCertPath "server.key" w))
      (or_default (Cfg.MTLSClientCA c) (devCertPath "ca.crt" w)) (Cfg.MTLSCACertPath c) (Cfg.MTLSCAKeyPath c)
  else
    set_certs c (or_default (Cfg.MTLSServerCert c) (ProductionCertPath "server.crt"))
      (or_default (Cfg.MTLSServerKey c) (ProductionCertPath "server.key"))
      (or_default (Cfg.MTLSClientCA c) (ProductionCertPath "ca.crt"))
      (or_default (Cfg.MTLSCACertPath c) (ProductionCertPath "ca.crt"))
      (or_default (Cfg.MTLSCAKeyPath c) (ProductionCertPath "ca.key")).

Definition DefaultControlSocket : string :=
  let dir := Getenv env "XDG_RUNTIME_DIR" in
  if negb (dir =s "") then Join [dir; "luna"; defaultControlSocketName] else
  match UserHomeDir env with
  | Some home => Join [home; ".local"; "run"; "luna"; defaultControlSocketName]
  | None => Join ["/run"; "luna"; defaultControlSocketName]
  end.

Definition set_control (c : Cfg.Config) (socket group : string) : Cfg.Config :=
  Cfg.mkConfig (Cfg.Env c) (Cfg.ApprovalTimeout c) (Cfg.ListenAddr c) (Cfg.TelegramBotToken c)
    (Cfg.TelegramWebhookSecret c) (Cfg.TelegramChatID c) (Cfg.TelegramUserIDs c) (Cfg.AdminClientOU c)
    (Cfg.CliClientOU c) (Cfg.KeyPath c) (Cfg.SignerMode c) (Cfg.AllowedTTLSeconds c) (Cfg.MTLSServerCert c)
    (Cfg.MTLSServerKey c) (Cfg.MTLSClientCA c) (Cfg.MTLSCACertPath c) (Cfg.MTLSCAKeyPath c)
    (Cfg.MTLSEnrollToken c) (Cfg.FCMCredentials c) socket group.

Definition applyRuntimeDefaults (c : Cfg.Config) : Cfg.Config :=
  let c := set_control c (Cfg.ControlSocket c) (or_default (Cfg.ControlSocketGroup c) "luna-admin") in
  set_control c (or_default (Cfg.ControlSocket c)
    (if isDevOrTestEnv (Cfg.Env c) then DefaultControlSocket else ProductionControlSocket)) (Cfg.ControlSocketGroup c).

Definition rejectTestdataCAPath (name path : string) : result unit :=
  abs ← or_err (Abs (Getwd env) path) (errorf name);
  let abs := Clean abs in
  if Contains abs "/testdata/ca/" then Err (errorf (name +:+ " must not use repository testdata/ca")) else Ok tt.

Definition check_cert_file (w : W) (name path : string) : result unit :=
  _ ← rejectTestdataCAPath name path;
  if fileExists env path w then Ok tt else Err (errorf name).

Definition validateMTLS (c : Cfg.Config) (w : W) : result unit :=
  if isDevOrTestEnv (Cfg.Env c) then Ok tt else
  if (Cfg.MTLSServerCert c =s "") || (Cfg.MTLSServerKey c =s "") || (Cfg.MTLSClientCA c =s "")
  then Err (errorf "production requires explicit mTLS paths") else
  _ ← check_cert_file w "mtls_server_cert" (Cfg.MTLSServerCert c);
  _ ← check_cert_file w "mtls_server_key" (Cfg.MTLSServerKey c);
  check_cert_file w "mtls_client_ca" (Cfg.MTLSClientCA c).

(** [get] is [v.GetString]. *)
Definition configFromViper (get : string -> string) (w : W) : result Cfg.Config :=
  match ParseDuration (get "approval_timeout") with
  | Err e => Err (annotate "approval_timeout" e)
  | Ok approvalTimeout =>
      let t k := TrimSpace (get k) in
      let c := Cfg.mkConfig (t "env") approvalTimeout (or_default (t "listen_addr") defaultListenAddr)
        (t "telegram_bot_token") (t "telegram_webhook_secret") (t "telegram_chat_id") (t "telegram_user_ids")
        (or_default (t "admin_client_ou") defaultAdminClientOU) (t "cli_client_ou") (t "key_path")
        (or_default (t "signer_mode") defaultSignerMode) Cfg.defaultAllowedTTLSeconds
        (t "mtls_server_cert") (t "mtls_server_key") (t "mtls_client_ca") (t "mtls_ca_cert_path")
        (t "mtls_ca_key_path") (t "mtls_enroll_token") (t "fcm_credentials") (t "control_socket")
        (t "control_socket_group") in
      let c := applyMTLSDefaults c w in
      let c := applyRuntimeDefaults c in
      _ ← validateMTLS c w;
      Ok c
  end.

Definition env_bindings : list (string * string) :=
  [("env", "LUNA_ENV"); ("approval_timeout", "LUNA_APPROVAL_TIMEOUT"); ("listen_addr", "LUNA_LISTEN_ADDR");
   ("telegram_bot_token", "TELEGRAM_BOT_TOKEN"); ("telegram_webhook_secret", "TELEGRAM_WEBHOOK_SECRET");
   ("telegram_chat_id", "TELEGRAM_CHAT_ID"); ("telegram_user_ids", "TELEGRAM_USER_IDS");
   ("admin_client_ou", "LUNA_ADMIN_CLIENT_OU"); ("cli_client_ou", "LUNA_CLI_CLIENT_OU");
   ("key_path", "LUNA_KEY_PATH"); ("signer_mode", "LUNA_SIGNER_MODE");
   ("mtls_server_cert", "LUNA_MTLS_SERVER_CERT"); ("mtls_server_key", "LUNA_MTLS_SERVER_KEY");
   ("mtls_client_ca", "LUNA_MTLS_CLIENT_CA"); ("mtls_ca_cert_path", "LUNA_MTLS_CA_CERT");
   ("mtls_ca_key_path", "LUNA_MTLS_CA_KEY"); ("mtls_enroll_token", "LUNA_MTLS_ENROLL_TOKEN");
   ("fcm_credentials", "FCM_CREDENTIALS"); ("control_socket", "LUNA_CONTROL_SOCKET");
   ("control_socket_group", "LUNA_CONTROL_SOCKET_GROUP")].

Definition newViper : IO W Viper :=
  let v := viper_New in
  let v := SetDefault "listen_addr" defaultListenAddr v in
  let v := SetDefault "admin_client_ou" defaultAdminClientOU v in
  let v := SetDefault "cli_client_ou" "luna-cli" v in
  let v := SetDefault "signer_mode" defaultSignerMode v in
  let v := SetDefault "approval_timeout" (Duration_String Cfg.defaultApprovalPeriod) v in
  load_settings env v (proxyConfigPaths env) env_bindings.

Definition Load : IO W Cfg.Config :=
  v ← newViper;
  look (configFromViper (GetString (Getenv env) v)).

End load.

(** ** What a loaded configuration guarantees *)

Lemma or_default_nonempty s d : d <> "" -> or_default s d <> "".
Proof. intros Hd. unfold or_default. destruct (s =s "") eqn:E; by str_prop. Qed.

(** The names of a path go through the repository's test certificates. *)
Definition below_testdata (names : list string) : Prop :=
  exists a b, b <> [] /\ names = a ++ "testdata" :: "ca" :: b.

Lemma below_testdata_text names :
  below_testdata names -> Contains ("/" +:+ Join_strings "/" names) "/testdata/ca/" = true.
Proof.
  intros (a & b & Hb & ->). apply Contains_spec.
  assert (Hj : Join_strings "/" ("testdata" :: "ca" :: b) = "testdata/ca/" +:+ Join_strings "/" b) by (by destruct b).
  destruct (decide (a = [])) as [->|Ha].
  - exists "", (Join_strings "/" b). rewrite app_nil_l, Hj. done.
  - exists ("/" +:+ Join_strings "/" a), (Join_strings "/" b). rewrite Join_strings_app, Hj by done.
    apply bytes_of_inj. by rewrite !bytes_of_app, <- !app_assoc.
Qed.

Lemma check_cert_file_ok {N} env (w : World N) name path wd :
  Getwd env = Some wd -> IsAbs wd = true -> cwd env = resolve [] wd ->
  check_cert_file env w name path = Ok tt ->
  fileExists env path w = true /\ ~ below_testdata (rev (key env path)).
Proof.
  intros Hwd Ha Hc. unfold check_cert_file, rejectTestdataCAPath. rewrite Hwd. intros Hok. inv_ok.
  match goal with H : Abs _ _ = Some _ |- _ => apply (Abs_names _ _ _ Ha) in H; rename H into Habs end.
  unfold key. rewrite Hc.
  destruct (Contains (Clean _) _) eqn:Ec in *; [done|].
  destruct (fileExists env path w) in *; [|done]. split; [done|]. intros Hb%below_testdata_text. congruence.
Qed.

(** What the fields of a configuration satisfy before the certificate files are checked. *)
Definition well_formed (c : Cfg.Config) : Prop :=
  Cfg.ListenAddr c <> "" /\ Cfg.AdminClientOU c <> "" /\ Cfg.SignerMode c <> "" /\
  Cfg.ControlSocket c <> "" /\ Cfg.ControlSocketGroup c <> "" /\
  Cfg.MTLSServerCert c <> "" /\ Cfg.MTLSServerKey c <> "" /\ Cfg.MTLSClientCA c <> "" /\
  Cfg.AllowedTTLSeconds c = Cfg.defaultAllowedTTLSeconds /\ in_int64 (Cfg.ApprovalTimeout c).

Lemma control_socket_nonempty env : DefaultControlSocket env <> "".
Proof.
  unfold DefaultControlSocket.
  destruct (negb _); [|destruct (UserHomeDir env)]; apply Join_nonempty; apply Exists_exists; exists "luna"; set_solver.
Qed.

Lemma cert_path_nonempty {N} env (w : World N) name : name <> "" -> devCertPath env name w <> "".
Proof.
  intros Hn. unfold devCertPath.
  destruct (fileExists _ _ _); [|destruct (fileExists _ _ _)]; apply Join_nonempty; apply Exists_exists; exists name;
    set_solver.
Qed.

(** The fields the defaults of the certificates and of the control socket leave alone. *)
Definition base_formed (c : Cfg.Config) : Prop :=
  Cfg.ListenAddr c <> "" /\ Cfg.AdminClientOU c <> "" /\ Cfg.SignerMode c <> "" /\
  Cfg.AllowedTTLSeconds c = Cfg.defaultAllowedTTLSeconds /\ in_int64 (Cfg.ApprovalTimeout c).

Definition certs_formed (c : Cfg.Config) : Prop :=
  Cfg.MTLSServerCert c <> "" /\ Cfg.MTLSServerKey c <> "" /\ Cfg.MTLSClientCA c <> "".

Lemma applyMTLSDefaults_formed {N} env (w : World N) c :
  base_formed c -> base_formed (applyMTLSDefaults env c w) /\ certs_formed (applyMTLSDefaults env c w) /\
    Cfg.Env (applyMTLSDefaults env c w) = Cfg.Env c.
Proof.
  intros Hb. unfold applyMTLSDefaults.
  destruct (isDevOrTestEnv (Cfg.Env c)); (split; [exact Hb|]); (split; [|reflexivity]);
    repeat split; apply or_default_nonempty; first [by apply cert_path_nonempty | discriminate].
Qed.

Lemma applyRuntimeDefaults_formed env c :
  base_formed c -> certs_formed c -> well_formed (applyRuntimeDefaults env c) /\
    Cfg.Env (applyRuntimeDefaults env c) = Cfg.Env c.
Proof.
  intros (H1 & H2 & H3 & H4 & H5) (H6 & H7 & H8). split; [|reflexivity]. unfold well_formed, applyRuntimeDefaults, set_control.
  cbn [Cfg.ListenAddr Cfg.AdminClientOU Cfg.SignerMode Cfg.ControlSocket Cfg.ControlSocketGroup Cfg.MTLSServerCert
       Cfg.MTLSServerKey Cfg.MTLSClientCA Cfg.AllowedTTLSeconds Cfg.ApprovalTimeout Cfg.Env].
  split_and!; try assumption; apply or_default_nonempty; [|discriminate].
  destruct (isDevOrTestEnv _); [apply control_socket_nonempty|discriminate].
Qed.

Lemma configFromViper_ok {N} env get (w : World N) c :
  configFromViper env get w = Ok c ->
  well_formed c /\ validateMTLS env c w = Ok tt /\ Cfg.Env c = TrimSpace (get "env").
Proof.
  unfold configFromViper. destruct (ParseDuration _) as [d|] eqn:Ed; [|done]. apply ParseDuration_range in Ed.
  cbv zeta. set (c0 := Cfg.mkConfig _ _ _ _ _ _ _ _ _ _ _ _ _ _ _ _ _ _ _ _ _).
  assert (Hb : base_formed c0).
  { repeat split; try (apply or_default_nonempty; discriminate); apply Ed. }
  assert (He : Cfg.Env c0 = TrimSpace (get "env")) by reflexivity. clearbody c0.
  destruct (applyMTLSDefaults_formed env w c0 Hb) as (Hb1 & Hc1 & He1).
  destruct (applyRuntimeDefaults_formed env _ Hb1 Hc1) as [Hwf He2].
  intros Hok. apply bind_ok in Hok as ([] & Hv & Hc). injection Hc as <-.
  split; [exact Hwf|]. split; [exact Hv|]. by rewrite He2, He1.
Qed.

Lemma mergeConfigFiles_world {N} env `{ViperLib} paths v (w : World N) : (mergeConfigFiles env v paths w).1 = w.
Proof.
  revert v. induction paths as [|p paths IH]; intros v; [done|]. simpl. destruct (fileExists env p w); [|apply IH].
  simpl. unfold mbind, io_bind, wrapping, ReadFile. destruct (read_fails env _); [done|].
  destruct (files w !! _); [|done]. destruct (MergeInConfig _ _ _); [apply IH|done].
Qed.

Lemma load_settings_ok {N} env `{ViperLib} v paths binds (w w' : World N) r :
  load_settings env v paths binds w = (w', Ok r) -> w' = w /\ exists v', r = AutomaticEnv v'.
Proof.
  unfold load_settings. intros Hl. io_ok. subst. split; [|by eexists].
  destruct (negb _).
  - unfold readConfigFileIfExists in *. destruct (Stat _ _ _); [|by simplify_eq..].
    io_ok. destruct (ReadInConfig _ _ _); io_ok; subst; unfold ReadFile in *; by simplify_eq.
  - match goal with H : mergeConfigFiles env v paths w = _ |- _ =>
      pose proof (mergeConfigFiles_world env paths v w) as Hw; rewrite H in Hw end. done.
Qed.

(** C26: a configuration that loads is complete: addresses, organizational units, signer mode, control
    socket and certificate paths are never empty, the grant lifetimes are the built-in ones and the
    approval timeout is an [int64].  Unless the environment is [dev] or [test], the three TLS files
    exist and none of them lies below a [testdata/ca] directory, however its path is written.  Loading
    changes nothing. *)
Theorem production_config_checked {N} env `{ViperLib} (w w' : World N) c wd :
  Load env w = (w', Ok c) -> Getwd env = Some wd -> IsAbs wd = true -> cwd env = resolve [] wd ->
  w' = w /\ well_formed c /\
  (isDevOrTestEnv (Cfg.Env c) = false ->
   forall p, p ∈ [Cfg.MTLSServerCert c; Cfg.MTLSServerKey c; Cfg.MTLSClientCA c] ->
     fileExists env p w = true /\ ~ below_testdata (rev (key env p))).
Proof.
  intros Hl Hwd Ha Hc. unfold Load in Hl. io_ok. subst.
  match goal with H : newViper _ _ = _ |- _ => apply load_settings_ok in H as [-> _] end.
  match goal with H : configFromViper _ _ _ = Ok _ |- _ => apply configFromViper_ok in H as (Hwf & Hv & _) end.
  split; [done|]. split; [done|]. intros He p Hp. unfold validateMTLS in Hv. rewrite He in Hv.
  destruct (_ || _); [done|]. inv_ok.
  repeat match goal with a : unit |- _ => destruct a end.
  repeat match goal with H : check_cert_file _ _ _ _ = Ok tt |- _ => apply (check_cert_file_ok _ _ _ _ wd Hwd Ha Hc) in H end.
  set_solver.
Qed.

(** a variable that is just called [ENV] decides the mode: the automatic variables of viper put it
    before [LUNA_ENV] and before the configuration file, so with [ENV=dev] in the environment of the
    process every transaction the store opens starts an approver of its own. *)
Theorem env_variable_disables_approval {N} env `{ViperLaws} (w w' : World N) c st ulid now u ip pk sip fp data hfp dfp m :
  Getenv env "ENV" = "dev" -> Load env w = (w', Ok c) ->
  Cfg.Env c = "dev" /\ (Appr.CreateBound ulid now (Appr.SetConfig st c) u ip pk sip fp data hfp dfp m).2 = true.
Proof.
  intros He Hl. unfold Load in Hl. io_ok. subst.
  match goal with H : newViper _ _ = _ |- _ => apply load_settings_ok in H as [-> [v ->]] end.
  match goal with H : configFromViper _ _ _ = Ok _ |- _ => apply configFromViper_ok in H as (_ & _ & Hc) end.
  assert (E : GetString (Getenv env) (AutomaticEnv v) "env" = "dev").
  { rewrite automatic_env; change (env_name "env") with "ENV"; by rewrite He. }
  rewrite E in Hc. change (TrimSpace "dev") with "dev" in Hc. split; [done|]. simpl. by rewrite Hc.
Qed.

End Load.

(** ** The agent *)
Module AgentLoad.
Import Agent.

Section load.
Context {N : Type} (env : Environ) `{ViperLib}.
Notation W := (World N).

(** [DebugEnabled] (debug.go) *)
Definition DebugEnabled : bool :=
  let v := TrimSpace (Getenv env "LUNA_AGENT_DEBUG") in (v =s "1") || (ToLower v =s "true").

Definition isDevEnv : bool :=
  let e := TrimSpace (Getenv env "LUNA_ENV") in (e =s "dev") || (e =s "test").

(** The three paths of [applyAgentDefaults]. *)
Definition applyAgentDefaults (c : Config) : Config :=
  if isDevEnv then c else
  let certsDir := Join ["/etc/luna/certs"] in
  mkConfig (ProxyURL c) (Load.or_default (MTLSCert c) (Join [certsDir; "client.crt"]))
    (Load.or_default (MTLSKey c) (Join [certsDir; "client.key"])) (Load.or_default (MTLSCA c) (Join [certsDir; "ca.crt"]))
    (TargetUser c) (TargetHost c) (SocketPath c) (cfg_SignerMode c) (ApprovalTimeout c) (HostKeyFingerprint c)
    (HostedPublicKey c).

(** *** The socket (socket.go) *)

Definition UserSocketPath : string :=
  let d := TrimSpace (Getenv env "XDG_RUNTIME_DIR") in
  if negb (d =s "") then Join [d; "luna"; "agent.sock"] else
  match UserHomeDir env with
  | None => Join [".cache"; "luna"; "agent.sock"]
  | Some home => Join [home; ".cache"; "luna"; "agent.sock"]
  end.

Definition isProductionRuntimeSocket (socketPath : string) : bool :=
  let p := Clean socketPath in (p =s defaultSocketPath) || HasPrefix p "/run/luna/".

(** The test file that [productionSocketDirUsable] creates is removed again. *)
Definition productionSocketDirUsable (dir : string) : bool :=
  if stat_fails env (key env dir) then false else is_dir env (key env dir) && can_create env (key env dir).

Definition ResolveSocketPath (configured : string) : string :=
  let configured := TrimSpace configured in
  let configured := if configured =s "" then defaultSocketPath else configured in
  if negb (isProductionRuntimeSocket configured) then configured else
  if productionSocketDirUsable (Dir configured) then configured else
  if Geteuid env =? 0 then configured else UserSocketPath.

Definition EnsureSocketDir (socketPath : string) : IO W unit :=
  let dir := Dir socketPath in
  if (dir =s "") || (dir =s ".") then mret tt else
  wrapping ("create socket directory " +:+ dir) (MkdirAll env dir).

(** *** [Load] *)

Definition missing_settings (c : Config) : list string :=
  (if ProxyURL c =s "" then ["LUNA_PROXY_URL"] else []) ++ (if MTLSCert c =s "" then ["LUNA_MTLS_CERT"] else []) ++
  (if MTLSKey c =s "" then ["LUNA_MTLS_KEY"] else []) ++ (if MTLSCA c =s "" then ["LUNA_MTLS_CA"] else []) ++
  (if TargetUser c =s "" then ["LUNA_TARGET_USER"] else []) ++
  (if TargetHost c =s "" then ["LUNA_TARGET_HOST"] else []).

Definition set_socket (c : Config) (p : string) : Config :=
  mkConfig (ProxyURL c) (MTLSCert c) (MTLSKey c) (MTLSCA c) (TargetUser c) (TargetHost c) p (cfg_SignerMode c)
    (ApprovalTimeout c) (HostKeyFingerprint c) (HostedPublicKey c).

Definition configFromViper (get : string -> string) : result Config :=
  match ParseDuration (get "approval_timeout") with
  | Err e => Err (annotate "approval_timeout" e)
  | Ok approvalTimeout =>
      let approvalTimeout := if approvalTimeout <=? 0 then defaultApprovalTimeout else approvalTimeout in
      let t k := TrimSpace (get k) in
      let c := mkConfig (t "proxy_url") (t "mtls_cert") (t "mtls_key") (t "mtls_ca") (t "target_user")
        (t "target_host") (Load.or_default (t "agent_socket") defaultSocketPath)
        (Load.or_default (t "signer_mode") SignerModeLocalKey) approvalTimeout (t "host_key_fingerprint")
        (t "hosted_public_key") in
      let c := applyAgentDefaults c in
      let c := set_socket c (ResolveSocketPath (SocketPath c)) in
      match missing_settings c with
      | [] => Ok c
      | missing => Err (errorf ("missing required environment: " +:+ Join_strings ", " missing))
      end
  end.

Definition env_bindings : list (string * string) :=
  [("proxy_url", "LUNA_PROXY_URL"); ("mtls_cert", "LUNA_MTLS_CERT"); ("mtls_key", "LUNA_MTLS_KEY");
   ("mtls_ca", "LUNA_MTLS_CA"); ("target_user", "LUNA_TARGET_USER"); ("target_host", "LUNA_TARGET_HOST");
   ("agent_socket", "LUNA_AGENT_SOCKET"); ("signer_mode", "LUNA_SIGNER_MODE");
   ("host_key_fingerprint", "LUNA_HOST_KEY_FINGERPRINT"); ("hosted_public_key", "LUNA_HOSTED_PUBLIC_KEY");
   ("approval_timeout", "LUNA_APPROVAL_TIMEOUT")].

Definition newAgentViper : IO W Viper :=
  let v := viper_New in
  let v := SetDefault "agent_socket" defaultSocketPath v in
  let v := SetDefault "signer_mode" SignerModeLocalKey v in
  let v := SetDefault "approval_timeout" (Duration_String defaultApprovalTimeout) v in
  load_settings env v (agentConfigPaths env) env_bindings.

(** [Load]; [LoadFromEnv] is the same. *)
Definition Load : IO W Config :=
  v ← newAgentViper;
  lift (configFromViper (GetString (Getenv env) v)).

End load.

(** ** What a loaded configuration guarantees *)

Lemma missing_settings_nil c :
  missing_settings c = [] <->
  ProxyURL c <> "" /\ MTLSCert c <> "" /\ MTLSKey c <> "" /\ MTLSCA c <> "" /\ TargetUser c <> "" /\ TargetHost c <> "".
Proof.
  unfold missing_settings.
  destruct (ProxyURL c =s "") eqn:E1, (MTLSCert c =s "") eqn:E2, (MTLSKey c =s "") eqn:E3, (MTLSCA c =s "") eqn:E4,
    (TargetUser c =s "") eqn:E5, (TargetHost c =s "") eqn:E6; str_prop; simpl; naive_solver.
Qed.

Lemma UserSocketPath_nonempty env : UserSocketPath env <> "".
Proof.
  unfold UserSocketPath. destruct (negb _); [|destruct (UserHomeDir env)]; apply Join_nonempty; apply Exists_exists;
    exists "luna"; set_solver.
Qed.

(** Where the socket can be. *)
Lemma ResolveSocketPath_cases env configured :
  let p := ResolveSocketPath env configured in
  p <> "" /\
  (p = UserSocketPath env \/
   (p = (if TrimSpace configured =s "" then defaultSocketPath else TrimSpace configured) /\
    (isProductionRuntimeSocket p = false \/ Geteuid env = 0 \/ productionSocketDirUsable env (Dir p) = true))).
Proof.
  unfold ResolveSocketPath. cbv zeta. destruct (TrimSpace configured =s "") eqn:E; str_prop.
  - set (p := defaultSocketPath). assert (Hp : p <> "") by discriminate. clearbody p.
    pose proof (UserSocketPath_nonempty env). destruct (isProductionRuntimeSocket p) eqn:Ep; cbn [negb]; [|by auto].
    destruct (productionSocketDirUsable env (Dir p)) eqn:Eu; [by auto 6|].
    destruct (Geteuid env =? 0) eqn:Eg; bool_prop; auto 6.
  - set (p := TrimSpace configured) in *. clearbody p.
    pose proof (UserSocketPath_nonempty env). destruct (isProductionRuntimeSocket p) eqn:Ep; cbn [negb]; [|by auto].
    destruct (productionSocketDirUsable env (Dir p)) eqn:Eu; [by auto 6|].
    destruct (Geteuid env =? 0) eqn:Eg; bool_prop; auto 6.
Qed.

Lemma agentConfig_ok env get c :
  configFromViper env get = Ok c ->
  missing_settings c = [] /\ 0 < ApprovalTimeout c /\ in_int64 (ApprovalTimeout c) /\ cfg_SignerMode c <> "" /\
  exists s, SocketPath c = ResolveSocketPath env s.
Proof.
  unfold configFromViper. destruct (ParseDuration _) as [d|] eqn:Ed; [|done]. apply ParseDuration_range in Ed.
  cbv zeta. set (t := if d <=? 0 then _ else d).
  assert (Ht : 0 < t /\ in_int64 t).
  { unfold t. destruct (d <=? 0) eqn:E; bool_prop; [|done]. split; [done|]. by vm_compute. }
  clearbody t. set (c0 := mkConfig _ _ _ _ _ _ _ _ _ _ _).
  assert (H0 : 0 < ApprovalTimeout c0 /\ in_int64 (ApprovalTimeout c0) /\ cfg_SignerMode c0 <> "").
  { split; [apply Ht|]. split; [apply Ht|]. apply Load.or_default_nonempty. discriminate. }
  clearbody c0. destruct (missing_settings _) eqn:Em; [|done]. intros [= <-].
  split; [exact Em|]. unfold applyAgentDefaults, set_socket.
  cbn [ApprovalTimeout cfg_SignerMode SocketPath]. destruct (isDevEnv env); cbn [ApprovalTimeout cfg_SignerMode SocketPath];
    destruct H0 as (? & ? & ?); split_and!; try done; by eexists.
Qed.

(** an agent configuration that loads names the proxy, the target and all three TLS files, has a
    positive approval timeout and a signer mode, and a socket the process can use: never a path under
    [/run/luna] that is not writable unless it runs as root or that is where its user sockets are. *)
Theorem agent_config_complete {N} env `{ViperLib} (w w' : World N) c :
  Load env w = (w', Ok c) ->
  w' = w /\ ProxyURL c <> "" /\ MTLSCert c <> "" /\ MTLSKey c <> "" /\ MTLSCA c <> "" /\ TargetUser c <> "" /\
  TargetHost c <> "" /\ cfg_SignerMode c <> "" /\ 0 < ApprovalTimeout c /\ in_int64 (ApprovalTimeout c) /\
  SocketPath c <> "" /\
  (isProductionRuntimeSocket (SocketPath c) = false \/ Geteuid env = 0 \/ SocketPath c = UserSocketPath env \/
   productionSocketDirUsable env (Dir (SocketPath c)) = true).
Proof.
  intros Hl. unfold Load in Hl. io_ok. subst.
  match goal with H : newAgentViper _ _ = _ |- _ => apply Load.load_settings_ok in H as [-> _] end.
  match goal with H : configFromViper _ _ = Ok _ |- _ =>
    apply agentConfig_ok in H as (Hm & Ht & Hi & Hs & s & Hp) end.
  apply missing_settings_nil in Hm as (? & ? & ? & ? & ? & ?).
  destruct (ResolveSocketPath_cases env s) as [Hne Hc]. rewrite <- Hp in *. cbv zeta in *.
  split_and!; try done. destruct Hc as [Hc|[_ [Hc|[Hc|Hc]]]]; auto.
Qed.

End AgentLoad.

(** ** A concrete viper: files of [key:value] lines *)
Module LoadDemo.

Record settings := mkSettings {
  defaults : list (string * string);
  from_files : list (string * string);
  bound : list (string * string);
  automatic : bool
}.

Fixpoint lookup (k : string) (l : list (string * string)) : string :=
  match l with [] => "" | (k', v) :: l => if k =s k' then v else lookup k l end.

Definition parse_lines (data : list byte) : list (string * string) :=
  concat (map (fun line => match Split line ":"%char with [k; v] => [(k, v)] | _ => [] end)
            (Split (string_of data) (Ascii.ascii_of_byte Byte.x0a))).

Definition first_set (l : list string) : string :=
  match List.filter (fun s => negb (s =s "")) l with s :: _ => s | [] => "" end.

#[export] Instance demo_viper : ViperLib := {|
  Viper := settings;
  viper_New := mkSettings [] [] [] false;
  SetDefault k v s := mkSettings ((k, v) :: defaults s) (from_files s) (bound s) (automatic s);
  ReadInConfig _ data s := Some (mkSettings (defaults s) (parse_lines data) (bound s) (automatic s));
  MergeInConfig _ data s := Some (mkSettings (defaults s) (parse_lines data ++ from_files s) (bound s) (automatic s));
  BindEnv k e s := mkSettings (defaults s) (from_files s) ((k, e) :: bound s) (automatic s);
  AutomaticEnv s := mkSettings (defaults s) (from_files s) (bound s) true;
  GetString env s k := first_set [if automatic s then env (env_name k) else ""; env (lookup k (bound s));
                                  lookup k (from_files s); lookup k (defaults s)]
|}.

#[export] Instance demo_viper_laws : ViperLaws.
Proof.
  constructor. intros env v k Hk. simpl. unfold first_set. simpl.
  by rewrite (proj2 (str_eqb_neq _ _) Hk).
Qed.

Definition demo_env (vars : list (string * string)) : Environ :=
  mkEnviron (fun k => lookup k vars) 0 (Some "/srv") ["srv"] 18 (fun _ => false) (fun _ => false) (fun _ => NoFault)
    (fun _ => false) (fun _ => false) (fun _ => false) (fun k => bool_decide (k = ["luna"; "run"])) (fun _ => true).

Definition pem_file : File := mkFile (bytes_of "PEM") 420 None.
Definition demo_world : World unit := mkWorld
  (list_to_map [(["server.crt"; "certs"; "luna"; "etc"], pem_file); (["server.key"; "certs"; "luna"; "etc"], pem_file);
                (["ca.crt"; "certs"; "luna"; "etc"], pem_file);
                (["proxy.yml"; "luna"; "etc"], mkFile (bytes_of "listen_addr::9443") 420 None);
                (["agent.yml"; "luna"; "etc"], mkFile (bytes_of "target_user:root") 420 None)]) [] [] tt.

Lemma production_config_checked_witness : exists w c,
  Load.Load (demo_env []) demo_world = (w, Ok c) /\ Load.well_formed c.
Proof.
  destruct (io_run (Load.Load (demo_env [])) demo_world) as (w & c & E); [vm_compute; reflexivity|].
  exists w, c. split; [exact E|].
  exact (proj1 (proj2 (Load.production_config_checked _ _ _ _ _ E eq_refl eq_refl eq_refl))).
Defined.

Lemma env_variable_disables_approval_witness : exists w c,
  Load.Load (demo_env [("ENV", "dev")]) demo_world = (w, Ok c) /\ Cfg.Env c = "dev".
Proof.
  destruct (io_run (Load.Load (demo_env [("ENV", "dev")])) demo_world) as (w & c & E); [vm_compute; reflexivity|].
  exists w, c. split; [exact E|].
  exact (proj1 (Load.env_variable_disables_approval (demo_env [("ENV", "dev")]) _ _ _ (Appr.NewStore 0) "" 0 "" "" "" "" "" "" "" ""
    (Appr.mkClientMeta "" "" "" "" false) eq_refl E)).
Defined.

Definition agent_vars : list (string * string) :=
  [("LUNA_PROXY_URL", "https://proxy"); ("LUNA_TARGET_HOST", "10.0.0.7")].

Lemma agent_config_complete_witness : exists w c,
  AgentLoad.Load (demo_env agent_vars) demo_world = (w, Ok c) /\ Agent.TargetUser c <> "".
Proof.
  destruct (io_run (AgentLoad.Load (demo_env agent_vars)) demo_world) as (w & c & E); [vm_compute; reflexivity|].
  exists w, c. split; [exact E|].
  destruct (AgentLoad.agent_config_complete _ _ _ _ E) as (_ & _ & _ & _ & _ & Hu & _). exact Hu.
Defined.

End LoadDemo.
