(* ===== verification/ControlClient.v ===== *)
(** * The control socket's client and wire format (proxy/internal/control/client/client.go,
      proxy/internal/control/types.go)

    One request, one line; one response, one line.  The client and the server read lines with a
    [bufio.Scanner], which gives up on a line of 64 KiB. *)

From Stdlib Require Import Ascii.
From S2P Require Import Prelude GoTime GoStrings GoEncoding GoUtf8 GoJson GoFormat GoOs External Fingerprint Keystore Pending Signing Config Approval Devices Csr Http Control Wire.

Module CtlWire.
Import Json.

(** ** [bufio.Scanner] on lines *)

Definition MaxScanTokenSize : Z := 65536.

(** Everything before the first newline, and the rest after it. *)
Fixpoint cut_line (l : list byte) : list byte * option (list byte) :=
  match l with
  | [] => ([], None)
  | b :: l' => if byte_val b =? 10 then ([], Some l')
               else let '(x, rest) := cut_line l' in (b :: x, rest)
  end.

Definition drop_cr (l : list byte) : list byte :=
  match rev l with b :: l' => if byte_val b =? 13 then rev l' else l | [] => [] end.

Inductive scan := ScanLine (l rest : list byte) | ScanEOF | ScanTooLong.

Definition Scan (input : list byte) : scan :=
  match cut_line input with
  | ([], None) => ScanEOF
  | (l, rest) => if Z.of_nat (length l) <? MaxScanTokenSize then ScanLine (drop_cr l) (default [] rest) else ScanTooLong
  end.

(** ** Requests *)

(** [omitempty] of a [json.RawMessage] *)
Definition omit_raw (d : list byte) : option (list byte) := match d with [] => None | _ => Some d end.

Definition enc_request (q : Ctl.Request) : list byte := e_struct
  [("op", Some (e_string (Ctl.Op q))); ("id", omit_string (Ctl.req_ID q));
   ("data", omit_raw (Ctl.Data q))].

Definition dec_request : decoder Ctl.Request := d_struct (fun ms old =>
  op ← get_field d_string "op" ms (Ctl.Op old);
  id ← get_field d_string "id" ms (Ctl.req_ID old);
  d ← get_field d_raw "data" ms (Ctl.Data old);
  Some (Ctl.mkRequest op id d)).

Definition dec_keyLoad : decoder Ctl.keyLoadData := d_struct (fun ms old =>
  p ← get_field d_string "path" ms (Ctl.kl_Path old);
  w ← get_field d_string "passphrase" ms (Ctl.kl_Passphrase old);
  c ← get_field d_string "comment" ms (Ctl.kl_Comment old);
  Some (Ctl.mkKeyLoad p w c)).
Definition dec_keyConfirm : decoder Ctl.keyConfirmData := d_struct (fun ms old =>
  i ← get_field d_string "pending_id" ms (Ctl.kc_PendingID old);
  w ← get_field d_string "passphrase" ms (Ctl.kc_Passphrase old);
  Some (Ctl.mkKeyConfirm i w)).
Definition dec_mobileEnroll : decoder Ctl.mobileEnrollData := d_struct (fun ms old =>
  l ← get_field d_string "label" ms (Ctl.me_Label old);
  k ← get_field d_string "device_pubkey" ms (Ctl.me_DevicePubKey old);
  c ← get_field d_string "cert_fingerprint" ms (Ctl.me_CertFingerprint old);
  Some (Ctl.mkMobileEnroll l k c)).
Definition dec_cliEnroll : decoder Ctl.cliEnrollData := d_struct (fun ms old =>
  l ← get_field d_string "label" ms (Ctl.ce_Label old);
  c ← get_field d_string "csr_pem" ms (Ctl.ce_CSRPEM old);
  Some (Ctl.mkCliEnroll l c)).

#[export] Instance go_control_json : Ctl.CtlJson := {|
  Ctl.json_keyLoad := Unmarshal dec_keyLoad (Ctl.mkKeyLoad "" "" "");
  Ctl.json_keyRemove := Unmarshal (Wire.dec_one "fingerprint") "";
  Ctl.json_keyConfirm := Unmarshal dec_keyConfirm (Ctl.mkKeyConfirm "" "");
  Ctl.json_keyReject := Unmarshal (Wire.dec_one "pending_id") "";
  Ctl.json_mobileEnroll := Unmarshal dec_mobileEnroll (Ctl.mkMobileEnroll "" "" "");
  Ctl.json_mobileDelete := Unmarshal (Wire.dec_one "device_id") "";
  Ctl.json_cliEnroll := Unmarshal dec_cliEnroll (Ctl.mkCliEnroll "" "");
  Ctl.json_cliDelete := Unmarshal (Wire.dec_one "device_id") "";
  Ctl.json_request := Unmarshal dec_request (Ctl.mkRequest "" "" [])
|}.


(** ** Responses

    Maps are written in the order of their keys.  The listing of signers is [nil] without a CA key,
    and empty, not [nil], for a pool without keys. *)

(** The slots of a structure are texts of their values. *)
Ltac slots := repeat first [apply List.Forall_nil | apply List.Forall_cons; [first [assumption|auto with luna]|]].

Section wire.
Context `{HashLib, SshLib}.

Definition RFC3339Nano (t : Z) : string := TrimRight (RFC3339 t) "Z"%char +:+ fraction t 9 +:+ "Z".

Definition enc_signer (i : Ks.SignerInfo) : list byte := e_struct
  [("fingerprint", Some (e_string (Ks.si_Fingerprint i))); ("public_key", omit_string (Ks.si_PublicKey i));
   ("comment", omit_string (Ks.si_Comment i))].

Definition enc_signers (k : Ks.Keystore) (l : list Ks.SignerInfo) : list byte :=
  match Ks.mode k, Ks.pool k with
  | Ks.ModeLocalKey, Some _ => e_list (map enc_signer l)
  | _, _ => Wire.e_slice (map enc_signer l)
  end.

Definition enc_pendingItem (i : Ctl.pendingItem) : list byte := e_struct
  [("id", Some (e_string (Ctl.pi_ID i))); ("device_id", Some (e_string (Ctl.pi_DeviceID i)));
    ("label", Some (e_string (Ctl.pi_Label i))); ("comment", omit_string (Ctl.pi_Comment i));
   ("expires_at", Some (e_string (Ctl.pi_ExpiresAt i)))].

(** [mobile.Device] has no tags. *)
Definition enc_mobileDevice (d : Mob.Device) : list byte := e_struct
  [("ID", Some (e_string (Mob.ID d))); ("Label", Some (e_string (Mob.Label d)));
    ("PubKey", Some (e_bytes (Some (Mob.PubKey d)))); ("CertFingerprint", Some (e_string (Mob.CertFingerprint d)));
   ("EnrolledAt", Some (e_string (RFC3339Nano (Mob.EnrolledAt d))))].

(** The [Data] of a response; [k] is the keystore it lists. *)
Definition enc_data (k : Ks.Keystore) (d : Ctl.data) : option (list byte) :=
  match d with
  | Ctl.DNone => None
  | Ctl.DStatus sealed m loaded n => Some (e_struct
      [("loaded", Some (enc_signers k loaded)); ("pending", Some (e_int n)); ("sealed", Some (e_bool sealed));
       ("signer_mode", Some (e_string m))])
  | Ctl.DFingerprint fp => Some (e_struct [("fingerprint", Some (e_string fp))])
  | Ctl.DSigners l => Some (e_struct [("signers", Some (enc_signers k l))])
  | Ctl.DPending l => Some (e_struct [("pending", Some (e_list (map enc_pendingItem l)))])
  | Ctl.DDevice id => Some (e_struct [("device_id", Some (e_string id))])
  | Ctl.DMobile l => Some (e_struct [("devices", Some (e_list (map enc_mobileDevice l)))])
  | Ctl.DCliEnroll id pem =>
      Some (e_struct [("certificate_pem", Some (e_string pem)); ("device_id", Some (e_string id))])
  | Ctl.DCliDevices l => Some (e_struct [("devices", Some (e_list (map Wire.enc_cliDevice l)))])
  end.

Definition enc_response (k : Ks.Keystore) (r : Ctl.Response) : list byte := e_struct
  [("ok", Some (e_bool (Ctl.OK r))); ("id", omit_string (Ctl.res_ID r)); ("data", enc_data k (Ctl.res_Data r));
   ("error", omit_string (Ctl.res_Error r)); ("code", omit_string (Ctl.Code r))].

(** A response as the client decodes it: [Data] is raw. *)
Record response := mkResponse { r_OK : bool; r_ID : string; r_Data : list byte; r_Error : string; r_Code : string }.
Definition dec_response : decoder response := d_struct (fun ms old =>
  o ← get_field d_bool "ok" ms (r_OK old);
  i ← get_field d_string "id" ms (r_ID old);
  d ← get_field d_raw "data" ms (r_Data old);
  e ← get_field d_string "error" ms (r_Error old);
  c ← get_field d_string "code" ms (r_Code old);
  Some (mkResponse o i d e c)).

(** ** The client (client.go)

    A request's payload is a map of texts, written in the order of its keys, or nothing. *)

Fixpoint insert_field (kv : string * string) (l : list (string * string)) : list (string * string) :=
  match l with
  | [] => [kv]
  | kv' :: l' => if String.leb kv.1 kv'.1 then kv :: l else kv' :: insert_field kv l'
  end.
Definition sort_fields (l : list (string * string)) : list (string * string) := foldr insert_field [] l.

Definition enc_map (m : list (string * string)) : list byte :=
  e_struct (map (fun kv => (kv.1, Some (e_string kv.2))) (sort_fields m)).

Definition request (op : string) (data : option (list (string * string))) : Ctl.Request :=
  Ctl.mkRequest op "" (match data with None => [] | Some m => enc_map m end).

(** A socket: dialling or writing fails with a [net.OpError], or the peer sends some bytes and
    closes. *)
Record CtlNet (N : Type) := mkCtlNet { ctl_exchange : string -> list byte -> N -> N * result (list byte) }.
#[global] Arguments mkCtlNet {N} _.
#[global] Arguments ctl_exchange {N} _ _ _ _.

Inductive call_error := OpError (e : error) | CallError (e : error).

Definition decode_response (got : list byte) : call_error + list byte :=
  match Scan got with
  | ScanLine l _ =>
      match Unmarshal dec_response (mkResponse false "" [] "" "") l with
      | None => inl (CallError (errorf "invalid json"))
      | Some r =>
          if r_OK r then inr (r_Data r)
          else if negb (r_Error r =s "") then inl (CallError (errorf (r_Error r)))
          else inl (CallError (errorf "control error"))
      end
  | _ => inl (CallError (errorf "no response"))
  end.

Definition Call {N} (net : CtlNet N) (socketPath op : string) (data : option (list (string * string))) (n : N)
    : N * (call_error + list byte) :=
  match ctl_exchange net socketPath (enc_request (request op data) ++ [byte_of 10]) n with
  | (n, Err e) => (n, inl (OpError e))
  | (n, Ok got) => (n, decode_response got)
  end.

(** ** The server's end (server.go)

    One line is read and one is written; a line that is too long is not answered. *)
Section served.
Context `{Csr.X509Lib}.
Context (env : Ctl.Env) (cred : option (Z * Z)) (euid : Z) (lookup : string -> option string) (group : string).

Definition serve_bytes (input : list byte) (s : Ctl.Server) : Ctl.Server * list byte :=
  let line := match Scan input with ScanLine l _ => Some l | _ => None end in
  match Ctl.serveConn env cred euid lookup group line s with
  | (s, None) => (s, [])
  | (s, Some resp) => (s, enc_response (Ctl.keystore s) resp ++ [byte_of 10])
  end.

(** The proxy behind its socket; elsewhere nothing listens.  The kernel is taken to buffer the whole
    request before the server closes, so that writing it does not fail. *)
Definition server_net (path : string) : CtlNet Ctl.Server := mkCtlNet (fun p input s =>
  if p =s path then let '(s, out) := serve_bytes input s in (s, Ok out) else (s, Err (errorf "dial unix"))).
End served.

(** ** Lines *)

Definition oneline (l : list byte) : Prop := Forall (fun b => byte_val b <> 10) l.

Lemma oneline_app l1 l2 : oneline (l1 ++ l2) <-> oneline l1 /\ oneline l2.
Proof. apply Forall_app. Qed.

Lemma quote_ascii_oneline b : byte_val b < 128 -> oneline (quote_ascii b).
Proof.
  intros Hb. assert (Hf : forallb (fun b => negb (byte_val b =? 10)) (quote_ascii b) = true).
  { destruct b; vm_compute in Hb; (discriminate Hb || reflexivity). }
  rewrite forallb_forall in Hf. apply Forall_forall. intros x Hx%list_elem_of_In%Hf E.
  by rewrite E in Hx.
Qed.

Lemma high_oneline l : Forall (fun b => 128 <= byte_val b) l -> oneline l.
Proof. intros Hl. eapply Forall_impl; [exact Hl|]. simpl. lia. Qed.

Lemma quote_oneline l : oneline (quote_bytes true 0 l).
Proof.
  induction l as [[|b l] IH] using length_ind; [constructor|]. cbn [quote_bytes].
  destruct (Z.ltb_spec (byte_val b) 128) as [Hb|Hb].
  { apply oneline_app. split; [by apply quote_ascii_oneline|apply IH; simpl; lia]. }
  destruct (decode_rune b l) as [r size] eqn:Ed.
  apply decode_rune_spec in Ed as [?|(_ & _ & Hf)]; [lia|].
  pose proof (length_drop l (size - 1)).
  destruct ((r =? RuneError) && (size =? 1)%nat).
  { apply oneline_app. split; [by repeat constructor|apply IH; simpl; lia]. }
  destruct ((r =? 8232) || (r =? 8233)) eqn:Er.
  - rewrite quote_skip. apply oneline_app. split; [by repeat constructor|].
    apply oneline_app. split; [|apply IH; simpl; lia].
    by apply orb_true_iff in Er as [->%Z.eqb_eq| ->%Z.eqb_eq]; repeat constructor.
  - rewrite quote_copy, app_comm_cons. apply oneline_app.
    split; [apply high_oneline; by constructor|apply IH; simpl; lia].
Qed.

Lemma e_string_oneline s : oneline (e_string s).
Proof. constructor; [done|]. apply oneline_app. split; [apply quote_oneline|by repeat constructor]. Qed.

Lemma e_int_oneline z : oneline (e_int z).
Proof.
  unfold e_int. pose proof (FormatInt_chars z) as Hc. rewrite forallb_forall in Hc. apply Forall_forall.
  intros b Hb%list_elem_of_In%Hc E. destruct b; (discriminate Hb || discriminate E).
Qed.

Lemma e_bool_oneline b : oneline (e_bool b).
Proof. by destruct b; repeat constructor. Qed.

Lemma e_join_oneline l : Forall oneline l -> oneline (e_join l).
Proof.
  induction 1 as [|x l Hx Hl IH]; [constructor|]. cbn [e_join]. destruct l; [done|].
  apply oneline_app. split; [done|]. by constructor.
Qed.

Lemma e_list_oneline l : Forall oneline l -> oneline (e_list l).
Proof.
  intros. constructor; [done|]. apply oneline_app. split; [by apply e_join_oneline|by repeat constructor].
Qed.

Lemma e_struct_oneline fs : Forall (fun f => from_option oneline True f.2) fs -> oneline (e_struct fs).
Proof.
  intros Hf. constructor; [done|]. apply oneline_app. split; [|by repeat constructor]. apply e_join_oneline.
  induction Hf as [|[k [t|]] fs Ht _ IH]; simpl; [constructor| |done]. constructor; [|done].
  apply oneline_app. split; [apply e_string_oneline|by constructor].
Qed.

Lemma omit_oneline s : from_option oneline True (omit_string s).
Proof. unfold omit_string. destruct (s =s ""); [done|apply e_string_oneline]. Qed.

Lemma e_map_oneline {A} (f : A -> list byte) l : (forall x, oneline (f x)) -> oneline (e_list (map f l)).
Proof. intros Hf. apply e_list_oneline. induction l; constructor; auto. Qed.

#[local] Hint Resolve e_string_oneline e_int_oneline e_bool_oneline omit_oneline : oneline.

(** A text built by the encoders has no newline. *)
Ltac oneline := repeat first [solve [auto with oneline] | lazymatch goal with
  | |- oneline (e_struct _) => apply e_struct_oneline
  | |- oneline (e_list (map _ _)) => apply e_map_oneline; intros
  | |- oneline (?f _) => unfold f
  | |- Forall _ (_ :: _) => apply List.Forall_cons; simpl
  | |- Forall _ [] => apply List.Forall_nil
  end].

Lemma enc_signers_oneline k l : oneline (enc_signers k l).
Proof.
  assert (He : oneline (e_list (map enc_signer l))) by oneline.
  unfold enc_signers, Wire.e_slice. destruct (Ks.mode k), (Ks.pool k), l; simpl; first [exact He|by repeat constructor].
Qed.
#[local] Hint Resolve enc_signers_oneline : oneline.

Lemma enc_data_oneline k d : from_option oneline True (enc_data k d).
Proof. destruct d; simpl; oneline. Qed.
#[local] Hint Resolve enc_data_oneline : oneline.

Lemma enc_response_oneline k r : oneline (enc_response k r).
Proof. unfold enc_response. oneline. Qed.


Lemma cut_oneline l rest : oneline l -> cut_line (l ++ byte_of 10 :: rest) = (l, Some rest).
Proof.
  induction 1 as [|b l Hb _ IH]; [done|]. cbn [app cut_line]. rewrite (proj2 (Z.eqb_neq _ _)) by done. by rewrite IH.
Qed.

(** A line that ends with a brace. *)
Lemma Scan_line l : oneline (l ++ [byte_of 125]) ->
  Scan ((l ++ [byte_of 125]) ++ [byte_of 10]) =
    if Z.of_nat (length (l ++ [byte_of 125])) <? MaxScanTokenSize then ScanLine (l ++ [byte_of 125]) [] else ScanTooLong.
Proof.
  intros Hl. unfold Scan. rewrite cut_oneline by done.
  assert (Hd : drop_cr (l ++ [byte_of 125]) = l ++ [byte_of 125]) by (unfold drop_cr; by rewrite rev_app_distr).
  rewrite Hd. by destruct l.
Qed.

Lemma Scan_struct fs : oneline (e_struct fs) ->
  Scan (e_struct fs ++ [byte_of 10]) =
    if Z.of_nat (length (e_struct fs)) <? MaxScanTokenSize then ScanLine (e_struct fs) [] else ScanTooLong.
Proof. apply (Scan_line (byte_of 123 :: e_join (map e_member (omap (fun f => pair f.1 <$> f.2) fs)))). Qed.

(** ** Texts of some value, whether or not their strings are valid UTF-8 *)

Definition is_json (d : Z) (t : list byte) : Prop := exists v, encodes d t v.

Lemma is_json_string d s : is_json d (e_string s).
Proof.
  exists (VStr (string_of (unquote 0 (quote_bytes true 0 (bytes_of s))))).
  split; [by eexists _, _|]. intros [|n] rest Hn _; [simpl in Hn; lia|].
  pose proof (scan_e_string s rest) as Hsc. unfold e_string in *. cbn [app starts] in Hsc.
  change (byte_val (byte_of 34) =? 34) with true in Hsc. simpl in Hsc. cbn [app parse_value].
  rewrite skip_byte by done. change (byte_val (byte_of 34)) with 34. cbn [Z.eqb Pos.eqb]. by rewrite Hsc.
Qed.

Lemma is_json_list d l : 0 < d -> Forall (is_json (d - 1)) l -> is_json d (e_list l).
Proof.
  intros Hd Hl. assert (Hv : exists vs, Forall2 (encodes (d - 1)) l vs).
  { induction Hl as [|t l [v Hv] _ [vs Hvs]]; [by exists []|]. exists (v :: vs). by constructor. }
  destruct Hv as [vs Hv]. eexists. by eapply encodes_list.
Qed.

Definition field_json (d : Z) (f : string * option (list byte)) : Prop :=
  ValidString f.1 = true /\ from_option (is_json d) True f.2.

Lemma is_json_struct d fs : 0 < d -> Forall (field_json (d - 1)) fs -> is_json d (e_struct fs).
Proof.
  intros Hd Hf. assert (Hs : exists sl, texts sl = fs /\ Forall (slot_ok (d - 1)) sl).
  { induction Hf as [|[k [t|]] fs [Hk Ht] _ (sl & <- & Hsl)]; [by exists []| |].
    - destruct Ht as [v Hv]. exists ((k, Some (t, v)) :: sl). split; [done|by constructor].
    - exists ((k, None) :: sl). split; [done|by constructor]. }
  destruct Hs as (sl & <- & Hs). eexists. by apply encodes_struct.
Qed.

Lemma is_json_int d z : is_json d (e_int z). Proof. eexists. apply encodes_int. Qed.
Lemma is_json_bool d b : is_json d (e_bool b). Proof. eexists. apply encodes_bool. Qed.
Lemma is_json_null d : is_json d (bytes_of "null"). Proof. eexists. apply encodes_null. Qed.
Lemma is_json_bytes d b : is_json d (e_bytes (Some b)). Proof. eexists. apply encodes_bytes. Qed.
Lemma is_json_omit d s : from_option (is_json d) True (omit_string s).
Proof. unfold omit_string. destruct (s =s ""); [done|apply is_json_string]. Qed.
Lemma is_json_map {A} d (f : A -> list byte) l : 0 < d -> (forall x, is_json (d - 1) (f x)) -> is_json d (e_list (map f l)).
Proof. intros Hd Hf. apply is_json_list; [done|]. induction l; constructor; auto. Qed.

#[local] Hint Resolve is_json_string is_json_int is_json_bool is_json_null is_json_bytes is_json_omit : json.

(** A text built by the encoders is JSON. *)
Ltac json := repeat first [solve [auto with json] | lazymatch goal with
  | |- is_json _ (e_struct _) => apply is_json_struct; [lia|]
  | |- is_json _ (e_list (map _ _)) => apply is_json_map; [lia|intros]
  | |- is_json _ (?f _) => unfold f
  | |- field_json _ _ => split; [vm_compute; reflexivity|simpl]
  | |- Forall _ (_ :: _) => apply List.Forall_cons
  | |- Forall _ [] => apply List.Forall_nil
  end].

Lemma is_json_signers d k l : 2 < d -> is_json d (enc_signers k l).
Proof.
  intros Hd. assert (He : is_json d (e_list (map enc_signer l))) by json.
  unfold enc_signers, Wire.e_slice. destruct (Ks.mode k), (Ks.pool k), l; simpl; first [exact He|apply is_json_null].
Qed.

Lemma is_json_data d k x : 4 < d -> from_option (is_json d) True (enc_data k x).
Proof.
  intros Hd. pose proof (fun l => is_json_signers (d - 1) k l ltac:(lia)) as Hs.
  destruct x; simpl; json.
Qed.

(** ** What one end writes, the other reads *)

Lemma slot_raw d k (o : option (list byte)) : ValidString k = true -> from_option (is_json d) True o ->
  exists sl : option (list byte * value), fst <$> sl = o /\ slot_ok d (k, sl).
Proof.
  intros Hk Ho. destruct o as [t|]; [|by exists None].
  destruct Ho as [v Hv]. by exists (Some (t, v)).
Qed.

Lemma get_raw (sl : option (list byte * value)) (o : option (list byte)) :
  fst <$> sl = o -> match sl with Some (t, v) => d_raw v t [] | None => Some [] end = Some (default [] o).
Proof. intros <-. by destruct sl as [[]|]. Qed.

Lemma request_read q :
  ValidString (Ctl.Op q) = true -> ValidString (Ctl.req_ID q) = true ->
  Ctl.Data q = [] \/ is_json (maxNestingDepth - 1) (Ctl.Data q) ->
  Unmarshal dec_request (Ctl.mkRequest "" "" []) (enc_request q) = Some q.
Proof.
  destruct q as [op id data]. cbn [Ctl.Op Ctl.req_ID Ctl.Data]. intros Hop Hid Hd. unfold enc_request.
  cbn [Ctl.Op Ctl.req_ID Ctl.Data].
  assert (Ho : from_option (is_json (maxNestingDepth - 1)) True (omit_raw data) /\ default [] (omit_raw data) = data).
  { destruct data, Hd; done. }
  set (o := omit_raw data) in *.
  destruct Ho as [Ho Eo]. destruct (slot_raw _ "data" o eq_refl Ho) as (sl & Hsl & Hok).
  rewrite omit_text, <- Hsl.
  change (e_struct _) with (e_struct (texts [("op", s_string op); ("id", s_omit id); ("data", sl)])).
  erewrite Unmarshal_encodes by (apply encodes_struct; [done|slots]).
  cbn [dec_request d_struct]. cbn [Ctl.Op Ctl.req_ID Ctl.Data].
  read_field 0%nat ltac:(reflexivity). read_field 1%nat ltac:(apply get_omit).
  read_field 2%nat ltac:(by apply get_raw). by rewrite Eo.
Qed.

Lemma response_read k r :
  ValidString (Ctl.res_ID r) = true -> ValidString (Ctl.res_Error r) = true -> ValidString (Ctl.Code r) = true ->
  Unmarshal dec_response (mkResponse false "" [] "" "") (enc_response k r) =
    Some (mkResponse (Ctl.OK r) (Ctl.res_ID r) (default [] (enc_data k (Ctl.res_Data r))) (Ctl.res_Error r) (Ctl.Code r)).
Proof.
  intros Hi He Hc. unfold enc_response.
  destruct (slot_raw _ "data" _ eq_refl (is_json_data (maxNestingDepth - 1) k (Ctl.res_Data r) eq_refl)) as (sl & Hsl & Hok).
  rewrite !omit_text, <- Hsl.
  change (e_struct _) with (e_struct (texts [("ok", s_bool (Ctl.OK r)); ("id", s_omit (Ctl.res_ID r)); ("data", sl);
    ("error", s_omit (Ctl.res_Error r)); ("code", s_omit (Ctl.Code r))])).
  erewrite Unmarshal_encodes by (apply encodes_struct; [done|slots]).
  cbn [dec_response d_struct r_OK r_ID r_Data r_Error r_Code].
  read_field 0%nat ltac:(reflexivity). read_field 1%nat ltac:(apply get_omit).
  read_field 2%nat ltac:(by apply get_raw). read_field 3%nat ltac:(apply get_omit).
  read_field 4%nat ltac:(apply get_omit). by rewrite Hsl.
Qed.

(** ** Fingerprints in JSON *)

Lemma b64_encode_length padded l : (length (b64_encode padded l) <= 2 * length l + 4)%nat.
Proof.
  induction l as [[|a [|b [|c l]]] IH] using length_ind; simpl; [lia|destruct padded; simpl; lia..|].
  specialize (IH l ltac:(simpl; lia)). lia.
Qed.

Lemma Fingerprint_valid pub : ValidString (Fingerprint pub) = true.
Proof.
  apply valid_graphic. unfold Fingerprint, RawStdEncodeToString. rewrite bytes_of_string_of.
  eapply Forall_impl; [apply b64_chars_ok|]. naive_solver.
Qed.

Lemma Fingerprint_length {L : HashLaws} pub : (String.length (Fingerprint pub) <= 68)%nat.
Proof.
  unfold Fingerprint, RawStdEncodeToString. pose proof (b64_encode_length false (sha256 (pub_marshal pub))) as Hb.
  rewrite sha256_length in Hb. rewrite <- length_bytes_of, bytes_of_string_of. lia.
Qed.

(** A response carries the identifier of its request and one of a few codes. *)
Definition envelope (req : Ctl.Request) (r : Ctl.Response) : Prop :=
  Ctl.res_ID r = Ctl.req_ID req /\ ValidString (Ctl.Code r) = true.

Lemma handle_envelope {X : Csr.X509Lib} env s req : envelope req (Ctl.handle env s req).2.
Proof.
  unfold Ctl.handle, Ctl.handleKeyLoad, Ctl.handleKeyRemove, Ctl.handleKeyConfirm, Ctl.handleKeyReject,
    Ctl.handleMobileEnroll, Ctl.handleMobileDelete, Ctl.handleCLIEnroll, Ctl.handleCLIDelete, Ctl.answer.
  repeat (case_match; simpl); by split.
Qed.

(** ** A call is the operation *)

(** What a client makes of a response. *)
Definition answer_of (k : Ks.Keystore) (r : Ctl.Response) : call_error + list byte :=
  if Ctl.OK r then inr (default [] (enc_data k (Ctl.res_Data r)))
  else inl (CallError (errorf (if Ctl.res_Error r =s "" then "control error" else Ctl.res_Error r))).

Definition short (l : list byte) : Prop := Z.of_nat (length l) < MaxScanTokenSize.

Lemma decode_response_ok k r :
  ValidString (Ctl.res_ID r) = true -> ValidString (Ctl.res_Error r) = true -> ValidString (Ctl.Code r) = true ->
  decode_response (enc_response k r ++ [byte_of 10]) =
    if Z.of_nat (length (enc_response k r)) <? MaxScanTokenSize then answer_of k r
    else inl (CallError (errorf "no response")).
Proof.
  intros Hi He Hc. unfold decode_response. pose proof (enc_response_oneline k r) as Ho.
  pose proof (response_read k r Hi He Hc) as Hr. unfold enc_response in *. rewrite Scan_struct by done.
  destruct (_ <? _); [|done]. rewrite Hr. cbn [r_OK r_Data r_Error]. unfold answer_of.
  by destruct (Ctl.OK r), (Ctl.res_Error r =s "").
Qed.

Lemma enc_map_oneline m : oneline (enc_map m).
Proof. apply e_struct_oneline. induction (sort_fields m); constructor; [apply e_string_oneline|done]. Qed.

Lemma request_oneline op data : oneline (enc_request (request op data)).
Proof.
  unfold enc_request. cbn [Ctl.Op Ctl.req_ID Ctl.Data request].
  assert (Hd : from_option oneline True (omit_raw (match data with None => [] | Some m => enc_map m end))).
  { destruct data as [m|]; [|done]. apply (enc_map_oneline m). }
  apply e_struct_oneline. repeat (apply List.Forall_cons; [first [exact Hd|apply omit_oneline|apply e_string_oneline]|]).
  constructor.
Qed.

Definition valid_payload (data : option (list (string * string))) : Prop :=
  from_option (fun m => Forall (fun kv => ValidString kv.1 = true) (sort_fields m)) True data.

Lemma request_roundtrip op data :
  ValidString op = true -> valid_payload data ->
  Unmarshal dec_request (Ctl.mkRequest "" "" []) (enc_request (request op data)) = Some (request op data).
Proof.
  intros Hop Hd. apply request_read; [done|done|]. unfold request. cbn [Ctl.Data].
  destruct data as [m|]; [right|by left]. apply is_json_struct; [done|]. simpl in Hd.
  induction Hd; constructor; [|done]. split; [done|apply is_json_string].
Qed.

Section calls.
Context `{Csr.X509Lib}.
Context (env : Ctl.Env) (cred : option (Z * Z)) (euid : Z) (lookup : string -> option string) (group path : string).
Notation net := (server_net env cred euid lookup group path).

Lemma Call_served op data s s' resp :
  Ctl.peerAllowed cred euid lookup group = Ok tt ->
  ValidString op = true -> valid_payload data ->
  short (enc_request (request op data)) ->
  Ctl.handle env s (request op data) = (s', resp) -> ValidString (Ctl.res_Error resp) = true ->
  Call net path op data s =
    (s', if Z.of_nat (length (enc_response (Ctl.keystore s') resp)) <? MaxScanTokenSize
         then answer_of (Ctl.keystore s') resp else inl (CallError (errorf "no response"))).
Proof.
  intros Hp Hop Hd Hs Hh He. pose proof (handle_envelope env s (request op data)) as [Hi Hc].
  rewrite Hh in Hi, Hc. unfold Call, server_net, serve_bytes. cbn [ctl_exchange]. rewrite str_eqb_refl.
  pose proof (request_oneline op data) as Ho. pose proof (request_roundtrip op data Hop Hd) as Hr.
  assert (Hsc : Scan (enc_request (request op data) ++ [byte_of 10]) = ScanLine (enc_request (request op data)) []).
  { unfold short, enc_request in *. rewrite Scan_struct by done. by rewrite (proj2 (Z.ltb_lt _ _)). }
  rewrite Hsc. unfold Ctl.serveConn. rewrite Hp. cbn [Ctl.json_request go_control_json]. rewrite Hr, Hh.
  f_equal. apply decode_response_ok; [|done|done]. cbn [snd] in Hi. by rewrite Hi.
Qed.

(** C25: Calling an operation over the socket is performing it: a peer that is admitted gets from [Call]
    the data of the response that the handler gives to exactly this request, or its error, and the
    server's state is the handler's, provided the request's line is shorter than 64 KiB.  If the
    response's line is not, the operation is performed all the same and the client reports that there
    was no response. *)
Theorem control_call_is_handle op data s s' resp :
  Ctl.peerAllowed cred euid lookup group = Ok tt ->
  ValidString op = true -> valid_payload data ->
  short (enc_request (request op data)) ->
  Ctl.handle env s (request op data) = (s', resp) -> ValidString (Ctl.res_Error resp) = true ->
  Call net path op data s =
    (s', if Z.of_nat (length (enc_response (Ctl.keystore s') resp)) <? MaxScanTokenSize
         then answer_of (Ctl.keystore s') resp else inl (CallError (errorf "no response"))).
Proof. apply Call_served. Qed.

(** A request of 64 KiB or more, and any request of a peer that is not admitted, changes nothing; the
    client is told that there was no response. *)
Theorem control_call_refused op data s :
  Ctl.peerAllowed cred euid lookup group <> Ok tt \/ ~ short (enc_request (request op data)) ->
  Call net path op data s = (s, inl (CallError (errorf "no response"))).
Proof.
  intros Hr. unfold Call, server_net, serve_bytes. cbn [ctl_exchange]. rewrite str_eqb_refl.
  unfold Ctl.serveConn. destruct (Ctl.peerAllowed _ _ _ _) as [[]|] eqn:Ep; [|done].
  destruct Hr as [|Hs]; [done|]. pose proof (request_oneline op data) as Ho.
  assert (Hsc : Scan (enc_request (request op data) ++ [byte_of 10]) = ScanTooLong).
  { unfold short, enc_request in *. rewrite Scan_struct by done. by rewrite (proj2 (Z.ltb_ge _ _)) by lia. }
  by rewrite Hsc.
Qed.
End calls.

End wire.

(** ** A concrete call: loading a key on the proxy's host *)
Module CallDemo.
Import Demo Csr.CsrDemo.

Definition files (p : string) : option (list byte) := if p =s "/keys/web.pem" then Some Ks.demo_pem else None.
Definition env : Ctl.Env := Ctl.mkEnv 5 5 5 5 5 "9" None files (fun _ => true) [].
Definition start : Ctl.Server :=
  Ctl.NewServer Ctl.CtlDemo.config (Ks.NewWithMode Ks.ModeLocalKey) Mob.NewStore None None None None.
Definition load (pass : string) := Some [("path", "/keys/web.pem"); ("passphrase", pass)].
Definition run (pass : string) : call_error + list byte :=
  (Call (server_net env (Some (0, 0)) 1000 (fun _ => None) "luna" "/run/luna.sock") "/run/luna.sock" "key.load"
     (load pass) start).2.
Definition handled (pass : string) : Ctl.Server * Ctl.Response := Ctl.handle env start (request "key.load" (load pass)).

Lemma control_call_is_handle_witness :
  run "pw" = inr (e_struct [("fingerprint", Some (e_string Ks.demo_fp))]) /\
  run "guess" = inl (CallError (errorf "load failed")).
Proof.
  split.
  - unfold run. rewrite (control_call_is_handle env (Some (0, 0)) 1000 (fun _ => None) "luna" "/run/luna.sock" "key.load"
      (load "pw") start (handled "pw").1 (handled "pw").2);
      [vm_cast_no_check (eq_refl (@inr call_error _ (e_struct [("fingerprint", Some (e_string Ks.demo_fp))])))
      |reflexivity|reflexivity|by repeat constructor|vm_compute; reflexivity|apply surjective_pairing|vm_compute; reflexivity].
  - unfold run. rewrite (control_call_is_handle env (Some (0, 0)) 1000 (fun _ => None) "luna" "/run/luna.sock" "key.load"
      (load "guess") start (handled "guess").1 (handled "guess").2);
      [vm_cast_no_check (eq_refl (@inl _ (list byte) (CallError (errorf "load failed"))))
      |reflexivity|reflexivity|by repeat constructor|vm_compute; reflexivity|apply surjective_pairing|vm_compute; reflexivity].
Defined.

Definition stranger : option (Z * Z) := Some (1001, 1001).
Lemma control_call_refused_witness :
  Call (server_net env stranger 1000 (fun _ => None) "luna" "/run/luna.sock") "/run/luna.sock" "status" None start =
    (start, inl (CallError (errorf "no response"))).
Proof.
  apply (control_call_refused env stranger 1000 (fun _ => None) "luna" "/run/luna.sock" "status" None start).
  left. vm_compute. discriminate.
Defined.

End CallDemo.
End CtlWire.
