(* ===== verification/CliClient.v ===== *)
(** * The proxy's command line as a remote client (proxy/internal/cli/httpclient,
      proxy/internal/control/client, proxy/cmd/luna-proxy/cli_config.go, key.go, cli.go, status.go)

    A laptop loads keys and enrols devices over mutual TLS with the settings of a profile; on the
    proxy's host the same commands use the control socket.  Commands run in a [World] of files and
    input whose network is [N]; contexts and deadlines are not modelled. *)

From Stdlib Require Import Ascii.
From S2P Require Import Prelude GoTime GoStrings GoEncoding GoJson GoPath GoOs External AuthPipeline Csr Http GoNet Wire Sdk.

Module HttpClient.
Import Json.

(** ** The network in a world of files *)

Section net.
Context {N : Type} (net : Net N).
Notation W := (World N).

Definition on_net {A} (f : N -> N * result A) : IO W A := fun w => let '(n, r) := f (nw w) in (set_nw n w, r).
Definition dial (c : TlsConfig) (addr : string) : IO W Conn := on_net (net_dial net c addr).
Definition over (c : Conn) (q : HttpRequest) : IO W HttpResponse := on_net (net_over net c q).
Definition do_request (c : TlsConfig) (q : HttpRequest) : IO W HttpResponse := on_net (net_do net c q).
End net.

Lemma on_net_keeps {N A : Type} R (f : N -> N * result A) : PreOrder R -> keeps (on_files R) (on_net f).
Proof. intros HR. apply keeps_same_files; [done|]. intros w. unfold on_net. by destruct (f (nw w)). Qed.
Lemma dial_keeps {N : Type} R (net : Net N) c a : PreOrder R -> keeps (on_files R) (dial net c a).
Proof. apply on_net_keeps. Qed.
Lemma over_keeps {N : Type} R (net : Net N) c q : PreOrder R -> keeps (on_files R) (over net c q).
Proof. apply on_net_keeps. Qed.
Lemma do_request_keeps {N : Type} R (net : Net N) c q : PreOrder R -> keeps (on_files R) (do_request net c q).
Proof. apply on_net_keeps. Qed.
#[global] Hint Resolve on_net_keeps dial_keeps over_keeps do_request_keeps : keeps.

(** [crypto/tls] and [crypto/x509] on the contents of files. *)
Class TlsFileLib := {
  X509KeyPair : list byte -> list byte -> option Certificate;                 (* certificate, key *)
  AppendCertsFromPEM : list byte -> list Certificate;
  VerifyClientAuth : Certificate -> list Certificate -> bool                   (* cert.Verify(Roots, ClientAuth) *)
}.

(** [io.ReadAll(io.LimitReader(body, n))] *)
Definition read_limited (n : Z) (resp : HttpResponse) : list byte := LimitReader n (RespBody resp).

Section client.
Context {N : Type} (env : Environ) (net : Net N).
Context `{HashLib, Csr.X509Lib, TlsFileLib, UrlLib}.
Notation W := (World N).

(** ** TLS settings (mtls.go) *)

Record MTLSConfig := mkMTLS { ProxyURL : string; Cert : string; Key : string; CA : string }.

Definition tlsConfigAndHost (c : MTLSConfig) : IO W (TlsConfig * string) :=
  certPEM ← wrapping "load client cert/key" (ReadFile env (Cert c));
  keyPEM ← wrapping "load client cert/key" (ReadFile env (Key c));
  cert ← lift (or_err (X509KeyPair certPEM keyPEM) (errorf "load client cert/key"));
  caPEM ← wrapping "read CA" (ReadFile env (CA c));
  match AppendCertsFromPEM caPEM with
  | [] => fail (errorf "parse CA certificate")
  | pool =>
      let u := url_Parse (ProxyURL c) in
      let serverName := match u with
                        | Some u => if negb (Hostname u =s "") then Hostname u else "localhost"
                        | None => "localhost"
                        end in
      let serverName := if (serverName =s "127.0.0.1") || (serverName =s "::1") then "localhost" else serverName in
      let host := match u with
                  | Some u => if negb (Host u =s "") then Host u else serverName
                  | None => serverName
                  end in
      let host := if negb (Contains host ":") then JoinHostPort host "443" else host in
      mret (mkTlsConfig [cert] pool serverName false, host)
  end.

(** ** Loading a key (load.go) *)

Record Config := mkConfig { cfg_ProxyURL : string; CliCert : string; CliKey : string; cfg_CA : string }.

Record loadRequest := mkLoadRequest {
  lr_EncryptedPEM : string;
  lr_Passphrase : string;
  lr_Label : string;
  lr_Timestamp : Z
}.
Definition marshal_load (q : loadRequest) : list byte := e_struct
  [("encrypted_pem", Some (e_string (lr_EncryptedPEM q))); ("passphrase", Some (e_string (lr_Passphrase q)));
   ("label", Some (e_string (lr_Label q))); ("timestamp", Some (e_int (lr_Timestamp q)))].

Record loadErrorResponse := mkLoadError { le_Error : string; le_Code : string }.
Definition dec_loadError : decoder loadErrorResponse := d_struct (fun ms old =>
  e ← get_field d_string "error" ms (le_Error old);
  c ← get_field d_string "code" ms (le_Code old);
  Some (mkLoadError e c)).

Definition loadHTTPError (status : Z) (body : list byte) : error :=
  match Unmarshal dec_loadError (mkLoadError "" "") body with
  | Some j =>
      if negb (le_Error j =s "") then
        if negb (le_Code j =s "") then errorf ("remote key load (" +:+ FormatInt status +:+ "): error code " +:+ le_Code j)
        else errorf ("remote key load (" +:+ FormatInt status +:+ "): API returned an error")
      else errorf ("remote key load: HTTP " +:+ FormatInt status)
  | None => errorf ("remote key load: HTTP " +:+ FormatInt status)
  end.

Definition maxResponse : Z := 1048576.

Definition load_post (cfg : Config) (mac body : list byte) : HttpRequest :=
  mkHttpRequest "POST" (TrimRight (cfg_ProxyURL cfg) "/"%char +:+ "/api/v1/cli/keys/load")
    [("Content-Type", "application/json"); ("X-Luna-Body-Mac", HexEncodeToString mac)] body.

Definition load_request (pemBytes passphrase : list byte) (label : string) (ts : Z) : loadRequest :=
  mkLoadRequest (StdEncodeToString pemBytes) (string_of passphrase) label ts.

(** [now] is the clock.  The request goes over the very connection whose keying material signs it. *)
Definition Load (now : Z) (cfg : Config) (pemPath : string) (passphrase : list byte) (label : string) : IO W string :=
  pemBytes ← ReadFile env pemPath;
  '(tlsCfg, host) ← tlsConfigAndHost (mkMTLS (cfg_ProxyURL cfg) (CliCert cfg) (CliKey cfg) (cfg_CA cfg));
  let body := marshal_load (load_request pemBytes passphrase label (Unix now)) in
  conn ← wrapping "tls dial" (dial net tlsCfg host);
  mac ← wrapping "body HMAC" (lift (Auth.ComputeBodyHMAC conn body));
  resp ← over net conn (load_post cfg mac body);
  let respBody := read_limited maxResponse resp in
  if negb (StatusCode resp =? Http.StatusOK) then fail (loadHTTPError (StatusCode resp) respBody) else
  match Unmarshal (Wire.dec_one "fingerprint") "" respBody with
  | None => fail (errorf "decode response: invalid json")
  | Some fp => if fp =s "" then fail (errorf "response missing fingerprint") else mret fp
  end.

(** ** Enrolling a device (enroll.go) *)

Definition loadPEMCertificate (path : string) : IO W Certificate :=
  pemBytes ← wrapping "read client certificate" (ReadFile env path);
  match Csr.pem_Decode pemBytes with
  | Some (ty, der) =>
      if ty =s "CERTIFICATE" then lift (or_err (Csr.ParseCertificate der) (errorf "parse client certificate"))
      else fail (errorf ("parse client certificate: no CERTIFICATE PEM in " +:+ path))
  | None => fail (errorf ("parse client certificate: no CERTIFICATE PEM in " +:+ path))
  end.

Definition VerifyClientCertAgainstCA (clientCertPath caPath : string) : IO W unit :=
  clientCert ← loadPEMCertificate clientCertPath;
  caPEM ← wrapping "read CA" (ReadFile env caPath);
  match AppendCertsFromPEM caPEM with
  | [] => fail (errorf "parse CA certificate")
  | pool => if VerifyClientAuth clientCert pool then mret tt
            else fail (errorf ("admin certificate is not signed by the proxy CA at " +:+ caPath))
  end.

Definition formatEnrollTLS (e : error) : error :=
  let msg := error_text e in
  if Contains msg "unknown certificate authority" || Contains msg "bad certificate"
  then EWrap "proxy rejected the admin client certificate during mTLS" e else e.

Record EnrollResult := mkEnrollResult { DeviceID : string; CertificatePEM : string }.
Definition dec_enroll : decoder EnrollResult := d_struct (fun ms old =>
  d ← get_field d_string "device_id" ms (DeviceID old);
  c ← get_field d_string "certificate_pem" ms (CertificatePEM old);
  Some (mkEnrollResult d c)).

Definition marshal_enroll (label csrPEM : string) : list byte :=
  e_struct [("label", Some (e_string label)); ("csr_pem", Some (e_string csrPEM))].

Definition Enroll (cfg : MTLSConfig) (label csrPEM : string) : IO W EnrollResult :=
  let label := TrimSpace label in
  let csrPEM := TrimSpace csrPEM in
  if label =s "" then fail (errorf "label required") else
  if csrPEM =s "" then fail (errorf "csr_pem required") else
  '(tlsCfg, _) ← tlsConfigAndHost cfg;
  _ ← VerifyClientCertAgainstCA (Cert cfg) (CA cfg);
  let body := marshal_enroll label csrPEM in
  r ← try (do_request net tlsCfg
        (mkHttpRequest "POST" (TrimRight (ProxyURL cfg) "/"%char +:+ "/api/v1/cli/enroll")
           [("Content-Type", "application/json")] body));
  match r with
  | Err e => fail (formatEnrollTLS e)
  | Ok resp =>
      let respBody := read_limited maxResponse resp in
      if negb (StatusCode resp =? Http.StatusCreated)
      then fail (errorf ("cli enroll: HTTP " +:+ FormatInt (StatusCode resp))) else
      match Unmarshal dec_enroll (mkEnrollResult "" "") respBody with
      | None => fail (errorf "decode response: invalid json")
      | Some out => if (DeviceID out =s "") || (CertificatePEM out =s "")
                    then fail (errorf "response missing device_id or certificate_pem") else mret out
      end
  end.

(** ** Downloading the CA (fetch_ca.go) *)

Definition mtlsCAPath : string := "/api/v1/mtls/ca".
Definition maxCA : Z := 262144.

(** No certificate is presented and the server's is not checked. *)
Definition insecureTLS : TlsConfig := mkTlsConfig [] [] "" true.

(** The steps of [writeFileAtomic], whose errors are returned as they are. *)
Definition write_renamed (path : string) (data : list byte) (mode : Z) : IO W unit :=
  r ← try (writeFileAtomic env path data mode);
  match r with
  | Err (EWrap _ e) => fail e
  | Err e => fail e
  | Ok _ => mret tt
  end.

Definition FetchCA (proxyURL destPath : string) : IO W string :=
  let proxyURL := TrimRight (TrimSpace proxyURL) "/"%char in
  if proxyURL =s "" then fail (errorf "proxy URL is empty") else
  if negb (HasPrefix proxyURL "https://") then fail (errorf "proxy URL must use https://") else
  let destPath := Clean destPath in
  if destPath =s "" then fail (errorf "destination path is empty") else
  resp ← wrapping ("GET " +:+ mtlsCAPath) (do_request net insecureTLS
           (mkHttpRequest "GET" (proxyURL +:+ mtlsCAPath) [] []));
  let body := read_limited maxCA resp in
  if negb (StatusCode resp =? Http.StatusOK)
  then fail (errorf ("GET " +:+ mtlsCAPath +:+ ": HTTP " +:+ FormatInt (StatusCode resp))) else
  if negb (contains_bytes (bytes_of "BEGIN CERTIFICATE") body)
  then fail (errorf ("GET " +:+ mtlsCAPath +:+ ": response is not a PEM certificate")) else
  _ ← MkdirAll env (Dir destPath);
  _ ← write_renamed destPath body 420;
  mret destPath.

End client.
End HttpClient.
