(* ===== verification/CliRemote.v ===== *)
(** * A laptop's command line against the proxy (httpclient/load.go with internal/api/cli_keys_load.go)

    The remote key load of [CliClient] over the network of [SdkProxy]: what the command reports and
    what the proxy did. *)

From Stdlib Require Import Ascii.
From S2P Require Import Prelude GoTime GoStrings GoEncoding GoUtf8 GoJson GoPath GoOs External Fingerprint ReplayCache SessionBinding AuthPipeline Keystore Pending Signing Config Approval Devices Csr Http Api Control GoNet Wire Sdk SdkProxy CliClient ControlClient.

Module Remote.
Import Json HttpClient.
#[local] Existing Instance Wire.go_json.

(** ** The request's body *)

Lemma unmarshal_string s : ValidString s = true -> Unmarshal d_string "" (e_string s) = Some s.
Proof. intros Hs. by erewrite Unmarshal_encodes by (by apply encodes_string). Qed.

Lemma load_body_read q :
  ValidString (lr_EncryptedPEM q) = true -> ValidString (lr_Passphrase q) = true -> ValidString (lr_Label q) = true ->
  in_int64 (lr_Timestamp q) ->
  Http.parseCLIKeysLoadBody (marshal_load q) =
    Ok (Http.mkKeysLoad (lr_EncryptedPEM q) (bytes_of (lr_Passphrase q)) (lr_Label q) "" (lr_Timestamp q)).
Proof.
  destruct q as [pem pass label ts]. cbn [lr_EncryptedPEM lr_Passphrase lr_Label lr_Timestamp]. intros Hp Hw Hl Ht.
  assert (Hj : Unmarshal Wire.dec_cliKeysLoad (Http.mkKeysLoadWire "" [] "" "" 0) (marshal_load (mkLoadRequest pem pass label ts)) =
    Some (Http.mkKeysLoadWire pem (e_string pass) label "" ts)).
  { unfold marshal_load. cbn [lr_EncryptedPEM lr_Passphrase lr_Label lr_Timestamp].
    change (e_struct _) with (e_struct (texts [("encrypted_pem", s_string pem); ("passphrase", s_string pass);
      ("label", s_string label); ("timestamp", s_int ts)])).
    erewrite Unmarshal_encodes by (apply encodes_struct; [done|];
      repeat first [apply List.Forall_nil | apply List.Forall_cons; [auto with luna|]]).
    cbn [Wire.dec_cliKeysLoad d_struct].
    read_field 0%nat ltac:(reflexivity). read_field 1%nat ltac:(reflexivity). read_field 2%nat ltac:(reflexivity).
    no_field. read_field 3%nat ltac:(by apply get_int). reflexivity. }
  unfold Http.parseCLIKeysLoadBody. cbn [Http.json_cliKeysLoad Wire.go_json]. rewrite Hj.
  cbn [or_err mbind result_bind Http.w_Passphrase]. unfold Http.decodeJSONStringField.
  cbn [Http.json_string Wire.go_json]. rewrite unmarshal_string by done. reflexivity.
Qed.

(** ** The response *)

Lemma Unmarshal_line {A} (dec : decoder A) zero txt v :
  encodes maxNestingDepth txt v -> Unmarshal dec zero (Wire.line txt) = dec v txt zero.
Proof.
  intros H. unfold Unmarshal, parse, Wire.line. rewrite (proj2 H) by (lia || (apply stop_byte; auto)). cbn [mbind option_bind].
  rewrite (encodes_skip_ws _ _ _ _ H), length_app. simpl.
  replace (length txt + 1 - 1)%nat with (length txt) by lia. by rewrite take_app_length.
Qed.

Section remote.
Context `{HashLaws, SshLib, !Sign.CertIssuer Ks.Keystore, Bind.SshWire, Csr.X509Lib, Http.EdLib, TlsFileLib, UrlLib}.

Definition fingerprint_body (fp : string) : list byte := e_struct [("fingerprint", Some (e_string fp))].

Lemma fingerprint_read pub :
  Unmarshal (Wire.dec_one "fingerprint") "" (LimitReader maxResponse (Wire.line (fingerprint_body (Fingerprint pub)))) =
    Some (Fingerprint pub).
Proof.
  pose proof (CtlWire.Fingerprint_valid pub) as Hv. rewrite LimitReader_all.
  - unfold fingerprint_body.
    change (e_struct _) with (e_struct (texts [("fingerprint", s_string (Fingerprint pub))])).
    erewrite Unmarshal_line by (apply encodes_struct; [done|apply Forall_singleton; auto with luna]).
    cbn [Wire.dec_one d_struct]. rewrite (get_field_at _ _ _ _ 0%nat "fingerprint" (s_string (Fingerprint pub))
      (Fingerprint pub)); done.
  - pose proof (e_string_length (Fingerprint pub)) as Hl.
    pose proof (CtlWire.Fingerprint_length pub) as Hf.
    change (fingerprint_body (Fingerprint pub)) with
      (byte_of 123 :: (e_string "fingerprint" ++ byte_of 58 :: e_string (Fingerprint pub)) ++ [byte_of 125]).
    unfold Wire.line. rewrite !length_app. cbn [length]. rewrite !length_app.
    change (length (e_string "fingerprint")) with 13%nat. cbn [length]. unfold maxResponse. lia.
Qed.

(** ** A load that the proxy answers with 200 *)

Lemma keys_load_ok env s r s' resp :
  Api.handleCLIKeysLoad env s r = (s', resp) -> Http.status resp = Http.StatusOK ->
  exists cert dev parsed blob k b sg,
    Http.peer r = Some cert /\ Role.cliClientAllowed (Cfg.CliClientOU (Api.cfg s)) cert = true /\
    Cli.GetByFingerprint (Api.cli s) (CertFingerprint cert) = Some dev /\
    Http.parseCLIKeysLoadBody (Http.body r) = Ok parsed /\ StdDecodeString (Http.EncryptedPEM parsed) = Some blob /\
    Ks.LoadPEMBytes (Api.syscall env) (Api.tick env Api.TLock) (Api.tick env Api.TFailure) (Api.keystore s) blob
      (string_of (Http.Passphrase parsed)) (Http.Label parsed) = (k, b, Ok (Fingerprint (signer_pub sg))) /\
    Ks.parseEncryptedPEM (Api.syscall env) blob (Http.Passphrase parsed) = Ok sg /\
    Cfg.SignerMode (Api.cfg s) = Appr.SignerModeLocalKey /\
    Api.keystore s' = k /\ Http.payload resp = Http.CKeysLoad (Fingerprint (signer_pub sg)).
Proof.
  unfold Api.handleCLIKeysLoad, Http.ReadAll. intros Hh Hk.
  destruct (Http.peer r) as [cert|]; [|by simplify_eq].
  destruct (Role.adminClientAllowed _ _) eqn:Ea; [by simplify_eq|].
  destruct (Role.cliClientAllowed _ _) eqn:Ec; simpl in Hh; [|by simplify_eq].
  unfold Api.cliDeviceFromPeer in Hh. simpl in Hh.
  destruct (Cli.GetByFingerprint _ _) as [dev|] eqn:Ed; [|by simplify_eq].
  destruct (_ =s Appr.SignerModeLocalKey) eqn:Em; simpl in Hh; [|by simplify_eq].
  destruct (_ <? _); [by simplify_eq|]. destruct (Http.body_fails r); [by simplify_eq|].
  destruct (Http.conn r) as [c|]; [|by simplify_eq].
  destruct (Http.parseCLIKeysLoadBody (Http.body r)) as [parsed|] eqn:Ep; [|by simplify_eq].
  destruct (Auth.ValidateCLIKeysLoad _ _ _ _ _ _ _) as [rp [[]|e]] eqn:Ev.
  2: { simplify_eq. unfold Http.writeCLIKeysLoadAuthError in Hk. repeat case_match; done. }
  destruct (_ || _ || _); [by simplify_eq|].
  destruct (Cli.ValidateLabel _) as [[]|] eqn:El; [|by simplify_eq]. cbn [Api.loadLimiter Api.with_replay] in Hh.
  destruct (Rate.Allowed _ _ _) as [l ok] eqn:Er. destruct ok; simpl in Hh; [|by simplify_eq].
  destruct (StdDecodeString _) as [blob|] eqn:Eb; [|by simplify_eq]. str_prop.
  destruct (Ks.LoadPEMBytes _ _ _ _ _ _ _) as [[k b] [fp|e]] eqn:Ek; [|by repeat case_match; simplify_eq].
  pose proof Ek as Hl. apply Ks.LoadPEMBytes_ok in Hl as (_ & sg & _ & _ & _ & _ & Hp & _ & _ & Hfp).
  rewrite bytes_of_string_of in Hp. subst fp.
  exists cert, dev, parsed, blob, k, b, sg.
  destruct (Rate.TryRecordSuccess _ _ _). injection Hh as <- <-. by split_and!.
Qed.

Lemma LoadPEMBytes_found k sc now now' pem pass c k' pem' fp :
  Ks.reachable Ks.ModeLocalKey k -> Ks.LoadPEMBytes sc now now' k pem pass c = (k', pem', Ok fp) ->
  exists sg, Ks.parseEncryptedPEM sc pem (bytes_of pass) = Ok sg /\ fp = Fingerprint (signer_pub sg) /\
    Ks.SignerForFingerprint k' fp = Ok sg.
Proof.
  intros Hr (k1 & sg & u & Hc & _ & _ & Hp & -> & _ & ->)%Ks.LoadPEMBytes_ok. exists sg. split; [done|]. split; [done|].
  destruct (Ks.keystore_mode_pool k Hr) as (Hmode & p & Hpool & _).
  apply Ks.checkUnsealLock_ok in Hc as (_ & Hm1 & _ & Hp1). rewrite Hmode in Hm1. rewrite Hpool in Hp1.
  assert (Hn : NormalizeFingerprintInput (Fingerprint (signer_pub sg)) = Fingerprint (signer_pub sg))
    by exact (Normalize_Fingerprint (signer_pub sg) false).
  unfold Ks.store_signer. rewrite Hm1, Hp1.
  erewrite Ks.SignerForFingerprint_pool by done. rewrite Hn. simpl. by rewrite lookup_insert_eq.
Qed.

(** ** The command and the proxy together *)

Section network.
Context (base : string) (link : Conn) (certs : list Certificate) (remote : string).
Notation World := (GoOs.World SdkProxy.World).
Notation net := (SdkProxy.proxy_net base link certs remote).

(** The proxy that the command talks to. *)
Definition proxy (w : World) : Api.server := SdkProxy.srv (nw w).

Definition load_arrival (cfg : HttpClient.Config) (mac body : list byte) : Http.Request :=
  SdkProxy.server_request certs remote (Some link) (load_post cfg mac body) "".

Lemma arrive_load env during wk cfg mac body s s' resp :
  TrimRight (cfg_ProxyURL cfg) "/"%char = base ->
  SdkProxy.arrive base certs remote env during wk (Some link) (load_post cfg mac body) s = Some (s', resp) ->
  StatusCode resp = Http.StatusOK ->
  exists r, Api.handleCLIKeysLoad env s (load_arrival cfg mac body) = (s', r) /\ Http.status r = Http.StatusOK /\
    RespBody resp = Wire.content_bytes (Http.payload r).
Proof.
  intros Hb. unfold SdkProxy.arrive.
  assert (Hr : SdkProxy.route_of base (load_post cfg mac body) during wk = Some (Api.RCliKeysLoad, "")).
  { unfold SdkProxy.route_of, load_post. cbn [Url Method]. rewrite Hb. by rewrite TrimPrefix_app. }
  rewrite Hr. cbn [Api.serve]. fold (load_arrival cfg mac body). unfold Http.withMTLS.
  destruct (Http.peer _) as [p|]; cbn [Api.guarded]; unfold Api.plain.
  - destruct (Api.handleCLIKeysLoad env s _) as [s1 r]. simpl. intros [= <- <-]. simpl. eauto.
  - simpl. by intros [= <- <-].
Qed.

Lemma tlsConfigAndHost_world {N : Type} (env : Environ) c (w w' : GoOs.World N) x :
  tlsConfigAndHost env c w = (w', x) -> w' = w.
Proof.
  intros E. refine (eq_sym (keeps_run eq _ _ _ _ _ E)). unfold tlsConfigAndHost.
  assert (Hread : forall p, keeps eq (@ReadFile N env p)) by done. keeps.
Qed.

(** What a successful command did before its exchange. *)
Lemma Load_exchange (env : Environ) now cfg pemPath pass label (w w' : World) fp :
  Load env net now cfg pemPath pass label w = (w', Ok fp) ->
  exists f mac resp n,
    files w !! key env pemPath = Some f /\
    SdkProxy.exchange base certs remote (Some link)
      (load_post cfg mac (marshal_load (load_request (f_data f) pass label (Unix now)))) (nw w) = (n, Ok resp) /\
    w' = set_nw n w /\ StatusCode resp = Http.StatusOK /\
    Unmarshal (Wire.dec_one "fingerprint") "" (LimitReader maxResponse (RespBody resp)) = Some fp.
Proof.
  unfold Load. intros Hl. io_ok.
  match goal with H : ReadFile _ _ _ = _ |- _ => apply ReadFile_file in H as (-> & f & Hf & <-) end.
  match goal with H : tlsConfigAndHost _ _ _ = (_, Ok ?a) |- _ => apply tlsConfigAndHost_world in H as ->; destruct a as [tls host] end.
  io_ok.
  match goal with H : dial _ _ _ _ = _ |- _ => unfold dial, on_net in H; simpl in H; injection H as <- <- end.
  match goal with H : over _ _ _ _ = (_, Ok ?r) |- _ =>
    unfold over, on_net in H; simpl in H; rename r into resp;
    destruct (SdkProxy.exchange _ _ _ _ _ _) as [n [r0|]] eqn:Ex; injection H as Hw Hr; [subst r0|done] end.
  destruct (StatusCode resp =? Http.StatusOK) eqn:Est; simpl in Hl; [|done]. apply Z.eqb_eq in Est.
  unfold read_limited in Hl. destruct (Unmarshal _ _ _) as [fp'|] eqn:Ej; [|done].
  destruct (fp' =s ""); [done|]. injection Hl as <- <-. subst.
  exists f. eexists _, resp, n. split_and!; try done.
Qed.

(** A remote load that reports a fingerprint did it: the proxy, in local-key mode, accepted the
    presented certificate as that of an enrolled device with the command line OU, decrypted exactly
    the bytes of the named file with the passphrase that was typed, and now signs for the reported
    fingerprint with that key.  Nothing on the laptop changed. *)
Theorem remote_load_sound (env : Environ) now cfg pemPath pass label (w w' : World) fp :
  TrimRight (cfg_ProxyURL cfg) "/"%char = base ->
  ValidString (string_of pass) = true -> ValidString label = true -> in_int64 (Unix now) ->
  Ks.reachable Ks.ModeLocalKey (Api.keystore (proxy w)) ->
  Load env net now cfg pemPath pass label w = (w', Ok fp) ->
  files w' = files w /\
  exists f cert rest dev sc sg,
    files w !! key env pemPath = Some f /\ certs = cert :: rest /\
    Role.cliClientAllowed (Cfg.CliClientOU (Api.cfg (proxy w))) cert = true /\
    Cli.GetByFingerprint (Api.cli (proxy w)) (CertFingerprint cert) = Some dev /\
    Cfg.SignerMode (Api.cfg (proxy w)) = Appr.SignerModeLocalKey /\
    Ks.parseEncryptedPEM sc (f_data f) pass = Ok sg /\ fp = Fingerprint (signer_pub sg) /\
    Ks.SignerForFingerprint (Api.keystore (proxy w')) fp = Ok sg.
Proof.
  intros Hb Hp Hl Ht Hr (f & mac & resp & n & Hf & Hx & -> & Hst & Hj)%Load_exchange. split; [done|].
  set (body := marshal_load _) in Hx. unfold SdkProxy.exchange in Hx.
  destruct (SdkProxy.script (nw w)) as [|[senv during wk|senv e|e] later]; [done| |by repeat case_match|done].
  destruct (SdkProxy.arrive _ _ _ _ _ _ _ _ _) as [[s1 resp1]|] eqn:Ea; [|done]. injection Hx as <- <-.
  destruct (arrive_load senv during wk cfg mac body _ _ _ Hb Ea Hst) as (r & Hh & Hrs & Hrb).
  destruct (keys_load_ok _ _ _ _ _ Hh Hrs) as
    (cert & dev & parsed & blob & k & b & sg & Hpeer & Hou & Hdev & Hpb & Hblob & Hload & Hparse & Hm & Hks & Hpay).
  rewrite Hrb, Hpay in Hj. cbn [Wire.content_bytes] in Hj.
  change (e_struct _) with (fingerprint_body (Fingerprint (signer_pub sg))) in Hj. rewrite fingerprint_read in Hj.
  injection Hj as <-.
  change (Http.body (load_arrival cfg mac body)) with body in Hpb. unfold body in Hpb.
  rewrite load_body_read in Hpb; [|apply base64_valid|done|done|done]. injection Hpb as <-.
  cbn [Http.EncryptedPEM Http.Passphrase Http.Label lr_EncryptedPEM lr_Passphrase lr_Label load_request] in *.
  rewrite StdDecode_Encode in Hblob. injection Hblob as <-. rewrite bytes_of_string_of in *.
  destruct (LoadPEMBytes_found _ _ _ _ _ _ _ _ _ _ Hr Hload) as (sg' & Hparse' & Hfp' & Hs).
  rewrite !bytes_of_string_of in Hparse'.
  assert (sg' = sg) as -> by congruence.
  unfold Http.peer in Hpeer. cbn in Hpeer.
  destruct certs as [|c0 rest]; [done|]. injection Hpeer as ->.
  exists f, cert, rest, dev, (Api.syscall senv), sg. unfold proxy. simpl. rewrite Hks. by split_and!.
Qed.

End network.

End remote.

(** ** A concrete load *)
Module RemoteDemo.
Import Demo Bind.WireDemo Csr.CsrDemo Api.ApiDemo.
#[local] Existing Instances Sign.demo_cert Sign.LocalCA Sign.LocalCA_laws.

Definition url : string := "https://proxy.example:8443".
#[local] Instance demo_url : UrlLib :=
  {| url_Parse s := if s =s url then Some (mkURL "https" "proxy.example:8443") else None |}.
(** A certificate file is the name of its subject; any pair of files fits, and any issuer is trusted. *)
#[local] Instance demo_files : TlsFileLib := {|
  X509KeyPair c k := Some (mkCertificate c ["luna-cli"]);
  AppendCertsFromPEM b := [mkCertificate b []];
  VerifyClientAuth c p := true
|}.

Definition os : Environ :=
  mkEnviron (fun _ => "") 1000 (Some "/home/ops") ["ops"; "home"] 18 (fun _ => false) (fun _ => false)
    (fun _ => NoFault) (fun _ => false) (fun _ => false) (fun _ => false) (fun _ => false) (fun _ => true).
Definition text_file (s : string) : File := mkFile (bytes_of s) 384 None.
Definition laptop : GoOs.World SdkProxy.World := mkWorld
  (<[["web.pem"; "ops"; "home"] := mkFile Ks.demo_pem 384 None]>
   (<[["cli.crt"; "ops"; "home"] := text_file "laptop"]>
   (<[["cli.key"; "ops"; "home"] := text_file "key"]>
   (<[["ca.crt"; "ops"; "home"] := text_file "ca"]> ∅)))) [] []
  (SdkProxy.mkWorld sealed [SdkProxy.Deliver env id Api.WakeResult]).
Definition cfg : HttpClient.Config := HttpClient.mkConfig (url +:+ "/") "cli.crt" "/home/ops/cli.key" "ca.crt".
Definition run : IO (GoOs.World SdkProxy.World) string :=
  Load os (SdkProxy.proxy_net url Auth.PipelineDemo.conn [cli_cert] "10.0.0.2:5123") clock cfg "web.pem" (bytes_of "pw") "web".

Lemma remote_load_sound_witness : exists w' fp sg,
  run laptop = (w', Ok fp) /\ Ks.SignerForFingerprint (Api.keystore (proxy w')) fp = Ok sg.
Proof.
  destruct (io_run run laptop) as (w' & fp & E); [vm_compute; reflexivity|].
  destruct (remote_load_sound url Auth.PipelineDemo.conn [cli_cert] "10.0.0.2:5123" os clock cfg "web.pem" (bytes_of "pw")
    "web" laptop w' fp eq_refl eq_refl eq_refl ltac:(vm_compute; intuition discriminate) (rtc_refl _ _) E)
    as (_ & f & cert & rest & dev & sc & sg & _ & _ & _ & _ & _ & _ & _ & Hs).
  exists w', fp, sg. split; [exact E|exact Hs].
Defined.

End RemoteDemo.
End Remote.
