(* ===== verification/CliCmd.v ===== *)
(** * The proxy's command line (proxy/cmd/luna-proxy: cli_config.go, key.go, cli.go, mobile.go,
      status.go, output.go)

    Operators' commands over the control socket ([CtlWire.Call]) or over mutual TLS
    ([HttpClient]).  A command runs in a [World] whose network is behind both, reads flags, and
    returns what it prints to standard output.  Notices on standard error are not kept. *)

From Stdlib Require Import Ascii.
From S2P Require Import Prelude GoTime GoStrings GoEncoding GoUtf8 GoJson GoPath GoOs External Fingerprint AuthPipeline Keystore Config Csr Http GoNet Wire Sdk CliClient Control ControlClient ConfigLoad.

Module CliCmd.
Import Json HttpClient CtlWire.

(** ** Output (output.go) *)

Definition nl : string := string_of [byte_of 10].

Record signerRow := mkSignerRow { sr_Fingerprint : string; sr_Comment : string }.
Definition dec_signerRow : decoder signerRow := d_struct (fun ms old =>
  f ← get_field d_string "fingerprint" ms (sr_Fingerprint old);
  c ← get_field d_string "comment" ms (sr_Comment old);
  Some (mkSignerRow f c)).

Definition formatSHA256 (fingerprint : string) : string :=
  if fingerprint =s "" then "SHA256:" else "SHA256:" +:+ fingerprint.

Definition fingerprintLine (prefix fingerprint comment : string) : string :=
  if negb (comment =s "") then prefix +:+ formatSHA256 fingerprint +:+ "  " +:+ comment +:+ nl
  else prefix +:+ formatSHA256 fingerprint +:+ nl.

Definition signerLines (prefix : string) (signers : list signerRow) : string :=
  match signers with
  | [] => prefix +:+ "(none)" +:+ nl
  | _ => foldr (fun s out => fingerprintLine prefix (sr_Fingerprint s) (sr_Comment s) +:+ out) ""
           (sort_by sr_Fingerprint signers)
  end.

Definition bad_json : error := errorf "invalid json".

Definition formatKeyLoadResult (data : list byte) : result string :=
  fp ← or_err (Unmarshal (Wire.dec_one "fingerprint") "" data) bad_json;
  Ok (formatSHA256 fp +:+ nl).

Definition dec_rows (name : string) : decoder (list signerRow) := d_struct (fun ms old =>
  get_field (d_list (mkSignerRow "" "") dec_signerRow) name ms old).

Definition formatKeyListResult (data : list byte) : result string :=
  rows ← or_err (Unmarshal (dec_rows "signers") [] data) bad_json;
  Ok (signerLines "" rows).

Record statusReply := mkStatusReply { st_Sealed : bool; st_SignerMode : string; st_Loaded : list signerRow; st_Pending : Z }.
Definition dec_status : decoder statusReply := d_struct (fun ms old =>
  s ← get_field d_bool "sealed" ms (st_Sealed old);
  m ← get_field d_string "signer_mode" ms (st_SignerMode old);
  l ← get_field (d_list (mkSignerRow "" "") dec_signerRow) "loaded" ms (st_Loaded old);
  p ← get_field d_int "pending" ms (st_Pending old);
  Some (mkStatusReply s m l p)).

Definition formatStatusResult (data : list byte) : result string :=
  out ← or_err (Unmarshal dec_status (mkStatusReply false "" [] 0) data) bad_json;
  Ok ("sealed: " +:+ (if st_Sealed out then "true" else "false") +:+ nl +:+
      "signer_mode: " +:+ st_SignerMode out +:+ nl +:+
      "loaded:" +:+ nl +:+ signerLines "  " (st_Loaded out) +:+
      "pending: " +:+ FormatInt (st_Pending out) +:+ nl).

Definition dec_cliDevice : decoder Http.cliDeviceJSON := d_struct (fun ms old =>
  d ← get_field d_string "device_id" ms (Http.dj_DeviceID old);
  l ← get_field d_string "label" ms (Http.dj_Label old);
  c ← get_field d_string "cert_fingerprint" ms (Http.dj_CertFingerprint old);
  e ← get_field d_string "enrolled_at" ms (Http.dj_EnrolledAt old);
  Some (Http.mkCliDeviceJSON d l c e)).
Definition zeroDevice : Http.cliDeviceJSON := Http.mkCliDeviceJSON "" "" "" "".
Definition dec_devices : decoder (list Http.cliDeviceJSON) := d_struct (fun ms old =>
  get_field (d_list zeroDevice dec_cliDevice) "devices" ms old).

Definition formatCLIListResult (data : list byte) : result string :=
  devices ← or_err (Unmarshal dec_devices [] data) bad_json;
  Ok (match devices with
      | [] => "(none)" +:+ nl
      | _ => foldr (fun d out => Http.dj_DeviceID d +:+ "  " +:+ Http.dj_Label d +:+ "  " +:+
                      Http.dj_CertFingerprint d +:+ "  " +:+ Http.dj_EnrolledAt d +:+ nl +:+ out) ""
               (sort_by Http.dj_DeviceID devices)
      end).

(** ** Settings of a profile (cli_config.go) *)

Record CLIProfile := mkProfile {
  p_ProxyURL : string;
  AdminCert : string;
  AdminKey : string;
  p_CA : string;
  p_CliCert : string;
  p_CliKey : string
}.
Definition noProfile : CLIProfile := mkProfile "" "" "" "" "" "".
Definition set_CA (ca : string) (p : CLIProfile) : CLIProfile :=
  mkProfile (p_ProxyURL p) (AdminCert p) (AdminKey p) ca (p_CliCert p) (p_CliKey p).

(** [yaml.Unmarshal] into [cliYAML]. *)
Class YamlLib := { yaml_cli : list byte -> option CLIProfile }.

Section profile.
Context {N : Type} (env : Environ) `{YamlLib}.
Notation W := (World N).

Definition cliProfilePath : string :=
  match UserHomeDir env with
  | None => Join [".config"; "luna"; "cli.yaml"]
  | Some home => Join [home; ".config"; "luna"; "cli.yaml"]
  end.
Definition defaultCLIAutoCAPath : string := Join [Dir cliProfilePath; "ca.crt"].

Definition expandCLIPath (p : string) : result string :=
  if p =s "" then Ok "" else
  if p =s "~" then or_err (UserHomeDir env) (errorf "$HOME is not defined") else
  if HasPrefix p "~/" then
    home ← or_err (UserHomeDir env) (errorf "$HOME is not defined");
    Ok (Join [home; string_of (drop 2 (bytes_of p))])
  else Ok p.

Definition expandPaths (p : CLIProfile) : result CLIProfile :=
  ac ← expandCLIPath (AdminCert p);
  ak ← expandCLIPath (AdminKey p);
  cc ← expandCLIPath (p_CliCert p);
  ck ← expandCLIPath (p_CliKey p);
  ca ← expandCLIPath (p_CA p);
  Ok (mkProfile (p_ProxyURL p) ac ak ca cc ck).

Definition trimProfile (y : CLIProfile) : CLIProfile :=
  mkProfile (TrimSpace (p_ProxyURL y)) (TrimSpace (AdminCert y)) (TrimSpace (AdminKey y)) (TrimSpace (p_CA y))
    (TrimSpace (p_CliCert y)) (TrimSpace (p_CliKey y)).

(** [os.IsNotExist] of the error of reading [p]. *)
Definition not_exist (p : string) (w : W) : bool :=
  negb (read_fails env (key env p)) && bool_decide (files w !! key env p = None).

Definition loadCLIProfileFile (path : string) : IO W (option CLIProfile) :=
  missing ← test (not_exist path);
  if (missing : bool) then mret None else
  raw ← ReadFile env path;
  y ← lift (or_err (yaml_cli raw) (errorf ("parse " +:+ path)));
  prof ← lift (expandPaths (trimProfile y));
  mret (Some prof).

(** [LoadCLIProfile] *)
Definition LoadCLIProfile : IO W (option CLIProfile) := loadCLIProfileFile cliProfilePath.

(** The value of a flag when the command has it and it is not blank. *)
Definition override (flags : string -> option string) (name old : string) : string :=
  match flags name with
  | Some v => if negb (TrimSpace v =s "") then TrimSpace v else old
  | None => old
  end.

Definition with_flags (flags : string -> option string) (p : CLIProfile) : CLIProfile :=
  mkProfile (override flags "proxy-url" (p_ProxyURL p)) (override flags "admin-cert" (AdminCert p))
    (override flags "admin-key" (AdminKey p)) (override flags "ca" (p_CA p))
    (override flags "cli-cert" (p_CliCert p)) (override flags "cli-key" (p_CliKey p)).

Definition resolveCLIProfile (flags : string -> option string) : IO W (option CLIProfile) :=
  fileProf ← LoadCLIProfile;
  let prof := with_flags flags (default noProfile fileProf) in
  if p_ProxyURL prof =s "" then mret None else
  prof ← lift (expandPaths prof);
  mret (Some prof).

Definition validateKeyLoad (p : CLIProfile) : result unit :=
  if p_ProxyURL p =s "" then Err (errorf "proxy URL required") else
  if p_CliCert p =s "" then Err (errorf "cli client certificate path required") else
  if p_CliKey p =s "" then Err (errorf "cli client key path required") else Ok tt.

(** *** Where administrators keep their certificate *)

Definition add_dir (d : string) (dirs : list string) : list string :=
  let d := TrimSpace d in
  if (d =s "") || (d =s ".") then dirs else if bool_decide (d ∈ dirs) then dirs else dirs ++ [d].

Definition adminMaterialDirs (csrPath : string) : list string :=
  let dirs := if negb (csrPath =s "") then add_dir (Dir csrPath) [] else [] in
  let dirs := add_dir (Dir cliProfilePath) dirs in
  let dirs := match UserHomeDir env with
              | Some home => add_dir (Join [home; ".config"; "luna"; "certs"]) (add_dir (Join [home; ".config"; "luna"]) dirs)
              | None => dirs
              end in
  add_dir "/etc/luna/certs" dirs.

Definition admin_files (dir : string) : string * string :=
  (Join [dir; "admin-client.crt"], Join [dir; "admin-client.key"]).

Definition applyAdminDefaults (csrPath : string) (p : CLIProfile) (w : W) : CLIProfile :=
  if negb (AdminCert p =s "") && negb (AdminKey p =s "") then p else
  match List.find (fun dir => fileExists env (admin_files dir).1 w && fileExists env (admin_files dir).2 w)
          (adminMaterialDirs csrPath) with
  | None => p
  | Some dir =>
      mkProfile (p_ProxyURL p) (if AdminCert p =s "" then (admin_files dir).1 else AdminCert p)
        (if AdminKey p =s "" then (admin_files dir).2 else AdminKey p) (p_CA p) (p_CliCert p) (p_CliKey p)
  end.

Definition validateAdminEnroll (p : CLIProfile) (w : W) : result unit :=
  if p_ProxyURL p =s "" then Err (errorf "proxy URL required") else
  if AdminCert p =s "" then Err (errorf "admin client certificate required (OU=luna-admin)") else
  if AdminKey p =s "" then
    Err (errorf "admin client key required (--admin-key or admin-client.key beside admin-client.crt)") else
  if negb (fileExists env (AdminCert p) w) then Err (errorf ("admin certificate not found: " +:+ AdminCert p)) else
  if negb (fileExists env (AdminKey p) w) then Err (errorf ("admin client key not found: " +:+ AdminKey p)) else Ok tt.

End profile.

(** ** Commands *)

(** Keys and signing requests of [crypto/rsa] and [crypto/x509], beside those of [Csr.X509Lib]. *)
Class RsaLib `{Csr.X509Lib} := {
  MarshalPKCS1PrivateKey : Csr.PrivateKey -> list byte;
  CreateCertificateRequest : Csr.Name -> Csr.PrivateKey -> option (list byte);
  is_rsa : Csr.PrivateKey -> bool;                                 (* the type assertion to rsa.PrivateKey *)
  rsa_N : Csr.PrivateKey -> Z                                      (* its modulus *)
}.

(** Documented behaviour: PEM and PKCS #1 texts read back, and a created request carries the given
    subject and the key's public half, and its signature verifies. *)
Class RsaLaws `{RsaLib} : Prop := {
  pem_roundtrip : forall ty b, ty ∈ ["RSA PRIVATE KEY"; "CERTIFICATE REQUEST"] ->
    Csr.pem_Decode (Csr.pem_Encode ty b) = Some (ty, b);
  pkcs1_roundtrip : forall k, is_rsa k = true -> Csr.ParsePKCS1PrivateKey (MarshalPKCS1PrivateKey k) = Some k;
  created_request : forall name k der, is_rsa k = true -> CreateCertificateRequest name k = Some der ->
    exists e, Csr.ParseCertificateRequest der = Some (Csr.mkCSR name (Csr.PubRSA (rsa_N k) e) true)
}.

(** The flags' variables. *)
Record Vars := mkVars {
  socketPath : string;
  passphraseStdin : bool;
  keyLoadLabel : string;
  cliDir : string;
  cliForce : bool;
  cliLabel : string;
  cliCSRPath : string;
  cliCertPath : string
}.

Section commands.
Context {N : Type} (env : Environ) (net : Net N) (ctl : CtlNet N) (v : Vars) (flags : string -> option string).
(** A terminal on standard input, with what [term.ReadPassword] returns on it. *)
Context (tty : option (option (list byte))).
Context `{HashLib, Csr.X509Lib, TlsFileLib, UrlLib, YamlLib, ViperLib}.
Notation W := (World N).

(** *** The control socket (status.go) *)

Definition resolveSocket : IO W string :=
  if negb (socketPath v =s "") then mret (socketPath v) else
  cfg ← ConfigLoad.Load.Load env;
  if negb (Cfg.ControlSocket cfg =s "") then mret (Cfg.ControlSocket cfg)
  else mret (ConfigLoad.Load.DefaultControlSocket env).

Definition call (path op : string) (data : option (list (string * string))) : IO W (call_error + list byte) :=
  fun w => let '(n, r) := Call ctl path op data (nw w) in (set_nw n w, Ok r).

Definition or_fail (r : call_error + list byte) : IO W (list byte) :=
  match r with inr d => mret d | inl (OpError e) | inl (CallError e) => fail e end.

(** [resolveSocket] and [client.Call] *)
Definition on_socket (op : string) (data : option (list (string * string))) : IO W (list byte) :=
  path ← resolveSocket;
  r ← call path op data;
  or_fail r.

Definition runStatus : IO W string := data ← on_socket "status" None; lift (formatStatusResult data).
Definition runKeyList : IO W string := data ← on_socket "key.list" None; lift (formatKeyListResult data).
Definition runKeyRemove (arg : string) : IO W string := _ ← on_socket "key.remove" (Some [("fingerprint", arg)]); mret "".
Definition runKeyReject (arg : string) : IO W string := _ ← on_socket "key.reject" (Some [("pending_id", arg)]); mret "".
Definition runCLIList : IO W string := data ← on_socket "cli.list" None; lift (formatCLIListResult data).
Definition runCLIDelete (arg : string) : IO W string := _ ← on_socket "cli.delete" (Some [("device_id", arg)]); mret "".

Definition runMobileEnroll (label pubkey certFP : string) : IO W string :=
  data ← on_socket "mobile.enroll" (Some [("label", label); ("device_pubkey", pubkey); ("cert_fingerprint", certFP)]);
  mret (string_of data +:+ nl).
Definition runMobileList : IO W string := data ← on_socket "mobile.list" None; mret (string_of data +:+ nl).
Definition runMobileDelete (arg : string) : IO W string := _ ← on_socket "mobile.delete" (Some [("device_id", arg)]); mret "".

(** *** Keys (key.go) *)

(** A [bufio.Scanner] that reads one line; no line is an empty passphrase. *)
Definition scan_passphrase : IO W (list byte) := fun w =>
  match Scan (stdin w) with
  | ScanLine l rest => (set_stdin rest w, Ok (bytes_of (TrimSpace (string_of l))))
  | ScanEOF => (w, Ok [])
  | ScanTooLong => (w, Err (errorf "bufio.Scanner: token too long"))
  end.

Definition readPassphrase : IO W (list byte) :=
  if passphraseStdin v then scan_passphrase else
  match tty with
  | Some r => lift (or_err r (errorf "read password"))
  | None => scan_passphrase
  end.

(** [ensureProfileCA] *)
Definition ensureProfileCA (p : CLIProfile) : IO W CLIProfile :=
  if negb (TrimSpace (p_CA p) =s "") then mret p else
  path ← FetchCA env net (p_ProxyURL p) (defaultCLIAutoCAPath env);
  mret (set_CA path p).

Definition load_config (p : CLIProfile) : HttpClient.Config :=
  HttpClient.mkConfig (p_ProxyURL p) (p_CliCert p) (p_CliKey p) (p_CA p).

Definition loadRemote (now : Z) (pass : list byte) (arg : string) (p : CLIProfile) : IO W string :=
  _ ← lift (validateKeyLoad p);
  p ← wrapping "fetch CA" (ensureProfileCA p);
  if keyLoadLabel v =s "" then fail (errorf "--label is required for remote key load") else
  fp ← Load env net now (load_config p) arg pass (keyLoadLabel v);
  lift (formatKeyLoadResult (enc_map [("fingerprint", fp)])).

Definition loadOnHost (pass : list byte) (arg : string) : IO W string :=
  path ← wrapping ("configure " +:+ cliProfilePath env +:+ " or use --socket for on-host key load") resolveSocket;
  r ← call path "key.load" (Some [("path", arg); ("passphrase", string_of pass)]);
  match r with
  | inl (OpError _) =>
      fail (errorf ("configure " +:+ cliProfilePath env +:+
        " for remote key load or run on the central host with control socket access"))
  | inl (CallError e) => fail e
  | inr data => lift (formatKeyLoadResult data)
  end.

Definition runKeyLoad (now : Z) (arg : string) : IO W string :=
  pass ← readPassphrase;
  prof ← resolveCLIProfile env flags;
  match prof with
  | Some p => loadRemote now pass arg p
  | None => loadOnHost pass arg
  end.

Definition runKeyConfirm (arg : string) : IO W string :=
  pass ← readPassphrase;
  data ← on_socket "key.confirm" (Some [("pending_id", arg); ("passphrase", string_of pass)]);
  lift (formatKeyLoadResult data).

(** *** Operator devices (cli.go) *)

Definition cliKeyFile : string := "cli.key".
Definition cliCSRFile : string := "cli.csr.pem".
Definition cliCertFile : string := "cli.crt".
Definition cliClientOU : string := "luna-cli".

Definition resolveCLIDir (flagDir : string) : result string :=
  if negb (flagDir =s "") then Ok flagDir else
  home ← or_err (UserHomeDir env) (errorf "$HOME is not defined");
  Ok (Join [home; ".config"; "luna"]).

Definition defaultCLICertOut (csrFile : string) : string :=
  let dir := Dir csrFile in
  if (dir =s "") || (dir =s ".") then cliCertFile else Join [dir; cliCertFile].

Definition writeCert (out : EnrollResult) : IO W string :=
  let certOut := if cliCertPath v =s "" then defaultCLICertOut (cliCSRPath v) else cliCertPath v in
  _ ← WriteFile env certOut (bytes_of (CertificatePEM out)) 420;
  mret (DeviceID out +:+ nl).

Definition enrollRemote (csrPEM : list byte) (p : CLIProfile) : IO W string :=
  p ← (fun w => (w, Ok (applyAdminDefaults env (cliCSRPath v) p w)));
  _ ← look (validateAdminEnroll env p);
  p ← wrapping "fetch CA" (ensureProfileCA p);
  out ← Enroll env net (mkMTLS (p_ProxyURL p) (AdminCert p) (AdminKey p) (p_CA p)) (cliLabel v) (string_of csrPEM);
  writeCert out.

Definition enrollOnHost (csrPEM : list byte) : IO W string :=
  path ← wrapping "use --proxy-url with admin mTLS for remote enroll" resolveSocket;
  r ← call path "cli.enroll" (Some [("label", cliLabel v); ("csr_pem", string_of csrPEM)]);
  data ← or_fail r;
  out ← lift (or_err (Unmarshal dec_enroll (mkEnrollResult "" "") data) bad_json);
  if (DeviceID out =s "") || (CertificatePEM out =s "")
  then fail (errorf "enroll response missing device_id or certificate_pem") else writeCert out.

Definition runCLIEnroll : IO W string :=
  csrPEM ← ReadFile env (cliCSRPath v);
  prof ← resolveCLIProfile env flags;
  match prof with
  | Some p => enrollRemote csrPEM p
  | None => enrollOnHost csrPEM
  end.

Section rsa.
Context `{RsaLib}.

(** [generated] is the outcome of [rsa.GenerateKey] with 2048 bits. *)
Definition runCLIInit (generated : option Csr.PrivateKey) : IO W string :=
  dir ← lift (resolveCLIDir (cliDir v));
  let keyPath := Join [dir; cliKeyFile] in
  exists_ ← test (fileExists env keyPath);
  if exists_ && negb (cliForce v) then mret "" else
  _ ← MkdirAll env dir;
  key ← lift (or_err generated (errorf "generate key"));
  _ ← WriteFile env keyPath (Csr.pem_Encode "RSA PRIVATE KEY" (MarshalPKCS1PrivateKey key)) 384;
  mret "".

Definition loadCLIKey (path : string) : IO W Csr.PrivateKey :=
  pemBytes ← ReadFile env path;
  match Csr.pem_Decode pemBytes with
  | None => fail (errorf ("read " +:+ path +:+ ": no PEM block"))
  | Some (ty, der) =>
      if ty =s "RSA PRIVATE KEY" then lift (or_err (Csr.ParsePKCS1PrivateKey der) (errorf "parse PKCS1")) else
      if ty =s "PRIVATE KEY" then
        k ← lift (or_err (Csr.ParsePKCS8PrivateKey der) (errorf "parse PKCS8"));
        if is_rsa k then mret k else fail (errorf ("read " +:+ path +:+ ": expected RSA private key"))
      else fail (errorf ("read " +:+ path +:+ ": unsupported PEM type"))
  end.

Definition runCLICSR : IO W string :=
  dir ← lift (resolveCLIDir (cliDir v));
  key ← loadCLIKey (Join [dir; cliKeyFile]);
  let template := Csr.mkName "Luna CLI" [cliClientOU] in
  csrDER ← lift (or_err (CreateCertificateRequest template key) (errorf "create certificate request"));
  _ ← WriteFile env (Join [dir; cliCSRFile]) (Csr.pem_Encode "CERTIFICATE REQUEST" csrDER) 420;
  mret "".

End rsa.
End commands.

(** ** A CA that is downloaded is the CA of whoever answers

    A network in the hands of somebody without any of the proxy's keys: it answers every download
    of the CA with [rogue], and keeps every request that it is sent.  A client reaches it when it
    does not verify, or when it trusts [rogue]. *)

Section rogue.
Context `{HashLib, Csr.X509Lib, TlsFileLib, UrlLib}.
Context (rogue : list byte) (link : Conn).

#[local] Instance Certificate_eq_dec : EqDecision Certificate.
Proof. solve_decision. Defined.

Definition rogue_accepts (c : TlsConfig) : bool :=
  InsecureSkipVerify c || bool_decide (RootCAs c = AppendCertsFromPEM rogue).
Definition unknown_authority : error := errorf "x509: certificate signed by unknown authority".

Definition rogue_net : Net (list HttpRequest) := mkNet
  (fun c _ seen => if rogue_accepts c then (seen, Ok link) else (seen, Err unknown_authority))
  (fun _ q seen => (q :: seen, Ok (mkHttpResponse Http.StatusForbidden [])))
  (fun c q seen => if rogue_accepts c then (q :: seen, Ok (mkHttpResponse Http.StatusOK rogue))
                   else (seen, Err unknown_authority)).

Notation W := (World (list HttpRequest)).

Lemma FetchCA_rogue env url dest (w : W) :
  no_faults env -> HasPrefix (TrimRight (TrimSpace url) "/"%char) "https://" = true ->
  contains_bytes (bytes_of "BEGIN CERTIFICATE") rogue = true -> Z.of_nat (length rogue) <= maxCA ->
  exists w', FetchCA env rogue_net url dest w = (w', Ok (Clean dest)) /\
    (exists g m, files w' !! key env (Clean dest) = Some (mkFile rogue m g)) /\
    (forall k, k <> key env (Clean dest) -> k <> key env (Clean dest +:+ ".tmp") -> files w' !! k = files w !! k).
Proof.
  intros Hn Hp Hc Hl. unfold FetchCA. cbv zeta.
  assert (Hu : (TrimRight (TrimSpace url) "/"%char =s "") = false).
  { apply str_eqb_neq. intros E. rewrite E in Hp. discriminate Hp. }
  rewrite Hu, Hp. cbn [negb].
  rewrite (proj2 (str_eqb_neq _ _) (Clean_nonempty dest)).
  erewrite bind_run by reflexivity. cbn [StatusCode]. unfold read_limited. cbn [RespBody].
  rewrite LimitReader_all, Hc by done. cbn [Z.eqb negb Http.StatusOK Pos.eqb].
  erewrite bind_run by (unfold MkdirAll; by rewrite (nf_mkdir _ Hn)).
  unfold write_renamed.
  match goal with |- context [@mbind _ _ _ _ _ (@mbind _ _ _ _ _ (try _)) ?w0] => set (w1 := w0) end.
  destruct (writeFileAtomic_run env (Clean dest) rogue 420 w1 Hn) as [w' Hw].
  exists w'. erewrite bind_run.
  2: { erewrite bind_run by (unfold try; by rewrite Hw). reflexivity. }
  apply writeFileAtomic_cases in Hw as (_ & _ & _ & Hk & g & Hg). split; [done|]. split; [by eexists _, _|exact Hk].
Qed.

Lemma tlsConfigAndHost_run {N : Type} env c (w : World N) fc fk fa crt :
  no_faults env -> files w !! key env (Cert c) = Some fc -> files w !! key env (Key c) = Some fk ->
  files w !! key env (CA c) = Some fa -> X509KeyPair (f_data fc) (f_data fk) = Some crt ->
  AppendCertsFromPEM (f_data fa) <> [] ->
  exists sn host, tlsConfigAndHost env c w = (w, Ok (mkTlsConfig [crt] (AppendCertsFromPEM (f_data fa)) sn false, host)).
Proof.
  intros Hn Hc Hk Ha Hx Hp. unfold tlsConfigAndHost.
  erewrite bind_run by (unfold wrapping; by rewrite (ReadFile_run env _ _ fc)).
  erewrite bind_run by (unfold wrapping; by rewrite (ReadFile_run env _ _ fk)).
  erewrite bind_run by (unfold lift; by rewrite Hx).
  erewrite bind_run by (unfold wrapping; by rewrite (ReadFile_run env _ _ fa)).
  destruct (AppendCertsFromPEM (f_data fa)); [done|]. by eexists _, _.
Qed.

(** The files that a load reads: the key to load, the client certificate and its key. *)
Definition load_files (env : Environ) (p : CLIProfile) (arg : string) (w : W) (pem : list byte) : Prop :=
  exists fp fc fk crt, files w !! key env arg = Some fp /\ f_data fp = pem /\
    files w !! key env (p_CliCert p) = Some fc /\ files w !! key env (p_CliKey p) = Some fk /\
    X509KeyPair (f_data fc) (f_data fk) = Some crt.

Definition apart (env : Environ) (p : CLIProfile) (arg dest : string) : Prop :=
  forall x, x ∈ [arg; p_CliCert p; p_CliKey p] -> key env x <> key env dest /\ key env x <> key env (dest +:+ ".tmp").

Lemma Load_trusting env now p arg pass label (w : W) pem fa material :
  no_faults env -> load_files env p arg w pem -> files w !! key env (p_CA p) = Some fa ->
  AppendCertsFromPEM (f_data fa) <> [] ->
  ExportKeyingMaterial link Auth.exporterLabel 32 = Some material ->
  (AppendCertsFromPEM (f_data fa) = AppendCertsFromPEM rogue -> exists q,
     nw (Load env rogue_net now (load_config p) arg pass label w).1 = q :: nw w /\
     Body q = marshal_load (load_request pem pass label (Unix now))) /\
  (AppendCertsFromPEM (f_data fa) <> AppendCertsFromPEM rogue ->
     Load env rogue_net now (load_config p) arg pass label w = (w, Err (annotate "tls dial" unknown_authority))).
Proof.
  intros Hn (fp & fc & fk & crt & Hp & Hpem & Hc & Hk & Hx) Ha Hne Hm. unfold Load.
  rewrite (bind_run _ _ _ _ _ (ReadFile_run env _ _ _ Hn Hp)), Hpem.
  destruct (tlsConfigAndHost_run env (mkMTLS (p_ProxyURL p) (p_CliCert p) (p_CliKey p) (p_CA p)) w fc fk fa crt
    Hn Hc Hk Ha Hx Hne) as (sn & host & Ht).
  change (mkMTLS (cfg_ProxyURL (load_config p)) _ _ _) with (mkMTLS (p_ProxyURL p) (p_CliCert p) (p_CliKey p) (p_CA p)).
  rewrite (bind_run _ _ _ _ _ Ht). cbv zeta. split; intros E.
  - assert (Hd : wrapping "tls dial" (dial rogue_net (mkTlsConfig [crt] (AppendCertsFromPEM (f_data fa)) sn false) host) w
      = (set_nw (nw w) w, Ok link)).
    { unfold wrapping, dial, on_net, rogue_net. cbn [net_dial rogue_accepts InsecureSkipVerify RootCAs orb].
      by rewrite bool_decide_true. }
    rewrite (bind_run _ _ _ _ _ Hd). unfold Auth.ComputeBodyHMAC, Auth.computeBodyHMAC. rewrite Hm.
    erewrite bind_run by reflexivity. erewrite bind_run by reflexivity. cbn [StatusCode]. by eexists.
  - erewrite bind_fails; [done|]. unfold wrapping, dial, on_net, rogue_net.
    cbn [net_dial rogue_accepts InsecureSkipVerify RootCAs orb]. rewrite bool_decide_false by done. by destruct w.
Qed.

(** A profile without a CA gives the passphrase to anybody on the way: [key load] downloads the CA
    from whoever answers, over a connection that is not verified and without a fingerprint to compare,
    and then trusts it, so the upload with the encrypted key and its passphrase goes to the holder of
    [rogue].  With a CA in the profile, the same network is refused before anything is sent. *)
Theorem downloaded_ca_is_unauthenticated env v now p arg pass (w : W) pem material :
  no_faults env -> validateKeyLoad p = Ok tt -> keyLoadLabel v <> "" -> load_files env p arg w pem ->
  ExportKeyingMaterial link Auth.exporterLabel 32 = Some material ->
  HasPrefix (TrimRight (TrimSpace (p_ProxyURL p)) "/"%char) "https://" = true ->
  contains_bytes (bytes_of "BEGIN CERTIFICATE") rogue = true -> Z.of_nat (length rogue) <= maxCA ->
  AppendCertsFromPEM rogue <> [] -> apart env p arg (Clean (defaultCLIAutoCAPath env)) ->
  (TrimSpace (p_CA p) = "" -> exists q seen,
     nw (loadRemote env rogue_net v now pass arg p w).1 = q :: seen /\
     Body q = marshal_load (load_request pem pass (keyLoadLabel v) (Unix now))) /\
  (forall fa, TrimSpace (p_CA p) <> "" -> files w !! key env (p_CA p) = Some fa ->
     AppendCertsFromPEM (f_data fa) <> [] -> AppendCertsFromPEM (f_data fa) <> AppendCertsFromPEM rogue ->
     (loadRemote env rogue_net v now pass arg p w).1 = w).
Proof.
  intros Hn Hv Hl Hf Hm Hu Hc Hs Hne Hap. unfold loadRemote.
  rewrite (bind_run (lift (validateKeyLoad p)) _ w w tt) by (unfold lift; by rewrite Hv).
  apply str_eqb_neq in Hl. split.
  - intros Hca. unfold ensureProfileCA. rewrite Hca. cbn [negb str_eqb].
    destruct (FetchCA_rogue env (p_ProxyURL p) (defaultCLIAutoCAPath env) w Hn Hu Hc Hs)
      as (w1 & Hfetch & (g & m & Hfile) & Hkeep).
    set (p1 := set_CA (Clean (defaultCLIAutoCAPath env)) p).
    assert (He : wrapping "fetch CA" (path ← FetchCA env rogue_net (p_ProxyURL p) (defaultCLIAutoCAPath env);
      mret (set_CA path p)) w = (w1, Ok p1)).
    { unfold wrapping. by rewrite (bind_run _ _ _ _ _ Hfetch). }
    change (negb ("" =s "")) with false. cbn iota. rewrite (bind_run _ _ _ _ _ He), Hl.
    assert (Hf1 : load_files env p1 arg w1 pem).
    { assert (Hw : forall x f, x ∈ [arg; p_CliCert p; p_CliKey p] -> files w !! key env x = Some f ->
        files w1 !! key env x = Some f).
      { intros x f Hx Hxf. destruct (Hap x Hx) as [Ha1 Ha2]. rewrite Hkeep; [exact Hxf|exact Ha1|exact Ha2]. }
      destruct Hf as (fp & fc & fk & crt & Hf1 & Hf2 & Hf3 & Hf4 & Hf5). exists fp, fc, fk, crt.
      split; [apply Hw; [apply list_elem_of_In; left; reflexivity|exact Hf1]|]. split; [exact Hf2|].
      split; [apply Hw; [apply list_elem_of_In; right; left; reflexivity|exact Hf3]|]. split; [apply Hw; [apply list_elem_of_In; right; right; left; reflexivity|exact Hf4]|exact Hf5]. }
    destruct (Load_trusting env now p1 arg pass (keyLoadLabel v) w1 pem (mkFile rogue m g) material Hn Hf1 Hfile Hne Hm)
      as [Hgo _].
    destruct (Hgo eq_refl) as (q & Hq & Hb). exists q, (nw w1). split; [|exact Hb].
    unfold mbind at 1, io_bind. destruct (Load env rogue_net now (load_config p1) arg pass (keyLoadLabel v) w1) as [w2 [fp|e]];
      exact Hq.
  - intros fa Hca Hfa Hne1 Hne2. unfold ensureProfileCA. apply str_eqb_neq in Hca. rewrite Hca. cbn [negb].
    erewrite bind_run by reflexivity. rewrite Hl.
    destruct (Load_trusting env now p arg pass (keyLoadLabel v) w pem fa material Hn Hf Hfa Hne1 Hm) as [_ Hno].
    by rewrite (bind_fails _ _ _ _ _ (Hno Hne2)).
Qed.

End rogue.

(** ** A new operator's key and signing request *)

Section operator.
Context {N : Type} `{RsaLaws}.
Notation W := (World N).

Lemma WriteFile_run env p data mode (w : W) :
  no_faults env -> exists f, f_data f = data /\ WriteFile env p data mode w = (set_files (<[key env p := f]> (files w)) w, Ok tt).
Proof. intros Hn. unfold WriteFile. rewrite (nf_write _ Hn). eexists. by split; [|reflexivity]. Qed.

Definition csr_files (env : Environ) (dir : string) (x : list string) : Prop :=
  x = key env (Join [dir; cliKeyFile]) \/ x = key env (Join [dir; cliCSRFile]).

(** [cli init] followed by [cli csr] leaves in the operator's directory a signing request that the
    proxy's signer of command line certificates accepts, and changes no file but the key and the
    request; without [--force] an existing key is never overwritten. *)
Theorem cli_csr_accepted env v (k : Csr.PrivateKey) dir der (w : W) :
  no_faults env -> resolveCLIDir env (cliDir v) = Ok dir -> is_rsa k = true -> 2048 <= Csr.BitLen (rsa_N k) ->
  CreateCertificateRequest (Csr.mkName "Luna CLI" [cliClientOU]) k = Some der ->
  (fileExists env (Join [dir; cliKeyFile]) w = true -> cliForce v = false ->
     forall generated, runCLIInit env v generated w = (w, Ok "")) /\
  (fileExists env (Join [dir; cliKeyFile]) w && negb (cliForce v) = false ->
     exists w' f csr, (_ ← runCLIInit env v (Some k); runCLICSR env v) w = (w', Ok "") /\
       files w' !! key env (Join [dir; cliCSRFile]) = Some f /\
       Csr.parseCSR (f_data f) = Ok csr /\ Csr.validateCSR csr "luna-cli" = Ok tt /\
       (forall x, ~ csr_files env dir x -> files w' !! x = files w !! x)).
Proof.
  intros Hn Hd Hk Hb Hder. unfold runCLIInit. split.
  - intros Hex Hfo generated. rewrite (bind_run _ _ w w dir) by (unfold lift; by rewrite Hd).
    erewrite bind_run by reflexivity. by rewrite Hex, Hfo.
  - intros Hex.
    destruct (WriteFile_run env (Join [dir; cliKeyFile]) (Csr.pem_Encode "RSA PRIVATE KEY" (MarshalPKCS1PrivateKey k)) 384 w Hn)
      as (f1 & Hf1 & Hw1).
    set (w1 := set_files _ w) in Hw1.
    assert (Hinit : runCLIInit env v (Some k) w = (w1, Ok "")).
    { unfold runCLIInit. rewrite (bind_run _ _ w w dir) by (unfold lift; by rewrite Hd).
      erewrite bind_run by reflexivity. rewrite Hex.
      erewrite bind_run by (unfold MkdirAll; by rewrite (nf_mkdir _ Hn)).
      erewrite bind_run by reflexivity. by rewrite (bind_run _ _ _ _ _ Hw1). }
    fold (runCLIInit env v (Some k) : IO W string). rewrite (bind_run _ _ _ _ _ Hinit).
    assert (Hr1 : ReadFile env (Join [dir; cliKeyFile]) w1 = (w1, Ok (f_data f1))).
    { apply ReadFile_run; [done|]. apply lookup_insert_eq. }
    assert (Hload : loadCLIKey env (Join [dir; cliKeyFile]) w1 = (w1, Ok k)).
    { unfold loadCLIKey. rewrite (bind_run _ _ _ _ _ Hr1), Hf1, pem_roundtrip by repeat constructor. change ("RSA PRIVATE KEY" =s "RSA PRIVATE KEY") with true.
      unfold lift. by rewrite pkcs1_roundtrip. }
    destruct (WriteFile_run env (Join [dir; cliCSRFile]) (Csr.pem_Encode "CERTIFICATE REQUEST" der) 420 w1 Hn)
      as (f2 & Hf2 & Hw2).
    destruct (created_request _ _ _ Hk Hder) as (e & Hparse).
    exists (set_files (<[key env (Join [dir; cliCSRFile]) := f2]> (files w1)) w1), f2,
      (Csr.mkCSR (Csr.mkName "Luna CLI" [cliClientOU]) (Csr.PubRSA (rsa_N k) e) true).
    split.
    { unfold runCLICSR. rewrite (bind_run _ _ w1 w1 dir) by (unfold lift; by rewrite Hd).
      rewrite (bind_run _ _ _ _ _ Hload). rewrite (bind_run _ _ w1 w1 der) by (unfold lift; by rewrite Hder).
      by rewrite (bind_run _ _ _ _ _ Hw2). }
    split; [apply lookup_insert_eq|]. split.
    { unfold Csr.parseCSR. rewrite Hf2, pem_roundtrip by repeat constructor. change ("CERTIFICATE REQUEST" =s "CERTIFICATE REQUEST") with true.
      cbn [negb]. by rewrite Hparse. }
    split.
    { unfold Csr.validateCSR. cbn [Csr.csr_sig_ok Csr.csr_Subject Csr.name_OU Csr.csr_PublicKey].
      cbn -[Csr.BitLen]. by rewrite (proj2 (Z.ltb_ge _ _)). }
    intros x Hx. unfold csr_files in Hx. cbn [files set_files].
    rewrite lookup_insert_ne by (intros <-; apply Hx; by right). unfold w1. cbn [files set_files].
    by rewrite lookup_insert_ne by (intros <-; apply Hx; by left).
Qed.
End operator.

(** ** Loading a key on the proxy's host *)

Section on_host.
Context `{HashLaws, SshLib, Csr.X509Lib, ViperLib}.

Lemma keyLoad_read arg pass :
  ValidString arg = true -> ValidString pass = true ->
  Ctl.json_keyLoad (CtlJson := go_control_json) (enc_map [("path", arg); ("passphrase", pass)]) =
    Some (Ctl.mkKeyLoad arg pass "").
Proof.
  intros Ha Hp. cbn [Ctl.json_keyLoad go_control_json]. unfold enc_map.
  change (sort_fields [("path", arg); ("passphrase", pass)]) with [("passphrase", pass); ("path", arg)].
  change (e_struct _) with (e_struct (texts [("passphrase", s_string pass); ("path", s_string arg)])).
  erewrite Unmarshal_encodes by (apply encodes_struct; [done|slots]). cbn [dec_keyLoad d_struct].
  read_field 1%nat ltac:(reflexivity). read_field 0%nat ltac:(reflexivity). no_field. reflexivity.
Qed.

(** The only error of a load that is a lockout. *)
Lemma mlock_not_locked sc site b e : Ks.mlockBytes sc site b = Err e -> errors_is e Ks.ErrUnsealLocked = false.
Proof. unfold Ks.mlockBytes. intros Hm. repeat case_match; by simplify_eq. Qed.

Lemma parse_not_locked sc pem pass e : Ks.parseEncryptedPEM sc pem pass = Err e -> errors_is e Ks.ErrUnsealLocked = false.
Proof.
  unfold Ks.parseEncryptedPEM. destruct (ParseRawPrivateKeyWithPassphrase pem pass) as [[k|[k|]|]|]; try (by intros [= <-]).
  - destruct (Ks.mlockBytes sc Ks.AtKey k) as [[]|e1] eqn:E; cbn [mbind result_bind];
      [destruct (NewSignerFromKey k); by intros [= <-]|intros [= <-]; by eapply mlock_not_locked].
  - cbv zeta. destruct (Ks.mlockBytes sc Ks.AtKey k) as [[]|e1] eqn:E; cbn [mbind result_bind];
      [|intros [= <-]; by eapply mlock_not_locked].
    destruct (Ks.mlockBytes sc Ks.AtOwned _) as [[]|e1] eqn:E1; cbn [mbind result_bind];
      [destruct (NewSignerFromKey _); by intros [= <-]|intros [= <-]; by eapply mlock_not_locked].
Qed.

Lemma LoadPEMFile_locked sc t t' k fs path pass c k' e :
  Ks.LoadPEMFile sc t t' k fs path pass c = (k', Err e) -> errors_is e Ks.ErrUnsealLocked = true -> e = Ks.ErrUnsealLocked.
Proof.
  unfold Ks.LoadPEMFile, Ks.LoadPEMBytes. intros He Hl. destruct (fs path) as [pem|]; [|by simplify_eq].
  destruct (Ks.checkUnsealLock t k) as [k1 [u|e1]] eqn:Ec.
  2: { simplify_eq. unfold Ks.checkUnsealLock in Ec. repeat case_match; by simplify_eq. }
  destruct (Ks.mlockBytes sc Ks.AtPem pem) as [|e1] eqn:E1; [|simplify_eq; apply mlock_not_locked in E1; congruence].
  destruct (Ks.mlockBytes sc Ks.AtPass _) as [|e1] eqn:E2; [|simplify_eq; apply mlock_not_locked in E2; congruence].
  destruct (Ks.parseEncryptedPEM sc pem _) as [|e1] eqn:E3; [by simplify_eq|simplify_eq; apply parse_not_locked in E3; congruence].
Qed.

Definition load_payload (arg pass : string) : option (list (string * string)) := Some [("path", arg); ("passphrase", pass)].

(** What the operator is told. *)
Definition load_message (r : result string) : result string :=
  match r with
  | Ok fp => Ok (formatSHA256 fp +:+ nl)
  | Err e => Err (errorf (if errors_is e Ks.ErrUnsealLocked then "unseal temporarily locked" else "load failed"))
  end.

Lemma fingerprint_reply fp :
  ValidString fp = true -> formatKeyLoadResult (e_struct [("fingerprint", Some (e_string fp))]) = Ok (formatSHA256 fp +:+ nl).
Proof.
  intros Hf. unfold formatKeyLoadResult.
  change (e_struct _) with (e_struct (texts [("fingerprint", s_string fp)])).
  erewrite Unmarshal_encodes by (apply encodes_struct; [done|slots]). cbn [Wire.dec_one d_struct].
  by rewrite (get_field_at _ _ _ _ 0%nat "fingerprint" (s_string fp) fp).
Qed.

(** The response to a load is one short line. *)
Lemma load_response_short k r :
  (String.length r <= 68)%nat -> short (enc_response k (Ctl.ok "" (Ctl.DFingerprint r))).
Proof.
  intros Hr. pose proof (e_string_length r) as Hl.
  change (enc_response k (Ctl.ok "" (Ctl.DFingerprint r))) with
    (bytes_of "{" ++ (e_string "ok" ++ bytes_of ":true") ++ bytes_of "," ++ (e_string "data" ++ bytes_of ":" ++
      (bytes_of "{" ++ (e_string "fingerprint" ++ bytes_of ":" ++ e_string r) ++ bytes_of "}")) ++ bytes_of "}").
  unfold short, MaxScanTokenSize. rewrite !length_app.
  change (length (e_string "fingerprint")) with 13%nat. change (length (e_string "ok")) with 4%nat.
  change (length (e_string "data")) with 6%nat. change (length (bytes_of ":true")) with 5%nat.
  repeat match goal with |- context [length (bytes_of ?s)] => change (length (bytes_of s)) with 1%nat end. lia.
Qed.

(** [key load] on the proxy's host is the keystore's load of the file with that name in the daemon's
    eyes, with the passphrase that was typed: the daemon's keystore is changed the way [LoadPEMFile]
    changes it, and the operator is told the fingerprint, or that the load failed or is locked, and
    nothing else about why. *)
Theorem on_host_key_load env senv cred euid lookup group v (w : World Ctl.Server) arg pass :
  Ctl.peerAllowed cred euid lookup group = Ok tt -> socketPath v <> "" ->
  ValidString arg = true -> ValidString (string_of pass) = true -> arg <> "" -> pass <> [] ->
  short (enc_request (request "key.load" (load_payload arg (string_of pass)))) ->
  let '(k, r) := Ks.LoadPEMFile (Ctl.syscall senv) (Ctl.t_lock senv) (Ctl.t_failure senv) (Ctl.keystore (nw w))
                   (Ctl.fs senv) arg (string_of pass) "" in
  loadOnHost env (server_net senv cred euid lookup group (socketPath v)) v pass arg w =
    (set_nw (Ctl.with_keystore (nw w) k) w, load_message r).
Proof.
  intros Hp Hsock Ha Hw Hne Hnp Hs. destruct (Ks.LoadPEMFile _ _ _ _ _ _ _ _) as [k r] eqn:Ek.
  unfold loadOnHost, resolveSocket. rewrite (proj2 (str_eqb_neq _ _) Hsock). cbn [negb].
  erewrite bind_run by reflexivity.
  set (resp := match r with
               | Err e => if errors_is e Ks.ErrUnsealLocked then Ctl.fail "" (error_text e) "LOCKED"
                          else Ctl.fail "" "load failed" "FORBIDDEN"
               | Ok fp => Ctl.ok "" (Ctl.DFingerprint fp)
               end).
  assert (Hh : Ctl.handle senv (nw w) (request "key.load" (load_payload arg (string_of pass))) =
    (Ctl.with_keystore (nw w) k, resp)).
  { unfold Ctl.handle. cbn [Ctl.Op request]. unfold Ctl.handleKeyLoad. cbn [Ctl.Data Ctl.req_ID request load_payload].
    change ("key.load" =s "status") with false. change ("key.load" =s "key.load") with true. cbn iota.
    rewrite keyLoad_read by done. cbn [Ctl.kl_Path Ctl.kl_Passphrase Ctl.kl_Comment].
    rewrite (proj2 (str_eqb_neq _ _) Hne).
    assert (Hnp' : (string_of pass =s "") = false) by (apply str_eqb_neq; by destruct pass).
    rewrite Hnp'. cbn [orb]. rewrite Ek. unfold resp. by destruct r. }
  assert (Hv : ValidString (Ctl.res_Error resp) = true).
  { unfold resp. destruct r as [fp|e]; [done|]. destruct (errors_is e Ks.ErrUnsealLocked) eqn:El; [|done].
    by rewrite (LoadPEMFile_locked _ _ _ _ _ _ _ _ _ _ Ek El). }
  assert (Hcall : call (server_net senv cred euid lookup group (socketPath v)) (socketPath v) "key.load"
      (load_payload arg (string_of pass)) w = (set_nw (Ctl.with_keystore (nw w) k) w, Ok (answer_of k resp))).
  { unfold call. rewrite (Call_served senv cred euid lookup group (socketPath v) "key.load"
      (load_payload arg (string_of pass)) (nw w) (Ctl.with_keystore (nw w) k) resp); [|done|done|by repeat constructor|done|done|done].
    rewrite (proj2 (Z.ltb_lt _ _)); [done|]. cbn [Ctl.keystore Ctl.with_keystore]. unfold resp. destruct r as [fp|e].
    - apply load_response_short. unfold Ks.LoadPEMFile in Ek. destruct (Ctl.fs senv arg) as [pem|]; [|done].
      destruct (Ks.LoadPEMBytes _ _ _ _ _ _ _) as [[k1 b1] r1] eqn:El. injection Ek as <- ->.
      apply Ks.LoadPEMBytes_ok in El as (_ & sg & _ & _ & _ & _ & _ & _ & _ & ->). apply Fingerprint_length.
    - destruct (errors_is e Ks.ErrUnsealLocked) eqn:El; [|done].
      by rewrite (LoadPEMFile_locked _ _ _ _ _ _ _ _ _ _ Ek El). }
  fold (load_payload arg (string_of pass)). rewrite (bind_run _ _ _ _ _ Hcall).
  destruct r as [fp|e].
  - change (answer_of k resp) with (@inr call_error (list byte) (e_struct [("fingerprint", Some (e_string fp))])).
    cbn iota. unfold lift. rewrite fingerprint_reply; [done|].
    unfold Ks.LoadPEMFile in Ek. destruct (Ctl.fs senv arg) as [pem|]; [|done].
    destruct (Ks.LoadPEMBytes _ _ _ _ _ _ _) as [[k1 b1] r1] eqn:El. injection Ek as <- ->.
    apply Ks.LoadPEMBytes_ok in El as (_ & sg & _ & _ & _ & _ & _ & _ & _ & ->). apply Fingerprint_valid.
  - unfold resp, answer_of, load_message. destruct (errors_is e Ks.ErrUnsealLocked) eqn:El; [|done].
    by rewrite (LoadPEMFile_locked _ _ _ _ _ _ _ _ _ _ Ek El).
Qed.

End on_host.

(** ** Concrete commands *)
Module CmdDemo.
Import Demo.

(** A PEM block is its bytes after a byte for its type; there is one key and one request. *)
#[local] Instance demo_x509 : Csr.X509Lib := {|
  Csr.PrivateKey := unit;
  Csr.pem_Decode l := match l with
                      | Byte.x01 :: b => Some ("RSA PRIVATE KEY", b)
                      | Byte.x02 :: b => Some ("CERTIFICATE REQUEST", b)
                      | _ => None
                      end;
  Csr.pem_Encode ty b := (if ty =s "RSA PRIVATE KEY" then Byte.x01 else Byte.x02) :: b;
  Csr.ParseCertificateRequest _ :=
    Some (Csr.mkCSR (Csr.mkName "Luna CLI" ["luna-cli"]) (Csr.PubRSA (2 ^ 2047) 65537) true);
  Csr.CreateCertificate _ _ _ _ := None;
  Csr.ParseCertificate _ := None;
  Csr.ParsePKCS1PrivateKey _ := Some tt;
  Csr.ParsePKCS8PrivateKey _ := Some tt;
  Csr.ParseECPrivateKey _ := Some tt
|}.
#[local] Instance demo_rsa : RsaLib := {|
  MarshalPKCS1PrivateKey _ := [];
  CreateCertificateRequest name _ :=
    if (Csr.CommonName name =s "Luna CLI") && bool_decide (Csr.name_OU name = ["luna-cli"]) then Some [] else None;
  is_rsa _ := true;
  rsa_N _ := 2 ^ 2047
|}.
#[local] Instance demo_rsa_laws : RsaLaws.
Proof.
  constructor; simpl.
  - intros ty b Hty%list_elem_of_In. by destruct Hty as [<-|[<-|[]]].
  - by intros [].
  - intros [cn ou] k der _. simpl. destruct (cn =s "Luna CLI") eqn:Ec; [|done]. simpl.
    case_bool_decide; [|done]. str_prop. subst. intros _. by eexists.
Qed.

Definition home : Environ := mkEnviron (fun n => if n =s "HOME" then "/home/ops" else "") 1000 (Some "/home/ops") ["ops"; "home"] 18
  (fun _ => false) (fun _ => false) (fun _ => NoFault) (fun _ => false) (fun _ => false) (fun _ => false) (fun _ => false)
  (fun _ => true).
Lemma home_no_faults : no_faults home.
Proof. by constructor. Qed.

Definition vars : Vars := mkVars "/run/luna.sock" false "web" "" false "laptop" "cli.csr.pem" "".
Definition empty : World (list HttpRequest) := mkWorld ∅ [] [] [].

Lemma cli_csr_accepted_witness :
  exists w' f csr, (_ ← runCLIInit home vars (Some (tt : @Csr.PrivateKey demo_x509)); runCLICSR home vars) empty = (w', Ok "") /\
    files w' !! ["cli.csr.pem"; "luna"; ".config"; "ops"; "home"] = Some f /\ Csr.parseCSR (f_data f) = Ok csr /\
    Csr.validateCSR csr "luna-cli" = Ok tt.
Proof.
  destruct (cli_csr_accepted (H0 := demo_rsa) (H1 := demo_rsa_laws) home vars (tt : @Csr.PrivateKey demo_x509) "/home/ops/.config/luna" [] empty home_no_faults eq_refl eq_refl
    ltac:(vm_compute; discriminate) eq_refl) as [_ Hrun].
  destruct (Hrun eq_refl) as (w' & f & csr & E & Hf & Hp & Hv & _). exists w', f, csr.
  split; [exact E|]. split; [exact Hf|]. split; [exact Hp|exact Hv].
Defined.

(** *** Somebody on the way *)

#[local] Instance demo_url : UrlLib := {| url_Parse s := Some (mkURL "https" "proxy.example:8443") |}.
#[local] Instance demo_files : TlsFileLib := {|
  X509KeyPair c k := Some (mkCertificate c []);
  AppendCertsFromPEM b := [mkCertificate b []];
  VerifyClientAuth c p := true
|}.

Definition mallory : list byte := bytes_of "-----BEGIN CERTIFICATE----- mallory".
Definition link : Conn := mkConn (fun _ _ => Some (bytes_of "exporter")).
Definition text_file (s : string) : File := mkFile (bytes_of s) 384 None.
Definition laptop : World (list HttpRequest) := mkWorld
  (<[["web.pem"; "ops"; "home"] := text_file "encrypted"]> (<[["cli.crt"; "ops"; "home"] := text_file "cert"]>
   (<[["cli.key"; "ops"; "home"] := text_file "key"]> (<[["ca.crt"; "ops"; "home"] := text_file "the proxy's CA"]> ∅))))
  [] [] [].
Definition profile (ca : string) : CLIProfile := mkProfile "https://proxy.example:8443" "" "" ca "cli.crt" "cli.key".

Lemma laptop_files ca : load_files home (profile ca) "web.pem" laptop (bytes_of "encrypted").
Proof.
  exists (text_file "encrypted"), (text_file "cert"), (text_file "key"), (mkCertificate (bytes_of "cert") []).
  split; [vm_compute; reflexivity|]. split; [reflexivity|]. split; [vm_compute; reflexivity|].
  split; [vm_compute; reflexivity|reflexivity].
Qed.

Lemma laptop_apart ca : apart home (profile ca) "web.pem" (Clean (defaultCLIAutoCAPath home)).
Proof.
  intros x Hx%list_elem_of_In. simpl in Hx.
  destruct Hx as [<-|[<-|[<-|[]]]]; split; vm_compute; discriminate.
Qed.

Lemma downloaded_ca_is_unauthenticated_witness :
  (exists q seen, nw (loadRemote home (rogue_net mallory link) vars 0 (bytes_of "secret") "web.pem" (profile "") laptop).1 = q :: seen /\
     Body q = marshal_load (load_request (bytes_of "encrypted") (bytes_of "secret") "web" (Unix 0))) /\
  (loadRemote home (rogue_net mallory link) vars 0 (bytes_of "secret") "web.pem" (profile "ca.crt") laptop).1 = laptop.
Proof.
  split.
  - destruct (downloaded_ca_is_unauthenticated mallory link home vars 0 (profile "") "web.pem" (bytes_of "secret") laptop
      (bytes_of "encrypted") (bytes_of "exporter") home_no_faults eq_refl ltac:(vm_compute; discriminate) (laptop_files "") eq_refl
      eq_refl eq_refl ltac:(vm_compute; discriminate) ltac:(discriminate) (laptop_apart "")) as [Hgo _].
    exact (Hgo eq_refl).
  - destruct (downloaded_ca_is_unauthenticated mallory link home vars 0 (profile "ca.crt") "web.pem" (bytes_of "secret") laptop
      (bytes_of "encrypted") (bytes_of "exporter") home_no_faults eq_refl ltac:(vm_compute; discriminate) (laptop_files "ca.crt") eq_refl
      eq_refl eq_refl ltac:(vm_compute; discriminate) ltac:(discriminate) (laptop_apart "ca.crt")) as [_ Hno].
    apply (Hno (text_file "the proxy's CA")); [vm_compute; discriminate|vm_compute; reflexivity|discriminate|vm_compute; discriminate].
Defined.

End CmdDemo.

(** *** On the proxy's host *)
Module HostDemo.
Import Demo Csr.CsrDemo CmdDemo.
#[local] Existing Instances Csr.CsrDemo.demo_x509 ConfigLoad.LoadDemo.demo_viper.

Definition daemon : World Ctl.Server := mkWorld ∅ [] [] CallDemo.start.

Lemma on_host_key_load_witness :
  let '(k, r) := Ks.LoadPEMFile (fun _ => true) 5 5 (Ctl.keystore CallDemo.start) CallDemo.files "/keys/web.pem" "pw" "" in
  loadOnHost home
    (server_net CallDemo.env (Some (0, 0)) 1000 (fun _ => None) "luna" "/run/luna.sock") vars (bytes_of "pw") "/keys/web.pem" daemon =
    (set_nw (Ctl.with_keystore CallDemo.start k) daemon, load_message r).
Proof.
  exact (on_host_key_load home CallDemo.env (Some (0, 0)) 1000 (fun _ => None) "luna" vars daemon "/keys/web.pem" (bytes_of "pw")
    eq_refl ltac:(discriminate) eq_refl eq_refl ltac:(discriminate) ltac:(discriminate) ltac:(vm_compute; reflexivity)).
Defined.

End HostDemo.
End CliCmd.
