(* ===== verification/GoPrompt.v ===== *)
(** * Prompts (agent/internal/setup/interactive.go, proxy/internal/setup/prompter.go)

    Both wizards ask questions on a terminal until a line of the input is an answer.  The two
    prompters read lines differently and share their loops.  What they print is not kept. *)

From Stdlib Require Import Ascii.
From S2P Require Import Prelude GoStrings GoPath GoOs GoNet.

(** ** Reading lines *)

Definition newline : byte := Byte.x0a.
Definition EOF : error := ENew "io" "EOF".

(** [bufio.Reader.ReadString]: the text up to and with the first newline, whether there was one, and
    what is left. *)
Fixpoint ReadString (l : list byte) : list byte * bool * list byte :=
  match l with
  | [] => ([], false, [])
  | b :: l' =>
      if decide (b = newline) then ([b], true, l')
      else let '(line, found, rest) := ReadString l' in (b :: line, found, rest)
  end.

(** Every line of an input with what follows it; a last line without a newline counts if [partial]. *)
Fixpoint input_lines (partial : bool) (acc l : list byte) : list (list byte * list byte) :=
  match l with
  | [] => match acc with [] => [] | _ => if partial then [(rev acc, [])] else [] end
  | b :: l' =>
      if decide (b = newline) then (rev (b :: acc), l') :: input_lines partial [] l'
      else input_lines partial (b :: acc) l'
  end.

Lemma input_lines_read partial acc l :
  input_lines partial acc l =
  let '(line, found, rest) := ReadString l in
  if found then (rev acc ++ line, rest) :: input_lines partial [] rest
  else match rev acc ++ line with [] => [] | t => if partial then [(t, [])] else [] end.
Proof.
  revert acc. induction l as [|b l IH]; intros acc; simpl.
  - rewrite app_nil_r. destruct acc as [|c acc]; [done|]. simpl. by destruct (rev acc).
  - destruct (decide (b = newline)) as [->|]; [done|]. rewrite IH.
    destruct (ReadString l) as [[line found] rest]. simpl. by rewrite <- !app_assoc.
Qed.

Lemma ReadString_rest l line found rest : ReadString l = (line, found, rest) ->
  l = line ++ rest /\ (found = true -> line <> []) /\ (found = false -> rest = []).
Proof.
  revert line. induction l as [|b l IH]; intros line; simpl; [by intros [= <- <- <-]|].
  destruct (decide (b = newline)); [by intros [= <- <- <-]|].
  destruct (ReadString l) as [[k f] r]. intros [= <- <- <-]. destruct (IH k eq_refl) as (-> & _ & Hr). done.
Qed.

(** ** A source of lines *)

(** [lines_of l] is what a reader makes of the input [l]: its lines, each with what follows it. *)
Class LineReader {N : Type} (readLine : IO (World N) string) (lines_of : list byte -> list (string * list byte)) : Prop := {
  read_next : forall w,
    readLine w = match lines_of (stdin w) with
                 | [] => (set_stdin [] w, Err EOF)
                 | (s, rest) :: _ => (set_stdin rest w, Ok s)
                 end;
  lines_rest : forall l s rest more, lines_of l = (s, rest) :: more -> lines_of rest = more /\ (length rest < length l)%nat
}.

Section ask.
Context {N A : Type} (readLine : IO (World N) string) (parse : string -> option A).
Notation W := (World N).

Definition out_of_fuel : error := errorf "out of fuel".

(** [for { line, err := p.readLine(); if err != nil { return err }; if ok { return a } }] *)
Fixpoint ask_loop (n : nat) : IO W A :=
  match n with
  | O => fail out_of_fuel
  | S n =>
      line ← readLine;
      match parse line with
      | Some a => mret a
      | None => ask_loop n
      end
  end.

(** Every round consumes input. *)
Definition ask : IO W A := fun w => ask_loop (S (length (stdin w))) w.

(** The first line that is an answer. *)
Fixpoint first_answer (ls : list (string * list byte)) : option (A * list byte) :=
  match ls with
  | [] => None
  | (s, rest) :: ls' => match parse s with Some a => Some (a, rest) | None => first_answer ls' end
  end.

Context (lines_of : list byte -> list (string * list byte)) `{!LineReader readLine lines_of}.

Lemma ask_loop_spec n w : (length (stdin w) < n)%nat ->
  ask_loop n w = match first_answer (lines_of (stdin w)) with
                 | Some (a, rest) => (set_stdin rest w, Ok a)
                 | None => (set_stdin [] w, Err EOF)
                 end.
Proof.
  revert w. induction n as [|n IH]; intros w Hn; [lia|]. simpl. unfold mbind, io_bind.
  rewrite read_next. destruct (lines_of (stdin w)) as [|[s rest] more] eqn:El; [done|].
  destruct (lines_rest _ _ _ _ El) as [Hr Hl]. simpl. destruct (parse s) as [a|]; [done|].
  rewrite IH by (simpl; lia). simpl. rewrite Hr. by destruct (first_answer more) as [[a r]|].
Qed.

(** A prompt always returns: it takes the first line that is an answer and leaves the rest of the
    input unread, or reports the end of the input when no line is one. *)
Lemma ask_spec w :
  ask w = match first_answer (lines_of (stdin w)) with
          | Some (a, rest) => (set_stdin rest w, Ok a)
          | None => (set_stdin [] w, Err EOF)
          end.
Proof. apply ask_loop_spec. lia. Qed.

(** What a prompt returns: the first answer, the rest of the input unread, or the end of the input. *)
Definition answered : IO W A := fun w =>
  match first_answer (lines_of (stdin w)) with
  | Some (a, rest) => (set_stdin rest w, Ok a)
  | None => (set_stdin [] w, Err EOF)
  end.

Lemma first_answer_some ls a rest : first_answer ls = Some (a, rest) ->
  exists s, parse s = Some a /\ (s, rest) ∈ ls.
Proof.
  induction ls as [|[s r] ls IH]; simpl; [done|]. destruct (parse s) as [b|] eqn:Ep.
  - intros [= <- <-]. exists s. split; [done|by apply list_elem_of_here].
  - intros (t & Ht & Hin)%IH. exists t. split; [done|by apply list_elem_of_further].
Qed.

Lemma ask_ok w w' a : ask w = (w', Ok a) -> exists s rest, parse s = Some a /\ w' = set_stdin rest w.
Proof.
  rewrite ask_spec. destruct (first_answer _) as [[b rest]|] eqn:Ef; [|done]. intros [= <- <-].
  apply first_answer_some in Ef as (s & Hs & _). by exists s, rest.
Qed.

Lemma ask_eof w w' e : ask w = (w', Err e) -> e = EOF.
Proof. rewrite ask_spec. destruct (first_answer _) as [[b rest]|]; [done|]. by intros [= <- <-]. Qed.

(** An answer is at least one line of the input. *)
Lemma first_answer_shorter n ls (Hls : forall s rest, (s, rest) ∈ ls -> (length rest < n)%nat) a rest :
  first_answer ls = Some (a, rest) -> (length rest < n)%nat.
Proof. intros (s & _ & Hin)%first_answer_some. by eapply Hls. Qed.

Lemma lines_shorter l s rest : (s, rest) ∈ lines_of l -> (length rest < length l)%nat.
Proof.
  remember (lines_of l) as ls eqn:El. revert l El. induction ls as [|[s0 r0] ls IH]; intros l El; [by rewrite elem_of_nil|].
  destruct (lines_rest _ _ _ _ (eq_sym El)) as [Hr Hl].
  rewrite elem_of_cons. intros [[= -> ->]|Hin]; [done|]. specialize (IH r0 (eq_sym Hr) Hin). lia.
Qed.

Lemma ask_consumes w w' a : ask w = (w', Ok a) -> (length (stdin w') < length (stdin w))%nat.
Proof.
  rewrite ask_spec. destruct (first_answer _) as [[b rest]|] eqn:Ef; [|done]. intros [= <- <-].
  eapply first_answer_shorter; [|done]. intros s r. apply lines_shorter.
Qed.

(** An end of the input is the only failure. *)
Lemma ask_fails w w' e : ask w = (w', Err e) -> w' = set_stdin [] w /\ e = EOF.
Proof. rewrite ask_spec. destruct (first_answer _) as [[b rest]|]; [done|]. by intros [= <- <-]. Qed.
End ask.

(** The two readers are instances of the same scheme, with [strip] the line ending they remove. *)
Section reader.
Context {N : Type} (partial : bool) (strip : list byte -> string).
Notation W := (World N).

Definition read_line : IO W string := fun w =>
  let '(line, found, rest) := ReadString (stdin w) in
  (set_stdin rest w, if found || (partial && negb (bool_decide (line = []))) then Ok (strip line) else Err EOF).

Definition stripped (l : list byte) : list (string * list byte) :=
  (fun x => (strip x.1, x.2)) <$> input_lines partial [] l.

#[local] Instance read_line_reader : LineReader read_line stripped.
Proof.
  split.
  - intros w. unfold read_line, stripped. rewrite input_lines_read.
    destruct (ReadString (stdin w)) as [[line found] rest] eqn:Er. apply ReadString_rest in Er as (_ & _ & Hr).
    destruct found; [done|]. rewrite (Hr eq_refl). destruct line as [|b line]; [by rewrite andb_false_r|].
    simpl. by destruct partial.
  - intros l s rest more. unfold stripped. rewrite input_lines_read.
    destruct (ReadString l) as [[line found] r] eqn:Er. apply ReadString_rest in Er as (-> & Hf & Hr). simpl.
    destruct found.
    + csimpl. intros [= <- <- <-]. split; [done|]. rewrite length_app.
      destruct line; [by destruct (Hf eq_refl)|]. simpl. lia.
    + rewrite (Hr eq_refl), app_nil_r. destruct line as [|b line]; [done|]. destruct partial; [|done].
      csimpl. intros [= <- <- <-]. split; [done|simpl; lia].
Qed.
End reader.

(** ** Answers *)

(** [for i, c := range choices { if c == defaultVal }] *)
Fixpoint index_of (c : string) (choices : list string) : option nat :=
  match choices with
  | [] => None
  | d :: l => if d =s c then Some O else S <$> index_of c l
  end.

Definition firstNonEmpty (vals : list string) : string :=
  match List.find (fun v => negb (TrimSpace v =s "")) vals with
  | Some v => TrimSpace v
  | None => ""
  end.

(** A line for a setting with a default; the prompt is repeated when both are empty. *)
Definition string_answer (defaultVal line : string) : option string :=
  let line := TrimSpace line in
  if line =s "" then if negb (defaultVal =s "") then Some defaultVal else None else Some line.

(** [line] is trimmed and in lower case. *)
Definition yes_no_answer (defaultYes : bool) (line : string) : option bool :=
  if line =s "" then Some defaultYes else
  if (line =s "y") || (line =s "yes") then Some true else
  if (line =s "n") || (line =s "no") then Some false else None.

(** [fmt.Sscanf(line, %d, &n)]: a number at the start of the text, whatever follows it. *)
Fixpoint take_digits (l : list byte) : list byte :=
  match l with
  | b :: l' => if (48 <=? byte_val b) && (byte_val b <=? 57) then b :: take_digits l' else []
  | [] => []
  end.
Definition Sscanf_d (line : string) : option Z :=
  match bytes_of line with
  | b :: l => if (byte_val b =? 43) || (byte_val b =? 45) then ParseInt (string_of (b :: take_digits l))
              else ParseInt (string_of (take_digits (b :: l)))
  | [] => None
  end.

(** A number between 1 and [n], as an index. *)
Definition in_range (n : nat) (z : option Z) : option nat :=
  match z with
  | Some k => if (1 <=? k) && (k <=? Z.of_nat n) then Some (Z.to_nat (k - 1)) else None
  | None => None
  end.

Lemma in_range_lt n z i : in_range n z = Some i -> (i < n)%nat.
Proof.
  unfold in_range. destruct z as [k|]; [|done]. destruct (Z.leb_spec 1 k); [|done].
  destruct (Z.leb_spec k (Z.of_nat n)); [|done]. simpl. intros [= <-]. lia.
Qed.

(** ** The agent's prompter *)
Module AgentPrompt.
Section prompter.
Context {N : Type}.
Notation W := (World N).

(** [strings.TrimRight] of carriage returns and newlines *)
Fixpoint drop_eol (l : list byte) : list byte :=
  match l with
  | b :: l' => if (byte_val b =? 13) || (byte_val b =? 10) then drop_eol l' else l
  | [] => []
  end.
Definition trim_eol (line : list byte) : string := string_of (rev (drop_eol (rev line))).

(** At the end of the input a line that does not end counts. *)
Definition readLine : IO W string := read_line true trim_eol.
Definition lines : list byte -> list (string * list byte) := stripped true trim_eol.
#[global] Instance readLine_reader : LineReader readLine lines := read_line_reader true trim_eol.

Definition askString (defaultVal : string) : IO W string := ask readLine (string_answer defaultVal).

Definition askOptionalString (defaultVal : string) : IO W string :=
  line ← readLine;
  let line := TrimSpace line in
  mret (if line =s "" then defaultVal else line).

Definition askOptionalPath : IO W string := line ← readLine; mret (TrimSpace line).

Definition askYesNo (defaultYes : bool) : IO W bool :=
  ask readLine (fun line => yes_no_answer defaultYes (ToLower (TrimSpace line))).

Definition askIndex (choices : list string) (defaultIdx : nat) : IO W nat :=
  ask readLine (fun line =>
    let line := TrimSpace line in
    if line =s "" then Some defaultIdx else in_range (length choices) (Sscanf_d line)).

Definition askChoice (choices : list string) (defaultVal : string) : IO W string :=
  idx ← askIndex choices (default O (index_of defaultVal choices));
  mret (nth idx choices "").
End prompter.
End AgentPrompt.

(** ** The proxy's prompter *)
Module ProxyPrompt.
Section prompter.
Context {N : Type}.
Notation W := (World N).

(** A line that does not end is dropped. *)
Definition trim_newline (line : list byte) : string := TrimSuffix (string_of line) (string_of [newline]).
Definition readLine : IO W string := read_line false trim_newline.
Definition lines : list byte -> list (string * list byte) := stripped false trim_newline.
#[global] Instance readLine_reader : LineReader readLine lines := read_line_reader false trim_newline.

Definition askString (defaultVal : string) : IO W string := ask readLine (string_answer defaultVal).

Definition askYesNo (defaultYes : bool) : IO W bool :=
  ask readLine (fun line => yes_no_answer defaultYes (TrimSpace (ToLower line))).

Definition askChoice (choices : list string) (defaultIdx : nat) : IO W string :=
  idx ← ask readLine (fun line =>
    let line := TrimSpace line in
    let line := if line =s "" then FormatInt (Z.of_nat defaultIdx + 1) else line in
    in_range (length choices) (ParseInt line));
  mret (nth idx choices "").
End prompter.
End ProxyPrompt.

(** ** Prompts return *)

Section facts.
Context {N A : Type}.
Implicit Types w : World N.

Lemma ask_unfold (readLine : IO (World N) string) (parse : string -> option A) lines `{!LineReader readLine lines} w :
  ask readLine parse w =
    (line ← readLine; match parse line with Some a => mret a | None => ask readLine parse end) w.
Proof.
  rewrite (ask_spec _ _ lines). unfold mbind, io_bind. rewrite read_next.
  destruct (lines (stdin w)) as [|[s rest] more] eqn:El; [done|]. simpl.
  destruct (parse s) as [a|]; [done|]. rewrite (ask_spec _ _ lines). simpl.
  by rewrite (proj1 (lines_rest _ _ _ _ El)).
Qed.

End facts.

Section answers.
Context {N : Type}.
Implicit Types w : World N.

Lemma string_answer_some d line s : string_answer d line = Some s -> s <> "".
Proof. unfold string_answer. intros Hs. repeat case_match; str_prop; simplify_eq; done. Qed.

Lemma agent_askString_nonempty d w w' s : AgentPrompt.askString d w = (w', Ok s) -> s <> "".
Proof. intros (line & rest & Hs & _)%(ask_ok _ _ AgentPrompt.lines). by eapply string_answer_some. Qed.

Lemma proxy_askString_nonempty d w w' s : ProxyPrompt.askString d w = (w', Ok s) -> s <> "".
Proof. intros (line & rest & Hs & _)%(ask_ok _ _ ProxyPrompt.lines). by eapply string_answer_some. Qed.

Lemma nth_elem (l : list string) i : (i < length l)%nat -> nth i l "" ∈ l.
Proof. intros Hi. apply list_elem_of_In. by apply nth_In. Qed.

Lemma agent_askIndex_lt choices d w w' i :
  AgentPrompt.askIndex choices d w = (w', Ok i) -> (d < length choices)%nat -> (i < length choices)%nat.
Proof.
  intros (line & rest & Hs & _)%(ask_ok _ _ AgentPrompt.lines) Hd. simpl in Hs.
  destruct (_ =s ""); [by simplify_eq|]. by eapply in_range_lt.
Qed.

Lemma index_of_lt c choices i : index_of c choices = Some i -> (i < length choices)%nat.
Proof.
  revert i. induction choices as [|d l IH]; intros i; simpl; [done|]. destruct (d =s c); [intros [= <-]; lia|].
  destruct (index_of c l) as [j|]; [|done]. intros [= <-]. specialize (IH j eq_refl). lia.
Qed.

Lemma agent_askChoice_in choices d w w' c :
  AgentPrompt.askChoice choices d w = (w', Ok c) -> choices <> [] -> c ∈ choices.
Proof.
  unfold AgentPrompt.askChoice. intros Hc Hne. io_ok. subst.
  apply nth_elem. eapply agent_askIndex_lt; [done|].
  destruct (index_of d choices) as [i|] eqn:Ei; simpl; [by eapply index_of_lt|]. destruct choices; [done|simpl; lia].
Qed.

Lemma proxy_askChoice_in choices d w w' c :
  ProxyPrompt.askChoice choices d w = (w', Ok c) -> c ∈ choices.
Proof.
  unfold ProxyPrompt.askChoice. intros Hc. io_ok. subst. apply nth_elem.
  match goal with H : ask _ _ _ = _ |- _ => apply (ask_ok _ _ ProxyPrompt.lines) in H as (line & rest & Hs & _) end.
  by eapply in_range_lt.
Qed.
End answers.

(** *** Prompts only read their input *)

Section keeps.
Context {N : Type}.

Lemma ask_keeps {A} R (readLine : IO (World N) string) (parse : string -> option A) lines `{!LineReader readLine lines} :
  PreOrder R -> keeps (on_files R) (ask readLine parse).
Proof.
  intros HR. apply keeps_same_files; [done|]. intros w. rewrite (ask_spec _ _ lines).
  by destruct (first_answer _ _) as [[a rest]|].
Qed.
Lemma agent_ask_keeps {A} R (parse : string -> option A) : PreOrder R -> keeps (on_files R) (@ask N A AgentPrompt.readLine parse).
Proof. apply (ask_keeps R _ _ AgentPrompt.lines). Qed.
Lemma proxy_ask_keeps {A} R (parse : string -> option A) : PreOrder R -> keeps (on_files R) (@ask N A ProxyPrompt.readLine parse).
Proof. apply (ask_keeps R _ _ ProxyPrompt.lines). Qed.
Lemma agent_readLine_keeps R : PreOrder R -> keeps (on_files R) (@AgentPrompt.readLine N).
Proof.
  intros HR. apply keeps_same_files; [done|]. intros w. unfold AgentPrompt.readLine, read_line.
  by destruct (ReadString (stdin w)) as [[line found] rest].
Qed.
End keeps.

#[export] Hint Resolve agent_ask_keeps proxy_ask_keeps agent_readLine_keeps : keeps.

Module PromptDemo.
Definition typed (s : string) : World unit := mkWorld ∅ (bytes_of s) [] tt.
Definition line (s : string) : string := s +:+ string_of [newline].

Example yes : (AgentPrompt.askYesNo false (typed (line "maybe" +:+ line " YES "))).2 = Ok true.
Proof. reflexivity. Qed.
Example unfinished : (AgentPrompt.askString "" (typed (line "" +:+ "deploy"))).2 = Ok "deploy" /\
                     (ProxyPrompt.askString "" (typed (line "" +:+ "deploy"))).2 = Err EOF.
Proof. split; reflexivity. Qed.
Example prefix_number : (AgentPrompt.askIndex ["a"; "b"; "c"] 0 (typed (line "2nd"))).2 = Ok 1%nat /\
                        (ProxyPrompt.askChoice ["a"; "b"; "c"] 0 (typed (line "2nd" +:+ line ""))).2 = Ok "a".
Proof. split; reflexivity. Qed.
End PromptDemo.
