(* ===== verification/Systemd.v ===== *)
(** * Installing services (agent/internal/install and proxy/internal/install: systemd.go,
      user_linux.go, proxy_config.go)

    Unit files, the service account, directories and the permissions of certificate files.  The
    account database and the commands are the operating system's ([Sys]); a command changes what is
    behind it, not the files of the world. *)

From Stdlib Require Import Ascii.
From S2P Require Import Prelude GoStrings GoPath GoOs GoNet GoPrompt ConfigLoad.

(** ** The operating system's accounts and commands *)

Record Sys (N : Type) := mkSys {
  user_Lookup : string -> N -> option string;                          (* the user's Uid *)
  group_Lookup : string -> N -> option string;                         (* the group's Gid *)
  run_command : list string -> N -> N * (list byte * option error);    (* combined output, failure *)
  os_Executable : option string
}.
Arguments mkSys {N} _ _ _ _.
Arguments user_Lookup {N} _ _ _.
Arguments group_Lookup {N} _ _ _.
Arguments run_command {N} _ _ _.
Arguments os_Executable {N} _.

Definition nl : string := string_of [newline].
(** Lines, each with its newline. *)
Definition text_of (lines : list string) : string := foldr (fun l out => l +:+ nl +:+ out) "" lines.

Section users.
Context {N : Type} (env : Environ) (sys : Sys N).
Notation W := (World N).

Definition command (args : list string) : IO W (list byte * option error) := fun w =>
  let '(n, r) := run_command sys args (nw w) in
  (mkWorld (files w) (stdin w) (args :: ran w) n, Ok r).

Definition trimOutput (out : list byte) : string := TrimSpace (string_of out).

(** [cmd.CombinedOutput] of a tool about [name]. *)
Definition run_tool (tool name : string) (args : list string) : IO W unit :=
  r ← command (tool :: args);
  match r with
  | (out, Some e) => fail (EWrap (tool +:+ " " +:+ name +:+ ": " +:+ error_text e +:+ " (" +:+ trimOutput out +:+ ")") e)
  | (_, None) => mret tt
  end.

Definition runSystemctl (args : list string) : IO W unit :=
  r ← command ("systemctl" :: args);
  match r.2 with
  | Some e => fail (annotate ("systemctl " +:+ Join_strings " " (take 1 args)) e)
  | None => mret tt
  end.

Definition runSystemctlUser (args : list string) : IO W unit :=
  r ← command ("systemctl" :: "--user" :: args);
  match r.2 with
  | Some e => fail (annotate ("systemctl --user " +:+ Join_strings " " (take 1 args)) e)
  | None => mret tt
  end.

Definition lookupGID (group : string) (w : W) : Z :=
  match group_Lookup sys group (nw w) with
  | None => -1
  | Some gid => default (-1) (Sscanf_d gid)
  end.

Definition user_exists (u : string) (w : W) : bool := bool_decide (is_Some (user_Lookup sys u (nw w))).

Definition ensureGroup (group : string) : IO W unit :=
  known ← test (fun w => 0 <=? lookupGID group w);
  if (known : bool) then mret tt else run_tool "groupadd" group ["--system"; group].

Definition EnsureServiceUser (username group : string) : IO W unit :=
  if username =s "" then fail (errorf "service user name required") else
  let group := if group =s "" then username else group in
  _ ← ensureGroup group;
  known ← test (user_exists username);
  if (known : bool) then mret tt else
  run_tool "useradd" username ["--system"; "--home-dir"; Join ["/var/lib"; username]; "--shell"; "/usr/sbin/nologin";
    "--no-create-home"; "--gid"; group; username].

(** [os.Chown] of a directory. *)
Definition ChownDir (dir : string) : IO W unit :=
  if chmod_fails env (key env dir) then fail (errorf ("chown " +:+ dir)) else mret tt.

Fixpoint ensure_dirs (gid : Z) (dirs : list string) : IO W unit :=
  match dirs with
  | [] => mret tt
  | dir :: rest =>
      _ ← wrapping ("mkdir " +:+ dir) (MkdirAll env dir);
      _ ← when (0 <=? gid) (wrapping ("chown " +:+ dir) (ChownDir dir));
      ensure_dirs gid rest
  end.

Definition EnsureLunaDirs (username group : string) : IO W unit := fun w =>
  ensure_dirs (lookupGID group w) ["/etc/luna"; "/etc/luna/certs"; "/etc/luna/ssh"; Join ["/var/lib"; username]] w.

(** The names of the files of a directory, sorted, as [os.ReadDir] lists them; other directories are
    skipped by the caller. *)
Definition dir_entries (d : list string) (fs : gmap (list string) File) : list string :=
  sort_by id (omap (fun kf => match kf.1 with n :: d' => if decide (d' = d) then Some n else None | [] => None end)
    (map_to_list fs)).

Definition ReadDir (dir : string) : IO W (option (list string)) := fun w =>
  (w, if read_fails env (key env dir) then Err (errorf ("open " +:+ dir)) else
      match dir_entries (key env dir) (files w) with
      | [] => if is_dir env (key env dir) then Ok (Some []) else Ok None
      | l => Ok (Some l)
      end).

Section permissions.
(** The permissions for a file's name, where the program sets them. *)
Context (mode_for : string -> option Z).

Fixpoint grant (dir : string) (gid : Z) (names : list string) : IO W unit :=
  match names with
  | [] => mret tt
  | name :: rest =>
      let path := Join [dir; name] in
      found ← test (fileExists env path);
      if negb (found : bool) then fail (errorf ("stat " +:+ path)) else
      _ ← wrapping ("chown " +:+ path) (Chgrp env path gid);
      _ ← match mode_for name with Some m => Chmod env path m | None => mret tt end;
      grant dir gid rest
  end.

(** [EnsureCertPermissions], up to the table of permissions *)
Definition ensure_permissions (dir group : string) : IO W unit :=
  gid ← look (fun w => Ok (lookupGID group w));
  if (gid : Z) <? 0 then fail (errorf ("group " +:+ group +:+ " not found")) else
  entries ← ReadDir dir;
  match entries with
  | None => mret tt
  | Some names => grant dir gid names
  end.
End permissions.

End users.

(** ** The agent's service *)
Module AgentInstall.

Definition agentUnitName : string := "luna-agent.service".

Record SystemdOptions := mkSystemd {
  BinaryPath : string;
  ConfigPath : string;
  User : string;
  Group : string;
  UnitPath : string;
  DryRun : bool;
  Enable : bool;
  SkipUserCreate : bool;
  System : bool
}.

Definition DefaultAgentSystemdOptions : SystemdOptions :=
  mkSystemd "/usr/local/bin/luna-agent" "/etc/luna/agent.yml" "luna" "luna" (Join ["/etc/systemd/system"; agentUnitName])
    false false false true.

(** Keys can be read by the service's group. *)
Definition cert_mode (name : string) : option Z :=
  if HasSuffix name ".key" then Some 416 else if HasSuffix name ".crt" then Some 420 else None.

Section install.
Context {N : Type} (env : Environ) (sys : Sys N).
Notation W := (World N).

Definition EnsureCertPermissions (dir group : string) : IO W unit := ensure_permissions env sys cert_mode dir group.

Definition defaultUserBinaryPath : string :=
  match os_Executable sys with
  | Some exe => if negb (exe =s "") then exe else "luna-agent"
  | None => "luna-agent"
  end.

Definition DefaultAgentUserSystemdOptions : SystemdOptions :=
  let home := default "" (UserHomeDir env) in
  let configDir := Join [home; ".config"; "luna"] in
  mkSystemd defaultUserBinaryPath (Join [configDir; "agent.yml"]) "" ""
    (Join [home; ".config"; "systemd"; "user"; agentUnitName]) false false false false.

Definition or_default := ConfigLoad.Load.or_default.

Definition withDefaults (o : SystemdOptions) : SystemdOptions :=
  if System o then
    let d := DefaultAgentSystemdOptions in
    mkSystemd (or_default (BinaryPath o) (BinaryPath d)) (or_default (ConfigPath o) (ConfigPath d))
      (or_default (User o) (User d)) (or_default (Group o) (Group d)) (or_default (UnitPath o) (UnitPath d))
      (DryRun o) (Enable o) (SkipUserCreate o) (System o)
  else
    let d := DefaultAgentUserSystemdOptions in
    mkSystemd (or_default (BinaryPath o) (BinaryPath d)) (or_default (ConfigPath o) (ConfigPath d)) (User o) (Group o)
      (or_default (UnitPath o) (UnitPath d)) (DryRun o) (Enable o) (SkipUserCreate o) (System o).

Definition agentSystemUnitTemplate (o : SystemdOptions) : string := text_of
  ["[Unit]";
   "Description=Luna Z-Trust SSH agent (SSH_AUTH_SOCK interceptor)";
   "Documentation=https://github.com/ba0f3/luna-ztrust/blob/main/docs/deploy.md";
   "After=network-online.target";
   "Wants=network-online.target";
   "";
   "[Service]";
   "Type=simple";
   "User=" +:+ User o;
   "Group=" +:+ Group o;
   "ExecStart=" +:+ BinaryPath o;
   "Environment=LUNA_CONFIG=" +:+ ConfigPath o;
   "Restart=on-failure";
   "RestartSec=5";
   "RuntimeDirectory=luna";
   "RuntimeDirectoryMode=0700";
   "";
   "[Install]";
   "WantedBy=multi-user.target"].

Definition agentUserUnitTemplate (o : SystemdOptions) : string := text_of
  ["[Unit]";
   "Description=Luna Z-Trust SSH agent (SSH_AUTH_SOCK interceptor)";
   "Documentation=https://github.com/ba0f3/luna-ztrust/blob/main/docs/deploy.md";
   "After=network-online.target default.target";
   "Wants=network-online.target";
   "";
   "[Service]";
   "Type=simple";
   "ExecStart=" +:+ BinaryPath o;
   "Environment=LUNA_CONFIG=" +:+ ConfigPath o;
   "Restart=on-failure";
   "RestartSec=5";
   "RuntimeDirectory=luna";
   "RuntimeDirectoryMode=0700";
   "";
   "[Install]";
   "WantedBy=default.target"].

(** The templates always execute. *)
Definition RenderAgentUnit (o : SystemdOptions) : string :=
  let o := withDefaults o in
  if System o then agentSystemUnitTemplate o else agentUserUnitTemplate o.

Definition no_such_user (u : string) : error := errorf ("systemd user " +:+ u +:+ " does not exist").

Definition prepareServiceUser (o : SystemdOptions) : IO W unit :=
  known ← test (user_exists sys (User o));
  _ ← (if (known : bool) then mret tt
       else if SkipUserCreate o then fail (no_such_user (User o))
       else EnsureServiceUser sys (User o) (Group o));
  _ ← EnsureLunaDirs env sys (User o) (Group o);
  EnsureCertPermissions "/etc/luna/certs" (Group o).

Definition write_unit (path body : string) : IO W unit :=
  _ ← wrapping "create unit directory" (MkdirAll env (Dir path));
  wrapping ("write " +:+ path) (WriteFile env path (bytes_of body) 420).

Definition installAgentUserUnit (o : SystemdOptions) (body : string) : IO W unit :=
  _ ← write_unit (UnitPath o) body;
  if Enable o then
    _ ← runSystemctlUser sys ["daemon-reload"];
    runSystemctlUser sys ["enable"; "--now"; agentUnitName]
  else mret tt.

Definition installAgentSystemUnit (o : SystemdOptions) (body : string) : IO W unit :=
  if negb (Geteuid env =? 0) then fail (errorf "install system systemd unit requires root") else
  _ ← prepareServiceUser o;
  _ ← write_unit (UnitPath o) body;
  if Enable o then
    _ ← runSystemctl sys ["daemon-reload"];
    runSystemctl sys ["enable"; "--now"; agentUnitName]
  else mret tt.

(** The result is the text that a dry run prints. *)
Definition InstallAgentSystemd (o : SystemdOptions) : IO W string :=
  let o := withDefaults o in
  let body := RenderAgentUnit o in
  if DryRun o then mret body else
  _ ← (if System o then installAgentSystemUnit o body else installAgentUserUnit o body);
  mret "".
End install.
End AgentInstall.

(** ** The proxy's service *)
Module ProxyInstall.

Definition proxyUnitName : string := "luna-proxy.service".

Record SystemdOptions := mkSystemd {
  BinaryPath : string;
  ConfigPath : string;
  User : string;
  Group : string;
  UnitPath : string;
  CertsDir : string;
  DryRun : bool;
  Enable : bool;
  SkipUserCreate : bool
}.

Definition DefaultProxySystemdOptions : SystemdOptions :=
  mkSystemd "/usr/local/bin/luna-proxy" "/etc/luna/proxy.yml" "luna" "luna" (Join ["/etc/systemd/system"; proxyUnitName])
    "" false false false.

(** The group reads the server's and the CA's keys, only the owner every other key. *)
Definition cert_mode (name : string) : option Z :=
  if (name =s "server.key") || (name =s "ca.key") then Some 416 else
  if (name =s "admin-client.key") || (name =s "client.key") then Some 384 else
  if HasSuffix name ".key" then Some 384 else
  if HasSuffix name ".crt" then Some 420 else None.

Definition or_default := ConfigLoad.Load.or_default.

Definition withDefaults (o : SystemdOptions) : SystemdOptions :=
  let d := DefaultProxySystemdOptions in
  mkSystemd (or_default (BinaryPath o) (BinaryPath d)) (or_default (ConfigPath o) (ConfigPath d))
    (or_default (User o) (User d)) (or_default (Group o) (Group d)) (or_default (UnitPath o) (UnitPath d))
    (CertsDir o) (DryRun o) (Enable o) (SkipUserCreate o).

Definition proxyUnitTemplate (o : SystemdOptions) : string := text_of
  ["[Unit]";
   "Description=Luna Z-Trust central proxy (mTLS API and control socket)";
   "Documentation=https://github.com/ba0f3/luna-ztrust/blob/main/docs/deploy.md";
   "After=network-online.target";
   "Wants=network-online.target";
   "";
   "[Service]";
   "Type=simple";
   "User=" +:+ User o;
   "Group=" +:+ Group o;
   "ExecStart=" +:+ BinaryPath o +:+ " serve";
   "Restart=on-failure";
   "RestartSec=5";
   "RuntimeDirectory=luna";
   "RuntimeDirectoryMode=0750";
   "# Set control_socket: /run/luna/control.sock in proxy.yml (matches RuntimeDirectory).";
   "";
   "[Install]";
   "WantedBy=multi-user.target"].

Definition RenderProxyUnit (o : SystemdOptions) : string := proxyUnitTemplate (withDefaults o).

Section install.
Context {N : Type} (env : Environ) (sys : Sys N).
Notation W := (World N).

Definition EnsureCertPermissions (dir group : string) : IO W unit := ensure_permissions env sys cert_mode dir group.

Definition EnsureDefaultProxyConfig (path : string) : IO W unit :=
  let path := or_default path ConfigLoad.Load.DefaultProxyConfigPath in
  found ← test (fileExists env path);
  if (found : bool) then mret tt else fail (errorf ("missing " +:+ path)).

Definition prepareServiceUser (o : SystemdOptions) : IO W unit :=
  known ← test (user_exists sys (User o));
  _ ← (if (known : bool) then mret tt
       else if SkipUserCreate o then fail (AgentInstall.no_such_user (User o))
       else EnsureServiceUser sys (User o) (Group o));
  _ ← EnsureLunaDirs env sys (User o) (Group o);
  _ ← wrapping "cert permissions"
        (EnsureCertPermissions (or_default (CertsDir o) ConfigLoad.Load.DefaultCertsDir) (Group o));
  EnsureDefaultProxyConfig (ConfigPath o).

Definition InstallProxySystemd (o : SystemdOptions) : IO W string :=
  let o := withDefaults o in
  let body := RenderProxyUnit o in
  if DryRun o then mret body else
  if negb (Geteuid env =? 0) then fail (errorf "install systemd: must run as root") else
  _ ← prepareServiceUser o;
  _ ← AgentInstall.write_unit env (UnitPath o) body;
  _ ← (if Enable o then
         _ ← runSystemctl sys ["daemon-reload"];
         runSystemctl sys ["enable"; "--now"; proxyUnitName]
       else mret tt);
  mret "".
End install.
End ProxyInstall.

(** ** Facts *)

Lemma insert_by_perm {A} (k : A -> string) x l : insert_by k x l ≡ₚ x :: l.
Proof.
  induction l as [|y l IH]; simpl; [done|]. destruct (String.ltb _ _); [|done]. rewrite IH. apply perm_swap.
Qed.
Lemma sort_by_perm {A} (k : A -> string) l : sort_by k l ≡ₚ l.
Proof. induction l as [|x l IH]; simpl; [done|]. by rewrite insert_by_perm, IH. Qed.

(** The files of a world are named by plain names. *)
Definition names_ok (fs : gmap (list string) File) : Prop := forall k f, fs !! k = Some f -> Forall plain_name k.

Lemma dir_entries_spec d fs n : n ∈ dir_entries d fs <-> is_Some (fs !! (n :: d)).
Proof.
  unfold dir_entries. rewrite sort_by_perm, list_elem_of_omap. split.
  - intros ([k f] & Hk & Hn). simpl in Hn. destruct k as [|m d']; [done|]. case_decide; [|done]. simplify_eq.
    apply elem_of_map_to_list in Hk. by eexists.
  - intros [f Hf]. exists (n :: d, f). split; [by apply elem_of_map_to_list|]. simpl. by rewrite decide_True.
Qed.

Lemma dir_entries_nodup d fs : NoDup (dir_entries d fs).
Proof.
  unfold dir_entries. rewrite sort_by_perm.
  pose proof (NoDup_fst_map_to_list fs) as Hn. revert Hn.
  induction (map_to_list fs) as [|[k f] l IH]; csimpl; [intros _; constructor|].
  intros [Hk Hl]%NoDup_cons. destruct k as [|m d']; [auto|]. case_decide as Hd; [|auto]. subst d'.
  apply NoDup_cons. split; [|auto]. rewrite list_elem_of_omap. intros ([k' f'] & Hin & Hm). simpl in Hm.
  destruct k' as [|m' d']; [done|]. case_decide; [|done]. simplify_eq. apply Hk.
  rewrite list_elem_of_fmap. by exists (m :: d, f').
Qed.

Section facts.
Context {N : Type} (env : Environ) (sys : Sys N).
Implicit Types w : World N.

Lemma Chgrp_ok p gid w w' : Chgrp env p gid w = (w', Ok tt) ->
  exists f, files w !! key env p = Some f /\ w' = set_files (<[key env p := mkFile (f_data f) (f_mode f) (Some gid)]> (files w)) w.
Proof. unfold Chgrp. destruct (chmod_fails _ _); [done|]. destruct (files w !! _) as [f|]; [|done]. intros [= <-]. by exists f. Qed.

Lemma Chmod_ok p m w w' : Chmod env p m w = (w', Ok tt) ->
  exists f, files w !! key env p = Some f /\ w' = set_files (<[key env p := mkFile (f_data f) m (f_gid f)]> (files w)) w.
Proof. unfold Chmod. destruct (chmod_fails _ _); [done|]. destruct (files w !! _) as [f|]; [|done]. intros [= <-]. by exists f. Qed.

(** One file after [grant]. *)
Definition granted (mode_for : string -> option Z) (gid : Z) (n : string) (f : File) : File :=
  mkFile (f_data f) (default (f_mode f) (mode_for n)) (Some gid).

Lemma grant_ok mode_for dir gid names w w' :
  dir <> "" -> Forall plain_name names -> NoDup names ->
  grant env mode_for dir gid names w = (w', Ok tt) ->
  (forall n, n ∈ names -> exists f, files w !! (n :: key env dir) = Some f /\
     files w' !! (n :: key env dir) = Some (granted mode_for gid n f)) /\
  (forall k, (forall n, n ∈ names -> k <> n :: key env dir) -> files w' !! k = files w !! k).
Proof.
  intros Hd. revert w. induction names as [|n names IH]; intros w Hp Hn.
  { intros [= <-]. split; [by intros n ?%not_elem_of_nil|done]. }
  apply Forall_cons in Hp as [Hn1 Hp]. apply NoDup_cons in Hn as [Hnew Hn]. cbn [grant]. intros H. io_ok.
  match goal with H : (if negb ?b then _ else _) _ = _ |- _ => destruct b; [|done]; cbn [negb] in H end. io_ok.
  match goal with H : Chgrp _ _ _ _ = (_, Ok ?a) |- _ => destruct a; apply Chgrp_ok in H as (f & Hf & ->) end.
  assert (Hk : key env (Join [dir; n]) = n :: key env dir) by by apply resolve_Join.
  rewrite Hk in *.
  match goal with H : match mode_for n with _ => _ end _ = (?w1, Ok ?a), H' : grant _ _ _ _ _ ?w1 = _ |- _ =>
    assert (Hw : files w1 = <[n :: key env dir := granted mode_for gid n f]> (files w)); [|destruct (IH w1 Hp Hn H') as [IH1 IH2]] end.
  { subst. unfold granted. destruct (mode_for n) as [m|]; io_ok; [|by subst].
    match goal with H : Chmod _ _ _ _ = (_, Ok ?a) |- _ => destruct a; apply Chmod_ok in H as (f' & Hf' & ->) end.
    rewrite Hk in *. cbn [files set_files] in *. rewrite lookup_insert_eq in Hf'. injection Hf' as <-.
    cbn. by rewrite insert_insert_eq. }
  subst.
  rewrite Hw in IH1, IH2. split.
  - intros m [->|Hm]%elem_of_cons.
    + exists f. split; [done|]. rewrite IH2; [by rewrite lookup_insert_eq|]. intros m Hm [= ->]. done.
    + destruct (IH1 m Hm) as (g & Hg & Hg'). rewrite lookup_insert_ne in Hg by (by intros [= ->]). by exists g.
  - intros k Hk'. rewrite IH2 by (intros m Hm; apply Hk'; by apply elem_of_cons; right).
    rewrite lookup_insert_ne; [done|]. intros <-. apply (Hk' n); [by apply elem_of_cons; left|done].
Qed.

Lemma ensure_permissions_ok mode_for dir group w w' :
  dir <> "" -> names_ok (files w) -> ensure_permissions env sys mode_for dir group w = (w', Ok tt) ->
  0 <= lookupGID sys group w /\
  (forall n f, files w !! (n :: key env dir) = Some f ->
     files w' !! (n :: key env dir) = Some (granted mode_for (lookupGID sys group w) n f)) /\
  (forall k, (forall n, k <> n :: key env dir) -> files w' !! k = files w !! k).
Proof.
  intros Hd Hok. unfold ensure_permissions. intros H. io_ok. subst.
  destruct (Z.ltb_spec (lookupGID sys group w0) 0) as [|Hg]; [done|]. io_ok. split; [done|].
  match goal with H : ReadDir _ _ _ = _ |- _ => unfold ReadDir in H; injection H as <- Hr end.
  destruct (read_fails _ _); [done|].
  assert (He : exists names, names = dir_entries (key env dir) (files w0) /\ (names <> [] -> a = Some names) /\
    (names = [] -> a = Some [] \/ a = None)).
  { exists (dir_entries (key env dir) (files w0)). split; [done|]. destruct (dir_entries _ _); [|by simplify_eq].
    destruct (is_dir _ _); simplify_eq; split; auto; done. }
  destruct He as (names & Hnames & Hsome & Hnone).
  destruct (decide (names = [])) as [En|Hne].
  - assert (w' = w0) as -> by (destruct (Hnone En) as [-> | ->]; simpl in H; unfold mret, io_ret in H; congruence). split; [|done].
    intros n f Hf. exfalso. assert (Hin : n ∈ names) by (rewrite Hnames; apply dir_entries_spec; eauto).
    rewrite En in Hin. by apply not_elem_of_nil in Hin.
  - rewrite (Hsome Hne) in H. eapply grant_ok in H as [H1 H2]; [|done| |rewrite Hnames; apply dir_entries_nodup].
    2: { apply Forall_forall. intros n Hin. rewrite Hnames in Hin. apply dir_entries_spec in Hin as [f Hf].
         by apply Hok, Forall_cons in Hf as [? _]. }
    split; [|intros k Hk; apply H2; intros n _; apply Hk].
    intros n f Hf. destruct (H1 n) as (g & Hg' & Hn); [rewrite Hnames; apply dir_entries_spec; eauto|]. by simplify_eq.
Qed.

Lemma permissions_need_group mode_for dir group w :
  lookupGID sys group w < 0 ->
  ensure_permissions env sys mode_for dir group w = (w, Err (errorf ("group " +:+ group +:+ " not found"))).
Proof.
  intros Hg. unfold ensure_permissions. erewrite bind_run by reflexivity. by rewrite (proj2 (Z.ltb_lt _ _) Hg).
Qed.

(** No permission for others. *)
Definition private (m : Z) : Prop := Z.land m 7 = 0.


(** ** Installing keeps files *)

Lemma command_keeps R args : PreOrder R -> keeps (on_files R) (command sys args).
Proof. intros HR. apply keeps_same_files; [done|]. intros w. unfold command. by destruct (run_command _ _ _). Qed.
#[local] Hint Resolve command_keeps : keeps.

Lemma run_tool_keeps R t n args : PreOrder R -> keeps (on_files R) (run_tool sys t n args).
Proof. intros HR. unfold run_tool. keeps. Qed.
Lemma runSystemctl_keeps R args : PreOrder R -> keeps (on_files R) (runSystemctl sys args).
Proof. intros HR. unfold runSystemctl. keeps. Qed.
Lemma runSystemctlUser_keeps R args : PreOrder R -> keeps (on_files R) (runSystemctlUser sys args).
Proof. intros HR. unfold runSystemctlUser. keeps. Qed.
#[local] Hint Resolve run_tool_keeps runSystemctl_keeps runSystemctlUser_keeps : keeps.

Lemma EnsureServiceUser_keeps R u g : PreOrder R -> keeps (on_files R) (EnsureServiceUser sys u g).
Proof. intros HR. unfold EnsureServiceUser, ensureGroup. keeps. Qed.

Lemma EnsureLunaDirs_keeps R u g : PreOrder R -> keeps (on_files R) (EnsureLunaDirs env sys u g).
Proof.
  intros HR w. unfold EnsureLunaDirs. generalize (lookupGID sys g w), ["/etc/luna"; "/etc/luna/certs"; "/etc/luna/ssh"; Join ["/var/lib"; u]].
  intros gid dirs. revert w. change (keeps (on_files R) (ensure_dirs (N := N) env gid dirs)).
  induction dirs as [|d dirs IH]; cbn [ensure_dirs]; [apply keeps_ret; apply _|]. unfold ChownDir. keeps.
Qed.

(** Permissions change neither which files there are nor what they contain. *)
Lemma grant_keeps R mode_for dir gid names : PreOrder R ->
  (forall p m, keeps (on_files R) (@Chmod N env p m)) -> (forall p g, keeps (on_files R) (@Chgrp N env p g)) ->
  keeps (on_files R) (grant (N := N) env mode_for dir gid names).
Proof.
  intros HR Hm Hg. induction names as [|n names IH]; cbn [grant]; [apply keeps_ret; apply _|]. keeps.
Qed.
Lemma ensure_permissions_keeps R mode_for dir group : PreOrder R ->
  (forall p m, keeps (on_files R) (@Chmod N env p m)) -> (forall p g, keeps (on_files R) (@Chgrp N env p g)) ->
  keeps (on_files R) (ensure_permissions env sys mode_for dir group).
Proof.
  intros HR Hm Hg. unfold ensure_permissions.
  pose proof (fun d g l => grant_keeps R mode_for d g l HR Hm Hg) as Hgr.
  assert (Hr : forall d, keeps (on_files R) (ReadDir (N := N) env d)) by (intros d; by apply keeps_same_files). keeps.
Qed.

#[local] Hint Resolve EnsureServiceUser_keeps EnsureLunaDirs_keeps ensure_permissions_keeps : keeps.

Lemma agent_install_grows D o : keeps (on_files (grows D)) (AgentInstall.InstallAgentSystemd env sys o).
Proof.
  unfold AgentInstall.InstallAgentSystemd, AgentInstall.installAgentSystemUnit, AgentInstall.installAgentUserUnit,
    AgentInstall.prepareServiceUser, AgentInstall.EnsureCertPermissions, AgentInstall.write_unit. keeps.
Qed.
Lemma agent_install_retains (T : list string -> Prop) o :
  T (key env (AgentInstall.UnitPath (AgentInstall.withDefaults env sys o))) ->
  keeps (on_files (retains T)) (AgentInstall.InstallAgentSystemd env sys o).
Proof.
  intros HT. unfold AgentInstall.InstallAgentSystemd, AgentInstall.installAgentSystemUnit, AgentInstall.installAgentUserUnit,
    AgentInstall.prepareServiceUser, AgentInstall.EnsureCertPermissions, AgentInstall.write_unit. keeps.
Qed.

(** ** What a user service touches *)

(** Only the named files change, and only the user's own systemd is called. *)
Definition confined (touched : list string -> Prop) : relation (World N) := fun w w' =>
  (forall k, ~ touched k -> files w' !! k = files w !! k) /\ stdin w' = stdin w /\
  exists more, ran w' = more ++ ran w /\ Forall (fun c => exists args, c = "systemctl" :: "--user" :: args) more.

#[export] Instance confined_preorder touched : PreOrder (confined touched).
Proof.
  split.
  - intros w. split_and!; [done|done|]. by exists [].
  - intros w1 w2 w3 (H1 & S1 & m1 & R1 & F1) (H2 & S2 & m2 & R2 & F2). split_and!.
    + intros k Hk. by rewrite H2, H1.
    + congruence.
    + exists (m2 ++ m1). rewrite R2, R1, app_assoc. split; [done|]. by apply Forall_app.
Qed.

Lemma WriteFile_confined p data m : keeps (confined (fun k => k = key env p)) (WriteFile env p data m).
Proof.
  intros w. unfold WriteFile. destruct (write_fault _ _); cbn.
  all: split_and!; [intros k Hk; simpl in Hk|done|by exists []].
  all: try done; apply lookup_insert_ne; congruence.
Qed.

Lemma runSystemctlUser_confined touched args : keeps (confined touched) (runSystemctlUser sys args).
Proof.
  unfold runSystemctlUser. keeps. intros w. unfold command. destruct (run_command _ _ _) as [n r]. simpl.
  split_and!; [done|done|]. eexists [_]. split; [done|]. apply Forall_singleton. eauto.
Qed.

(** Installing the agent for a user needs no privilege: it changes the unit file and nothing else, and
    runs nothing but the user's [systemctl]; a dry run changes nothing at all. *)
Theorem user_service_confined o :
  AgentInstall.System o = false ->
  keeps (confined (fun k => AgentInstall.DryRun o = false /\
           k = key env (AgentInstall.UnitPath (AgentInstall.withDefaults env sys o))))
    (AgentInstall.InstallAgentSystemd env sys o).
Proof.
  intros Hs. unfold AgentInstall.InstallAgentSystemd. cbv zeta.
  set (od := AgentInstall.withDefaults env sys o).
  assert (Hso : AgentInstall.System od = false) by (unfold od, AgentInstall.withDefaults; by rewrite Hs).
  assert (Hdo : AgentInstall.DryRun od = AgentInstall.DryRun o) by (unfold od, AgentInstall.withDefaults; by rewrite Hs).
  rewrite Hso, Hdo. destruct (AgentInstall.DryRun o); [apply keeps_ret; apply _|].
  assert (Hw : forall body, keeps (confined (fun k => false = false /\ k = key env (AgentInstall.UnitPath od)))
    (WriteFile env (AgentInstall.UnitPath od) body 420)).
  { intros body w. destruct (WriteFile_confined (AgentInstall.UnitPath od) body 420 w) as (H & H'). split; [|done].
    intros k Hk. apply H. naive_solver. }
  assert (Hm : forall p, keeps (confined (fun k => false = false /\ k = key env (AgentInstall.UnitPath od))) (MkdirAll env p)).
  { intros p w. simpl. reflexivity. }
  pose proof runSystemctlUser_confined as Hr.
  unfold AgentInstall.installAgentUserUnit, AgentInstall.write_unit. keeps.
Qed.
End facts.

#[export] Hint Resolve command_keeps run_tool_keeps runSystemctl_keeps runSystemctlUser_keeps EnsureServiceUser_keeps
  EnsureLunaDirs_keeps ensure_permissions_keeps agent_install_grows agent_install_retains : keeps.

(** ** Examples *)
Module SystemdDemo.

(** The accounts that exist; [useradd] and [groupadd] add one. *)
Definition accounts := list string.
Definition demo_sys : Sys accounts := mkSys
  (fun u l => if bool_decide (u ∈ l) then Some "990" else None)
  (fun g l => if bool_decide (g ∈ l) then Some "991" else None)
  (fun c l => match c with
              | tool :: _ => if tool =s "systemctl" then (l, ([], None)) else (default "" (last c) :: l, ([], None))
              | [] => (l, ([], None))
              end)
  (Some "/usr/bin/luna-agent").

Definition pem (m : Z) : File := mkFile (bytes_of "PEM") m None.
Definition certs_world (l : accounts) : World accounts :=
  mkWorld (<[["server.key"; "certs"] := pem 256]> (<[["ca.crt"; "certs"] := pem 384]> ∅)) [] [] l.

Lemma names_ok_empty : names_ok ∅.
Proof. intros k f H. by rewrite lookup_empty in H. Qed.
Lemma names_ok_insert k f fs : Forall plain_name k -> names_ok fs -> names_ok (<[k := f]> fs).
Proof.
  intros Hk Hfs k' f'. destruct (decide (k = k')) as [->|Hne]; [done|].
  intros H. eapply Hfs. by rewrite lookup_insert_ne in H.
Qed.

Ltac names := repeat first [apply names_ok_insert; [repeat (constructor; [by split_and!|]); constructor|] | apply names_ok_empty].

Lemma certs_names l : names_ok (files (certs_world l)).
Proof. cbn [files certs_world]. names. Qed.


Definition user_options (dry : bool) : AgentInstall.SystemdOptions :=
  AgentInstall.mkSystemd "" "" "" "" "" dry true false false.

Lemma user_service_confined_witness :
  files (AgentInstall.InstallAgentSystemd (LoadDemo.demo_env [("HOME", "/home/u")]) demo_sys (user_options false)
    (certs_world [])).1 !! ["server.key"; "certs"] = Some (pem 256).
Proof.
  destruct (user_service_confined (LoadDemo.demo_env [("HOME", "/home/u")]) demo_sys (user_options false) eq_refl
    (certs_world [])) as [H _].
  rewrite H; [reflexivity|]. intros [_ Hk]. vm_compute in Hk. discriminate Hk.
Defined.
End SystemdDemo.
