(* ===== verification/AgentSetup.v ===== *)
(** * Setting up an agent's host (agent/internal/setup: setup.go, bootstrap.go, client.go, config.go,
      paths.go, enroll_prompt.go)

    [Run] collects the client's TLS files from a directory, from single files, from the proxy or by
    generating them, writes the agent's configuration, checks the proxy and installs the service.
    Timeouts are not modelled, nor is what is printed; certificate names keep the common name and the
    organizational units. *)

From Stdlib Require Import Ascii.
From coqutil Require Import Datatypes.RecordSetters.
From S2P Require Import Prelude GoTime GoStrings GoEncoding GoJson GoPath GoOs External Fingerprint Config Csr Http GoNet Wire Sdk Agent ConfigLoad CliClient CliCmd GoPrompt Systemd.

Module AgentSetup.
Export DoubleBraceUpdate.
Import Json.

(** ** Paths (paths.go) *)

Definition DefaultCertsDir : string := "/etc/luna/certs".
Definition DefaultConfigPath : string := "/etc/luna/agent.yml".
Definition ProductionAgentSocket : string := "/run/luna/agent.sock".

(** ** Options (setup.go) *)

Record Options := mkOptions {
  CertsDir : string;
  ConfigPath : string;
  FromDir : string;
  CAFile : string;
  CAKeyFile : string;
  CertFile : string;
  KeyFile : string;
  ProxyURL : string;
  TargetUser : string;
  TargetHost : string;
  SignerMode : string;
  HostKeyFingerprint : string;
  AgentSocket : string;
  EnrollToken : string;
  CAFingerprint : string;
  EnrollViaProxy : bool;
  FetchesCA : bool;                     (* [FetchCA] *)
  Force : bool;
  RewriteConfig : bool;
  SkipVerify : bool;
  InstallSystemd : bool;
  SystemdEnable : bool;
  SystemdSystem : bool;
  SkipUserCreate : bool
}.

Definition noOptions : Options :=
  mkOptions "" "" "" "" "" "" "" "" "" "" "" "" "" "" "" false false false false false false false false false.

Record Result := mkResult { res_CertsDir : string; res_ConfigPath : string }.

(** [encoding/pem]: what follows the first block. *)
Class PemLib := { pem_Rest : list byte -> list byte }.

(** What the program draws from outside: a key of [rsa.GenerateKey] with 2048 bits, a serial number,
    the clock. *)
Record Fresh `{Csr.X509Lib} := mkFresh { newKey : option Csr.PrivateKey; serial : option Z; now : Z }.

Section setup.
Context {N : Type} (env : Environ) (net : Net N) (sys : Sys N).
(** Whether standard input is a terminal. *)
Context (tty : bool).
Context `{HashLib, Csr.X509Lib, !CliCmd.RsaLib, HttpClient.TlsFileLib, UrlLib, PemLib}.
Notation W := (World N).

Definition DefaultAgentSocket : string := AgentLoad.ResolveSocketPath env ProductionAgentSocket.

Definition defaultUserConfigDir : string :=
  match UserConfigDir env with
  | Some dir => Join [dir; "luna"]
  | None => Join [default "" (UserHomeDir env); ".config"; "luna"]
  end.
Definition defaultUserCertsDir : string := Join [defaultUserConfigDir; "certs"].

Definition or_default := ConfigLoad.Load.or_default.

Definition withDefaults (o : Options) : Options :=
  let root := Geteuid env =? 0 in
  o {{ CertsDir := or_default (CertsDir o) (if root then DefaultCertsDir else defaultUserCertsDir);
       ConfigPath := or_default (ConfigPath o)
         (if root then DefaultConfigPath else Join [defaultUserConfigDir; "agent.yml"]);
       SignerMode := or_default (SignerMode o) "local-ca";
       AgentSocket := or_default (AgentSocket o) DefaultAgentSocket;
       EnrollToken := or_default (EnrollToken o) (TrimSpace (Getenv env "LUNA_MTLS_ENROLL_TOKEN")) }}.

(** ** Files (client.go) *)

Definition ErrExists : error := ENew "setup" "client material already exists (use --force to overwrite)".

(** [os.Stat] without an error, unless [force] *)
Definition kept (force : bool) (path : string) : IO W bool :=
  if force then mret false else test (fileExists env path).

Definition InstallFile (src dst : string) (mode : Z) (force : bool) : IO W unit :=
  if src =s "" then mret tt else
  keep ← kept force dst;
  if (keep : bool) then mret tt else
  data ← wrapping ("open " +:+ src) (ReadFile env src);
  writeFileAtomic env dst data mode.

Fixpoint install_pairs (srcDir dstDir : string) (force : bool) (pairs : list (string * Z)) : IO W unit :=
  match pairs with
  | [] => mret tt
  | (name, mode) :: rest =>
      let src := Join [srcDir; name] in
      found ← test (fileExists env src);
      _ ← when (found : bool) (InstallFile src (Join [dstDir; name]) mode force);
      install_pairs srcDir dstDir force rest
  end.

Definition InstallFromDir (srcDir dstDir : string) (force : bool) : IO W unit :=
  install_pairs (Clean srcDir) dstDir force [("ca.crt", 420); ("client.crt", 420); ("client.key", 384)].

Definition clientMaterialReady (dir : string) (w : W) : bool :=
  forallb (fun name => fileExists env (Join [dir; name]) w) ["ca.crt"; "client.crt"; "client.key"].

(** *** Keys and signing requests *)

Record ClientOptions := mkClientOptions { co_Dir : string; co_Force : bool; co_CommonName : string }.

Definition client_defaults (o : ClientOptions) : ClientOptions :=
  mkClientOptions (Clean (if TrimSpace (co_Dir o) =s "" then DefaultCertsDir else co_Dir o)) (co_Force o) (co_CommonName o).

(** The paths of the key and of the request *)
Definition GenerateClientKey (fr : Fresh) (o : ClientOptions) : IO W (string * string) :=
  let o := client_defaults o in
  let keyPath := Join [co_Dir o; "client.key"] in
  let csrPath := Join [co_Dir o; "client.csr.pem"] in
  keep ← kept (co_Force o) keyPath;
  if (keep : bool) then fail (EWrap (error_text ErrExists +:+ ": client.key") ErrExists) else
  _ ← wrapping "create dir" (MkdirAll env (co_Dir o));
  key ← lift (or_err (newKey fr) (errorf "generate client key"));
  _ ← writeFileAtomic env keyPath (Csr.pem_Encode "RSA PRIVATE KEY" (CliCmd.MarshalPKCS1PrivateKey key)) 384;
  let cn := or_default (co_CommonName o) "Luna Automation Client" in
  csrDER ← lift (or_err (CliCmd.CreateCertificateRequest (Csr.mkName cn []) key) (errorf "create CSR"));
  _ ← writeFileAtomic env csrPath (Csr.pem_Encode "CERTIFICATE REQUEST" csrDER) 420;
  mret (keyPath, csrPath).

(** A CA whose key may be in any form but must be RSA *)
Definition loadCA (certPath keyPath : string) : IO W (Certificate * Csr.PrivateKey) :=
  certPEM ← wrapping "read CA cert" (ReadFile env certPath);
  '(_, certDER) ← lift (or_err (Csr.pem_Decode certPEM) (errorf "parse CA cert: no PEM block"));
  caCert ← lift (or_err (Csr.ParseCertificate certDER) (errorf "parse CA cert"));
  keyPEM ← wrapping "read CA key" (ReadFile env keyPath);
  '(ty, keyDER) ← lift (or_err (Csr.pem_Decode keyPEM) (errorf "parse CA key: no PEM block"));
  if ty =s "RSA PRIVATE KEY" then
    k ← lift (or_err (Csr.ParsePKCS1PrivateKey keyDER) (errorf "parse CA key"));
    mret (caCert, k)
  else
    k ← lift (or_err (Csr.ParsePKCS8PrivateKey keyDER) (errorf "parse CA key"));
    if CliCmd.is_rsa k then mret (caCert, k) else fail (errorf "CA key is not RSA").

Definition defaultClientValidityDays : Z := 3650.

Definition SignClientCSR (fr : Fresh) (dir : string) (validityDays : Z) (force : bool) : IO W string :=
  let dir := Clean dir in
  let validityDays := if validityDays <=? 0 then defaultClientValidityDays else validityDays in
  let certPath := Join [dir; "client.crt"] in
  keep ← kept force certPath;
  if (keep : bool) then fail (EWrap (error_text ErrExists +:+ ": client.crt") ErrExists) else
  '(caCert, caKey) ← loadCA (Join [dir; "ca.crt"]) (Join [dir; "ca.key"]);
  csrPEM ← wrapping "read client.csr.pem" (ReadFile env (Join [dir; "client.csr.pem"]));
  csrDER ← lift (match Csr.pem_Decode csrPEM with
                 | Some (ty, der) => if ty =s "CERTIFICATE REQUEST" then Ok der
                                     else Err (errorf "parse client.csr.pem: no CSR block")
                 | None => Err (errorf "parse client.csr.pem: no CSR block")
                 end);
  csr ← lift (or_err (Csr.ParseCertificateRequest csrDER) (errorf "parse CSR"));
  if negb (Csr.csr_sig_ok csr) then fail (errorf "CSR signature") else
  n ← lift (or_err (serial fr) (errorf "rand"));
  let template := Csr.mkTemplate n (Csr.csr_Subject csr) (Add (now fr) (- Minute))
    (Add (now fr) (wrap64 (wrap64 (validityDays * 24) * Hour))) [Csr.DigitalSignature; Csr.ClientAuth] in
  der ← lift (or_err (Csr.CreateCertificate template caCert (Csr.csr_PublicKey csr) caKey)
               (errorf "sign client certificate"));
  _ ← writeFileAtomic env certPath (Csr.pem_Encode "CERTIFICATE" der) 420;
  mret certPath.

(** ** The proxy without trust yet (bootstrap.go) *)

Definition mtlsCAPath : string := "/api/v1/mtls/ca".
Definition mtlsEnrollPath : string := "/api/v1/mtls/enroll".
Definition enrollTokenHeader : string := "X-Luna-Enroll-Token".

Record BootstrapOptions := mkBootstrap {
  b_ProxyURL : string;
  b_CertsDir : string;
  b_EnrollToken : string;
  b_CAFingerprint : string;
  InsecureSkipVerify : bool;
  RefreshCA : bool
}.

Definition bootstrap_defaults (o : BootstrapOptions) : BootstrapOptions :=
  mkBootstrap (TrimSpace (b_ProxyURL o)) (Clean (b_CertsDir o)) (TrimSpace (b_EnrollToken o))
    (TrimSpace (b_CAFingerprint o)) (InsecureSkipVerify o) (RefreshCA o).

Definition loadCAPool (caPath : string) : IO W (list Certificate) :=
  pemBytes ← ReadFile env caPath;
  match HttpClient.AppendCertsFromPEM pemBytes with
  | [] => fail (errorf "parse CA PEM")
  | pool => mret pool
  end.

(** Without a readable CA the client trusts the host's. *)
Definition bootstrapHTTPClient (certsDir : string) (insecure : bool) : IO W TlsConfig :=
  if insecure then mret HttpClient.insecureTLS else
  pool ← try (loadCAPool (Join [certsDir; "ca.crt"]));
  mret (mkTlsConfig [] (match pool with Ok p => p | Err _ => [] end) "" false).

(** [http.NewRequest] parses the URL. *)
Definition NewRequest (method url : string) (headers : list (string * string)) (body : list byte) : IO W HttpRequest :=
  match url_Parse url with
  | None => fail (errorf ("parse " +:+ url))
  | Some _ => mret (mkHttpRequest method url headers body)
  end.

Fixpoint probe_paths (client : TlsConfig) (base : string) (paths : list string) (lastErr : error) : IO W unit :=
  match paths with
  | [] => fail (annotate base lastErr)
  | path :: rest =>
      req ← NewRequest "GET" (base +:+ path) [] [];
      r ← try (HttpClient.do_request net client req);
      match r with
      | Err e => probe_paths client base rest e
      | Ok resp =>
          if StatusCode resp =? Http.StatusOK then mret tt else
          probe_paths client base rest (errorf (path +:+ " returned HTTP " +:+ FormatInt (StatusCode resp)))
      end
  end.

Definition ProbeProxyURL (proxyURL : string) : IO W unit :=
  let proxyURL := TrimRight (TrimSpace proxyURL) "/"%char in
  if proxyURL =s "" then fail (errorf "proxy URL is empty") else
  if negb (HasPrefix proxyURL "https://") then fail (errorf "proxy URL must use https://") else
  client ← bootstrapHTTPClient "" true;
  probe_paths client proxyURL ["/healthz"; mtlsCAPath] (errorf "no response").

Definition looksLikePEMCert (pemBytes : list byte) : bool := contains_bytes (bytes_of "BEGIN CERTIFICATE") pemBytes.

(** The fingerprint a user types: in any case and with colons. *)
Definition normal_fingerprint (expected : string) : string := ToLower (remove_byte ":"%char (TrimSpace expected)).

Definition verifyCAFingerprint (pemBytes : list byte) (expected : string) : result unit :=
  let expected := normal_fingerprint expected in
  if expected =s "" then Err (errorf "CA fingerprint required for insecure first-contact download") else
  match Csr.pem_Decode pemBytes with
  | Some (ty, der) =>
      if negb (ty =s "CERTIFICATE") || negb (TrimSpace (string_of (pem_Rest pemBytes)) =s "")
      then Err (errorf "parse fetched CA certificate") else
      cert ← or_err (Csr.ParseCertificate der) (errorf "parse fetched CA certificate");
      let got := CertFingerprint cert in
      if negb (got =s expected) then Err (errorf ("fetched CA fingerprint mismatch: got " +:+ got)) else Ok tt
  | None => Err (errorf "parse fetched CA certificate")
  end.

Definition maxBody : Z := 262144.

Definition FetchCA (o : BootstrapOptions) : IO W string :=
  let o := bootstrap_defaults o in
  let dest := Join [b_CertsDir o; "ca.crt"] in
  client ← bootstrapHTTPClient (b_CertsDir o) (InsecureSkipVerify o);
  req ← NewRequest "GET" (TrimRight (b_ProxyURL o) "/"%char +:+ mtlsCAPath) [] [];
  resp ← wrapping ("GET " +:+ mtlsCAPath) (HttpClient.do_request net client req);
  let body := HttpClient.read_limited maxBody resp in
  if negb (StatusCode resp =? Http.StatusOK)
  then fail (errorf ("GET " +:+ mtlsCAPath +:+ ": HTTP " +:+ FormatInt (StatusCode resp))) else
  if negb (looksLikePEMCert body)
  then fail (errorf ("GET " +:+ mtlsCAPath +:+ ": response is not a PEM certificate")) else
  _ ← lift (if InsecureSkipVerify o then verifyCAFingerprint body (b_CAFingerprint o) else Ok tt);
  _ ← writeFileAtomic env dest body 420;
  mret dest.

(** The hints before the message are abbreviated. *)
Definition formatServerTrustError (proxyURL : string) (e : error) : error :=
  let msg := error_text e in
  if Contains msg "x509:" || Contains msg "tls:"
  then errorf ("ca.crt does not trust the server certificate at " +:+ proxyURL +:+ ": " +:+ msg)
  else annotate "verify server TLS" e.

Definition VerifyProxyServerTrust (proxyURL certsDir : string) : IO W unit :=
  pool ← wrapping "load ca.crt" (loadCAPool (Join [certsDir; "ca.crt"]));
  u ← lift (or_err (url_Parse (TrimRight (TrimSpace proxyURL) "/"%char)) (errorf "parse proxy URL"));
  let host := Hostname u in
  if host =s "" then fail (errorf "proxy URL missing hostname") else
  let port := or_default (Port u) "443" in
  r ← try (HttpClient.dial net (mkTlsConfig [] pool host false) (JoinHostPort host port));
  match r with
  | Err e => fail (formatServerTrustError proxyURL e)
  | Ok _ => mret tt
  end.

Definition RefreshTrustAnchor (o : BootstrapOptions) : IO W unit :=
  let o := bootstrap_defaults o in
  _ ← wrapping "download CA"
        (FetchCA (mkBootstrap (b_ProxyURL o) (b_CertsDir o) "" (b_CAFingerprint o) true false));
  VerifyProxyServerTrust (b_ProxyURL o) (b_CertsDir o).

Definition marshal_csr (csrPEM : list byte) : list byte := e_struct [("csr_pem", Some (e_string (string_of csrPEM)))].

Definition EnrollClientCSR (o : BootstrapOptions) : IO W string :=
  let o := bootstrap_defaults o in
  if TrimSpace (b_EnrollToken o) =s ""
  then fail (errorf "enroll token required (set LUNA_MTLS_ENROLL_TOKEN or proxy mtls_enroll_token)") else
  _ ← when (RefreshCA o) (RefreshTrustAnchor o);
  csrPEM ← wrapping "read client.csr.pem" (ReadFile env (Join [b_CertsDir o; "client.csr.pem"]));
  client ← bootstrapHTTPClient (b_CertsDir o) false;
  req ← NewRequest "POST" (TrimRight (b_ProxyURL o) "/"%char +:+ mtlsEnrollPath)
          [("Content-Type", "application/json"); (enrollTokenHeader, b_EnrollToken o)] (marshal_csr csrPEM);
  resp ← wrapping ("POST " +:+ mtlsEnrollPath) (HttpClient.do_request net client req);
  let body := HttpClient.read_limited maxBody resp in
  if negb (StatusCode resp =? Http.StatusCreated)
  then fail (errorf ("POST " +:+ mtlsEnrollPath +:+ ": HTTP " +:+ FormatInt (StatusCode resp))) else
  out ← lift (or_err (Unmarshal (Wire.dec_one "certificate_pem") "" body)
               (errorf "decode enroll response: invalid json"));
  if negb (looksLikePEMCert (bytes_of out)) then fail (errorf "enroll response missing certificate_pem") else
  let dest := Join [b_CertsDir o; "client.crt"] in
  _ ← writeFileAtomic env dest (bytes_of out) 420;
  mret dest.

(** The advice after the message is abbreviated. *)
Definition formatEnrollError (e : error) (certsDir : string) : error :=
  let msg := error_text e in
  if Contains msg "invalid enroll token" || Contains msg "HTTP 401"
  then EWrap (msg +:+ " (check mtls_enroll_token on the proxy)") e
  else if Contains msg "x509:" || Contains msg "tls:" || Contains msg "does not trust the server certificate"
  then EWrap (msg +:+ " (a TLS trust problem; delete " +:+ certsDir +:+ "/ca.crt and try again)") e
  else e.

(** ** The agent's configuration (config.go) *)

Record ConfigOptions := mkConfigOptions {
  c_Path : string;
  c_ProxyURL : string;
  c_SignerMode : string;
  c_CertsDir : string;
  c_TargetUser : string;
  c_TargetHost : string;
  c_AgentSocket : string;
  c_HostKeyFingerprint : string;
  c_Force : bool
}.

Definition config_defaults (o : ConfigOptions) : ConfigOptions :=
  mkConfigOptions (or_default (c_Path o) DefaultConfigPath) (c_ProxyURL o) (or_default (c_SignerMode o) "local-ca")
    (or_default (c_CertsDir o) DefaultCertsDir) (c_TargetUser o) (c_TargetHost o)
    (or_default (c_AgentSocket o) DefaultAgentSocket) (c_HostKeyFingerprint o) (c_Force o).

Definition agent_yml (o : ConfigOptions) : string := text_of (
  ["# Luna Z-Trust — luna-agent (generated by: luna-agent setup)";
   "proxy_url: " +:+ c_ProxyURL o;
   "signer_mode: " +:+ c_SignerMode o;
   "";
   "mtls_cert: " +:+ c_CertsDir o +:+ "/client.crt";
   "mtls_key: " +:+ c_CertsDir o +:+ "/client.key";
   "mtls_ca: " +:+ c_CertsDir o +:+ "/ca.crt";
   "";
   "target_user: " +:+ c_TargetUser o;
   "target_host: " +:+ c_TargetHost o;
   "agent_socket: " +:+ c_AgentSocket o] ++
  (let fp := TrimSpace (c_HostKeyFingerprint o) in
   if negb (fp =s "") then ["host_key_fingerprint: " +:+ fp] else [])).

Definition WriteAgentConfig (o : ConfigOptions) : IO W string :=
  let o := config_defaults o in
  keep ← kept (c_Force o) (c_Path o);
  if (keep : bool) then mret (c_Path o) else
  _ ← wrapping "mkdir config dir" (MkdirAll env (Dir (c_Path o)));
  _ ← writeFileAtomic env (c_Path o) (bytes_of (agent_yml o)) 384;
  mret (c_Path o).

(** ** The enrollment token (enroll_prompt.go) *)

Definition promptEnrollToken (defaultVal : string) : IO W string := AgentPrompt.askString defaultVal.

Definition ensureEnrollToken (o : Options) : IO W Options :=
  let o := withDefaults o in
  if negb (EnrollToken o =s "") then mret o else
  if negb tty then fail (errorf "enroll token required") else
  token ← promptEnrollToken "";
  let token := TrimSpace token in
  if token =s "" then fail (errorf "enroll token required") else mret (o {{ EnrollToken := token }}).

(** ** Checking the proxy *)

Definition read_opt (w : W) (p : string) : option (list byte) :=
  match (ReadFile env p w).2 with Ok d => Some d | Err _ => None end.

Definition LoadX509KeyPair (w : W) (certFile keyFile : string) : option Certificate :=
  c ← read_opt w certFile; k ← read_opt w keyFile; HttpClient.X509KeyPair c k.

Record VerifyOptions := mkVerify { v_ProxyURL : string; v_CertsDir : string; v_SignerMode : string; v_Timeout : Z }.

Definition VerifyProxy (o : VerifyOptions) : IO W unit :=
  let timeout := if v_Timeout o <=? 0 then 30 * Second else v_Timeout o in
  let dir := or_default (v_CertsDir o) DefaultCertsDir in
  '(cert, pool) ← look (fun w => Sdk.LoadTLSConfig (LoadX509KeyPair w) HttpClient.AppendCertsFromPEM (read_opt w)
                    (Join [dir; "client.crt"]) (Join [dir; "client.key"]) (Join [dir; "ca.crt"]));
  client ← lift (Sdk.NewSdkClient (Sdk.mkSdkConfig (Sdk.mkConfig (v_ProxyURL o) cert pool timeout) (v_SignerMode o)));
  _ ← HttpClient.on_net (Sdk.FetchCapabilities net (Sdk.inner client));
  mret tt.

(** ** [Run] *)

Definition in_certs (o : Options) (name : string) : string := Join [CertsDir o; name].

(** Step 1: material that is given *)
Definition install_material (o : Options) : IO W unit :=
  _ ← (if FromDir o =s "" then mret tt else InstallFromDir (FromDir o) (CertsDir o) (Force o));
  _ ← (if negb (CAFile o =s "") then InstallFile (CAFile o) (in_certs o "ca.crt") 420 (Force o)
       else if FetchesCA o then
         _ ← wrapping "fetch CA" (FetchCA (mkBootstrap (ProxyURL o) (CertsDir o) "" (CAFingerprint o) true false));
         mret tt
       else mret tt);
  _ ← (if CertFile o =s "" then mret tt else InstallFile (CertFile o) (in_certs o "client.crt") 420 (Force o));
  _ ← (if KeyFile o =s "" then mret tt else InstallFile (KeyFile o) (in_certs o "client.key") 384 (Force o));
  if CAKeyFile o =s "" then mret tt else InstallFile (CAKeyFile o) (in_certs o "ca.key") 256 (Force o).

(** Step 2: a key, unless there is one *)
Definition ensure_key (fr : Fresh) (o : Options) : IO W unit :=
  have ← test (fileExists env (in_certs o "client.key"));
  if (have : bool) then mret tt else
  _ ← GenerateClientKey fr (mkClientOptions (CertsDir o) (Force o) "");
  mret tt.

(** Step 3: a certificate, unless there is one, signed here or by the proxy *)
Definition ensure_certificate (fr : Fresh) (o : Options) : IO W unit :=
  have ← test (fileExists env (in_certs o "client.crt"));
  if (have : bool) then mret tt else
  let caKey := or_default (CAKeyFile o) (in_certs o "ca.key") in
  sign ← test (fun w => fileExists env caKey w && fileExists env (in_certs o "client.csr.pem") w);
  if (sign : bool) then _ ← SignClientCSR fr (CertsDir o) 0 (Force o); mret tt else
  enroll ← test (fun w => negb (ProxyURL o =s "") && fileExists env (in_certs o "ca.crt") w &&
                          fileExists env (in_certs o "client.csr.pem") w);
  if (enroll : bool) then
    o ← wrapping "step 3/5" (ensureEnrollToken o);
    r ← try (EnrollClientCSR (mkBootstrap (ProxyURL o) (CertsDir o) (EnrollToken o) "" false false));
    match r with
    | Err e => fail (annotate "step 3/5: proxy enroll failed" (formatEnrollError e (CertsDir o)))
    | Ok _ => mret tt
    end
  else fail (errorf "step 3/5: client.crt missing").

Definition config_options (o : Options) : ConfigOptions :=
  mkConfigOptions (ConfigPath o) (ProxyURL o) (SignerMode o) (CertsDir o) (TargetUser o) (TargetHost o)
    (AgentSocket o) (HostKeyFingerprint o) (Force o || RewriteConfig o).

Definition install_service (o : Options) : IO W unit :=
  if InstallSystemd o then
    _ ← AgentInstall.InstallAgentSystemd env sys (AgentInstall.mkSystemd "" (ConfigPath o) "" "" "" false
          (SystemdEnable o) (SkipUserCreate o) (SystemdSystem o));
    mret tt
  else mret tt.

Definition Run (fr : Fresh) (o : Options) : IO W Result :=
  let o := withDefaults o in
  _ ← (if ProxyURL o =s "" then mret tt else wrapping "proxy unreachable" (ProbeProxyURL (ProxyURL o)));
  _ ← wrapping "create certs dir" (MkdirAll env (CertsDir o));
  _ ← install_material o;
  _ ← ensure_key fr o;
  _ ← ensure_certificate fr o;
  ready ← test (clientMaterialReady (CertsDir o));
  if negb (ready : bool) then fail (errorf ("incomplete mTLS material under " +:+ CertsDir o)) else
  cfgPath ← WriteAgentConfig (config_options o);
  _ ← (if SkipVerify o then mret tt
       else wrapping "verify proxy" (VerifyProxy (mkVerify (ProxyURL o) (CertsDir o) (SignerMode o) 0)));
  _ ← install_service o;
  mret (mkResult (CertsDir o) cfgPath).

End setup.

(** ** The downloaded CA is the one that was announced *)

Section facts.
Context {N : Type} (env : Environ) (net : Net N) (sys : Sys N) (tty : bool).
Context `{HashLib, !Csr.X509Lib, !CliCmd.RsaLib, HttpClient.TlsFileLib, UrlLib, PemLib}.
Implicit Types w : World N.

Lemma verifyCAFingerprint_ok body fp : verifyCAFingerprint body fp = Ok tt ->
  normal_fingerprint fp <> "" /\
  exists der cert, Csr.pem_Decode body = Some ("CERTIFICATE", der) /\ Csr.ParseCertificate der = Some cert /\
    CertFingerprint cert = normal_fingerprint fp /\ TrimSpace (string_of (pem_Rest body)) = "".
Proof.
  unfold verifyCAFingerprint. cbv zeta. intros Hv.
  destruct (normal_fingerprint fp =s "") eqn:Ef; [done|].
  destruct (Csr.pem_Decode body) as [[ty der]|]; [|done].
  destruct (ty =s "CERTIFICATE") eqn:Et; [|done]. destruct (TrimSpace (string_of (pem_Rest body)) =s "") eqn:Er; [|done].
  cbn [negb orb] in Hv. inv_ok. destruct (Csr.ParseCertificate der) as [c|] eqn:Ec; [|done].
  simplify_eq.
  destruct (CertFingerprint _ =s normal_fingerprint fp) eqn:Eg; [|done]. str_prop. subst.
  split; [done|]. eexists der, _. by split_and!.
Qed.

Lemma FetchCA_pinned `{!Csr.X509Laws} o w w' r :
  InsecureSkipVerify o = true -> FetchCA env net o w = (w', r) ->
  let dest := Join [Clean (b_CertsDir o); "ca.crt"] in
  (forall k, k <> key env dest -> ~ temporary k -> files w' !! k = files w !! k) /\
  match r with
  | Ok p => p = dest /\ normal_fingerprint (TrimSpace (b_CAFingerprint o)) <> "" /\
      exists f der cert, files w' !! key env dest = Some f /\ Csr.pem_Decode (f_data f) = Some ("CERTIFICATE", der) /\
        TrimSpace (string_of (pem_Rest (f_data f))) = "" /\ Csr.ParseCertificate der = Some cert /\
        HexEncodeToString (sha256 der) = normal_fingerprint (TrimSpace (b_CAFingerprint o))
  | Err _ => files w' !! key env dest = files w !! key env dest
  end.
Proof.
  intros Hi Hf dest. unfold FetchCA in Hf. cbv zeta in Hf.
  change (Join [b_CertsDir (bootstrap_defaults o); "ca.crt"]) with dest in Hf.
  change (InsecureSkipVerify (bootstrap_defaults o)) with (InsecureSkipVerify o) in Hf. rewrite Hi in Hf.
  erewrite bind_run in Hf by reflexivity. unfold NewRequest in Hf.
  destruct (url_Parse _); [|injection Hf as <- <-; done].
  erewrite bind_run in Hf by reflexivity.
  unfold mbind at 1, io_bind at 1, wrapping in Hf.
  match type of Hf with context [HttpClient.do_request net ?c ?q w] =>
    pose proof (HttpClient.do_request_keeps eq net c q _ w) as Hw; destruct (HttpClient.do_request net c q w) as [w1 [resp|e]] end;
    unfold on_files in Hw; cbn [fst] in Hw; [|injection Hf as <- <-; by rewrite Hw].
  destruct (StatusCode resp =? Http.StatusOK); cbn [negb] in Hf; [|injection Hf as <- <-; by rewrite Hw].
  destruct (looksLikePEMCert _); cbn [negb] in Hf; [|injection Hf as <- <-; by rewrite Hw].
  change (b_CAFingerprint (bootstrap_defaults o)) with (TrimSpace (b_CAFingerprint o)) in Hf.
  unfold mbind at 1, io_bind at 1, lift at 1 in Hf.
  destruct (verifyCAFingerprint _ _) as [[]|e] eqn:Ev; [|injection Hf as <- <-; by rewrite Hw].
  apply verifyCAFingerprint_ok in Ev as (Hne & der & cert & Hd & Hc & Hfp & Hr).
  unfold mbind, io_bind in Hf. destruct (writeFileAtomic _ _ _ _ _) as [w2 rw] eqn:Ew.
  apply writeFileAtomic_cases in Ew as (_ & _ & _ & Hk & Hx).
  assert (Hk' : forall k, k <> key env dest -> ~ temporary k -> files w2 !! k = files w !! k).
  { intros k Hk1 Hk2. rewrite Hk, <- Hw; [done|done|]. intros ->. apply Hk2, resolve_tmp_temporary. }
  destruct rw as [[]|e]; injection Hf as <- <-; (split; [exact Hk'|]); [|by rewrite Hx, Hw].
  destruct Hx as [g Hx]. split; [done|]. split; [done|]. eexists _, der, cert. split; [exact Hx|].
  cbn [f_data]. split_and!; try done. rewrite <- Hfp. unfold CertFingerprint.
  by rewrite (Csr.parse_raw _ _ Hc).
Qed.

(** A set-up that downloads the CA needs the fingerprint: without one it fails on every network. *)
Lemma Run_needs_fingerprint `{!Csr.X509Laws} fr o w w' res :
  FetchesCA o = true -> CAFile o = "" -> TrimSpace (CAFingerprint o) = "" ->
  Run env net sys tty fr o w <> (w', Ok res).
Proof.
  intros Hf Hc Hfp Hr. unfold Run in Hr. cbv zeta in Hr. io_ok.
  match goal with H : install_material _ _ _ _ = _ |- _ => unfold install_material in H; rename H into Hm end.
  change (CAFile (withDefaults env o)) with (CAFile o) in Hm. change (FetchesCA (withDefaults env o)) with (FetchesCA o) in Hm.
  change (CAFingerprint (withDefaults env o)) with (CAFingerprint o) in Hm.
  rewrite Hf, Hc in Hm. change (negb ("" =s "")) with false in Hm. cbv iota in Hm. io_ok.
  match goal with H : FetchCA _ _ _ _ = _ |- _ => apply FetchCA_pinned in H as (_ & _ & H & _); [|done] end.
  cbn [b_CAFingerprint] in *. rewrite Hfp in *. done.
Qed.

(** Downloading the CA before anything is trusted: a certificate is installed only when the SHA-256 of
    its DER bytes is the fingerprint the operator typed, in any case and with or without colons, and it
    is alone in its file; otherwise, whatever the network answered, the CA that was there stays.  No
    other file changes. *)
Theorem fetched_ca_is_pinned `{!Csr.X509Laws} o w w' r :
  InsecureSkipVerify o = true -> FetchCA env net o w = (w', r) ->
  let dest := Join [Clean (b_CertsDir o); "ca.crt"] in
  (forall k, k <> key env dest -> ~ temporary k -> files w' !! k = files w !! k) /\
  match r with
  | Ok p => p = dest /\ normal_fingerprint (TrimSpace (b_CAFingerprint o)) <> "" /\
      exists f der cert, files w' !! key env dest = Some f /\ Csr.pem_Decode (f_data f) = Some ("CERTIFICATE", der) /\
        TrimSpace (string_of (pem_Rest (f_data f))) = "" /\ Csr.ParseCertificate der = Some cert /\
        HexEncodeToString (sha256 der) = normal_fingerprint (TrimSpace (b_CAFingerprint o))
  | Err _ => files w' !! key env dest = files w !! key env dest
  end.
Proof. apply FetchCA_pinned. Qed.
End facts.

(** ** What a set-up leaves behind *)

Section files.
Context {N : Type} (env : Environ) (net : Net N) (sys : Sys N) (tty : bool).
Context `{HashLib, !Csr.X509Lib, !CliCmd.RsaLib, HttpClient.TlsFileLib, UrlLib, PemLib}.
Implicit Types w : World N.

(** A file or a directory with this name. *)
Definition present (p : string) (w : World N) : Prop := is_Some (files w !! key env p) \/ is_dir env (key env p) = true.

Lemma fileExists_present p w : fileExists env p w = true -> present p w.
Proof.
  unfold fileExists, Stat, present. destruct (stat_fails _ _); [done|].
  destruct (bool_decide _) eqn:Eb; [intros _; left; by apply bool_decide_eq_true in Eb|].
  destruct (is_dir _ _); [by right|done].
Qed.
Lemma present_grows D p w w' : ~ D (key env p) -> on_files (grows D) w w' -> present p w -> present p w'.
Proof. intros HD Hg [Hp|Hp]; [left; by apply Hg|by right]. Qed.

Lemma certs_key dir n : dir <> "" -> plain_name n -> key env (Join [dir; n]) = n :: key env dir.
Proof. apply resolve_Join. Qed.
Lemma clean_key dir n : dir <> "" -> plain_name n -> key env (Join [Clean dir; n]) = key env (Join [dir; n]).
Proof.
  intros Hd Hn. unfold key. rewrite !resolve_Join by (done || apply Clean_nonempty). by rewrite resolve_Clean.
Qed.

Lemma withDefaults_certs o : CertsDir (withDefaults env o) <> "".
Proof.
  cbn. unfold or_default, Load.or_default. destruct (CertsDir o =s "") eqn:E; [|by str_prop].
  destruct (Geteuid env =? 0); [done|]. apply Join_nonempty. apply Exists_cons. right. apply Exists_cons. by left.
Qed.
Lemma withDefaults_config o : ConfigPath (withDefaults env o) <> "".
Proof.
  cbn. unfold or_default, Load.or_default. destruct (ConfigPath o =s "") eqn:E; [|by str_prop].
  destruct (Geteuid env =? 0); [done|]. apply Join_nonempty. apply Exists_cons. right. apply Exists_cons. by left.
Qed.

(** *** Every step only adds files *)

Lemma probe_keeps R c base paths e : PreOrder R -> keeps (on_files R) (probe_paths (N := N) net c base paths e).
Proof.
  intros HR. revert e. induction paths as [|p paths IH]; intros e; cbn [probe_paths]; [apply keeps_fail; apply _|].
  unfold NewRequest. keeps.
Qed.
Lemma ProbeProxyURL_keeps R url : PreOrder R -> keeps (on_files R) (ProbeProxyURL env net url).
Proof. intros HR. pose proof probe_keeps. unfold ProbeProxyURL, bootstrapHTTPClient, loadCAPool. keeps. Qed.

Lemma VerifyProxy_keeps R o : PreOrder R -> keeps (on_files R) (VerifyProxy env net o).
Proof. intros HR. unfold VerifyProxy. keeps. Qed.

Lemma install_service_grows D o : keeps (on_files (grows D)) (install_service env sys o).
Proof. unfold install_service. keeps. Qed.

Lemma WriteAgentConfig_ok o w w' p :
  WriteAgentConfig env o w = (w', Ok p) ->
  p = c_Path (config_defaults env o) /\ present p w' /\ on_files (grows temporary) w w' /\
  (c_Force o = true \/ fileExists env p w = false ->
   exists f, files w' !! key env p = Some f /\ f_data f = bytes_of (agent_yml (config_defaults env o))).
Proof.
  intros Hw. assert (Hg : on_files (grows temporary) w w').
  { revert Hw. apply keeps_run. unfold WriteAgentConfig, kept. keeps. }
  unfold WriteAgentConfig in Hw. cbv zeta in Hw. unfold kept in Hw.
  change (c_Force (config_defaults env o)) with (c_Force o) in Hw.
  destruct (c_Force o) eqn:Ef.
  - erewrite bind_run in Hw by reflexivity. cbv beta iota in Hw. io_ok. subst.
    match goal with H : writeFileAtomic _ _ _ _ _ = (_, Ok ?a) |- _ =>
      destruct a; apply writeFileAtomic_cases in H as (_ & _ & _ & _ & g & Hx) end.
    split; [done|]. split; [left; by eexists|]. split; [done|]. intros _. by eexists.
  - io_ok. match goal with H : fileExists _ _ _ = ?b, _ : (if ?b then _ else _) _ = _ |- _ => destruct b eqn:Eb end.
    + io_ok. subst. split; [done|]. split; [by apply fileExists_present|]. split; [done|].
      intros [?|Hx]; congruence.
    + io_ok. subst.
      match goal with H : writeFileAtomic _ _ _ _ _ = (_, Ok ?a) |- _ =>
        destruct a; apply writeFileAtomic_cases in H as (_ & _ & _ & _ & g & Hx) end.
      split; [done|]. split; [left; by eexists|]. split; [done|]. intros _. by eexists.
Qed.

Lemma or_default_idem x d : Load.or_default (Load.or_default x d) d = Load.or_default x d.
Proof. unfold Load.or_default. destruct (x =s "") eqn:E; [|by rewrite E]. by destruct (d =s ""). Qed.
Lemma or_default_set x d : x <> "" -> Load.or_default x d = x.
Proof. intros Hx. unfold Load.or_default. by rewrite (proj2 (str_eqb_neq _ _) Hx). Qed.

Lemma config_options_complete o :
  config_defaults env (config_options (withDefaults env o)) = config_options (withDefaults env o).
Proof.
  pose proof (withDefaults_certs o) as Hd. pose proof (withDefaults_config o) as Hc.
  unfold config_defaults, config_options, or_default. cbn [c_Path c_SignerMode c_CertsDir c_AgentSocket c_ProxyURL
    c_TargetUser c_TargetHost c_HostKeyFingerprint c_Force].
  rewrite (or_default_set _ DefaultConfigPath), (or_default_set (CertsDir _)) by done.
  change (SignerMode (withDefaults env o)) with (Load.or_default (SignerMode o) "local-ca").
  change (AgentSocket (withDefaults env o)) with (Load.or_default (AgentSocket o) (DefaultAgentSocket env)).
  by rewrite !or_default_idem.
Qed.

Lemma cert_name_ok name : name ∈ ["ca.crt"; "client.crt"; "client.key"] ->
  plain_name name /\ forall st, ~ temporary (name :: st).
Proof.
  intros Hn. rewrite !elem_of_cons in Hn.
  assert (Hp : name = "ca.crt" \/ name = "client.crt" \/ name = "client.key") by naive_solver set_solver.
  destruct Hp as [->|[->| ->]]; (split; [by split_and!|]); intros st Ht; apply temporary_suffix in Ht; discriminate Ht.
Qed.

Definition service_options (o : Options) : AgentInstall.SystemdOptions :=
  AgentInstall.mkSystemd "" (ConfigPath o) "" "" "" false (SystemdEnable o) (SkipUserCreate o) (SystemdSystem o).
Definition unit_key (o : Options) : list string :=
  key env (AgentInstall.UnitPath (AgentInstall.withDefaults env sys (service_options o))).

Lemma install_service_retains (T : list string -> Prop) o : T (unit_key o) -> keeps (on_files (retains T)) (install_service env sys o).
Proof.
  intros HT. pose proof (agent_install_retains env sys T (service_options o) HT) as Hi.
  unfold install_service. fold (service_options o). keeps.
Qed.

(** *** The steps before the configuration write only TLS material *)

Definition material_names : list string := ["ca.crt"; "client.crt"; "client.key"; "ca.key"; "client.csr.pem"].
(** A file with such a name, or a temporary one. *)
Definition material (k : list string) : Prop := temporary k \/ exists n dir, n ∈ material_names /\ k = n :: dir.

Lemma material_name_plain n : n ∈ material_names -> plain_name n.
Proof.
  intros Hn. apply list_elem_of_In in Hn. simpl in Hn. by repeat (destruct Hn as [<-|Hn]; [by split_and!|]).
Qed.

Lemma material_written dir n d m : dir <> "" -> n ∈ material_names ->
  keeps (on_files (untouched material)) (@writeFileAtomic N env (Join [dir; n]) d m).
Proof.
  intros Hd Hn. apply writeFileAtomic_untouched; [|by left]. rewrite certs_key by (done || by apply material_name_plain).
  right. by eexists _, _.
Qed.

Ltac named := apply list_elem_of_In; simpl; tauto.
Ltac writes dir n := pose proof (fun d m => material_written dir n d m ltac:(solve [assumption|apply Clean_nonempty]) ltac:(named)).

Lemma InstallFile_material src dir n mode force : dir <> "" -> n ∈ material_names ->
  keeps (on_files (untouched material)) (InstallFile (N := N) env src (Join [dir; n]) mode force).
Proof. intros Hd Hn. pose proof (fun d m => material_written dir n d m Hd Hn). unfold InstallFile, kept. keeps. Qed.

Lemma install_material_material o : CertsDir o <> "" -> keeps (on_files (untouched material)) (install_material env net o).
Proof.
  intros Hd. writes (Clean (CertsDir o)) "ca.crt".
  pose proof (fun src n mode => InstallFile_material src (CertsDir o) n mode (Force o) Hd) as Hi.
  assert (Hf : forall src, keeps (on_files (untouched material)) (InstallFromDir (N := N) env src (CertsDir o) (Force o))).
  { intros src. unfold InstallFromDir. cbn [install_pairs]. keeps; apply Hi; named. }
  assert (Hc : forall fp, keeps (on_files (untouched material)) (FetchCA env net (mkBootstrap (ProxyURL o) (CertsDir o) "" fp true false))).
  { intros fp. unfold FetchCA, bootstrapHTTPClient, loadCAPool, NewRequest. cbn [bootstrap_defaults b_CertsDir]. keeps. }
  unfold install_material, in_certs. keeps; apply Hi; named.
Qed.

Lemma ensure_key_material fr o : keeps (on_files (untouched material)) (ensure_key (N := N) env fr o).
Proof.
  unfold ensure_key, GenerateClientKey, kept. cbv zeta. set (dir := co_Dir _).
  assert (Hd : dir <> "") by apply Clean_nonempty. clearbody dir.
  writes dir "client.key". writes dir "client.csr.pem". keeps.
Qed.

Lemma ensure_certificate_material fr o : keeps (on_files (untouched material)) (ensure_certificate env net tty fr o).
Proof.
  assert (He : keeps (on_files (untouched material)) (ensureEnrollToken (N := N) env tty o)).
  { unfold ensureEnrollToken, promptEnrollToken, AgentPrompt.askString. keeps. }
  assert (Hs : forall o1, keeps (on_files (untouched material))
    (EnrollClientCSR env net (mkBootstrap (ProxyURL o1) (CertsDir o1) (EnrollToken o1) "" false false))).
  { intros o1. writes (Clean (CertsDir o1)) "client.crt". unfold EnrollClientCSR.
    unfold bootstrapHTTPClient, loadCAPool, NewRequest. cbn [RefreshCA bootstrap_defaults b_CertsDir when]. keeps. }
  assert (Hc : keeps (on_files (untouched material)) (SignClientCSR (N := N) env fr (CertsDir o) 0 (Force o))).
  { writes (Clean (CertsDir o)) "client.crt". unfold SignClientCSR, loadCA, kept. keeps. }
  unfold ensure_certificate. keeps.
Qed.

Lemma fileExists_same p w w' : files w' !! key env p = files w !! key env p -> fileExists env p w' = fileExists env p w.
Proof. intros E. unfold fileExists, Stat. by rewrite E. Qed.

(** When [Run] writes the configuration: asked to, or because there is none. *)
Definition writes_config (o : Options) (w : World N) : Prop :=
  let path := ConfigPath (withDefaults env o) in
  Force o || RewriteConfig o = true \/ fileExists env path w = false /\ ~ material (key env path).

Lemma Run_complete fr o w w' res :
  Run env net sys tty fr o w = (w', Ok res) ->
  let o' := withDefaults env o in
  res = mkResult (CertsDir o') (ConfigPath o') /\
  (forall name, name ∈ ["ca.crt"; "client.crt"; "client.key"] -> present (Join [CertsDir o'; name]) w') /\
  present (ConfigPath o') w' /\
  (writes_config o w -> key env (ConfigPath o') <> unit_key o' ->
   exists f, files w' !! key env (ConfigPath o') = Some f /\ f_data f = bytes_of (agent_yml (config_options o'))).
Proof.
  intros Hr o'. unfold Run in Hr. cbv zeta in Hr. fold o' in Hr. io_ok.
  match goal with H : clientMaterialReady _ _ _ = ?b |- _ => destruct b; cbn [negb] in *; [rename H into Hm|done] end.
  io_ok.
  match goal with H : WriteAgentConfig _ _ ?v = _ |- _ => assert (Hun : on_files (untouched material) w v) end.
  { repeat match goal with
    | H : test _ ?v = _ |- _ => injection H as <- _
    | H : MkdirAll _ _ _ = _ |- _ => injection H as <- _
    | H : install_material _ _ _ _ = _ |- _ => apply (keeps_run _ _ _ _ _ (install_material_material o' (withDefaults_certs o))) in H
    | H : ensure_key _ _ _ _ = _ |- _ => apply (keeps_run _ _ _ _ _ (ensure_key_material fr o')) in H
    | H : ensure_certificate _ _ _ _ _ _ = _ |- _ => apply (keeps_run _ _ _ _ _ (ensure_certificate_material fr o')) in H
    end.
    match goal with H : (if ProxyURL _ =s "" then _ else _) w = (?v, _) |- _ => assert (Hp : on_files (untouched material) w v) end.
    { match goal with H : (if ProxyURL _ =s "" then _ else _) w = _ |- _ => revert H end.
      apply keeps_run. pose proof (ProbeProxyURL_keeps (untouched material)). keeps. }
    subst. by repeat (etrans; [eassumption|]). }
  subst.
  match goal with H : WriteAgentConfig _ _ _ = _ |- _ => apply WriteAgentConfig_ok in H as (Hp & Hpres & Hgw & Hdata) end.
  unfold o' in Hp. rewrite config_options_complete in Hp. unfold o' in Hdata at 2. rewrite config_options_complete in Hdata.
  match goal with H : (if SkipVerify _ then _ else _) _ = _, H' : install_service _ _ _ _ = _ |- _ =>
    rename H into Hv; rename H' into Hs end.
  assert (Hv' : forall R, PreOrder R -> on_files R w6 w7).
  { intros R HR. revert Hv. apply keeps_run. pose proof (VerifyProxy_keeps R). keeps. }
  pose proof (keeps_run _ _ _ _ _ (install_service_grows (fun _ => False) o') Hs) as Hg.
  subst. cbn [c_Path] in *.
  split; [done|]. split; [|split].
  - intros name Hn. destruct (cert_name_ok name Hn) as [Hpl Ht]. unfold clientMaterialReady in Hm.
    rewrite forallb_forall in Hm. apply list_elem_of_In, Hm, fileExists_present in Hn.
    assert (Hk : ~ temporary (key env (Join [CertsDir o'; name]))) by (rewrite certs_key by (apply withDefaults_certs || done); apply Ht).
    eapply present_grows; [|exact Hg|]; [by intros ?|].
    eapply present_grows; [exact Hk|apply Hv'; apply _|]. by eapply present_grows.
  - eapply present_grows; [|exact Hg|]; [by intros ?|]. eapply present_grows; [|apply (Hv' (grows (fun _ => False))); apply _|done].
    by intros ?.
  - intros Hf Hu. destruct Hdata as (f & Hx & Hd).
    { destruct Hf as [Hf|[Hf Hnm]]; [by left|right]. rewrite <- Hf. apply fileExists_same. by apply Hun. }
    assert (Hne : ~ unit_key o' = key env (ConfigPath o')) by congruence.
    destruct (Hv' (retains (fun k => k = unit_key o')) _ (key env (ConfigPath o')) f) as (f1 & Hf1 & E1); [congruence|done|].
    destruct (keeps_run _ _ _ _ _ (install_service_retains (fun k => k = unit_key o') o' eq_refl) Hs
      (key env (ConfigPath o')) f1) as (f2 & Hf2 & E2); [congruence|done|]. exists f2. split; [done|]. by rewrite E2, E1, Hd.
Qed.

(** A set-up that succeeds leaves a complete host, whatever material it started from: the CA, the
    client certificate and its key are there, and so is the agent's configuration; when there was none,
    or it was to be rewritten, it names the paths and settings of the set-up. *)
Theorem setup_run_complete fr o w w' res :
  Run env net sys tty fr o w = (w', Ok res) ->
  let o' := withDefaults env o in
  res = mkResult (CertsDir o') (ConfigPath o') /\
  (forall name, name ∈ ["ca.crt"; "client.crt"; "client.key"] -> present (Join [CertsDir o'; name]) w') /\
  present (ConfigPath o') w' /\
  (writes_config o w -> key env (ConfigPath o') <> unit_key o' ->
   exists f, files w' !! key env (ConfigPath o') = Some f /\ f_data f = bytes_of (agent_yml (config_options o'))).
Proof. apply Run_complete. Qed.

Lemma ensureEnrollToken_certs o w w' o' :
  CertsDir o <> "" -> ensureEnrollToken env tty o w = (w', Ok o') -> CertsDir o' = CertsDir o.
Proof.
  intros Hd Ht. unfold ensureEnrollToken in Ht. cbv zeta in Ht.
  assert (Hc : CertsDir (withDefaults env o) = CertsDir o) by by apply or_default_set.
  destruct (EnrollToken (withDefaults env o) =s ""); cbn [negb] in Ht; [|io_ok; subst; exact Hc].
  destruct tty; cbn [negb] in Ht; [|done]. io_ok.
  destruct (TrimSpace _ =s ""); [done|]. io_ok. subst. exact Hc.
Qed.

(** *** Without [Force] nothing is overwritten *)

Section kept.
Context (T : list string -> Prop).
Hypothesis stat_touched : forall k, stat_fails env k = true -> T k.
Hypothesis tmp_touched : forall k, temporary k -> T k.

Lemma retains_written p d m (T' : list string -> Prop) :
  T' (key env p) -> (forall k, T k -> T' k) -> keeps (on_files (retains T')) (@writeFileAtomic N env p d m).
Proof using tmp_touched. intros Hp HT. apply writeFileAtomic_retains; auto. Qed.

Lemma InstallFile_retains src dst mode : keeps (on_files (retains T)) (InstallFile (N := N) env src dst mode false).
Proof using stat_touched tmp_touched.
  unfold InstallFile. destruct (src =s ""); [apply keeps_ret; apply _|]. unfold kept.
  apply guarded_retains; [apply stat_touched|apply keeps_ret; apply _|].
  pose proof (retains_written dst) as Hw. keeps.
Qed.

Lemma InstallFromDir_retains src dst : keeps (on_files (retains T)) (InstallFromDir (N := N) env src dst false).
Proof using stat_touched tmp_touched.
  pose proof InstallFile_retains as Hi. unfold InstallFromDir.
  generalize [("ca.crt", 420); ("client.crt", 420); ("client.key", 384)].
  intros pairs. induction pairs as [|[n m] pairs IH]; cbn [install_pairs]; [apply keeps_ret; apply _|]. keeps.
Qed.

Lemma WriteAgentConfig_retains o : c_Force o = false -> keeps (on_files (retains T)) (WriteAgentConfig (N := N) env o).
Proof using stat_touched tmp_touched.
  intros Hf. unfold WriteAgentConfig. cbv zeta. unfold kept.
  change (c_Force (config_defaults env o)) with (c_Force o). rewrite Hf.
  apply guarded_retains; [apply stat_touched|apply keeps_ret; apply _|].
  pose proof (retains_written (c_Path (config_defaults env o))) as Hw. keeps.
Qed.

Lemma FetchCA_retains o : T (key env (Join [Clean (b_CertsDir o); "ca.crt"])) -> keeps (on_files (retains T)) (FetchCA env net o).
Proof using tmp_touched.
  intros Hc. pose proof (retains_written (Join [Clean (b_CertsDir o); "ca.crt"])) as Hw.
  unfold FetchCA, bootstrapHTTPClient, loadCAPool, NewRequest. keeps.
Qed.

Lemma dir_key o n : TrimSpace (CertsDir o) <> "" -> plain_name n ->
  key env (Join [Clean (CertsDir o); n]) = key env (in_certs o n).
Proof. intros Hb Hn. apply clean_key; [|done]. by intros E; rewrite E in Hb. Qed.

Lemma ensure_key_retains fr o :
  TrimSpace (CertsDir o) <> "" -> T (key env (in_certs o "client.csr.pem")) ->
  keeps (on_files (retains T)) (ensure_key (N := N) env fr o).
Proof using stat_touched tmp_touched.
  intros Hb Hc. unfold ensure_key. apply guarded_retains; [apply stat_touched|apply keeps_ret; apply _|].
  assert (Hd : co_Dir (client_defaults (mkClientOptions (CertsDir o) (Force o) "")) = Clean (CertsDir o)).
  { unfold client_defaults. cbn [co_Dir]. by rewrite (proj2 (str_eqb_neq _ _) Hb). }
  unfold GenerateClientKey, kept. rewrite Hd.
  pose proof (retains_written (Join [Clean (CertsDir o); "client.key"])) as Hw.
  pose proof (retains_written (Join [Clean (CertsDir o); "client.csr.pem"])) as Hw'.
  rewrite dir_key in Hw by (done || by split_and!). rewrite dir_key in Hw' by (done || by split_and!). keeps.
Qed.

Lemma ensure_certificate_retains fr o :
  TrimSpace (CertsDir o) <> "" -> keeps (on_files (retains T)) (ensure_certificate env net tty fr o).
Proof using stat_touched tmp_touched.
  intros Hb. unfold ensure_certificate. apply guarded_retains; [apply stat_touched|apply keeps_ret; apply _|].
  pose proof (retains_written (Join [Clean (CertsDir o); "client.crt"])) as Hw.
  rewrite dir_key in Hw by (done || by split_and!).
  assert (Hw' : forall d m, keeps (on_files (retains (fun k => k = key env (in_certs o "client.crt") \/ T k)))
    (@writeFileAtomic N env (Join [Clean (CertsDir o); "client.crt"]) d m)) by auto.
  assert (He : forall R, PreOrder R -> keeps (on_files R) (ensureEnrollToken (N := N) env tty o)).
  { intros R HR. unfold ensureEnrollToken, promptEnrollToken, AgentPrompt.askString. keeps. }
  set (R := on_files (retains _)) in *.
  assert (Hs : forall o1, CertsDir o1 = CertsDir o ->
    keeps R (EnrollClientCSR env net (mkBootstrap (ProxyURL o1) (CertsDir o1) (EnrollToken o1) "" false false))).
  { intros o1 Ho. unfold EnrollClientCSR. rewrite Ho.
    unfold bootstrapHTTPClient, loadCAPool, NewRequest. cbn [RefreshCA bootstrap_defaults b_CertsDir when]. keeps. }
  assert (Hc : keeps R (SignClientCSR env fr (CertsDir o) 0 (Force o))) by (unfold SignClientCSR, loadCA, kept; keeps).
  notypeclasses refine (keeps_bind _ _ _ _ _); [typeclasses eauto|apply keeps_test; apply _|intros sign].
  destruct sign; [keeps|].
  notypeclasses refine (keeps_bind _ _ _ _ _); [typeclasses eauto|apply keeps_test; apply _|intros enroll].
  destruct enroll; [|apply keeps_fail; apply _].
  apply (keeps_bind_post _ (fun o1 => CertsDir o1 = CertsDir o)); [apply keeps_wrapping, He; apply _| |].
  - intros w w' o1 Ho%wrapping_ok. eapply ensureEnrollToken_certs; [|done]. by intros E; rewrite E in Hb.
  - intros o1 Ho. pose proof (Hs o1 Ho). keeps.
Qed.
End kept.

(** What a set-up without [Force] may write over: temporary files, files that cannot be examined and so
    count as absent, the signing request, the unit file, and the CA when it is to be downloaded. *)
Definition replaceable (o : Options) (k : list string) : Prop :=
  temporary k \/ stat_fails env k = true \/ k = key env (in_certs o "client.csr.pem") \/ k = unit_key o \/
  (FetchesCA o = true /\ CAFile o = "" /\ k = key env (Join [Clean (CertsDir o); "ca.crt"])).

(** A set-up that is not forced never replaces what a host has: whatever the network, the terminal and
    the commands do, and whether or not it succeeds, every file that can be examined keeps its contents,
    the client's key and certificate and the configuration among them.  Only the signing request, the
    service's unit and a CA that is to be downloaded are renewed, and temporary files. *)
Theorem setup_keeps_material fr o :
  Force o = false -> RewriteConfig o = false ->
  let o' := withDefaults env o in
  TrimSpace (CertsDir o') <> "" ->
  keeps (on_files (retains (replaceable o'))) (Run env net sys tty fr o).
Proof.
  intros Hf Hrw o' Hb. unfold Run. cbv zeta. fold o'.
  assert (Hs : forall k, stat_fails env k = true -> replaceable o' k) by (intros k Hk; right; by left).
  assert (Hf' : Force o' = false) by exact Hf. assert (Hrw' : RewriteConfig o' = false) by exact Hrw.
  assert (Htmp : forall k, temporary k -> replaceable o' k) by (intros k Hk; by left).
  assert (Hm : keeps (on_files (retains (replaceable o'))) (install_material env net o')).
  { unfold install_material. rewrite Hf'.
    pose proof (fun s d m => InstallFile_retains (replaceable o') Hs Htmp s d m) as Hi.
    pose proof (fun s d => InstallFromDir_retains (replaceable o') Hs Htmp s d) as Hd. keeps.
    apply FetchCA_retains; [exact Htmp|]. cbn [b_CertsDir]. right. right. right. right. str_prop. split_and!; try done. }
  pose proof (ensure_key_retains (replaceable o') Hs Htmp fr o' Hb ltac:(right; right; by left)) as Hk.
  pose proof (ensure_certificate_retains (replaceable o') Hs Htmp fr o' Hb) as Hc.
  assert (Hw : keeps (on_files (retains (replaceable o'))) (WriteAgentConfig (N := N) env (config_options o'))).
  { apply WriteAgentConfig_retains; [done..|]. cbn [c_Force config_options]. by rewrite Hf', Hrw'. }
  assert (Hi : keeps (on_files (retains (replaceable o'))) (install_service env sys o')).
  { apply install_service_retains. right. right. right. by left. }
  pose proof (fun u => ProbeProxyURL_keeps (retains (replaceable o')) u _) as Hp.
  pose proof (fun v => VerifyProxy_keeps (retains (replaceable o')) v _) as Hv. keeps.
Qed.
End files.

(** ** A concrete host *)
Module SetupDemo.
Import Demo Csr.CsrDemo SystemdDemo.

#[local] Instance demo_rsa : CliCmd.RsaLib := {|
  CliCmd.MarshalPKCS1PrivateKey _ := [];
  CliCmd.CreateCertificateRequest name _ := Some [];
  CliCmd.is_rsa _ := true;
  CliCmd.rsa_N _ := 2 ^ 2047
|}.
#[local] Instance demo_files : HttpClient.TlsFileLib := {|
  HttpClient.X509KeyPair c k := Some (mkCertificate c []);
  HttpClient.AppendCertsFromPEM b := [mkCertificate b []];
  HttpClient.VerifyClientAuth c p := true
|}.
#[local] Instance demo_url : UrlLib := {| url_Parse s := Some (mkURL "https" "proxy.example:8443") |}.
#[local] Instance demo_pem : PemLib := {| pem_Rest _ := [] |}.

Definition demo_ca : list byte := bytes_of "CERTIFICATE:BEGIN CERTIFICATE luna".
(** Every request is answered with the CA. *)
Definition demo_net : Net accounts := mkNet (fun _ _ w => (w, Err (errorf "refused"))) (fun _ _ w => (w, Err (errorf "refused")))
  (fun _ _ w => (w, Ok (mkHttpResponse Http.StatusOK demo_ca))).

Definition home : Environ := mkEnviron (fun n => if n =s "HOME" then "/home/u" else "") 1000 (Some "/home/u") ["u"; "home"] 18
  (fun _ => false) (fun _ => false) (fun _ => NoFault) (fun _ => false) (fun _ => false) (fun _ => false) (fun _ => false)
  (fun _ => true).
Definition text_file (s : string) : File := mkFile (bytes_of s) 384 None.
(** The material of the proxy's operator lies in [/media]; the host has a key already. *)
Definition host : World accounts := mkWorld
  (<[["ca.crt"; "media"] := text_file "ca"]> (<[["client.crt"; "media"] := text_file "cert"]>
   (<[["client.key"; "media"] := text_file "key"]> (<[["client.key"; "certs"; "home"] := text_file "old key"]> ∅)))) [] [] [].
Definition options : Options := (noOptions {{ CertsDir := "/home/certs"; FromDir := "/media"; TargetUser := "deploy";
  TargetHost := "10.0.0.1"; SkipVerify := true; ConfigPath := "/home/u/agent.yml" }}).
Definition fresh : Fresh := mkFresh _ (Some tt) (Some 7) 0.
Definition fingerprint : string := HexEncodeToString (sha256 (bytes_of "BEGIN CERTIFICATE luna")).
Definition first_contact : BootstrapOptions := mkBootstrap "https://proxy.example:8443" "/home/certs" "" fingerprint true false.

Lemma fetched_ca_is_pinned_witness : exists w' f,
  FetchCA home demo_net first_contact host = (w', Ok "/home/certs/ca.crt") /\
  files w' !! ["ca.crt"; "certs"; "home"] = Some f.
Proof.
  destruct (io_run (FetchCA home demo_net first_contact) host) as (w' & p & E); [vm_compute; reflexivity|].
  destruct (fetched_ca_is_pinned home demo_net first_contact host w' (Ok p) eq_refl E) as [_ (Hp & _ & f & _ & _ & Hf & _)].
  exists w', f. split; [rewrite E, Hp; reflexivity|exact Hf].
Defined.

Lemma setup_run_complete_witness : exists w',
  Run home demo_net demo_sys false fresh options host = (w', Ok (mkResult "/home/certs" "/home/u/agent.yml")) /\
  present home "/home/certs/client.crt" w'.
Proof.
  destruct (io_run (Run home demo_net demo_sys false fresh options) host) as (w' & r & E); [vm_compute; reflexivity|].
  destruct (setup_run_complete home demo_net demo_sys false fresh options host w' r E) as (Hr & Hp & _).
  exists w'. split; [rewrite E, Hr; reflexivity|].
  apply (Hp "client.crt"). apply list_elem_of_In. right. by left.
Defined.

Lemma setup_keeps_material_witness : exists f,
  files (Run home demo_net demo_sys false fresh options host).1 !! ["client.key"; "certs"; "home"] = Some f /\
  f_data f = bytes_of "old key".
Proof.
  apply (setup_keeps_material home demo_net demo_sys false fresh options eq_refl eq_refl ltac:(done) host
    ["client.key"; "certs"; "home"] (text_file "old key")); [|reflexivity].
  intros [Ht|[Hk|[Hk|[Hk|(Hk & _)]]]]; [|vm_compute in Hk; discriminate Hk..].
  apply temporary_suffix in Ht. vm_compute in Ht. discriminate Ht.
Defined.
End SetupDemo.
End AgentSetup.
