(* ===== verification/AgentEnroll.v ===== *)
(** * An agent's host enrolls with the proxy (agent/internal/setup/bootstrap.go with
      proxy/internal/api/mtls_bootstrap_handler.go and cli/csr.go)

    [EnrollClientCSR] of [AgentSetup] over the network of [SdkProxy]: what ends up in [client.crt]. *)

From Stdlib Require Import Ascii.
From S2P Require Import Prelude GoTime GoStrings GoEncoding GoUtf8 GoJson GoPath GoOs External Fingerprint LeaseStore ReplayCache SessionBinding AuthPipeline Keystore Pending Signing Config Approval Devices Csr Http Api Control GoNet Wire Sdk SdkProxy CliClient CliRemote CliCmd GoPrompt Systemd AgentSetup.

Module Enroll.
Import Json AgentSetup.
#[local] Existing Instance Wire.go_json.

(** ** The two bodies *)

Definition request_body (csr : string) : list byte := e_struct [("csr_pem", Some (e_string csr))].
Definition answer_body (pem : string) : list byte := e_struct [("certificate_pem", Some (e_string pem))].

Lemma csr_request_read csr : ValidString csr = true -> Unmarshal (Wire.dec_one "csr_pem") "" (request_body csr) = Some csr.
Proof.
  intros Hv. unfold request_body.
  change (e_struct _) with (e_struct (texts [("csr_pem", s_string csr)])).
  erewrite Unmarshal_encodes by (apply encodes_struct; [done|apply Forall_singleton; auto with luna]).
  cbn [Wire.dec_one d_struct]. by rewrite (get_field_at _ _ _ _ 0%nat "csr_pem" (s_string csr) csr).
Qed.

Lemma csr_answer_read pem : ValidString pem = true ->
  Unmarshal (Wire.dec_one "certificate_pem") "" (Wire.line (answer_body pem)) = Some pem.
Proof.
  intros Hv. unfold answer_body.
  change (e_struct _) with (e_struct (texts [("certificate_pem", s_string pem)])).
  erewrite Remote.Unmarshal_line by (apply encodes_struct; [done|apply Forall_singleton; auto with luna]).
  cbn [Wire.dec_one d_struct]. by rewrite (get_field_at _ _ _ _ 0%nat "certificate_pem" (s_string pem) pem).
Qed.

Lemma answer_fits pem : Z.of_nat (length pem) <= 40000 ->
  Z.of_nat (length (Wire.line (answer_body (string_of pem)))) <= maxBody.
Proof.
  intros Hl. pose proof (e_string_length (string_of pem)) as He. rewrite <- length_bytes_of, bytes_of_string_of in He.
  change (answer_body (string_of pem)) with
    (byte_of 123 :: (e_string "certificate_pem" ++ byte_of 58 :: e_string (string_of pem)) ++ [byte_of 125]).
  unfold Wire.line. rewrite !length_app. cbn [length]. rewrite !length_app.
  change (length (e_string "certificate_pem")) with 17%nat. cbn [length]. unfold maxBody. lia.
Qed.

Section enroll.
Context `{HashLaws, SshLib, !Sign.CertIssuer Ks.Keystore, Bind.SshWire, !Csr.X509Lib, Http.EdLib, !CliCmd.RsaLib,
  HttpClient.TlsFileLib, UrlLib, PemLib}.

(** ** The proxy's side *)

Lemma enroll_created env s r s' resp :
  Api.handleMTLSEnroll env s r = (s', resp) -> Http.status resp = Http.StatusCreated ->
  exists csrPEM certPEM fp l,
    Http.json_mtlsEnroll (Http.body r) = Some csrPEM /\
    TrimSpace (Http.Header r "X-Luna-Enroll-Token") = TrimSpace (Cfg.MTLSEnrollToken (Api.cfg s)) /\
    TrimSpace (Cfg.MTLSEnrollToken (Api.cfg s)) <> "" /\
    Csr.SignAutomation (Api.serial env) (Api.tick env Api.TSerial) (Api.csrSigner s) (bytes_of csrPEM) = Ok (certPEM, fp) /\
    Http.payload resp = Http.CMtlsEnroll (string_of certPEM) /\ s' = Api.with_limiter s l.
Proof.
  unfold Api.handleMTLSEnroll, Http.ReadAll. intros Hh Hs.
  destruct (Rate.TryRecordSuccess _ _ _) as [l ok]. destruct ok; cbn [negb] in Hh; [|by simplify_eq].
  destruct (Api.csrSigner (Api.with_limiter s l)) as [sg|] eqn:Eg; [|by simplify_eq]. cbv zeta in Hh.
  destruct (TrimSpace (Cfg.MTLSEnrollToken _) =s "") eqn:Et; [by simplify_eq|].
  destruct (Auth.ConstantTimeCompare _ _ =? 1) eqn:Ec; cbn [negb] in Hh; [|by simplify_eq].
  apply Z.eqb_eq, Auth.ConstantTimeCompare_eq, bytes_of_inj in Ec.
  destruct (_ <? _); [by simplify_eq|]. destruct (Http.body_fails r); [by simplify_eq|].
  destruct (Http.json_mtlsEnroll (Http.body r)) as [csrPEM|] eqn:Ej; [|by simplify_eq].
  destruct (TrimSpace csrPEM =s ""); [by simplify_eq|].
  rewrite <- Eg in Hh. change (Api.csrSigner (Api.with_limiter s l)) with (Api.csrSigner s) in Hh.
  destruct (Csr.SignAutomation _ _ _ _) as [[certPEM fp]|e] eqn:Ea; injection Hh as <- <-.
  - exists csrPEM, certPEM, fp, l. str_prop. by split_and!.
  - by repeat case_match.
Qed.

(** ** The host's side *)

Section network.
Context (base : string) (link : Conn) (certs : list Certificate) (remote : string).
Notation World := (GoOs.World SdkProxy.World).
Notation net := (SdkProxy.proxy_net base link certs remote).
Definition proxy (w : World) : Api.server := SdkProxy.srv (nw w).

Definition enroll_post (o : BootstrapOptions) (csr : list byte) : HttpRequest :=
  mkHttpRequest "POST" (TrimRight (TrimSpace (b_ProxyURL o)) "/"%char +:+ mtlsEnrollPath)
    [("Content-Type", "application/json"); (enrollTokenHeader, TrimSpace (b_EnrollToken o))] (marshal_csr csr).

Lemma loadCAPool_world {N : Type} (env : Environ) p (w w' : GoOs.World N) r : loadCAPool env p w = (w', r) -> w' = w.
Proof.
  intros E. refine (eq_sym (keeps_run eq _ _ _ _ _ E)). unfold loadCAPool.
  assert (Hread : forall p, keeps eq (@ReadFile N env p)) by done. keeps.
Qed.

(** What a successful enrollment did before its exchange, and what it did with the answer. *)
Lemma enroll_exchange env o (w w' : World) p :
  RefreshCA o = false -> EnrollClientCSR env net o w = (w', Ok p) ->
  let dest := Join [Clean (b_CertsDir o); "client.crt"] in
  exists f resp n pem,
    TrimSpace (TrimSpace (b_EnrollToken o)) <> "" /\
    files w !! key env (Join [Clean (b_CertsDir o); "client.csr.pem"]) = Some f /\
    SdkProxy.exchange base certs remote (Some link) (enroll_post o (f_data f)) (nw w) = (n, Ok resp) /\
    StatusCode resp = Http.StatusCreated /\
    Unmarshal (Wire.dec_one "certificate_pem") "" (LimitReader maxBody (RespBody resp)) = Some pem /\
    p = dest /\ nw w' = n /\
    (exists g, files w' !! key env dest = Some (mkFile (bytes_of pem) (written_mode env w dest 420) g)) /\
    (forall k, k <> key env dest -> ~ temporary k -> files w' !! k = files w !! k).
Proof.
  intros Hrf He dest. unfold EnrollClientCSR in He. cbv zeta in He.
  change (RefreshCA (bootstrap_defaults o)) with (RefreshCA o) in He. rewrite Hrf in He.
  cbn [b_ProxyURL b_CertsDir b_EnrollToken bootstrap_defaults when] in He. fold dest in He.
  destruct (TrimSpace (TrimSpace (b_EnrollToken o)) =s "") eqn:Et; [done|]. str_prop. io_ok. subst.
  match goal with H : ReadFile _ _ _ = _ |- _ => apply ReadFile_file in H as (-> & f & Hf & <-) end.
  match goal with H : bootstrapHTTPClient _ _ _ _ = _ |- _ => unfold bootstrapHTTPClient in H end. io_ok.
  match goal with H : try _ _ = _ |- _ => unfold try in H;
    destruct (loadCAPool _ _ _) as [wp pool] eqn:El; apply loadCAPool_world in El as ->; injection H as <- <- end.
  subst. match goal with H : NewRequest _ _ _ _ _ = _ |- _ => unfold NewRequest in H; destruct (url_Parse _); [|done] end.
  io_ok. subst.
  match goal with H : HttpClient.do_request _ _ _ _ = (_, Ok ?r) |- _ =>
    unfold HttpClient.do_request, HttpClient.on_net in H; simpl in H; rename r into resp;
    destruct (SdkProxy.exchange _ _ _ _ _ _) as [n [r0|]] eqn:Ex; injection H as Hw Hr; [subst r0|done] end.
  subst. destruct (StatusCode resp =? Http.StatusCreated) eqn:Est; cbn [negb] in He; [|done]. apply Z.eqb_eq in Est.
  unfold HttpClient.read_limited in He. io_ok.
  match goal with H : or_err _ _ = Ok ?a |- _ => destruct (Unmarshal _ _ _) as [pem|] eqn:Ej; [cbn [or_err] in H; injection H as <-|done] end.
  destruct (looksLikePEMCert _); cbn [negb] in He; [|done]. io_ok. subst.
  match goal with H : writeFileAtomic _ _ _ _ _ = (_, Ok ?a) |- _ =>
    destruct a; apply writeFileAtomic_cases in H as (_ & _ & Hn & Hk & g & Hx) end.
  exists f, resp, n, pem. split_and!; try done; [by exists g|].
  intros k Hk1 Hk2. rewrite Hk; [done|done|]. intros ->. apply Hk2, resolve_tmp_temporary.
Qed.

End network.
End enroll.

(** ** A concrete enrollment *)
Module EnrollDemo.
Import Demo Bind.WireDemo.
#[local] Existing Instances Sign.demo_cert Sign.LocalCA Sign.LocalCA_laws Api.ApiDemo.demo_ed.

(** The demonstration's certificates with a PEM text that names its type; the one that is issued has
    no units and so no bytes. *)
#[local] Instance demo_x509 : Csr.X509Lib := {|
  Csr.PrivateKey := unit;
  Csr.pem_Decode l := match Csr.CsrDemo.cut_colon l with
                      | Some (ty, b) => Some (TrimPrefix ty "-----BEGIN ", b)
                      | None => None
                      end;
  Csr.pem_Encode ty b := match b with
                         | [] => bytes_of ("-----BEGIN " +:+ ty +:+ ":")
                         | _ => bytes_of (StdEncodeToString b)
                         end;
  Csr.ParseCertificateRequest := Csr.ParseCertificateRequest (X509Lib := Csr.CsrDemo.demo_x509);
  Csr.CreateCertificate := Csr.CreateCertificate (X509Lib := Csr.CsrDemo.demo_x509);
  Csr.ParseCertificate := Csr.ParseCertificate (X509Lib := Csr.CsrDemo.demo_x509);
  Csr.ParsePKCS1PrivateKey _ := Some tt;
  Csr.ParsePKCS8PrivateKey _ := Some tt;
  Csr.ParseECPrivateKey _ := Some tt
|}.
#[local] Instance demo_laws : Csr.X509Laws.
Proof.
  constructor.
  - exact (Csr.parse_raw (X509Laws := Csr.CsrDemo.demo_x509_laws)).
  - exact (Csr.parse_created (X509Laws := Csr.CsrDemo.demo_x509_laws)).
Qed.
#[local] Instance demo_rsa : CliCmd.RsaLib := {|
  CliCmd.MarshalPKCS1PrivateKey _ := [];
  CliCmd.CreateCertificateRequest name _ := Some [];
  CliCmd.is_rsa _ := true;
  CliCmd.rsa_N _ := 2 ^ 2047
|}.
#[local] Existing Instances SetupDemo.demo_files SetupDemo.demo_url SetupDemo.demo_pem.

Lemma pem_text der : ValidString (string_of (Csr.pem_Encode "CERTIFICATE" der)) = true.
Proof.
  destruct der as [|b der]; [reflexivity|]. cbn [Csr.pem_Encode demo_x509]. rewrite string_of_bytes_of. apply base64_valid.
Qed.
Lemma pem_short n cn nb na ku ca pub k der :
  Csr.CreateCertificate (Csr.mkTemplate n (Csr.mkName cn []) nb na ku) ca pub k = Some der ->
  Z.of_nat (length (Csr.pem_Encode "CERTIFICATE" der)) <= 40000.
Proof. intros H. vm_compute in H. injection H as <-. vm_compute. discriminate. Qed.

Definition signer : option Csr.CSRSigner :=
  Some (Csr.NewCSRSigner (Some (mkCertificate [] [])) (Some (tt : Csr.PrivateKey)) "luna-cli" Csr.defaultCLIClientCertTTL).
Definition central : Api.server := Api.NewServer (fun _ => None)
  (Api.mkServerDeps Api.ApiDemo.config (Ks.NewWithMode Ks.ModeLocalKey) None
    (Appr.SetLeases (Appr.SetKeySigner (Appr.SetConfig (Appr.NewStore 0) Api.ApiDemo.config) true) (Some Lease.NewStore))
    (Replay.NewReplayLRU (60 * Second) 1000) None (Some Mob.NewStore) (Some Cli.NewStore) signer None).
Definition url : string := "https://proxy.example:8443".
Definition request : File := mkFile (bytes_of "-----BEGIN CERTIFICATE REQUEST:") 420 None.
Definition host : GoOs.World SdkProxy.World := mkWorld
  (<[["client.csr.pem"; "certs"; "home"] := request]> ∅) [] []
  (SdkProxy.mkWorld central [SdkProxy.Deliver Api.ApiDemo.env id Api.WakeResult]).
Definition bootstrap : BootstrapOptions := mkBootstrap (url +:+ "/") "/home/certs" " join" "" false false.
Definition enroll : IO (GoOs.World SdkProxy.World) string :=
  EnrollClientCSR SetupDemo.home (SdkProxy.proxy_net url Auth.PipelineDemo.conn [] "10.0.0.2:5123") bootstrap.

Lemma request_text f : files host !! ["client.csr.pem"; "certs"; "home"] = Some f -> ValidString (string_of (f_data f)) = true.
Proof. intros Hf. change (Some request = Some f) in Hf. by injection Hf as <-. Qed.

End EnrollDemo.
End Enroll.
