(* ===== verification/AgentWizard.v ===== *)
(** * The agent's set-up wizard and commands (agent/internal/setup/interactive.go;
      agent/cmd/luna-agent: setup.go, install.go)

    [RunInteractive] turns what is typed into the options of [AgentSetup.Run]; [runSetupAll] chooses
    between the wizard and the flags.  What is printed between the questions is not kept. *)

From Stdlib Require Import Ascii.
From coqutil Require Import Datatypes.RecordSetters.
From S2P Require Import Prelude GoTime GoStrings GoEncoding GoPath GoOs External Fingerprint Config Csr GoNet Sdk Agent ConfigLoad CliClient CliCmd GoPrompt Systemd AgentSetup.

Module AgentWizard.
Import AgentSetup.

(** ** What is on the host (ExistingState) *)

Record ExistingState := mkState {
  st_ConfigPath : string;
  st_CertsDir : string;
  HasConfig : bool;
  HasCA : bool;
  HasCert : bool;
  HasKey : bool;
  HasCSR : bool;
  st_Options : Options
}.

Definition materialSummary (s : ExistingState) : string :=
  if HasCA s && HasCert s && HasKey s then "complete" else "incomplete".

Definition needsEnrollResume (s : ExistingState) : bool := HasKey s && HasCSR s && negb (HasCert s).

Section wizard.
Context {N : Type} (env : Environ) (net : Net N) (sys : Sys N) (tty : bool).
Context `{ViperLib, HashLib, !Csr.X509Lib, !CliCmd.RsaLib, HttpClient.TlsFileLib, UrlLib, PemLib}.
Notation W := (World N).

Definition rescanCerts (dir : string) (s : ExistingState) (w : W) : ExistingState :=
  let has name := fileExists env (Join [dir; name]) w in
  mkState (st_ConfigPath s) dir (HasConfig s) (has "ca.crt") (has "client.crt") (has "client.key")
    (has "client.csr.pem") (st_Options s).

(** A configuration that cannot be read counts as none. *)
Definition loadExistingConfig (path : string) (w : W) : Options :=
  if path =s "" then noOptions else
  if negb (fileExists env path w) then noOptions else
  match (data ← read_opt env w path; ReadInConfig path data viper_New) with
  | None => noOptions
  | Some v =>
      let get := GetString (Getenv env) v in
      let p := TrimSpace (get "mtls_ca") in
      let certsDir := if negb (p =s "") then Dir p else DefaultCertsDir in
      noOptions {{ ProxyURL := get "proxy_url"; SignerMode := get "signer_mode"; TargetUser := get "target_user";
                   TargetHost := get "target_host"; HostKeyFingerprint := get "host_key_fingerprint";
                   AgentSocket := get "agent_socket"; CertsDir := certsDir; ConfigPath := path }}
  end.

Definition scanExisting (prefill : Options) (w : W) : ExistingState :=
  let prefill := withDefaults env prefill in
  let existing := loadExistingConfig (ConfigPath prefill) w in
  let certsDir := if negb (CertsDir existing =s "") then CertsDir existing else CertsDir prefill in
  let s := rescanCerts certsDir (mkState (ConfigPath prefill) certsDir false false false false false existing) w in
  mkState (st_ConfigPath s) (st_CertsDir s) (fileExists env (ConfigPath prefill) w) (HasCA s) (HasCert s) (HasKey s)
    (HasCSR s) (st_Options s).

(** ** Questions *)

(** The error that is reported is the inner one of the last question, which is nil. *)
Definition unreachable : error := errorf "proxy unreachable: %!w(<nil>)".

Section ask_url.
(** [for { url, err := p.askString(...); ... }]: one round, and [retry] for the next. *)
Context (retry : string -> IO W string).

Definition ask_proxy (defaultURL : string) : IO W string :=
  url ← AgentPrompt.askString defaultURL;
  let url := TrimSpace url in
  r ← try (ProbeProxyURL env net url);
  match r with
  | Ok _ => mret url
  | Err _ =>
      again ← AgentPrompt.askYesNo true;
      if (again : bool) then retry url else fail unreachable
  end.
End ask_url.

Fixpoint prompt_url_loop (n : nat) (defaultURL : string) : IO W string :=
  match n with
  | O => fail out_of_fuel
  | S n => ask_proxy (prompt_url_loop n) defaultURL
  end.

(** Every round reads a line. *)
Definition promptProxyURL (defaultURL : string) : IO W string :=
  fun w => prompt_url_loop (S (length (stdin w))) defaultURL w.

Definition strategies : list string :=
  ["Copy from directory (scp from luna-proxy setup mtls)";
   "Provide CA cert + CA key and generate/sign client cert here";
   "Generate key/CSR and enroll via proxy API (ca.crt optional — can download)";
   "Provide individual file paths (ca, cert, key)"].

Definition from_directory (o : Options) : IO W Options :=
  dir ← AgentPrompt.askString "";
  let o := o {{ FromDir := TrimSpace dir }} in
  if FromDir o =s "" then fail (errorf "source directory required") else mret o.

Definition sign_here (o : Options) : IO W Options :=
  ca ← AgentPrompt.askString "";
  caKey ← AgentPrompt.askString "";
  mret (o {{ CAFile := TrimSpace ca; CAKeyFile := TrimSpace caKey; Force := true }}).

Definition enroll_via_proxy (o : Options) : IO W Options :=
  ca ← AgentPrompt.askOptionalString (firstNonEmpty [CAFile o]);
  let ca := TrimSpace ca in
  let o := o {{ CAFile := ca }} in
  let o := if ca =s "" then o {{ FetchesCA := true }} else o in
  token ← promptEnrollToken (firstNonEmpty [EnrollToken o]);
  mret (o {{ EnrollToken := TrimSpace token; EnrollViaProxy := true; Force := true }}).

Definition single_files (o : Options) : IO W Options :=
  ca ← AgentPrompt.askOptionalPath;
  cert ← AgentPrompt.askOptionalPath;
  key ← AgentPrompt.askOptionalPath;
  mret (o {{ CAFile := ca; CertFile := cert; KeyFile := key }}).

Definition applyCertStrategy (o : Options) : IO W Options :=
  idx ← AgentPrompt.askIndex strategies 0;
  match idx with
  | 0%nat => from_directory o
  | 1%nat => sign_here o
  | 2%nat => enroll_via_proxy o
  | 3%nat => single_files o
  | _ => mret o
  end.

Definition resume_enrollment (o : Options) : IO W Options :=
  let o := o {{ EnrollViaProxy := true; Force := true; FetchesCA := true }} in
  token ← promptEnrollToken (firstNonEmpty [EnrollToken o]);
  mret (o {{ EnrollToken := TrimSpace token }}).

(** *** The steps of [RunInteractive] *)

(** The proxy, the signer and the target *)
Definition ask_target (o existing : Options) : IO W Options :=
  url ← promptProxyURL (firstNonEmpty [ProxyURL o; ProxyURL existing]);
  signer ← AgentPrompt.askChoice ["local-ca"; "local-key"]
             (firstNonEmpty [SignerMode o; SignerMode existing; "local-ca"]);
  user ← AgentPrompt.askString (firstNonEmpty [TargetUser o; TargetUser existing; "deploy"]);
  host ← AgentPrompt.askString (firstNonEmpty [TargetHost o; TargetHost existing]);
  mret (o {{ ProxyURL := url; SignerMode := signer; TargetUser := user; TargetHost := host }}).

(** The directories and the socket, and the checks of the target *)
Definition ask_paths (o existing : Options) (s : ExistingState) : IO W Options :=
  certs ← AgentPrompt.askString (firstNonEmpty [CertsDir o; CertsDir existing; st_CertsDir s]);
  cfg ← AgentPrompt.askString (firstNonEmpty [ConfigPath o; ConfigPath existing; st_ConfigPath s]);
  socket ← AgentPrompt.askString (firstNonEmpty [AgentSocket o; AgentSocket existing; DefaultAgentSocket env]);
  let o := o {{ CertsDir := Clean certs; ConfigPath := cfg; AgentSocket := socket }} in
  if TrimSpace (TargetHost o) =s "" then fail (errorf "SSH target host/IP is required") else
  if TrimSpace (TargetUser o) =s "" then fail (errorf "SSH target user is required") else
  mret o.

Definition ask_fingerprint (o existing : Options) : IO W Options :=
  if SignerMode o =s "local-key" then
    fp ← AgentPrompt.askOptionalString (firstNonEmpty [HostKeyFingerprint o; HostKeyFingerprint existing]);
    mret (o {{ HostKeyFingerprint := TrimSpace fp }})
  else mret o.

Definition ask_material (o : Options) (s : ExistingState) : IO W Options :=
  s ← look (fun w => Ok (rescanCerts (CertsDir o) s w));
  if needsEnrollResume s then resume_enrollment o else
  if materialSummary s =s "complete" then
    keep ← AgentPrompt.askYesNo true;
    if negb (keep : bool) then applyCertStrategy (o {{ Force := true }}) else mret o
  else applyCertStrategy o.

Definition ask_service (o : Options) (default_install : bool) : IO W Options :=
  install ← AgentPrompt.askYesNo default_install;
  let o := o {{ InstallSystemd := install }} in
  if (install : bool) then
    enable ← AgentPrompt.askYesNo true;
    let o := o {{ SystemdEnable := enable }} in
    if Geteuid env =? 0 then
      system ← AgentPrompt.askYesNo false;
      mret (o {{ SystemdSystem := system }})
    else mret o
  else mret o.

Definition cancelled : error := errorf "setup cancelled".

Definition RunInteractive (prefill : Options) (assumeYes : bool) : IO W Options :=
  s ← look (fun w => Ok (scanExisting prefill w));
  let o := withDefaults env prefill in
  let existing := st_Options s in
  o ← ask_target o existing;
  o ← ask_paths o existing s;
  o ← ask_fingerprint o existing;
  o ← ask_material o s;
  o ← ask_service o (negb (HasConfig s) || assumeYes);
  verify ← AgentPrompt.askYesNo true;
  let o := o {{ SkipVerify := negb verify; RewriteConfig := true }} in
  ok ← (if assumeYes then mret true else AgentPrompt.askYesNo true);
  if (ok : bool) then mret (withDefaults env o) else fail cancelled.

(** ** Commands (cmd/luna-agent) *)

(** The flags: the options they set, [--non-interactive] and [--yes]. *)
Record SetupFlags := mkFlags { f_options : Options; NonInteractive : bool; AssumeYes : bool }.

(** The two options that no flag sets stay false. *)
Definition flagsToSetupOptions (f : SetupFlags) : Options :=
  (f_options f) {{ EnrollViaProxy := false; RewriteConfig := false }}.

Definition validateNonInteractive (o : Options) : result unit :=
  if ProxyURL o =s "" then Err (errorf "--proxy-url is required in non-interactive mode") else
  if TargetUser o =s "" then Err (errorf "--target-user is required in non-interactive mode") else
  if TargetHost o =s "" then Err (errorf "--target-host is required in non-interactive mode") else
  Ok tt.

(** The lines a run prints at its end. *)
Definition setup_report (f : SetupFlags) (res : Result) : list string :=
  ["setup complete: certs=" +:+ res_CertsDir res +:+ " config=" +:+ res_ConfigPath res;
   "use: export SSH_AUTH_SOCK=" +:+ AgentLoad.ResolveSocketPath env (AgentSocket (f_options f))].

Definition setup_options (f : SetupFlags) : IO W Options :=
  let o := flagsToSetupOptions f in
  if negb (NonInteractive f) && tty then RunInteractive o (AssumeYes f)
  else _ ← lift (validateNonInteractive o); mret o.

Definition runSetupAll (fr : Fresh) (f : SetupFlags) : IO W (list string) :=
  o ← setup_options f;
  if InstallSystemd o && SystemdSystem o && negb (Geteuid env =? 0)
  then fail (errorf "install system systemd unit requires root") else
  r ← try (Run env net sys tty fr o);
  match r with
  | Ok res => mret (setup_report f res)
  | Err e =>
      if errors_is e ErrExists
      then fail (EWrap (error_text e +:+ " — choose to replace in wizard or use --force") e) else fail e
  end.

(** [luna-agent install systemd]: the flags are the options. *)
Definition runInstallSystemd (o : AgentInstall.SystemdOptions) : IO W string :=
  AgentInstall.InstallAgentSystemd env sys o.

End wizard.

(** ** Facts *)

Section facts.
Context {N : Type} (env : Environ) (net : Net N) (sys : Sys N) (tty : bool).
Context `{ViperLib, HashLib, !Csr.X509Lib, !CliCmd.RsaLib, HttpClient.TlsFileLib, UrlLib, PemLib}.
Implicit Types w : World N.

(** *** The loop of [promptProxyURL] ends *)

Definition same_input w w' : Prop := stdin w' = stdin w.
#[local] Instance same_input_preorder : PreOrder same_input.
Proof. split; [by intros w|]. unfold same_input. intros w1 w2 w3 E1 E2. congruence. Qed.

Lemma do_request_input c q : keeps same_input (HttpClient.do_request net c q).
Proof. intros w. unfold HttpClient.do_request, HttpClient.on_net. by destruct (net_do _ _ _ _). Qed.

Lemma probe_input url : keeps same_input (ProbeProxyURL env net url).
Proof.
  pose proof do_request_input as Hq.
  assert (Hp : forall c base paths e, keeps same_input (probe_paths (N := N) net c base paths e)).
  { intros c base. induction paths as [|p paths IH]; intros e; cbn [probe_paths]; [apply keeps_fail; apply _|].
    unfold NewRequest. keeps. }
  unfold ProbeProxyURL, bootstrapHTTPClient. keeps.
Qed.

(** A round reads a line before it asks for another one. *)
Lemma ask_proxy_ext f g d w :
  (forall u v, (length (stdin v) < length (stdin w))%nat -> f u v = g u v) ->
  ask_proxy env net f d w = ask_proxy env net g d w.
Proof.
  intros Hfg. unfold ask_proxy. unfold mbind at 1 4, io_bind at 1 4.
  destruct (AgentPrompt.askString d w) as [w1 [url|e]] eqn:E1; [|done].
  apply (ask_consumes _ _ AgentPrompt.lines) in E1. unfold mbind at 1 3, io_bind at 1 3, try.
  pose proof (probe_input (TrimSpace url) w1) as Hp. destruct (ProbeProxyURL _ _ _ _) as [w2 [[]|e]]; [done|].
  unfold same_input in Hp. simpl in Hp. unfold mbind, io_bind.
  destruct (AgentPrompt.askYesNo true w2) as [w3 [[]|e']] eqn:E2; [|done..].
  apply (ask_consumes _ _ AgentPrompt.lines) in E2. rewrite Hp in E2. apply Hfg. lia.
Qed.

Lemma prompt_url_fuel n m d w :
  (length (stdin w) < n)%nat -> (length (stdin w) < m)%nat ->
  prompt_url_loop env net n d w = prompt_url_loop env net m d w.
Proof.
  revert m d w. induction n as [|n IH]; intros [|m] d w Hn Hm; [lia..|]. simpl.
  apply ask_proxy_ext. intros u v Hv. apply IH; lia.
Qed.

(** The bound on the rounds does not show: asking for the URL is the loop of the source. *)
Lemma promptProxyURL_unfold d w :
  promptProxyURL env net d w = ask_proxy env net (promptProxyURL env net) d w.
Proof.
  unfold promptProxyURL at 1. simpl. apply ask_proxy_ext. intros u v Hv. unfold promptProxyURL.
  apply prompt_url_fuel; lia.
Qed.

(** The loop gives up only where the source does. *)
Lemma prompt_url_error n d w w' e : (length (stdin w) < n)%nat -> prompt_url_loop env net n d w = (w', Err e) -> e = EOF \/ e = unreachable.
Proof.
  revert d w. induction n as [|n IH]; intros d w Hn; [lia|]. cbn [prompt_url_loop]. unfold ask_proxy, mbind at 1, io_bind at 1.
  destruct (AgentPrompt.askString d w) as [w1 [url|e1]] eqn:Ea.
  2: { intros [= <- <-]. left. by eapply (ask_eof _ _ AgentPrompt.lines). }
  apply (ask_consumes _ _ AgentPrompt.lines) in Ea. unfold mbind at 1, io_bind at 1, try.
  pose proof (probe_input (TrimSpace url) w1) as Hp. destruct (ProbeProxyURL _ _ _ _) as [w2 [[]|e2]]; [done|].
  unfold same_input in Hp. simpl in Hp. unfold mbind, io_bind.
  destruct (AgentPrompt.askYesNo true w2) as [w3 [[]|e3]] eqn:Ey; [|by intros [= <- <-]; right|].
  - apply (ask_consumes _ _ AgentPrompt.lines) in Ey. rewrite Hp in Ey. apply IH. lia.
  - intros [= <- <-]. left. by eapply (ask_eof _ _ AgentPrompt.lines).
Qed.

(** C36: Every question of both wizards comes to an end.  Each prompt of the agent's and of the proxy's
    wizard takes the first line of the input that is an answer, with the rest of the input unread, or,
    when no line is one, reads the input to its end and reports it.  The agent's question for the
    proxy's address, which repeats itself while the address cannot be reached and another one is
    wanted, is the loop of the source and ends in an address, at the end of the input, or when no
    other address is wanted. *)
Theorem prompts_return (d : string) (b : bool) (choices : list string) (i : nat) w :
  (AgentPrompt.askString d w = answered (string_answer d) AgentPrompt.lines w /\
   AgentPrompt.askYesNo b w = answered (fun line => yes_no_answer b (ToLower (TrimSpace line))) AgentPrompt.lines w /\
   AgentPrompt.askIndex choices i w =
     answered (fun line => if TrimSpace line =s "" then Some i else in_range (length choices) (Sscanf_d (TrimSpace line))) AgentPrompt.lines w /\
   AgentPrompt.askChoice choices d w =
     (idx ← answered (fun line => if TrimSpace line =s "" then Some (default O (index_of d choices)) else in_range (length choices) (Sscanf_d (TrimSpace line)))
              AgentPrompt.lines;
      mret (nth idx choices "")) w) /\
  (ProxyPrompt.askString d w = answered (string_answer d) ProxyPrompt.lines w /\
   ProxyPrompt.askYesNo b w = answered (fun line => yes_no_answer b (TrimSpace (ToLower line))) ProxyPrompt.lines w /\
   ProxyPrompt.askChoice choices i w =
     (idx ← answered (fun line => in_range (length choices) (ParseInt (if TrimSpace line =s "" then FormatInt (Z.of_nat i + 1) else TrimSpace line)))
              ProxyPrompt.lines;
      mret (nth idx choices "")) w) /\
  promptProxyURL env net d w = ask_proxy env net (promptProxyURL env net) d w /\
  (forall w' e, promptProxyURL env net d w = (w', Err e) -> e = EOF \/ e = unreachable).
Proof.
  split; [split_and!; try (by apply ask_spec, _)|split; [split_and!; try (by apply ask_spec, _)|split; [apply promptProxyURL_unfold|]]].
  - unfold AgentPrompt.askChoice, AgentPrompt.askIndex, mbind, io_bind. by rewrite (ask_spec _ _ AgentPrompt.lines).
  - unfold ProxyPrompt.askChoice, mbind, io_bind. by rewrite (ask_spec _ _ ProxyPrompt.lines).
  - intros w' e. apply prompt_url_error. lia.
Qed.

Lemma prompt_url_ok n d w w' url : prompt_url_loop env net n d w = (w', Ok url) ->
  exists v v', ProbeProxyURL env net url v = (v', Ok tt) /\ w' = v'.
Proof.
  revert d w. induction n as [|n IH]; intros d w; [done|]. simpl. unfold ask_proxy. intros Hp. io_ok.
  match goal with E : try _ _ = _ |- _ => unfold try in E; destruct (ProbeProxyURL _ _ _ _) as [v [[]|e]] eqn:Ep; injection E as <- <- end.
  - io_ok. subst. by eexists _, _.
  - io_ok. match goal with b : bool |- _ => destruct b end; [by eapply IH|done].
Qed.

(** *** The wizard only reads *)

Lemma prompt_url_keeps R n d : PreOrder R -> keeps (on_files R) (prompt_url_loop env net n d).
Proof.
  intros HR. revert d. induction n as [|n IH]; intros d; cbn [prompt_url_loop]; [apply keeps_fail; apply _|].
  pose proof (fun url => ProbeProxyURL_keeps env net R url HR). unfold ask_proxy, AgentPrompt.askString, AgentPrompt.askYesNo. keeps.
Qed.
Lemma promptProxyURL_keeps R d : PreOrder R -> keeps (on_files R) (promptProxyURL env net d).
Proof. intros HR w. by apply prompt_url_keeps. Qed.

Lemma applyCertStrategy_keeps R o : PreOrder R -> keeps (on_files R) (applyCertStrategy (N := N) o).
Proof.
  intros HR. unfold applyCertStrategy, from_directory, sign_here, enroll_via_proxy, single_files, promptEnrollToken,
    AgentPrompt.askIndex, AgentPrompt.askString, AgentPrompt.askOptionalString, AgentPrompt.askOptionalPath. keeps.
Qed.

Lemma RunInteractive_keeps R o yes : PreOrder R -> keeps (on_files R) (RunInteractive env net o yes).
Proof.
  intros HR. pose proof (fun d => promptProxyURL_keeps R d HR). pose proof (fun o => applyCertStrategy_keeps R o HR).
  unfold RunInteractive, ask_target, ask_paths, ask_fingerprint, ask_material, resume_enrollment, ask_service,
    promptEnrollToken, AgentPrompt.askChoice, AgentPrompt.askIndex, AgentPrompt.askString, AgentPrompt.askOptionalString,
    AgentPrompt.askYesNo. keeps.
Qed.

(** *** What the answers guarantee *)

Lemma ProbeProxyURL_https url w w' : ProbeProxyURL env net url w = (w', Ok tt) ->
  HasPrefix (TrimRight (TrimSpace url) "/"%char) "https://" = true.
Proof.
  unfold ProbeProxyURL. cbv zeta. destruct (_ =s ""); [done|]. by destruct (HasPrefix _ _).
Qed.

(** The options the questions on TLS material leave alone. *)
Definition answers (o : Options) :=
  (ProxyURL o, SignerMode o, TargetUser o, TargetHost o, CertsDir o, ConfigPath o, AgentSocket o, HostKeyFingerprint o,
   CAFingerprint o).

(** The questions on TLS material: they leave the other options alone, and material that is to come from
    the proxy, without a CA of the operator's, makes the run download one. *)
Definition collects (o o' : Options) : Prop :=
  answers o' = answers o /\
  (EnrollViaProxy o = false -> EnrollViaProxy o' = true -> CAFile o' = "" -> FetchesCA o' = true).

Lemma applyCertStrategy_collects o w w' o' : applyCertStrategy o w = (w', Ok o') -> collects o o'.
Proof.
  unfold applyCertStrategy. intros Hq. io_ok.
  match type of Hq with match ?i with _ => _ end _ = _ => destruct i as [|[|[|[|i]]]] end;
    unfold from_directory, sign_here, enroll_via_proxy, single_files in Hq; io_ok; subst;
    try (split; [done|destruct o; cbn; congruence]).
  - destruct (FromDir _ =s ""); [done|]. io_ok. subst. split; [done|]. destruct o; cbn; congruence.
  - match goal with |- context [TrimSpace ?a =s ""] => destruct (TrimSpace a =s "") eqn:E end;
      (split; [done|intros _ _]); [done|]. intros He. str_prop. by destruct o.
  - split; [done|congruence].
Qed.

Lemma ask_material_collects o s w w' o' : ask_material env o s w = (w', Ok o') -> collects o o'.
Proof.
  unfold ask_material, resume_enrollment. intros Hm. io_ok.
  destruct (needsEnrollResume _); [io_ok; by subst|].
  destruct (_ =s "complete"); [|by eapply applyCertStrategy_collects].
  io_ok. match goal with b : bool |- _ => destruct b end; cbn [negb] in Hm.
  - io_ok. subst. split; [done|congruence].
  - by apply applyCertStrategy_collects in Hm.
Qed.

(** What a wizard that ends has made sure of. *)
Definition well_answered (o : Options) : Prop :=
  HasPrefix (TrimRight (TrimSpace (ProxyURL o)) "/"%char) "https://" = true /\
  SignerMode o ∈ ["local-ca"; "local-key"] /\ TrimSpace (TargetUser o) <> "" /\ TrimSpace (TargetHost o) <> "" /\
  CertsDir o <> "" /\ ConfigPath o <> "" /\ AgentSocket o <> "" /\ RewriteConfig o = true.

Lemma withDefaults_answered o : well_answered o ->
  let o' := withDefaults env o in
  SignerMode o' = SignerMode o /\ CertsDir o' = CertsDir o /\ ConfigPath o' = ConfigPath o /\ AgentSocket o' = AgentSocket o.
Proof.
  intros (_ & Hs & _ & _ & Hc & Hp & Ha & _). cbn -[or_default]. unfold or_default.
  rewrite !or_default_set; try done. intros E. rewrite E, !elem_of_cons, elem_of_nil in Hs. naive_solver.
Qed.

Lemma withDefaults_well o : well_answered o -> well_answered (withDefaults env o).
Proof.
  intros Hw. destruct (withDefaults_answered o Hw) as (E1 & E2 & E3 & E4). unfold well_answered. by rewrite E1, E2, E3, E4.
Qed.

Lemma ask_target_ok o e w w' o' : ask_target env net o e w = (w', Ok o') ->
  exists url signer user host,
    o' = o {{ ProxyURL := url; SignerMode := signer; TargetUser := user; TargetHost := host }} /\
    HasPrefix (TrimRight (TrimSpace url) "/"%char) "https://" = true /\ signer ∈ ["local-ca"; "local-key"].
Proof.
  unfold ask_target. intros Ht. io_ok. subst. eexists _, _, _, _. split; [done|]. split.
  - match goal with H : promptProxyURL _ _ _ _ = _ |- _ => apply prompt_url_ok in H as (v & v' & H & _) end.
    by eapply ProbeProxyURL_https.
  - by eapply agent_askChoice_in.
Qed.

Lemma ask_paths_ok o e s w w' o' : ask_paths env o e s w = (w', Ok o') ->
  exists certs cfg socket, o' = o {{ CertsDir := Clean certs; ConfigPath := cfg; AgentSocket := socket }} /\
    cfg <> "" /\ socket <> "" /\ TrimSpace (TargetHost o) <> "" /\ TrimSpace (TargetUser o) <> "".
Proof.
  unfold ask_paths. intros Hp. io_ok.
  match type of Hp with context [TargetHost ?q] => change (TargetHost q) with (TargetHost o) in Hp end.
  match type of Hp with context [TargetUser ?q] => change (TargetUser q) with (TargetUser o) in Hp end.
  destruct (TrimSpace (TargetHost o) =s "") eqn:Eh; [done|]. destruct (TrimSpace (TargetUser o) =s "") eqn:Eu; [done|].
  io_ok. subst. str_prop. eexists _, _, _. split_and!; try done; by eapply agent_askString_nonempty.
Qed.

Lemma ask_fingerprint_ok o e w w' o' : ask_fingerprint o e w = (w', Ok o') ->
  exists fp, o' = o {{ HostKeyFingerprint := fp }}.
Proof.
  unfold ask_fingerprint. destruct (_ =s _); intros Hf; io_ok; subst; [by eexists|]. exists (HostKeyFingerprint o').
  by destruct o'.
Qed.

Lemma ask_service_ok o b w w' o' : ask_service env o b w = (w', Ok o') ->
  exists install enable system,
    o' = o {{ InstallSystemd := install; SystemdEnable := enable; SystemdSystem := system }} /\
    (system = true -> SystemdSystem o = true \/ Geteuid env = 0).
Proof.
  unfold ask_service. intros Hs. io_ok. match type of Hs with (if ?b then _ else _) _ = _ => destruct b end; io_ok.
  - destruct (Geteuid env =? 0) eqn:Eg; io_ok; subst.
    + eexists true, _, _. split; [done|]. intros _. right. by apply Z.eqb_eq.
    + eexists true, _, (SystemdSystem o). split; [by destruct o|]. intros ->. by left.
  - subst. exists false, (SystemdEnable o), (SystemdSystem o). split; [by destruct o|]. intros ->. by left.
Qed.

Lemma RunInteractive_ok prefill yes w w' o : RunInteractive env net prefill yes w = (w', Ok o) ->
  well_answered o /\ CAFingerprint o = CAFingerprint prefill /\
  (EnrollViaProxy prefill = false -> EnrollViaProxy o = true -> CAFile o = "" -> FetchesCA o = true).
Proof.
  unfold RunInteractive. intros Hr. io_ok. match type of Hr with (if ?b then _ else _) _ = _ => destruct b end; [|done].
  io_ok.
  match goal with
  | Ht : ask_target _ _ _ _ _ = _, Hp : ask_paths _ _ _ _ _ = _, Hf : ask_fingerprint _ _ _ = _,
    Hm : ask_material _ _ _ _ = _, Hs : ask_service _ _ _ _ = _ |- _ =>
      apply ask_target_ok in Ht as (url & signer & user & host & -> & Hurl & Hsg);
      apply ask_paths_ok in Hp as (certs & cfg & socket & -> & Hcfg & Hsk & Hh & Hu);
      apply ask_fingerprint_ok in Hf as (fp & ->);
      apply ask_material_collects in Hm as [Ha Hfetch];
      apply ask_service_ok in Hs as (install & enable & system & -> & _)
  end. subst o. unfold answers in Ha.
  injection Ha as E1 E2 E3 E4 E5 E6 E7 _ E9.
  change (ProxyURL a3 = url) in E1. change (SignerMode a3 = signer) in E2. change (TargetUser a3 = user) in E3.
  change (TargetHost a3 = host) in E4. change (CertsDir a3 = Clean certs) in E5. change (ConfigPath a3 = cfg) in E6.
  change (AgentSocket a3 = socket) in E7. change (CAFingerprint a3 = CAFingerprint prefill) in E9.
  split; [|split; [exact E9|exact Hfetch]].
  change (TrimSpace host <> "") in Hh. change (TrimSpace user <> "") in Hu.
  pose proof (Clean_nonempty certs) as Hcl. rewrite <- E5 in Hcl. subst url signer user host cfg socket.
  apply withDefaults_well. unfold well_answered. split_and!; [exact Hurl|exact Hsg|exact Hu|exact Hh|exact Hcl|exact Hcfg|exact Hsk|done].
Qed.

(** *** The command *)

(** An interactive set-up reads the host, asks, and only then acts.  The wizard changes no file, so an
    end of the input, an unusable answer or a refusal at the end leaves the host as it was.  What it
    hands on is a set-up with an https proxy, a known signer mode, a target and paths, for the
    fingerprint that was given as a flag; and when the set-up succeeds, the TLS material is there and
    the configuration file, written anew, holds exactly these answers, whatever the host had before. *)
Theorem interactive_setup_complete fr f w w' r :
  NonInteractive f = false -> tty = true -> runSetupAll env net sys tty fr f w = (w', r) ->
  let '(w1, q) := RunInteractive env net (flagsToSetupOptions f) (AssumeYes f) w in
  files w1 = files w /\
  match q with
  | Err e => w' = w1 /\ r = Err e
  | Ok o =>
      well_answered o /\ CAFingerprint o = CAFingerprint (f_options f) /\
      forall out, r = Ok out ->
        (forall name, name ∈ ["ca.crt"; "client.crt"; "client.key"] -> present env (Join [CertsDir o; name]) w') /\
        (key env (ConfigPath o) <> unit_key env sys o ->
         exists g, files w' !! key env (ConfigPath o) = Some g /\ f_data g = bytes_of (agent_yml (config_options o)))
  end.
Proof.
  intros Hn -> Hr. unfold runSetupAll, setup_options in Hr. rewrite Hn in Hr. cbn [negb andb] in Hr.
  pose proof (RunInteractive_keeps eq (flagsToSetupOptions f) (AssumeYes f) _ w) as Hk. unfold on_files in Hk.
  unfold mbind at 1, io_bind at 1 in Hr.
  destruct (RunInteractive _ _ _ _ w) as [w1 [o|e]] eqn:Ew; (split; [by symmetry|]); [|by injection Hr as <- <-].
  apply RunInteractive_ok in Ew as (Hw & Hc & _). split; [done|]. split; [exact Hc|]. intros out ->.
  destruct (_ && _); [done|]. io_ok.
  match goal with E : try _ _ = _ |- _ => unfold try in E; destruct (Run _ _ _ _ _ _ _) as [w2 [res|e]] eqn:Er; injection E as <- <- end;
    [|by destruct (errors_is _ _)].
  io_ok. subst. apply Run_complete in Er as (_ & Hm & _ & Hcfg).
  destruct (withDefaults_answered o Hw) as (E1 & E2 & E3 & E4). rewrite E2 in Hm.
  assert (Eo : config_options (withDefaults env o) = config_options o).
  { unfold config_options. by rewrite E1, E2, E3, E4. }
  assert (Eu : unit_key env sys (withDefaults env o) = unit_key env sys o).
  { unfold unit_key, service_options. by rewrite E3. }
  rewrite Eo, Eu, E3 in Hcfg. split; [done|]. intros Hne. apply Hcfg; [|done]. left.
  destruct Hw as (_ & _ & _ & _ & _ & _ & _ & ->). by rewrite orb_true_r.
Qed.

(** Enrolling through the proxy from the wizard, chosen or resumed after an interrupted enrollment, is
    bound to fail unless the fingerprint was given as a flag: the wizard says that the CA can be
    downloaded and asks for its path and for the token, but never for the fingerprint that the download
    then insists on.  Whatever the network answers, the command ends with an error. *)
Theorem wizard_enrollment_needs_flag `{!Csr.X509Laws} fr f w w1 o :
  NonInteractive f = false -> tty = true ->
  RunInteractive env net (flagsToSetupOptions f) (AssumeYes f) w = (w1, Ok o) ->
  EnrollViaProxy o = true -> CAFile o = "" -> TrimSpace (CAFingerprint (f_options f)) = "" ->
  exists w' e, runSetupAll env net sys tty fr f w = (w', Err e).
Proof.
  intros Hn -> Hr He Hc Hfp. pose proof (RunInteractive_ok _ _ _ _ _ Hr) as (_ & Ec & Hf).
  specialize (Hf eq_refl He Hc). change (CAFingerprint (flagsToSetupOptions f)) with (CAFingerprint (f_options f)) in Ec.
  unfold runSetupAll, setup_options. rewrite Hn. cbn [negb andb]. unfold mbind at 1, io_bind at 1. rewrite Hr.
  destruct (_ && _); [by eexists _, _|]. unfold mbind, io_bind, try.
  destruct (Run env net sys true fr o w1) as [w2 [res|e]] eqn:Er.
  - exfalso. eapply Run_needs_fingerprint in Er; [done..|]. by rewrite Ec.
  - destruct (errors_is _ _); by eexists _, _.
Qed.
End facts.

(** ** A certificate that is there is never replaced by a new one *)

Section replacing.
Context {N : Type} (env : Environ) (net : Net N) (sys : Sys N) (tty : bool).
Context `{HashLib, !Csr.X509Lib, !CliCmd.RsaLib, HttpClient.TlsFileLib, UrlLib, PemLib}.

(** What a set-up may write over that is given no client key or certificate as a file; a file that
    cannot be examined counts as absent. *)
Definition renewable (o : Options) (k : list string) : Prop :=
  temporary k \/ k = unit_key env sys o \/ k = key env (c_Path (config_defaults env (config_options o))) \/
  k = key env (in_certs o "ca.crt") \/ k = key env (Join [Clean (CertsDir o); "ca.crt"]) \/
  k = key env (in_certs o "ca.key") \/ k = key env (in_certs o "client.csr.pem") \/ stat_fails env k = true.

Lemma InstallFile_writes T src dst mode force :
  (forall k, temporary k -> T k) -> T (key env dst) -> keeps (on_files (retains T)) (InstallFile (N := N) env src dst mode force).
Proof.
  intros Htmp Hd. unfold InstallFile, kept. pose proof (fun d m => writeFileAtomic_retains (N := N) env T dst d m Hd Htmp). keeps.
Qed.

(** Generating or enrolling does not replace: when neither a directory nor a file provides them, a
    client key and a client certificate that the host has keep their contents in every run, forced or
    not, whatever the network, the terminal and the commands do.  So an operator who answers that the
    existing certificate is not to be used, and then chooses to sign a new one here or to enroll, keeps
    the old one.  Only the CA, its key, the signing request, the configuration and the service's unit
    are written. *)
Theorem existing_certificate_is_never_renewed fr o :
  FromDir o = "" -> CertFile o = "" -> KeyFile o = "" ->
  let o' := withDefaults env o in
  TrimSpace (CertsDir o') <> "" ->
  keeps (on_files (retains (renewable o'))) (Run env net sys tty fr o).
Proof.
  intros Hd Hc Hk o' Hb. unfold Run. cbv zeta. fold o'.
  assert (Hd' : FromDir o' = "") by exact Hd. assert (Hc' : CertFile o' = "") by exact Hc. assert (Hk' : KeyFile o' = "") by exact Hk.
  set (T := renewable o'). assert (Htmp : forall k, temporary k -> T k) by (intros k Ht; by left).
  assert (Hs : forall k, stat_fails env k = true -> T k) by (intros k Ht; by do 7 right).
  assert (Hm : keeps (on_files (retains T)) (install_material env net o')).
  { unfold install_material. rewrite Hd', Hc', Hk'. cbn [str_eqb].
    assert (Hf : forall a b c, keeps (on_files (retains T)) (FetchCA env net (mkBootstrap a (CertsDir o') b c true false))).
    { intros a b c. apply FetchCA_retains; [exact Htmp|]. right. right. right. right. by left. }
    assert (Hi : forall src force, keeps (on_files (retains T)) (InstallFile (N := N) env src (in_certs o' "ca.crt") 420 force)).
    { intros src force. apply InstallFile_writes; [exact Htmp|]. right. right. right. by left. }
    assert (Hi' : forall src force, keeps (on_files (retains T)) (InstallFile (N := N) env src (in_certs o' "ca.key") 256 force)).
    { intros src force. apply InstallFile_writes; [exact Htmp|]. do 5 right. by left. }
    keeps. }
  pose proof (ensure_key_retains (N := N) env T Hs Htmp fr o' Hb ltac:(do 6 right; by left)) as Hek.
  pose proof (ensure_certificate_retains (N := N) env net tty T Hs Htmp fr o' Hb) as Hec.
  assert (Hw : keeps (on_files (retains T)) (WriteAgentConfig (N := N) env (config_options o'))).
  { unfold WriteAgentConfig, kept. cbv zeta.
    assert (Hp : T (key env (c_Path (config_defaults env (config_options o'))))) by (right; right; by left).
    pose proof (fun d m => writeFileAtomic_retains (N := N) env T _ d m Hp Htmp). keeps. }
  assert (Hi : keeps (on_files (retains T)) (install_service env sys o')).
  { apply install_service_retains. right. by left. }
  pose proof (fun u => ProbeProxyURL_keeps env net (retains T) u _) as Hp.
  pose proof (fun v => VerifyProxy_keeps env net (retains T) v _) as Hv. keeps.
Qed.
End replacing.

Module WizardDemo.
Import Demo Csr.CsrDemo SystemdDemo SetupDemo LoadDemo.
#[local] Existing Instances demo_rsa demo_files demo_url demo_pem.

Definition typed (lines : list string) : World accounts :=
  mkWorld (files host) (bytes_of (text_of lines)) [] (nw host).
Definition flags : SetupFlags := mkFlags noOptions false false.
Definition target : list string :=
  ["https://proxy.example:8443"; ""; "deploy"; "10.0.0.1"; "/home/certs"; "/home/u/agent.yml"; ""].

(** Copying from a directory, without a service and without the check of the proxy. *)
Definition copying : World accounts := typed (target ++ ["1"; "/media"; "n"; "n"; "y"]).
Definition copied : Options := (withDefaults home noOptions) {{
  CertsDir := "/home/certs"; ConfigPath := "/home/u/agent.yml"; FromDir := "/media";
  ProxyURL := "https://proxy.example:8443"; TargetUser := "deploy"; TargetHost := "10.0.0.1";
  RewriteConfig := true; SkipVerify := true }}.

Lemma interactive_setup_complete_witness : exists w' w1 out g,
  runSetupAll home demo_net demo_sys true fresh flags copying = (w', Ok out) /\
  RunInteractive home demo_net (flagsToSetupOptions flags) false copying = (w1, Ok copied) /\
  files w' !! ["agent.yml"; "u"; "home"] = Some g /\ f_data g = bytes_of (agent_yml (config_options copied)).
Proof.
  destruct (io_run (runSetupAll home demo_net demo_sys true fresh flags) copying) as (w' & out & E); [vm_compute; reflexivity|].
  pose proof (interactive_setup_complete home demo_net demo_sys true fresh flags copying w' (Ok out) eq_refl eq_refl E) as Hc.
  change (AssumeYes flags) with false in Hc.
  assert (Eo : (RunInteractive home demo_net (flagsToSetupOptions flags) false copying).2 = Ok copied) by (vm_compute; reflexivity).
  destruct (RunInteractive _ _ _ _ _) as [w1 q]. cbn [snd] in Eo. subst q. destruct Hc as (_ & _ & _ & Hc).
  destruct (Hc out eq_refl) as (_ & g & Hg & Hd); [intros Hk; vm_compute in Hk; discriminate Hk|]. exists w', w1, out, g. split; [exact E|]. split; [reflexivity|]. split; [exact Hg|exact Hd].
Defined.

(** A line that is no answer is asked again, and a question without an answer meets the end. *)
Lemma prompts_return_witness :
  (AgentPrompt.askYesNo true (typed ["maybe"; "no"; "rest"])).2 = Ok false /\
  (ProxyPrompt.askString "" (typed [""; ""])).2 = Err EOF.
Proof.
  split.
  - destruct (prompts_return home demo_net "" true [] 0 (typed ["maybe"; "no"; "rest"])) as ((_ & E & _) & _).
    rewrite E. vm_compute. reflexivity.
  - destruct (prompts_return home demo_net "" true [] 0 (typed [""; ""])) as (_ & (E & _) & _). rewrite E. vm_compute. reflexivity.
Defined.

(** Enrolling through the proxy. *)
Definition enrolling : World accounts := typed (target ++ ["3"; ""; "join"; "n"; "n"; "y"]).

Lemma wizard_enrollment_needs_flag_witness : exists w' e,
  runSetupAll home demo_net demo_sys true fresh flags enrolling = (w', Err e).
Proof.
  destruct (io_run (RunInteractive home demo_net (flagsToSetupOptions flags) false) enrolling) as (w1 & o & E); [vm_compute; reflexivity|].
  assert (Eo : (RunInteractive home demo_net (flagsToSetupOptions flags) false enrolling).2 = Ok (copied {{
    FromDir := ""; EnrollToken := "join"; EnrollViaProxy := true; FetchesCA := true; Force := true }})) by (vm_compute; reflexivity).
  rewrite E in Eo. cbn [snd] in Eo. injection Eo as Eo.
  apply (wizard_enrollment_needs_flag home demo_net demo_sys true fresh flags enrolling w1 o eq_refl eq_refl E); by subst o.
Defined.

(** The host has a key and a certificate; the run is forced. *)
Definition equipped : World accounts := set_files (<[["client.crt"; "certs"; "home"] := text_file "old cert"]> (files host)) host.
Definition renewing : Options := copied {{ FromDir := ""; CAFile := "/media/ca.crt"; Force := true }}.

Lemma existing_certificate_is_never_renewed_witness : exists f,
  files (Run home demo_net demo_sys true fresh renewing equipped).1 !! ["client.crt"; "certs"; "home"] = Some f /\
  f_data f = bytes_of "old cert".
Proof.
  apply (existing_certificate_is_never_renewed home demo_net demo_sys true fresh renewing eq_refl eq_refl eq_refl ltac:(done)
    equipped ["client.crt"; "certs"; "home"] (text_file "old cert")); [|reflexivity].
  intros [Ht|Hk]; [apply temporary_suffix in Ht; vm_compute in Ht; discriminate Ht|].
  repeat (destruct Hk as [Hk|Hk]; [vm_compute in Hk; discriminate Hk|]). vm_compute in Hk. discriminate Hk.
Defined.
End WizardDemo.
End AgentWizard.
