(* ===== verification/GoYaml.v ===== *)
(** * YAML files of settings

    Set-up writes configuration files line by line, and the daemons read them with viper.  [YamlLaws]
    states what the two formats promise each other: a file of comments, empty lines and settings whose
    values are plain or double-quoted scalars is read as those settings. *)

From Stdlib Require Import Ascii.
From S2P Require Import Prelude GoStrings GoUtf8 GoEncoding GoJson GoPath GoOs GoNet GoPrompt Systemd ConfigLoad.
Import Json.

(** ** Lines *)

Definition quote : string := string_of [Byte.x22].

Inductive yaml_line : Type :=
| YNote (text : string)                  (* a comment *)
| YEmpty
| YPlain (key value : string)
| YQuoted (key value : string).

Definition render (l : yaml_line) : string :=
  match l with
  | YNote t => "#" +:+ t
  | YEmpty => ""
  | YPlain k v => k +:+ ": " +:+ v
  | YQuoted k v => k +:+ ": " +:+ quote +:+ v +:+ quote
  end.

Definition yaml_text (ls : list yaml_line) : string := text_of (map render ls).

Definition setting (l : yaml_line) : option (string * string) :=
  match l with YPlain k v | YQuoted k v => Some (k, v) | _ => None end.
Definition settings_of (ls : list yaml_line) : list (string * string) := omap setting ls.

Fixpoint assoc (k : string) (l : list (string * string)) : option string :=
  match l with [] => None | (k', v) :: l => if k =s k' then Some v else assoc k l end.

(** *** Which lines are unambiguous *)

Definition in_byte_range (lo hi : Z) (b : byte) : bool := (lo <=? byte_val b) && (byte_val b <=? hi).
Definition digit (b : byte) : bool := in_byte_range 48 57 b.
Definition letter (b : byte) : bool := in_byte_range 97 122 b || in_byte_range 65 90 b.
(** Keys: small letters and underscores. *)
Definition key_byte (b : byte) : bool := in_byte_range 97 122 b || (byte_val b =? 95).
(** Letters, digits and [+ - . / : = @ _]; without spaces a colon or a hash has no meaning inside. *)
Definition plain_byte (b : byte) : bool :=
  letter b || digit b || bool_decide (byte_val b ∈ [43; 45; 46; 47; 58; 61; 64; 95]).

(** Words that stand for other values than text. *)
Definition reserved : list string := ["y"; "n"; "yes"; "no"; "on"; "off"; "true"; "false"; "null"].

(** A text that no schema takes for anything else: it starts like a word or a path, or is a dotted
    address or a whole number of seconds. *)
Definition plain (s : string) : bool :=
  let l := bytes_of s in
  forallb plain_byte l &&
  match l with
  | [] => false
  | b :: _ =>
      ((letter b || (byte_val b =? 47)) && negb (bool_decide (last l = Some Byte.x3a)) &&
       negb (existsb (str_eqb (ToLower s)) reserved)) ||
      (digit b && forallb (fun c => digit c || (byte_val c =? 46)) l &&
       (2 <=? Z.of_nat (length (filter (fun c => c = Byte.x2e) l)))) ||
      (digit b && forallb digit (removelast l) && bool_decide (last l = Some Byte.x73))
  end.

(** Printable ASCII without the quote and the backslash. *)
Definition quotable (s : string) : bool :=
  forallb (fun b => in_byte_range 32 126 b && negb (bool_decide (byte_val b ∈ [34; 92]))) (bytes_of s).

(** YAML's printable characters, without its line breaks and the byte order mark. *)
Definition yaml_printable (r : Z) : bool :=
  negb (bool_decide (r ∈ [133; 8232; 8233; 65279])) &&
  (((32 <=? r) && (r <=? 126)) || ((160 <=? r) && (r <=? 55295)) || ((57344 <=? r) && (r <=? 65533)) ||
   ((65536 <=? r) && (r <=? 1114111))).

Definition yaml_ok (l : yaml_line) : bool :=
  match l with
  | YNote t => ValidString t && forallb yaml_printable (Runes t) && negb (has_byte (Ascii.ascii_of_byte newline) t)
  | YEmpty => true
  | YPlain k v => negb (k =s "") && forallb key_byte (bytes_of k) && plain v
  | YQuoted k v => negb (k =s "") && forallb key_byte (bytes_of k) && quotable v
  end.

Definition yaml_path (p : string) : bool := HasSuffix p ".yml" || HasSuffix p ".yaml".

(** ** What viper makes of such a file *)

Section viper.
Context `{ViperLib}.

(** The last default that was set comes first. *)
Fixpoint with_defaults (ds : list (string * string)) : Viper :=
  match ds with
  | [] => viper_New
  | (k, d) :: ds => SetDefault k d (with_defaults ds)
  end.

Definition value_of (ls : list yaml_line) (ds : list (string * string)) (k : string) : string :=
  match assoc k (settings_of ls) with
  | Some s => s
  | None => default "" (assoc k ds)
  end.
End viper.

(** The file comes before the defaults, also with an empty value; a variable that is unset or empty
    counts for nothing. *)
Class YamlLaws `{ViperLib} : Prop := {
  yaml_read : forall path ls ds, yaml_path path = true -> forallb yaml_ok ls = true -> NoDup (settings_of ls).*1 ->
    exists v, ReadInConfig path (bytes_of (yaml_text ls)) (with_defaults ds) = Some v /\
      forall env k, GetString env v k = value_of ls ds k;
  yaml_merge : forall path ls ds, yaml_path path = true -> forallb yaml_ok ls = true -> NoDup (settings_of ls).*1 ->
    exists v, MergeInConfig path (bytes_of (yaml_text ls)) (with_defaults ds) = Some v /\
      forall env k, GetString env v k = value_of ls ds k;
  bind_unset : forall (env : string -> string) v b k k', env b = "" -> GetString env (BindEnv k' b v) k = GetString env v k;
  automatic_unset : forall env v k, env (env_name k) = "" -> GetString env (AutomaticEnv v) k = GetString env v k
}.

Section load.
Context {N : Type} (env : Environ) `{YamlLaws}.
Implicit Types w : World N.

Lemma bind_all_unset binds v k :
  Forall (fun kb => Getenv env kb.2 = "") binds -> GetString (Getenv env) (bind_all binds v) k = GetString (Getenv env) v k.
Proof.
  intros Hb. revert v. induction Hb as [|[k' b] binds Hkb Hb IH]; intros v; [done|].
  change (bind_all ((k', b) :: binds) v) with (bind_all binds (BindEnv k' b v)). rewrite IH. by apply bind_unset.
Qed.

(** A daemon started with [LUNA_CONFIG] reads the settings of that file, and its defaults for the others. *)
Lemma load_settings_yaml ds paths binds path ls f w :
  Getenv env "LUNA_CONFIG" = path -> path <> "" -> yaml_path path = true ->
  stat_fails env (key env path) = false -> read_fails env (key env path) = false ->
  files w !! key env path = Some f -> f_data f = bytes_of (yaml_text ls) ->
  forallb yaml_ok ls = true -> NoDup (settings_of ls).*1 ->
  Forall (fun kb => Getenv env kb.2 = "") binds ->
  exists v, load_settings env (with_defaults ds) paths binds w = (w, Ok v) /\
    forall k, Getenv env (env_name k) = "" -> GetString (Getenv env) v k = value_of ls ds k.
Proof.
  intros Hc Hne Hy Hs Hr Hf Hd Hok Hnd Hb. destruct (yaml_read path ls ds Hy Hok Hnd) as (v & Hv & Hget).
  exists (AutomaticEnv (bind_all binds v)). split.
  - unfold load_settings. rewrite Hc, (proj2 (str_eqb_neq _ _) Hne). cbn [negb].
    assert (Hread : readConfigFileIfExists env (with_defaults ds) path w = (w, Ok v)); [|by rewrite (bind_run _ _ _ _ _ Hread)].
    unfold readConfigFileIfExists, Stat. rewrite Hs, bool_decide_true by by rewrite Hf. cbn [orb].
    rewrite (bind_run _ _ w w (f_data f)); [by rewrite Hd, Hv|].
    unfold wrapping, ReadFile. by rewrite Hr, Hf.
  - intros k Hk. rewrite automatic_unset by done. rewrite bind_all_unset by done. apply Hget.
Qed.

Lemma merge_none v paths w : Forall (fun p => fileExists env p w = false) paths -> mergeConfigFiles env v paths w = (w, Ok v).
Proof. induction 1 as [|p paths Hp Hf IH]; [done|]. cbn [mergeConfigFiles]. by rewrite Hp. Qed.

Lemma merge_one v v' paths1 path paths2 f w : Forall (fun p => fileExists env p w = false) (paths1 ++ paths2) ->
  fileExists env path w = true -> read_fails env (key env path) = false -> files w !! key env path = Some f ->
  MergeInConfig path (f_data f) v = Some v' -> mergeConfigFiles env v (paths1 ++ path :: paths2) w = (w, Ok v').
Proof.
  intros Hn He Hr Hf Hm. apply Forall_app in Hn as [H1 H2]. induction H1 as [|p paths Hp H1 IH].
  - cbn [app mergeConfigFiles]. rewrite He. cbn [negb]. rewrite (bind_run _ _ w w (f_data f)).
    + rewrite Hm. by apply merge_none.
    + unfold wrapping, ReadFile. by rewrite Hr, Hf.
  - cbn [app mergeConfigFiles]. by rewrite Hp.
Qed.

(** The file a daemon reads: the one of [LUNA_CONFIG] or, when that is unset, the only one of its
    places that there is. *)
Definition finds (paths : list string) (path : string) w : Prop :=
  Getenv env "LUNA_CONFIG" = path \/
  Getenv env "LUNA_CONFIG" = "" /\ exists a b, paths = a ++ path :: b /\ Forall (fun p => fileExists env p w = false) (a ++ b).

Lemma load_settings_found ds paths binds path ls f w :
  finds paths path w -> yaml_path path = true ->
  stat_fails env (key env path) = false -> read_fails env (key env path) = false ->
  files w !! key env path = Some f -> f_data f = bytes_of (yaml_text ls) ->
  forallb yaml_ok ls = true -> NoDup (settings_of ls).*1 ->
  Forall (fun kb => Getenv env kb.2 = "") binds ->
  exists v, load_settings env (with_defaults ds) paths binds w = (w, Ok v) /\
    forall k, Getenv env (env_name k) = "" -> GetString (Getenv env) v k = value_of ls ds k.
Proof.
  intros [Hc|(Hc & a & b & -> & Hn)] Hy Hs Hr Hf Hd Hok Hnd Hb.
  { eapply load_settings_yaml; try done. intros ->. done. }
  destruct (yaml_merge path ls ds Hy Hok Hnd) as (v & Hv & Hget). exists (AutomaticEnv (bind_all binds v)). split.
  - unfold load_settings. rewrite Hc. change (negb ("" =s "")) with false. cbv iota.
    rewrite (bind_run _ _ _ _ _ (merge_one (with_defaults ds) v a path b f w Hn ltac:(unfold fileExists, Stat; rewrite Hs, Hf; by rewrite bool_decide_true) Hr Hf ltac:(by rewrite Hd))).
    done.
  - intros k Hk. rewrite automatic_unset by done. rewrite bind_all_unset by done. apply Hget.
Qed.
End load.

(** ** A viper that reads such files *)
Module YamlDemo.

Record settings := mkSettings {
  defaults : list (string * string);
  from_file : list (string * string);
  bound : list (string * string);
  automatic : bool
}.

Definition colon : byte := Byte.x3a.
Definition parse_line (line : string) : option (string * string) :=
  match bytes_of line with
  | [] => None
  | b :: l =>
      if decide (b = Byte.x23) then None else
      let k := bytes_before colon (b :: l) in
      Some (string_of k,
            match drop (length k + 2) (b :: l) with
            | c :: r => if decide (c = Byte.x22) then string_of (removelast r) else string_of (c :: r)
            | [] => ""
            end)
  end.
Definition parse_text (data : list byte) : list (string * string) :=
  omap parse_line (Split (string_of data) (Ascii.ascii_of_byte newline)).

Fixpoint first_bound (env : string -> string) (k : string) (l : list (string * string)) : string :=
  match l with
  | [] => ""
  | (k', b) :: l => if (k =s k') && negb (env b =s "") then env b else first_bound env k l
  end.

Definition get (env : string -> string) (s : settings) (k : string) : string :=
  let a := if automatic s then env (env_name k) else "" in
  if negb (a =s "") then a else
  let b := first_bound env k (bound s) in
  if negb (b =s "") then b else
  match assoc k (from_file s) with Some v => v | None => default "" (assoc k (defaults s)) end.

#[export] Instance yaml_viper : ViperLib := {|
  Viper := settings;
  viper_New := mkSettings [] [] [] false;
  SetDefault k v s := mkSettings ((k, v) :: defaults s) (from_file s) (bound s) (automatic s);
  ReadInConfig _ data s := Some (mkSettings (defaults s) (parse_text data) (bound s) (automatic s));
  MergeInConfig _ data s := Some (mkSettings (defaults s) (parse_text data ++ from_file s) (bound s) (automatic s));
  BindEnv k e s := mkSettings (defaults s) (from_file s) ((k, e) :: bound s) (automatic s);
  AutomaticEnv s := mkSettings (defaults s) (from_file s) (bound s) true;
  GetString := get
|}.

Lemma Split_text ls : Forall (fun l => has_byte (Ascii.ascii_of_byte newline) l = false) ls ->
  Split (text_of ls) (Ascii.ascii_of_byte newline) = ls ++ [""].
Proof.
  induction 1 as [|l ls Hl Hls IH]; [done|]. change (text_of (l :: ls)) with (l +:+ String (Ascii.ascii_of_byte newline) (text_of ls)).
  rewrite Split_app by done. simpl. by rewrite IH.
Qed.

(** A byte that a test excludes does not occur. *)
Lemma free_of (p : byte -> bool) s b : forallb p (bytes_of s) = true -> p b = false -> b ∉ bytes_of s.
Proof. intros Hs Hb Hin. rewrite forallb_forall in Hs. apply list_elem_of_In, Hs in Hin. congruence. Qed.

Lemma plain_bytes s : plain s = true -> forallb plain_byte (bytes_of s) = true /\ bytes_of s <> [].
Proof. unfold plain. cbv zeta. intros H. bool_prop. split; [done|]. by destruct (bytes_of s). Qed.

Lemma quotable_free s b : quotable s = true -> in_byte_range 32 126 b && negb (bool_decide (byte_val b ∈ [34; 92])) = false -> b ∉ bytes_of s.
Proof. intros Hq Hb. exact (free_of (fun b => in_byte_range 32 126 b && negb (bool_decide (byte_val b ∈ [34; 92]))) s b Hq Hb). Qed.

Definition nl_free (s : string) : Prop := newline ∉ bytes_of s.
Lemma nl_free_app s t : nl_free s -> nl_free t -> nl_free (s +:+ t).
Proof. unfold nl_free. rewrite bytes_of_app, elem_of_app. tauto. Qed.
Lemma nl_free_const s : bool_decide (newline ∉ bytes_of s) = true -> nl_free s.
Proof. apply bool_decide_eq_true. Qed.
#[local] Hint Resolve nl_free_app : core.
#[local] Hint Extern 1 (nl_free _) => apply nl_free_const; reflexivity : core.

Lemma render_line l : yaml_ok l = true -> has_byte (Ascii.ascii_of_byte newline) (render l) = false.
Proof.
  intros Hl. apply bool_decide_eq_false. rewrite Ascii.byte_of_ascii_of_byte. fold (nl_free (render l)).
  destruct l as [t| |k v|k v]; cbn [yaml_ok render] in *; bool_prop; auto.
  - apply nl_free_app; [auto|]. unfold has_byte in *. rewrite Ascii.byte_of_ascii_of_byte in *.
    match goal with H : bool_decide _ = false |- _ => by apply bool_decide_eq_false in H end.
  - destruct (plain_bytes v) as [Hv _]; [done|].
    assert (nl_free k) by by eapply free_of. assert (nl_free v) by by eapply free_of. auto.
  - assert (nl_free k) by by eapply free_of. assert (nl_free v) by by eapply quotable_free. auto 6.
Qed.

Lemma bytes_before_colon k l : forallb key_byte (bytes_of k) = true -> bytes_before colon (bytes_of k ++ colon :: l) = bytes_of k.
Proof.
  induction (bytes_of k) as [|b ks IH]; simpl; [done|]. intros Hk. bool_prop.
  rewrite decide_False; [by rewrite IH|]. intros ->. done.
Qed.

Lemma parse_pair k s : k <> "" -> forallb key_byte (bytes_of k) = true ->
  parse_line (k +:+ ": " +:+ s) =
  Some (k, match bytes_of s with
           | c :: r => if decide (c = Byte.x22) then string_of (removelast r) else string_of (c :: r)
           | [] => ""
           end).
Proof.
  intros Hne Hk. unfold parse_line. rewrite !bytes_of_app. change (bytes_of ": ") with [colon; Byte.x20].
  destruct (bytes_of k) as [|b ks] eqn:Ek; [by apply bytes_of_empty in Ek|].
  cbn [app]. rewrite decide_False.
  - change (b :: ks ++ colon :: Byte.x20 :: bytes_of s) with ((b :: ks) ++ colon :: Byte.x20 :: bytes_of s). rewrite <- Ek in *.
    rewrite bytes_before_colon by done. rewrite string_of_bytes_of. do 2 f_equal.
    rewrite drop_app_ge by lia. replace (length (bytes_of k) + 2 - length (bytes_of k))%nat with 2%nat by lia. done.
  - intros ->. simpl in Hk. done.
Qed.

Lemma parse_render l : yaml_ok l = true -> parse_line (render l) = setting l.
Proof.
  intros Hl. destruct l as [t| |k v|k v]; simpl in Hl; [done..| |]; bool_prop; str_prop; cbn [render]; rewrite parse_pair by done.
  - destruct (plain_bytes v) as [Hv Hne]; [done|]. destruct (bytes_of v) as [|c r] eqn:Ev; [done|].
    rewrite decide_False.
    + by rewrite <- Ev, string_of_bytes_of.
    + intros ->. simpl in Hv. done.
  - rewrite !bytes_of_app. change (bytes_of quote) with [Byte.x22]. cbn [app]. rewrite decide_True by done.
    by rewrite removelast_last, string_of_bytes_of.
Qed.

Lemma parse_text_yaml ls : forallb yaml_ok ls = true -> parse_text (bytes_of (yaml_text ls)) = settings_of ls.
Proof.
  intros Hok. unfold parse_text, yaml_text. rewrite string_of_bytes_of, Split_text.
  - rewrite omap_app. cbn. rewrite app_nil_r. unfold settings_of. induction ls as [|l ls IH]; [done|].
    simpl in Hok. bool_prop. cbn. rewrite parse_render by done. by rewrite IH.
  - rewrite forallb_forall in Hok. apply Forall_forall. intros s (l & -> & Hl)%list_elem_of_fmap.
    by apply render_line, Hok, list_elem_of_In.
Qed.

Lemma with_defaults_settings ds : with_defaults ds = mkSettings ds [] [] false.
Proof. induction ds as [|[k d] ds IH]; [done|]. cbn [with_defaults]. by rewrite IH. Qed.

#[export] Instance yaml_laws : YamlLaws.
Proof.
  split.
  - intros path ls ds _ Hok _. eexists. split; [reflexivity|]. intros env k. rewrite with_defaults_settings.
    cbn. by rewrite parse_text_yaml.
  - intros path ls ds _ Hok _. eexists. split; [reflexivity|]. intros env k. rewrite with_defaults_settings.
    cbn. by rewrite parse_text_yaml, app_nil_r.
  - intros env v b k k' Hb. cbn. unfold get. cbn. by rewrite Hb, andb_false_r.
  - intros env v k Hk. cbn. unfold get. cbn. rewrite Hk. cbn. by destruct (automatic v); rewrite ?Hk.
Qed.
End YamlDemo.
