(* ===== verification/AgentMain.v ===== *)
(** * The agent's process (agent/cmd/luna-agent/root.go) and the configuration it reads

    [runAgent] up to the loop that accepts connections, which [Agent.step] describes, and the round
    trip between the file that set-up writes and the settings the daemon loads.  Signals and log lines
    are not modelled. *)

From Stdlib Require Import Ascii.
From coqutil Require Import Datatypes.RecordSetters.
From S2P Require Import Prelude GoTime GoStrings GoUtf8 GoEncoding GoJson GoFormat GoPath GoDuration GoOs External Fingerprint Config Csr Http GoNet Wire Sdk Agent ConfigLoad CliClient CliCmd GoPrompt Systemd AgentSetup GoYaml.

Module AgentMain.
Import AgentSetup Agent.

(** ** Starting (runAgent) *)

Section main.
Context {N : Type} (env : Environ) (net : Net N).
(** [net.Listen] on a Unix socket: whether it fails, given the path. *)
Context (bind_fails : string -> bool).
Context `{ViperLib, HashLib, SshLib, HttpClient.TlsFileLib, UrlLib}.
Notation W := (World N).

(** A file that is not there is no error; one that is can be deleted unless its directory cannot be
    written to. *)
Definition remove_socket (path : string) : IO W unit := fun w =>
  match files w !! key env path with
  | None => (w, Ok tt)
  | Some _ => if rename_fails env (key env path) then (w, Err (errorf ("remove socket: " +:+ path))) else GoOs.Remove env path w
  end.

(** The socket appears as a file, with the permissions the process's mask leaves. *)
Definition Listen (path : string) : IO W unit := fun w =>
  if bind_fails path then (w, Err (errorf ("listen " +:+ path)))
  else (set_files (<[key env path := mkFile [] (Z.ldiff 511 (umask env)) None]> (files w)) w, Ok tt).

(** What serves the connections: the configuration, the client and the agent all of them share. *)
Record Daemon := mkDaemon { d_Config : Config; d_Client : Sdk.SdkClient; d_Agent : LunaAgent }.

(** [fresh] is the key a local CA's identity is made from. *)
Definition build_agent (fresh : option Sdk.PrivateKey) (cfg : Config) : IO W Daemon :=
  '(cert, pool) ← wrapping "tls" (look (fun w => Sdk.LoadTLSConfig (LoadX509KeyPair env w) HttpClient.AppendCertsFromPEM
                                           (read_opt env w) (MTLSCert cfg) (MTLSKey cfg) (MTLSCA cfg)));
  let mode := cfg_SignerMode cfg in
  client ← wrapping "sdk client" (lift (Sdk.NewSdkClient
             (Sdk.mkSdkConfig (Sdk.mkConfig (ProxyURL cfg) cert pool (ApprovalTimeout cfg)) mode)));
  caps ← try (HttpClient.on_net (Sdk.FetchCapabilities net (Sdk.inner client)));
  ids ← wrapping "identities" (look (fun w => ResolveIdentities (read_opt env w) fresh caps (Sdk.SignerMode client) cfg));
  mret (mkDaemon cfg client
    (NewLunaAgent mode (TargetUser cfg) (TargetHost cfg) (HostKeyFingerprint cfg) ids (ApprovalTimeout cfg))).

Definition open_socket (path : string) : IO W unit :=
  _ ← AgentLoad.EnsureSocketDir env path;
  _ ← remove_socket path;
  _ ← Listen path;
  wrapping "chmod socket" (Chmod env path 384).

Definition runAgent (fresh : option Sdk.PrivateKey) : IO W Daemon :=
  cfg ← wrapping "config" (AgentLoad.Load env);
  d ← build_agent fresh cfg;
  _ ← open_socket (SocketPath cfg);
  mret d.

End main.

Section start.
Context {N : Type} (env : Environ) (net : Net N) (bind_fails : string -> bool).
Context `{ViperLib, HashLib, SshLib, HttpClient.TlsFileLib, UrlLib}.
Implicit Types w : World N.

Lemma ResolveIdentities_some fs fresh caps mode cfg ids : ResolveIdentities fs fresh caps mode cfg = Ok ids -> ids <> [].
Proof.
  unfold ResolveIdentities. destruct caps as [caps|]; [|done]. destruct (_ =s SignerModeLocalKey).
  - unfold resolveLocalKeyIdentities. destruct (Sdk.Sealed _); [done|]. destruct (Sdk.LoadedSigners _); [done|].
    intros Hr. inv_ok. destruct a0 as [keys missing]. destruct keys; [by destruct (0 <? missing)|by simplify_eq].
  - unfold resolveLocalCAIdentities. intros Hr. by inv_ok.
Qed.

Lemma LoadTLSConfig_files w cf kf caf cert pool :
  Sdk.LoadTLSConfig (LoadX509KeyPair env w) HttpClient.AppendCertsFromPEM (read_opt env w) cf kf caf = Ok (cert, pool) ->
  LoadX509KeyPair env w cf kf = Some cert /\
  exists f, files w !! key env caf = Some f /\ pool = HttpClient.AppendCertsFromPEM (f_data f) /\ pool <> [].
Proof.
  unfold Sdk.LoadTLSConfig. intros Hl. inv_ok. destruct (LoadX509KeyPair env w cf kf) as [cert'|]; [|done].
  destruct (read_opt env w caf) as [pem|] eqn:Er; [|done]. unfold read_opt, ReadFile in Er.
  destruct (read_fails _ _); [done|]. destruct (files w !! key env caf) as [f|]; [|done].
  simplify_eq/=. destruct (HttpClient.AppendCertsFromPEM (f_data f)) eqn:Ep; [done|]. simplify_eq.
  split; [done|]. exists f. by rewrite Ep.
Qed.

(** How the daemon's client checks the proxy: the certificate for the host of the configured https URL,
    or for [localhost] where that is a loopback address or empty, against the certificates in the
    operator's CA file and no others, presenting the configured client certificate. *)
Definition checks_proxy (c : Config) (tls : TlsConfig) w : Prop :=
  GoNet.InsecureSkipVerify tls = false /\
  (exists f, files w !! key env (MTLSCA c) = Some f /\ RootCAs tls = HttpClient.AppendCertsFromPEM (f_data f) /\ RootCAs tls <> []) /\
  (exists cert, LoadX509KeyPair env w (MTLSCert c) (MTLSKey c) = Some cert /\ Certificates tls = [cert]) /\
  exists u, url_Parse (ProxyURL c) = Some u /\ Scheme u = "https" /\ ServerName tls <> "" /\
    ServerName tls = if bool_decide (Hostname u ∈ [""; "127.0.0.1"; "::1"]) then "localhost" else Hostname u.

Lemma build_agent_ok fresh cfg w w' d : build_agent env net fresh cfg w = (w', Ok d) ->
  files w' = files w /\ d_Config d = cfg /\ locked (d_Agent d) = false /\ identities (d_Agent d) <> [] /\
  targetUser (d_Agent d) = TargetUser cfg /\ targetHost (d_Agent d) = TargetHost cfg /\
  checks_proxy cfg (Sdk.tlsCfg (Sdk.inner (d_Client d))) w.
Proof.
  unfold build_agent. intros Hb. io_ok. subst.
  match goal with H : context [let '(cert, pool) := ?p in _] |- _ => destruct p as [cert pool] end. io_ok. subst.
  match goal with H : try _ _ = _ |- _ => unfold try, HttpClient.on_net in H;
    destruct (Sdk.FetchCapabilities _ _ _) as [n caps]; injection H as <- <- end.
  match goal with H : Sdk.LoadTLSConfig _ _ _ _ _ _ = _ |- _ => apply LoadTLSConfig_files in H as (Hcert & f & Hf & Hpool & Hne) end.
  match goal with H : Sdk.NewSdkClient _ = _ |- _ => unfold Sdk.NewSdkClient in H end. inv_ok.
  match goal with H : Sdk.NewClient _ = _ |- _ =>
    apply Sdk.client_always_verifies in H as (u & Hu & Hs & Hv & Hr & Hk & Hh & Hn & _) end.
  match goal with H : ResolveIdentities _ _ _ _ _ = _ |- _ => apply ResolveIdentities_some in H end.
  cbn [d_Config d_Agent d_Client Sdk.inner]. split_and!; try done. split_and!; [done|..].
  - exists f. by rewrite Hr.
  - by exists cert.
  - by exists u.
Qed.

Lemma open_socket_ok path w w' : open_socket env bind_fails path w = (w', Ok tt) ->
  (exists f, files w' !! key env path = Some f /\ f_mode f = 384) /\
  (forall k, k <> key env path -> files w' !! k = files w !! k).
Proof.
  unfold open_socket. intros Ho. io_ok.
  match goal with He : AgentLoad.EnsureSocketDir _ _ _ = _, Hr : remove_socket _ _ _ = _, Hl : Listen _ _ _ _ = _, Hc : Chmod _ _ _ _ = _ |- _ =>
    rename He into E1; rename Hr into E2; rename Hl into E3; rename Hc into E4 end.
  assert (F1 : files w0 = files w).
  { unfold AgentLoad.EnsureSocketDir in E1. destruct (_ || _); [by injection E1 as <-|]. unfold wrapping, MkdirAll in E1.
    destruct (mkdir_fails _ _); [done|by injection E1 as <-]. }
  assert (F2 : forall k, k <> key env path -> files w1 !! k = files w0 !! k).
  { intros k Hk. unfold remove_socket in E2. destruct (files w0 !! key env path); [|by simplify_eq].
    destruct (rename_fails _ _); [done|]. unfold GoOs.Remove in E2. injection E2 as <- _. cbn [files set_files]. by apply lookup_delete_ne. }
  unfold Listen in E3. destruct (bind_fails path); [done|]. simplify_eq.
  unfold Chmod in E4. destruct (chmod_fails _ _); [done|]. cbn [files set_files] in E4. rewrite lookup_insert_eq in E4.
  simplify_eq. cbn [files set_files]. split.
  - eexists. by rewrite lookup_insert_eq.
  - intros k Hk. rewrite !lookup_insert_ne by congruence. by rewrite F2, F1.
Qed.

(** C29: A daemon that starts is safe to use: its configuration is complete, its client talks to an https
    proxy, verifies its certificate for the URL's host against the certificates of the configured CA
    file, of which there is one at least, and no others, and presents the configured client
    certificate; it has identities to offer and is not locked, and its socket, made anew where a file of
    that name was, belongs to its user alone.  Nothing else on the host changes. *)
Theorem daemon_starts_safely fresh w w' d :
  runAgent env net bind_fails fresh w = (w', Ok d) ->
  let c := d_Config d in
  AgentLoad.Load env w = (w, Ok c) /\
  (ProxyURL c <> "" /\ TargetUser c <> "" /\ TargetHost c <> "") /\
  checks_proxy c (Sdk.tlsCfg (Sdk.inner (d_Client d))) w /\
  (identities (d_Agent d) <> [] /\ locked (d_Agent d) = false /\ targetUser (d_Agent d) = TargetUser c /\
   targetHost (d_Agent d) = TargetHost c) /\
  (exists f, files w' !! key env (SocketPath c) = Some f /\ f_mode f = 384) /\
  (forall k, k <> key env (SocketPath c) -> files w' !! k = files w !! k).
Proof.
  intros Hr c. unfold runAgent in Hr. io_ok. subst.
  match goal with H : build_agent _ _ _ _ _ = _ |- _ =>
    apply build_agent_ok in H as (Hf & Hc & Hl & Hi & Hu & Hh & Hv) end.
  match goal with H : AgentLoad.Load _ _ = _, H' : open_socket _ _ _ _ = (_, Ok ?u) |- _ =>
    destruct u; rename H into Hload; apply open_socket_ok in H' as [Hs Hk] end.
  subst c. rewrite Hc. pose proof (AgentLoad.agent_config_complete _ _ _ _ Hload) as (-> & Hp & _ & _ & _ & Htu & Hth & _).
  rewrite Hf in Hk. by split_and!.
Qed.
End start.

(** ** The configuration that is written is the one that is read *)

(** [agent.yml], line by line *)
Definition agent_lines (o : ConfigOptions) : list yaml_line :=
  [YNote " Luna Z-Trust — luna-agent (generated by: luna-agent setup)";
   YPlain "proxy_url" (c_ProxyURL o); YPlain "signer_mode" (c_SignerMode o); YEmpty;
   YPlain "mtls_cert" (c_CertsDir o +:+ "/client.crt"); YPlain "mtls_key" (c_CertsDir o +:+ "/client.key");
   YPlain "mtls_ca" (c_CertsDir o +:+ "/ca.crt"); YEmpty;
   YPlain "target_user" (c_TargetUser o); YPlain "target_host" (c_TargetHost o);
   YPlain "agent_socket" (c_AgentSocket o)] ++
  (let fp := TrimSpace (c_HostKeyFingerprint o) in
   if negb (fp =s "") then [YPlain "host_key_fingerprint" fp] else []).

Lemma agent_yml_lines o : agent_yml o = yaml_text (agent_lines o).
Proof. unfold agent_yml, agent_lines. cbv zeta. by destruct (negb _). Qed.

Lemma agent_lines_nodup o : NoDup (settings_of (agent_lines o)).*1.
Proof.
  unfold agent_lines. cbv zeta. destruct (negb _); cbn; apply (bool_decide_eq_true_1 _); reflexivity.
Qed.

Lemma plain_graphic v : plain v = true -> forallb graphic (bytes_of v) = true /\ v <> "".
Proof.
  unfold plain. cbv zeta. intros Hp. bool_prop. split.
  - match goal with H : forallb plain_byte _ = true |- _ => rewrite forallb_forall in H |- *; intros b Hb; specialize (H b Hb) end.
    unfold plain_byte, letter, digit, in_byte_range, graphic in *. bool_prop.
    rewrite !orb_true_iff, !andb_true_iff, !Z.leb_le, bool_decide_eq_true, !elem_of_cons, elem_of_nil in *. lia.
  - intros ->. done.
Qed.
Lemma plain_trim v : plain v = true -> TrimSpace v = v.
Proof. intros Hp. by apply TrimSpace_graphic, plain_graphic. Qed.
Lemma plain_nonempty v : plain v = true -> v <> "".
Proof. apply plain_graphic. Qed.

Definition agent_defaults : list (string * string) :=
  [("approval_timeout", Duration_String defaultApprovalTimeout); ("signer_mode", SignerModeLocalKey);
   ("agent_socket", defaultSocketPath)].

Lemma written_fingerprint o : value_of (agent_lines o) agent_defaults "host_key_fingerprint" = TrimSpace (c_HostKeyFingerprint o).
Proof. unfold agent_lines. cbv zeta. by destruct (TrimSpace (c_HostKeyFingerprint o) =s "") eqn:E; str_prop; rewrite ?E. Qed.

Lemma written_hosted o : value_of (agent_lines o) agent_defaults "hosted_public_key" = "".
Proof. unfold agent_lines. cbv zeta. by destruct (TrimSpace (c_HostKeyFingerprint o) =s ""). Qed.
Lemma written_timeout o :
  value_of (agent_lines o) agent_defaults "approval_timeout" = Duration_String defaultApprovalTimeout.
Proof. unfold agent_lines. cbv zeta. by destruct (TrimSpace (c_HostKeyFingerprint o) =s ""). Qed.

Section read.
Context {N : Type} (env : Environ) `{YamlLaws}.
Implicit Types w : World N.

(** The settings of a written file, as the daemon resolves them. *)
Definition written_settings (o : ConfigOptions) : Config :=
  mkConfig (c_ProxyURL o) (c_CertsDir o +:+ "/client.crt") (c_CertsDir o +:+ "/client.key") (c_CertsDir o +:+ "/ca.crt")
    (c_TargetUser o) (c_TargetHost o) (AgentLoad.ResolveSocketPath env (c_AgentSocket o)) (c_SignerMode o)
    defaultApprovalTimeout (TrimSpace (c_HostKeyFingerprint o)) "".

Definition unset_environment : Prop :=
  Forall (fun kb => Getenv env kb.2 = "" /\ Getenv env (env_name kb.1) = "") AgentLoad.env_bindings.

Ltac reads H k s b := let E := fresh "E" in
  pose proof (H k b ltac:(apply list_elem_of_In; simpl; tauto)) as E;
  match type of E with _ = ?v => change v with s in E end.

Lemma configFromViper_written get o :
  (forall k b, (k, b) ∈ AgentLoad.env_bindings -> get k = value_of (agent_lines o) agent_defaults k) ->
  forallb yaml_ok (agent_lines o) = true -> AgentLoad.configFromViper env get = Ok (written_settings o).
Proof.
  intros Hg Hok.
  reads Hg "proxy_url" (c_ProxyURL o) "LUNA_PROXY_URL". reads Hg "mtls_cert" (c_CertsDir o +:+ "/client.crt") "LUNA_MTLS_CERT".
  reads Hg "mtls_key" (c_CertsDir o +:+ "/client.key") "LUNA_MTLS_KEY". reads Hg "mtls_ca" (c_CertsDir o +:+ "/ca.crt") "LUNA_MTLS_CA".
  reads Hg "target_user" (c_TargetUser o) "LUNA_TARGET_USER". reads Hg "target_host" (c_TargetHost o) "LUNA_TARGET_HOST".
  reads Hg "agent_socket" (c_AgentSocket o) "LUNA_AGENT_SOCKET". reads Hg "signer_mode" (c_SignerMode o) "LUNA_SIGNER_MODE".
  pose proof (Hg "host_key_fingerprint" "LUNA_HOST_KEY_FINGERPRINT" ltac:(apply list_elem_of_In; simpl; tauto)) as Ef.
  rewrite written_fingerprint in Ef.
  pose proof (Hg "hosted_public_key" "LUNA_HOSTED_PUBLIC_KEY" ltac:(apply list_elem_of_In; simpl; tauto)) as Eh.
  pose proof (Hg "approval_timeout" "LUNA_APPROVAL_TIMEOUT" ltac:(apply list_elem_of_In; simpl; tauto)) as Et.
  rewrite written_hosted in Eh. rewrite written_timeout in Et.
  assert (Hfp : TrimSpace (TrimSpace (c_HostKeyFingerprint o)) = TrimSpace (c_HostKeyFingerprint o)).
  { destruct (TrimSpace (c_HostKeyFingerprint o) =s "") eqn:Efp; [by str_prop; rewrite Efp|]. apply plain_trim.
    unfold agent_lines in Hok. cbv zeta in Hok. rewrite Efp, forallb_app in Hok. cbn [negb forallb yaml_ok] in Hok. by bool_prop. }
  unfold agent_lines in Hok. cbv zeta in Hok. rewrite forallb_app in Hok. apply andb_true_iff in Hok as [Hok _].
  cbn [forallb yaml_ok] in Hok. bool_prop.
  unfold AgentLoad.configFromViper. rewrite Et.
  assert (Hpd : ParseDuration (Duration_String defaultApprovalTimeout) = Ok defaultApprovalTimeout) by (vm_compute; reflexivity).
  rewrite Hpd. change (defaultApprovalTimeout <=? 0) with false. cbv zeta iota.
  rewrite E, E0, E1, E2, E3, E4, E5, E6, Ef, Eh, Hfp, !plain_trim by done.
  repeat match goal with H : plain ?v = true |- _ => apply plain_nonempty in H end.
  change (TrimSpace "") with "". rewrite !or_default_set by done. set (c0 := mkConfig _ _ _ _ _ _ _ _ _ _ _).
  assert (Ha : AgentLoad.applyAgentDefaults env c0 = c0).
  { unfold AgentLoad.applyAgentDefaults. destruct (AgentLoad.isDevEnv env); [done|]. cbv zeta.
    by rewrite !or_default_set by done. }
  rewrite Ha. match goal with |- context [AgentLoad.missing_settings ?c] => change c with (written_settings o) end.
  rewrite (proj2 (AgentLoad.missing_settings_nil _)); [done|]. by split_and!.
Qed.

Lemma Load_written o f w :
  let path := Getenv env "LUNA_CONFIG" in
  path <> "" -> yaml_path path = true -> stat_fails env (key env path) = false -> read_fails env (key env path) = false ->
  files w !! key env path = Some f -> f_data f = bytes_of (agent_yml o) -> forallb yaml_ok (agent_lines o) = true ->
  unset_environment -> AgentLoad.Load env w = (w, Ok (written_settings o)).
Proof.
  intros path Hne Hy Hs Hr Hf Hd Hok Hun. rewrite agent_yml_lines in Hd.
  destruct (load_settings_yaml env agent_defaults (agentConfigPaths env) AgentLoad.env_bindings path (agent_lines o) f w)
    as (v & Hv & Hget); try done; [apply agent_lines_nodup|by eapply Forall_impl; [exact Hun|intros kb [? _]]|].
  unfold AgentLoad.Load, AgentLoad.newAgentViper. rewrite (bind_run _ _ _ _ _ Hv). unfold lift. f_equal.
  apply configFromViper_written; [|done]. intros k b Hin. apply Hget.
  unfold unset_environment in Hun. rewrite Forall_forall in Hun. apply (Hun _ Hin).
Qed.
End read.

(** C28: What set-up wrote is what the daemon reads: after a set-up that was to write the configuration,
    because the host had none or because it was told to rewrite it, a daemon started for that file, in
    whatever environment, with its own settings unset there, loads exactly the proxy, signer mode,
    target, fingerprint and certificate paths of the set-up, with the socket resolved for its own user
    and the default timeout.  The values have to be plain YAML text, since set-up writes them without
    quotes, the file readable by the daemon, and its name not the unit's and, on a first run, not that
    of a certificate, key or temporary file. *)
Theorem set_up_agent_loads {N : Type} (env env' : Environ) (net : Net N) (sys : Sys N) (tty : bool)
    `{YamlLaws, HashLib, !Csr.X509Lib, !CliCmd.RsaLib, HttpClient.TlsFileLib, UrlLib, PemLib} fr o (w w' : World N) res :
  Run env net sys tty fr o w = (w', Ok res) ->
  let o' := withDefaults env o in let path := AgentSetup.ConfigPath o' in
  writes_config env o w -> key env path <> unit_key env sys o' ->
  Getenv env' "LUNA_CONFIG" = path -> key env' path = key env path -> unset_environment env' ->
  stat_fails env' (key env' path) = false -> read_fails env' (key env' path) = false ->
  yaml_path path = true -> forallb yaml_ok (agent_lines (config_options o')) = true ->
  AgentLoad.Load env' w' = (w', Ok (written_settings env' (config_options o'))).
Proof.
  intros Hr o' path Hf Hk Hc Hkey Hun Hs Hrd Hy Hok. apply Run_complete in Hr as (_ & _ & _ & Hr).
  destruct (Hr Hf Hk) as (g & Hg & Hd). eapply Load_written; rewrite ?Hc; try done.
  - intros E. by rewrite E in Hy.
  - by rewrite Hkey.
Qed.

Module MainDemo.
Import Demo Csr.CsrDemo SystemdDemo SetupDemo AgentDemo YamlDemo.
#[local] Existing Instances demo_rsa demo_files demo_url demo_pem.

(** The daemon's environment, as the service's unit sets it. *)
Definition service : Environ := mkEnviron (fun n => if n =s "LUNA_CONFIG" then "/home/u/agent.yml" else "") 1000 (Some "/") [] 18
  (fun _ => false) (fun _ => false) (fun _ => NoFault) (fun _ => false) (fun _ => false) (fun _ => false) (fun _ => false)
  (fun _ => true).
(** A first run: the host has no configuration and none is to be rewritten. *)
Definition set_up : Options := SetupDemo.options {{ AgentSetup.ProxyURL := "https://proxy.example:8443" }}.

Lemma set_up_agent_loads_witness : exists w' c,
  Run home demo_net demo_sys false fresh set_up host = (w', Ok (mkResult "/home/certs" "/home/u/agent.yml")) /\
  AgentLoad.Load service w' = (w', Ok c) /\ TargetHost c = "10.0.0.1" /\ MTLSKey c = "/home/certs/client.key".
Proof.
  destruct (io_run (Run home demo_net demo_sys false fresh set_up) host) as (w' & r & E); [vm_compute; reflexivity|].
  assert (Er : (Run home demo_net demo_sys false fresh set_up host).2 = Ok (mkResult "/home/certs" "/home/u/agent.yml")) by (vm_compute; reflexivity).
  rewrite E in Er. cbn [snd] in Er. injection Er as ->.
  exists w', (written_settings service (config_options (withDefaults home set_up))). split; [exact E|].
  split; [|split; reflexivity].
  apply (set_up_agent_loads home service demo_net demo_sys false fresh set_up host w' _ E); try reflexivity.
  - right. split; [reflexivity|]. intros [Ht|(n & dir & Hn & Hk)]; [apply temporary_suffix in Ht; vm_compute in Ht; discriminate Ht|].
    vm_compute in Hk. injection Hk as <- <-. apply list_elem_of_In in Hn. vm_compute in Hn.
    repeat (destruct Hn as [Hn|Hn]; [discriminate Hn|]). destruct Hn.
  - intros Hk. vm_compute in Hk. discriminate Hk.
  - apply Forall_forall. intros kb Hin. apply list_elem_of_In in Hin. simpl in Hin.
    repeat (destruct Hin as [<-|Hin]; [split; reflexivity|]). destruct Hin.
Defined.

(** The proxy offers a local CA. *)
Definition caps_net : Net accounts := mkNet (fun _ _ w => (w, Err (errorf "refused"))) (fun _ _ w => (w, Err (errorf "refused")))
  (fun _ _ w => (w, Ok (mkHttpResponse Http.StatusOK (Json.e_struct [("signer_mode", Some (Json.e_string "local-ca"))])))).
Definition settled : World accounts := (Run home demo_net demo_sys false fresh set_up host).1.

Lemma daemon_starts_safely_witness : exists w' d f,
  runAgent service caps_net (fun _ => false) (Some demo_priv) settled = (w', Ok d) /\
  files w' !! key service (SocketPath (d_Config d)) = Some f /\ f_mode f = 384.
Proof.
  destruct (io_run (runAgent service caps_net (fun _ => false) (Some demo_priv)) settled) as (w' & d & E); [vm_compute; reflexivity|].
  destruct (daemon_starts_safely service caps_net (fun _ => false) (Some demo_priv) settled w' d E)
    as (_ & _ & _ & _ & (f & Hf & Hm) & _).
  exists w', d, f. split; [exact E|split; [exact Hf|exact Hm]].
Defined.
End MainDemo.
End AgentMain.
