(* ===== verification/ProxyPki.v ===== *)
(** * The proxy's certificate authority (proxy/internal/setup: mtls.go, admin_client.go)

    [GenerateMTLS] makes the CA, the server's certificate, an administrator's and, if wanted, a sample
    client's; [GenerateAdminClient] makes another administrator's from the CA on disk.  Keys, serial
    numbers and the clock are arguments; [x509.CreateCertificate] is an interface. *)

From Stdlib Require Import Ascii.
From coqutil Require Import Datatypes.RecordSetters.
From S2P Require Import Prelude GoTime GoStrings GoEncoding GoPath GoOs External Fingerprint Config Csr GoNet ConfigLoad CliCmd GoPrompt Systemd.

Module Pki.
Export DoubleBraceUpdate.

(** ** Certificates to be *)

Inductive PkiUsage := CertSign | CRLSign | DigitalSignature | KeyEncipherment | ServerAuth | ClientAuth.

Record PkiName := mkPkiName { pn_CommonName : string; pn_Organization : list string; pn_OU : list string }.

Record PkiTemplate := mkPkiTemplate {
  pt_Serial : Z;
  pt_Subject : PkiName;
  pt_NotBefore : Z;
  pt_NotAfter : Z;
  pt_Usage : list PkiUsage;
  pt_IsCA : bool;
  pt_DNSNames : list string
}.

(** [create_certificate tpl parent pub signer]: without a parent the certificate is its own. *)
Class PkiLib `{Csr.X509Lib} := {
  create_certificate : PkiTemplate -> option Certificate -> Csr.PubKey -> Csr.PrivateKey -> option (list byte);
  public_half : Csr.PrivateKey -> Csr.PubKey;
  MarshalPKCS8PrivateKey : Csr.PrivateKey -> option (list byte)
}.

(** Documented behaviour: a created certificate has the organizational units of its template. *)
Class PkiLaws `{PkiLib} : Prop := {
  created_units : forall tpl parent pub key der cert,
    create_certificate tpl parent pub key = Some der -> Csr.ParseCertificate der = Some cert ->
    OrganizationalUnit cert = pn_OU (pt_Subject tpl)
}.

(** ** Options *)

Definition defaultValidityDays : Z := 3650.
Definition ErrExists : error := ENew "setup" "mTLS material already exists (use --force to overwrite)".

Record MTLSOptions := mkMTLS {
  Dir : string;
  Force : bool;
  CACommonName : string;
  Organization : string;
  ServerCommonName : string;
  ServerDNSNames : list string;
  AdminClientOU : string;
  ValidityDays : Z;
  IncludeSampleClients : bool
}.

Definition or_default := ConfigLoad.Load.or_default.

Definition mtls_defaults (o : MTLSOptions) : MTLSOptions :=
  mkMTLS (Clean (if TrimSpace (Dir o) =s "" then Load.DefaultCertsDir else Dir o)) (Force o)
    (or_default (CACommonName o) "Luna mTLS CA") (or_default (Organization o) "Luna Z-Trust")
    (or_default (ServerCommonName o) "luna-proxy")
    (match ServerDNSNames o with [] => ["localhost"] | l => l end)
    (or_default (AdminClientOU o) "luna-admin")
    (if ValidityDays o <=? 0 then defaultValidityDays else ValidityDays o) (IncludeSampleClients o).

(** What a run draws: keys ([None] when generating one fails), serial numbers and the clock. *)
Record PkiFresh `{Csr.X509Lib} := mkPkiFresh {
  caKey : option Csr.PrivateKey;
  serverKey : option Csr.PrivateKey;
  adminKey : option Csr.PrivateKey;
  clientKey : option Csr.PrivateKey;
  serial : Z -> Z;                        (* by the order in which they are drawn *)
  now : Z
}.

Section pki.
Context {N : Type} (env : Environ).
Context `{PkiLib}.
Notation W := (World N).

(** ** Writing a certificate and its key *)

(** [abs, _ := filepath.Abs(path)] *)
Definition abs_path (p : string) : string := default "" (Abs (Getwd env) p).

Definition writePair (dir base : string) (certMode keyMode : Z) (certDER : list byte) (key : Csr.PrivateKey) : IO W (list string) :=
  let certPath := Join [dir; base +:+ ".crt"] in
  let keyPath := Join [dir; base +:+ ".key"] in
  _ ← writeFileAtomic env certPath (Csr.pem_Encode "CERTIFICATE" certDER) certMode;
  keyDER ← lift (or_err (MarshalPKCS8PrivateKey key) (errorf ("marshal " +:+ base +:+ " key")));
  _ ← writeFileAtomic env keyPath (Csr.pem_Encode "PRIVATE KEY" keyDER) keyMode;
  mret [abs_path certPath; abs_path keyPath].

(** ** Templates *)

(** The validity of a run's certificates *)
Definition validity (t days : Z) : Z * Z :=
  let notBefore := Add t (- Minute) in
  (notBefore, Add notBefore (wrap64 (wrap64 (days * 24) * Hour))).

Definition ca_template (fr : PkiFresh) (o : MTLSOptions) : PkiTemplate :=
  let '(nb, na) := validity (now fr) (ValidityDays o) in
  mkPkiTemplate (serial fr 0) (mkPkiName (CACommonName o) [Organization o] []) nb na [CertSign; CRLSign] true [].
Definition server_template (fr : PkiFresh) (o : MTLSOptions) : PkiTemplate :=
  let '(nb, na) := validity (now fr) (ValidityDays o) in
  mkPkiTemplate (serial fr 1) (mkPkiName (ServerCommonName o) [Organization o] []) nb na
    [DigitalSignature; KeyEncipherment; ServerAuth] false (ServerDNSNames o).
(** An administrator's, with the time and the number it is made at *)
Definition admin_template (t days n : Z) (org ou : string) : PkiTemplate :=
  let '(nb, na) := validity t days in
  mkPkiTemplate n (mkPkiName "Luna Admin Client" [org] [ou]) nb na [DigitalSignature; ClientAuth] false [].
Definition client_template (fr : PkiFresh) (o : MTLSOptions) : PkiTemplate :=
  let '(nb, na) := validity (now fr) (ValidityDays o) in
  mkPkiTemplate (serial fr 3) (mkPkiName "Luna Automation Client" [Organization o] []) nb na [DigitalSignature; ClientAuth] false [].

(** A key, a certificate for it by [signer], and both files. *)
Definition issue (dir base what : string) (keyMode : Z) (fresh_key : option Csr.PrivateKey) (tpl : PkiTemplate)
    (parent : Certificate) (signer : Csr.PrivateKey) : IO W (list string) :=
  key ← lift (or_err fresh_key (errorf ("generate " +:+ what +:+ " key")));
  der ← lift (or_err (create_certificate tpl (Some parent) (public_half key) signer)
               (errorf ("sign " +:+ what +:+ " certificate")));
  writePair dir base 420 keyMode der key.

(** ** GenerateMTLS *)

Definition outputs (sample : bool) : list string :=
  ["ca.crt"; "ca.key"; "server.crt"; "server.key"; "admin-client.crt"; "admin-client.key"] ++
  (if sample then ["client.crt"; "client.key"] else []).

(** The first of the files that is there is refused. *)
Fixpoint refuse_existing (dir : string) (names : list string) : IO W unit :=
  match names with
  | [] => mret tt
  | name :: rest =>
      found ← test (fileExists env (Join [dir; name]));
      if (found : bool) then fail (EWrap (error_text ErrExists +:+ ": " +:+ name) ErrExists) else
      refuse_existing dir rest
  end.

Definition GenerateMTLS (fr : PkiFresh) (o : MTLSOptions) : IO W (list string) :=
  let o := mtls_defaults o in
  _ ← wrapping "create output dir" (MkdirAll env (Dir o));
  _ ← when (negb (Force o)) (refuse_existing (Dir o) (outputs (IncludeSampleClients o)));
  key ← lift (or_err (caKey fr) (errorf "generate CA key"));
  caDER ← lift (or_err (create_certificate (ca_template fr o) None (public_half key) key) (errorf "sign CA certificate"));
  caCert ← lift (or_err (Csr.ParseCertificate caDER) (errorf "parse CA certificate"));
  ca ← writePair (Dir o) "ca" 420 256 caDER key;
  server ← issue (Dir o) "server" "server" 256 (serverKey fr) (server_template fr o) caCert key;
  admin ← issue (Dir o) "admin-client" "admin client" 384 (adminKey fr)
            (admin_template (now fr) (ValidityDays o) (serial fr 2) (Organization o) (AdminClientOU o)) caCert key;
  clients ← (if IncludeSampleClients o
             then issue (Dir o) "client" "client" 384 (clientKey fr) (client_template fr o) caCert key
             else mret []);
  mret (ca ++ server ++ admin ++ clients).

(** ** GenerateAdminClient *)

Record AdminClientOptions := mkAdminClient {
  a_Dir : string; a_Force : bool; a_OU : string; a_Organization : string; a_ValidityDays : Z
}.

Definition admin_defaults (o : AdminClientOptions) : AdminClientOptions :=
  mkAdminClient (Clean (or_default (a_Dir o) (Clean Load.DefaultCertsDir))) (a_Force o) (or_default (a_OU o) "luna-admin")
    (or_default (a_Organization o) "Luna Z-Trust")
    (if a_ValidityDays o <=? 0 then defaultValidityDays else a_ValidityDays o).

Context `{!CliCmd.RsaLib}.

Definition loadCAKeyPair (certPath keyPath : string) : IO W (Certificate * Csr.PrivateKey) :=
  certPEM ← wrapping "read CA cert" (ReadFile env certPath);
  '(_, certDER) ← lift (or_err (Csr.pem_Decode certPEM) (errorf "parse CA cert: no PEM block"));
  caCert ← lift (or_err (Csr.ParseCertificate certDER) (errorf "parse CA cert"));
  keyPEM ← wrapping "read CA key" (ReadFile env keyPath);
  '(ty, keyDER) ← lift (or_err (Csr.pem_Decode keyPEM) (errorf "parse CA key: no PEM block"));
  if ty =s "RSA PRIVATE KEY" then
    k ← lift (or_err (Csr.ParsePKCS1PrivateKey keyDER) (errorf "parse CA key"));
    mret (caCert, k)
  else if ty =s "PRIVATE KEY" then
    k ← lift (or_err (Csr.ParsePKCS8PrivateKey keyDER) (errorf "parse CA key"));
    if CliCmd.is_rsa k then mret (caCert, k) else fail (errorf "parse CA key: expected RSA private key")
  else fail (errorf ("parse CA key: unsupported PEM type " +:+ ty)).

(** [t] and [n] are the clock and the serial number. *)
Definition GenerateAdminClient (fresh_key : option Csr.PrivateKey) (t n : Z) (o : AdminClientOptions) : IO W (list string) :=
  let o := admin_defaults o in
  _ ← wrapping "create output dir" (MkdirAll env (a_Dir o));
  _ ← when (negb (a_Force o)) (refuse_existing (a_Dir o) ["admin-client.crt"; "admin-client.key"]);
  '(caCert, key) ← loadCAKeyPair (Join [a_Dir o; "ca.crt"]) (Join [a_Dir o; "ca.key"]);
  issue (a_Dir o) "admin-client" "admin client" 384 fresh_key
    (admin_template t (a_ValidityDays o) n (a_Organization o) (a_OU o)) caCert key.

(** ** ProxyYAMLHints *)

Definition ProxyYAMLHints (dir : string) : string :=
  let dir := Clean dir in
  if dir =s Load.DefaultCertsDir then text_of
    ["# mTLS paths default to " +:+ Load.DefaultCertsDir +:+ "/ when unset (server.crt, server.key, ca.crt, ca.key).";
     "# Override only if you used a non-default --dir:";
     "# mtls_server_cert: " +:+ dir +:+ "/server.crt"]
  else text_of
    ["# Optional proxy.yml overrides (defaults use " +:+ Load.DefaultCertsDir +:+ " when --dir matches):";
     "mtls_server_cert: " +:+ dir +:+ "/server.crt";
     "mtls_server_key: " +:+ dir +:+ "/server.key";
     "mtls_client_ca: " +:+ dir +:+ "/ca.crt";
     "mtls_ca_cert_path: " +:+ dir +:+ "/ca.crt";
     "mtls_ca_key_path: " +:+ dir +:+ "/ca.key"].
End pki.

(** ** What is on disk afterwards *)

Section written.
Context {N : Type} (env : Environ).
Implicit Types w : World N.

(** No write was interrupted before. *)
Definition tidy w : Prop := forall k, temporary k -> files w !! k = None.

(** A file with these contents and permissions. *)
Definition holds w (k : list string) (data : list byte) (mode : Z) : Prop :=
  exists g, files w !! k = Some (mkFile data (Z.ldiff mode (umask env)) g).

(** The files [l] are written and nothing else. *)
Record leaves (l : list (list string * (list byte * Z))) w w' : Prop := {
  leaves_files : Forall (fun x => holds w' x.1 x.2.1 x.2.2) l;
  leaves_others : forall k, k ∉ l.*1 -> files w' !! k = files w !! k;
  leaves_tidy : tidy w';
  leaves_nw : nw w' = nw w
}.

Lemma leaves_nil w : tidy w -> leaves [] w w.
Proof. by split. Qed.

Lemma leaves_app l k w w1 w2 : (forall x, x ∈ l.*1 -> x ∉ k.*1) -> leaves l w w1 -> leaves k w1 w2 -> leaves (l ++ k) w w2.
Proof.
  intros Hd [F1 O1 T1 N1] [F2 O2 T2 N2]. split; [|..|congruence].
  - apply Forall_app. split; [|done]. rewrite Forall_forall in F1 |- *. intros x Hx. destruct (F1 x Hx) as [g Hg].
    exists g. rewrite O2; [done|]. apply Hd. by apply list_elem_of_fmap_2.
  - intros x Hx. rewrite fmap_app, not_elem_of_app in Hx. rewrite O2, O1; [done|apply Hx..].
  - done.
Qed.

Lemma writeFileAtomic_leaves p data mode w w' : tidy w -> ~ temporary (key env p) ->
  writeFileAtomic env p data mode w = (w', Ok tt) -> leaves [(key env p, (data, mode))] w w'.
Proof.
  intros Ht Hp Hw. assert (Htmp : files w !! key env (p +:+ ".tmp") = None) by (apply Ht, resolve_tmp_temporary).
  assert (Hn : files w' !! key env (p +:+ ".tmp") = None).
  { unfold writeFileAtomic, mbind, io_bind, wrapping, WriteFile in Hw. destruct (write_fault _ _); [|done..].
    unfold try, Rename in Hw. cbn [files set_files] in Hw. destruct (rename_fails _ _); [done|].
    rewrite lookup_insert_eq in Hw. injection Hw as <-. cbn [files set_files].
    rewrite lookup_insert_ne by (symmetry; apply resolve_tmp). apply lookup_delete_eq. }
  apply writeFileAtomic_cases in Hw as (_ & _ & Hnw & Hk & g & Hg).
  unfold written_mode in Hg. rewrite Htmp in Hg.
  assert (Ho : forall k, k <> key env p -> files w' !! k = files w !! k).
  { intros k Hne. destruct (decide (k = key env (p +:+ ".tmp"))) as [->|]; [|by apply Hk].
    by rewrite Hn. }
  split; [|..|done].
  - apply Forall_singleton. by exists g.
  - intros k Hkk. apply Ho. intros ->. apply Hkk. by left.
  - intros k Htk. rewrite Ho; [by apply Ht|]. by intros ->.
Qed.
End written.

Section facts.
Context {N : Type} (env : Environ) `{PkiLib}.
Implicit Types w : World N.

(** Names of certificate files are not those of temporary ones. *)
Definition file_name (n : string) : Prop := plain_name n /\ forall st, ~ temporary (n :: st).

Lemma file_name_ok n : plain_name n -> bool_decide (drop (length (bytes_of n) - 4) (bytes_of n) = bytes_of ".tmp") = false -> file_name n.
Proof. intros Hp Hn. split; [done|]. intros st Ht%temporary_suffix. by apply bool_decide_eq_false in Hn. Qed.

Lemma key_in dir n : dir <> "" -> file_name n -> key env (Join [dir; n]) = n :: key env dir.
Proof. intros Hd [Hn _]. by apply resolve_Join. Qed.

Definition pair_files (dir base : string) (certMode keyMode : Z) (der keyDER : list byte) : list (list string * (list byte * Z)) :=
  [((base +:+ ".crt") :: key env dir, (Csr.pem_Encode "CERTIFICATE" der, certMode));
   ((base +:+ ".key") :: key env dir, (Csr.pem_Encode "PRIVATE KEY" keyDER, keyMode))].

Definition pair_names (base : string) : Prop := file_name (base +:+ ".crt") /\ file_name (base +:+ ".key").

Lemma writePair_leaves dir base cm km der k w w' l :
  dir <> "" -> pair_names base -> tidy w -> writePair env dir base cm km der k w = (w', Ok l) ->
  exists keyDER, MarshalPKCS8PrivateKey k = Some keyDER /\ leaves env (pair_files dir base cm km der keyDER) w w'.
Proof.
  intros Hd [Hc Hk] Ht Hw. unfold writePair in Hw. io_ok. subst.
  match goal with H1' : writeFileAtomic _ _ _ _ _ = (?w1, Ok ?a1), H2' : writeFileAtomic _ _ _ _ ?w1 = (_, Ok ?a2) |- _ =>
    destruct a1, a2; rename H1' into E1; rename H2' into E2 end.
  match goal with H : or_err (MarshalPKCS8PrivateKey k) _ = Ok ?d |- _ => apply or_err_ok in H; exists d; split; [done|] end.
  apply writeFileAtomic_leaves in E1; [|done|rewrite key_in by done; apply Hc].
  apply writeFileAtomic_leaves in E2; [|apply E1|rewrite key_in by done; apply Hk].
  rewrite key_in in E1, E2 by done. unfold pair_files.
  refine (leaves_app env _ _ _ _ _ _ E1 E2). intros x. cbn. rewrite !list_elem_of_singleton. intros -> [= E].
  apply (f_equal bytes_of) in E. rewrite !bytes_of_app in E. by apply app_inv_head in E.
Qed.

Lemma issue_leaves dir base what km fk tpl parent signer w w' l :
  dir <> "" -> pair_names base -> tidy w -> issue env dir base what km fk tpl parent signer w = (w', Ok l) ->
  exists k der keyDER, fk = Some k /\ create_certificate tpl (Some parent) (public_half k) signer = Some der /\
    MarshalPKCS8PrivateKey k = Some keyDER /\ leaves env (pair_files dir base 420 km der keyDER) w w'.
Proof.
  intros Hd Hn Ht Hi. unfold issue in Hi. io_ok. subst.
  repeat match goal with H : or_err _ _ = Ok _ |- _ => apply or_err_ok in H end.
  apply writePair_leaves in Hi as (kd & Hk & Hl); [|done..]. by eexists _, _, kd.
Qed.

Lemma refuse_existing_ok dir names w w' r : refuse_existing env dir names w = (w', r) ->
  w' = w /\ (r = Ok tt -> Forall (fun n => fileExists env (Join [dir; n]) w = false) names).
Proof.
  revert r. induction names as [|n names IH]; intros r; cbn [refuse_existing]; [by intros [= <- <-]|].
  erewrite bind_run by reflexivity. destruct (fileExists env (Join [dir; n]) w) eqn:E; [by intros [= <- <-]|].
  intros Hr. destruct (IH _ Hr) as [-> Hf]. split; [done|]. intros Hok. constructor; [done|by apply Hf].
Qed.

(** The key of [n] under the directory. *)
Definition at_dir (dir n : string) : list string := n :: key env dir.

(** The files of a whole run. *)
Definition pki_files (fr : PkiFresh) (o : MTLSOptions) (caDER : list byte) (ca : Certificate) (ck : Csr.PrivateKey)
    (l : list (list string * (list byte * Z))) : Prop :=
  exists sk ak serverDER adminDER cd sd ad rest,
    serverKey fr = Some sk /\ adminKey fr = Some ak /\
    create_certificate (server_template fr o) (Some ca) (public_half sk) ck = Some serverDER /\
    create_certificate (admin_template (now fr) (ValidityDays o) (serial fr 2) (Organization o) (AdminClientOU o))
      (Some ca) (public_half ak) ck = Some adminDER /\
    MarshalPKCS8PrivateKey ck = Some cd /\ MarshalPKCS8PrivateKey sk = Some sd /\ MarshalPKCS8PrivateKey ak = Some ad /\
    l = pair_files (Dir o) "ca" 420 256 caDER cd ++ pair_files (Dir o) "server" 420 256 serverDER sd ++
        pair_files (Dir o) "admin-client" 420 384 adminDER ad ++ rest /\
    if IncludeSampleClients o then
      exists k der kd, clientKey fr = Some k /\
        create_certificate (client_template fr o) (Some ca) (public_half k) ck = Some der /\
        MarshalPKCS8PrivateKey k = Some kd /\ rest = pair_files (Dir o) "client" 420 384 der kd
    else rest = [].

Lemma pair_names_ok : pair_names "ca" /\ pair_names "server" /\ pair_names "admin-client" /\ pair_names "client".
Proof. split_and!; (split; (apply file_name_ok; [by split_and!|reflexivity])). Qed.

Lemma mtls_dir o : Dir (mtls_defaults o) <> "".
Proof. apply Clean_nonempty. Qed.

(** Names below one directory that differ. *)
Lemma names_differ dir (l k : list (list string * (list byte * Z))) (ln kn : list string) :
  l.*1 = at_dir dir <$> ln -> k.*1 = at_dir dir <$> kn -> Forall (fun n => n ∉ kn) ln ->
  forall x, x ∈ l.*1 -> x ∉ k.*1.
Proof.
  intros -> -> Hf x (n & -> & Hn)%list_elem_of_fmap (m & [= E] & Hm)%list_elem_of_fmap.
  rewrite Forall_forall in Hf. subst m. by apply (Hf n Hn).
Qed.

Lemma GenerateMTLS_leaves fr o w w' l : tidy w -> GenerateMTLS env fr o w = (w', Ok l) ->
  let o' := mtls_defaults o in
  exists ck caDER ca fs, caKey fr = Some ck /\
    create_certificate (ca_template fr o') None (public_half ck) ck = Some caDER /\ Csr.ParseCertificate caDER = Some ca /\
    pki_files fr o' caDER ca ck fs /\ leaves env fs w w'.
Proof.
  intros Ht Hg o'. unfold GenerateMTLS in Hg. cbv zeta in Hg. fold o' in Hg. pose proof (mtls_dir o) as Hd. fold o' in Hd.
  destruct pair_names_ok as (Nca & Ns & Na & Nc). io_ok. subst.
  repeat match goal with H : or_err _ _ = Ok _ |- _ => apply or_err_ok in H end.
  match goal with H : MkdirAll _ _ _ = _ |- _ => injection H as <- _ end.
  match goal with H : when _ _ ?u = (?v, _) |- _ => assert (v = u) as -> by
    (revert H; destruct (Force o'); [by intros [= <- _]|by intros [Hx _]%refuse_existing_ok]) end.
  match goal with Hc : writePair _ _ _ _ _ _ _ _ = _ |- _ =>
    apply writePair_leaves in Hc as (cd & Mc & Lc); [|done..] end.
  match goal with Hi : issue _ _ "server" _ _ _ _ _ _ _ = _ |- _ =>
    apply issue_leaves in Hi as (sk & sder & sd & Ks & Cs & Ms & Ls); [|done|done|apply Lc] end.
  match goal with Hi : issue _ _ "admin-client" _ _ _ _ _ _ _ = _ |- _ =>
    apply issue_leaves in Hi as (ak & ader & ad & Ka & Ca & Ma & La); [|done|done|apply Ls] end.
  assert (Hrest : exists rest, leaves env rest w7 w' /\
    rest.*1 = at_dir (Dir o') <$> (if IncludeSampleClients o' then ["client.crt"; "client.key"] else []) /\
    if IncludeSampleClients o' then exists k der kd, clientKey fr = Some k /\
        create_certificate (client_template fr o') (Some a3) (public_half k) a1 = Some der /\
        MarshalPKCS8PrivateKey k = Some kd /\ rest = pair_files (Dir o') "client" 420 384 der kd
    else rest = []).
  { destruct (IncludeSampleClients o').
    - match goal with Hi : issue _ _ "client" _ _ _ _ _ _ _ = _ |- _ =>
        apply issue_leaves in Hi as (k & der & kd & Hk & Hc & Hm & Hl); [|done|done|apply La] end.
      eexists. split; [exact Hl|]. split; [done|]. by exists k, der, kd.
    - match goal with Hi : mret _ _ = _ |- _ => injection Hi as <- _ end. exists []. split; [|done]. apply leaves_nil, La. }
  destruct Hrest as (rest & Lr & Hn & Hr).
  assert (Hc1 : leaves env (pair_files (Dir o') "admin-client" 420 384 ader ad ++ rest) w6 w').
  { refine (leaves_app env _ _ _ _ _ _ La Lr).
    eapply (names_differ (Dir o') _ _ ["admin-client.crt"; "admin-client.key"] _); [done|exact Hn|].
    destruct (IncludeSampleClients o'); by apply (bool_decide_eq_true_1 _). }
  assert (Hc2 : leaves env (pair_files (Dir o') "server" 420 256 sder sd ++ pair_files (Dir o') "admin-client" 420 384 ader ad ++ rest) w5 w').
  { refine (leaves_app env _ _ _ _ _ _ Ls Hc1).
    eapply (names_differ (Dir o') _ _ ["server.crt"; "server.key"]
      (["admin-client.crt"; "admin-client.key"] ++ (if IncludeSampleClients o' then ["client.crt"; "client.key"] else []))); [done|..].
    - rewrite fmap_app, Hn. by destruct (IncludeSampleClients o').
    - destruct (IncludeSampleClients o'); by apply (bool_decide_eq_true_1 _). }
  exists a1, a2, a3. eexists. split; [done|]. split; [done|]. split; [done|]. split.
  - exists sk, ak, sder, ader, cd, sd, ad, rest. split_and!; try done.
  - refine (leaves_app env _ _ _ _ _ _ Lc Hc2).
    eapply (names_differ (Dir o') _ _ ["ca.crt"; "ca.key"]
      (["server.crt"; "server.key"; "admin-client.crt"; "admin-client.key"] ++
       (if IncludeSampleClients o' then ["client.crt"; "client.key"] else []))); [done|..].
    + rewrite !fmap_app, Hn. by destruct (IncludeSampleClients o').
    + destruct (IncludeSampleClients o'); by apply (bool_decide_eq_true_1 _).
Qed.

(** *** Nothing is written over *)

Lemma retains_apart (T Q : list string -> Prop) (fs fs' : gmap (list string) File) :
  (forall k, Q k -> T k \/ fs !! k = None) -> retains Q fs fs' -> retains T fs fs'.
Proof. intros HQ Hr k f Hk Hf. apply Hr; [|done]. intros Hq. destruct (HQ k Hq) as [|E]; [done|]. by rewrite E in Hf. Qed.

Section retain.
Context (T : list string -> Prop) (tmp_in : forall k, temporary k -> T k).

Lemma writePair_retains dir base cm km der k : dir <> "" -> pair_names base ->
  T (at_dir dir (base +:+ ".crt")) -> T (at_dir dir (base +:+ ".key")) ->
  keeps (on_files (retains T)) (writePair (N := N) env dir base cm km der k).
Proof.
  intros Hd [Hc Hk] Tc Tk. unfold writePair.
  assert (Wc : forall d m, keeps (on_files (retains T)) (writeFileAtomic (N := N) env (Join [dir; base +:+ ".crt"]) d m)).
  { intros d m. apply writeFileAtomic_retains; [by rewrite key_in|done]. }
  assert (Wk : forall d m, keeps (on_files (retains T)) (writeFileAtomic (N := N) env (Join [dir; base +:+ ".key"]) d m)).
  { intros d m. apply writeFileAtomic_retains; [by rewrite key_in|done]. }
  keeps.
Qed.

Lemma issue_retains dir base what km fk tpl parent signer : dir <> "" -> pair_names base ->
  T (at_dir dir (base +:+ ".crt")) -> T (at_dir dir (base +:+ ".key")) ->
  keeps (on_files (retains T)) (issue (N := N) env dir base what km fk tpl parent signer).
Proof. intros Hd Hn Tc Tk. pose proof (fun der k => writePair_retains dir base 420 km der k Hd Hn Tc Tk). unfold issue. keeps. Qed.
End retain.

(** Files that are not there, as far as one can tell. *)
Lemma absent_file dir n w : dir <> "" -> file_name n -> stat_fails env (at_dir dir n) = false ->
  fileExists env (Join [dir; n]) w = false -> files w !! at_dir dir n = None.
Proof.
  intros Hd Hn Hs. unfold fileExists, Stat. rewrite key_in by done. unfold at_dir in *. rewrite Hs.
  destruct (files w !! (n :: key env dir)) as [f|]; [|done]. by rewrite bool_decide_true.
Qed.

Lemma outputs_names sample : Forall file_name (outputs sample).
Proof.
  unfold outputs. apply Forall_app. split; [|destruct sample; [|done]];
    repeat (apply Forall_cons; split; [apply file_name_ok; [by split_and!|reflexivity]|]); done.
Qed.

Lemma GenerateMTLS_refuses fr o n w : Force o = false -> n ∈ outputs (IncludeSampleClients o) ->
  fileExists env (Join [Dir (mtls_defaults o); n]) w = true -> is_ok (GenerateMTLS (N := N) env fr o w).2 = false.
Proof.
  intros Hf Hn Hx. destruct (GenerateMTLS env fr o w) as [w' [l|e]] eqn:Hg; [|done]. exfalso.
  unfold GenerateMTLS in Hg. cbv zeta in Hg. change (Force (mtls_defaults o)) with (Force o) in Hg. rewrite Hf in Hg.
  cbn [negb when] in Hg. io_ok. match goal with H : MkdirAll _ _ _ = _ |- _ => injection H as <- _ end.
  match goal with H : refuse_existing _ _ _ _ = (_, Ok ?u) |- _ => destruct u; apply refuse_existing_ok in H as [_ Hno] end.
  specialize (Hno eq_refl). rewrite Forall_forall in Hno. by rewrite (Hno n Hn) in Hx.
Qed.

(** What generating without [Force] may write over: temporary files, and files that cannot be examined,
    which count as absent. *)
Definition unseen (k : list string) : Prop := temporary k \/ stat_fails env k = true.

Lemma GenerateMTLS_retains fr o : Force o = false ->
  keeps (on_files (retains unseen)) (GenerateMTLS (N := N) env fr o).
Proof.
  intros Hf w. unfold GenerateMTLS. cbv zeta. set (o' := mtls_defaults o). pose proof (mtls_dir o) as Hd. fold o' in Hd.
  assert (Hf' : Force o' = false) by exact Hf. rewrite Hf'. cbn [negb when].
  unfold mbind at 1, io_bind at 1, wrapping, MkdirAll. destruct (mkdir_fails _ _); [done|].
  unfold mbind at 1, io_bind at 1.
  destruct (refuse_existing env (Dir o') (outputs (IncludeSampleClients o')) w) as [w1 [[]|e]] eqn:Er;
    apply refuse_existing_ok in Er as [-> Hno]; [|done].
  specialize (Hno eq_refl). rewrite Forall_forall in Hno.
  pose proof (outputs_names (IncludeSampleClients o')) as Hnm. rewrite Forall_forall in Hnm.
  set (Q k := temporary k \/ exists n, n ∈ outputs (IncludeSampleClients o') /\ k = at_dir (Dir o') n).
  apply (retains_apart unseen Q).
  { intros k [Hk|(n & Hn & ->)]; [by left; left|]. unfold unseen.
    destruct (stat_fails env (at_dir (Dir o') n)) eqn:Es; [by left; right|right]. apply absent_file; auto. }
  assert (HQ : forall n, n ∈ outputs (IncludeSampleClients o') -> Q (at_dir (Dir o') n)) by (intros n Hn; right; by exists n).
  assert (Htmp : forall k, temporary k -> Q k) by (intros k Hk; by left).
  destruct pair_names_ok as (Nca & Ns & Na & Nc).
  assert (Hb : forall n, n ∈ ["ca.crt"; "ca.key"; "server.crt"; "server.key"; "admin-client.crt"; "admin-client.key"] -> Q (at_dir (Dir o') n)).
  { intros n Hn. apply HQ. unfold outputs. apply elem_of_app. by left. }
  pose proof (fun der k => writePair_retains Q Htmp (Dir o') "ca" 420 256 der k Hd Nca ltac:(apply Hb; set_solver) ltac:(apply Hb; set_solver)).
  pose proof (fun fk tpl p s => issue_retains Q Htmp (Dir o') "server" "server" 256 fk tpl p s Hd Ns ltac:(apply Hb; set_solver) ltac:(apply Hb; set_solver)).
  pose proof (fun fk tpl p s => issue_retains Q Htmp (Dir o') "admin-client" "admin client" 384 fk tpl p s Hd Na ltac:(apply Hb; set_solver) ltac:(apply Hb; set_solver)).
  assert (IncludeSampleClients o' = true -> forall fk tpl p s, keeps (on_files (retains Q)) (issue (N := N) env (Dir o') "client" "client" 384 fk tpl p s)).
  { intros E fk tpl p s. apply issue_retains; try done; apply HQ; rewrite E; set_solver. }
  match goal with |- retains Q (files w) (files (?m w).1) => assert (Hm : keeps (on_files (retains Q)) m); [|exact (Hm w)] end.
  destruct (IncludeSampleClients o'); keeps.
Qed.

(** *** On a host without faults a forced run does not depend on the files *)

Section steady.
Hypothesis faultless : no_faults env.

Lemma writePair_steady dir base cm km der k : steady (writePair (N := N) env dir base cm km der k).
Proof using faultless. pose proof (fun p d m => writeFileAtomic_steady (N := N) env p d m faultless). unfold writePair. steady. Qed.
Lemma issue_steady dir base what km fk tpl parent signer :
  steady (issue (N := N) env dir base what km fk tpl parent signer).
Proof using faultless. pose proof writePair_steady. unfold issue. steady. Qed.
Lemma GenerateMTLS_steady fr o : Force o = true -> steady (GenerateMTLS (N := N) env fr o).
Proof using faultless.
  intros Hf. pose proof writePair_steady. pose proof issue_steady. unfold GenerateMTLS. cbv zeta.
  change (Force (mtls_defaults o)) with (Force o). rewrite Hf. cbn [negb when]. steady.
Qed.
End steady.

(** *** Roles *)

Lemma admin_role `{!PkiLaws} t days n org ou parent pub k der cert : ou <> "" ->
  create_certificate (admin_template t days n org ou) parent pub k = Some der -> Csr.ParseCertificate der = Some cert ->
  Role.adminClientAllowed ou cert = true.
Proof.
  intros Hou Hc Hp. apply Role.adminClientAllowed_true. split; [done|].
  rewrite (created_units _ _ _ _ _ _ Hc Hp). by apply list_elem_of_singleton.
Qed.

Lemma no_role `{!PkiLaws} tpl parent pub k der cert : pn_OU (pt_Subject tpl) = [] ->
  create_certificate tpl parent pub k = Some der -> Csr.ParseCertificate der = Some cert ->
  forall ou, Role.adminClientAllowed ou cert = false /\ Role.cliClientAllowed ou cert = false.
Proof.
  intros Hn Hc Hp ou. unfold Role.adminClientAllowed, Role.cliClientAllowed.
  rewrite (created_units _ _ _ _ _ _ Hc Hp), Hn. by destruct (ou =s "").
Qed.

Lemma mtls_admin_ou o : AdminClientOU (mtls_defaults o) <> "".
Proof. by apply Load.or_default_nonempty. Qed.


(** Generating without [Force] writes over nothing: whatever the random source, the disk and the
    directory do, and whether or not the run succeeds, every file that is there and can be examined
    keeps its contents. *)
Theorem mtls_never_overwrites fr o : Force o = false ->
  keeps (on_files (retains unseen)) (GenerateMTLS (N := N) env fr o).
Proof. apply GenerateMTLS_retains. Qed.
End facts.

(** ** An administrator's certificate from the CA on disk *)

Section admin.
Context {N : Type} (env : Environ) `{PkiLib, !CliCmd.RsaLib}.
Implicit Types w : World N.

Lemma loadCAKeyPair_ok cp kp w w' ca k : loadCAKeyPair env cp kp w = (w', Ok (ca, k)) -> w' = w /\
  exists f ty der, files w !! key env cp = Some f /\ Csr.pem_Decode (f_data f) = Some (ty, der) /\ Csr.ParseCertificate der = Some ca.
Proof.
  unfold loadCAKeyPair. intros Hl. io_ok.
  repeat match goal with H : context [let '(_, _) := ?p in _] |- _ => destruct p; io_ok end.
  repeat match goal with H : ReadFile _ _ _ = _ |- _ => apply ReadFile_file in H as (-> & ? & ? & ?) end.
  repeat match goal with H : or_err _ _ = Ok _ |- _ => apply or_err_ok in H end. subst.
  destruct (_ =s "RSA PRIVATE KEY"); [|destruct (_ =s "PRIVATE KEY"); [|done]]; io_ok;
    [|destruct (CliCmd.is_rsa _); [|done]; io_ok]; simplify_eq; (split; [done|]); by eexists _, _, _.
Qed.

(** A further administrator comes from the CA that is there: when [GenerateAdminClient] succeeds, its
    certificate is issued by the CA of [ca.crt] with the key of [ca.key], carries the unit that was asked for (by default the
    one the proxy asks of administrators) and so is accepted as an administrator's; besides its two
    files nothing changes, the CA and its key included, and without [Force] these two did not exist. *)
Theorem admin_client_from_ca `{!PkiLaws} fk t n o w w' l : tidy w -> GenerateAdminClient env fk t n o w = (w', Ok l) ->
  let o' := admin_defaults o in
  exists ca k der keyDER signer,
    loadCAKeyPair env (Join [a_Dir o'; "ca.crt"]) (Join [a_Dir o'; "ca.key"]) w = (w, Ok (ca, signer)) /\
    (exists f ty cader, files w !! key env (Join [a_Dir o'; "ca.crt"]) = Some f /\
       Csr.pem_Decode (f_data f) = Some (ty, cader) /\ Csr.ParseCertificate cader = Some ca) /\
    fk = Some k /\
    create_certificate (admin_template t (a_ValidityDays o') n (a_Organization o') (a_OU o')) (Some ca) (public_half k) signer = Some der /\
    leaves env (pair_files env (a_Dir o') "admin-client" 420 384 der keyDER) w w' /\
    (forall cert, Csr.ParseCertificate der = Some cert -> Role.adminClientAllowed (a_OU o') cert = true) /\
    (a_Force o = false -> Forall (fun name => fileExists env (Join [a_Dir o'; name]) w = false) ["admin-client.crt"; "admin-client.key"]).
Proof.
  intros Ht Hg o'. unfold GenerateAdminClient in Hg. cbv zeta in Hg. fold o' in Hg. io_ok.
  match goal with H : MkdirAll _ _ _ = _ |- _ => injection H as <- _ end.
  match goal with H : when _ _ ?w = (?v, Ok ?u) |- _ => destruct u;
    assert (Hno : v = w /\ (a_Force o = false -> Forall (fun name => fileExists env (Join [a_Dir o'; name]) w = false)
      ["admin-client.crt"; "admin-client.key"])) by
    (revert H; change (a_Force o') with (a_Force o); destruct (a_Force o); [by intros [= <-]|];
     by intros [-> Hx]%refuse_existing_ok; split; auto) end.
  destruct Hno as [-> Hno].
  match goal with H : loadCAKeyPair _ _ _ _ = (_, Ok ?p) |- _ => destruct p as [ca signer];
    pose proof H as Hld; apply loadCAKeyPair_ok in H as [-> Hca] end.
  apply issue_leaves in Hg as (k & der & kd & -> & Hc & _ & Hl); [|apply Clean_nonempty|apply pair_names_ok|done].
  exists ca, k, der, kd, signer. do 5 (split; [done|]). split; [|done].
  intros cert. eapply admin_role; [|exact Hc]. by apply Load.or_default_nonempty.
Qed.
End admin.

(** ** A concrete PKI *)
Module PkiDemo.
Import Demo Csr.CsrDemo SystemdDemo.

(** A certificate is its subject's units, separated by commas. *)
#[export] Instance demo_pki : PkiLib := {|
  create_certificate tpl parent pub k :=
    let ou := pn_OU (pt_Subject tpl) in if decide (split (join ou) = ou) then Some (bytes_of (join ou)) else None;
  public_half _ := Csr.PubOther [];
  MarshalPKCS8PrivateKey _ := Some (bytes_of "key")
|}.

#[export] Instance demo_pki_laws : PkiLaws.
Proof.
  constructor. intros tpl parent pub k der cert Hd [= <-]. cbn in Hd. case_decide as E; simplify_eq. cbn. by rewrite string_of_bytes_of.
Qed.

Definition root_host : Environ := mkEnviron (fun _ => "") 0 (Some "/root") ["root"] 18
  (fun _ => false) (fun _ => false) (fun _ => NoFault) (fun _ => false) (fun _ => false) (fun _ => false) (fun _ => false)
  (fun _ => true).
(** A disk without certificates. *)
Definition disk : World accounts := mkWorld ∅ [] [] [].
Definition drawn : PkiFresh := mkPkiFresh _ (Some tt) (Some tt) (Some tt) (Some tt) id 0.
Definition wanted : MTLSOptions := mkMTLS "/etc/luna/certs" false "" "" "luna.example" ["luna.example"] "" 0 true.

Lemma disk_tidy : tidy disk.
Proof. done. Qed.


(** A CA that is there already. *)
Definition old_file (s : string) : File := mkFile (bytes_of s) 292 None.
Definition settled : World accounts := mkWorld (<[["ca.crt"; "certs"; "luna"; "etc"] := old_file "CERTIFICATE:"]>
  (<[["ca.key"; "certs"; "luna"; "etc"] := old_file "PRIVATE KEY:k"]> ∅)) [] [] [].

Lemma mtls_never_overwrites_witness : exists f,
  files (GenerateMTLS root_host drawn wanted settled).1 !! ["ca.crt"; "certs"; "luna"; "etc"] = Some f /\
  f_data f = bytes_of "CERTIFICATE:".
Proof.
  apply (mtls_never_overwrites root_host drawn wanted eq_refl settled ["ca.crt"; "certs"; "luna"; "etc"] (old_file "CERTIFICATE:"));
    [|reflexivity].
  intros [Ht%temporary_suffix|Hs]; [vm_compute in Ht; discriminate Ht|discriminate Hs].
Defined.

#[local] Instance demo_rsa : CliCmd.RsaLib := {|
  CliCmd.MarshalPKCS1PrivateKey _ := [];
  CliCmd.CreateCertificateRequest name _ := Some [];
  CliCmd.is_rsa _ := true;
  CliCmd.rsa_N _ := 2 ^ 2047
|}.
Definition drawn_key : option Csr.PrivateKey := Some tt.
Definition another : AdminClientOptions := mkAdminClient "/etc/luna/certs" false "" "" 0.

Lemma settled_tidy : tidy settled.
Proof.
  intros k Ht. unfold settled. cbn [files]. rewrite !lookup_insert_ne; [done|..]; intros <-; apply temporary_suffix in Ht;
    vm_compute in Ht; discriminate Ht.
Qed.

Lemma admin_client_from_ca_witness : exists w' l der,
  GenerateAdminClient root_host drawn_key 0 7 another settled = (w', Ok l) /\
  forall cert, Csr.ParseCertificate der = Some cert -> Role.adminClientAllowed "luna-admin" cert = true.
Proof.
  destruct (io_run (GenerateAdminClient root_host drawn_key 0 7 another) settled) as (w' & l & E); [vm_compute; reflexivity|].
  destruct (admin_client_from_ca root_host drawn_key 0 7 another settled w' l settled_tidy E)
    as (_ & _ & der & _ & _ & _ & _ & _ & _ & _ & Hr & _).
  exists w', l, der. split; [exact E|exact Hr].
Defined.
End PkiDemo.
End Pki.
