(* ===== verification/ProxySetup.v ===== *)
(** * Setting up a proxy (proxy/internal/setup: options.go, proxy_config.go, run.go, interactive.go;
      proxy/cmd/luna-proxy: setup.go, install.go)

    [Run] makes the PKI, writes [proxy.yml] and installs the service; [RunInteractive] asks for its
    options and the commands call them with the flags.  Printed text is kept only where it is the
    command's result.  The owner of a file is not part of the world, its group is. *)

From Stdlib Require Import Ascii.
From coqutil Require Import Datatypes.RecordSetters.
From S2P Require Import Prelude GoTime GoStrings GoUtf8 GoEncoding GoJson GoFormat GoPath GoDuration GoOs External Fingerprint Config Csr GoNet ConfigLoad CliCmd GoPrompt Systemd GoYaml ProxyPki.

(** ** [strconv.Quote], which [%q] prints *)

(** [unicode.IsPrint] beyond ASCII *)
Class UnicodeLib := { is_print : Z -> bool }.

Definition hex_fixed (digits : nat) (v : Z) : list byte :=
  rev (map (fun i => Ascii.byte_of_ascii (default "0"%char (String.get (Z.to_nat (Z.land (Z.shiftr v (4 * Z.of_nat i)) 15)) "0123456789abcdef")))
         (seq 0 digits)).

Section quote.
Context `{UnicodeLib}.

Definition IsPrint (r : Z) : bool := if r <? 128 then (32 <=? r) && (r <=? 126) else is_print r.

(** [appendEscapedRune]; [raw] are the bytes of the rune. *)
Definition escape_rune (r : Z) (raw : list byte) : list byte :=
  if (r =? 34) || (r =? 92) then Byte.x5c :: raw else
  if IsPrint r then raw else
  if r =? 7 then bytes_of "\a" else if r =? 8 then bytes_of "\b" else if r =? 12 then bytes_of "\f" else
  if r =? 10 then bytes_of "\n" else if r =? 13 then bytes_of "\r" else if r =? 9 then bytes_of "\t" else
  if r =? 11 then bytes_of "\v" else
  if (r <? 32) || (r =? 127) then bytes_of "\x" ++ hex_fixed 2 r else
  if r <? 65536 then bytes_of "\u" ++ hex_fixed 4 r else bytes_of "\U" ++ hex_fixed 8 r.

(** A byte that starts no rune is printed in hexadecimal; [skip] bytes belong to the rune just printed. *)
Fixpoint quote_bytes (skip : nat) (l : list byte) : list byte :=
  match l with
  | [] => []
  | b :: l' =>
      match skip with
      | S n => quote_bytes n l'
      | O =>
          let '(r, size) := decode_rune b l' in
          (if (r =? RuneError) && (size =? 1)%nat && (128 <=? byte_val b) then bytes_of "\x" ++ hex_fixed 2 (byte_val b)
           else escape_rune r (b :: take (size - 1) l')) ++ quote_bytes (size - 1) l'
      end
  end.

Definition Quote (s : string) : string := string_of (Byte.x22 :: quote_bytes 0 (bytes_of s) ++ [Byte.x22]).
End quote.

Module ProxySetup.
Import Pki.

(** ** Options (options.go) *)

Definition envProduction : string := "production".
Definition envDev : string := "dev".

Record Options := mkOptions {
  Env : string;
  Hostname : string;
  ListenAddr : string;
  SignerMode : string;
  KeyPath : string;
  TelegramBotToken : string;
  TelegramWebhookSecret : string;
  TelegramChatID : string;
  CertsDir : string;
  ConfigPath : string;
  EnrollToken : string;
  IncludeLocalhostSAN : bool;
  SkipSampleClients : bool;
  ForceAll : bool;                        (* [Force] *)
  RewriteConfig : bool;
  InstallSystemd : bool;
  SystemdEnable : bool;
  SkipUserCreate : bool
}.

Definition noOptions : Options :=
  mkOptions "" "" "" "" "" "" "" "" "" "" "" false false false false false false false.

Record Result := mkResult { r_CertsDir : string; r_ConfigPath : string; r_EnrollToken : string; r_Hostname : string }.

Definition NormalizeHostname (s : string) : string :=
  let s := TrimSpace s in
  let s := TrimPrefix s "https://" in
  let s := TrimPrefix s "http://" in
  TrimSpace (cut_at ":"%char (cut_at "/"%char s)).

Definition defaultKeyPath (signerMode : string) : string :=
  if signerMode =s "local-key" then "/etc/luna/ssh/encrypted_host.key" else "/etc/luna/ssh/encrypted_ca.key".

Definition defaultPublicProxyURL (hostname listenAddr : string) : string :=
  let port := if HasPrefix listenAddr ":" then TrimPrefix listenAddr ":" else "8443" in
  "https://" +:+ hostname +:+ ":" +:+ port.

(** [strings.ReplaceAll] of the quote by an escaped one, between quotes *)
Definition yamlQuote (s : string) : string :=
  quote +:+ string_of (concat (map (fun b => if decide (b = Byte.x22) then [Byte.x5c; b] else [b]) (bytes_of s))) +:+ quote.

(** *** proxy.yml (proxy_config.go) *)

Definition ErrConfigExists : error := ENew "setup" "proxy config already exists".

Record ProxyConfigOptions := mkProxyConfig {
  p_Path : string;
  p_Force : bool;
  p_EnrollToken : string;
  p_Env : string;
  p_Hostname : string;
  p_ListenAddr : string;
  p_SignerMode : string;
  p_KeyPath : string;
  p_TelegramBotToken : string;
  p_TelegramWebhookSecret : string;
  p_TelegramChatID : string;
  p_ControlSocket : string;
  p_ControlSocketGroup : string;
  p_AdminClientOU : string;
  p_ApprovalTimeout : string;
  p_User : string;
  p_Group : string
}.

Definition config_defaults (o : ProxyConfigOptions) : ProxyConfigOptions :=
  let mode := or_default (p_SignerMode o) "local-ca" in
  mkProxyConfig (Clean (if TrimSpace (p_Path o) =s "" then Load.DefaultProxyConfigPath else p_Path o)) (p_Force o)
    (p_EnrollToken o) (or_default (p_Env o) envProduction) (p_Hostname o) (or_default (p_ListenAddr o) ":8443") mode
    (or_default (p_KeyPath o) (defaultKeyPath mode)) (p_TelegramBotToken o) (p_TelegramWebhookSecret o) (p_TelegramChatID o)
    (or_default (p_ControlSocket o) Load.ProductionControlSocket) (or_default (p_ControlSocketGroup o) "luna-admin")
    (or_default (p_AdminClientOU o) "luna-admin") (or_default (p_ApprovalTimeout o) "60s") (p_User o)
    (if (p_Group o =s "") && negb (p_User o =s "") then p_User o else p_Group o).

Definition DefaultCerts : string := Load.DefaultCertsDir.

Section render.
Context `{UnicodeLib}.

Definition renderProxyConfig (enrollToken : string) (o : ProxyConfigOptions) : string := text_of (
  ["# Luna Z-Trust — luna-proxy"; "# Generated by luna-proxy setup"] ++
  (if negb (p_Hostname o =s "")
   then ["# Public hostname: " +:+ p_Hostname o +:+ " (mTLS server certificate SAN)";
         "# Agent proxy_url: " +:+ defaultPublicProxyURL (p_Hostname o) (p_ListenAddr o)] else []) ++
  ["#"; "# Agent bootstrap: export LUNA_MTLS_ENROLL_TOKEN='" +:+ enrollToken +:+ "'"; "";
   "env: " +:+ Quote (p_Env o); "";
   "listen_addr: " +:+ Quote (p_ListenAddr o);
   "control_socket: " +:+ Quote (p_ControlSocket o);
   "control_socket_group: " +:+ Quote (p_ControlSocketGroup o); "";
   "signer_mode: " +:+ Quote (p_SignerMode o);
   "key_path: " +:+ Quote (p_KeyPath o);
   "admin_client_ou: " +:+ Quote (p_AdminClientOU o);
   "approval_timeout: " +:+ p_ApprovalTimeout o; "";
   "telegram_bot_token: " +:+ yamlQuote (p_TelegramBotToken o);
   "telegram_chat_id: " +:+ yamlQuote (p_TelegramChatID o); "";
   "mtls_enroll_token: " +:+ yamlQuote enrollToken; "";
   "# mTLS cert paths default to /etc/luna/certs/ after setup (override if --dir differs):";
   "# mtls_server_cert: " +:+ DefaultCerts +:+ "/server.crt";
   "# mtls_server_key: " +:+ DefaultCerts +:+ "/server.key";
   "# mtls_client_ca: " +:+ DefaultCerts +:+ "/ca.crt";
   "# mtls_ca_cert_path: " +:+ DefaultCerts +:+ "/ca.crt";
   "# mtls_ca_key_path: " +:+ DefaultCerts +:+ "/ca.key"]).
End render.

(** What a whole set-up draws: the PKI's keys and numbers, and 32 bytes for a token. *)
Record Fresh `{Csr.X509Lib} := mkFresh { pki : PkiFresh; token_bytes : option (list byte) }.

Definition GenerateEnrollToken (bytes : option (list byte)) : result string :=
  b ← or_err bytes (errorf "generate enroll token"); Ok (HexEncodeToString b).

Section setup.
Context {N : Type} (env : Environ) (sys : Sys N) (tty : bool).
Context `{ViperLib, UnicodeLib, PkiLib}.
Notation W := (World N).

Definition defaultUserConfigDir : string :=
  match UserConfigDir env with
  | Some dir => dir +:+ "/luna"
  | None => default "" (UserHomeDir env) +:+ "/.config/luna"
  end.
Definition defaultUserCertsDir : string := defaultUserConfigDir +:+ "/certs".
Definition defaultUserProxyConfigPath : string := defaultUserConfigDir +:+ "/proxy.yml".

Definition withDefaults (o : Options) : Options :=
  let root := Geteuid env =? 0 in
  let mode := or_default (SignerMode o) "local-ca" in
  o {{ Env := or_default (Env o) envProduction;
       ListenAddr := or_default (ListenAddr o) ":8443";
       SignerMode := mode;
       CertsDir := TrimSpace (or_default (CertsDir o) (if root then Load.DefaultCertsDir else defaultUserCertsDir));
       ConfigPath := TrimSpace (or_default (ConfigPath o) (if root then Load.DefaultProxyConfigPath else defaultUserProxyConfigPath));
       KeyPath := or_default (KeyPath o) (defaultKeyPath mode);
       Hostname := NormalizeHostname (Hostname o) }}.

Definition Validate (o : Options) : result unit :=
  let o := withDefaults o in
  if Hostname o =s "" then Err (errorf "hostname is required (used for mTLS server certificate DNS name)") else
  if negb (Env o =s envDev) && (TrimSpace (TelegramBotToken o) =s "")
  then Err (errorf "telegram_bot_token is required in production (or choose env=dev for lab only)") else
  if negb (Env o =s envDev) && (TrimSpace (TelegramChatID o) =s "")
  then Err (errorf "telegram_chat_id is required in production") else
  if negb (SignerMode o =s "local-ca") && negb (SignerMode o =s "local-key")
  then Err (errorf "signer_mode must be local-ca or local-key") else Ok tt.

(** An account that is unknown, or whose number is not one, is skipped. *)
Definition chownProxyConfig (path username group : string) : IO W unit := fun w =>
  match user_Lookup sys username (nw w), group_Lookup sys group (nw w) with
  | Some uid, Some gid =>
      match Sscanf_d uid, Sscanf_d gid with
      | Some _, Some g => wrapping ("chown " +:+ path) (Chgrp env path g) w
      | _, _ => (w, Ok tt)
      end
  | _, _ => (w, Ok tt)
  end.

Record ProxyConfigResult := mkConfigResult { pr_Path : string; pr_EnrollToken : string }.

Definition WriteProxyConfig (bytes : option (list byte)) (o : ProxyConfigOptions) : IO W ProxyConfigResult :=
  let o := config_defaults o in
  let path := p_Path o in
  found ← (if p_Force o then mret false else test (fileExists env path));
  if (found : bool) then fail (EWrap (error_text ErrConfigExists +:+ ": " +:+ path) ErrConfigExists) else
  let token := TrimSpace (p_EnrollToken o) in
  token ← (if token =s "" then lift (GenerateEnrollToken bytes) else mret token);
  let body := renderProxyConfig token o in
  _ ← wrapping ("mkdir " +:+ GoPath.Dir path) (MkdirAll env (GoPath.Dir path));
  _ ← writeFileAtomic env path (bytes_of body) 384;
  _ ← (if negb (p_User o =s "") then chownProxyConfig path (p_User o) (p_Group o) else mret tt);
  mret (mkConfigResult path token).

(** ** Run (run.go) *)

Definition force (o : Options) : bool := ForceAll o || RewriteConfig o.

Definition mtls_options (o : Options) : MTLSOptions :=
  mkMTLS (CertsDir o) (force o) "" "" (Hostname o)
    (Hostname o :: if IncludeLocalhostSAN o then ["localhost"] else []) "" 0 (negb (SkipSampleClients o)).

Definition config_options (o : Options) : ProxyConfigOptions :=
  mkProxyConfig (ConfigPath o) (force o) (EnrollToken o) (Env o) (Hostname o) (ListenAddr o) (SignerMode o) (KeyPath o)
    (TelegramBotToken o) (TelegramWebhookSecret o) (TelegramChatID o) "" "" "" "" "luna" "luna".

Definition service_options (o : Options) : ProxyInstall.SystemdOptions :=
  ProxyInstall.mkSystemd "" (ConfigPath o) "" "" "" (CertsDir o) false (SystemdEnable o) (SkipUserCreate o).

Definition install_service (o : Options) : IO W unit :=
  if InstallSystemd o then
    if negb (Geteuid env =? 0) then fail (errorf "install systemd: must run as root (sudo luna-proxy setup)") else
    _ ← ProxyInstall.EnsureCertPermissions env sys (CertsDir o) "luna";
    _ ← ProxyInstall.InstallProxySystemd env sys (service_options o);
    mret tt
  else mret tt.

Definition Run (fr : Fresh) (o : Options) : IO W Result :=
  let o := withDefaults o in
  _ ← lift (Validate o);
  _ ← wrapping "mTLS" (GenerateMTLS env (pki fr) (mtls_options o));
  cfg ← wrapping "proxy.yml" (WriteProxyConfig (token_bytes fr) (config_options o));
  _ ← install_service o;
  mret (mkResult (CertsDir o) (pr_Path cfg) (pr_EnrollToken cfg) (Hostname o)).

Definition EnsureCertDirLayout (certsDir : string) : IO W unit := MkdirAll env (Clean certsDir).

(** ** The wizard (interactive.go) *)

Definition configDefaultPath : string :=
  if Geteuid env =? 0 then "/etc/luna/proxy.yml" else defaultUserProxyConfigPath.

Definition read_file (w : W) (p : string) : option (list byte) :=
  match (ReadFile env p w).2 with Ok d => Some d | Err _ => None end.

(** A configuration that cannot be read counts as none. *)
Definition loadExistingProxyConfig (path : string) (w : W) : Options :=
  let path := or_default path configDefaultPath in
  if negb (fileExists env path w) then noOptions else
  match (data ← read_file w path; ReadInConfig path data viper_New) with
  | None => noOptions
  | Some v =>
      let get := GetString (Getenv env) v in
      noOptions {{ Env := get "env"; ListenAddr := get "listen_addr"; SignerMode := get "signer_mode";
                   KeyPath := get "key_path"; TelegramBotToken := get "telegram_bot_token";
                   TelegramWebhookSecret := get "telegram_webhook_secret"; TelegramChatID := get "telegram_chat_id";
                   ConfigPath := path; EnrollToken := get "mtls_enroll_token" }}
  end.

Definition envChoiceIndex (e : string) : nat := if e =s envDev then 1 else 0.
Definition signerChoiceIndex (mode : string) : nat := if mode =s "local-key" then 1 else 0.

(** The environment, the names and the signer *)
Definition ask_server (o existing : Options) : IO W Options :=
  e ← ProxyPrompt.askChoice [envProduction; envDev] (envChoiceIndex (firstNonEmpty [Env o; Env existing; envProduction]));
  host ← ProxyPrompt.askString (firstNonEmpty [Hostname o; Hostname existing]);
  let host := NormalizeHostname host in
  if host =s "" then fail (errorf "hostname is required") else
  listen ← ProxyPrompt.askString (firstNonEmpty [ListenAddr o; ListenAddr existing; ":8443"]);
  signer ← ProxyPrompt.askChoice ["local-ca"; "local-key"]
             (signerChoiceIndex (firstNonEmpty [SignerMode o; SignerMode existing; "local-ca"]));
  keyPath ← ProxyPrompt.askString (firstNonEmpty [KeyPath o; KeyPath existing; defaultKeyPath signer]);
  mret (o {{ Env := e; Hostname := host; ListenAddr := listen; SignerMode := signer; KeyPath := keyPath }}).

(** Telegram, and the paths *)
Definition ask_places (o existing : Options) : IO W Options :=
  token ← ProxyPrompt.askString (firstNonEmpty [TelegramBotToken o; TelegramBotToken existing]);
  chat ← ProxyPrompt.askString (firstNonEmpty [TelegramChatID o; TelegramChatID existing]);
  certs ← ProxyPrompt.askString (firstNonEmpty [CertsDir o; CertsDir existing; CertsDir o]);
  cfg ← ProxyPrompt.askString (firstNonEmpty [ConfigPath o; ConfigPath existing; ConfigPath o]);
  localhost ← ProxyPrompt.askYesNo true;
  mret (o {{ TelegramBotToken := token; TelegramChatID := chat; CertsDir := Clean certs; ConfigPath := cfg;
             IncludeLocalhostSAN := localhost; SkipSampleClients := true }}).

Definition ask_service (o : Options) (assumeYes : bool) : IO W Options :=
  if Geteuid env =? 0 then
    there ← test (fileExists env (ConfigPath o));
    install ← ProxyPrompt.askYesNo (assumeYes || negb there);
    let o := o {{ InstallSystemd := install }} in
    if (install : bool) then
      enable ← ProxyPrompt.askYesNo true;
      mret (o {{ SystemdEnable := enable }})
    else mret o
  else mret o.

Definition RunInteractive (prefill : Options) (assumeYes : bool) : IO W Options :=
  let o := withDefaults prefill in
  existing ← look (fun w => Ok (loadExistingProxyConfig (ConfigPath o) w));
  o ← ask_server o existing;
  o ← ask_places o existing;
  o ← ask_service o assumeYes;
  there ← test (fun w => fileExists env (Join [CertsDir o; "ca.crt"]) w || fileExists env (ConfigPath o) w);
  let o := o {{ RewriteConfig := true; ForceAll := there }} in
  _ ← lift (Validate o);
  ok ← (if assumeYes then mret true else ProxyPrompt.askYesNo true);
  if (ok : bool) then mret o else fail (errorf "setup cancelled").

(** ** Commands (cmd/luna-proxy: setup.go, install.go) *)

Record SetupFlags := mkFlags { f_options : Options; NonInteractive : bool; AssumeYes : bool }.

(** No flag sets the webhook's secret or the rewriting; the two lists of names are fixed. *)
Definition flagsToSetupOptions (f : SetupFlags) : Options :=
  (f_options f) {{ TelegramWebhookSecret := ""; RewriteConfig := false; IncludeLocalhostSAN := true; SkipSampleClients := true }}.

Definition validateSetupNonInteractive (o : Options) : result unit :=
  if NormalizeHostname (Hostname o) =s "" then Err (errorf "--hostname is required in non-interactive mode") else Validate o.

Definition setup_options (f : SetupFlags) : IO W Options :=
  let o := flagsToSetupOptions f in
  if negb (NonInteractive f) && tty then RunInteractive o (AssumeYes f)
  else _ ← lift (validateSetupNonInteractive o); mret o.

Definition runSetupAll (fr : Fresh) (f : SetupFlags) : IO W unit :=
  o ← setup_options f;
  if InstallSystemd o && negb (Geteuid env =? 0) then fail (errorf "install systemd requires root (sudo luna-proxy setup)") else
  _ ← Run fr o;
  mret tt.

Definition home_path (file fallback : string) : string :=
  match UserHomeDir env with
  | None => fallback
  | Some home => TrimSpace home +:+ file
  end.
Definition defaultProxyConfigPath : string :=
  if Geteuid env =? 0 then Load.DefaultProxyConfigPath else home_path "/.config/luna/proxy.yml" "./proxy.yml".
Definition defaultSetupDir : string :=
  if Geteuid env =? 0 then Load.DefaultCertsDir else home_path "/.config/luna/certs" "./certs".

(** A file that exists is reported with the way to replace it. *)
Definition suggest_force {A} (sentinel : error) (m : IO W A) : IO W A :=
  r ← try m;
  match r with
  | Ok a => mret a
  | Err e => if errors_is e sentinel then fail (EWrap (error_text e +:+ " — re-run with --force") e) else fail e
  end.

(** The files, and the hints that are printed *)
Definition runSetupMTLS (fr : PkiFresh) (o : MTLSOptions) (hints : bool) : IO W (list string * string) :=
  let dir := or_default (Dir o) defaultSetupDir in
  match ServerDNSNames o with
  | [] => fail (errorf "specify --san with your public hostname (localhost-only breaks remote agents)")
  | _ =>
      res ← suggest_force ErrExists (GenerateMTLS env fr (mkMTLS dir (Force o) (CACommonName o) (Organization o) (ServerCommonName o)
               (ServerDNSNames o) (AdminClientOU o) (ValidityDays o) (IncludeSampleClients o)));
      mret (res, if hints then ProxyYAMLHints dir else "")
  end.

Definition runSetupConfigOnly (bytes : option (list byte)) (path token listen signer e hostname : string) (overwrite : bool)
    : IO W ProxyConfigResult :=
  let path := or_default path defaultProxyConfigPath in
  suggest_force ErrConfigExists (WriteProxyConfig bytes
    (mkProxyConfig path overwrite token e hostname listen signer "" "" "" "" "" "" "" "" "" "")).

Context `{!CliCmd.RsaLib}.

Definition runSetupAdminClient (fk : option Csr.PrivateKey) (t n : Z) (dir ou : string) (overwrite : bool) : IO W (list string) :=
  let dir := or_default dir defaultSetupDir in
  suggest_force ErrExists (GenerateAdminClient env fk t n (mkAdminClient dir overwrite ou "" 0)).

(** [luna-proxy install systemd]: the flags are the options; no flag names the certificate directory. *)
Definition runInstallSystemd (o : ProxyInstall.SystemdOptions) : IO W string :=
  ProxyInstall.InstallProxySystemd env sys (ProxyInstall.mkSystemd (ProxyInstall.BinaryPath o) (ProxyInstall.ConfigPath o)
    (ProxyInstall.User o) (ProxyInstall.Group o) (ProxyInstall.UnitPath o) "" (ProxyInstall.DryRun o) (ProxyInstall.Enable o)
    (ProxyInstall.SkipUserCreate o)).
End setup.

(** ** What a set-up keeps *)

Section facts.
Context {N : Type} (env : Environ) (sys : Sys N) (tty : bool).
Context `{ViperLib, UnicodeLib, PkiLib}.
Implicit Types w : World N.

Definition unit_key : list string := key env "/etc/systemd/system/luna-proxy.service".
Definition config_key (o : Options) : list string := key env (p_Path (config_defaults (config_options o))).

Lemma chownProxyConfig_retains T path u g : keeps (on_files (retains T)) (chownProxyConfig (N := N) env sys path u g).
Proof.
  intros w. unfold chownProxyConfig. destruct (user_Lookup sys u (nw w)) as [uid|], (group_Lookup sys g (nw w)) as [gid|]; try done.
  destruct (Sscanf_d uid) as [|], (Sscanf_d gid) as [gz|]; try done.
  assert (Hk : keeps (on_files (retains T)) (wrapping ("chown " +:+ path) (Chgrp (N := N) env path gz))) by keeps. exact (Hk w).
Qed.

Lemma chownProxyConfig_nw path u g w : nw (chownProxyConfig env sys path u g w).1 = nw w.
Proof.
  unfold chownProxyConfig. destruct (user_Lookup sys u (nw w)) as [uid|], (group_Lookup sys g (nw w)) as [gid|]; try done.
  destruct (Sscanf_d uid) as [|], (Sscanf_d gid) as [gz|]; try done. unfold wrapping, Chgrp.
  destruct (chmod_fails _ _); [done|]. by destruct (files w !! _).
Qed.
#[local] Hint Resolve chownProxyConfig_retains : keeps.

Lemma InstallProxySystemd_retains (T : list string -> Prop) o :
  T (key env (ProxyInstall.UnitPath (ProxyInstall.withDefaults o))) ->
  keeps (on_files (retains T)) (ProxyInstall.InstallProxySystemd env sys o).
Proof.
  intros HT. unfold ProxyInstall.InstallProxySystemd, ProxyInstall.prepareServiceUser, ProxyInstall.EnsureCertPermissions,
    ProxyInstall.EnsureDefaultProxyConfig, AgentInstall.write_unit. keeps.
Qed.

Lemma proxy_install_service_retains (T : list string -> Prop) o : T unit_key -> keeps (on_files (retains T)) (install_service env sys o).
Proof.
  intros HT. pose proof (InstallProxySystemd_retains T (service_options o) HT) as Hi.
  unfold install_service, ProxyInstall.EnsureCertPermissions. keeps.
Qed.

Lemma WriteProxyConfig_retains (T : list string -> Prop) b o : (forall k, unseen env k -> T k) -> p_Force o = false ->
  keeps (on_files (retains T)) (WriteProxyConfig env sys b o).
Proof.
  intros HT Hf. unfold WriteProxyConfig. cbv zeta. change (p_Force (config_defaults o)) with (p_Force o). rewrite Hf.
  apply guarded_retains; [intros Hs; apply HT; by right|apply keeps_fail; apply _|].
  pose proof (fun d m => writeFileAtomic_retains (N := N) env (fun k => k = key env (p_Path (config_defaults o)) \/ T k)
    (p_Path (config_defaults o)) d m (or_introl eq_refl) (fun k Hk => or_intror (HT k (or_introl Hk)))) as Hw. keeps.
Qed.

(** Forced or not, only the configuration is written. *)
Lemma WriteProxyConfig_writes (T : list string -> Prop) b o : (forall k, temporary k -> T k) ->
  T (key env (p_Path (config_defaults o))) -> keeps (on_files (retains T)) (WriteProxyConfig env sys b o).
Proof.
  intros HT Hp. pose proof (fun d m => writeFileAtomic_retains (N := N) env T _ d m Hp HT). unfold WriteProxyConfig. keeps.
Qed.

(** C32: Setting up a proxy again is safe: without [Force] (and without the wizard, which sets
    [RewriteConfig]) no file that is there changes its contents, whatever fails on the way, except for
    temporary files, the service's unit when the service is installed, and files that [os.Stat] cannot
    examine: for any error of it the code takes the file to be absent, and writes it. *)
Theorem proxy_setup_keeps_files fr o : force o = false ->
  keeps (on_files (retains (fun k => temporary k \/ stat_fails env k = true \/ InstallSystemd o = true /\ k = unit_key)))
    (Run env sys fr o).
Proof.
  intros Hf. unfold Run. cbv zeta. set (o' := withDefaults env o).
  set (T k := temporary k \/ stat_fails env k = true \/ InstallSystemd o = true /\ k = unit_key).
  assert (Hu : forall k, unseen env k -> T k) by (intros k [?|?]; [by left|right; by left]).
  assert (Hg : keeps (on_files (retains T)) (GenerateMTLS (N := N) env (pki fr) (mtls_options o'))).
  { intros w. eapply retains_weaken; [exact Hu|]. apply (GenerateMTLS_retains env (pki fr) (mtls_options o') Hf w). }
  assert (Hw : keeps (on_files (retains T)) (WriteProxyConfig env sys (token_bytes fr) (config_options o'))).
  { by apply WriteProxyConfig_retains. }
  assert (Hi : keeps (on_files (retains T)) (install_service env sys o')).
  { destruct (InstallSystemd o) eqn:E; [apply proxy_install_service_retains; right; right; by split|].
    unfold install_service. change (InstallSystemd o') with (InstallSystemd o). rewrite E. apply keeps_ret; apply _. }
  keeps.
Qed.

(** ** What a set-up leaves *)

Lemma WriteProxyConfig_ok b o w w' res : WriteProxyConfig env sys b o w = (w', Ok res) ->
  let c := config_defaults o in let token := TrimSpace (p_EnrollToken o) in
  nw w' = nw w /\ pr_Path res = p_Path c /\
  (if token =s "" then exists l, b = Some l /\ pr_EnrollToken res = HexEncodeToString l else pr_EnrollToken res = token) /\
  (exists f, files w' !! key env (p_Path c) = Some f /\ f_data f = bytes_of (renderProxyConfig (pr_EnrollToken res) c)) /\
  retains (fun k => k = key env (p_Path c) \/ temporary k) (files w) (files w').
Proof.
  intros Hw c token. unfold WriteProxyConfig in Hw. cbv zeta in Hw. fold c in Hw. change (p_EnrollToken c) with (p_EnrollToken o) in Hw.
  fold token in Hw. io_ok.
  match goal with H : (if p_Force c then _ else _) _ = (?v, _) |- _ =>
    assert (v = w) as -> by (destruct (p_Force c); [by injection H as <-|by injection H as <-]); clear H end.
  match goal with H : (if ?x then fail _ else _) _ = _ |- _ => destruct x; [done|] end. io_ok.
  match goal with H : (if token =s "" then _ else _) w = (?v, Ok ?t) |- _ =>
    assert (v = w /\ (if token =s "" then exists l, b = Some l /\ t = HexEncodeToString l else t = token)) as [-> Ht] by
    (destruct (token =s ""); [|by injection H as <- <-]; unfold lift in H; injection H as <- Hg; split; [done|];
     unfold GenerateEnrollToken in Hg; apply bind_ok in Hg as (l & Hl & [= <-]); apply or_err_ok in Hl; by exists l) end.
  match goal with H : MkdirAll _ _ _ = _ |- _ => injection H as <- _ end.
  match goal with H : writeFileAtomic _ _ _ _ _ = (?v, Ok ?u) |- _ => destruct u;
    pose proof (keeps_run _ _ _ _ _ (writeFileAtomic_retains (N := N) env (fun k => k = key env (p_Path c) \/ temporary k) _ _ _ (or_introl eq_refl) (fun k Hk => or_intror Hk)) H) as Hr;
    apply writeFileAtomic_cases in H as (_ & _ & Hnw & _ & g & Hg) end.
  match goal with H : (if negb (p_User c =s "") then _ else _) ?v = (?v', _) |- _ =>
    assert (nw v' = nw v /\ retains (fun _ => False) (files v) (files v')) as [Hn' Hr'] by
    (revert H; destruct (p_User c =s ""); cbn [negb]; [by intros [= <- _]|]; intros H;
     split; [by rewrite <- (chownProxyConfig_nw (p_Path c) (p_User c) (p_Group c) v), H|];
     exact (keeps_run _ _ _ _ _ (chownProxyConfig_retains _ _ _ _) H)) end.
  subst. cbn [pr_Path pr_EnrollToken]. split; [congruence|]. do 2 (split; [done|]). split.
  - destruct (Hr' _ _ ltac:(tauto) Hg) as (f & Hf & Hd). exists f. split; [done|]. by rewrite Hd.
  - intros k f Hk Hf. destruct (Hr k f Hk Hf) as (f1 & Hf1 & E1). destruct (Hr' k f1 ltac:(tauto) Hf1) as (f2 & Hf2 & E2).
    exists f2. split; [done|]. congruence.
Qed.

(** The enrollment token of a run: the one that was given, or one that was drawn. *)
Definition token_of (given : string) (drawn : option (list byte)) (token : string) : Prop :=
  if TrimSpace given =s "" then exists l, drawn = Some l /\ token = HexEncodeToString l else token = TrimSpace given.

(** The certificates of a run have these contents, unless the configuration or the unit is in their place. *)
Definition pki_written (fr : PkiFresh) (o : Options) w : Prop :=
  let m := mtls_defaults (mtls_options o) in
  exists ck caDER ca fs, caKey fr = Some ck /\
    create_certificate (ca_template fr m) None (public_half ck) ck = Some caDER /\ Csr.ParseCertificate caDER = Some ca /\
    pki_files env fr m caDER ca ck fs /\
    forall k d mode, (k, (d, mode)) ∈ fs -> k <> config_key o -> k <> unit_key -> exists f, files w !! k = Some f /\ f_data f = d.

Lemma Run_ok fr o w w' r : tidy w -> Run env sys fr o w = (w', Ok r) ->
  let o' := withDefaults env o in let c := config_defaults (config_options o') in
  Validate env o' = Ok tt /\ r = mkResult (CertsDir o') (p_Path c) (r_EnrollToken r) (Hostname o') /\
  token_of (EnrollToken o) (token_bytes fr) (r_EnrollToken r) /\ pki_written (pki fr) o' w' /\
  (config_key o' <> unit_key -> exists f, files w' !! config_key o' = Some f /\
     f_data f = bytes_of (renderProxyConfig (r_EnrollToken r) c)) /\
  (InstallSystemd o = true -> 0 <= lookupGID sys "luna" w).
Proof.
  intros Ht Hr o' c. unfold Run in Hr. cbv zeta in Hr. fold o' in Hr. io_ok.
  match goal with H : Validate _ _ = Ok ?u |- _ => destruct u; rename H into Hv end. subst.
  match goal with H : GenerateMTLS _ _ _ _ = _ |- _ =>
    apply (GenerateMTLS_leaves _ _ _ _ _ _ Ht) in H as (ck & caDER & ca & fs & Hk & Hc & Hp & Hf & Hl) end.
  match goal with H : WriteProxyConfig _ _ _ _ _ = _ |- _ => apply WriteProxyConfig_ok in H as (Hnw & Hpath & Htok & (f & Hcf & Hcd) & Hrt) end.
  match goal with H : install_service _ _ _ ?v = (_, Ok ?u) |- _ => rename H into Hi; pose proof (keeps_run _ _ _ _ _
    (proxy_install_service_retains (fun k => k = unit_key) o' eq_refl) Hi) as Hit end.
  cbn [r_EnrollToken]. split; [done|]. split; [by rewrite Hpath|]. split; [exact Htok|]. split_and!.
  - exists ck, caDER, ca, fs. do 4 (split; [done|]). intros k d mode Hin Hkc Hku.
    pose proof (leaves_files _ _ _ _ Hl) as Hw. rewrite Forall_forall in Hw. destruct (Hw _ Hin) as [g Hg]. cbn [fst snd] in Hg.
    assert (Htk : ~ temporary k) by (intros Hx; pose proof (leaves_tidy _ _ _ _ Hl k Hx); congruence).
    destruct (Hrt _ _ ltac:(by intros [?|?]) Hg) as (f1 & Hf1 & E1). destruct (Hit _ _ Hku Hf1) as (f2 & Hf2 & E2).
    exists f2. split; [done|]. by rewrite E2, E1.
  - intros Hne. destruct (Hit _ _ Hne Hcf) as (f2 & Hf2 & E2). exists f2. split; [done|]. by rewrite E2, Hcd.
  - intros His. unfold install_service in Hi. change (InstallSystemd o') with (InstallSystemd o) in Hi. rewrite His in Hi.
    destruct (negb _); [done|]. io_ok.
    match goal with H : ProxyInstall.EnsureCertPermissions _ _ _ _ _ = _ |- _ => rename H into He end.
    match goal with |- 0 <= lookupGID sys "luna" ?u =>
      assert (Hg : lookupGID sys "luna" w2 = lookupGID sys "luna" u) by (unfold lookupGID; by rewrite Hnw, (leaves_nw _ _ _ _ Hl));
      destruct (Z.lt_ge_cases (lookupGID sys "luna" u) 0) as [Hlt|]; [|done] end. rewrite <- Hg in Hlt.
    unfold ProxyInstall.EnsureCertPermissions in He. by rewrite permissions_need_group in He.
Qed.

Lemma or_default_chosen s d : s <> "" -> or_default s d = s.
Proof. intros Hs. unfold or_default, Load.or_default. by rewrite (proj2 (str_eqb_neq _ _) Hs). Qed.

Lemma Validate_ok o : let o' := withDefaults env o in Validate env o' = Ok tt ->
  Hostname o' <> "" /\ SignerMode o' ∈ ["local-ca"; "local-key"] /\
  (Env o' = envDev \/ TrimSpace (TelegramBotToken o') <> "" /\ TrimSpace (TelegramChatID o') <> "").
Proof.
  intros o' Hv. unfold Validate in Hv. cbv zeta in Hv.
  assert (He : Env (withDefaults env o') = Env o') by (apply or_default_chosen; by apply Load.or_default_nonempty).
  assert (Hm : SignerMode (withDefaults env o') = SignerMode o') by (apply or_default_chosen; by apply Load.or_default_nonempty).
  assert (Hh : Hostname o' = "" -> Hostname (withDefaults env o') = "") by (change (Hostname (withDefaults env o')) with (NormalizeHostname (Hostname o')); by intros ->).
  change (TelegramBotToken (withDefaults env o')) with (TelegramBotToken o') in Hv.
  change (TelegramChatID (withDefaults env o')) with (TelegramChatID o') in Hv.
  rewrite He, Hm in Hv. destruct (Hostname (withDefaults env o') =s "") eqn:E1; [done|]. str_prop.
  destruct (Env o' =s envDev) eqn:E2, (TrimSpace (TelegramBotToken o') =s "") eqn:E3, (TrimSpace (TelegramChatID o') =s "") eqn:E4;
    cbn [negb andb] in Hv; try done;
    (destruct (SignerMode o' =s "local-ca") eqn:E5; [|destruct (SignerMode o' =s "local-key") eqn:E6; [|done]]); str_prop;
    (split; [by intros ?; apply E1, Hh|split; [set_solver|auto]]).
Qed.

(** A complete set-up: when [Run] succeeds the options were valid (a host name, a known signer mode and,
    in production, the Telegram bot and chat), the certificates and keys of one new PKI are on disk,
    made from the keys this run drew, and [proxy.yml] holds the settings with the token that is
    reported, which is the one that was given or, if none was, 32 random bytes in hexadecimal. *)
Theorem proxy_setup_complete fr o w w' r : tidy w -> Run env sys fr o w = (w', Ok r) ->
  let o' := withDefaults env o in let c := config_defaults (config_options o') in
  (Hostname o' <> "" /\ SignerMode o' ∈ ["local-ca"; "local-key"] /\
   (Env o' = envDev \/ TrimSpace (TelegramBotToken o') <> "" /\ TrimSpace (TelegramChatID o') <> "")) /\
  r_ConfigPath r = p_Path c /\ r_CertsDir r = CertsDir o' /\
  token_of (EnrollToken o) (token_bytes fr) (r_EnrollToken r) /\ pki_written (pki fr) o' w' /\
  (config_key o' <> unit_key -> exists f, files w' !! config_key o' = Some f /\
     f_data f = bytes_of (renderProxyConfig (r_EnrollToken r) c)).
Proof.
  intros Ht Hr o' c. destruct (Run_ok _ _ _ _ _ Ht Hr) as (Hv & E & Htok & Hp & Hc & _). rewrite E. cbn [r_ConfigPath r_CertsDir].
  split; [|done]. destruct (Validate_ok _ Hv) as (H1' & H2' & H3'). done.
Qed.

(** ** The wizard *)

Lemma proxy_RunInteractive_keeps R o yes : PreOrder R -> keeps (on_files R) (RunInteractive (N := N) env o yes).
Proof.
  intros HR. unfold RunInteractive, ask_server, ask_places, ask_service, ProxyPrompt.askChoice, ProxyPrompt.askString, ProxyPrompt.askYesNo. keeps.
Qed.

Lemma proxy_RunInteractive_ok o yes w w' o' : RunInteractive env o yes w = (w', Ok o') ->
  files w' = files w /\ force o' = true /\ Validate env o' = Ok tt.
Proof.
  intros Hr. split; [exact (eq_sym (keeps_run _ _ _ _ _ (proxy_RunInteractive_keeps eq o yes _) Hr))|].
  unfold RunInteractive in Hr. cbv zeta in Hr. io_ok.
  match goal with H : (if ?b then mret _ else fail _) _ = _ |- _ => destruct b; [|done] end.
  io_ok. subst. match goal with H : Validate _ _ = Ok ?u |- _ => destruct u end. split; [|done].
  unfold force. apply orb_true_r.
Qed.

(** *** The options of the wizard are valid for the run *)

Lemma NormalizeHostname_idem h : NormalizeHostname (NormalizeHostname h) = NormalizeHostname h.
Proof.
  unfold NormalizeHostname at 2 3. cbv zeta. set (x := TrimPrefix (TrimPrefix _ _) _).
  set (y := cut_at "/"%char x). set (z := TrimSpace (cut_at ":"%char y)).
  assert (Hcut : forall c v b, b ∈ bytes_of (cut_at c v) -> b ∈ bytes_of v).
  { intros c v b. unfold cut_at. rewrite bytes_of_string_of. generalize (bytes_of v). intros l.
    induction l as [|a l IH]; simpl; [done|]. case_decide; [by intros ?%elem_of_nil|]. rewrite !elem_of_cons. naive_solver. }
  assert (Hfree : forall c v, Ascii.byte_of_ascii c ∉ bytes_of (cut_at c v)).
  { intros c v. unfold cut_at. rewrite bytes_of_string_of. apply bytes_before_free. }
  assert (Hc : Ascii.byte_of_ascii ":"%char ∉ bytes_of z) by (intros Hz%TrimSpace_bytes; by apply Hfree in Hz).
  assert (Hs : Ascii.byte_of_ascii "/"%char ∉ bytes_of z) by (intros Hz%TrimSpace_bytes%Hcut; by apply Hfree in Hz).
  assert (Habsent : forall c v, Ascii.byte_of_ascii c ∉ bytes_of v -> cut_at c v = v).
  { intros c v Hv. unfold cut_at. rewrite bytes_before_absent by done. apply string_of_bytes_of. }
  assert (Hp : forall p, Ascii.byte_of_ascii ":"%char ∈ bytes_of p -> TrimPrefix z p = z).
  { intros p Hin. apply TrimPrefix_none. destruct (HasPrefix z p) eqn:E; [|done]. exfalso. apply Hc.
    apply HasPrefix_true in E as [v ->]. rewrite bytes_of_app. apply elem_of_app. by left. }
  assert (Hz : TrimSpace z = z) by apply TrimSpace_idem.
  unfold NormalizeHostname. cbv zeta. rewrite Hz, (Hp "https://"), (Hp "http://") by (apply list_elem_of_In; simpl; tauto).
  by rewrite (Habsent _ z Hs), (Habsent _ z Hc).
Qed.

Lemma Validate_withDefaults o : Validate env (withDefaults env o) = Validate env o.
Proof.
  unfold Validate. cbv zeta.
  assert (E1 : Env (withDefaults env (withDefaults env o)) = Env (withDefaults env o)) by (apply or_default_chosen; by apply Load.or_default_nonempty).
  assert (E2 : SignerMode (withDefaults env (withDefaults env o)) = SignerMode (withDefaults env o)) by (apply or_default_chosen; by apply Load.or_default_nonempty).
  assert (E3 : Hostname (withDefaults env (withDefaults env o)) = Hostname (withDefaults env o)) by apply NormalizeHostname_idem.
  by rewrite E1, E2, E3.
Qed.

(** A run that gets as far as the PKI leaves it there, whether or not the rest succeeds. *)
Lemma Run_pki fr o w w1 l : tidy w -> Validate env o = Ok tt ->
  let o' := withDefaults env o in GenerateMTLS env (pki fr) (mtls_options o') w = (w1, Ok l) ->
  pki_written (pki fr) o' (Run env sys fr o w).1.
Proof.
  intros Ht Hv o' Hg. unfold Run. cbv zeta. fold o'.
  assert (Hv' : Validate env o' = Ok tt) by by unfold o'; rewrite Validate_withDefaults.
  rewrite Hv'. erewrite bind_run by reflexivity. erewrite bind_run by (by apply wrapping_ok).
  destruct (GenerateMTLS_leaves _ _ _ _ _ _ Ht Hg) as (ck & caDER & ca & fs & Hk & Hc & Hp & Hf & Hl).
  exists ck, caDER, ca, fs. do 4 (split; [done|]). intros k d mode Hin Hkc Hku.
  pose proof (leaves_files _ _ _ _ Hl) as Hw. rewrite Forall_forall in Hw. destruct (Hw _ Hin) as [g Hg']. cbn [fst snd] in Hg'.
  assert (Htk : ~ temporary k) by (intros Hx; pose proof (leaves_tidy _ _ _ _ Hl k Hx); congruence).
  set (T k := temporary k \/ k = config_key o' \/ k = unit_key).
  match goal with |- context [files (?m w1).1] => assert (Hm : keeps (on_files (retains T)) m) end.
  { pose proof (WriteProxyConfig_writes T (token_bytes fr) (config_options o') (fun k Hx => or_introl Hx) ltac:(right; by left)).
    pose proof (proxy_install_service_retains T o' ltac:(right; by right)). keeps. }
  destruct (Hm w1 k _ ltac:(by intros [?|[?|?]]) Hg') as (f & Hf' & Hd). by exists f.
Qed.

(** The CA of a run is in the place of [ca.crt]. *)
Definition ca_replaced (fr : PkiFresh) (o : Options) w : Prop :=
  let m := mtls_defaults (mtls_options o) in
  exists k der f, caKey fr = Some k /\ create_certificate (ca_template fr m) None (public_half k) k = Some der /\
    files w !! at_dir env (Dir m) "ca.crt" = Some f /\ f_data f = Csr.pem_Encode "CERTIFICATE" der.

Lemma pki_written_ca fr o w : let ca := at_dir env (Dir (mtls_defaults (mtls_options o))) "ca.crt" in
  ca <> config_key o -> ca <> unit_key -> pki_written fr o w -> ca_replaced fr o w.
Proof.
  intros ca Hc Hu (ck & der & c & fs & Hk & Hcr & _ & Hfs & Hw).
  destruct Hfs as (sk & ak & sder & ader & cd & sd & ad & rest & _ & _ & _ & _ & _ & _ & _ & -> & _).
  destruct (Hw ca (Csr.pem_Encode "CERTIFICATE" der) 420) as (f & Hf2 & Hd); [by left|done..|]. by exists ck, der, f.
Qed.

(** C33: A certificate authority is not kept by the wizard: it asks nothing about the one that is there
    and forces the run, so that every run with its options that succeeds has put a CA of this run's key
    in the place of [ca.crt], whatever that held, and from then on every certificate issued before is
    refused.  On a host whose disk has no faults the CA is replaced as soon as a PKI can be generated at
    all, even if the run fails later.  Without the forcing, the same answers on a host with a CA would
    have been refused.  The questions themselves change no file. *)
Theorem proxy_wizard_replaces_ca fr prefill yes w w1 o : tidy w ->
  RunInteractive env prefill yes w = (w1, Ok o) ->
  let o' := withDefaults env o in let m := mtls_defaults (mtls_options o') in let ca := at_dir env (Dir m) "ca.crt" in
  files w1 = files w /\
  (ca <> config_key o' -> ca <> unit_key ->
   (forall w2 r, Run env sys fr o w1 = (w2, Ok r) -> ca_replaced (pki fr) o' w2) /\
   (forall blank, no_faults env -> is_ok (GenerateMTLS (N := N) env (pki fr) (mtls_options o') blank).2 = true ->
    ca_replaced (pki fr) o' (Run env sys fr o w1).1)) /\
  (fileExists env (Join [Dir m; "ca.crt"]) w = true ->
   is_ok (Run env sys fr (o {{ RewriteConfig := false; ForceAll := false }}) w1).2 = false).
Proof.
  intros Ht Hi o' m ca. destruct (proxy_RunInteractive_ok _ _ _ _ _ Hi) as (Hf & Hforce & Hv). split; [done|].
  assert (Ht1 : tidy w1) by (unfold tidy; by rewrite Hf). split; [intros Hc Hu; split|].
  - intros w2 r Hr. apply pki_written_ca; [done..|]. apply (Run_ok _ _ _ _ _ Ht1 Hr).
  - intros blank Hn Hg. apply pki_written_ca; [done..|].
    rewrite (GenerateMTLS_steady env Hn (pki fr) (mtls_options o') Hforce blank w1) in Hg.
    apply io_run in Hg as (v & l & Hg). by eapply Run_pki.
  - intros Hx. set (u := o {{ RewriteConfig := false; ForceAll := false }}).
    assert (Hx1 : fileExists env (Join [Dir m; "ca.crt"]) w1 = true) by (unfold fileExists, Stat in *; by rewrite Hf).
    pose proof (GenerateMTLS_refuses env (pki fr) (mtls_options (withDefaults env u)) "ca.crt" w1 eq_refl
      ltac:(apply list_elem_of_In; simpl; tauto) Hx1) as Hg.
    unfold Run, mbind, io_bind, lift, wrapping. cbv zeta.
    destruct (Validate env (withDefaults env u)) as [[]|]; [|done]. revert Hg. by destruct (GenerateMTLS _ _ _ _) as [v [l|e]].
Qed.

(** ** A host without the account *)

Definition same_accounts : relation (World N) := fun w w' => nw w' = nw w.
#[export] Instance same_accounts_preorder : PreOrder same_accounts.
Proof. split; [done|]. intros w1 w2 w3 E1 E2. unfold same_accounts in *. congruence. Qed.

Lemma MkdirAll_accounts p : keeps same_accounts (MkdirAll env p).
Proof. intros w. unfold MkdirAll. by destruct (mkdir_fails _ _). Qed.
Lemma writeFileAtomic_accounts p d m : keeps same_accounts (writeFileAtomic env p d m).
Proof.
  intros w. destruct (writeFileAtomic env p d m w) as [w' r'] eqn:E. by apply writeFileAtomic_cases in E as (_ & _ & E & _).
Qed.
Lemma refuse_existing_accounts dir names : keeps same_accounts (refuse_existing env dir names).
Proof. intros w. destruct (refuse_existing env dir names w) eqn:E. by apply refuse_existing_ok in E as [-> _]. Qed.
#[local] Hint Resolve MkdirAll_accounts writeFileAtomic_accounts refuse_existing_accounts : keeps.

Lemma GenerateMTLS_accounts fr o : keeps same_accounts (GenerateMTLS env fr o).
Proof. unfold GenerateMTLS, issue, writePair. keeps. Qed.
Lemma WriteProxyConfig_accounts b o : keeps same_accounts (WriteProxyConfig env sys b o).
Proof.
  assert (Hc : forall p u g, keeps same_accounts (chownProxyConfig env sys p u g)) by (intros p u g w; apply chownProxyConfig_nw).
  unfold WriteProxyConfig. keeps.
Qed.

(** While the group is unknown the accounts do not change. *)
Definition waits : relation (World N) := fun w w' => lookupGID sys "luna" w < 0 -> nw w' = nw w.
#[export] Instance waits_preorder : PreOrder waits.
Proof.
  split; [done|]. intros w1 w2 w3 E1 E2 Hg. unfold waits in *. specialize (E1 Hg).
  rewrite <- E1. apply E2. unfold lookupGID in *. by rewrite E1.
Qed.

Lemma keeps_waits {A} (m : IO (World N) A) : keeps same_accounts m -> keeps waits m.
Proof. intros Hm w _. apply Hm. Qed.

Lemma install_service_waits o : keeps waits (install_service env sys o).
Proof.
  intros w Hg. unfold install_service. destruct (InstallSystemd o); [|done]. destruct (negb _); [done|].
  unfold ProxyInstall.EnsureCertPermissions. by rewrite (bind_fails _ _ _ _ _ (permissions_need_group env sys _ _ _ _ Hg)).
Qed.

(** C34: A first installation stops: set-up gives the certificates to the group [luna] before it creates the
    service's account, so on a host without that group a run that is to install the service fails, and
    it fails without having created an account, so the same run fails again. *)
Theorem first_installation_stops fr o w : tidy w -> lookupGID sys "luna" w < 0 -> InstallSystemd o = true ->
  is_ok (Run env sys fr o w).2 = false /\ lookupGID sys "luna" (Run env sys fr o w).1 < 0.
Proof.
  intros Ht Hg Hi. split.
  - destruct (Run env sys fr o w) as [w' [r|e]] eqn:E; [|done]. destruct (Run_ok _ _ _ _ _ Ht E) as (_ & _ & _ & _ & _ & Hl).
    specialize (Hl Hi). lia.
  - assert (Hk : keeps waits (Run env sys fr o)).
    { pose proof (fun f m => keeps_waits _ (GenerateMTLS_accounts f m)). pose proof (fun b c => keeps_waits _ (WriteProxyConfig_accounts b c)).
      pose proof install_service_waits. unfold Run. keeps. }
    unfold lookupGID at 1. rewrite (Hk w Hg). exact Hg.
Qed.
End facts.

(** ** What the proxy reads *)

Section quoted.
Context `{UnicodeLib}.

Lemma quotable_byte b : in_byte_range 32 126 b && negb (bool_decide (byte_val b ∈ [34; 92])) = true ->
  32 <= byte_val b <= 126 /\ byte_val b <> 34 /\ byte_val b <> 92.
Proof.
  unfold in_byte_range. intros [Hb Hn%negb_true_iff%bool_decide_eq_false]%andb_true_iff. bool_prop. split; [lia|]. set_solver.
Qed.

Lemma quote_bytes_quotable l :
  forallb (fun b => in_byte_range 32 126 b && negb (bool_decide (byte_val b ∈ [34; 92]))) l = true -> quote_bytes 0 l = l.
Proof.
  induction l as [|b l IH]; [done|]. cbn [forallb]. intros [(Hb & H1 & H2)%quotable_byte Hl]%andb_true_iff.
  cbn [quote_bytes]. unfold decode_rune. rewrite (proj2 (Z.ltb_lt _ _)) by lia. cbn [Nat.sub]. rewrite IH by done.
  rewrite (proj2 (Z.leb_gt 128 _)), andb_false_r by lia. unfold escape_rune, IsPrint.
  rewrite (proj2 (Z.eqb_neq _ 34)), (proj2 (Z.eqb_neq _ 92)), (proj2 (Z.ltb_lt _ 128)), (proj2 (Z.leb_le 32 _)), (proj2 (Z.leb_le _ 126)) by lia.
  by rewrite take_0.
Qed.

(** Text without quotes, backslashes and characters that are not printable is quoted as it is. *)
Lemma Quote_quotable s : quotable s = true -> Quote s = quote +:+ s +:+ quote.
Proof.
  intros Hq. unfold Quote. rewrite quote_bytes_quotable by done. apply bytes_of_inj.
  by rewrite bytes_of_string_of, !bytes_of_app.
Qed.

Lemma yamlQuote_quotable s : quotable s = true -> yamlQuote s = quote +:+ s +:+ quote.
Proof.
  intros Hq. unfold yamlQuote. do 2 f_equal. rewrite <- (string_of_bytes_of s) at 2. f_equal. unfold quotable in Hq.
  induction (bytes_of s) as [|b l IH]; [done|]. cbn [forallb] in Hq. apply andb_true_iff in Hq as [(_ & H1 & _)%quotable_byte Hl].
  cbn [map concat]. rewrite decide_False by (by intros ->). by rewrite IH.
Qed.

Definition proxy_lines (token : string) (o : ProxyConfigOptions) : list yaml_line :=
  [YNote " Luna Z-Trust — luna-proxy"; YNote " Generated by luna-proxy setup"] ++
  (if negb (p_Hostname o =s "")
   then [YNote (" Public hostname: " +:+ p_Hostname o +:+ " (mTLS server certificate SAN)");
         YNote (" Agent proxy_url: " +:+ defaultPublicProxyURL (p_Hostname o) (p_ListenAddr o))] else []) ++
  [YNote ""; YNote (" Agent bootstrap: export LUNA_MTLS_ENROLL_TOKEN='" +:+ token +:+ "'"); YEmpty;
   YQuoted "env" (p_Env o); YEmpty;
   YQuoted "listen_addr" (p_ListenAddr o);
   YQuoted "control_socket" (p_ControlSocket o);
   YQuoted "control_socket_group" (p_ControlSocketGroup o); YEmpty;
   YQuoted "signer_mode" (p_SignerMode o);
   YQuoted "key_path" (p_KeyPath o);
   YQuoted "admin_client_ou" (p_AdminClientOU o);
   YPlain "approval_timeout" (p_ApprovalTimeout o); YEmpty;
   YQuoted "telegram_bot_token" (p_TelegramBotToken o);
   YQuoted "telegram_chat_id" (p_TelegramChatID o); YEmpty;
   YQuoted "mtls_enroll_token" token; YEmpty;
   YNote " mTLS cert paths default to /etc/luna/certs/ after setup (override if --dir differs):";
   YNote (" mtls_server_cert: " +:+ DefaultCerts +:+ "/server.crt");
   YNote (" mtls_server_key: " +:+ DefaultCerts +:+ "/server.key");
   YNote (" mtls_client_ca: " +:+ DefaultCerts +:+ "/ca.crt");
   YNote (" mtls_ca_cert_path: " +:+ DefaultCerts +:+ "/ca.crt");
   YNote (" mtls_ca_key_path: " +:+ DefaultCerts +:+ "/ca.key")].

Lemma proxy_lines_text token o : forallb yaml_ok (proxy_lines token o) = true -> renderProxyConfig token o = yaml_text (proxy_lines token o).
Proof.
  unfold proxy_lines. rewrite !forallb_app. intros Hok. bool_prop. cbn [forallb yaml_ok] in *. bool_prop.
  unfold renderProxyConfig. rewrite !Quote_quotable, !yamlQuote_quotable by done. by destruct (negb _).
Qed.

Definition proxy_settings (token : string) (o : ProxyConfigOptions) : list (string * string) :=
  [("env", p_Env o); ("listen_addr", p_ListenAddr o); ("control_socket", p_ControlSocket o);
   ("control_socket_group", p_ControlSocketGroup o); ("signer_mode", p_SignerMode o); ("key_path", p_KeyPath o);
   ("admin_client_ou", p_AdminClientOU o); ("approval_timeout", p_ApprovalTimeout o);
   ("telegram_bot_token", p_TelegramBotToken o); ("telegram_chat_id", p_TelegramChatID o); ("mtls_enroll_token", token)].

Lemma proxy_lines_settings token o : settings_of (proxy_lines token o) = proxy_settings token o.
Proof. unfold proxy_lines. by destruct (negb _). Qed.
End quoted.

Section read.
Context {N : Type} (env : Environ) `{YamlLaws, UnicodeLib}.
Implicit Types w : World N.

(** The settings of a written file as a production proxy resolves them.  The file never holds the
    webhook's secret, nor where the certificates are: that of the set-up is lost, and the paths are the
    default ones. *)
Definition written_config (token : string) (timeout : Z) (o : ProxyConfigOptions) : Cfg.Config :=
  let t := TrimSpace in
  Cfg.mkConfig (t (p_Env o)) timeout (or_default (t (p_ListenAddr o)) Load.defaultListenAddr)
    (t (p_TelegramBotToken o)) "" (t (p_TelegramChatID o)) "" (or_default (t (p_AdminClientOU o)) Load.defaultAdminClientOU) "luna-cli"
    (t (p_KeyPath o)) (or_default (t (p_SignerMode o)) Load.defaultSignerMode) Cfg.defaultAllowedTTLSeconds
    "/etc/luna/certs/server.crt" "/etc/luna/certs/server.key" "/etc/luna/certs/ca.crt" "/etc/luna/certs/ca.crt" "/etc/luna/certs/ca.key"
    (t token) "" (or_default (t (p_ControlSocket o)) Load.ProductionControlSocket) (or_default (t (p_ControlSocketGroup o)) "luna-admin").

Definition proxy_defaults : list (string * string) :=
  [("approval_timeout", Duration_String Cfg.defaultApprovalPeriod); ("signer_mode", Load.defaultSignerMode); ("cli_client_ou", "luna-cli");
   ("admin_client_ou", Load.defaultAdminClientOU); ("listen_addr", Load.defaultListenAddr)].

Definition unset_environment : Prop :=
  Forall (fun kb => Getenv env kb.2 = "" /\ Getenv env (env_name kb.1) = "") Load.env_bindings.

(** The files that a production proxy wants to find. *)
Definition certificates_there w : Prop :=
  Forall (fun n => fileExists env (Load.ProductionCertPath n) w = true) ["server.crt"; "server.key"; "ca.crt"].

Lemma check_production n w : n ∈ ["server.crt"; "server.key"; "ca.crt"] -> certificates_there w ->
  forall name, Load.check_cert_file env w name (Load.ProductionCertPath n) = Ok tt.
Proof.
  intros Hn Hc name. unfold certificates_there in Hc. rewrite Forall_forall in Hc. unfold Load.check_cert_file. rewrite (Hc n Hn).
  apply list_elem_of_In in Hn. simpl in Hn. by repeat (destruct Hn as [<-|Hn]; [reflexivity|]).
Qed.

(** The defaults of a production proxy *)
Definition production_certs (c : Cfg.Config) : Cfg.Config :=
  Load.set_certs c (or_default (Cfg.MTLSServerCert c) (Load.ProductionCertPath "server.crt"))
    (or_default (Cfg.MTLSServerKey c) (Load.ProductionCertPath "server.key"))
    (or_default (Cfg.MTLSClientCA c) (Load.ProductionCertPath "ca.crt"))
    (or_default (Cfg.MTLSCACertPath c) (Load.ProductionCertPath "ca.crt"))
    (or_default (Cfg.MTLSCAKeyPath c) (Load.ProductionCertPath "ca.key")).
Definition production_config (c : Cfg.Config) : Cfg.Config :=
  let c := production_certs c in
  Load.set_control c (or_default (Cfg.ControlSocket c) Load.ProductionControlSocket) (or_default (Cfg.ControlSocketGroup c) "luna-admin").

Lemma applyMTLSDefaults_production c w : Load.isDevOrTestEnv (Cfg.Env c) = false -> Load.applyMTLSDefaults env c w = production_certs c.
Proof. intros He. unfold Load.applyMTLSDefaults. by rewrite He. Qed.
Lemma applyRuntimeDefaults_production c : Load.isDevOrTestEnv (Cfg.Env c) = false ->
  Load.applyRuntimeDefaults env (production_certs c) = production_config c.
Proof.
  intros He. unfold Load.applyRuntimeDefaults. cbv zeta.
  match goal with |- context [Load.isDevOrTestEnv ?e] => change e with (Cfg.Env c) end. by rewrite He.
Qed.
Lemma validateMTLS_production c w : Cfg.MTLSServerCert c = Load.ProductionCertPath "server.crt" ->
  Cfg.MTLSServerKey c = Load.ProductionCertPath "server.key" -> Cfg.MTLSClientCA c = Load.ProductionCertPath "ca.crt" ->
  Load.isDevOrTestEnv (Cfg.Env c) = false -> (Load.validateMTLS env c w = Ok tt <-> certificates_there w).
Proof.
  intros E1 E2 E3 He. unfold Load.validateMTLS. rewrite He, E1, E2, E3. split.
  - intros Hv. cbn [orb str_eqb] in Hv. inv_ok. unfold Load.check_cert_file in *. inv_ok.
    repeat match goal with H : (if ?b then Ok tt else Err _) = Ok _ |- _ => destruct b eqn:?; [clear H|done] end.
    repeat (apply Forall_cons; split); done.
  - intros Hc. by rewrite !check_production by (done || set_solver).
Qed.

Lemma proxy_configFromViper_written get token timeout o w :
  (forall k b, (k, b) ∈ Load.env_bindings -> get k = value_of (proxy_lines token o) proxy_defaults k) ->
  ParseDuration (p_ApprovalTimeout o) = Ok timeout -> Load.isDevOrTestEnv (TrimSpace (p_Env o)) = false ->
  let c := written_config token timeout o in
  Load.configFromViper env get w = (_ ← Load.validateMTLS env c w; Ok c).
Proof.
  intros Hg Hd He c. unfold value_of in Hg. rewrite proxy_lines_settings in Hg.
  assert (G : forall k, k ∈ Load.env_bindings.*1 -> get k = match assoc k (proxy_settings token o) with Some s => s | None => default "" (assoc k proxy_defaults) end).
  { intros k ([k' b] & -> & Hin)%list_elem_of_fmap. by eapply Hg. }
  unfold Load.configFromViper. rewrite !G by (apply list_elem_of_In; simpl; tauto). clear G Hg.
  change (match assoc "approval_timeout" (proxy_settings token o) with Some s => s | None => default "" (assoc "approval_timeout" proxy_defaults) end)
    with (p_ApprovalTimeout o). rewrite Hd. cbv zeta.
  set (c0 := Cfg.mkConfig _ _ _ _ _ _ _ _ _ _ _ _ _ _ _ _ _ _ _ _ _).
  rewrite (applyMTLSDefaults_production c0) by exact He. rewrite applyRuntimeDefaults_production by exact He.
  assert (E : production_config c0 = c) by reflexivity. by rewrite E.
Qed.

(** A production proxy reads what was written for it, and starts when its certificates are there. *)
Lemma proxy_Load_written token timeout o path f w :
  finds env (proxyConfigPaths env) path w -> yaml_path path = true ->
  stat_fails env (key env path) = false -> read_fails env (key env path) = false ->
  files w !! key env path = Some f -> f_data f = bytes_of (renderProxyConfig token o) ->
  forallb yaml_ok (proxy_lines token o) = true -> unset_environment ->
  ParseDuration (p_ApprovalTimeout o) = Ok timeout -> Load.isDevOrTestEnv (TrimSpace (p_Env o)) = false ->
  let c := written_config token timeout o in
  (certificates_there w -> Load.Load env w = (w, Ok c)) /\ (~ certificates_there w -> is_ok (Load.Load env w).2 = false).
Proof.
  intros Hfi Hy Hs Hr Hf Hd Hok Hun Ht He c. rewrite proxy_lines_text in Hd by done.
  destruct (load_settings_found env proxy_defaults (proxyConfigPaths env) Load.env_bindings path (proxy_lines token o) f w)
    as (v & Hv & Hget); try done.
  - rewrite proxy_lines_settings. apply (bool_decide_eq_true_1 _). reflexivity.
  - by eapply Forall_impl; [exact Hun|intros kb [? _]].
  - unfold Load.Load, Load.newViper. cbv zeta. change (SetDefault _ _ _) with (with_defaults proxy_defaults).
    rewrite (bind_run _ _ _ _ _ Hv). unfold look. rewrite (proxy_configFromViper_written _ token timeout o); try done.
    + fold c. pose proof (validateMTLS_production c w eq_refl eq_refl eq_refl He) as Hval. split; [by intros ->%Hval|].
      intros Hno. destruct (Load.validateMTLS env c w) as [[]|]; [|done]. exfalso. by apply Hno, Hval.
    + intros k b Hin. apply Hget. unfold unset_environment in Hun. rewrite Forall_forall in Hun. apply (Hun _ Hin).
Qed.
End read.

(** The certificates of a run into the default directory are where a production proxy looks. *)
Lemma pki_written_default {N : Type} (env env' : Environ) `{PkiLib} fr o (w : World N) :
  pki_written env fr o w -> CertsDir o = Load.DefaultCertsDir -> (forall n, config_key env o <> [n; "certs"; "luna"; "etc"]) ->
  (forall k, stat_fails env' k = false) -> certificates_there env' w.
Proof.
  intros (ck & der & ca & fs & _ & _ & _ & Hfs & Hw) Hd Hk Hs.
  destruct Hfs as (sk & ak & sder & ader & cd & sd & ad & rest & _ & _ & _ & _ & _ & _ & _ & -> & _).
  assert (Hdir : key env (Dir (mtls_defaults (mtls_options o))) = ["certs"; "luna"; "etc"]).
  { change (Dir (mtls_defaults (mtls_options o))) with (Clean (if TrimSpace (CertsDir o) =s "" then Load.DefaultCertsDir else CertsDir o)).
    rewrite Hd. reflexivity. }
  unfold pair_files in Hw. rewrite Hdir in Hw.
  assert (Hthere : forall n d mode, ([n; "certs"; "luna"; "etc"], (d, mode)) ∈ pair_files env "/etc/luna/certs" "ca" 420 256 der cd ++ pair_files env "/etc/luna/certs" "server" 420 256 sder sd ->
    is_Some (files w !! [n; "certs"; "luna"; "etc"])).
  { intros n d mode Hin. destruct (Hw [n; "certs"; "luna"; "etc"] d mode) as (g & Hg & _).
    - rewrite app_assoc. apply elem_of_app. left. exact Hin.
    - intros E. by apply (Hk n).
    - intros E. vm_compute in E. discriminate E.
    - by exists g. }
  repeat (apply Forall_cons; split); [..|done]; unfold fileExists, Stat; rewrite Hs;
    (rewrite bool_decide_true; [reflexivity|]); eapply Hthere.
  - right. right. left.
  - right. right. right. left.
  - left.
Qed.

(** C30: What set-up wrote is what the proxy reads: after a successful set-up of a production proxy, a
    proxy that finds that configuration, by [LUNA_CONFIG] or as the only one in its places, with its own
    settings unset in the environment, loads the settings of the set-up with the token that was
    reported and a minute for an approval, except for two things the file does not hold: the webhook's
    secret, which is empty, and the certificates' directory, for which it takes [/etc/luna/certs].  It
    loads exactly when the certificates are there, which they are after a set-up with that directory.
    The values have to be free of quotes and backslashes, and the files readable. *)
Theorem set_up_proxy_loads {N : Type} (env env' : Environ) (sys : Sys N)
    `{YamlLaws, UnicodeLib, PkiLib} fr o (w w' : World N) r :
  tidy w -> Run env sys fr o w = (w', Ok r) ->
  let o' := withDefaults env o in let c := config_defaults (config_options o') in let path := p_Path c in
  Load.isDevOrTestEnv (TrimSpace (Env o')) = false -> config_key env o' <> unit_key env ->
  finds env' (proxyConfigPaths env') path w' -> key env' path = key env path -> unset_environment env' ->
  (forall k, stat_fails env' k = false) -> read_fails env' (key env' path) = false ->
  yaml_path path = true -> forallb yaml_ok (proxy_lines (r_EnrollToken r) c) = true ->
  (certificates_there env' w' -> Load.Load env' w' = (w', Ok (written_config (r_EnrollToken r) (60 * Second) c))) /\
  (~ certificates_there env' w' -> is_ok (Load.Load env' w').2 = false) /\
  (CertsDir o' = Load.DefaultCertsDir -> (forall n, config_key env o' <> [n; "certs"; "luna"; "etc"]) -> certificates_there env' w').
Proof.
  intros Ht Hr o' c path He Hu Hfi Hkey Hun Hs Hrd Hy Hok.
  destruct (Run_ok _ _ _ _ _ _ _ Ht Hr) as (_ & _ & _ & Hp & Hc & _). destruct (Hc Hu) as (f & Hf & Hfd).
  apply and_assoc. split; [|by intros; eapply pki_written_default].
  refine (proxy_Load_written env' _ _ _ path f w' Hfi Hy (Hs _) Hrd _ Hfd Hok Hun _ _).
  - rewrite Hkey. exact Hf.
  - vm_compute. reflexivity.
  - assert (E : p_Env c = Env o') by (apply or_default_chosen; by apply Load.or_default_nonempty).
    change (Load.isDevOrTestEnv (TrimSpace (p_Env c)) = false). by rewrite E.
Qed.

(** ** Examples *)
Module ProxySetupDemo.
Import Demo Csr.CsrDemo SystemdDemo PkiDemo YamlDemo.

#[local] Instance demo_unicode : UnicodeLib := {| is_print _ := true |}.

Definition options : Options :=
  noOptions {{ Hostname := "https://luna.example:8443/"; TelegramBotToken := "123:abc"; TelegramChatID := "-42"; SkipSampleClients := true }}.
Definition fresh : Fresh := mkFresh _ drawn (Some [Byte.x00; Byte.xff]).

Lemma proxy_setup_keeps_files_witness : exists f,
  files (Run root_host demo_sys fresh options settled).1 !! ["ca.crt"; "certs"; "luna"; "etc"] = Some f /\
  f_data f = bytes_of "CERTIFICATE:".
Proof.
  apply (proxy_setup_keeps_files root_host demo_sys fresh options eq_refl settled
    ["ca.crt"; "certs"; "luna"; "etc"] (old_file "CERTIFICATE:")); [|reflexivity].
  intros [Ht%temporary_suffix|[Hs|[[=] _]]]; [vm_compute in Ht; discriminate Ht|discriminate Hs].
Defined.

Lemma config_apart o : config_key root_host (withDefaults root_host o) = ["proxy.yml"; "luna"; "etc"] ->
  config_key root_host (withDefaults root_host o) <> unit_key root_host /\
  forall n, config_key root_host (withDefaults root_host o) <> [n; "certs"; "luna"; "etc"].
Proof. intros ->. split; [intros E; vm_compute in E; discriminate E|done]. Qed.

Lemma proxy_setup_complete_witness : exists w' r f,
  Run root_host demo_sys fresh options disk = (w', Ok r) /\ r_EnrollToken r = "00ff" /\
  files w' !! ["proxy.yml"; "luna"; "etc"] = Some f /\
  f_data f = bytes_of (renderProxyConfig (r_EnrollToken r) (config_defaults (config_options (withDefaults root_host options)))).
Proof.
  destruct (io_run (Run root_host demo_sys fresh options) disk) as (w' & r & E); [vm_compute; reflexivity|].
  destruct (proxy_setup_complete root_host demo_sys fresh options disk w' r disk_tidy E) as (_ & _ & _ & (l & [= <-] & Htok) & _ & Hc).
  destruct (Hc (proj1 (config_apart options eq_refl))) as (f & Hf & Hd).
  exists w', r, f. split; [exact E|]. split; [exact Htok|]. split; [exact Hf|exact Hd].
Defined.

(** A host with a CA and somebody who takes every default. *)
Definition used : World accounts := mkWorld (files settled) (repeat newline 14) [] ["luna"].

Lemma Ok_inj {A} (a b : A) : Ok a = Ok b -> a = b.
Proof. congruence. Qed.

Lemma used_tidy : tidy used.
Proof. exact settled_tidy. Qed.

Lemma proxy_wizard_replaces_ca_witness : exists w1 o w2 r der f,
  RunInteractive root_host options false used = (w1, Ok o) /\ Run root_host demo_sys fresh o w1 = (w2, Ok r) /\
  files used !! ["ca.crt"; "certs"; "luna"; "etc"] = Some (old_file "CERTIFICATE:") /\
  files w2 !! ["ca.crt"; "certs"; "luna"; "etc"] = Some f /\ f_data f = Csr.pem_Encode "CERTIFICATE" der /\
  is_ok (Run root_host demo_sys fresh (o {{ RewriteConfig := false; ForceAll := false }}) w1).2 = false.
Proof.
  destruct (io_run (RunInteractive root_host options false) used) as (w1' & o' & Ei); [vm_compute; reflexivity|].
  assert (Ew : (RunInteractive root_host options false used).1 = w1') by by rewrite Ei.
  assert (Eo : (RunInteractive root_host options false used).2 = Ok o') by by rewrite Ei.
  vm_compute in Ew, Eo. apply Ok_inj in Eo.
  destruct (io_run (Run root_host demo_sys fresh o') w1') as (w2 & r & Er); [rewrite <- Ew, <- Eo; vm_compute; reflexivity|].
  destruct (proxy_wizard_replaces_ca root_host demo_sys fresh options false used w1' o' used_tidy Ei) as (_ & Hca & Hno).
  destruct Hca as [Hca _].
  - rewrite <- Eo. intros E. vm_compute in E. discriminate E.
  - rewrite <- Eo. intros E. vm_compute in E. discriminate E.
  - destruct (Hca w2 r Er) as (k & der & f & _ & _ & Hf & Hd). exists w1', o', w2, r, der, f. split; [exact Ei|]. split; [exact Er|]. split; [reflexivity|].
    split; [rewrite <- Hf, <- Eo; reflexivity|]. split; [exact Hd|]. apply Hno. rewrite <- Eo. vm_compute. reflexivity.
Defined.

Lemma first_installation_stops_witness :
  is_ok (Run root_host demo_sys fresh (options {{ InstallSystemd := true }}) disk).2 = false.
Proof.
  apply (first_installation_stops root_host demo_sys fresh (options {{ InstallSystemd := true }}) disk disk_tidy); reflexivity.
Defined.

Lemma set_up_proxy_loads_witness : exists w' r c,
  Run root_host demo_sys fresh options disk = (w', Ok r) /\ Load.Load root_host w' = (w', Ok c) /\
  Cfg.MTLSEnrollToken c = "00ff" /\ Cfg.TelegramChatID c = "-42" /\ Cfg.SignerMode c = "local-ca".
Proof.
  destruct (io_run (Run root_host demo_sys fresh options) disk) as (w' & r & E); [vm_compute; reflexivity|].
  assert (Er : (Run root_host demo_sys fresh options disk).2 = Ok r) by by rewrite E.
  assert (Ew : (Run root_host demo_sys fresh options disk).1 = w') by by rewrite E.
  vm_compute in Er. apply Ok_inj in Er.
  exists w', r. eexists. split; [exact E|]. split.
  - edestruct (set_up_proxy_loads root_host root_host demo_sys fresh options disk w' r disk_tidy E) as (Hl & _ & Hc); try reflexivity.
    + apply (config_apart options eq_refl).
    + right. split; [reflexivity|].
      exists (take 4 (proxyConfigPaths root_host)), (drop 5 (proxyConfigPaths root_host)).
      split; [reflexivity|]. apply Forall_forall. intros p Hp. rewrite <- Ew. revert p Hp. apply Forall_forall. apply (bool_decide_eq_true_1 _).
      vm_compute. reflexivity.
    + apply Forall_forall. intros kb _. split; reflexivity.
    + rewrite <- Er. vm_compute. reflexivity.
    + apply Hl, Hc; [reflexivity|]. apply (config_apart options eq_refl).
  - rewrite <- Er. split_and!; reflexivity.
Defined.
End ProxySetupDemo.
End ProxySetup.
