(* ===== verification/Serve.v ===== *)
(** * The proxy's process, from its configuration to its listeners (proxy/cmd/luna-proxy/serve.go;
      proxy/internal/api/server.go: TLS and server settings; proxy/internal/control/server.go: ServeUnix)

    [runServe] loads the configuration, makes the services that the API and the control socket share,
    and opens both listeners.  What happens on the listeners is the process of [Process].  The control
    socket is opened by a goroutine of its own; it is opened here when everything else is ready.  Log
    lines are kept only where they say what is enabled. *)

From Stdlib Require Import Ascii.
From S2P Require Import Prelude GoTime GoStrings GoEncoding GoPath GoOs External Fingerprint LeaseStore ReplayCache SessionBinding AuthPipeline Keystore Pending Signing Config Approval Telegram Devices Csr Http Api Control GoNet ConfigLoad CliClient CliCmd GoPrompt Systemd AgentSetup GoYaml AgentMain ProxyPki ProxySetup.

Module Serve.

(** ** TLS (api/server.go) *)

Inductive ClientAuthType := NoClientCert | RequestClientCert | RequireAnyClientCert | VerifyClientCertIfGiven | RequireAndVerifyClientCert.

Record ServerTLS := mkServerTLS {
  Certificates : list Certificate;
  ClientAuth : ClientAuthType;
  ClientCAs : list Certificate;
  MinVersion : Z
}.

Definition VersionTLS12 : Z := 771.

Record HTTPServer (H : Type) := mkHTTPServer { Addr : string; Handler : H; TLSConfig : ServerTLS; ReadTimeout : Z }.
#[global] Arguments mkHTTPServer {H} _ _ _ _.
#[global] Arguments Addr {H} _.
#[global] Arguments Handler {H} _.
#[global] Arguments TLSConfig {H} _.
#[global] Arguments ReadTimeout {H} _.

Definition NewHTTPServer {H} (addr : string) (handler : H) (tls : ServerTLS) : HTTPServer H :=
  mkHTTPServer addr handler tls (30 * Second).

(** ** Serving *)

Section serve.
Context {N : Type} (env : Environ) (sys : Sys N) (bind_fails : string -> bool).
Context `{HashLib, SshLib, !Sign.CertIssuer Ks.Keystore, Bind.SshWire, Csr.X509Lib}.
Context `{ViperLib, HttpClient.TlsFileLib}.
Notation W := (World N).

Definition LoadTLSConfig (certFile keyFile caFile : string) : IO W ServerTLS :=
  caPEM ← wrapping "read client CA" (ReadFile env caFile);
  match HttpClient.AppendCertsFromPEM caPEM with
  | [] => fail (errorf "parse client CA")
  | caPool =>
      cert ← look (fun w => or_err (AgentSetup.LoadX509KeyPair env w certFile keyFile) (errorf "load server cert"));
      mret (mkServerTLS [cert] VerifyClientCertIfGiven caPool VersionTLS12)
  end.

Definition envOr (key fallback : string) : string :=
  let v := Getenv env key in if negb (v =s "") then v else fallback.

Definition TLSConfigFromEnv : IO W ServerTLS :=
  let certFile := envOr "LUNA_MTLS_SERVER_CERT" (Load.ProductionCertPath "server.crt") in
  let keyFile := envOr "LUNA_MTLS_SERVER_KEY" (Load.ProductionCertPath "server.key") in
  let caFile := envOr "LUNA_MTLS_CLIENT_CA" (Load.ProductionCertPath "ca.crt") in
  LoadTLSConfig certFile keyFile caFile.

(** *** The control socket (control/server.go) *)

(** Permissions of the socket: its group may use it if there is such a group. *)
Definition socket_mode (group : string) (w : W) : Z :=
  if negb (group =s "") && bool_decide (is_Some (group_Lookup sys group (nw w))) then 432 else 384.

(** [ServeUnix] up to its accept loop: removing an old socket and setting the permissions may fail.
    Directories have no modes here, so [dirMode] does not appear. *)
Definition ServeUnix (path group : string) : IO W unit :=
  sockMode ← look (fun w => Ok (socket_mode group w));
  _ ← MkdirAll env (GoPath.Dir path);
  _ ← try (AgentMain.remove_socket env path);
  _ ← wrapping ("listen unix " +:+ path) (AgentMain.Listen env bind_fails path);
  _ ← try (Chmod env path sockMode);
  mret tt.

(** *** runServe (serve.go) *)

Definition envLabel (e : string) : string := if TrimSpace e =s "" then "production" else e.

Definition logTelegramStartup (cfg : Cfg.Config) (telegram : option Tg.Notifier) : string :=
  if Cfg.Env cfg =s "dev" then "luna-proxy dev mode: sign requests auto-approve; telegram OOB disabled" else
  if negb (Tg.Configured telegram)
  then "luna-proxy WARNING: telegram_bot_token or telegram_chat_id missing — approval notifications disabled" else
  "luna-proxy telegram long polling enabled (chat_id=" +:+ Cfg.TelegramChatID cfg +:+ ")".

(** Both signers are made from the one keystore; which of them there is depends on the mode. *)
Definition keystore_mode (cfg : Cfg.Config) : Ks.Mode :=
  if Cfg.SignerMode cfg =s Appr.SignerModeLocalKey then Ks.ModeLocalKey else Ks.ModeLocalCA.

Definition approval_store (cfg : Cfg.Config) : Appr.Store :=
  let store := Appr.SetConfig (Appr.NewStore (Cfg.ApprovalTimeout cfg)) cfg in
  let store := if Cfg.SignerMode cfg =s Appr.SignerModeLocalKey then Appr.SetKeySigner store true
               else Appr.SetIssuer store true in
  Appr.SetLeases store (Some Lease.NewStore).

Definition notifier_config (cfg : Cfg.Config) : Tg.NotifierConfig :=
  Tg.mkNotifierConfig (Cfg.TelegramBotToken cfg) (Cfg.TelegramChatID cfg) (Cfg.AllowedTTLSeconds cfg) "".

Definition start_poller (cfg : Cfg.Config) (telegram : option Tg.Notifier) : option Tg.Poller :=
  if negb (Cfg.Env cfg =s "dev") && Tg.Configured telegram
  then Some (Tg.NewPoller (notifier_config cfg) (Cfg.TelegramUserIDs cfg) 0) else None.

Definition control_path (socketPath : string) (cfg : Cfg.Config) : string :=
  let path := Load.or_default socketPath (Cfg.ControlSocket cfg) in
  Load.or_default path (Load.DefaultControlSocket env).

(** What the process serves: the API, the place and group of the control socket, and the poller. *)
Record Running := mkRunning {
  http : HTTPServer Api.server;
  ctrlPath : string;
  ctrlGroup : string;
  poller : option Tg.Poller
}.

(** [ListenAndServeTLS] up to its accept loop: the address may be taken. *)
Definition ListenTCP (addr : string) : IO W unit :=
  if bind_fails addr then fail (errorf ("listen tcp " +:+ addr)) else mret tt.

Definition runServe (socketPath : string) : IO W Running :=
  cfg ← Load.Load env;
  let telegram := Tg.NewNotifier (notifier_config cfg) in
  tlsCfg ← LoadTLSConfig (Cfg.MTLSServerCert cfg) (Cfg.MTLSServerKey cfg) (Cfg.MTLSClientCA cfg);
  csrSigner ← wrapping "CLI CSR signer" (look (fun w => Csr.NewCSRSignerFromConfig (AgentSetup.read_opt env w) cfg));
  handler ← look (fun w => Ok (Api.NewServer (AgentSetup.read_opt env w)
              (Api.mkServerDeps cfg (Ks.NewWithMode (keystore_mode cfg)) (Some Pend.NewPendingStore) (approval_store cfg)
                 (Replay.NewReplayLRU (60 * Second) 1000) (Some telegram) (Some Mob.NewStore) (Some Cli.NewStore)
                 csrSigner (Some Rate.NewLoadRateLimiter))));
  let path := control_path socketPath cfg in
  _ ← ServeUnix path (Cfg.ControlSocketGroup cfg);
  _ ← ListenTCP (Cfg.ListenAddr cfg);
  mret (mkRunning (NewHTTPServer (Cfg.ListenAddr cfg) handler tlsCfg) path (Cfg.ControlSocketGroup cfg)
          (start_poller cfg (Some telegram))).
End serve.

(** ** A proxy that starts *)

Section facts.
Context {N : Type} (env : Environ) (sys : Sys N) (bind_fails : string -> bool).
Context `{HashLib, SshLib, !Sign.CertIssuer Ks.Keystore, Bind.SshWire, Csr.X509Lib, Http.JsonLib, Http.EdLib}.
Context `{ViperLib, HttpClient.TlsFileLib}.
Implicit Types w : World N.

Lemma Load_world w w' c : Load.Load env w = (w', Ok c) -> w' = w.
Proof. unfold Load.Load. intros Hl. io_ok. subst. by match goal with H : Load.newViper _ _ = _ |- _ => apply Load.load_settings_ok in H as [-> _] end. Qed.

Lemma LoadTLSConfig_ok certFile keyFile caFile w w' t : LoadTLSConfig env certFile keyFile caFile w = (w', Ok t) ->
  w' = w /\ ClientAuth t = VerifyClientCertIfGiven /\ MinVersion t = VersionTLS12 /\ ClientCAs t <> [] /\
  (exists cert, AgentSetup.LoadX509KeyPair env w certFile keyFile = Some cert /\ Certificates t = [cert]) /\
  exists f, files w !! key env caFile = Some f /\ ClientCAs t = HttpClient.AppendCertsFromPEM (f_data f).
Proof.
  unfold LoadTLSConfig. intros Hl. io_ok.
  match goal with H : ReadFile _ _ _ = _ |- _ => apply ReadFile_file in H as (-> & f & Hf & <-) end.
  destruct (HttpClient.AppendCertsFromPEM (f_data f)) as [|c0 pool] eqn:E; [done|]. io_ok. subst.
  match goal with H : context [AgentSetup.LoadX509KeyPair env ?v certFile keyFile] |- _ =>
    destruct (AgentSetup.LoadX509KeyPair env v certFile keyFile) as [cert|] eqn:Ek; [|done] end.
  simplify_eq/=. split_and!; try done; [by eexists|by exists f].
Qed.

(** Listening makes the socket anew and touches no other file. *)
Lemma ServeUnix_ok path group w w' u : ServeUnix env sys bind_fails path group w = (w', Ok u) ->
  (exists f, files w' !! key env path = Some f /\ f_data f = [] /\
     f_mode f = if chmod_fails env (key env path) then Z.ldiff 511 (umask env) else socket_mode sys group w) /\
  (forall k, k <> key env path -> files w' !! k = files w !! k) /\ nw w' = nw w.
Proof.
  unfold ServeUnix. intros Hs. io_ok. subst.
  match goal with H : MkdirAll _ _ _ = _ |- _ => injection H as <- _ end.
  match goal with H : try (AgentMain.remove_socket _ _) ?v = (?v', _) |- _ =>
    assert (R1 : (forall k, k <> key env path -> files v' !! k = files v !! k) /\ nw v' = nw v) end.
  { match goal with H : try (AgentMain.remove_socket _ _) _ = _ |- _ => unfold try, AgentMain.remove_socket in H; rename H into Hr end.
    destruct (files _ !! key env path) in Hr; [|by injection Hr as <- _].
    destruct (rename_fails _ _); [by injection Hr as <- _|]. unfold GoOs.Remove in Hr. injection Hr as <- _.
    cbn [files nw set_files]. split; [|done]. intros k Hk. by apply lookup_delete_ne. }
  destruct R1 as [F1 N1].
  match goal with H : AgentMain.Listen _ _ _ _ = _ |- _ => unfold AgentMain.Listen in H; destruct (bind_fails path); [done|]; injection H as <- _ end.
  match goal with H : try (Chmod _ _ _) _ = _ |- _ => unfold try, Chmod in H; rename H into Hc end.
  cbn [files set_files] in Hc. rewrite lookup_insert_eq in Hc.
  destruct (chmod_fails env (key env path)); injection Hc as <- _; cbn [files nw set_files]; (split; [|split; [|done]]).
  - eexists. by rewrite lookup_insert_eq.
  - intros k Hk. rewrite lookup_insert_ne by done. by apply F1.
  - eexists. by rewrite lookup_insert_eq.
  - intros k Hk. rewrite !lookup_insert_ne by done. by apply F1.
Qed.

Lemma runServe_ok socketPath w w' x : runServe env sys bind_fails socketPath w = (w', Ok x) ->
  let s := Handler (http x) in let cfg := Api.cfg s in
  Load.Load env w = (w, Ok cfg) /\
  (exists csr telegram, s = Api.mkServer cfg (Ks.NewWithMode (keystore_mode cfg)) (approval_store cfg) (Replay.NewReplayLRU (60 * Second) 1000)
     (Some telegram) Mob.NewStore Pend.NewPendingStore (Mob.NewPushNotifier (Cfg.FCMCredentials cfg)) Cli.NewStore csr Rate.NewLoadRateLimiter /\
     telegram = Tg.NewNotifier (notifier_config cfg) /\ poller x = start_poller cfg (Some telegram)) /\
  LoadTLSConfig env (Cfg.MTLSServerCert cfg) (Cfg.MTLSServerKey cfg) (Cfg.MTLSClientCA cfg) w = (w, Ok (TLSConfig (http x))) /\
  ctrlGroup x = Cfg.ControlSocketGroup cfg /\ ServeUnix env sys bind_fails (ctrlPath x) (ctrlGroup x) w = (w', Ok tt).
Proof.
  unfold runServe. intros Hr. io_ok. subst.
  match goal with H : ListenTCP _ _ _ = _ |- _ => unfold ListenTCP in H; destruct (bind_fails _); [done|]; injection H as -> _ end.
  match goal with Hl : Load.Load _ _ = (?v, Ok ?c) |- _ => pose proof (Load_world _ _ _ Hl) as ->; rename Hl into HL end.
  match goal with H : LoadTLSConfig _ _ _ _ _ = (_, Ok _) |- _ => pose proof H as HT; apply LoadTLSConfig_ok in H as (-> & _) end.
  match goal with H : ServeUnix _ _ _ _ _ _ = (_, Ok ?u) |- _ => destruct u end.
  cbn [Handler http poller ctrlGroup ctrlPath TLSConfig NewHTTPServer Api.cfg Api.NewServer Api.dep_Config].
  split; [exact HL|]. split; [|split; [exact HT|done]].
  eexists _, _. split; [reflexivity|]. done.
Qed.

Lemma start_poller_iff cfg : start_poller cfg (Some (Tg.NewNotifier (notifier_config cfg))) <> None <->
  Cfg.Env cfg <> "dev" /\ Cfg.TelegramBotToken cfg <> "" /\ Cfg.TelegramChatID cfg <> "".
Proof.
  unfold start_poller, Tg.Configured. cbn [Tg.token Tg.chatID Tg.NewNotifier notifier_config Tg.BotToken Tg.ChatID].
  destruct (Cfg.Env cfg =s "dev") eqn:E1, (Cfg.TelegramBotToken cfg =s "") eqn:E2, (Cfg.TelegramChatID cfg =s "") eqn:E3; str_prop;
    cbn [negb andb]; split; try (by intros []); try (by intros (? & ? & ?)); done.
Qed.

(** Without an enrolled device nobody approves over the mobile route. *)
Lemma handleMobileApprove_none renv s r : Api.mobile s = ∅ -> Api.store (Api.handleMobileApprove renv s r).1 = Api.store s.
Proof.
  intros Hm. destruct (Api.handleMobileApprove renv s r) as [s' resp] eqn:E. cbn [fst]. destruct (decide (Http.status resp = Http.StatusOK)) as [Hok|Hno].
  - apply Api.handleMobileApprove_ok in E as (req & dev & ttl & (Hd & _) & _); [|done]. rewrite Hm in Hd. by rewrite lookup_empty in Hd.
  - by apply Api.handleMobileApprove_refused in E as ->.
Qed.

(** C16: A proxy that starts is closed.  It has read its configuration and serves exactly that: TLS shows
    the configured certificate and verifies client certificates against the configured, non-empty CA,
    and the poller runs only outside development and with a bot and a chat.  It holds no signing key,
    no enrolled device, no upload and no transaction, so that no signing request is accepted and no
    request of a device approves anything until an operator has loaded a key and enrolled one.  The
    control socket is made anew and no other file changes; when its permissions can be set it is closed
    to everybody outside its user and group.  Setting them is a best effort: if it fails the proxy
    starts all the same, and only the process's mask restricts the socket. *)
Theorem proxy_starts_sealed socketPath w w' x : runServe env sys bind_fails socketPath w = (w', Ok x) ->
  let s := Handler (http x) in let cfg := Api.cfg s in let tls := TLSConfig (http x) in
  Load.Load env w = (w, Ok cfg) /\ Ks.Available (Api.keystore s) = false /\
  (Api.mobile s = ∅ /\ Api.cli s = ∅ /\ Appr.txs (Api.store s) = ∅ /\ Pend.entries (Api.pending s) = ∅) /\
  (forall renv r s' resp evs, Api.handleSign renv s r = (s', resp, evs) -> Http.status resp <> Http.StatusAccepted) /\
  (forall renv r, Api.store (Api.handleMobileApprove renv s r).1 = Api.store s) /\
  (ClientAuth tls = VerifyClientCertIfGiven /\
   (exists cert, AgentSetup.LoadX509KeyPair env w (Cfg.MTLSServerCert cfg) (Cfg.MTLSServerKey cfg) = Some cert /\ Certificates tls = [cert]) /\
   exists f, files w !! key env (Cfg.MTLSClientCA cfg) = Some f /\ ClientCAs tls = HttpClient.AppendCertsFromPEM (f_data f) /\
     HttpClient.AppendCertsFromPEM (f_data f) <> []) /\
  (poller x <> None <-> Cfg.Env cfg <> "dev" /\ Cfg.TelegramBotToken cfg <> "" /\ Cfg.TelegramChatID cfg <> "") /\
  (exists f, files w' !! key env (ctrlPath x) = Some f /\
     if chmod_fails env (key env (ctrlPath x)) then f_mode f = Z.ldiff 511 (umask env) else private (f_mode f)) /\
  (forall k, k <> key env (ctrlPath x) -> files w' !! k = files w !! k).
Proof.
  intros Hr s cfg tls. destruct (runServe_ok _ _ _ _ Hr) as (HL & (csr & tg & Es & Et & Ep) & HT & Hg & Hu). fold s cfg tls in HL, Es, Ep, HT, Hg.
  destruct (LoadTLSConfig_ok _ _ _ _ _ _ HT) as (_ & Ha & _ & Hne & Hcert & f & Hf & Hc).
  destruct (ServeUnix_ok _ _ _ _ _ Hu) as ((g & Hsock & _ & Hm) & Ho & _).
  assert (Hs : Ks.Available (Api.keystore s) = false) by (rewrite Es; by destruct (keystore_mode cfg)).
  assert (Hmob : Api.mobile s = ∅) by (by rewrite Es).
  split; [done|]. split; [done|]. split.
  { rewrite Es. cbn [Api.mobile Api.cli Api.store Api.pending]. split_and!; try done. unfold approval_store. by destruct (_ =s _). }
  split. { intros renv r s' resp evs Hh Hst. apply Api.handleSign_accepted in Hh as (? & ? & ? & ? & ? & ? & ? & _ & _ & _ & Hav & _); [|done]. congruence. }
  split. { intros renv r. by apply handleMobileApprove_none. }
  split; [split; [done|]; split; [done|]; exists f; split_and!; [done|done|congruence]|].
  split; [rewrite Ep, Et; apply start_poller_iff|]. split; [|done].
  exists g. split; [done|]. rewrite Hm. destruct (chmod_fails _ _); [done|]. unfold socket_mode. by destruct (_ && _).
Qed.
End facts.

(** ** A proxy started on what set-up left *)
Module ServeDemo.
Import Demo Bind.WireDemo Csr.CsrDemo SystemdDemo Pki.PkiDemo YamlDemo Api.ApiDemo.
#[local] Existing Instances ProxySetup.ProxySetupDemo.demo_unicode AgentSetup.SetupDemo.demo_files Sign.demo_cert Sign.LocalCA Sign.LocalCA_laws.

Definition ready : World accounts := (ProxySetup.Run root_host demo_sys ProxySetup.ProxySetupDemo.fresh ProxySetup.ProxySetupDemo.options disk).1.
Definition listens : string -> bool := fun _ => false.

Lemma proxy_starts_sealed_witness : exists w' x,
  runServe root_host demo_sys listens "" ready = (w', Ok x) /\
  Ks.Available (Api.keystore (Handler (http x))) = false.
Proof.
  destruct (io_run (runServe root_host demo_sys listens "") ready) as (w' & x & E); [vm_compute; reflexivity|].
  destruct (proxy_starts_sealed root_host demo_sys listens "" ready w' x E) as (_ & Ha & _).
  exists w', x. split; [exact E|exact Ha].
Defined.
End ServeDemo.
End Serve.
