(* ===== verification/Process.v ===== *)
(** * The running proxy

    Requests, control connections, Telegram updates, timers and the lease sweeper all work on the
    services that [runServe] made.  A step of the process is one of them; a handler that waits for an
    outcome is two, its beginning and its end, with any steps in between.  [ApprovalSys] has the finer
    interleaving of the approval store alone, and the process is shown to stay within it. *)

From Stdlib Require Import Ascii.
From coqutil Require Import Datatypes.RecordSetters.
From S2P Require Import Prelude GoTime GoStrings GoEncoding GoFormat GoPath GoOs External Fingerprint LeaseStore ReplayCache SessionBinding AuthPipeline Keystore Pending Signing Config Approval ApprovalSys Telegram Devices Csr Http Api Control GoNet ConfigLoad CliClient GoPrompt Systemd AgentSetup GoYaml ProxyPki ProxySetup Serve.

Module Proc.
Import Http.

Section process.
Context `{HashLib, SshLib, !Sign.CertIssuer Ks.Keystore, Bind.SshWire, Csr.X509Lib, JsonLib, EdLib, !Ctl.CtlJson}.

(** ** State *)

(** [waiting] are the calls of [Wait], [bypassing] the transactions whose development approver has
    not run yet; [ids] are the identifiers handed out. *)
Record Process := mkProcess {
  srv : Api.server;
  poller : option Tg.Poller;
  waiting : list Sys.waiter;
  bypassing : list string;
  ids : gset string
}.

Definition with_srv (p : Process) (s : Api.server) : Process := mkProcess s (poller p) (waiting p) (bypassing p) (ids p).
Definition with_store (p : Process) (st : Appr.Store) : Process := with_srv p (Api.with_store (srv p) st).
Definition with_waiting (p : Process) (l : list Sys.waiter) : Process := mkProcess (srv p) (poller p) l (bypassing p) (ids p).

(** The process [runServe] starts. *)
Definition started (x : Serve.Running) : Process := mkProcess (Serve.Handler (Serve.http x)) (Serve.poller x) [] [] ∅.

(** ** Waiting, in two halves *)

(** The first half of [handleWait]: refused, or blocked on a channel, or nothing to wait for. *)
Definition wait_begin (s : Api.server) (r : Request) : Api.server * (Response + nat) :=
  let txID := PathValue r "tx_id" in
  let '(bound, ok) := Appr.store_ClientCertFP (Api.store s) txID in
  if ok && negb (bound =s "") && negb (clientCertFPFromRequest r =s bound)
  then (s, inl (Error "client certificate mismatch" StatusForbidden)) else
  match Appr.waitResult (Api.store s) txID with
  | (st, None) => (Api.with_store s st, inl (Api.writeWaitError Appr.ErrNotFound))
  | (st, Some ch) => (Api.with_store s st, inr ch)
  end.

(** The second half, on the store as it is by then. *)
Definition wait_end (w : Api.wake) (st : Appr.Store) (txID : string) (ch : nat) : option (Appr.Store * result Appr.Result) :=
  match w with
  | Api.WakeResult =>
      '(st, res) ← Appr.receive st ch;
      Some (Appr.remove st txID, match Appr.Err res with Some e => Err e | None => Ok res end)
  | Api.WakeCanceled e => Some (Appr.cancelWait st txID, Err e)
  end.

(** What is sent when it returns. *)
Definition wait_answer (env : Api.Env) (res : result Appr.Result) : Response :=
  match res with
  | Err e => Api.writeWaitError e
  | Ok res =>
      mkResponse StatusOK (CWait (mkWaitResponse (Appr.Cert res) (Appr.Signature res)
        (Api.formatTimeRFC3339 (Api.tick env Api.TFallback) (Appr.ExpiresAt res) (5 * Minute))
        (if IsZero (Appr.LeaseExpiresAt res) then "" else RFC3339 (Appr.LeaseExpiresAt res))))
  end.

(** The two halves are [handleWait]. *)
Lemma handleWait_halves during w env s r :
  Api.handleWait during w env s r =
  match wait_begin s r with
  | (s, inl resp) => Some (s, resp)
  | (s, inr ch) =>
      '(st, res) ← wait_end w (during (Api.store s)) (PathValue r "tx_id") ch;
      Some (Api.with_store s st, wait_answer env res)
  end.
Proof.
  unfold Api.handleWait, wait_begin, Api.Wait. destruct (Appr.store_ClientCertFP _ _) as [bound ok]. destruct (_ && _ && _); [done|].
  destruct (Appr.waitResult (Api.store s) _) as [st [ch|]]; [|done].
  destruct w as [|e]; cbn [wait_end]; [|done]. cbn [Api.store Api.with_store].
  destruct (Appr.receive (during st) ch) as [[st' res]|]; [|done]. cbn. by destruct (Appr.Err res).
Qed.

(** ** Steps *)

Definition is_wait (rt : Api.route) : bool := match rt with Api.RWait _ _ => true | _ => false end.
Definition dev_approvals (evs : list Api.event) : list string :=
  omap (fun e => match e with Api.EDevApprove id => Some id | _ => None end) evs.

(** The control socket works on the same services. *)
Definition control_view (s : Api.server) : Ctl.Server :=
  Ctl.NewServer (Api.cfg s) (Api.keystore s) (Api.mobile s) (Some (Api.pending s)) (Some (Api.cli s)) (Api.csrSigner s)
    (Some (Api.loadLimiter s)).
Definition control_put (s : Api.server) (c : Ctl.Server) : Api.server :=
  Api.mkServer (Api.cfg s) (Ctl.keystore c) (Api.store s) (Api.replay s) (Api.telegram s) (Ctl.mobile c) (Ctl.pending c)
    (Api.push s) (Ctl.cli c) (Api.csrSigner s) (default (Api.loadLimiter s) (Ctl.loadLimiter c)).

(** Identifiers are drawn anew for each request. *)
Definition fresh_ids (p : Process) (ulid : string) : Prop :=
  Appr.newTxID ulid ∉ ids p /\ Pend.entries (Api.pending (srv p)) !! ("pend_" +:+ ulid) = None.

(** What happens, with what it brings from outside. *)
Inductive action :=
| AHttp (env : Api.Env) (rt : Api.route) (r : Request)
| AWait (r : Request)
| AReturn (i : nat) (w : Api.wake)
| ABypass (i : nat) (now clock : Z)
| APoll (http : Tg.request -> Tg.response) (clk : Z) (r : Tg.updates)
| ANotify (http : Tg.request -> Tg.response) (t : option Appr.Transaction)
| ATimer (id : string)
| ASweep (now : Z) (order : list (Lease.FullKey * Lease.ActiveLease))
| AControl (env : Ctl.Env) (cred : option (Z * Z)) (lookup : string -> option string) (line : option (list byte)).

(** [euid] is the process's user, [group] the group of the control socket. *)
Inductive step (euid : Z) (group : string) : action -> Process -> Process -> Prop :=
| p_http p env rt r s' resp evs :
    is_wait rt = false -> fresh_ids p (Api.ulid env) -> Api.serve env (srv p) rt r = Some (s', resp, evs) ->
    step euid group (AHttp env rt r) p
      (mkProcess s' (poller p) (waiting p) (bypassing p ++ dev_approvals evs) ({[Appr.newTxID (Api.ulid env)]} ∪ ids p))
| p_wait p r s' ch :
    withMTLS r = None -> wait_begin (srv p) r = (s', inr ch) ->
    step euid group (AWait r) p (with_waiting (with_srv p s') (waiting p ++ [Sys.WBlocked (PathValue r "tx_id") ch]))
| p_wait_refused p r s' resp :
    withMTLS r = None -> wait_begin (srv p) r = (s', inl resp) -> step euid group (AWait r) p (with_srv p s')
| p_return p i id ch w st res :
    waiting p !! i = Some (Sys.WBlocked id ch) -> wait_end w (Api.store (srv p)) id ch = Some (st, res) ->
    step euid group (AReturn i w) p (with_waiting (with_store p st) (<[i := Sys.WDone id res]> (waiting p)))
| p_bypass p i id now clock :
    bypassing p !! i = Some id ->
    step euid group (ABypass i now clock) p
      (mkProcess (Api.with_store (srv p) (Appr.Approve (Api.keystore (srv p)) now clock (Api.store (srv p)) id Appr.DefaultDevCertTTL ""))
         (poller p) (waiting p) (delete i (bypassing p)) (ids p))
| p_poll p pl http clk r pl' st evs res :
    poller p = Some pl -> Tg.pollOnce http (Api.keystore (srv p)) clk pl (Api.store (srv p)) r = (pl', st, evs, res) ->
    step euid group (APoll http clk r) p (mkProcess (Api.with_store (srv p) st) (Some pl') (waiting p) (bypassing p) (ids p))
| p_notify p http n t n' req res :
    Api.telegram (srv p) = Some n -> Tg.Notify http n t = (n', req, res) ->
    step euid group (ANotify http t) p
      (with_srv p (Api.mkServer (Api.cfg (srv p)) (Api.keystore (srv p)) (Api.store (srv p)) (Api.replay (srv p)) (Some n')
         (Api.mobile (srv p)) (Api.pending (srv p)) (Api.push (srv p)) (Api.cli (srv p)) (Api.csrSigner (srv p)) (Api.loadLimiter (srv p))))
| p_timer p id : step euid group (ATimer id) p (with_store p (Appr.expire (Api.store (srv p)) id))
| p_sweep p now l order :
    Appr.leases (Api.store (srv p)) = Some l -> iteration_of (Lease.leases l) order ->
    step euid group (ASweep now order) p (with_store p (Appr.set_leases (Api.store (srv p)) (Some (Lease.purge_loop now l order))))
| p_control p env cred lookup line c resp :
    Ctl.serveConn env cred euid lookup group line (control_view (srv p)) = (c, resp) ->
    step euid group (AControl env cred lookup line) p (with_srv p (control_put (srv p) c)).

#[local] Existing Instances Lease.FullKey_eq_dec.
#[local] Instance ActiveLease_eq_dec : EqDecision Lease.ActiveLease.
Proof. solve_decision. Defined.

(** Steps can be run: an action that cannot happen gives nothing. *)
Definition perform (euid : Z) (group : string) (p : Process) (a : action) : option Process :=
  let s := srv p in
  match a with
  | AHttp env rt r =>
      if is_wait rt || bool_decide (Appr.newTxID (Api.ulid env) ∈ ids p) ||
         bool_decide (is_Some (Pend.entries (Api.pending s) !! ("pend_" +:+ Api.ulid env))) then None else
      '(s', _, evs) ← Api.serve env s rt r;
      Some (mkProcess s' (poller p) (waiting p) (bypassing p ++ dev_approvals evs) ({[Appr.newTxID (Api.ulid env)]} ∪ ids p))
  | AWait r =>
      match withMTLS r, wait_begin s r with
      | None, (s', inr ch) => Some (with_waiting (with_srv p s') (waiting p ++ [Sys.WBlocked (PathValue r "tx_id") ch]))
      | None, (s', inl _) => Some (with_srv p s')
      | Some _, _ => None
      end
  | AReturn i w =>
      match waiting p !! i with
      | Some (Sys.WBlocked id ch) =>
          '(st, res) ← wait_end w (Api.store s) id ch;
          Some (with_waiting (with_store p st) (<[i := Sys.WDone id res]> (waiting p)))
      | _ => None
      end
  | ABypass i now clock =>
      id ← bypassing p !! i;
      Some (mkProcess (Api.with_store s (Appr.Approve (Api.keystore s) now clock (Api.store s) id Appr.DefaultDevCertTTL ""))
              (poller p) (waiting p) (delete i (bypassing p)) (ids p))
  | APoll http clk r =>
      pl ← poller p;
      let '(pl', st, _, _) := Tg.pollOnce http (Api.keystore s) clk pl (Api.store s) r in
      Some (mkProcess (Api.with_store s st) (Some pl') (waiting p) (bypassing p) (ids p))
  | ANotify http t =>
      n ← Api.telegram s;
      let '(n', _, _) := Tg.Notify http n t in
      Some (with_srv p (Api.mkServer (Api.cfg s) (Api.keystore s) (Api.store s) (Api.replay s) (Some n')
              (Api.mobile s) (Api.pending s) (Api.push s) (Api.cli s) (Api.csrSigner s) (Api.loadLimiter s)))
  | ATimer id => Some (with_store p (Appr.expire (Api.store s) id))
  | ASweep now order =>
      l ← Appr.leases (Api.store s);
      if decide (order = map_to_list (Lease.leases l))
      then Some (with_store p (Appr.set_leases (Api.store s) (Some (Lease.purge_loop now l order)))) else None
  | AControl env cred lookup line =>
      Some (with_srv p (control_put s (Ctl.serveConn env cred euid lookup group line (control_view s)).1))
  end.

Lemma perform_step euid group a p p' : perform euid group p a = Some p' -> step euid group a p p'.
Proof.
  destruct a as [env rt r|r|i w|i now clock|http clk r|http t|id|now order|env cred lookup line]; cbn [perform].
  - destruct (is_wait rt) eqn:Ew, (bool_decide (Appr.newTxID (Api.ulid env) ∈ ids p)) eqn:Ei,
      (bool_decide (is_Some (Pend.entries (Api.pending (srv p)) !! ("pend_" +:+ Api.ulid env)))) eqn:Ep; try done.
    apply bool_decide_eq_false in Ei, Ep. destruct (Api.serve env (srv p) rt r) as [[[s' resp] evs]|] eqn:Es; [|done]. intros [= <-].
    eapply p_http; [done| |exact Es]. split; [done|]. by apply eq_None_not_Some.
  - destruct (withMTLS r) eqn:Em; [done|]. destruct (wait_begin (srv p) r) as [s' [resp|ch]] eqn:Eb; intros [= <-];
      [by eapply p_wait_refused|by eapply p_wait].
  - destruct (waiting p !! i) as [[id ch| |]|] eqn:Ei; try done. destruct (wait_end w (Api.store (srv p)) id ch) as [[st res]|] eqn:Ee; [|done].
    intros [= <-]. by eapply p_return.
  - destruct (bypassing p !! i) as [id|] eqn:Ei; [|done]. intros [= <-]. by apply p_bypass.
  - destruct (poller p) as [pl|] eqn:Ep; [|done]. cbn. destruct (Tg.pollOnce _ _ _ _ _ _) as [[[pl' st] evs] res] eqn:Eo. intros [= <-]. by eapply p_poll.
  - destruct (Api.telegram (srv p)) as [n|] eqn:En; [|done]. cbn. destruct (Tg.Notify http n t) as [[n' req] res] eqn:Et. intros [= <-]. by eapply p_notify.
  - intros [= <-]. apply p_timer.
  - destruct (Appr.leases (Api.store (srv p))) as [l|] eqn:El; [|done]. cbn. case_decide as Eo; [|done]. intros [= <-]. apply p_sweep; [done|]. rewrite Eo. apply iteration_self.
  - intros [= <-]. eapply p_control. apply surjective_pairing.
Qed.

Fixpoint play (euid : Z) (group : string) (l : list action) (p : Process) : option Process :=
  match l with
  | [] => Some p
  | a :: l => p' ← perform euid group p a; play euid group l p'
  end.

(** ** The approval store within [ApprovalSys] *)

Lemma sys_one y y' : Sys.reachable y -> Sys.step y y' -> Sys.reachable y'.
Proof. intros (y0 & Hi & Hr) Hs. exists y0. split; [done|]. by eapply rtc_r. Qed.

(** An approver that was just started can run all its phases at once. *)
Lemma run_approver y a now clock : Sys.reachable y -> last (Sys.approvers y) = Some a ->
  exists y', Sys.reachable y' /\ Sys.st y' = (Appr.approver_step (Sys.ks y) now clock (Sys.st y) a).1 /\
    last (Sys.approvers y') = Some (Appr.approver_step (Sys.ks y) now clock (Sys.st y) a).2 /\
    Sys.ks y' = Sys.ks y /\ Sys.waits y' = Sys.waits y /\ Sys.used y' = Sys.used y /\ Sys.calls y' = Sys.calls y.
Proof.
  intros Hr Hl. destruct (Appr.approver_step (Sys.ks y) now clock (Sys.st y) a) as [s a'] eqn:E.
  apply last_Some in Hl as [l Hl].
  assert (Ha : Sys.approvers y !! length l = Some a) by (rewrite Hl, lookup_app_r by lia; by rewrite Nat.sub_diag).
  eexists. split; [eapply sys_one; [exact Hr|by eapply Sys.s_approver]|]. cbn. split_and!; try done.
  rewrite Hl, insert_app_r_alt, Nat.sub_diag by lia. apply last_snoc.
Qed.

Lemma sys_Approve y id ttl who now clock : Sys.reachable y ->
  exists y', Sys.reachable y' /\ Sys.st y' = Appr.Approve (Sys.ks y) now clock (Sys.st y) id ttl who /\
    Sys.ks y' = Sys.ks y /\ Sys.waits y' = Sys.waits y /\ Sys.used y' = Sys.used y /\ Sys.calls y' = Sys.calls y ++ [(id, who)].
Proof.
  intros Hr. unfold Appr.Approve, Appr.approveWithIssuer. set (t := if ttl <=? 0 then _ else _).
  pose proof (sys_one _ _ Hr (Sys.s_approve y id ttl who)) as R0. fold t in R0. set (y0 := Sys.spawn y id t who) in R0.
  assert (L0 : last (Sys.approvers y0) = Some (Appr.ACall id t who)) by apply last_snoc.
  destruct (run_approver y0 _ now clock R0 L0) as (y1 & R1 & S1 & L1 & K1 & W1 & U1 & C1).
  destruct (run_approver y1 _ now clock R1 L1) as (y2 & R2 & S2 & L2 & K2 & W2 & U2 & C2).
  destruct (run_approver y2 _ now clock R2 L2) as (y3 & R3 & S3 & L3 & K3 & W3 & U3 & C3).
  destruct (run_approver y3 _ now clock R3 L3) as (y4 & R4 & S4 & _ & K4 & W4 & U4 & C4).
  exists y4. split; [done|]. rewrite K4, K3, K2, K1, W4, W3, W2, W1, U4, U3, U2, U1, C4, C3, C2, C1.
  split; [|done]. rewrite S4, S3, S2, S1, K3, K2, K1. change (Sys.st y0) with (Sys.st y). change (Sys.ks y0) with (Sys.ks y).
  destruct (Appr.approver_step (Sys.ks y) now clock (Sys.st y) (Appr.ACall id t who)) as [s1 a1]. cbn [fst snd].
  destruct (Appr.approver_step (Sys.ks y) now clock s1 a1) as [s2 a2]. cbn [fst snd].
  by destruct (Appr.approver_step (Sys.ks y) now clock s2 a2) as [s3 a3].
Qed.

(** *** What a request does to the approval store and the keystore *)

Inductive effect (env : Api.Env) (s : Api.server) (rt : Api.route) (r : Request) : Appr.Store -> Ks.Keystore -> list string -> Prop :=
| e_none : effect env s rt r (Api.store s) (Api.keystore s) []
| e_load k : Ks.step (Api.keystore s) k -> effect env s rt r (Api.store s) k []
| e_create now user ip pub src fp data host dst meta st t ch dev :
    rt = Api.RSign -> Appr.CreateBound (Api.ulid env) now (Api.store s) user ip pub src fp data host dst meta = (st, t, ch, dev) ->
    effect env s rt r st (Api.keystore s) (if dev then [Appr.ID t] else [])
| e_lease t1 t2 t3 t4 now lookup pub data host res st t :
    Appr.IssueFromLease (Api.keystore s) t1 t2 t3 t4 (Api.store s) lookup pub data host = (res, true) ->
    Appr.CreateInstantApproved (Api.ulid env) now (Api.store s) (Lease.TargetUser lookup) (Lease.TargetIP lookup) pub
      (Lease.SourceIP lookup) (Lease.ClientCertFP lookup) res = (st, t) ->
    effect env s rt r st (Api.keystore s) []
| e_device req dev ttl now clock :
    rt = Api.RMobileApprove -> Api.device_approved env s r req dev ->
    effect env s rt r (Appr.Approve (Api.keystore s) now clock (Api.store s) (TxID req) ttl (Lease.FormatApproverDeviceID (ap_DeviceID req)))
      (Api.keystore s) [].

Lemma openTransaction_effect env s0 s rt r req src fp hostFP dest meta allow log s' resp evs :
  rt = Api.RSign -> Api.store s = Api.store s0 -> Api.keystore s = Api.keystore s0 ->
  Api.openTransaction env s req src fp hostFP dest meta allow log = (s', resp, evs) ->
  effect env s0 rt r (Api.store s') (Api.keystore s') (dev_approvals evs).
Proof.
  intros Ert Es Ek. unfold Api.openTransaction. rewrite Es, Ek. cbv zeta.
  set (lookup := Lease.NewLookupKey _ _ _ _ _ _).
  match goal with |- context [match ?f with Some _ => _ | None => _ end] => destruct f as [res|] eqn:Ef end.
  - destruct (negb _ && allow); [|done]. destruct (Appr.IssueFromLease _ _ _ _ _ _ _ _ _ _) as [res' []] eqn:Ei; [|done].
    injection Ef as ->. destruct (Appr.CreateInstantApproved _ _ _ _ _ _ _ _ _) as [st t] eqn:Ec. intros [= <- <- <-].
    cbn [Api.store Api.keystore Api.with_store]. rewrite Ek. by eapply (e_lease env s0 rt r _ _ _ _ _ lookup).
  - destruct (Appr.CreateBound _ _ _ _ _ _ _ _ _ _ _ _) as [[[st t] ch] dev] eqn:Ec. intros [= <- <- <-].
    cbn [Api.store Api.keystore Api.with_store]. rewrite Ek.
    match goal with |- effect _ _ _ _ _ _ (dev_approvals ?l) => assert (dev_approvals l = if dev then [Appr.ID t] else []) as -> end.
    { unfold dev_approvals. rewrite !omap_app. destruct dev, (Cfg.Env (Api.cfg s) =s "dev"), (Tg.Configured (Api.telegram s)); done. }
    by eapply e_create.
Qed.

Lemma handleSign_effect env s rt r s' resp evs : rt = Api.RSign -> Api.handleSign env s r = (s', resp, evs) ->
  effect env s rt r (Api.store s') (Api.keystore s') (dev_approvals evs).
Proof.
  intros Hrt. unfold Api.handleSign. cbv zeta. intros Hh.
  destruct (ReadAll _ r) as [raw| |]; [|injection Hh as <- <- <-; exact (e_none env s rt r)..].
  destruct (json_SignRequest raw) as [q|]; [|injection Hh as <- <- <-; exact (e_none env s rt r)].
  destruct (conn r) as [c|]; [|injection Hh as <- <- <-; exact (e_none env s rt r)].
  destruct (Auth.ValidateSignRequest _ _ _ _ _ _) as [rp [u|e]]; [|injection Hh as <- <- <-; exact (e_none env s rt r)].
  destruct (negb _); [injection Hh as <- <- <-; exact (e_none env s rt r)|]. destruct (_ && _); [injection Hh as <- <- <-; exact (e_none env s rt r)|].
  destruct (_ <? _); [injection Hh as <- <- <-; exact (e_none env s rt r)|].
  destruct (Api.resolveHostKeyFingerprint _ _ _) as [fp|]; [|injection Hh as <- <- <-; exact (e_none env s rt r)].
  destruct (Api.bindDestination _ _ _ _) as [[[o|] resp']|[[dst meta] allow]];
    [injection Hh as <- <- <-; exact (e_none env s rt r)|injection Hh as <- <- <-; exact (e_none env s rt r)|]. by eapply openTransaction_effect in Hh.
Qed.

Definition quiet (s s' : Api.server) : Prop := Api.store s' = Api.store s /\ Api.keystore s' = Api.keystore s.

Lemma quiet_effect env s rt r s' : quiet s s' -> effect env s rt r (Api.store s') (Api.keystore s') [].
Proof. intros [-> ->]. apply e_none. Qed.

Lemma handleMTLSEnroll_quiet env s r : quiet s (Api.handleMTLSEnroll env s r).1.
Proof. rewrite (Api.handleMTLSEnroll_frame env s r). done. Qed.
Lemma handleMobileEnroll_quiet env s r : quiet s (Api.handleMobileEnroll env s r).1.
Proof. unfold Api.handleMobileEnroll. repeat case_match; done. Qed.
Lemma handleMobileDelete_quiet s r : quiet s (Api.handleMobileDeleteDevice s r).1.
Proof. unfold Api.handleMobileDeleteDevice. repeat case_match; done. Qed.
Lemma handleMobilePending_quiet env s r : quiet s (Api.handleMobileKeysPending env s r).1.
Proof. unfold Api.handleMobileKeysPending. repeat case_match; done. Qed.
Lemma handleCLIEnroll_quiet env s r : quiet s (Api.handleCLIEnroll env s r).1.
Proof. unfold Api.handleCLIEnroll. repeat case_match; done. Qed.
Lemma handleCLIDelete_quiet s r : quiet s (Api.handleCLIDeleteDevice s r).1.
Proof. unfold Api.handleCLIDeleteDevice. repeat case_match; done. Qed.

Lemma handleCLIKeysLoad_effect env s rt r : let s' := (Api.handleCLIKeysLoad env s r).1 in effect env s rt r (Api.store s') (Api.keystore s') [].
Proof.
  unfold Api.handleCLIKeysLoad. repeat (case_match; try exact (e_none env s rt r)); cbn [fst];
    match goal with E : Ks.LoadPEMBytes ?a ?b ?c ?k ?x ?y ?z = (?k', _, _) |- effect _ _ _ _ _ ?k'' _ =>
      change k'' with k'; replace k' with (Ks.LoadPEMBytes a b c k x y z).1.1 by (by rewrite E); apply (e_load env s rt r), Ks.step_load end.
Qed.

Lemma handleMobileApprove_effect env s rt r : rt = Api.RMobileApprove -> let s' := (Api.handleMobileApprove env s r).1 in effect env s rt r (Api.store s') (Api.keystore s') [].
Proof.
  intros Hrt. destruct (Api.handleMobileApprove env s r) as [s' resp] eqn:E. cbn [fst].
  destruct (decide (status resp = StatusOK)) as [Hok|Hno].
  - apply Api.handleMobileApprove_ok in E as (req & dev & ttl & Hd & _ & ->); [|done]. exact (e_device env s rt r req dev ttl _ _ Hrt Hd).
  - apply Api.handleMobileApprove_refused in E as ->; [|done]. apply e_none.
Qed.

Lemma serve_effect env s rt r s' resp evs : is_wait rt = false -> Api.serve env s rt r = Some (s', resp, evs) ->
  effect env s rt r (Api.store s') (Api.keystore s') (dev_approvals evs).
Proof.
  intros Hw. unfold Api.serve. cbv zeta.
  destruct rt; try discriminate Hw; unfold Api.guarded, Api.plain;
    repeat match goal with |- context [match ?c with Some resp0 => Some (s, resp0, []) | None => _ end] => destruct c end;
    try (intros [= <- <- <-]; apply e_none).
  - pose proof (handleMTLSEnroll_quiet env s r). destruct (Api.handleMTLSEnroll env s r). intros [= <- <- <-]. by apply quiet_effect.
  - intros [= Hs]. by eapply handleSign_effect in Hs.
  - pose proof (handleMobileEnroll_quiet env s r). destruct (Api.handleMobileEnroll env s r). intros [= <- <- <-]. by apply quiet_effect.
  - pose proof (handleMobileDelete_quiet s r). destruct (Api.handleMobileDeleteDevice s r). intros [= <- <- <-]. by apply quiet_effect.
  - pose proof (handleMobileApprove_effect env s Api.RMobileApprove r eq_refl). destruct (Api.handleMobileApprove env s r). by intros [= <- <- <-].
  - pose proof (handleMobilePending_quiet env s r). destruct (Api.handleMobileKeysPending env s r). intros [= <- <- <-]. by apply quiet_effect.
  - pose proof (handleCLIEnroll_quiet env s r). destruct (Api.handleCLIEnroll env s r). intros [= <- <- <-]. by apply quiet_effect.
  - pose proof (handleCLIDelete_quiet s r). destruct (Api.handleCLIDeleteDevice s r). intros [= <- <- <-]. by apply quiet_effect.
  - pose proof (handleCLIKeysLoad_effect env s Api.RCliKeysLoad r). destruct (Api.handleCLIKeysLoad env s r). by intros [= <- <- <-].
Qed.

(** *** The configuration of the store stays *)

Lemma finishClaimed_cfg st id x res : Appr.cfg (Appr.finishClaimed st id x res).1 = Appr.cfg st.
Proof. unfold Appr.finishClaimed, Appr.finishLocked. repeat case_match; done. Qed.
Lemma finishPending_cfg st id x res : Appr.cfg (Appr.finishPending st id x res) = Appr.cfg st.
Proof. unfold Appr.finishPending, Appr.finishLocked. repeat case_match; done. Qed.
Lemma approver_step_cfg k now clock st a : Appr.cfg (Appr.approver_step k now clock st a).1 = Appr.cfg st.
Proof.
  destruct a as [id ttl who|id t ttl who|id t until [res|e] who|t until who|]; cbn; try done.
  - unfold Appr.claimApproval. repeat case_match; by simplify_eq/=.
  - pose proof (finishClaimed_cfg st id Appr.StateApproved (Appr.set_LeaseExpiresAt until res)) as E.
    by destruct (Appr.finishClaimed _ _ _ _) as [st' []].
  - apply finishClaimed_cfg.
  - by destruct (Appr.leases st).
Qed.
Lemma Approve_cfg k now clock st id ttl who : Appr.cfg (Appr.Approve k now clock st id ttl who) = Appr.cfg st.
Proof.
  unfold Appr.Approve, Appr.approveWithIssuer.
  match goal with |- context [Appr.approver_step k now clock st ?a] => pose proof (approver_step_cfg k now clock st a) as E1;
    destruct (Appr.approver_step k now clock st a) as [s1 a1] end.
  pose proof (approver_step_cfg k now clock s1 a1) as E2. destruct (Appr.approver_step k now clock s1 a1) as [s2 a2].
  pose proof (approver_step_cfg k now clock s2 a2) as E3. destruct (Appr.approver_step k now clock s2 a2) as [s3 a3].
  rewrite approver_step_cfg. cbn [fst] in *. congruence.
Qed.
Lemma Deny_cfg st id : Appr.cfg (Appr.Deny st id) = Appr.cfg st.
Proof. apply finishPending_cfg. Qed.
Lemma waitResult_cfg st id : Appr.cfg (Appr.waitResult st id).1 = Appr.cfg st.
Proof. unfold Appr.waitResult. repeat case_match; done. Qed.
Lemma wait_end_cfg w st id ch st' res : wait_end w st id ch = Some (st', res) -> Appr.cfg st' = Appr.cfg st.
Proof.
  destruct w as [|e]; cbn [wait_end].
  - unfold Appr.receive. destruct (Appr.chans st !! ch) as [c|]; [|done]. destruct (Appr.buf c); [destruct (Appr.closed c); [|done]|]; by intros [= <- _].
  - intros [= <- _]. unfold Appr.cancelWait. repeat case_match; done.
Qed.

Lemma effect_cfg env s rt r st k devs : effect env s rt r st k devs ->
  Appr.cfg st = Appr.cfg (Api.store s) /\ (devs <> [] -> Cfg.Env (Appr.cfg (Api.store s)) = "dev").
Proof.
  intros [| k' Hk|now user ip pub src fp data host dst meta st' t ch dev Hrt Hc|t1 t2 t3 t4 now lookup pub data host res st' t Hi Hc|req dev ttl now clock Hrt Hd];
    try done.
  - unfold Appr.CreateBound in Hc. injection Hc as <- <- <- <-. split; [done|]. destruct (_ =s "dev") eqn:E; [|done]. by str_prop.
  - unfold Appr.CreateInstantApproved in Hc. by injection Hc as <- <-.
  - split; [apply Approve_cfg|done].
Qed.

Lemma effect_devs env s rt r st k devs id : effect env s rt r st k devs -> id ∈ devs ->
  rt = Api.RSign /\ id = Appr.newTxID (Api.ulid env).
Proof.
  intros [| k' Hk|now user ip pub src fp data host dst meta st' t ch dev Hrt Hc|t1 t2 t3 t4 now lookup pub data host res st' t Hi Hc|req dev ttl now clock Hrt Hd];
    try (by intros ?%not_elem_of_nil).
  unfold Appr.CreateBound in Hc. injection Hc as <- <- <- <-. destruct (_ =s "dev"); [|by intros ?%not_elem_of_nil]. by intros ->%list_elem_of_singleton.
Qed.

(** *** Requests and updates as steps of [ApprovalSys] *)

Lemma effect_sys env s rt r st k devs y : Sys.reachable y -> Sys.st y = Api.store s -> Sys.ks y = Api.keystore s ->
  Appr.newTxID (Api.ulid env) ∉ Sys.used y -> effect env s rt r st k devs ->
  exists y', Sys.reachable y' /\ Sys.st y' = st /\ Sys.ks y' = k /\ Sys.waits y' = Sys.waits y /\
    Sys.used y' ⊆ {[Appr.newTxID (Api.ulid env)]} ∪ Sys.used y /\
    forall id who, (id, who) ∈ Sys.calls y' -> (id, who) ∈ Sys.calls y \/
      (rt = Api.RSign /\ who = "" /\ devs <> [] /\ id = Appr.newTxID (Api.ulid env)) \/
      exists req dev, rt = Api.RMobileApprove /\ Api.device_approved env s r req dev /\ id = TxID req /\ who = Lease.FormatApproverDeviceID (ap_DeviceID req).
Proof.
  intros Hr Es Ek Hu [| k' Hk|now user ip pub src fp data host dst meta st' t ch dev Hrt Hc|t1 t2 t3 t4 now lookup pub data host res st' t Hi Hc|req dev ttl now clock Hrt Hd].
  - exists y. split_and!; [done|done|done|done|set_solver|auto].
  - exists (Sys.with_ks y k'). split; [eapply sys_one; [exact Hr|]; apply Sys.s_keystore; by rewrite Ek|].
    cbn. split_and!; [done|done|done|set_solver|auto].
  - rewrite <- Es in Hc. pose proof (Sys.CreateBound_inv _ _ _ _ _ _ _ _ _ _ _ _ _ _ _ _ Hc) as (_ & Hid & _).
    eexists. split; [eapply sys_one; [exact Hr|]; by eapply Sys.s_create|]. rewrite Hid.
    destruct dev; cbn; (split_and!; [done|done|done|set_solver|]); [|auto].
    intros id who [?|Hx%list_elem_of_singleton]%elem_of_app; [by left|]. injection Hx as -> ->. right. left. by rewrite ?Hid.
  - rewrite <- Es, <- Ek in Hi. rewrite <- Es in Hc. pose proof (Sys.CreateInstant_inv _ _ _ _ _ _ _ _ _ _ _ Hc) as (_ & Hid & _).
    pose proof (sys_one _ _ Hr (Sys.s_lease y _ _ _ _ _ _ _ _ _ Hi)) as R1.
    eexists. split; [eapply sys_one; [exact R1|]; eapply (Sys.s_instant _ _ _ lookup); [exact Hu|left|exact Hc]|]. rewrite Hid.
    cbn. split_and!; [done|done|done|set_solver|auto].
  - destruct (sys_Approve y (TxID req) ttl (Lease.FormatApproverDeviceID (ap_DeviceID req)) now clock Hr)
      as (y' & R & S & K & W & U & C).
    exists y'. rewrite S, K, W, U, C, Es, Ek. split_and!; [done|done|done|done|set_solver|].
    intros id who [?|Hx%list_elem_of_singleton]%elem_of_app; [by left|]. injection Hx as -> ->. right. right. by exists req, dev.
Qed.

(** Polling changes nothing of the poller but its offset. *)
Definition same_poller (p q : Tg.Poller) : Prop :=
  Tg.p_chatID q = Tg.p_chatID p /\ Tg.allowedUserIDs q = Tg.allowedUserIDs p /\ Tg.p_allowedTTLs q = Tg.p_allowedTTLs p.
#[local] Instance same_poller_preorder : PreOrder same_poller.
Proof. split; [done|]. intros p q r (? & ? & ?) (? & ? & ?). unfold same_poller. split_and!; congruence. Qed.

(** The update is a press of the approve button of [id] by somebody allowed in the configured chat. *)
Definition pressed (pl : Tg.Poller) (upd : Tg.telegramUpdate) (id who : string) : Prop :=
  exists cq m ttl, Tg.CallbackQuery upd = Some cq /\ Tg.Message cq = Some m /\ Tg.authorized pl cq /\
    Tg.ParseCallbackData (Tg.Data cq) (Tg.p_allowedTTLs pl) = ("approve", id, ttl, true) /\
    who = "telegram:" +:+ FormatInt (Tg.msg_Chat m).

Lemma pressed_same pl pl' upd id who : same_poller pl pl' -> pressed pl' upd id who -> pressed pl upd id who.
Proof.
  intros (E1 & E2 & E3) (cq & m & ttl & Hq & Hm & (m' & Hm' & Hc & Hu) & Hp & ->). exists cq, m, ttl.
  rewrite E1, E2 in *. rewrite E3 in Hp. split_and!; try done. by exists m'.
Qed.

(** The store after updates, as steps of [ApprovalSys]: each new approval is a press among them. *)
Definition polled (pl pl' : Tg.Poller) (upds : list Tg.telegramUpdate) (st' : Appr.Store) (y : Sys.Sys) : Prop :=
  same_poller pl pl' /\ exists y', Sys.reachable y' /\ Sys.st y' = st' /\ Sys.ks y' = Sys.ks y /\ Sys.waits y' = Sys.waits y /\
    Sys.used y' = Sys.used y /\ Appr.cfg st' = Appr.cfg (Sys.st y) /\
    forall id who, (id, who) ∈ Sys.calls y' -> (id, who) ∈ Sys.calls y \/ exists upd, upd ∈ upds /\ pressed pl upd id who.

Lemma polled_none pl y : Sys.reachable y -> polled pl pl [] (Sys.st y) y.
Proof. intros Hr. split; [done|]. exists y. split_and!; auto. Qed.

Lemma handleUpdate_sys http clk pl y upd : Sys.reachable y ->
  polled pl pl [upd] (Tg.handleUpdate http (Sys.ks y) clk clk clk pl (Sys.st y) upd).1 y.
Proof.
  intros Hr. split; [done|].
  destruct (Tg.handleUpdate_cases http (Sys.ks y) clk clk clk pl (Sys.st y) upd) as [->|(cq & m & action & id & ttl & Hq & Hm & Ha & Hp & [[-> ->]|[-> ->]])].
  - exists y. split_and!; auto.
  - eexists. split; [eapply sys_one; [exact Hr|apply (Sys.s_deny y id)]|]. cbn. split_and!; auto. apply Deny_cfg.
  - match goal with |- context [Appr.Approve _ _ _ _ _ ?t ?w] => destruct (sys_Approve y id t w clk clk Hr) as (y' & R & S & K & W & U & C) end.
    exists y'. rewrite S, K, W, U, C, Approve_cfg. split_and!; try done.
    intros i who [?|Hx%list_elem_of_singleton]%elem_of_app; [by left|]. injection Hx as -> ->. right. exists upd. split; [by left|]. by exists cq, m, ttl.
Qed.

Lemma polled_trans pl pl1 pl2 us us2 st st2 y : polled pl pl1 us st y ->
  (forall y1, Sys.reachable y1 -> Sys.st y1 = st -> Sys.ks y1 = Sys.ks y -> polled pl1 pl2 us2 st2 y1) -> polled pl pl2 (us ++ us2) st2 y.
Proof.
  intros (P1 & y1 & R1 & S1 & K1 & W1 & U1 & G1 & C1) Hn. destruct (Hn y1 R1 S1 K1) as (P2 & y2 & R2 & S2 & K2 & W2 & U2 & G2 & C2).
  split; [by etrans|]. exists y2. split_and!; try congruence.
  intros id who [Hc|(upd & Hin & Hc)]%C2; [apply C1 in Hc as [?|(upd & Hin & Hc)]; [by left|]|]; right; exists upd; (split; [set_solver|]);
    [done|by eapply pressed_same].
Qed.

Lemma poll_updates_sys http clk upds : forall pl y evs pl' st' evs', Sys.reachable y ->
  foldl (Tg.poll_update http (Sys.ks y) clk) (pl, Sys.st y, evs) upds = (pl', st', evs') -> polled pl pl' upds st' y.
Proof.
  induction upds as [|u upds IH]; intros pl y evs pl' st' evs' Hr; cbn [foldl].
  { intros [= <- <- <-]. by apply polled_none. }
  unfold Tg.poll_update at 2. cbv zeta. set (pl1 := if _ <=? _ then _ else _).
  pose proof (handleUpdate_sys http clk pl1 y u Hr) as Hp.
  destruct (Tg.handleUpdate http (Sys.ks y) clk clk clk pl1 (Sys.st y) u) as [st1 e1]. cbn [fst] in Hp. intros Hf.
  assert (H1' : same_poller pl pl1) by (unfold pl1; by destruct (_ <=? _)).
  assert (Hq : polled pl pl1 [u] st1 y).
  { destruct Hp as (_ & y' & R & S & K & W & U & G & C). split; [done|]. exists y'. split_and!; try done.
    intros id who [?|(x & Hx & Hc)]%C; [by left|]. right. exists x. split; [done|]. by eapply pressed_same. }
  eapply (polled_trans _ _ _ [u]); [exact Hq|]. intros y1 R1 S1 K1. rewrite <- S1, <- K1 in Hf. by eapply IH.
Qed.

Lemma pollOnce_sys http clk pl y r pl' st' evs res : Sys.reachable y ->
  Tg.pollOnce http (Sys.ks y) clk pl (Sys.st y) r = (pl', st', evs, res) -> polled pl pl' (Tg.accepted r) st' y.
Proof.
  intros Hr Hp. pose proof (polled_none pl y Hr) as Hid. unfold Tg.pollOnce in Hp. unfold Tg.accepted.
  destruct r as [|status [[[] upds]|]]; try (destruct (Tg.status_ok status)); cbn [negb] in Hp; simplify_eq/=; try done.
  match goal with Hf : foldl _ _ _ = _ |- _ => by eapply poll_updates_sys in Hf end.
Qed.

(** *** What a control connection does to the keystore *)

Lemma handle_keystore env s req : let s' := (Ctl.handle env s req).1 in
  Ctl.keystore s' = Ctl.keystore s \/ Ks.step (Ctl.keystore s) (Ctl.keystore s').
Proof.
  unfold Ctl.handle. cbv zeta.
  repeat match goal with |- context [if Ctl.Op req =s ?o then _ else _] => destruct (Ctl.Op req =s o) end;
    unfold Ctl.answer; cbn [fst]; try (by left).
  - unfold Ctl.handleKeyLoad. destruct (Ctl.json_keyLoad _) as [i|]; [|by left]. destruct (_ || _); [by left|].
    unfold Ks.LoadPEMFile. destruct (Ctl.fs env _) as [pem|]; [|by left].
    pose proof (Ks.step_load (Ctl.syscall env) (Ctl.t_lock env) (Ctl.t_failure env) (Ctl.keystore s) pem (Ctl.kl_Passphrase i) (Ctl.kl_Comment i)) as Hst.
    destruct (Ks.LoadPEMBytes _ _ _ _ _ _ _) as [[k b] res]. right. exact Hst.
  - unfold Ctl.handleKeyRemove. destruct (Ctl.json_keyRemove _) as [fp|]; [|by left].
    pose proof (Ks.step_remove (Ctl.keystore s) fp) as Hst. destruct (Ks.RemoveSigner _ _) as [k res]. by right.
  - unfold Ctl.handleKeyConfirm. destruct (negb _); [by left|]. destruct (Ctl.json_keyConfirm _) as [i|]; [|by left].
    destruct (Pend.Get _ _ _) as [q [pk|]]; [|by left].
    pose proof (Ks.step_load (Ctl.syscall env) (Ctl.t_lock env) (Ctl.t_failure env) (Ctl.keystore s) (Pend.blob_bytes q pk) (Ctl.kc_Passphrase i) (Pend.Label pk)) as Hst.
    destruct (Ks.LoadPEMBytes _ _ _ _ _ _ _) as [[k b] [fp|e]]; right; exact Hst.
  - unfold Ctl.handleKeyReject. destruct (Ctl.json_keyReject _) as [id|]; [|by left]. destruct (Pend.Delete _ _). by left.
  - unfold Ctl.handleMobileEnroll. repeat case_match; by left.
  - unfold Ctl.handleMobileDelete. repeat case_match; by left.
  - unfold Ctl.handleCLIEnroll. repeat case_match; by left.
  - unfold Ctl.handleCLIDelete. repeat case_match; by left.
Qed.

Lemma control_keystore env cred euid lookup group line s :
  let c := (Ctl.serveConn env cred euid lookup group line (control_view s)).1 in
  Ctl.keystore c = Api.keystore s \/ Ks.step (Api.keystore s) (Ctl.keystore c).
Proof.
  unfold Ctl.serveConn. destruct (Ctl.peerAllowed _ _ _ _); [|by left]. destruct line as [l|]; [|by left].
  destruct (Ctl.json_request l) as [q|]; [|by left]. pose proof (handle_keystore env (control_view s) q) as Hk.
  by destruct (Ctl.handle env (control_view s) q) as [c resp].
Qed.

(** ** A run of the process *)

Section run.
Context (euid : Z) (group : string) (p0 : Process).

(** What happened so far, with the state each action found. *)
Definition trace : Type := list (Process * action).

Inductive run : trace -> Process -> Prop :=
| run_start : run [] p0
| run_more l p a p' : run l p -> step euid group a p p' -> run (l ++ [(p, a)]) p'.

(** Who stands behind an approval: a request of this run over the approval route that an enrolled
    device signed, an update that the poller received in this run and that is a press in the
    configured chat, or, in the development environment only, the signing request that opened the
    transaction. *)
Definition approved_by (l : trace) (id who : string) : Prop :=
  (exists p env r req dev, (p, AHttp env Api.RMobileApprove r) ∈ l /\ Api.device_approved env (srv p) r req dev /\ id = TxID req /\
     who = Lease.FormatApproverDeviceID (ap_DeviceID req)) \/
  (exists p http clk reply upd pl, (p, APoll http clk reply) ∈ l /\ upd ∈ Tg.accepted reply /\ poller p0 = Some pl /\ pressed pl upd id who) \/
  (Cfg.Env (Api.cfg (srv p0)) = "dev" /\ who = "" /\ exists p env r, (p, AHttp env Api.RSign r) ∈ l /\ id = Appr.newTxID (Api.ulid env)).

Lemma approved_by_more l l' id who : l ⊆ l' -> approved_by l id who -> approved_by l' id who.
Proof.
  intros Hl [(p & env & r & req & dev & Hin & Hx)|[(p & http & clk & reply & upd & pl & Hin & Hx)|(Hd & Hw & p & env & r & Hin & Hx)]].
  - left. exists p, env, r, req, dev. split; [by apply Hl|done].
  - right; left. exists p, http, clk, reply, upd, pl. split; [by apply Hl|done].
  - right; right. split; [done|]. split; [done|]. exists p, env, r. split; [by apply Hl|done].
Qed.

Definition poller_kept (q : option Tg.Poller) : Prop :=
  match q with Some pl' => exists pl, poller p0 = Some pl /\ same_poller pl pl' | None => True end.

Record sim (l : trace) (p : Process) (y : Sys.Sys) : Prop := mk_sim {
  sim_reach : Sys.reachable y;
  sim_st : Sys.st y = Api.store (srv p);
  sim_ks : Sys.ks y = Api.keystore (srv p);
  sim_waits : Sys.waits y = waiting p;
  sim_used : Sys.used y ⊆ ids p;
  sim_calls : forall id who, (id, who) ∈ Sys.calls y -> approved_by l id who;
  sim_cfg : Appr.cfg (Api.store (srv p)) = Api.cfg (srv p0);
  sim_bypass : forall id, id ∈ bypassing p -> approved_by l id "" /\ Cfg.Env (Api.cfg (srv p0)) = "dev";
  sim_poller : poller_kept (poller p)
}.

Lemma sim_more l l' p y : l ⊆ l' -> sim l p y -> sim l' p y.
Proof.
  intros Hl [R S K W U C G B P]. split; try done; [intros id who Hc; by eapply approved_by_more, C|].
  intros id Hid. destruct (B id Hid). split; [|done]. by eapply approved_by_more.
Qed.

Lemma sim_http l p y env rt r s' resp evs : (p, AHttp env rt r) ∈ l -> sim l p y ->
  is_wait rt = false -> fresh_ids p (Api.ulid env) -> Api.serve env (srv p) rt r = Some (s', resp, evs) ->
  exists y', sim l (mkProcess s' (poller p) (waiting p) (bypassing p ++ dev_approvals evs) ({[Appr.newTxID (Api.ulid env)]} ∪ ids p)) y'.
Proof.
  intros Hin [R S K W U C G B P] Hw [Hf _] Hs. apply serve_effect in Hs; [|done].
  destruct (effect_cfg _ _ _ _ _ _ _ Hs) as [Ec Ed].
  assert (Hnew : Appr.newTxID (Api.ulid env) ∉ Sys.used y) by set_solver.
  destruct (effect_sys _ _ _ _ _ _ _ y R S K Hnew Hs) as (y' & R' & S' & K' & W' & U' & C').
  exists y'. split; cbn [srv poller waiting bypassing ids]; try done.
  - by rewrite W'.
  - set_solver.
  - intros id who [Hc|[(-> & -> & Hd & ->)|(req & dev & -> & Hd & -> & ->)]]%C'; [by apply C|right; right|left].
    + split; [rewrite <- G; by apply Ed|]. split; [done|]. by exists p, env, r.
    + by exists p, env, r, req, dev.
  - by rewrite Ec.
  - intros id [Hb|Hb]%elem_of_app; [by apply B|].
    assert (Hdev : Cfg.Env (Api.cfg (srv p0)) = "dev") by (rewrite <- G; apply Ed; intros E; rewrite E in Hb; by apply not_elem_of_nil in Hb).
    split; [|done]. right. right. split; [done|]. split; [done|].
    destruct (effect_devs _ _ _ _ _ _ _ _ Hs Hb) as [-> ->]. by exists p, env, r.
Qed.

Lemma sim_wait l p y r s' ch : sim l p y -> wait_begin (srv p) r = (s', inr ch) ->
  exists y', sim l (with_waiting (with_srv p s') (waiting p ++ [Sys.WBlocked (PathValue r "tx_id") ch])) y'.
Proof.
  intros [R S K W U C G B P] Hb. unfold wait_begin in Hb. destruct (Appr.store_ClientCertFP _ _) as [bound ok]. destruct (_ && _ && _); [done|].
  pose proof (waitResult_cfg (Api.store (srv p)) (PathValue r "tx_id")) as Ec.
  destruct (Appr.waitResult (Api.store (srv p)) _) as [st [c|]] eqn:Ew; [|done]. injection Hb as <- ->. rewrite <- S in Ew.
  eexists. split; [eapply sys_one; [exact R|by eapply Sys.s_wait]|..]; cbn; try done; [by rewrite W|]. cbn [fst] in Ec. by rewrite Ec.
Qed.

Lemma sim_wait_refused l p y r s' resp : sim l p y -> wait_begin (srv p) r = (s', inl resp) -> sim l (with_srv p s') y.
Proof.
  intros [R S K W U C G B P] Hb. unfold wait_begin in Hb. destruct (Appr.store_ClientCertFP _ _) as [bound ok].
  destruct (_ && _ && _); [injection Hb as <- _; by split|].
  unfold Appr.waitResult in Hb. destruct (Appr.txs _ !! _) as [e|]; [destruct (Appr.result e); done|].
  injection Hb as <- _. by split.
Qed.

Lemma sim_return l p y i id ch w st res : sim l p y -> waiting p !! i = Some (Sys.WBlocked id ch) ->
  wait_end w (Api.store (srv p)) id ch = Some (st, res) ->
  exists y', sim l (with_waiting (with_store p st) (<[i := Sys.WDone id res]> (waiting p))) y'.
Proof.
  intros [R S K W U C G B P] Hi He. pose proof (wait_end_cfg _ _ _ _ _ _ He) as Ec. rewrite <- W in Hi. rewrite <- S in He.
  destruct w as [|e]; cbn [wait_end] in He.
  - destruct (Appr.receive (Sys.st y) ch) as [[s1 r1]|] eqn:Er; [|done]. injection He as <- <-.
    pose proof (sys_one _ _ R (Sys.s_receive y i id ch s1 r1 Hi Er)) as R1. set (y1 := Sys.with_waits _ _) in R1.
    assert (Hi1 : Sys.waits y1 !! i = Some (Sys.WReceived id r1)) by (cbn; apply list_lookup_insert_eq; by eapply lookup_lt_Some).
    pose proof (sys_one _ _ R1 (Sys.s_return y1 i id r1 Hi1)) as R2.
    eexists. split; [exact R2|..]; cbn; try done; [|exact (eq_trans Ec G)]. rewrite list_insert_insert_eq, W. done.
  - injection He as <- <-. eexists. split; [eapply sys_one; [exact R|by eapply Sys.s_cancel]|..]; cbn; try done; [by rewrite W|exact (eq_trans Ec G)].
Qed.

Lemma sim_step l p p' a y : (p, a) ∈ l -> sim l p y -> step euid group a p p' -> exists y', sim l p' y'.
Proof.
  intros Hin Hs Hst. pose proof Hs as [R S K W U C G B P].
  destruct Hst as [p env rt r s' resp evs Hw Hf Hsv|p r s' ch _ Hb|p r s' resp _ Hb|p i id ch w st res Hi He|p i id now clock Hi
    |p pl http clk r pl' st evs res Hpl Hp|p http n t n' req res Hn Hnt|p id|p now ls order Hl Ho|p env cred lookup line c resp Hc].
  - by eapply sim_http.
  - by eapply sim_wait.
  - exists y. by eapply sim_wait_refused.
  - by eapply sim_return.
  - destruct (sys_Approve y id Appr.DefaultDevCertTTL "" now clock R) as (y' & R' & S' & K' & W' & U' & C').
    apply list_elem_of_lookup_2 in Hi as Hb.
    exists y'. split; cbn; rewrite ?S', ?K', ?W', ?U', ?S, ?K, ?Approve_cfg; try done.
    + intros i' who Hx. rewrite C' in Hx. apply elem_of_app in Hx as [Hx|Hx%list_elem_of_singleton]; [by apply C|].
      injection Hx as -> ->. by apply B.
    + intros id' Hid. apply B. by eapply list_elem_of_delete_inv, Hid.
  - rewrite <- K, <- S in Hp. destruct (pollOnce_sys _ _ _ _ _ _ _ _ _ R Hp) as (Hsame & y' & R' & S' & K' & W' & U' & G' & C').
    rewrite Hpl in P. destruct P as (pl0 & Hpl0 & Hs0).
    exists y'. split; cbn; rewrite ?S', ?K', ?W', ?U', ?K, ?G'; try done; [|by rewrite S|].
    + intros id who [Hx|(upd & Hu & Hx)]%C'; [by apply C|]. right. left. exists p, http, clk, r, upd, pl0.
      split; [done|]. split; [done|]. split; [done|]. by eapply pressed_same.
    + exists pl0. split; [done|]. by etrans.
  - exists y. by split.
  - eexists. split; [eapply sys_one; [exact R|apply (Sys.s_expire y id)]|..]; cbn; try done; [by rewrite S|].
    exact (eq_trans (finishPending_cfg _ _ _ _) G).
  - rewrite <- S in Hl. eexists. split; [eapply sys_one; [exact R|by eapply Sys.s_purge]|..]; cbn; try done. by rewrite S.
  - destruct (control_keystore env cred euid lookup group line (srv p)) as [E|E]; rewrite Hc in E; cbn [fst] in E.
    + exists y. split; cbn; try done. by rewrite E.
    + rewrite <- K in E. eexists. split; [eapply sys_one; [exact R|by eapply Sys.s_keystore]|..]; done.
Qed.

Lemma run_sim y0 l p : sim [] p0 y0 -> run l p -> exists y, sim l p y.
Proof.
  intros H0'. induction 1 as [|l p a p' Hr [y Hy] Hst]; [by exists y0|].
  eapply sim_step; [|eapply sim_more; [|exact Hy]|exact Hst]; set_solver.
Qed.

(** Steps that can be run make a run of the same actions. *)
Lemma play_run acts : forall l p p', run l p -> play euid group acts p = Some p' -> exists l', run l' p' /\ l'.*2 = l.*2 ++ acts.
Proof.
  induction acts as [|a acts IH]; intros l p p' Hr; cbn [play]; [intros [= <-]; exists l; by rewrite app_nil_r|].
  destruct (perform euid group p a) as [p1|] eqn:E; [|done]. intros Hp.
  destruct (IH (l ++ [(p, a)]) p1 p') as (l' & Hl' & El); [by eapply run_more; [|apply perform_step]|done|].
  exists l'. split; [done|]. rewrite El, fmap_app, <- app_assoc. done.
Qed.
End run.

(** *** The services *)

Definition services_ok (m : Ks.Mode) (s : Api.server) : Prop := Ctl.services_ok m (control_view s).

Lemma services_same m s s' : Api.keystore s' = Api.keystore s -> Api.pending s' = Api.pending s -> Api.mobile s' = Api.mobile s ->
  Api.cli s' = Api.cli s -> services_ok m s -> services_ok m s'.
Proof. intros E1 E2 E3 E4 [Hk Hp Hm Hc]. split; cbn in *; by rewrite ?E1, ?E2, ?E3, ?E4. Qed.

(** A handler that leaves the services and the settings alone. *)
Record same_services (s s' : Api.server) : Prop := mk_same {
  same_keystore : Api.keystore s' = Api.keystore s;
  same_pending : Api.pending s' = Api.pending s;
  same_mobile : Api.mobile s' = Api.mobile s;
  same_cli : Api.cli s' = Api.cli s;
  same_cfg : Api.cfg s' = Api.cfg s
}.

(** What a request may do to the services. *)
Definition serviced (m : Ks.Mode) (s s' : Api.server) : Prop := (services_ok m s -> services_ok m s') /\ Api.cfg s' = Api.cfg s.

Lemma same_serviced m s s' : same_services s s' -> serviced m s s'.
Proof. intros [E1 E2 E3 E4 E5]. split; [by apply services_same|done]. Qed.

Lemma handleSign_same env s r : same_services s (Api.handleSign env s r).1.1.
Proof. unfold Api.handleSign, Api.openTransaction. cbv zeta. repeat case_match; simplify_eq/=; done. Qed.
Lemma handleMobileApprove_same env s r : same_services s (Api.handleMobileApprove env s r).1.
Proof. unfold Api.handleMobileApprove. cbv zeta. repeat case_match; done. Qed.
Lemma handleMTLSEnroll_same env s r : same_services s (Api.handleMTLSEnroll env s r).1.
Proof. rewrite (Api.handleMTLSEnroll_frame env s r). done. Qed.
Lemma wait_begin_same s r : same_services s (wait_begin s r).1.
Proof. unfold wait_begin. repeat case_match; done. Qed.

Lemma keystore_serviced m s s' : Ks.step (Api.keystore s) (Api.keystore s') -> Api.pending s' = Api.pending s -> Api.mobile s' = Api.mobile s ->
  Api.cli s' = Api.cli s -> Api.cfg s' = Api.cfg s -> serviced m s s'.
Proof. intros Hk E2 E3 E4 E5. split; [|done]. intros [K P M C]. split; cbn in *; rewrite ?E2, ?E3, ?E4; try done. by eapply rtc_r. Qed.
Lemma mobile_serviced m s x : Mob.step (Api.mobile s) x -> serviced m s (Api.with_mobile s x).
Proof. intros Hm. split; [|done]. intros [K P M C]. split; cbn in *; try done. by eapply rtc_r. Qed.
Lemma cli_serviced m s s' : Cli.step (Api.cli s) (Api.cli s') -> Api.keystore s' = Api.keystore s -> Api.pending s' = Api.pending s ->
  Api.mobile s' = Api.mobile s -> Api.cfg s' = Api.cfg s -> serviced m s s'.
Proof. intros Hk E2 E3 E4 E5. split; [|done]. intros [K P M C]. split; cbn in *; rewrite ?E2, ?E3, ?E4; try done. by eapply rtc_r. Qed.

Lemma refused_serviced m s : serviced m s s.
Proof. by split. Qed.
#[local] Hint Resolve refused_serviced : core.

Lemma handleMobileEnroll_serviced m env s r : serviced m s (Api.handleMobileEnroll env s r).1.
Proof.
  unfold Api.handleMobileEnroll. destruct (ReadAll _ r); [|done..]. destruct (json_mobileEnroll _) as [q|]; [|done]. destruct (_ =s ""); [done|].
  pose proof (Mob.step_enroll (Api.ulid env) (Api.tick env Api.TEnroll) (Api.mobile s) (me_Label q) (DevicePubKey q) (me_CertFingerprint q)) as Hst.
  destruct (Mob.EnrollBound _ _ _ _ _ _). by apply mobile_serviced.
Qed.
Lemma handleMobileDelete_serviced m s r : serviced m s (Api.handleMobileDeleteDevice s r).1.
Proof.
  unfold Api.handleMobileDeleteDevice. destruct (_ =s ""); [done|]. pose proof (Mob.step_delete (Api.mobile s) (PathValue r "device_id")) as Hst.
  destruct (Mob.Delete _ _). by apply mobile_serviced.
Qed.
Lemma handleCLIEnroll_serviced m env s r : serviced m s (Api.handleCLIEnroll env s r).1.
Proof.
  unfold Api.handleCLIEnroll. destruct (Api.csrSigner s); [|done]. destruct (ReadAll _ r); [|done..]. destruct (json_cliEnroll _) as [q|]; [|done].
  destruct (_ =s ""); [done|]. destruct (Cli.ValidateLabel _); [|done]. destruct (Csr.Sign _ _ _ _) as [[pem fp]|]; [|done].
  pose proof (Cli.step_enroll (Api.ulid env) (Api.tick env Api.TEnroll) (Api.cli s) (ce_Label q) fp) as Hst.
  destruct (Cli.Enroll _ _ _ _ _). by apply cli_serviced.
Qed.
Lemma handleCLIDelete_serviced m s r : serviced m s (Api.handleCLIDeleteDevice s r).1.
Proof.
  unfold Api.handleCLIDeleteDevice. destruct (_ =s ""); [done|]. pose proof (Cli.step_delete (Api.cli s) (PathValue r "device_id")) as Hst.
  destruct (Cli.Delete _ _) as [c [u|e]]; by apply cli_serviced.
Qed.
Lemma handleMobilePending_serviced m env s r : Pend.entries (Api.pending s) !! ("pend_" +:+ Api.ulid env) = None ->
  serviced m s (Api.handleMobileKeysPending env s r).1.
Proof.
  intros Hf. unfold Api.handleMobileKeysPending. repeat (case_match; try done); cbn [fst];
    (match goal with E : Pend.Add ?u ?n ?q ?d ?l ?c ?b = (?q', _) |- _ => pose proof (Pend.step_add u n q d l c b Hf) as Hst; rewrite E in Hst end);
    (split; [|done]); intros [K P M C]; (split; cbn in *; try done); by eapply rtc_r.
Qed.
Lemma handleCLIKeysLoad_serviced m env s r : serviced m s (Api.handleCLIKeysLoad env s r).1.
Proof.
  unfold Api.handleCLIKeysLoad. repeat (case_match; try (by apply same_serviced)); cbn [fst];
    match goal with E : Ks.LoadPEMBytes ?a ?b ?c ?k ?x ?y ?z = (?k', _, _) |- _ => pose proof (Ks.step_load a b c k x y z) as Hst; rewrite E in Hst end;
    by apply keystore_serviced.
Qed.

Lemma serve_serviced m env s rt r s' resp evs : is_wait rt = false -> Pend.entries (Api.pending s) !! ("pend_" +:+ Api.ulid env) = None ->
  Api.serve env s rt r = Some (s', resp, evs) -> serviced m s s'.
Proof.
  intros Hw Hf. unfold Api.serve. cbv zeta.
  destruct rt; try discriminate Hw; unfold Api.guarded, Api.plain;
    repeat match goal with |- context [match ?c with Some resp0 => Some (s, resp0, []) | None => _ end] => destruct c end;
    try (intros [= <- <- <-]; apply refused_serviced).
  - pose proof (same_serviced m _ _ (handleMTLSEnroll_same env s r)). destruct (Api.handleMTLSEnroll env s r). by intros [= <- <- <-].
  - intros [= E]. pose proof (same_serviced m _ _ (handleSign_same env s r)) as Hs. by rewrite E in Hs.
  - pose proof (handleMobileEnroll_serviced m env s r). destruct (Api.handleMobileEnroll env s r). by intros [= <- <- <-].
  - pose proof (handleMobileDelete_serviced m s r). destruct (Api.handleMobileDeleteDevice s r). by intros [= <- <- <-].
  - pose proof (same_serviced m _ _ (handleMobileApprove_same env s r)). destruct (Api.handleMobileApprove env s r). by intros [= <- <- <-].
  - pose proof (handleMobilePending_serviced m env s r Hf). destruct (Api.handleMobileKeysPending env s r). by intros [= <- <- <-].
  - pose proof (handleCLIEnroll_serviced m env s r). destruct (Api.handleCLIEnroll env s r). by intros [= <- <- <-].
  - pose proof (handleCLIDelete_serviced m s r). destruct (Api.handleCLIDeleteDevice s r). by intros [= <- <- <-].
  - pose proof (handleCLIKeysLoad_serviced m env s r). destruct (Api.handleCLIKeysLoad env s r). by intros [= <- <- <-].
Qed.

Lemma serveConn_services m env cred euid lookup group line c : Ctl.services_ok m c ->
  Ctl.services_ok m (Ctl.serveConn env cred euid lookup group line c).1.
Proof.
  intros Hs. unfold Ctl.serveConn. destruct (Ctl.peerAllowed _ _ _ _); [|done]. destruct line as [l|]; [|done].
  destruct (Ctl.json_request l) as [q|]; [|done]. pose proof (Ctl.control_keeps_invariants m env c q Hs).
  by destruct (Ctl.handle env c q).
Qed.

Lemma step_serviced m euid group a p p' : step euid group a p p' -> serviced m (srv p) (srv p').
Proof.
  destruct 1 as [p env rt r s' resp evs Hw [_ Hf] Hsv|p r s' ch _ Hb|p r s' resp _ Hb|p i id ch w st res Hi He|p i id now clock Hi
    |p pl http clk r pl' st evs res Hpl Hp|p http n t n' req res Hn Hnt|p id|p now l order Hl Ho|p env cred lookup line c resp Hc];
    cbn [srv with_srv with_store with_waiting]; try (by apply same_serviced).
  - by eapply serve_serviced.
  - pose proof (same_serviced m _ _ (wait_begin_same (srv p) r)) as E. by rewrite Hb in E.
  - pose proof (same_serviced m _ _ (wait_begin_same (srv p) r)) as E. by rewrite Hb in E.
  - split; [|done]. intros Hs. pose proof (serveConn_services m env cred euid lookup group line _ Hs) as Hs'.
    rewrite Hc in Hs'. destruct Hs' as [K P M C]. by split.
Qed.

Lemma run_serviced m euid group p0 l p : run euid group p0 l p -> serviced m (srv p0) (srv p).
Proof.
  induction 1 as [|l p a p' _ [H1' H2'] Hst]; [apply refused_serviced|].
  destruct (step_serviced m _ _ _ _ _ Hst) as [H3' H4']. split; [auto|congruence].
Qed.

(** ** Who may change what *)

Lemma serve_keystore env s rt r s' resp evs : is_wait rt = false -> Api.serve env s rt r = Some (s', resp, evs) ->
  Api.keystore s' = Api.keystore s \/ (rt = Api.RCliKeysLoad /\ exists resp', Api.handleCLIKeysLoad env s r = (s', resp')).
Proof.
  intros Hw. unfold Api.serve. cbv zeta.
  destruct rt; try discriminate Hw; unfold Api.guarded, Api.plain;
    repeat match goal with |- context [match ?c with Some resp0 => Some (s, resp0, []) | None => _ end] => destruct c end;
    try (intros [= <- <- <-]; by left).
  - pose proof (handleMTLSEnroll_quiet env s r) as [_ E]. destruct (Api.handleMTLSEnroll env s r). intros [= <- <- <-]. by left.
  - intros [= E]. pose proof (same_keystore _ _ (handleSign_same env s r)) as Hs. rewrite E in Hs. by left.
  - pose proof (handleMobileEnroll_quiet env s r) as [_ E]. destruct (Api.handleMobileEnroll env s r). intros [= <- <- <-]. by left.
  - pose proof (handleMobileDelete_quiet s r) as [_ E]. destruct (Api.handleMobileDeleteDevice s r). intros [= <- <- <-]. by left.
  - pose proof (same_keystore _ _ (handleMobileApprove_same env s r)) as E. destruct (Api.handleMobileApprove env s r). intros [= <- <- <-]. by left.
  - pose proof (handleMobilePending_quiet env s r) as [_ E]. destruct (Api.handleMobileKeysPending env s r). intros [= <- <- <-]. by left.
  - pose proof (handleCLIEnroll_quiet env s r) as [_ E]. destruct (Api.handleCLIEnroll env s r). intros [= <- <- <-]. by left.
  - pose proof (handleCLIDelete_quiet s r) as [_ E]. destruct (Api.handleCLIDeleteDevice s r). intros [= <- <- <-]. by left.
  - destruct (Api.handleCLIKeysLoad env s r) as [s1 r1]. intros [= <- <- <-]. right. split; [done|]. by exists r1.
Qed.

(** The peer of a control connection is root, the proxy's own user or in the group. *)
Definition operator (euid : Z) (group : string) (a : action) : Prop :=
  exists env cred lookup line, a = AControl env cred lookup line /\ Ctl.peerAllowed cred euid lookup group = Ok tt.

(** A device that is enrolled loads a key remotely. *)
Definition remote_loader (p : Process) (a : action) : Prop :=
  exists env r cert dev, a = AHttp env Api.RCliKeysLoad r /\ peer r = Some cert /\
    Role.adminClientAllowed (Cfg.AdminClientOU (Api.cfg (srv p))) cert = false /\
    Role.cliClientAllowed (Cfg.CliClientOU (Api.cfg (srv p))) cert = true /\
    Cli.GetByFingerprint (Api.cli (srv p)) (CertFingerprint cert) = Some dev /\
    Cfg.SignerMode (Api.cfg (srv p)) = Appr.SignerModeLocalKey.

(** A request over an administrator's certificate. *)
Definition administrator (p : Process) (a : action) : Prop :=
  exists env rt r cert, a = AHttp env rt r /\ peer r = Some cert /\
    Role.adminClientAllowed (Cfg.AdminClientOU (Api.cfg (srv p))) cert = true.

Lemma serveConn_refused env cred euid lookup group line c :
  Ctl.peerAllowed cred euid lookup group = Ok tt \/ Ctl.serveConn env cred euid lookup group line c = (c, None).
Proof. unfold Ctl.serveConn. destruct (Ctl.peerAllowed _ _ _ _) as [[]|]; auto. Qed.

(** C14: Whatever happens in the process, its secrets and its registries change only at the hands of those
    they are entrusted to: the keystore only through the control socket, by root, the proxy's own user
    or its group, or through the key-load route over the certificate of an enrolled command line
    device; the device registries only through that socket or over an administrator's certificate.
    No request, approval, poll, timer or sweep changes the configuration. *)
Theorem process_authority euid group a p p' : step euid group a p p' ->
  (Api.keystore (srv p') <> Api.keystore (srv p) -> operator euid group a \/ remote_loader p a) /\
  (Api.mobile (srv p') <> Api.mobile (srv p) \/ Api.cli (srv p') <> Api.cli (srv p) -> operator euid group a \/ administrator p a) /\
  Api.cfg (srv p') = Api.cfg (srv p).
Proof.
  intros Hst. split_and!; [| |exact (proj2 (step_serviced Ks.ModeLocalKey _ _ _ _ _ Hst))];
    destruct Hst as [p env rt r s' resp evs Hw [_ Hf] Hsv|p r s' ch _ Hb|p r s' resp _ Hb|p i id ch w st res Hi He|p i id now clock Hi
      |p pl http clk r pl' st evs res Hpl Hp|p http n t n' req res Hn Hnt|p id|p now l order Hl Ho|p env cred lookup line c resp Hc];
    cbn [srv with_srv with_store with_waiting]; intros Hx; try (by destruct Hx);
    try (destruct (wait_begin_same (srv p) r) as [E1 _ E2 E3 _]; rewrite Hb in E1, E2, E3; cbn [fst] in *; tauto).
  - right. destruct (serve_keystore _ _ _ _ _ _ _ Hw Hsv) as [E|[-> [resp' E]]]; [done|].
    apply Api.handleCLIKeysLoad_changes in E as (cert & dev & c & parsed & rp & blob & E1 & E2 & E3 & E4 & E5 & _); [|done].
    by exists env, r, cert, dev.
  - left. destruct (serveConn_refused env cred euid lookup group line (control_view (srv p))) as [Ha|E]; [by exists env, cred, lookup, line|].
    rewrite Hc in E. injection E as -> _. done.
  - right. destruct (Api.registries_admin_only _ _ _ _ _ _ _ Hsv) as [Ha _]. destruct (Ha Hx) as (cert & E1 & E2). by exists env, rt, r, cert.
  - left. destruct (serveConn_refused env cred euid lookup group line (control_view (srv p))) as [Ha|E]; [by exists env, cred, lookup, line|].
    rewrite Hc in E. injection E as -> _. by destruct Hx.
Qed.

(** ** From the start *)

(** What a started proxy, whose user is [euid], does and the state it is then in. *)
Definition reached (x : Serve.Running) (euid : Z) (l : trace) (p : Process) : Prop := run euid (Serve.ctrlGroup x) (started x) l p.

Section started.
Context {N : Type} (env : Environ) (sys : Sys N) (bind_fails : string -> bool) `{ViperLib, HttpClient.TlsFileLib}.
Context (socketPath : string) (w w' : World N) (x : Serve.Running) (euid : Z).
Context (start : Serve.runServe env sys bind_fails socketPath w = (w', Ok x)).

Lemma started_sim : exists y, sim (started x) [] (started x) y.
Proof.
  destruct (Serve.runServe_ok _ _ _ _ _ _ _ start) as (_ & (csr & tg & Es & _) & _). set (cfg := Api.cfg _) in Es.
  exists (Sys.mkSys (Serve.approval_store cfg) (Ks.NewWithMode (Serve.keystore_mode cfg)) [] [] [] [] [] [] ∅).
  assert (Hst : Api.store (srv (started x)) = Serve.approval_store cfg) by (unfold started; cbn [srv]; by rewrite Es).
  split; cbn [Sys.st Sys.ks Sys.waits Sys.used Sys.calls started waiting bypassing ids poller]; try done.
  - eexists. split; [|apply rtc_refl]. unfold Serve.approval_store. destruct (_ =s _).
    + by exists (Cfg.ApprovalTimeout cfg), cfg, false, true, true, (Serve.keystore_mode cfg).
    + by exists (Cfg.ApprovalTimeout cfg), cfg, true, false, true, (Serve.keystore_mode cfg).
  - unfold started. cbn [srv]. by rewrite Es.
  - set_solver.
  - rewrite Hst. unfold Serve.approval_store. by destruct (_ =s _).
  - by intros id ?%not_elem_of_nil.
  - unfold poller_kept, started. cbn [poller]. destruct (Serve.poller x) as [pl|] eqn:Epl; [|done]. exists pl. by split.
Qed.

Lemma started_services : services_ok (Serve.keystore_mode (Api.cfg (srv (started x)))) (srv (started x)).
Proof.
  destruct (Serve.runServe_ok _ _ _ _ _ _ _ start) as (_ & (csr & tg & Es & _) & _). set (cfg := Api.cfg _) in Es.
  change (Api.cfg (srv (started x))) with cfg. unfold started. cbn [srv]. rewrite Es. split; apply rtc_refl.
Qed.

(** C13: Everything the proxy does to its approval store is within the interleavings of [ApprovalSys]: in
    every state a started proxy reaches, by requests, waits, polls, timers, sweeps and control
    connections in any order, the approval store, the keystore and the waiting requests are those of a
    reachable state of that system, and each approval recorded there goes back to something that
    happened in this run: a request signed by an enrolled device, a press in the configured chat that
    the poller received, or a signing request in the development environment. *)
Theorem process_refines_approvals l p : reached x euid l p ->
  exists y, Sys.reachable y /\ Sys.st y = Api.store (srv p) /\ Sys.ks y = Api.keystore (srv p) /\ Sys.waits y = waiting p /\
    forall id who, (id, who) ∈ Sys.calls y -> approved_by (started x) l id who.
Proof.
  intros Hr. destruct started_sim as [y0 H0']. destruct (run_sim _ _ _ _ _ _ H0' Hr) as [y []]. by exists y.
Qed.

(** C12: No credential leaves the proxy without an approval: whatever a request that waited gets was
    granted for its own transaction by an approval of this run: a request over the approval route that
    an enrolled device signed, a press in the configured chat among the updates the poller received,
    or, in development, the signing request itself; and it ends when that approval said.  Or it comes
    from a lease, and then from one that such a request or press left for the same client, user,
    addresses and keys. *)
Theorem process_credentials `{!Sign.CertIssuerLaws Ks.Keystore} l p i id r : reached x euid l p -> waiting p !! i = Some (Sys.WDone id (Ok r)) ->
  exists y, Sys.reachable y /\ Sys.st y = Api.store (srv p) /\ Sys.waits y = waiting p /\ id ∉ Sys.denied y /\
    ((exists t who, Sys.GApproved id t (Appr.ExpiresAt r) who r ∈ Sys.grants y /\ approved_by (started x) l id who) \/
     (exists lookup who id0 t0 r0, Sys.GLease id lookup r ∈ Sys.grants y /\ Sys.GApproved id0 t0 (Appr.LeaseExpiresAt r) who r0 ∈ Sys.grants y /\
        approved_by (started x) l id0 who /\ who <> "" /\ Appr.tx_lookup t0 = lookup)).
Proof.
  intros Hr Hw. destruct started_sim as [y0 H0']. destruct (run_sim _ _ _ _ _ _ H0' Hr) as [y Hy]. exists y.
  pose proof Hy as [R S _ W _ C _ _ _]. rewrite <- W in Hw.
  destruct (Sys.waiter_provenance y i id r R Hw) as (Hd & [(t & until & who & Hg & Hc & <-)|(lookup & who & id0 & t0 & r0 & Hg & Hg0 & Hc & Hk & E)]);
    (split_and!; [done..|]).
  - left. exists t, who. auto.
  - right. exists lookup, who, id0, t0, r0. split_and!; auto. apply Hk.
Qed.

(** C15: Every invariant holds in the running proxy: in every state a started proxy reaches the
    configuration is the one it loaded, the keystore is in the mode it asks for and well formed, and
    so are the upload queue, both device registries and the approval store. *)
Theorem process_invariant l p : reached x euid l p ->
  let s := srv p in
  Load.Load env w = (w, Ok (Api.cfg s)) /\ Ks.mode (Api.keystore s) = Serve.keystore_mode (Api.cfg s) /\
  Ks.wf (Api.keystore s) /\ Pend.wf (Api.pending s) /\ Mob.wf (Api.mobile s) /\ Cli.wf (Api.cli s) /\ Appr.store_wf (Api.store s).
Proof.
  intros Hr s. destruct (Serve.runServe_ok _ _ _ _ _ _ _ start) as (HL & _).
  destruct (run_serviced (Serve.keystore_mode (Api.cfg (srv (started x)))) _ _ _ _ _ Hr) as [Hs Hc].
  destruct (Hs started_services) as [Hk Hp Hm Hcl]. destruct started_sim as [y0 H0'].
  destruct (run_sim _ _ _ _ _ _ H0' Hr) as [y Hy]. unfold s. rewrite Hc. split; [done|].
  split; [by eapply Ks.reachable_mode|]. split; [by eapply Ks.ks_reachable_wf|]. split; [by apply Pend.pending_reachable_wf|].
  split; [by apply Mob.mobile_reachable_wf|]. split; [by apply Cli.cli_reachable_wf|].
  rewrite <- (sim_st _ _ _ _ Hy). apply (Sys.reachable_store y), (sim_reach _ _ _ _ Hy).
Qed.
End started.
End process.

(** ** A run: a key is loaded, a signature asked for, approved in the chat and received *)
Module ProcDemo.
Import Demo Bind.WireDemo Csr.CsrDemo SystemdDemo Pki.PkiDemo YamlDemo Api.ApiDemo.
Import Pki.
#[local] Existing Instances ProxySetup.ProxySetupDemo.demo_unicode AgentSetup.SetupDemo.demo_files Sign.demo_cert Sign.LocalCA Sign.LocalCA_laws.

#[local] Instance demo_control : Ctl.CtlJson := {|
  Ctl.json_keyLoad _ := Some (Ctl.mkKeyLoad "/key" "pw" "web");
  Ctl.json_keyRemove b := Some (string_of b);
  Ctl.json_keyConfirm b := None;
  Ctl.json_keyReject b := Some (string_of b);
  Ctl.json_mobileEnroll _ := None;
  Ctl.json_mobileDelete b := Some (string_of b);
  Ctl.json_cliEnroll _ := None;
  Ctl.json_cliDelete b := Some (string_of b);
  Ctl.json_request _ := Some (Ctl.mkRequest "key.load" "1" [])
|}.

Definition options : ProxySetup.Options :=
  ProxySetup.ProxySetupDemo.options {{ ProxySetup.SignerMode := "local-key"; ProxySetup.TelegramChatID := "42" }}.
Definition ready : World accounts := (ProxySetup.Run root_host demo_sys ProxySetup.ProxySetupDemo.fresh options disk).1.
Definition listens : string -> bool := fun _ => false.

Definition control_env : Ctl.Env := Ctl.mkEnv 5 5 5 5 5 "9" None (fun _ => Some Ks.demo_pem) (fun _ => true) [].
Definition press : Tg.updates := Tg.UResp 200 (Some (true,
  [Tg.mkUpdate 1 (Some (Tg.mkCallbackQuery "cq" "approve:tx_1:300" 42 (Some (Tg.mkMessage 9 42))))])).
Definition answers : Tg.request -> Tg.response := fun _ => Tg.Resp 200 (Some true).

Definition demo_actions : list action :=
  [AControl control_env (Some (0, 0)) (fun _ => None) (Some []);
   AHttp env Api.RSign (over cli_cert "");
   AWait (over cli_cert "tx_1");
   APoll answers clock press;
   AReturn 0 Api.WakeResult].

Definition demo_end (x : Serve.Running) : option Process := play 0 (Serve.ctrlGroup x) demo_actions (started x).
Definition received (p : Process) : bool :=
  match waiting p !! 0%nat with Some (Sys.WDone id (Ok _)) => id =s "tx_1" | _ => false end.
Definition demo_works : bool :=
  match (Serve.runServe root_host demo_sys listens "" ready).2 with
  | Ok x => match demo_end x with Some p => received p | None => false end
  | Err _ => false
  end.

Lemma demo_run : exists w' x l p r, Serve.runServe root_host demo_sys listens "" ready = (w', Ok x) /\
  reached x 0 l p /\ l.*2 = demo_actions /\ waiting p !! 0%nat = Some (Sys.WDone "tx_1" (Ok r)).
Proof.
  assert (Hw : demo_works = true) by (vm_compute; reflexivity). unfold demo_works in Hw.
  destruct (Serve.runServe root_host demo_sys listens "" ready) as [w' [x|e]]; [|done]. cbn [snd] in Hw.
  destruct (demo_end x) as [p|] eqn:Ep; [|done]. unfold received in Hw.
  destruct (waiting p !! 0%nat) as [[| |id [r|e]]|] eqn:Er; try done. str_prop. subst id.
  destruct (play_run 0 (Serve.ctrlGroup x) (started x) demo_actions [] (started x) p (run_start _ _ _) Ep) as (l & Hl & El).
  exists w', x, l, p, r. by split_and!.
Qed.

Lemma process_refines_approvals_witness : exists (x : Serve.Running) l p y,
  reached x 0 l p /\ l.*2 = demo_actions /\ Sys.reachable y /\ Sys.waits y = waiting p /\ length (Sys.waits y) <> 0%nat.
Proof.
  destruct demo_run as (w' & x & l & p & r & Hs & Hp & El & Hw).
  destruct (process_refines_approvals root_host demo_sys listens "" ready w' x 0 Hs l p Hp) as (y & Hy & _ & _ & Ew & _).
  exists x, l, p, y. split; [exact Hp|]. split; [exact El|]. split; [exact Hy|]. split; [exact Ew|]. rewrite Ew. intros E.
  apply nil_length_inv in E. rewrite E in Hw. discriminate Hw.
Defined.

Lemma process_credentials_witness : exists (x : Serve.Running) l p r y,
  reached x 0 l p /\ l.*2 = demo_actions /\ waiting p !! 0%nat = Some (Sys.WDone "tx_1" (Ok r)) /\ Sys.reachable y /\ "tx_1" ∉ Sys.denied y.
Proof.
  destruct demo_run as (w' & x & l & p & r & Hs & Hp & El & Hw).
  destruct (process_credentials root_host demo_sys listens "" ready w' x 0 Hs l p 0%nat "tx_1" r Hp Hw) as (y & Hy & _ & _ & Hd & _).
  exists x, l, p, r, y. split; [exact Hp|]. split; [exact El|]. split; [exact Hw|]. split; [exact Hy|exact Hd].
Defined.

Lemma process_invariant_witness : exists (x : Serve.Running) l p,
  reached x 0 l p /\ Ks.wf (Api.keystore (srv p)) /\ Appr.store_wf (Api.store (srv p)).
Proof.
  destruct demo_run as (w' & x & l & p & r & Hs & Hp & El & Hw).
  destruct (process_invariant root_host demo_sys listens "" ready w' x 0 Hs l p Hp) as (_ & _ & Hk & _ & _ & _ & Hst).
  exists x, l, p. split; [exact Hp|]. split; [exact Hk|exact Hst].
Defined.

(** The sealed proxy gets its key over the control socket. *)
Definition sealed_process : Process := mkProcess sealed None [] [] ∅.
Definition load_key : action := AControl control_env (Some (0, 0)) (fun _ => None) (Some []).
Definition loaded_process : Process :=
  with_srv sealed_process (control_put sealed (Ctl.serveConn control_env (Some (0, 0)) 1000 (fun _ => None) "" (Some []) (control_view sealed)).1).

Lemma process_authority_witness :
  step 1000 "" load_key sealed_process loaded_process /\ operator 1000 "" load_key.
Proof.
  assert (Hst : step 1000 "" load_key sealed_process loaded_process) by (apply perform_step; reflexivity).
  split; [exact Hst|].
  destruct (process_authority 1000 "" load_key sealed_process loaded_process Hst) as [Hk _].
  destruct Hk as [Ho|(e & r & c & d & Ha & _)]; [|exact Ho|discriminate Ha].
  intros E. apply (f_equal Ks.Available) in E. vm_compute in E. discriminate E.
Defined.
End ProcDemo.
End Proc.
